(* ===== verification/_CoqProject ===== *)
-Q . S2P
Prelude.v
GoStrings.v
GoFloat.v
GoNet.v
GoSlices.v
GoPath.v
GoHeap.v
ApiTypes.v
DeepTypes.v
DeepCopy.v
Samples.v
Kube.v
MemCluster.v
Conditions.v
ApiMethods.v
Reconciler.v
Matching.v
Hardware.v
ScaleUp.v
ProvPorts.v
ProvWebhook.v
SetWebhook.v
BmhProvision.v
SetController.v
Lifecycle.v
Progress.v
System.v
Agent.v
ProvWorkloads.v
AgentMain.v
ProvController.v
ProvReady.v
ProvProgress.v
EndToEnd.v
Main.v
