(* ===== verification/Prelude.v ===== *)
(** * openstack-baremetal-operator, verified

    The operator turns two custom resources into provisioned bare metal. An
    OpenStackBaremetalSet asks for a number of computes; its reconciler picks
    Metal3 BareMetalHosts for them, writes their cloud-init secrets, points them
    at an image and waits until Metal3 has provisioned them. The image comes from
    an OpenStackProvisionServer, which has a reconciler of its own: it serves the
    image from a Deployment on the provisioning network, with a job that finds
    the checksum of the image and an agent that reports the address of the
    interface. Webhooks admit both resources.

    ** What models what

    Everything is executable. A Go function is a definition of the same name; a
    function that can fail returns an [outcome] (a value, an error or a panic); a
    function with state is a call of type [st], which keeps the state it reached
    when it fails. This file has those types, their notations in [go_scope], the
    rules to reason about calls and the hint databases.

    - [GoStrings], [GoFloat], [GoNet], [GoSlices], [GoPath]: the parts of the Go
      standard library the operator uses (strings, regexp, fmt; binary64; IP
      addresses; slices that share arrays; paths).
    - [GoHeap], [DeepTypes], [DeepCopy]: the memory under the values: cells and
      pointers, the structs of the API with their references, and
      api/v1beta1/zz_generated.deepcopy.go.
    - [ApiTypes], [Samples]: the types of api/v1beta1/*_types.go and of the
      Kubernetes and Metal3 objects, with concrete objects for the examples.
    - [Kube], [MemCluster]: the cluster as classes of operations and laws, and an
      in-memory cluster that satisfies them.
    - [Conditions], [Reconciler]: api/v1beta1/conditions.go, the condition list of
      a status, and the idioms the two reconcilers share. [ApiMethods]: the methods of
      the types with value receivers, on the heap, and the registration of the kinds
      (groupversion_info.go).
    - [Matching], [Hardware], [ScaleUp]: api/v1beta1/openstackbaremetalset.go, the
      choice of hosts: backtracking over labels, hardware requirements, which
      hosts are usable and whether there are enough.
    - [ProvPorts]: api/v1beta1/openstackprovisionserver.go, the port of a server.
    - [ProvWebhook], [SetWebhook]: admission of the two kinds, in api/v1beta1 and
      in internal/webhook/v1beta1.
    - [BmhProvision]: internal/openstackbaremetalset, how a host is claimed and
      released and what its secrets contain.
    - [SetController]: internal/controller/openstackbaremetalset_controller.go.
      [Lifecycle] has the specification of its effect on the hosts as a step
      relation and the refinement; [Progress] what it achieves when calls succeed;
      [System] several sets reconciled in any order, with what others do between.
    - [Agent]: containers/agent, the address loop and the checksum job; [AgentMain]:
      the commands of the agent and the containers that start it.
    - [ProvWorkloads], [ProvController], [ProvReady], [ProvProgress]:
      internal/openstackprovisionserver, then
      internal/controller/openstackprovisionserver_controller.go, then what its
      conditions promise and what it achieves when calls succeed. [EndToEnd]: the
      image, from what the agents report to what a host boots.
    - [Main]: cmd/main.go.

    A reconciliation of a set threads the pair of the cluster and the instance in
    memory: [SetController.Reconcile] reads the instance, runs the handler and
    patches what the handler left of the instance, panics included, as the
    deferred function of the code does. It calls [ScaleUp] to find hosts and
    [BmhProvision] to claim and release them; the webhook of sets calls the same
    [ScaleUp] before a set is admitted. It creates the provision server, whose
    port comes from [ProvPorts], checked again by [ProvWebhook]. The two reconcilers and
    the agents meet in the status of the OpenStackProvisionServer: the agents write the
    address and the checksum file, the reconciler of servers makes URLs of them, the
    reconciler of sets waits for the URLs and gives them to the hosts.

    The components work on values. A struct that is assigned or passed is a value in Go
    too; where two references could reach the same memory the model has the memory:
    [GoSlices] in [Main], the maps that the search of [Matching] fills and undoes as its
    state, and [GoHeap] for the deep copies and for the value receivers.

    ** What is assumed

    Code outside the repository is a class of operations, and what its
    documentation says is a class of laws. [Client], [SetClient], [LibCommon]:
    the calls of controller-runtime and lib-common; [ClientLaws],
    [LibCommonLaws]: their effect when they succeed and nobody interferes;
    [HostFrame], [SetFrame]: what they leave alone however they end; [Reliable]:
    a cluster on which calls succeed; [SystemFrame], [Dependable]: one that may refuse
    calls but does not lose answers; [LabelKeys]: the owner labels are not spelt like
    the label of a compute. [ConditionLib], [ConditionLaws]: package
    condition. [ProvClient], [ProvLib] and their laws: the calls of the provision
    server reconciler; [Serving]: calls succeed and the workloads have done their
    work. [DynamicClient], [DynamicLaws], [KubeConfig]: the client of
    the agents. [Cobra] and [Shell]: the command line they are started with, as far as
    the containers use it. [DeepCopyLib]: the deep copies of Kubernetes types;
    [ConditionsSet]: lib-common's [Set] on the heap; [SchemeLib]: the scheme builder; each
    with its laws. [Libraries]: which calls of the start are refused. [MapOrder]: the
    order in which Go ranges over a map, any permutation that depends on nothing
    else; theorems hold for every order. [AppendGrowth]: the room [append] makes.
    [StatusObject] is the operator's own interface of an object with conditions;
    both kinds are instances. Every theorem with a hypothesis or a law is followed
    by a witness that runs the code on concrete objects, most of them in
    [MemCluster].

    ** What the theorems show

    - Choice of hosts. The backtracking search finds an assignment of distinct
      hosts exactly when one exists and undoes what it tried; a scale-up picks
      only hosts that are available, free and of sufficient hardware, and says so
      when there are not enough.
    - Claim and release. The host a compute gets has the consumer, labels, image
      and secrets the set asks for; release takes off what the set had put on,
      and a claim followed by a release gives back a pristine host, up to the
      cleaning mode the set asks for.
    - The set reconciler. However a reconciliation ends, it takes only the steps
      of [Lifecycle.set_step]: it patches only hosts that are free or its own, so
      hosts of others are spared and the status stays well formed. When calls
      succeed it claims a host for each compute and, once they are provisioned,
      reports the set ready; ready is never reported of a host that is not
      provisioned.
    - Several sets. Along any sequence of reconciliations and events no host is held
      for two computes, on a cluster that refuses calls but does not lose answers, except
      hosts that users disturb: whose consumer or labels they edit, that they create
      again while a status names them, or that they make a set name. The other hosts are
      safe whatever happens to those.
    - The provision server. Ports are free and in range, and unique among servers
      admitted one at a time, though not when admissions overlap; the deployment
      serves the image on the port; ready means that every part is, and with the parts
      there one reconciliation publishes the URLs; the agent's report follows the
      interface.
    - The agents. The containers of the Deployment and of the job start the agent's
      commands with the environment they read, and these write into the status of the
      server that the workload belongs to what its reconciler then finds there.
    - The image end to end: a host provisioned for a set on a server that is ready boots
      the image of that server, under the address its agent reported.
    - Deep copies. A copy reads as the original, and no cell is reached from both, so
      no write to the copy shows in the original.
    - Admission, the agents, the start: errors on every branch, what each rejects,
      which calls were made when one is refused, which TLS options arrive where.
    - Errors of the code, each stated as a theorem about what the code does: leaked
      secrets, a clean-up that stops early, a failed release that later takes the
      host of another set, a compute without entry that blocks the set, an
      interface that is never discovered, a port range that wraps, a condition that
      a value receiver loses, a host created again that two sets hold.

    ** Bounds and fuel

    Integers that can overflow are kept at their width ([int32] ports in
    [ProvPorts], binary64 in [GoFloat]). [ProvPorts.portLoop] has fuel for one
    round more than there are ports up to the end of the range, which suffices
    below the largest int32; at the largest int32 the wrap-around is modelled.
    The retries of the checksum job have fuel and end with [None] when it runs
    out; [Agent.checksumLoop_ends] shows that one round more than the conflicts
    the cluster answers is enough. The loop of the address agent never ends and is
    given by its round. The search of [Matching] is structural.

    ** Not modelled

    Parsing of flags, which is the libraries'. The version strings of
    internal/openstackprovisionserver/version.go, which nothing reads. Logging. The text
    of templates/, which is not Go: a rendered template is the list of parameters
    it is given. The functional tests. Reconciliations that overlap: controllers run
    one at a time by default, and [System] lets anything happen between two of them,
    but what others do between two calls of one is covered only by the theorems that
    use no [ClientLaws]. *)

From stdpp Require Export base tactics list gmap strings sorting pretty.
From Stdlib Require Import Lia ZArith.

#[export] Set Warnings "-clear-no-such-hyp,-register-all".

(** ** Go values shared by every component *)

(** A Go [error]: what the operator observes of one is whether
    [k8s_errors.IsNotFound] holds of it and its [Error()] text. *)
Record error := mkError {
  err_is_not_found : bool;
  err_text : string;
}.

Definition Errorf (msg : string) : error := mkError false msg.

#[export] Instance error_eq_dec : EqDecision error.
Proof. solve_decision. Defined.

(** What a Go call that returns [(T, error)] may do: return a value, return a
    non-nil error, or panic. *)
Inductive outcome (A : Type) : Type :=
| Ok (a : A)
| Err (e : error)
| Panic (msg : string).
Arguments Ok {A} a.
Arguments Err {A} e.
Arguments Panic {A} msg.

#[export] Instance outcome_eq_dec `{EqDecision A} : EqDecision (outcome A).
Proof. solve_decision. Defined.

Definition outcome_bind {A B} (f : A → outcome B) (c : outcome A) : outcome B :=
  match c with
  | Ok a => f a
  | Err e => Err e
  | Panic m => Panic m
  end.

(** ** Stateful calls: the state reached is kept on an error and on a panic,
    as the heap and the cluster are in Go. *)
Definition st (S A : Type) : Type := S → outcome A * S.

Definition st_ret {S A} (a : A) : st S A := λ s, (Ok a, s).
Definition st_err {S A} (e : error) : st S A := λ s, (Err e, s).
Definition st_panic {S A} (m : string) : st S A := λ s, (Panic m, s).
Definition st_lift {S A} (o : outcome A) : st S A := λ s, (o, s).
Definition st_get {S} : st S S := λ s, (Ok s, s).
Definition st_gets {S A} (f : S → A) : st S A := λ s, (Ok (f s), s).
Definition st_modify {S} (f : S → S) : st S unit := λ s, (Ok tt, f s).
Definition st_bind {S A B} (c : st S A) (f : A → st S B) : st S B := λ s,
  match c s with
  | (Ok a, s') => f a s'
  | (Err e, s') => (Err e, s')
  | (Panic m, s') => (Panic m, s')
  end.
(** [err := c(); if err != nil { h(err) }]: the handler sees the error, a panic
    passes through. *)
Definition st_catch {S A} (c : st S A) (h : error → st S A) : st S A := λ s,
  match c s with
  | (Ok a, s') => (Ok a, s')
  | (Err e, s') => h e s'
  | (Panic m, s') => (Panic m, s')
  end.
(** [v, err := c()] with [err] kept as a value. *)
Definition st_try {S A} (c : st S A) : st S (A + error) := λ s,
  match c s with
  | (Ok a, s') => (Ok (inl a), s')
  | (Err e, s') => (Ok (inr e), s')
  | (Panic m, s') => (Panic m, s')
  end.
(** A call on a component of the state. *)
Definition st_zoom {S T A} (get : S → T) (put : T → S → S) (c : st T A) : st S A := λ s,
  let '(o, t) := c (get s) in (o, put t s).
(** [for _, x := range l { body(x) }] with errors leaving the loop. *)
Fixpoint st_iter {S A} (body : A → st S unit) (l : list A) : st S unit :=
  match l with
  | [] => st_ret tt
  | x :: l' => st_bind (body x) (λ _, st_iter body l')
  end.

Declare Scope go_scope.
Delimit Scope go_scope with go.
Open Scope go_scope.
Notation "'let!' x ':=' c 'in' k" := (st_bind c (λ x, k))
  (at level 10, x pattern, c at level 100, k at level 200) : go_scope.
Notation "'do!' c 'then' k" := (st_bind c (λ _, k))
  (at level 10, c at level 100, k at level 200) : go_scope.
Notation "'let?' x ':=' c 'in' k" := (outcome_bind (λ x, k) c)
  (at level 10, x pattern, c at level 100, k at level 200) : go_scope.

(** ** The order of [range] over a Go map *)

(** [range m] visits every entry of [m] once, in an unspecified order that may
    differ from one loop to the next: the first argument names the loop. Every
    theorem that mentions [range] holds for every such order. *)
Class MapOrder := {
  range : ∀ {K V} `{Countable K}, nat → gmap K V → list (K * V);
  range_perm : ∀ {K V} `{Countable K} (n : nat) (m : gmap K V),
    range n m ≡ₚ map_to_list m;
}.

(** ** Automation *)

Create HintDb go.
Create Rewrite HintDb go.

Ltac destruct_outcome :=
  repeat match goal with
  | H : context [match ?c with Ok _ => _ | Err _ => _ | Panic _ => _ end] |- _ =>
      destruct c eqn:?; simplify_eq/=
  | |- context [match ?c with Ok _ => _ | Err _ => _ | Panic _ => _ end] =>
      destruct c eqn:?; simplify_eq/=
  end.

(** A decidable closed proposition, by running its decision procedure. *)
Ltac by_compute := refine (bool_decide_eq_true_1 _ _); vm_compute; reflexivity.

(** The cases of being in a list that is written out. *)
Ltac list_cases :=
  repeat match goal with
  | H : _ ∈ _ :: _ |- _ => apply elem_of_cons in H as [->|H]
  | H : _ ∈ [] |- _ => by apply not_elem_of_nil in H
  end.

(** A closed equation, by running both sides. *)
Ltac vm_refl := match goal with |- _ = ?b => vm_cast_no_check (@eq_refl _ b) end.

(** ** Generic lemmas *)

(** A sequence succeeds when both its parts do. *)
Lemma st_bind_ok {S A B} (c : st S A) (f : A → st S B) s b s' :
  st_bind c f s = (Ok b, s') ↔ ∃ a s1, c s = (Ok a, s1) ∧ f a s1 = (Ok b, s').
Proof. unfold st_bind. destruct (c s) as [[a|e|m] s1]; naive_solver. Qed.

Lemma st_lift_inv {S A} (o : outcome A) (s : S) a s' :
  st_lift o s = (Ok a, s') ↔ o = Ok a ∧ s' = s.
Proof. unfold st_lift. naive_solver. Qed.

Lemma st_ret_inv {S A} (a b : A) (s s' : S) : st_ret a s = (Ok b, s') ↔ b = a ∧ s' = s.
Proof. unfold st_ret. naive_solver. Qed.

Lemma outcome_bind_ok {A B} (f : A → outcome B) c b :
  outcome_bind f c = Ok b ↔ ∃ a, c = Ok a ∧ f a = Ok b.
Proof. destruct c; naive_solver. Qed.

Lemma Ok_inj {A} (a b : A) : Ok a = Ok b → a = b.
Proof. by intros [= ->]. Qed.

(** A run is its outcome with the two parts of the state it ends in. *)
Lemma run_outcome {A S I} (r : outcome A * (S * I)) o : r.1 = o → r = (o, (r.2.1, r.2.2)).
Proof. destruct r as [o' [w i]]. by intros <-. Qed.

Lemma string_app_assoc (a b c : string) : (a +:+ b) +:+ c = a +:+ (b +:+ c).
Proof.
  induction a as [|x a IH]; [done|]. change (String x ((a +:+ b) +:+ c) = String x (a +:+ (b +:+ c))).
  by rewrite IH.
Qed.

(** *** Hoare triples *)

(** From a state that satisfies [P], the call ends as [Q] says. *)
Definition triple {S A} (P : S → Prop) (c : st S A) (Q : outcome A → S → Prop) : Prop :=
  ∀ s, P s → Q (c s).1 (c s).2.

(** What the rest of a sequence starts from, or how the sequence ends. *)
Definition post_bind {S A B} (R : A → S → Prop) (Q : outcome B → S → Prop) (o : outcome A) (s : S) : Prop :=
  match o with
  | Ok a => R a s
  | Err e => Q (Err e) s
  | Panic m => Q (Panic m) s
  end.

Lemma triple_bind {S A B} (P : S → Prop) (c : st S A) (f : A → st S B) R Q :
  triple P c (post_bind R Q) → (∀ a, triple (R a) (f a) Q) → triple P (st_bind c f) Q.
Proof.
  intros Hc Hf s Hs. specialize (Hc s Hs). unfold st_bind, post_bind in *.
  destruct (c s) as [[a|e|m] s1]; simpl in *; [|done..]. exact (Hf a s1 Hc).
Qed.

Lemma triple_ret {S A} (P : S → Prop) (a : A) (Q : outcome A → S → Prop) :
  (∀ s, P s → Q (Ok a) s) → triple P (st_ret a) Q.
Proof. intros HQ s Hs. by apply HQ. Qed.

Lemma triple_err {S A} (P : S → Prop) e (Q : outcome A → S → Prop) :
  (∀ s, P s → Q (Err e) s) → triple P (st_err e) Q.
Proof. intros HQ s Hs. by apply HQ. Qed.

Lemma triple_gets {S A} (P : S → Prop) (f : S → A) (Q : outcome A → S → Prop) :
  (∀ s, P s → Q (Ok (f s)) s) → triple P (st_gets f) Q.
Proof. intros HQ s Hs. by apply HQ. Qed.

Lemma triple_modify {S} (P : S → Prop) (f : S → S) (Q : outcome unit → S → Prop) :
  (∀ s, P s → Q (Ok tt) (f s)) → triple P (st_modify f) Q.
Proof. intros HQ s Hs. by apply HQ. Qed.

Lemma triple_lift {S A} (P : S → Prop) (o : outcome A) (Q : outcome A → S → Prop) :
  (∀ s, P s → Q o s) → triple P (st_lift o) Q.
Proof. intros HQ s Hs. by apply HQ. Qed.

Lemma triple_catch {S A} (P : S → Prop) (c : st S A) h (Q : outcome A → S → Prop) R :
  triple P c (λ o s, match o with Err e => R e s | _ => Q o s end) →
  (∀ e, triple (R e) (h e) Q) → triple P (st_catch c h) Q.
Proof.
  intros Hc Hh s Hs. specialize (Hc s Hs). unfold st_catch.
  destruct (c s) as [[a|e|m] s1]; simpl in *; [done| |done]. by apply Hh.
Qed.

Lemma triple_try {S A} (P : S → Prop) (c : st S A) (Q : outcome (A + error) → S → Prop) :
  triple P c (λ o s, match o with Ok a => Q (Ok (inl a)) s | Err e => Q (Ok (inr e)) s
                     | Panic m => Q (Panic m) s end) →
  triple P (st_try c) Q.
Proof.
  intros Hc s Hs. specialize (Hc s Hs). unfold st_try. by destruct (c s) as [[a|e|m] s1].
Qed.

Lemma triple_conseq {S A} (P P' : S → Prop) (c : st S A) (Q Q' : outcome A → S → Prop) :
  triple P' c Q' → (∀ s, P s → P' s) → (∀ o s, Q' o s → Q o s) → triple P c Q.
Proof. intros Hc HP HQ s Hs. apply HQ, Hc, HP, Hs. Qed.

(** A loop keeps what every round keeps. *)
Lemma triple_iter {S A} (I : S → Prop) (body : A → st S unit) (Q : outcome unit → S → Prop) l :
  (∀ x, triple I (body x) (post_bind (λ _, I) Q)) → (∀ s, I s → Q (Ok tt) s) →
  triple I (st_iter body l) Q.
Proof.
  intros Hb HQ. induction l as [|x l IH]; simpl; [by apply triple_ret|].
  eapply triple_bind; [apply Hb|]. intros u. exact IH.
Qed.

(** *** Calls that keep a part of the state *)

Class Keeps {S A B} (f : S → B) (c : st S A) : Prop := kept : ∀ s, f (c s).2 = f s.

Section keeps.
Context {S B : Type} (f : S → B).

#[export] Instance keeps_ret {A} (a : A) : Keeps f (st_ret a).
Proof. done. Qed.
#[export] Instance keeps_err {A} e : Keeps f (st_err (A := A) e).
Proof. done. Qed.
#[export] Instance keeps_panic {A} m : Keeps f (st_panic (A := A) m).
Proof. done. Qed.
#[export] Instance keeps_lift {A} (o : outcome A) : Keeps f (st_lift o).
Proof. done. Qed.
#[export] Instance keeps_gets {A} (g : S → A) : Keeps f (st_gets g).
Proof. done. Qed.
#[export] Instance keeps_bind {A C} (c : st S A) (k : A → st S C) :
  Keeps f c → (∀ a, Keeps f (k a)) → Keeps f (st_bind c k).
Proof.
  intros Hc Hk s. unfold st_bind. specialize (Hc s). destruct (c s) as [[a|e|m] s1]; simpl in *; [|done..].
  by rewrite (Hk a s1).
Qed.
#[export] Instance keeps_catch {A} (c : st S A) h :
  Keeps f c → (∀ e, Keeps f (h e)) → Keeps f (st_catch c h).
Proof.
  intros Hc Hh s. unfold st_catch. specialize (Hc s). destruct (c s) as [[a|e|m] s1]; simpl in *; [done| |done].
  by rewrite (Hh e s1).
Qed.
#[export] Instance keeps_try {A} (c : st S A) : Keeps f c → Keeps f (st_try c).
Proof. intros Hc s. unfold st_try. specialize (Hc s). by destruct (c s) as [[a|e|m] s1]. Qed.
#[export] Instance keeps_if {A} (b : bool) (c d : st S A) : Keeps f c → Keeps f d → Keeps f (if b then c else d).
Proof. by destruct b. Qed.
#[export] Instance keeps_option {A O} (o : option O) (c : O → st S A) (d : st S A) :
  (∀ x, Keeps f (c x)) → Keeps f d → Keeps f (match o with Some x => c x | None => d end).
Proof. by destruct o. Qed.
#[export] Instance keeps_iter {A} (k : A → st S unit) l : (∀ a, Keeps f (k a)) → Keeps f (st_iter k l).
Proof. intros Hk. induction l; simpl; apply _. Qed.

(** A call that keeps a part of the state, between others. *)
Lemma triple_keeps {A} (P : B → Prop) (c : st S A) :
  Keeps f c → triple (λ s, P (f s)) c (λ _ s, P (f s)).
Proof. intros Hk s Hs. by rewrite (Hk s). Qed.

End keeps.

(** Calls that end in an error at worst. *)
Class NoPanic {S A} (c : st S A) : Prop := no_panic : ∀ s m, (c s).1 ≠ Panic m.

#[export] Instance no_panic_gets {S A} (f : S → A) : NoPanic (st_gets f).
Proof. by intros s m. Qed.

#[export] Instance no_panic_ret {S A} (a : A) : NoPanic (st_ret (S := S) a).
Proof. by intros s m. Qed.
#[export] Instance no_panic_if {S A} (b : bool) (c d : st S A) : NoPanic c → NoPanic d → NoPanic (if b then c else d).
Proof. by destruct b. Qed.

(** Calls that keep an invariant of the state, and end in an error at worst. *)
Class Safe {S A} (P : S → Prop) (c : st S A) : Prop :=
  safe : triple P c (λ o s, P s ∧ ∀ m, o ≠ Panic m).

Section safe.
Context {S : Type} (P : S → Prop).

#[export] Instance safe_ret {A} (a : A) : Safe P (st_ret a).
Proof. by intros s Hs. Qed.
#[export] Instance safe_err {A} e : Safe P (st_err (A := A) e).
Proof. by intros s Hs. Qed.
#[export] Instance safe_gets {A} (g : S → A) : Safe P (st_gets g).
Proof. by intros s Hs. Qed.
#[export] Instance safe_bind {A B} (c : st S A) (k : A → st S B) :
  Safe P c → (∀ a, Safe P (k a)) → Safe P (st_bind c k).
Proof.
  intros Hc Hk s Hs. unfold st_bind. destruct (Hc s Hs) as [Hs' Hn].
  destruct (c s) as [[a|e|m] s1]; simpl in *; [by apply Hk|done|by destruct (Hn m)].
Qed.
#[export] Instance safe_catch {A} (c : st S A) h :
  Safe P c → (∀ e, Safe P (h e)) → Safe P (st_catch c h).
Proof.
  intros Hc Hh s Hs. unfold st_catch. destruct (Hc s Hs) as [Hs' Hn].
  destruct (c s) as [[a|e|m] s1]; simpl in *; [done|by apply Hh|by destruct (Hn m)].
Qed.
#[export] Instance safe_if {A} (b : bool) (c d : st S A) : Safe P c → Safe P d → Safe P (if b then c else d).
Proof. by destruct b. Qed.
#[export] Instance safe_iter {A} (k : A → st S unit) l : (∀ a, Safe P (k a)) → Safe P (st_iter k l).
Proof. intros Hk. induction l; simpl; apply _. Qed.

End safe.

Lemma elem_of_range `{MapOrder} {K V} `{Countable K} n (m : gmap K V) k v :
  (k, v) ∈ range n m ↔ m !! k = Some v.
Proof. rewrite range_perm. apply elem_of_map_to_list. Qed.

Lemma range_length `{MapOrder} {K V} `{Countable K} n (m : gmap K V) :
  length (range n m) = size m.
Proof. rewrite range_perm. apply length_map_to_list. Qed.

Lemma range_fst_NoDup `{MapOrder} {K V} `{Countable K} n (m : gmap K V) :
  NoDup (range n m).*1.
Proof. rewrite range_perm. apply NoDup_fst_map_to_list. Qed.

Lemma elem_of_range_fst `{MapOrder} {K V} `{Countable K} n (m : gmap K V) k :
  k ∈ (range n m).*1 ↔ k ∈ dom m.
Proof.
  rewrite list_elem_of_fmap, elem_of_dom. split.
  - intros ([k' v]&->&Hkv). apply elem_of_range in Hkv. by exists v.
  - intros [v Hv]. exists (k, v). split; [done|]. by apply elem_of_range.
Qed.

(** A [range] that tests every entry decides a property of all entries. *)
Lemma forallb_range `{MapOrder} {K V} `{Countable K} n (m : gmap K V) (f : K * V → bool) :
  forallb f (range n m) = true ↔ map_Forall (λ k v, f (k, v) = true) m.
Proof.
  rewrite forallb_forall. split.
  - intros Hf k v Hkv. apply Hf. apply list_elem_of_In. by apply elem_of_range.
  - intros Hm [k v] Hin%list_elem_of_In%elem_of_range. by apply Hm.
Qed.

Lemma existsb_range `{MapOrder} {K V} `{Countable K} n (m : gmap K V) (f : K * V → bool) :
  existsb f (range n m) = true ↔ ∃ k v, m !! k = Some v ∧ f (k, v) = true.
Proof.
  rewrite existsb_exists. split.
  - intros ([k v] & Hin%list_elem_of_In%elem_of_range & ?). eauto.
  - intros (k & v & Hkv & ?). exists (k, v). split; [|done].
    apply list_elem_of_In. by apply elem_of_range.
Qed.

#[export] Hint Resolve range_fst_NoDup : go.

(** The order [map_to_list] gives is one of the orders [range] may use, and so
    is its reverse: runs of the model on concrete data use them. *)
Definition list_order : MapOrder :=
  {| range K V _ _ _ m := map_to_list m;
     range_perm K V _ _ _ m := reflexivity (map_to_list m) |}.

Definition rev_order : MapOrder :=
  {| range K V _ _ _ m := reverse (map_to_list m);
     range_perm K V _ _ _ m := reverse_Permutation (map_to_list m) |}.
