(* ===== verification/GoStrings.v ===== *)
(** * Strings of the Go standard library

    The operations of packages [strings], [fmt] and [regexp] that the operator
    calls: [strings.Contains], [strings.TrimSuffix], [strings.Replace] with a
    count of one, the [%v] rendering of a [map[string]string], and regular
    expressions with their match decided by derivatives. *)

From S2P Require Import Prelude.
From Stdlib Require Import Ascii.

(** ** Package strings *)

Definition HasPrefix (s pre : string) : bool := String.prefix pre s.

(** A double quote. *)
Definition dquote : string := String (ascii_of_nat 34) "".

(** [strings.Contains(s, substr)] *)
Fixpoint Contains (s substr : string) : bool :=
  HasPrefix s substr ||
  match s with
  | EmptyString => false
  | String _ s' => Contains s' substr
  end.

(** [strings.TrimSuffix(s, suffix)] *)
Fixpoint TrimSuffix (s suffix : string) : string :=
  if String.eqb s suffix then ""
  else match s with
       | EmptyString => ""
       | String c s' => String c (TrimSuffix s' suffix)
       end.

Fixpoint string_drop (n : nat) (s : string) : string :=
  match n, s with
  | 0, _ => s
  | S _, EmptyString => ""
  | S n', String _ s' => string_drop n' s'
  end.

(** [strings.Replace(s, old, new, 1)] for a non-empty [old]. *)
Fixpoint Replace1 (s old new : string) : string :=
  if HasPrefix s old then new +:+ string_drop (String.length old) s
  else match s with
       | EmptyString => ""
       | String c s' => String c (Replace1 s' old new)
       end.

(** [fmt.Sprintf("%v", m)]: the keys are printed in increasing order. *)
Definition sprint_string_map (m : gmap string string) : string :=
  let entries := merge_sort (λ a b : string * string, String.le a.1 b.1) (map_to_list m) in
  "map[" +:+ String.concat " " ((λ kv : string * string, kv.1 +:+ ":" +:+ kv.2) <$> entries) +:+ "]".

(** ** Facts on the package strings operations *)

Lemma string_app_nil_r s : s +:+ "" = s.
Proof. induction s as [|c s IH]; [done|]. unfold String.app in *; simpl; by rewrite IH. Qed.

Lemma string_app_cons c s t : String c s +:+ t = String c (s +:+ t).
Proof. done. Qed.

Lemma string_length_app s t : String.length (s +:+ t) = String.length s + String.length t.
Proof. induction s as [|c s IH]; [done|]. rewrite string_app_cons; simpl; by rewrite IH. Qed.

Lemma string_drop_app s t : string_drop (String.length s) (s +:+ t) = t.
Proof. induction s as [|c s IH]; [done|]. rewrite string_app_cons; simpl. done. Qed.

Lemma HasPrefix_spec s pre : HasPrefix s pre = true ↔ ∃ rest, s = pre +:+ rest.
Proof.
  unfold HasPrefix. revert s. induction pre as [|c pre IH]; intros s.
  - split; [by exists s|by destruct s].
  - destruct s as [|d s]; [split; [done|by intros [rest ?]]|].
    simpl. destruct (ascii_dec c d) as [->|Hne].
    + rewrite IH. split; intros [rest Hr]; exists rest; [by rewrite Hr|rewrite string_app_cons in Hr; by simplify_eq].
    + split; [done|]. intros [rest Hr]. by rewrite string_app_cons in Hr; simplify_eq.
Qed.

Lemma Contains_unfold s sub :
  Contains s sub = HasPrefix s sub ||
    match s with EmptyString => false | String _ s' => Contains s' sub end.
Proof. by destruct s. Qed.

(** [Contains] finds exactly the substrings. *)
Lemma Contains_spec s sub :
  Contains s sub = true ↔ ∃ a b, s = a +:+ sub +:+ b.
Proof.
  split.
  - induction s as [|c s IH]; rewrite Contains_unfold, orb_true_iff, HasPrefix_spec.
    + intros [[rest ->]|?]; [by exists "", rest|done].
    + intros [[rest Hr]|(a & b & ->)%IH]; [by exists "", rest|by exists (String c a), b].
  - intros (a & b & ->). rewrite Contains_unfold. induction a as [|c a IH].
    + apply orb_true_iff; left. apply HasPrefix_spec. by exists b.
    + rewrite string_app_cons, (Contains_unfold (a +:+ _)), IH. apply orb_true_r.
Qed.

Lemma TrimSuffix_unfold s suffix :
  TrimSuffix s suffix =
    if String.eqb s suffix then ""
    else match s with EmptyString => "" | String c s' => String c (TrimSuffix s' suffix) end.
Proof. by destruct s. Qed.

Lemma TrimSuffix_app s suffix : TrimSuffix (s +:+ suffix) suffix = s.
Proof.
  induction s as [|c s IH]; rewrite TrimSuffix_unfold.
  - change ("" +:+ suffix) with suffix. by rewrite String.eqb_refl.
  - rewrite string_app_cons, IH.
    destruct (String.eqb_spec (String c (s +:+ suffix)) suffix) as [Heq|_]; [|done].
    apply (f_equal String.length) in Heq. simpl in Heq. rewrite string_length_app in Heq. lia.
Qed.

Lemma TrimSuffix_not_suffix s suffix :
  (∀ p, s ≠ p +:+ suffix) → TrimSuffix s suffix = s.
Proof.
  induction s as [|c s IH]; intros Hne; rewrite TrimSuffix_unfold.
  - by destruct (String.eqb "" suffix).
  - destruct (String.eqb_spec (String c s) suffix) as [Heq|_].
    + by destruct (Hne "").
    + rewrite IH; [done|]. intros p Hp. apply (Hne (String c p)). by rewrite Hp.
Qed.

Lemma Replace1_prefix old new rest :
  Replace1 (old +:+ rest) old new = new +:+ rest.
Proof.
  assert (HasPrefix (old +:+ rest) old = true) as H by (apply HasPrefix_spec; eauto).
  pose proof (string_drop_app old rest) as Hd.
  destruct (old +:+ rest); unfold Replace1; by rewrite H, Hd.
Qed.

(** ** Package regexp *)

Module Regexp.

(** Regular expressions over characters, and full matches. *)
Inductive re :=
| Void
| Eps
| Cls (f : ascii → bool)
| Cat (r1 r2 : re)
| Alt (r1 r2 : re)
| Star (r : re).

Definition Plus (r : re) : re := Cat r (Star r).
Definition AtLeast2 (r : re) : re := Cat r (Cat r (Star r)).
Definition Chr (c : ascii) : re := Cls (Ascii.eqb c).

Fixpoint nullable (r : re) : bool :=
  match r with
  | Void => false
  | Eps => true
  | Cls _ => false
  | Cat r1 r2 => nullable r1 && nullable r2
  | Alt r1 r2 => nullable r1 || nullable r2
  | Star _ => true
  end.

Fixpoint deriv (c : ascii) (r : re) : re :=
  match r with
  | Void => Void
  | Eps => Void
  | Cls f => if f c then Eps else Void
  | Cat r1 r2 =>
      if nullable r1 then Alt (Cat (deriv c r1) r2) (deriv c r2)
      else Cat (deriv c r1) r2
  | Alt r1 r2 => Alt (deriv c r1) (deriv c r2)
  | Star r => Cat (deriv c r) (Star r)
  end.

(** [regexp.MatchString("^r$", s)] *)
Fixpoint full_match (r : re) (s : list ascii) : bool :=
  match s with
  | [] => nullable r
  | c :: s' => full_match (deriv c r) s'
  end.

(** The language of an expression. *)
Inductive matches : re → list ascii → Prop :=
| M_eps : matches Eps []
| M_cls f c : f c = true → matches (Cls f) [c]
| M_cat r1 r2 s1 s2 : matches r1 s1 → matches r2 s2 → matches (Cat r1 r2) (s1 ++ s2)
| M_alt_l r1 r2 s : matches r1 s → matches (Alt r1 r2) s
| M_alt_r r1 r2 s : matches r2 s → matches (Alt r1 r2) s
| M_star_nil r : matches (Star r) []
| M_star_app r c s1 s2 :
    matches r (c :: s1) → matches (Star r) s2 → matches (Star r) (c :: s1 ++ s2).

#[local] Hint Constructors matches : go.

Lemma nullable_matches r : nullable r = true ↔ matches r [].
Proof.
  split.
  - induction r; simpl; intros ?; try done; auto with go.
    + apply andb_true_iff in H as [??]. rewrite <-(app_nil_l []). auto with go.
    + apply orb_true_iff in H as [?|?]; auto with go.
  - remember [] as s eqn:Hs. induction 1; simpl; try done.
    + apply app_eq_nil in Hs as [-> ->]. by rewrite IHmatches1, IHmatches2.
    + by rewrite IHmatches.
    + rewrite IHmatches by done. apply orb_true_r.
Qed.

Lemma matches_cat_inv r1 r2 s :
  matches (Cat r1 r2) s ↔ ∃ s1 s2, s = s1 ++ s2 ∧ matches r1 s1 ∧ matches r2 s2.
Proof. split; [inversion 1; eauto 10|]. intros (?&?&->&?&?); auto with go. Qed.

Lemma matches_alt_inv r1 r2 s : matches (Alt r1 r2) s ↔ matches r1 s ∨ matches r2 s.
Proof. split; [inversion 1; eauto|]. intros [?|?]; auto with go. Qed.

Lemma matches_cls_inv f s : matches (Cls f) s ↔ ∃ c, s = [c] ∧ f c = true.
Proof. split; [inversion 1; eauto|]. intros (?&->&?); auto with go. Qed.

Lemma matches_void s : ¬ matches Void s.
Proof. inversion 1. Qed.

Lemma matches_star_cons_inv r c s :
  matches (Star r) (c :: s) ↔
    ∃ s1 s2, s = s1 ++ s2 ∧ matches r (c :: s1) ∧ matches (Star r) s2.
Proof. split; [inversion 1; eauto 10|]. intros (?&?&->&?&?); auto with go. Qed.

Lemma deriv_matches r c s : matches (deriv c r) s ↔ matches r (c :: s).
Proof.
  revert s. induction r; intros s; simpl.
  - split; inversion 1.
  - split; inversion 1.
  - destruct (f c) eqn:Hf; rewrite matches_cls_inv; split.
    + inversion 1; eauto.
    + intros (?&?&?). simplify_eq. constructor.
    + by intros ?%matches_void.
    + intros (d & Hd & Hfd). injection Hd as -> ->. congruence.
  - assert (matches (Cat (deriv c r1) r2) s ↔
      ∃ s1 s2, s = s1 ++ s2 ∧ matches r1 (c :: s1) ∧ matches r2 s2) as Hl.
    { rewrite matches_cat_inv. by setoid_rewrite IHr1. }
    assert (matches (Cat r1 r2) (c :: s) ↔
      matches (Cat (deriv c r1) r2) s ∨ matches r1 [] ∧ matches (deriv c r2) s) as Hr.
    { rewrite Hl, IHr2, matches_cat_inv. split.
      - intros ([|d s1]&s2&Heq&?&?); simplify_eq/=; eauto 10.
      - intros [(s1&s2&->&?&?)|[??]]; [by exists (c :: s1), s2|by exists [], (c :: s)]. }
    rewrite Hr, <-nullable_matches.
    destruct (nullable r1); rewrite ?matches_alt_inv; intuition congruence.
  - rewrite !matches_alt_inv, IHr1, IHr2. done.
  - rewrite matches_cat_inv, matches_star_cons_inv. by setoid_rewrite IHr.
Qed.

(** The derivative matcher decides the language of the expression. *)
Lemma full_match_spec r s : full_match r s = true ↔ matches r s.
Proof.
  revert r. induction s as [|c s IH]; intros r; simpl.
  - apply nullable_matches.
  - by rewrite IH, deriv_matches.
Qed.

(** A star matches the concatenations of matches. *)
Lemma matches_star r s :
  matches (Star r) s ↔ ∃ parts, s = concat parts ∧ Forall (matches r) parts.
Proof.
  split.
  - remember (Star r) as r' eqn:Hr. induction 1; simplify_eq.
    + by exists [].
    + destruct IHmatches2 as (parts & -> & ?); [done|]. exists ((c :: s1) :: parts). split; [done|by constructor].
  - intros (parts & -> & Hp). induction Hp as [|[|c p] parts Hm _ IH]; simpl; auto with go.
Qed.

Lemma matches_star_cls f s : matches (Star (Cls f)) s ↔ Forall (λ c, f c = true) s.
Proof.
  induction s as [|c s IH].
  - split; [constructor|intros; constructor].
  - rewrite matches_star_cons_inv, Forall_cons, <-IH. setoid_rewrite matches_cls_inv.
    split; [|intros [??]; exists [], s; eauto].
    intros (s1 & s2 & -> & (d & Hd & ?) & ?). by injection Hd as -> ->.
Qed.

Lemma matches_plus_cls f s :
  matches (Plus (Cls f)) s ↔ s ≠ [] ∧ Forall (λ c, f c = true) s.
Proof.
  unfold Plus. rewrite matches_cat_inv.
  setoid_rewrite matches_star_cls. setoid_rewrite matches_cls_inv. split.
  - intros (?&s2&->&(c&->&?)&?). split; [done|]. by constructor.
  - intros [Hne Hf]. destruct s as [|c s]; [done|]. apply Forall_cons in Hf as [??].
    exists [c], s. eauto.
Qed.

Lemma matches_atleast2_cls f s :
  matches (AtLeast2 (Cls f)) s ↔ 2 ≤ length s ∧ Forall (λ c, f c = true) s.
Proof.
  unfold AtLeast2. rewrite matches_cat_inv.
  setoid_rewrite matches_plus_cls. setoid_rewrite matches_cls_inv. split.
  - intros (?&s2&->&(c&->&?)&Hne&?). split; [|by constructor].
    destruct s2; [done|simpl; lia].
  - intros [Hlen Hf]. destruct s as [|c [|d s]]; simpl in Hlen; [lia..|].
    apply Forall_cons in Hf as [??]. exists [c], (d :: s). split_and!; eauto.
Qed.

End Regexp.
