(* ===== verification/GoFloat.v ===== *)
(** * Go's float64

    IEEE 754 binary64 as the Standard Library specifies it ([SpecFloat] with a
    53 bit mantissa and exponents up to 1024), with the conversions and the
    operations the operator applies: [float64(i)], [x / y], [==], [>] and
    [int(x)]. The lemmas show that on integers below 2^53 divided by a power of
    two these operations are exact, so float comparisons are integer comparisons. *)

From S2P Require Import Prelude.
From Corelib Require Import SpecFloat.
#[local] Open Scope Z_scope.

(** ** The operations *)

Definition float64 : Type := spec_float.

(** [float64(z)] *)
Definition float64_of_Z (z : Z) : float64 := binary_normalize 53 1024 z 0 false.
(** [x / y] *)
Definition float64_div (x y : float64) : float64 := SFdiv 53 1024 x y.
(** [x == y] *)
Definition float64_eqb (x y : float64) : bool := SFeqb x y.
(** [x > y] *)
Definition float64_gtb (x y : float64) : bool := SFltb y x.

Definition int64_min : Z := - 2 ^ 63.
Definition int64_max : Z := 2 ^ 63 - 1.

(** [int(x)]: truncation toward zero. A value that does not fit is
    implementation-defined in Go; on amd64 it is the least [int64]. *)
Definition int_of_float64 (x : float64) : Z :=
  match x with
  | S754_zero _ => 0
  | S754_finite s m e =>
      let abs := if Z.leb 0 e then Z.pos m * 2 ^ e else Z.pos m / 2 ^ (- e) in
      let v := if s then - abs else abs in
      if Z.leb int64_min v && Z.leb v int64_max then v else int64_min
  | S754_infinity _ | S754_nan => int64_min
  end.

(** ** Exactness *)

Lemma digits2_pos_bounds p :
  2 ^ (Z.pos (digits2_pos p) - 1) ≤ Z.pos p < 2 ^ Z.pos (digits2_pos p).
Proof.
  induction p as [p IH|p IH|]; simpl digits2_pos; [| |done];
    rewrite Pos2Z.inj_succ;
    replace (Z.succ (Z.pos (digits2_pos p)) - 1) with (Z.succ (Z.pos (digits2_pos p) - 1)) by lia;
    rewrite !Z.pow_succ_r by lia; lia.
Qed.

Lemma digits2_pos_unique p d :
  0 < d → 2 ^ (d - 1) ≤ Z.pos p < 2 ^ d → Z.pos (digits2_pos p) = d.
Proof.
  intros Hd [Hl Hu]. pose proof (digits2_pos_bounds p) as [Hl' Hu'].
  assert (d - 1 < Z.pos (digits2_pos p)) by (apply (Z.pow_lt_mono_r_iff 2); lia).
  assert (Z.pos (digits2_pos p) - 1 < d) by (apply (Z.pow_lt_mono_r_iff 2); lia).
  lia.
Qed.

(** A mantissa of exactly 53 bits. *)
Definition normal (m : positive) : Prop := 2 ^ 52 ≤ Z.pos m < 2 ^ 53.

Lemma normal_digits m : normal m ↔ digits2_pos m = 53%positive.
Proof.
  unfold normal. split.
  - intros Hm. assert (Z.pos (digits2_pos m) = 53) by (apply digits2_pos_unique; lia). lia.
  - intros Hm. pose proof (digits2_pos_bounds m) as Hb. rewrite Hm in Hb. exact Hb.
Qed.

Lemma shr_fexp_exact m e :
  digits2_pos m = 53%positive → -1074 ≤ e →
  shr_fexp 53 1024 (Z.pos m) e loc_Exact = (Build_shr_record (Z.pos m) false false, e).
Proof.
  intros Hm He. unfold shr_fexp, Zdigits2. rewrite Hm. unfold fexp, emin.
  replace (Z.max (53 + e - 53) (3 - 1024 - 53) - e) with 0 by lia. done.
Qed.

Lemma binary_round_aux_exact s m e :
  digits2_pos m = 53%positive → -1074 ≤ e ≤ 971 →
  binary_round_aux 53 1024 s (Z.pos m) e loc_Exact = S754_finite s m e.
Proof.
  intros Hm He. unfold binary_round_aux. rewrite shr_fexp_exact by (done || lia). simpl.
  rewrite shr_fexp_exact by (done || lia). simpl.
  destruct (Z.leb_spec e (1024 - 53)); [done|lia].
Qed.

Lemma iter_xO_pos m d : Z.pos (Pos.iter xO m d) = Z.pos m * 2 ^ Z.pos d.
Proof.
  induction d as [|d IH] using Pos.peano_ind.
  - simpl. lia.
  - rewrite Pos.iter_succ, Pos2Z.inj_succ, Z.pow_succ_r by lia. lia.
Qed.

(** Positive integers below 2^53 convert without rounding. *)
Lemma float64_of_Z_pos z :
  0 < z < 2 ^ 53 →
  ∃ m e, float64_of_Z z = S754_finite false m e ∧ normal m ∧ -53 ≤ e ≤ 0 ∧
    Z.pos m = z * 2 ^ (- e).
Proof.
  intros Hz. destruct z as [|p|p]; [lia| |lia].
  unfold float64_of_Z, binary_normalize, binary_round.
  pose proof (digits2_pos_bounds p) as [Hl Hu].
  set (d := Z.pos (digits2_pos p)) in *.
  assert (1 ≤ d) by lia.
  assert (d ≤ 53).
  { enough (d - 1 < 53) by lia. apply (Z.pow_lt_mono_r_iff 2); lia. }
  unfold fexp, emin. replace (Z.max (d + 0 - 53) (3 - 1024 - 53)) with (d - 53) by lia.
  unfold shl_align.
  destruct (Z.eq_dec d 53) as [Hd|Hd].
  - assert (Hdp : digits2_pos p = 53%positive) by lia.
    replace (d - 53 - 0) with 0 by lia. simpl.
    rewrite binary_round_aux_exact by (done || lia).
    exists p, 0. split_and!; [done|by apply normal_digits|lia|lia|lia].
  - destruct (d - 53 - 0) as [|q|q] eqn:Hq; [lia|lia|].
    set (m := Pos.iter xO p q).
    assert (Hm : Z.pos m = Z.pos p * 2 ^ (53 - d)).
    { unfold m. rewrite iter_xO_pos. f_equal. f_equal. lia. }
    assert (normal m).
    { unfold normal. rewrite Hm.
      assert (2 ^ 52 = 2 ^ (d - 1) * 2 ^ (53 - d)) as ->
        by (rewrite <-Z.pow_add_r by lia; f_equal; lia).
      assert (2 ^ 53 = 2 ^ d * 2 ^ (53 - d)) as ->
        by (rewrite <-Z.pow_add_r by lia; f_equal; lia).
      assert (0 < 2 ^ (53 - d)) by (apply Z.pow_pos_nonneg; lia). nia. }
    rewrite binary_round_aux_exact by (by apply normal_digits || lia).
    exists m, (d - 53). split_and!; [done|done|lia|lia|].
    rewrite Hm. f_equal. f_equal. lia.
Qed.

(** The value of a non-negative float, scaled by [2^k]. *)
Definition scaled (k : Z) (x : float64) : Z :=
  match x with
  | S754_finite false m e => Z.pos m * 2 ^ (e + k)
  | _ => 0
  end.

(** Floats that are zero or normal, with an exponent of at least [-k]. *)
Definition nonneg_normal (k : Z) (x : float64) : Prop :=
  match x with
  | S754_zero _ => True
  | S754_finite false m e => normal m ∧ - k ≤ e
  | _ => False
  end.

Lemma float64_of_Z_exact k z :
  53 ≤ k → 0 ≤ z < 2 ^ 53 →
  nonneg_normal k (float64_of_Z z) ∧ scaled k (float64_of_Z z) = z * 2 ^ k.
Proof.
  intros Hk Hz. destruct (Z.eq_dec z 0) as [->|]; [done|].
  destruct (float64_of_Z_pos z) as (m & e & -> & Hm & He & Hv); [lia|]. simpl.
  split; [split; [done|lia]|]. rewrite Hv, <-Z.mul_assoc, <-Z.pow_add_r by lia.
  f_equal. f_equal. lia.
Qed.

Lemma new_location_exact n : new_location n 0 = loc_Exact.
Proof. unfold new_location, new_location_even, new_location_odd. by destruct (Z.even n). Qed.

(** Dividing a normal float by [2^j] only changes its exponent. *)
Lemma SFdiv_pow2 m e j :
  normal m → -500 ≤ e ≤ 500 → 0 ≤ j ≤ 100 →
  SFdiv 53 1024 (S754_finite false m e) (S754_finite false (2 ^ 52) (j - 52)) =
    S754_finite false m (e - j).
Proof.
  intros Hm He Hj. pose proof (proj1 (normal_digits m) Hm) as Hd.
  unfold SFdiv, SFdiv_core_binary, Zdigits2. rewrite Hd.
  change (digits2_pos (2 ^ 52)) with 53%positive. unfold fexp, emin.
  replace (Z.min (Z.max (53 + e - (53 + (j - 52)) - 53) (3 - 1024 - 53)) (e - (j - 52)))
    with (e - j - 1) by lia.
  replace (e - (j - 52) - (e - j - 1)) with 53 by lia.
  assert (Hdiv : Z.div_eucl (Z.shiftl (Z.pos m) 53) (Z.pos (2 ^ 52)) = (Z.pos (xO m), 0)).
  { rewrite (surjective_pairing (Z.div_eucl _ _)).
    change (Z.div_eucl (Z.shiftl (Z.pos m) 53) (Z.pos (2 ^ 52))).1
      with (Z.shiftl (Z.pos m) 53 / Z.pos (2 ^ 52)).
    change (Z.div_eucl (Z.shiftl (Z.pos m) 53) (Z.pos (2 ^ 52))).2
      with (Z.shiftl (Z.pos m) 53 mod Z.pos (2 ^ 52)).
    rewrite Z.shiftl_mul_pow2 by lia.
    replace (Z.pos m * 2 ^ 53) with (Z.pos (xO m) * Z.pos (2 ^ 52)) by lia.
    rewrite Z.div_mul, Z.mod_mul by lia. done. }
  rewrite Hdiv, new_location_exact. simpl xorb.
  unfold binary_round_aux at 1, shr_fexp at 1, Zdigits2. simpl digits2_pos. rewrite Hd.
  unfold fexp at 1, emin.
  replace (Z.max (Z.pos (Pos.succ 53) + (e - j - 1) - 53) (3 - 1024 - 53) - (e - j - 1))
    with 1 by lia.
  simpl shr. unfold iter_pos, shr_1; simpl.
  rewrite shr_fexp_exact by (done || lia). simpl.
  destruct (Z.leb_spec (e - j - 1 + 1) (1024 - 53)); [|lia]. f_equal. lia.
Qed.

Lemma float64_div_exact k z j f :
  200 ≤ k → 0 ≤ z < 2 ^ 53 → 0 ≤ j ≤ 100 →
  f = S754_finite false (2 ^ 52) (j - 52) →
  nonneg_normal k (float64_div (float64_of_Z z) f) ∧
  scaled k (float64_div (float64_of_Z z) f) = z * 2 ^ (k - j).
Proof.
  intros Hk Hz Hj ->. unfold float64_div. destruct (Z.eq_dec z 0) as [->|]; [done|].
  destruct (float64_of_Z_pos z) as (m & e & -> & Hm & He & Hv); [lia|].
  rewrite SFdiv_pow2 by (done || lia). simpl. split; [split; [done|lia]|].
  rewrite Hv, <-Z.mul_assoc, <-Z.pow_add_r by lia. f_equal. f_equal. lia.
Qed.

(** Comparing such floats compares their values. *)
Lemma SFcompare_scaled k x y :
  nonneg_normal k x → nonneg_normal k y →
  SFcompare x y = Some (Z.compare (scaled k x) (scaled k y)).
Proof.
  assert (Hpos : ∀ m e, - k ≤ e → 0 < Z.pos m * 2 ^ (e + k)).
  { intros. apply Z.mul_pos_pos; [lia|]. apply Z.pow_pos_nonneg; lia. }
  assert (Hlt : ∀ m1 e1 m2 e2, normal m1 → normal m2 → - k ≤ e1 → e1 < e2 →
    Z.pos m1 * 2 ^ (e1 + k) < Z.pos m2 * 2 ^ (e2 + k)).
  { intros m1 e1 m2 e2 [_ H1] [H2 _] ??.
    assert (2 ^ (e2 + k) = 2 * 2 ^ (e2 - e1 - 1) * 2 ^ (e1 + k)) as ->
      by (rewrite <-Z.pow_succ_r, <-Z.pow_add_r by lia; f_equal; lia).
    assert (0 < 2 ^ (e2 - e1 - 1)) by (apply Z.pow_pos_nonneg; lia).
    assert (0 < 2 ^ (e1 + k)) by (apply Z.pow_pos_nonneg; lia).
    rewrite Z.mul_assoc. apply Z.mul_lt_mono_pos_r; [done|]. nia. }
  destruct x as [sx| | |[] m1 e1], y as [sy| | |[] m2 e2];
    cbn [nonneg_normal scaled SFcompare]; try done.
  - intros _ [_ ?]. f_equal. symmetry. apply Z.compare_lt_iff. by apply Hpos.
  - intros [_ ?] _. f_equal. symmetry. apply Z.compare_gt_iff. by apply Hpos.
  - intros [??] [??]. f_equal. destruct (Z.compare_spec e1 e2) as [->|?|?].
    + change (Pos.compare_cont Eq m1 m2) with (Z.compare (Z.pos m1) (Z.pos m2)).
      apply Zmult_compare_compat_r. apply Z.lt_gt. apply Z.pow_pos_nonneg; lia.
    + symmetry. apply Z.compare_lt_iff. by apply Hlt.
    + symmetry. apply Z.compare_gt_iff. by apply Hlt.
Qed.

(** ** What the callers use *)

(** [float64(a) / float64(2^j) == float64(b)] compares [a] with [b * 2^j]. *)
Lemma float64_quotient_eqb a b j :
  0 ≤ a < 2 ^ 53 → 0 ≤ b < 2 ^ 53 → 0 ≤ j ≤ 100 →
  float64_of_Z (2 ^ j) = S754_finite false (2 ^ 52) (j - 52) →
  float64_eqb (float64_div (float64_of_Z a) (float64_of_Z (2 ^ j))) (float64_of_Z b)
    = Z.eqb a (b * 2 ^ j).
Proof.
  intros Ha Hb Hj Hf.
  destruct (float64_div_exact 200 a j _ ltac:(lia) Ha Hj Hf) as [Hn Hs].
  destruct (float64_of_Z_exact 200 b ltac:(lia) Hb) as [Hn' Hs'].
  unfold float64_eqb, SFeqb. rewrite (SFcompare_scaled 200) by done. rewrite Hs, Hs'.
  replace (2 ^ 200) with (2 ^ j * 2 ^ (200 - j))
    by (rewrite <-Z.pow_add_r by lia; f_equal; lia).
  rewrite Z.mul_assoc. assert (0 < 2 ^ (200 - j)) by (apply Z.pow_pos_nonneg; lia).
  destruct (Z.eqb_spec a (b * 2 ^ j)) as [->|].
  - by rewrite Z.compare_refl.
  - destruct (Z.compare_spec (a * 2 ^ (200 - j)) (b * 2 ^ j * 2 ^ (200 - j))); [nia|done|done].
Qed.

(** [float64(b) > float64(a) / float64(2^j)] compares [a] with [b * 2^j]. *)
Lemma float64_quotient_lt a b j :
  0 ≤ a < 2 ^ 53 → 0 ≤ b < 2 ^ 53 → 0 ≤ j ≤ 100 →
  float64_of_Z (2 ^ j) = S754_finite false (2 ^ 52) (j - 52) →
  float64_gtb (float64_of_Z b) (float64_div (float64_of_Z a) (float64_of_Z (2 ^ j)))
    = Z.ltb a (b * 2 ^ j) ∧
  float64_gtb (float64_div (float64_of_Z a) (float64_of_Z (2 ^ j))) (float64_of_Z b)
    = Z.ltb (b * 2 ^ j) a.
Proof.
  intros Ha Hb Hj Hf.
  destruct (float64_div_exact 200 a j _ ltac:(lia) Ha Hj Hf) as [Hn Hs].
  destruct (float64_of_Z_exact 200 b ltac:(lia) Hb) as [Hn' Hs'].
  unfold float64_gtb, SFltb. rewrite !(SFcompare_scaled 200) by done. rewrite Hs, Hs'.
  replace (2 ^ 200) with (2 ^ j * 2 ^ (200 - j))
    by (rewrite <-Z.pow_add_r by lia; f_equal; lia).
  rewrite Z.mul_assoc. assert (0 < 2 ^ (200 - j)) by (apply Z.pow_pos_nonneg; lia).
  split.
  - destruct (Z.compare_spec (a * 2 ^ (200 - j)) (b * 2 ^ j * 2 ^ (200 - j)));
      destruct (Z.ltb_spec a (b * 2 ^ j)); (done || nia).
  - destruct (Z.compare_spec (b * 2 ^ j * 2 ^ (200 - j)) (a * 2 ^ (200 - j)));
      destruct (Z.ltb_spec (b * 2 ^ j) a); (done || nia).
Qed.
