(* ===== verification/GoNet.v ===== *)
(** * IP addresses of the Go standard library

    [net.ParseCIDR], [net.ParseIP], [netip.ParseAddr], [net.CIDRMask] and
    [IP.To4] as packages [net] and [net/netip] define them: addresses are lists
    of bytes (integers from 0 to 255), the loops over a string are recursion on
    its characters with the variables of the Go code as arguments. *)

From S2P Require Import Prelude GoStrings.
From Stdlib Require Import Ascii.
#[local] Open Scope Z_scope.

(** ** Characters *)

Definition code (c : ascii) : Z := Z.of_N (N_of_ascii c).
Definition is_digit (c : ascii) : bool := (48 <=? code c) && (code c <=? 57).
(** The value of a hexadecimal digit. *)
Definition hex_digit (c : ascii) : option Z :=
  let z := code c in
  if is_digit c then Some (z - 48)
  else if (97 <=? z) && (z <=? 102) then Some (z - 87)
  else if (65 <=? z) && (z <=? 70) then Some (z - 55)
  else None.

Definition dot : ascii := "."%char.
Definition colon : ascii := ":"%char.
Definition percent : ascii := "%"%char.
Definition slash : ascii := "/"%char.

(** [strings.Cut(s, sep)] for a one-character separator. *)
Fixpoint cut (sep : ascii) (s : list ascii) : list ascii * option (list ascii) :=
  match s with
  | [] => ([], None)
  | c :: s' =>
      if Ascii.eqb c sep then ([], Some s')
      else let '(before, after) := cut sep s' in (c :: before, after)
  end.

(** ** netip *)

Inductive Addr :=
| AddrV4 (bytes : list Z)
| AddrV6 (bytes : list Z) (zone : list ascii).

(** [parseIPv4Fields]: [val], [digLen] and the fields filled so far are the
    variables of the loop, [prev] the character before. *)
Fixpoint parseIPv4Fields (s : list ascii) (prev : option ascii) (val digLen : Z) (fields : list Z) :
    option (list Z) :=
  match s with
  | [] => if (length fields <? 3)%nat then None else Some (fields ++ [val])
  | c :: s' =>
      if is_digit c then
        if (digLen =? 1) && (val =? 0) then None
        else
          let val := val * 10 + code c - 48 in
          if 255 <? val then None
          else parseIPv4Fields s' (Some c) val (digLen + 1) fields
      else if Ascii.eqb c dot then
        let bad := match prev with None => true | Some p => Ascii.eqb p dot end in
        if bad || match s' with [] => true | _ => false end then None
        else if (length fields =? 3)%nat then None
        else parseIPv4Fields s' (Some c) 0 0 (fields ++ [val])
      else None
  end.

Definition parseIPv4 (s : list ascii) : option Addr :=
  AddrV4 <$> parseIPv4Fields s None 0 0 [].

(** The group of hexadecimal digits at the front of [s]: how many, their value
    and what follows; [None] for more than four digits. *)
Fixpoint hex_group (s : list ascii) (off : nat) (acc : Z) : option (nat * Z * list ascii) :=
  match s with
  | [] => Some (off, acc, [])
  | c :: s' =>
      match hex_digit c with
      | Some d =>
          if (3 <? off)%nat then None
          else let acc := acc * 16 + d in
               if 65535 <? acc then None else hex_group s' (S off) acc
      | None => Some (off, acc, s)
      end
  end.

(** [for i < 16 { ... }]: the bytes written are [ip], [i] is their number. Every
    round writes two bytes, so nine rounds reach the end of the loop. Returns
    what the loop leaves: the bytes, the place of the ellipsis, the rest. *)
Fixpoint ipv6_loop (fuel : nat) (s : list ascii) (ip : list Z) (ellipsis : option nat) :
    option (list Z * option nat * list ascii) :=
  match fuel with
  | O => Some (ip, ellipsis, s)
  | S fuel' =>
      if (16 <=? length ip)%nat then Some (ip, ellipsis, s)
      else
        match hex_group s 0 0 with
        | None => None
        | Some (off, acc, rest) =>
            if (off =? 0)%nat then None
            else if match rest with c :: _ => Ascii.eqb c dot | [] => false end then
              if bool_decide (ellipsis = None) && negb (length ip =? 12)%nat then None
              else if (16 <? length ip + 4)%nat then None
              else match parseIPv4Fields s None 0 0 [] with
                   | Some fields => Some (ip ++ fields, ellipsis, [])
                   | None => None
                   end
            else
              let ip := ip ++ [acc / 256; acc mod 256] in
              match rest with
              | [] => Some (ip, ellipsis, [])
              | c :: rest' =>
                  if negb (Ascii.eqb c colon) then None
                  else match rest' with
                       | [] => None
                       | c' :: rest'' =>
                           if Ascii.eqb c' colon then
                             match ellipsis with
                             | Some _ => None
                             | None =>
                                 match rest'' with
                                 | [] => Some (ip, Some (length ip), [])
                                 | _ => ipv6_loop fuel' rest'' ip (Some (length ip))
                                 end
                             end
                           else ipv6_loop fuel' rest' ip ellipsis
                       end
              end
        end
  end.

Definition parseIPv6 (input : list ascii) : option Addr :=
  let '(s, zone) := cut percent input in
  if bool_decide (zone = Some []) then None
  else
    let zone := default [] zone in
    let '(s, ellipsis) :=
      match s with
      | c1 :: c2 :: s' => if Ascii.eqb c1 colon && Ascii.eqb c2 colon then (s', Some 0%nat) else (s, None)
      | _ => (s, None)
      end in
    if bool_decide (s = []) && bool_decide (ellipsis = Some 0%nat) then Some (AddrV6 (replicate 16 0) zone)
    else
      match ipv6_loop 9 s [] ellipsis with
      | None => None
      | Some (ip, ellipsis, rest) =>
          if negb (bool_decide (rest = [])) then None
          else if (length ip <? 16)%nat then
            match ellipsis with
            | None => None
            | Some e => Some (AddrV6 (take e ip ++ replicate (16 - length ip) 0 ++ drop e ip) zone)
            end
          else match ellipsis with
               | Some _ => None
               | None => Some (AddrV6 ip zone)
               end
      end.

(** [netip.ParseAddr]: the first of the three characters decides. *)
Fixpoint ParseAddr_scan (s : list ascii) (input : list ascii) : option Addr :=
  match s with
  | [] => None
  | c :: s' =>
      if Ascii.eqb c dot then parseIPv4 input
      else if Ascii.eqb c colon then parseIPv6 input
      else if Ascii.eqb c percent then None
      else ParseAddr_scan s' input
  end.
Definition ParseAddr (s : list ascii) : option Addr := ParseAddr_scan s s.

Definition BitLen (a : Addr) : Z := match a with AddrV4 _ => 32 | AddrV6 _ _ => 128 end.
Definition v4InV6Prefix : list Z := replicate 10 0 ++ [255; 255].
Definition As16 (a : Addr) : list Z :=
  match a with AddrV4 b => v4InV6Prefix ++ b | AddrV6 b _ => b end.
Definition addr_zone (a : Addr) : list ascii :=
  match a with AddrV4 _ => [] | AddrV6 _ z => z end.

(** ** net *)

(** [dtoi]: the number at the front of [s], how many characters it takes. *)
Fixpoint dtoi_loop (s : list ascii) (n : Z) (i : nat) : Z * nat * bool :=
  match s with
  | c :: s' =>
      if is_digit c then
        let n := n * 10 + (code c - 48) in
        if 16777215 <=? n then (16777215, i, false) else dtoi_loop s' n (S i)
      else if (i =? 0)%nat then (0, 0%nat, false) else (n, i, true)
  | [] => if (i =? 0)%nat then (0, 0%nat, false) else (n, i, true)
  end.
Definition dtoi (s : list ascii) : Z * nat * bool := dtoi_loop s 0 0.

(** [CIDRMask(ones, bits)] with [bits] of 32 or 128: [l] bytes are left. *)
Fixpoint mask_bytes (l : nat) (n : Z) : list Z :=
  match l with
  | O => []
  | S l' => if 8 <=? n then 255 :: mask_bytes l' (n - 8)
            else (255 - Z.shiftr 255 n) :: mask_bytes l' 0
  end.
Definition CIDRMask (ones bits : Z) : list Z := mask_bytes (Z.to_nat (bits / 8)) ones.

(** [net.ParseCIDR]: the address and the mask of the network. *)
Definition ParseCIDR (str : string) : outcome (list Z * list Z) :=
  let s := String.list_ascii_of_string str in
  let bad := Err (Errorf ("invalid CIDR address: " +:+ str)) in
  match cut slash s with
  | (_, None) => bad
  | (addr, Some mask) =>
      match ParseAddr addr with
      | None => bad
      | Some ipAddr =>
          if negb (bool_decide (addr_zone ipAddr = [])) then bad
          else
            let '(n, i, ok) := dtoi mask in
            if negb ok || negb (i =? length mask)%nat || (n <? 0) || (BitLen ipAddr <? n) then bad
            else Ok (As16 ipAddr, CIDRMask n (BitLen ipAddr))
      end
  end.

#[global] Arguments ParseCIDR : simpl never.

(** [net.ParseIP]: nil is [None]. *)
Definition ParseIP (str : string) : option (list Z) :=
  match ParseAddr (String.list_ascii_of_string str) with
  | Some a => if bool_decide (addr_zone a = []) then Some (As16 a) else None
  | None => None
  end.

(** [IP.To4] *)
Definition To4 (ip : list Z) : option (list Z) :=
  if (length ip =? 4)%nat then Some ip
  else if (length ip =? 16)%nat && bool_decide (take 12 ip = v4InV6Prefix) then Some (drop 12 ip)
  else None.

(** ** Printing *)

(** [a.b.c.d] *)
Definition print_ipv4 (a b c d : Z) : string :=
  pretty a +:+ "." +:+ pretty b +:+ "." +:+ pretty c +:+ "." +:+ pretty d.

Definition hex_char (d : Z) : ascii := ascii_of_N (Z.to_N (if d <? 10 then 48 + d else 87 + d)).
(** [appendHex]: a 16-bit group without leading zeros. *)
Definition print_hex (x : Z) : string :=
  let digit d := String (hex_char d) "" in
  (if 4096 <=? x then digit (x / 4096) else "") +:+
  (if 256 <=? x then digit (x / 256 mod 16) else "") +:+
  (if 16 <=? x then digit (x / 16 mod 16) else "") +:+ digit (x mod 16).

(** The 16-bit groups of 16 bytes. *)
Fixpoint groups (b : list Z) : list Z :=
  match b with
  | hi :: lo :: b' => hi * 256 + lo :: groups b'
  | _ => []
  end.

Fixpoint zero_run (l : list Z) : nat :=
  match l with
  | x :: l' => if x =? 0 then S (zero_run l') else 0%nat
  | [] => 0%nat
  end.

(** The first longest run of at least two zero groups: where it starts and how
    long it is. *)
Fixpoint longest_zeros (i : nat) (l : list Z) (best : nat * nat) : nat * nat :=
  match l with
  | [] => best
  | _ :: l' =>
      let n := zero_run l in
      longest_zeros (S i) l' (if (2 <=? n)%nat && (best.2 <? n)%nat then (i, n) else best)
  end.

Definition print_groups (l : list Z) : string := String.concat ":" (print_hex <$> l).

Definition print_ipv6 (b : list Z) : string :=
  let l := groups b in
  let '(start, n) := longest_zeros 0 l (0, 0)%nat in
  if (n =? 0)%nat then print_groups l
  else print_groups (take start l) +:+ "::" +:+ print_groups (drop (start + n) l).

(** [IP.String] of a 16-byte address. *)
Definition IP_String (ip : list Z) : string :=
  match To4 ip with
  | Some [a; b; c; d] => print_ipv4 a b c d
  | _ => print_ipv6 ip
  end.

Example print_v6 :
  (λ s, IP_String <$> ParseIP s) <$>
    ["fd00:1:0:0:0::a"; "::1"; "fe80:0:0:1:0:0:0:2"; "::"; "1:2:3:4:5:6:7:8"; "::ffff:10.0.0.1"; "1:0:2::"] =
  Some <$> ["fd00:1::a"; "::1"; "fe80:0:0:1::2"; "::"; "1:2:3:4:5:6:7:8"; "10.0.0.1"; "1:0:2::"].
Proof. reflexivity. Qed.

Example parse_v4 : ParseCIDR "192.168.1.10/24" =
  Ok (v4InV6Prefix ++ [192; 168; 1; 10], [255; 255; 255; 0]).
Proof. reflexivity. Qed.
Example parse_v4_leading_zero : ParseCIDR "192.168.01.10/24" =
  Err (Errorf "invalid CIDR address: 192.168.01.10/24").
Proof. reflexivity. Qed.
Example parse_v6 : ParseCIDR "fd00:1::a/20" =
  Ok ([253; 0; 0; 1; 0; 0; 0; 0; 0; 0; 0; 0; 0; 0; 0; 10],
      [255; 255; 240; 0; 0; 0; 0; 0; 0; 0; 0; 0; 0; 0; 0; 0]).
Proof. reflexivity. Qed.
Example parse_v4_mapped : To4 <$> ParseIP "::ffff:10.0.0.1" = Some (Some [10; 0; 0; 1]).
Proof. reflexivity. Qed.

(** ** Facts *)

Definition chars (s : string) : list ascii := String.list_ascii_of_string s.

Lemma chars_app s t : chars (s +:+ t) = chars s ++ chars t.
Proof. induction s as [|c s IH]; [done|]. rewrite string_app_cons. simpl. by rewrite IH. Qed.

Lemma chars_inj s t : chars s = chars t → s = t.
Proof.
  revert t. induction s as [|c s IH]; intros [|d t]; simpl; try done. intros [= -> ?]. f_equal. auto.
Qed.

(** A test of every number below a bound, by running it. *)
Lemma below_check (n : Z) (f : Z → bool) :
  forallb f (seqZ 0 n) = true → ∀ v, 0 ≤ v < n → f v = true.
Proof.
  intros Hf v Hv. rewrite forallb_forall in Hf. apply Hf, list_elem_of_In, elem_of_seqZ. lia.
Qed.

(** The digits of an octet: at most three, none of them a separator, no leading
    zero, and their value is the octet. *)
Fixpoint octet_digits (s : list ascii) (val digLen : Z) : option (Z * Z) :=
  match s with
  | [] => Some (val, digLen)
  | c :: s' =>
      if is_digit c && negb ((digLen =? 1) && (val =? 0)) && negb (255 <? val * 10 + code c - 48)
      then octet_digits s' (val * 10 + code c - 48) (digLen + 1) else None
  end.

Definition digit_run (s : list ascii) : bool := negb (bool_decide (s = [])) && forallb is_digit s.

Definition octet_check (v : Z) : bool :=
  match octet_digits (chars (pretty v)) 0 0 with
  | Some (v', _) => (v' =? v) && digit_run (chars (pretty v))
  | None => false
  end.

Lemma octet_check_ok v : 0 ≤ v < 256 → octet_check v = true.
Proof. apply below_check. vm_compute. reflexivity. Qed.

Lemma is_digit_dot c : is_digit c = true → c ≠ dot ∧ c ≠ colon ∧ c ≠ percent ∧ c ≠ slash.
Proof. intros H. split_and!; intros ->; by vm_compute in H. Qed.

(** Reading the digits of an octet leaves its value in the loop. *)
Lemma parse_digits s rest prev val digLen fields val' digLen' :
  octet_digits s val digLen = Some (val', digLen') →
  parseIPv4Fields (s ++ rest) prev val digLen fields =
  parseIPv4Fields rest (from_option Some prev (last s)) val' digLen' fields.
Proof.
  revert prev val digLen. induction s as [|c s IH]; intros prev val digLen; simpl.
  { by intros [= <- <-]. }
  destruct (is_digit c) eqn:Hc; simpl; [|done].
  destruct ((digLen =? 1) && (val =? 0)); simpl; [done|].
  destruct (255 <? _); simpl; [done|]. intros Ho. rewrite (IH _ _ _ Ho). rewrite last_cons. by destruct (last s).
Qed.

Lemma parse_octet v : 0 ≤ v < 256 →
  ∃ c digLen, is_digit c = true ∧ ∀ rest prev fields,
    parseIPv4Fields (chars (pretty v) ++ rest) prev 0 0 fields =
    parseIPv4Fields rest (Some c) v digLen fields.
Proof.
  intros Hv. pose proof (octet_check_ok v Hv) as Hc. unfold octet_check in Hc.
  destruct (octet_digits (chars (pretty v)) 0 0) as [[v' k]|] eqn:Ho; [|done].
  apply andb_true_iff in Hc as [->%Z.eqb_eq [Hne Hd]%andb_true_iff].
  apply negb_true_iff, bool_decide_eq_false in Hne.
  destruct (last (chars (pretty v))) as [c|] eqn:Hl; [|by apply last_None in Hl].
  exists c, k. split.
  - apply last_Some_elem_of in Hl. rewrite forallb_forall in Hd. by apply Hd, list_elem_of_In.
  - intros rest prev fields. by rewrite (parse_digits _ _ _ _ _ _ _ _ Ho), Hl.
Qed.

(** A dot after an octet starts the next one. *)
Lemma parse_dot c v k fields rest :
  is_digit c = true → rest ≠ [] → length fields ≠ 3%nat →
  parseIPv4Fields (dot :: rest) (Some c) v k fields =
  parseIPv4Fields rest (Some dot) 0 0 (fields ++ [v]).
Proof.
  intros Hc%is_digit_dot Hr Hl. destruct Hc as [Hc _]. simpl.
  rewrite (proj2 (Ascii.eqb_neq c dot)) by done. destruct rest; [done|].
  destruct (Nat.eqb_spec (length fields) 3); done.
Qed.

Definition dotted (a b c d : Z) : list ascii := chars (print_ipv4 a b c d).

Lemma dotted_eq a b c d : dotted a b c d =
  chars (pretty a) ++ dot :: chars (pretty b) ++ dot :: chars (pretty c) ++ dot :: chars (pretty d).
Proof. unfold dotted, print_ipv4. by rewrite !chars_app. Qed.

Lemma digits_ne v : 0 ≤ v < 256 → chars (pretty v) ≠ [].
Proof.
  intros Hv. pose proof (octet_check_ok v Hv) as Hc. unfold octet_check in Hc. intros He.
  rewrite He in Hc. simpl in Hc. by rewrite andb_false_r in Hc.
Qed.

Lemma digits_all v : 0 ≤ v < 256 → Forall (λ c, is_digit c = true) (chars (pretty v)).
Proof.
  intros Hv. pose proof (octet_check_ok v Hv) as Hc. unfold octet_check in Hc.
  destruct (octet_digits _ _ _) as [[??]|]; [|done]. apply andb_true_iff in Hc as [_ [_ Hd]%andb_true_iff].
  apply Forall_forall. rewrite forallb_forall in Hd. intros c Hc. by apply Hd, list_elem_of_In.
Qed.

Definition octets (a b c d : Z) : Prop :=
  0 ≤ a < 256 ∧ 0 ≤ b < 256 ∧ 0 ≤ c < 256 ∧ 0 ≤ d < 256.

Lemma parseIPv4_dotted a b c d : octets a b c d →
  parseIPv4Fields (dotted a b c d) None 0 0 [] = Some [a; b; c; d].
Proof.
  intros (Ha&Hb&Hc&Hd). rewrite dotted_eq.
  destruct (parse_octet a Ha) as (ca&ka&?&Hpa), (parse_octet b Hb) as (cb&kb&?&Hpb),
    (parse_octet c Hc) as (cc&kc&?&Hpc), (parse_octet d Hd) as (cd&kd&?&Hpd).
  assert (Hne : ∀ (l r : list ascii), l ≠ [] → l ++ r ≠ []) by (intros [] ?; done).
  rewrite Hpa, parse_dot by auto using digits_ne. simpl.
  rewrite Hpb, parse_dot by auto using digits_ne. simpl.
  rewrite Hpc, parse_dot by auto using digits_ne. simpl.
  rewrite <-(app_nil_r (chars (pretty d))), Hpd. done.
Qed.

(** Digits do not stop the search for the separator that decides the parser. *)
Lemma scan_digits s rest input :
  Forall (λ c, is_digit c = true) s →
  ParseAddr_scan (s ++ rest) input = ParseAddr_scan rest input.
Proof.
  induction 1 as [|c s Hc _ IH]; [done|]. apply is_digit_dot in Hc as (?&?&?&_). simpl.
  by rewrite !(proj2 (Ascii.eqb_neq _ _)) by done.
Qed.

Lemma ParseAddr_dotted a b c d : octets a b c d →
  ParseAddr (dotted a b c d) = Some (AddrV4 [a; b; c; d]).
Proof.
  intros Ho. unfold ParseAddr. rewrite dotted_eq at 1. rewrite scan_digits by apply digits_all, Ho.
  simpl. unfold parseIPv4. by rewrite parseIPv4_dotted.
Qed.

Lemma cut_app sep l r : Forall (λ c, c ≠ sep) l → cut sep (l ++ sep :: r) = (l, Some r).
Proof.
  induction 1 as [|c l Hc _ IH]; simpl; [by rewrite Ascii.eqb_refl|].
  by rewrite (proj2 (Ascii.eqb_neq _ _) Hc), IH.
Qed.

Lemma dotted_no_slash a b c d : octets a b c d → Forall (λ c, c ≠ slash) (dotted a b c d).
Proof.
  intros (Ha&Hb&Hc&Hd). rewrite dotted_eq.
  assert (Hd' : ∀ v, 0 ≤ v < 256 → Forall (λ c, c ≠ slash) (chars (pretty v))).
  { intros v Hv. eapply Forall_impl; [by apply digits_all|]. by intros x (_&_&_&?)%is_digit_dot. }
  repeat (apply Forall_app_2 || apply Forall_cons_2); auto; done.
Qed.

(** The prefix length of an IPv4 network reads back. *)
Definition dtoi_check (n : Z) : bool :=
  bool_decide (dtoi (chars (pretty n)) = (n, length (chars (pretty n)), true)).
Lemma dtoi_pretty n : 0 ≤ n < 129 → dtoi (chars (pretty n)) = (n, length (chars (pretty n)), true).
Proof.
  intros Hn. apply (bool_decide_eq_true (dtoi (chars (pretty n)) = _)).
  revert n Hn. apply (below_check 129 dtoi_check). vm_compute. reflexivity.
Qed.

(** An IPv4 network in dotted form is read as the address it prints, mapped into
    IPv6, with the mask of its prefix length. *)
Lemma ParseCIDR_dotted a b c d n : octets a b c d → 0 ≤ n ≤ 32 →
  ParseCIDR (print_ipv4 a b c d +:+ "/" +:+ pretty n) =
    Ok (v4InV6Prefix ++ [a; b; c; d], CIDRMask n 32).
Proof.
  intros Ho Hn. unfold ParseCIDR.
  assert (Hs : String.list_ascii_of_string (print_ipv4 a b c d +:+ "/" +:+ pretty n) =
    dotted a b c d ++ slash :: chars (pretty n)) 
    by (change (chars (print_ipv4 a b c d +:+ "/" +:+ pretty n) =
          dotted a b c d ++ slash :: chars (pretty n)); by rewrite !chars_app).
  rewrite Hs, (cut_app _ _ _ (dotted_no_slash a b c d Ho)), (ParseAddr_dotted a b c d Ho).
  cbn [addr_zone]. rewrite dtoi_pretty by lia. rewrite Nat.eqb_refl.
  rewrite (proj2 (Z.ltb_ge n 0)) by lia.
  change (BitLen (AddrV4 _)) with 32. by rewrite (proj2 (Z.ltb_ge 32 n)) by lia.
Qed.

Lemma To4_mapped b : length b = 4%nat → To4 (v4InV6Prefix ++ b) = Some b.
Proof. by destruct b as [|? [|? [|? [|? []]]]]. Qed.

(** An IPv4 address prints in the form it was written in. *)
Lemma IP_String_mapped a b c d : IP_String (v4InV6Prefix ++ [a; b; c; d]) = print_ipv4 a b c d.
Proof. unfold IP_String. by rewrite To4_mapped. Qed.

Lemma ParseIP_dotted a b c d : octets a b c d →
  ParseIP (print_ipv4 a b c d) = Some (v4InV6Prefix ++ [a; b; c; d]).
Proof.
  intros Ho. unfold ParseIP. change (String.list_ascii_of_string _) with (dotted a b c d).
  by rewrite ParseAddr_dotted.
Qed.
