(* ===== verification/GoSlices.v ===== *)
(** * Slices of Go and the arrays they share

    A slice is a window on an array: [append] writes into the array when it has
    room, and otherwise moves to a new one. Two slices of one array see each
    other's writes, so the arrays are kept in a heap. How much room a new array
    gets is the runtime's choice. *)

From S2P Require Import Prelude.

(** The capacity of the array [append] moves to, from the old capacity and the
    length needed. *)
Class AppendGrowth := {
  grow : nat → nat → nat;
  grow_enough : ∀ c n, n ≤ grow c n;
}.

Record slice := mkSlice {
  sl_array : nat;
  sl_len : nat;
  sl_cap : nat;
}.

Definition nil_slice : slice := mkSlice 0 0 0.

(** The arrays, in the order they were made; each as far as it was written. *)
Abbreviation arrays A := (list (list A)).

Section slices.
Context {A : Type}.

Definition array_of (h : arrays A) (s : slice) : list A := default [] (h !! sl_array s).
Definition elems (h : arrays A) (s : slice) : list A := take (sl_len s) (array_of h s).

(** [append(s, x)] *)
Definition append `{AppendGrowth} (s : slice) (x : A) (h : arrays A) : slice * arrays A :=
  if bool_decide (sl_len s < sl_cap s) then
    (mkSlice (sl_array s) (S (sl_len s)) (sl_cap s),
     <[sl_array s := take (sl_len s) (array_of h s) ++ x :: drop (S (sl_len s)) (array_of h s)]> h)
  else
    (mkSlice (length h) (S (sl_len s)) (grow (sl_cap s) (S (sl_len s))), h ++ [elems h s ++ [x]]).

(** A slice whose elements are there. *)
Record slice_wf (h : arrays A) (s : slice) : Prop := {
  sw_cap : sl_len s ≤ sl_cap s;
  sw_array : sl_cap s = 0 ∨ sl_array s < length h;
  sw_len : sl_len s ≤ length (array_of h s);
}.

Lemma nil_slice_wf h : slice_wf h nil_slice.
Proof. split; simpl; [lia|by left|lia]. Qed.

Lemma elems_length h s : slice_wf h s → length (elems h s) = sl_len s.
Proof. intros [_ _ ?]. unfold elems. rewrite length_take. lia. Qed.

Lemma array_of_insert h t k a : sl_array t = k → k < length h → array_of (<[k := a]> h) t = a.
Proof. intros <- ?. unfold array_of. by rewrite list_lookup_insert_eq. Qed.

Lemma array_of_insert_ne h t k a : sl_array t ≠ k → array_of (<[k := a]> h) t = array_of h t.
Proof. intros ?. unfold array_of. by rewrite list_lookup_insert_ne. Qed.

Context `{AppendGrowth}.

Lemma append_elems s x h s' h' :
  slice_wf h s → append s x h = (s', h') → elems h' s' = elems h s ++ [x] ∧ slice_wf h' s'.
Proof.
  intros Hwf. pose proof (elems_length h s Hwf) as Hlen. destruct Hwf as [Hc Ha Hl]. unfold append.
  case_bool_decide as Hroom; intros [= <- <-].
  - assert (Hin : sl_array s < length h) by (destruct Ha; lia).
    assert (Hnew : array_of (<[sl_array s := take (sl_len s) (array_of h s) ++ x :: drop (S (sl_len s)) (array_of h s)]> h)
      (mkSlice (sl_array s) (S (sl_len s)) (sl_cap s)) =
      (elems h s ++ [x]) ++ drop (S (sl_len s)) (array_of h s)).
    { rewrite array_of_insert by done. unfold elems. by rewrite <-app_assoc. }
    split.
    + unfold elems at 1. rewrite Hnew. simpl. rewrite take_app_length'; [done|].
      rewrite length_app, Hlen. simpl. lia.
    + split; [simpl; lia|right; simpl; by rewrite length_insert|]. rewrite Hnew. simpl.
      rewrite !length_app, Hlen. simpl. lia.
  - assert (Hnew : array_of (h ++ [elems h s ++ [x]]) (mkSlice (length h) (S (sl_len s)) (grow (sl_cap s) (S (sl_len s)))) =
      elems h s ++ [x]).
    { unfold array_of. simpl. by rewrite lookup_app_r, Nat.sub_diag by lia. }
    split.
    + unfold elems at 1. rewrite Hnew. simpl. apply take_ge. rewrite length_app, Hlen. simpl. lia.
    + split; [simpl; apply grow_enough|right; simpl; rewrite length_app; simpl; lia|].
      rewrite Hnew, length_app, Hlen. simpl. lia.
Qed.

(** A slice of another array, or no longer than the one appended to, keeps its
    elements; so does every slice when there is no room. *)
Lemma append_other s x h s' h' t :
  slice_wf h s → slice_wf h t → append s x h = (s', h') →
  sl_array t ≠ sl_array s ∨ sl_len t ≤ sl_len s ∨ sl_len s = sl_cap s →
  elems h' t = elems h t ∧ slice_wf h' t.
Proof.
  intros Hws Hwt. pose proof (elems_length h s Hws) as Hlen. destruct Hwt as [Hc Ha Hl]. unfold append.
  case_bool_decide as Hroom; intros [= _ <-] Ht.
  - destruct (decide (sl_array t = sl_array s)) as [Heq|Hne].
    + assert (Hle : sl_len t ≤ sl_len s) by (destruct Ht as [?|[?|?]]; [done|done|lia]).
      assert (Hin : sl_array s < length h) by (destruct Hws as [? [?|?] ?]; lia).
      assert (Hat : array_of h t = array_of h s) by (unfold array_of; by rewrite Heq).
      assert (Hnew : array_of (<[sl_array s := take (sl_len s) (array_of h s) ++ x :: drop (S (sl_len s)) (array_of h s)]> h) t =
        take (sl_len s) (array_of h s) ++ x :: drop (S (sl_len s)) (array_of h s)).
      { by apply array_of_insert. }
      split.
      * unfold elems at 1. rewrite Hnew. fold (elems h s). rewrite take_app_le by lia.
        unfold elems. rewrite take_take, Hat. f_equal. lia.
      * split; [done|destruct Ha; [by left|right; by rewrite length_insert]|].
        rewrite Hnew, length_app. fold (elems h s). lia.
    + assert (Hsame : array_of (<[sl_array s := take (sl_len s) (array_of h s) ++ x :: drop (S (sl_len s)) (array_of h s)]> h) t =
        array_of h t) by (by apply array_of_insert_ne).
      split; [unfold elems; by rewrite Hsame|]. split; [done|destruct Ha; [by left|right; by rewrite length_insert]|].
      by rewrite Hsame.
  - assert (Hsame : sl_len t = 0 ∨ array_of (h ++ [elems h s ++ [x]]) t = array_of h t).
    { destruct Ha as [H0|Hin]; [left; lia|right]. unfold array_of. by rewrite lookup_app_l. }
    split.
    + change (take (sl_len t) (array_of (h ++ [elems h s ++ [x]]) t) = take (sl_len t) (array_of h t)).
      destruct Hsame as [->|Hsame]; [by rewrite !take_0|by rewrite Hsame].
    + split; [done|destruct Ha; [by left|right; rewrite length_app; lia]|].
      destruct Hsame as [->|Hsame]; [lia|by rewrite Hsame].
Qed.

End slices.

(** The growth of the Go runtime for the small capacities of pointer-sized
    elements: twice the old capacity, or what is needed if that is more. *)
#[export] Program Instance gc_growth : AppendGrowth := {| grow c n := Nat.max n (2 * c) |}.
Next Obligation. intros; simpl; lia. Qed.

(** A runtime that always leaves room, which the language allows as well. *)
Program Definition roomy_growth : AppendGrowth := {| grow c n := n + 4 |}.
Next Obligation. intros; simpl; lia. Qed.
