(* ===== verification/GoPath.v ===== *)
(** * File paths and lower case

    [filepath.Join] with the [filepath.Clean] it applies, on a system whose
    separator is the slash, and [strings.ToLower] for letters of ASCII: no other
    character has a lower case that is a letter of ASCII but the Kelvin sign and
    the dotted capital I, whose lower cases (k and i) no caller looks for. *)

From S2P Require Import Prelude GoStrings.
From Stdlib Require Import Ascii.

Definition slash : ascii := "/"%char.

(** The parts of a string between the slashes. *)
Fixpoint split_slash (s : string) : list string :=
  match s with
  | EmptyString => [""]
  | String c s' =>
      if Ascii.eqb c slash then "" :: split_slash s'
      else match split_slash s' with
           | part :: parts => String c part :: parts
           | [] => [String c ""]
           end
  end.

(** One part of the path; [out] is what is kept so far, the last part first. *)
Definition clean_part (rooted : bool) (out : list string) (part : string) : list string :=
  if String.eqb part "" || String.eqb part "." then out
  else if String.eqb part ".." then
    match out with
    | top :: out' => if String.eqb top ".." then part :: out else out'
    | [] => if rooted then [] else [part]
    end
  else part :: out.

Definition Clean (path : string) : string :=
  if String.eqb path "" then "."
  else
    let rooted := HasPrefix path "/" in
    let cleaned := String.concat "/" (reverse (foldl (clean_part rooted) [] (split_slash path))) in
    if rooted then "/" +:+ cleaned
    else if String.eqb cleaned "" then "." else cleaned.

(** [filepath.Join(elem...)] *)
Fixpoint Join (elem : list string) : string :=
  match elem with
  | [] => ""
  | e :: elem' => if String.eqb e "" then Join elem' else Clean (String.concat "/" elem)
  end.

(** [strings.ToLower(s)] *)
Definition lower_ascii (c : ascii) : ascii :=
  let z := N_of_ascii c in
  if ((65 <=? z) && (z <=? 90))%N then ascii_of_N (z + 32) else c.

Fixpoint ToLower (s : string) : string :=
  match s with
  | EmptyString => ""
  | String c s' => String (lower_ascii c) (ToLower s')
  end.

Example Join_plain : Join ["/tmp/k8s-webhook-server/serving-certs"; "tls.crt"] =
  "/tmp/k8s-webhook-server/serving-certs/tls.crt".
Proof. reflexivity. Qed.

Example Join_dots : Join ["certs/../keys/"; "./tls.key"] = "keys/tls.key".
Proof. reflexivity. Qed.
