(* ===== verification/GoHeap.v ===== *)
(** * The heap of Go, for code about sharing

    The rest of the development works on values. This file has the memory under
    them: cells that pointers, maps and slices refer to, pointers to a cell, to a
    field and to an element, and the idioms of [make], [new], [copy] and assignment
    that generated code is made of. A predicate [relr] says which value is read
    through the references of a struct and in which cells; [copies] and
    [deep_copy_ok] say what it is to copy one deeply. *)

From S2P Require Import Prelude.

Set Default Proof Using "Type".

(** ** References *)

(** How the fields of a struct refer to what they do not hold themselves: by
    location in memory; by the content itself in a value, [None] for nil. *)
Record refs := mkRefs {
  ref : Type → Type;
  sl : Type → Type;
}.

(** A slice: its array, where it starts, its length and its capacity. *)
Record header := mkHeader {
  sh_array : nat;
  sh_off : nat;
  sh_len : nat;
  sh_cap : nat;
}.

Definition mem : refs := mkRefs (λ _, option nat) (λ _, option header).
Definition val : refs := mkRefs option (λ A, option (list A)).

Class Zero (A : Type) := zero : A.
#[export] Instance zero_string : Zero string := "".
#[export] Instance zero_Z : Zero Z := 0%Z.
#[export] Instance zero_option A : Zero (option A) := None.

(** A field of a struct, with how it is read and assigned. *)
Record field (A B : Type) := mkField {
  f_get : A → B;
  f_set : B → A → A;
}.
Arguments mkField {A B}.
Arguments f_get {A B}.
Arguments f_set {A B}.

Class FieldLaws {A B} (f : field A B) : Prop := {
  f_get_set : ∀ a b, f_get f (f_set f b a) = b;
  f_set_set : ∀ a b b', f_set f b (f_set f b' a) = f_set f b a;
  f_set_get : ∀ a, f_set f (f_get f a) a = a;
}.

(** ** Cells and pointers *)

(** The cells, in the order they were made: a new one never has the location of
    another. *)
Abbreviation heap cell := (list cell).

Section heap.
Context {cell : Type}.

Class Boxed (A : Type) := {
  box : A → cell;
  unbox : cell → option A;
  unbox_box : ∀ a, unbox (box a) = Some a;
  box_unbox : ∀ c a, unbox c = Some a → box a = c;
}.

(** A pointer: to a cell, or to a part of one. *)
Record ptr (A : Type) := mkPtr {
  p_loc : nat;
  p_get : cell → option A;
  p_put : A → cell → cell;
}.

Class PtrLaws {A} (p : ptr A) : Prop := {
  p_get_put : ∀ c a b, p_get A p c = Some b → p_get A p (p_put A p a c) = Some a;
  p_put_put : ∀ c a b, p_put A p a (p_put A p b c) = p_put A p a c;
  p_put_get : ∀ c a, p_get A p c = Some a → p_put A p a c = c;
}.
End heap.

Arguments Boxed cell A : clear implicits.
Arguments ptr cell A : clear implicits.
Arguments mkPtr {cell A}.
Arguments p_loc {cell A}.
Arguments p_get {cell A}.
Arguments p_put {cell A}.

Section pointers.
Context {cell : Type}.
Implicit Types h : heap cell.

Definition cell_ptr {A} `{!Boxed cell A} (l : nat) : ptr cell A := mkPtr l unbox (λ a _, box a).

(** [&p.f] *)
Definition at_field {A B} (p : ptr cell A) (f : field A B) : ptr cell B :=
  mkPtr (p_loc p) (λ c, f_get f <$> p_get p c)
    (λ b c, match p_get p c with Some a => p_put p (f_set f b a) c | None => c end).

(** [&s[i]], for the [k]-th element of the array of [s] *)
Definition elem_ptr {A} `{!Boxed cell (list A)} (l k : nat) : ptr cell A :=
  mkPtr l (λ c, unbox c ≫= (.!! k))
    (λ a c, match unbox c with Some xs => box (<[k := a]> xs) | None => c end).

Definition peek {A} (p : ptr cell A) (h : heap cell) : option A := h !! p_loc p ≫= p_get p.
Definition poke {A} (p : ptr cell A) (a : A) (h : heap cell) : heap cell := alter (p_put p a) (p_loc p) h.

Definition nil_dereference : string := "invalid memory address or nil pointer dereference".

(** [*p] and [*p = a] *)
Definition load {A} (p : ptr cell A) : st (heap cell) A := λ h,
  match peek p h with Some a => (Ok a, h) | None => (Panic nil_dereference, h) end.
Definition store {A} (p : ptr cell A) (a : A) : st (heap cell) unit := λ h,
  match peek p h with Some _ => (Ok tt, poke p a h) | None => (Panic nil_dereference, h) end.

(** [new(T)], with the value the cell starts with *)
Definition alloc {A} `{!Boxed cell A} (a : A) : st (heap cell) (ptr cell A) := λ h,
  (Ok (cell_ptr (length h)), h ++ [box a]).

(** The cell a pointer, map or slice in memory refers to. *)
Definition deref {A} `{!Boxed cell A} (r : option nat) : st (heap cell) (ptr cell A) :=
  match r with Some l => st_ret (cell_ptr l) | None => st_panic nil_dereference end.

(** ** The idioms of generated code *)

(** [*out = *in] *)
Definition assign {A} (in_ out : ptr cell A) : st (heap cell) unit :=
  let! x := load in_ in store out x.

(** [if *in != nil { *out = new(T); body }], the body being given [*in] and [*out] *)
Definition copy_ref {A} `{!Boxed cell A} `{!Zero A} (body : ptr cell A → ptr cell A → st (heap cell) unit)
    (in_ out : ptr cell (option nat)) : st (heap cell) unit :=
  let! r := load in_ in
  match r with
  | None => st_ret tt
  | Some _ =>
      let! q := alloc zero in
      do! store out (Some (p_loc q)) then
      let! i := load in_ in let! i := deref i in
      let! o := load out in let! o := deref o in
      body i o
  end.

(** [( *out)[key] = v] *)
Definition map_assign {A} `{!Boxed cell (gmap string A)} (out : ptr cell (option nat)) (key : string) (v : A) :
  st (heap cell) unit :=
  let! r := load out in
  match r with
  | None => st_panic "assignment to entry in nil map"
  | Some l => let! m := load (cell_ptr l) in store (cell_ptr l) (<[key := v]> m)
  end.

(** [if *in != nil { *out = make(map[string]T, len( *in));
     for key, val := range *in { ( *out)[key] = elem(val) } }] *)
Definition copy_map `{MapOrder} {A} `{!Boxed cell (gmap string A)} (loop : nat) (elem : A → st (heap cell) A)
    (in_ out : ptr cell (option nat)) : st (heap cell) unit :=
  let! r := load in_ in
  match r with
  | None => st_ret tt
  | Some _ =>
      let! q := alloc (∅ : gmap string A) in
      do! store out (Some (p_loc q)) then
      let! i := load in_ in let! i := deref i in let! m := load i in
      st_iter (λ '(key, val), let! v := elem val in map_assign out key v) (range loop m)
  end.

(** The elements of a slice, in the array it is a window on. *)
Definition window {A} (s : header) (xs : list A) : list A := take (sh_len s) (drop (sh_off s) xs).

(** [make([]T, n)] *)
Definition make_slice {A} `{!Boxed cell (list A)} `{!Zero A} (n : nat) : st (heap cell) header :=
  let! q := alloc (replicate n (zero (A := A))) in st_ret (mkHeader (p_loc q) 0 n n).

Definition header_of (s : option header) : header := default (mkHeader 0 0 0 0) s.

(** [copy(dst, src)] *)
Definition copy_elems {A} `{!Boxed cell (list A)} (dst src : header) : st (heap cell) unit :=
  let! xs := load (cell_ptr (sh_array src)) in
  let! ys := load (cell_ptr (A := list A) (sh_array dst)) in
  let n := Nat.min (sh_len dst) (sh_len src) in
  store (cell_ptr (sh_array dst))
    (take (sh_off dst) ys ++ take n (window src xs) ++ drop (sh_off dst + n) ys).

(** [if *in != nil { *out = make([]T, len( *in)); copy( *out, *in) }] *)
Definition copy_slice {A} `{!Boxed cell (list A)} `{!Zero A} (in_ out : ptr cell (option header)) :
  st (heap cell) unit :=
  let! r := load in_ in
  match r with
  | None => st_ret tt
  | Some s =>
      let! t := make_slice (A := A) (sh_len s) in
      do! store out (Some t) then
      let! i := load in_ in let! o := load out in
      copy_elems (A := A) (header_of o) (header_of i)
  end.

(** [&s[i]], or the panic of an index out of range *)
Definition index {A} `{!Boxed cell (list A)} (s : header) (i : nat) : st (heap cell) (ptr cell A) :=
  if bool_decide (i < sh_len s) then st_ret (elem_ptr (sh_array s) (sh_off s + i))
  else st_panic "index out of range".

(** [if *in != nil { *out = make([]T, len( *in));
     for i := range *in { ( *in)[i].DeepCopyInto(&( *out)[i]) } }] *)
Definition copy_slice_into {A} `{!Boxed cell (list A)} `{!Zero A}
    (into : ptr cell A → ptr cell A → st (heap cell) unit) (in_ out : ptr cell (option header)) :
  st (heap cell) unit :=
  let! r := load in_ in
  match r with
  | None => st_ret tt
  | Some s =>
      let! t := make_slice (A := A) (sh_len s) in
      do! store out (Some t) then
      st_iter (λ i, let! s := load in_ in let! t := load out in
        let! pi := index (header_of s) i in let! po := index (header_of t) i in
        into pi po) (seq 0 (sh_len s))
  end.

(** [DeepCopy], as generated for every type *)
Definition deep_copy {A} `{!Boxed cell A} `{!Zero A} (into : ptr cell A → ptr cell A → st (heap cell) unit)
    (in_ : option (ptr cell A)) : st (heap cell) (option (ptr cell A)) :=
  match in_ with
  | None => st_ret None
  | Some in_ =>
      let! out := alloc zero in
      do! into in_ out then st_ret (Some out)
  end.

(** [*val.DeepCopy()] of a loop variable *)
Definition copy_value {A} `{!Boxed cell A} (copy : option (ptr cell A) → st (heap cell) (option (ptr cell A)))
    (val : A) : st (heap cell) A :=
  let! p := alloc val in
  let! q := copy (Some p) in
  match q with Some q => load q | None => st_panic nil_dereference end.

(** ** Reading and writing *)

#[export] Instance cell_ptr_laws {A} `{!Boxed cell A} l : PtrLaws (cell_ptr (A := A) l).
Proof. split; intros; simpl; [apply unbox_box|done|by apply box_unbox]. Qed.

#[export] Instance at_field_laws {A B} (p : ptr cell A) (f : field A B) :
  PtrLaws p → FieldLaws f → PtrLaws (at_field p f).
Proof.
  intros [Hg Hp Hpg] [Hf Hs Hsg]. split; intros c a; [intros b|intros b|]; simpl; destruct (p_get p c) as [x|] eqn:Hx.
  - intros _. rewrite (Hg _ _ _ Hx). simpl. by rewrite Hf.
  - done.
  - by rewrite (Hg _ _ _ Hx), Hp, Hs.
  - by rewrite Hx.
  - simpl. intros [= <-]. rewrite Hsg. by apply Hpg.
  - done.
Qed.

#[export] Instance elem_ptr_laws {A} `{!Boxed cell (list A)} l k : PtrLaws (elem_ptr (A := A) l k).
Proof.
  split; intros c a; [intros b|intros b|]; simpl; destruct (unbox c) as [xs|] eqn:Hc; simpl.
  - intros Hx. rewrite unbox_box. simpl. apply list_lookup_insert_eq. by eapply lookup_lt_Some.
  - done.
  - rewrite unbox_box. f_equal. apply list_insert_insert_eq.
  - by rewrite Hc.
  - intros Hx. rewrite list_insert_id by done. by apply box_unbox.
  - done.
Qed.

Lemma load_ok {A} (p : ptr cell A) h a : peek p h = Some a → load p h = (Ok a, h).
Proof. unfold load. by intros ->. Qed.

Lemma store_ok {A} (p : ptr cell A) h a b : peek p h = Some b → store p a h = (Ok tt, poke p a h).
Proof. unfold store. by intros ->. Qed.

Lemma st_bind_step {A B} (c : st (heap cell) A) (f : A → st (heap cell) B) h a h' :
  c h = (Ok a, h') → st_bind c f h = f a h'.
Proof. unfold st_bind. by intros ->. Qed.

Lemma peek_lt {A} (p : ptr cell A) h a : peek p h = Some a → p_loc p < length h.
Proof. unfold peek. destruct (h !! p_loc p) eqn:Hl; [|done]. intros _. by eapply lookup_lt_Some. Qed.

Lemma peek_poke {A} (p : ptr cell A) `{!PtrLaws p} h a b : peek p h = Some b → peek p (poke p a h) = Some a.
Proof.
  unfold peek, poke. rewrite list_lookup_alter_eq. destruct (h !! p_loc p) as [c|]; [|done]. simpl. apply p_get_put.
Qed.

Lemma peek_poke_ne {A B} (p : ptr cell A) (q : ptr cell B) h a : p_loc q ≠ p_loc p → peek q (poke p a h) = peek q h.
Proof. intros Hne. unfold peek, poke. by rewrite list_lookup_alter_ne. Qed.

Lemma poke_poke {A} (p : ptr cell A) `{!PtrLaws p} h a b : poke p a (poke p b h) = poke p a h.
Proof.
  unfold poke. rewrite list_alter_alter_eq. apply list_alter_ext; [|done]. intros c _. simpl. apply p_put_put.
Qed.

Lemma poke_same {A} (p : ptr cell A) `{!PtrLaws p} h a : peek p h = Some a → poke p a h = h.
Proof.
  intros Hp. apply list_eq. intros l. destruct (decide (l = p_loc p)) as [->|Hne].
  - unfold poke. rewrite list_lookup_alter_eq. unfold peek in Hp. destruct (h !! p_loc p) as [c|]; [|done].
    simpl in *. by rewrite p_put_get.
  - unfold poke. by rewrite list_lookup_alter_ne.
Qed.

Lemma length_poke {A} (p : ptr cell A) h a : length (poke p a h) = length h.
Proof. apply length_alter. Qed.

Lemma lookup_poke_ne {A} (p : ptr cell A) h a l : l ≠ p_loc p → poke p a h !! l = h !! l.
Proof. intros ?. by apply list_lookup_alter_ne. Qed.

Lemma peek_app {A} (p : ptr cell A) h h' a : peek p h = Some a → peek p (h ++ h') = Some a.
Proof. intros Hp. pose proof (peek_lt _ _ _ Hp). unfold peek. by rewrite lookup_app_l. Qed.

Lemma poke_app {A} (p : ptr cell A) h h' a : p_loc p < length h → poke p a h ++ h' = poke p a (h ++ h').
Proof. intros ?. unfold poke. symmetry. by apply alter_app_l. Qed.

Lemma peek_cell {A} `{!Boxed cell A} h (a : A) h' : peek (cell_ptr (length h)) (h ++ box a :: h') = Some a.
Proof. unfold peek. simpl. rewrite lookup_app_r, Nat.sub_diag by lia. apply unbox_box. Qed.

Lemma peek_elem {A} `{!Boxed cell (list A)} l k h (xs : list A) a :
  peek (cell_ptr l) h = Some xs → xs !! k = Some a → peek (elem_ptr l k) h = Some a.
Proof. unfold peek. simpl. destruct (h !! l) as [c|]; [|done]. simpl. by intros ->. Qed.

(** Writing a field is writing the struct with the field changed. *)
Lemma poke_field {A B} (p : ptr cell A) `{!PtrLaws p} (f : field A B) h a b x :
  peek p h = Some x → poke (at_field p f) b (poke p a h) = poke p (f_set f b a) h.
Proof.
  intros Hx. unfold poke. cbn [p_loc p_put at_field]. rewrite list_alter_alter_eq. apply list_alter_ext; [|done].
  intros c Hc. unfold peek in Hx. rewrite Hc in Hx. simpl in *. by rewrite (p_get_put _ _ _ Hx), p_put_put.
Qed.

Lemma peek_field {A B} (p : ptr cell A) (f : field A B) h x :
  peek p h = Some x → peek (at_field p f) h = Some (f_get f x).
Proof. unfold peek. cbn [p_loc p_get at_field]. destruct (h !! p_loc p); [|done]. simpl. by intros ->. Qed.

End pointers.

(** ** What is read through the references of a struct *)

Section represents.
Context {cell : Type}.
Implicit Types h : heap cell.

(** [r D h x v]: with the heap [h], the struct [x] reads as the value [v], and every
    cell it is read from satisfies [D]. *)
Definition relr (A V : Type) : Type := (nat → Prop) → heap cell → A → V → Prop.

(** A struct reads the same in every heap that keeps the cells it is read from. *)
Class Stable {A V} (r : relr A V) : Prop :=
  stable : ∀ (D D' : nat → Prop) h h' x v, r D h x v →
    (∀ l c, D l → h !! l = Some c → D' l ∧ h' !! l = Some c) → r D' h' x v.

Definition anywhere : nat → Prop := λ _, True.
Definition beyond h : nat → Prop := λ l, length h ≤ l.

Definition rep_eq {A} : relr A A := λ _ _ x v, x = v.

(** A pointer to a cell. *)
Definition rep_ref {A V} `{!Boxed cell A} (r : relr A V) : relr (option nat) (option V) := λ D h x v,
  match x, v with
  | None, None => True
  | Some l, Some v => D l ∧ ∃ a, peek (cell_ptr l) h = Some a ∧ r D h a v
  | _, _ => False
  end.

(** The content of a map. *)
Definition rep_map {A V} (r : relr A V) : relr (gmap string A) (gmap string V) := λ D h m w,
  ∀ k, option_Forall2 (r D h) (m !! k) (w !! k).

(** A slice. *)
Definition rep_slice {A V} `{!Boxed cell (list A)} (r : relr A V) : relr (option header) (option (list V)) := λ D h x v,
  match x, v with
  | None, None => True
  | Some s, Some vs => D (sh_array s) ∧ ∃ xs, peek (cell_ptr (sh_array s)) h = Some xs ∧
      sh_off s + sh_len s ≤ length xs ∧ Forall2 (r D h) (window s xs) vs
  | _, _ => False
  end.

#[export] Instance rep_eq_stable {A} : Stable (rep_eq (A := A)).
Proof. by intros D D' h h' x v Hr _. Qed.

Lemma peek_same {A} (p : ptr cell A) h h' a :
  peek p h = Some a → (∀ c, h !! p_loc p = Some c → h' !! p_loc p = Some c) → peek p h' = Some a.
Proof. unfold peek. destruct (h !! p_loc p) as [c|]; [|done]. intros Ha Hc. by rewrite (Hc c). Qed.

#[export] Instance rep_ref_stable {A V} `{!Boxed cell A} (r : relr A V) : Stable r → Stable (rep_ref r).
Proof.
  intros Hr D D' h h' [l|] [v|]; try done. intros (Hl & a & Ha & Hav) Hk.
  pose proof (peek_lt _ _ _ Ha) as [c Hc]%lookup_lt_is_Some. split; [by destruct (Hk l c)|].
  exists a. split; [|by eapply Hr]. eapply peek_same; [done|]. intros c' Hc'. by destruct (Hk l c').
Qed.

#[export] Instance rep_map_stable {A V} (r : relr A V) : Stable r → Stable (rep_map r).
Proof.
  intros Hr D D' h h' m w Hm Hk k. destruct (Hm k); constructor. by eapply Hr.
Qed.

#[export] Instance rep_slice_stable {A V} `{!Boxed cell (list A)} (r : relr A V) : Stable r → Stable (rep_slice r).
Proof.
  intros Hr D D' h h' [s|] [vs|]; try done. intros (Hl & xs & Ha & Hle & Hav) Hk.
  pose proof (peek_lt _ _ _ Ha) as [c Hc]%lookup_lt_is_Some. split; [by destruct (Hk (sh_array s) c)|].
  exists xs. split_and!; [|done|].
  - eapply peek_same; [done|]. intros c' Hc'. by destruct (Hk (sh_array s) c').
  - eapply Forall2_impl; [done|]. intros a b Hab. by eapply Hr.
Qed.

Lemma rep_map_eq {A} D h (m : gmap string A) : rep_map rep_eq D h m m.
Proof. intros k. by destruct (m !! k); constructor. Qed.

Lemma rep_map_singleton {A V} (r : relr A V) D h k a b : r D h a b → rep_map r D h {[k := a]} {[k := b]}.
Proof.
  intros Hr k'. destruct (decide (k' = k)) as [->|Hne]; [rewrite !lookup_singleton_eq; by constructor|].
  rewrite !lookup_singleton_ne by done. constructor.
Qed.

(** *** Consequences of stability *)

Lemma stable_app {A V} (r : relr A V) `{!Stable r} (D D' : nat → Prop) h news x v :
  r D h x v → (∀ l, D l → D' l) → r D' (h ++ news) x v.
Proof. intros Hr HD. eapply stable; [done|]. intros l c Hl Hc. split; [auto|by apply lookup_app_l_Some]. Qed.

(** What a struct is read from is there, so it is no new cell. *)
Lemma stable_lt {A V} (r : relr A V) `{!Stable r} D h x v : r D h x v → r (λ l, D l ∧ l < length h) h x v.
Proof. intros Hr. eapply stable; [done|]. intros l c Hl Hc. split; [|done]. split; [done|by eapply lookup_lt_Some]. Qed.

Lemma stable_poke {A V B} (r : relr A V) `{!Stable r} (p : ptr cell B) b (D D' : nat → Prop) h news x v :
  r D h x v → (∀ l, D l → l < length h → l ≠ p_loc p ∧ D' l) → r D' (poke p b (h ++ news)) x v.
Proof.
  intros Hr HD. eapply stable; [done|]. intros l c Hl Hc. destruct (HD l Hl) as [Hne Hl']; [by eapply lookup_lt_Some|].
  split; [done|]. rewrite lookup_poke_ne by done. by apply lookup_app_l_Some.
Qed.

(** ** What it is to copy deeply *)

(** From [*in], which reads as [v] without the cell of [*out], [f] leaves in [*out] a
    struct that reads as [v] from new cells only, and changes nothing else. *)
Definition copies {A V} (r : relr A V) (f : ptr cell A → ptr cell A → st (heap cell) unit) : Prop :=
  ∀ h (i o : ptr cell A) x v old, PtrLaws o → p_loc i ≠ p_loc o →
    peek i h = Some x → peek o h = Some old → r (λ l, l ≠ p_loc o) h x v →
    ∃ y news, f i o h = (Ok tt, poke o y (h ++ news)) ∧ r (beyond h) (h ++ news) y v.

(** The same of a part of a struct that was assigned before: [*out] holds the references
    of [*in]. *)
Definition fills {A V} (r : relr A V) (f : ptr cell A → ptr cell A → st (heap cell) unit) : Prop :=
  ∀ h (i o : ptr cell A) x v, PtrLaws o → p_loc i ≠ p_loc o →
    peek i h = Some x → peek o h = Some x → r (λ l, l ≠ p_loc o) h x v →
    ∃ y news, f i o h = (Ok tt, poke o y (h ++ news)) ∧ r (beyond h) (h ++ news) y v.

Lemma copies_fills {A V} (r : relr A V) f : copies r f → fills r f.
Proof. intros Hf h i o x v ?????. by eapply Hf. Qed.

(** The same of a value that is returned. *)
Definition copies_value {A V} (r : relr A V) (f : A → st (heap cell) A) : Prop :=
  ∀ h x v, r anywhere h x v → ∃ y news, f x h = (Ok y, h ++ news) ∧ r (beyond h) (h ++ news) y v.

(** [*q] is a copy of [*p] in new cells [news]. It reads as the original does, as long as
    the new cells are kept, whatever becomes of the old ones; and the original reads as
    before as long as the old cells are kept, whatever becomes of the new ones. *)
Definition copied_apart {A V} (r : relr A V) h (p q : ptr cell A) v news : Prop := ∃ x y,
  (∀ h', (∀ l, length h ≤ l → h' !! l = (h ++ news) !! l) → peek q h' = Some y ∧ r (beyond h) h' y v) ∧
  (∀ h', (∀ l, l < length h → h' !! l = h !! l) → peek p h' = Some x ∧ r anywhere h' x v).

(** A deep copy: [nil] is copied to [nil]; what reads as [v] is copied apart, and the
    heap grows by the new cells and changes nowhere else. *)
Definition deep_copy_ok {A V} (r : relr A V) (f : option (ptr cell A) → st (heap cell) (option (ptr cell A))) : Prop :=
  (∀ h, f None h = (Ok None, h)) ∧
  ∀ h p x v, peek p h = Some x → r anywhere h x v → ∃ q news,
    f (Some p) h = (Ok (Some q), h ++ news) ∧ copied_apart r h p q v news.

Lemma copies_assign {A} : copies (rep_eq (A := A)) assign.
Proof.
  intros h i o x v old Ho Hne Hi Hold ->. exists v, []. split; [|done].
  unfold assign. rewrite (st_bind_step _ _ _ _ _ (load_ok _ _ _ Hi)), (store_ok _ _ _ _ Hold). by rewrite app_nil_r.
Qed.

Lemma copies_value_ret {A} : copies_value (rep_eq (A := A)) st_ret.
Proof. intros h x v ->. exists v, []. by rewrite app_nil_r. Qed.

(** [DeepCopy] is right when [DeepCopyInto] is. *)
Lemma deep_copy_correct {A V} `{!Boxed cell A} `{!Zero A} (r : relr A V) `{!Stable r} into :
  copies r into → deep_copy_ok r (deep_copy into).
Proof.
  intros Hinto. split; [done|]. intros h p x v Hp Hr. pose proof (peek_lt _ _ _ Hp) as Hlt.
  destruct (Hinto (h ++ [box zero]) p (cell_ptr (length h)) x v zero) as (y & news & Hf & Hy).
  { apply _. } { simpl. lia. } { by apply peek_app. } { apply peek_cell. }
  { eapply (stable_app r); [by apply (stable_lt r)|]. simpl. lia. }
  exists (cell_ptr (length h)), (box y :: news).
  assert (Hpoke : poke (cell_ptr (length h)) y ((h ++ [box zero]) ++ news) = h ++ box y :: news).
  { unfold poke. rewrite <-app_assoc, alter_app_r_alt by done. simpl. by rewrite Nat.sub_diag. }
  rewrite Hpoke in Hf. split; [|exists x, y; split].
  - unfold deep_copy. erewrite st_bind_step by done. by erewrite st_bind_step by exact Hf.
  - intros h' Hh'. split.
    + unfold peek. simpl. rewrite Hh' by lia. apply peek_cell.
    + eapply (stable (r:=r)); [exact Hy|]. intros l c Hl Hc. unfold beyond in *. rewrite length_app in Hl. simpl in Hl.
      split; [lia|]. rewrite Hh' by lia. rewrite lookup_app_r in Hc by (rewrite length_app; simpl; lia).
      rewrite lookup_app_r by lia. rewrite length_app in Hc. simpl in Hc.
      replace (l - length h) with (S (l - (length h + 1))) by lia. done.
  - intros h' Hh'. split; [eapply peek_same; [done|]; intros c <-; by apply Hh'|].
    eapply (stable (r:=r)); [by apply (stable_lt r)|]. intros l c [_ Hl] Hc. split; [done|]. by rewrite Hh'.
Qed.

End represents.

(** ** The idioms copy deeply *)

(** One call of a sequence whose result is known. *)
Ltac go_step H := rewrite (st_bind_step _ _ _ _ _ H).

Section idioms.
Context {cell : Type}.
Implicit Types h : heap cell.

(** The cell made last is written under an older one. *)
Lemma poke_fresh {A B} `{!Boxed cell A} (o : ptr cell B) s h z (y : A) news : p_loc o < length h →
  poke (cell_ptr (length h)) y (poke o s (h ++ z :: news)) = poke o s (h ++ box y :: news).
Proof.
  intros Hlt. unfold poke. simpl. rewrite list_alter_alter_ne by lia. rewrite alter_app_r_alt by done.
  by rewrite Nat.sub_diag.
Qed.

(** The cells after it do not depend on either. *)
Lemma fresh_tail {B} (o : ptr cell B) s h z z' news l : p_loc o < length h → length h < l →
  (poke o s (h ++ z :: news)) !! l = (h ++ z' :: news) !! l.
Proof.
  intros Hlt Hl. rewrite lookup_poke_ne by lia. rewrite !lookup_app_r by lia.
  by replace (l - length h) with (S (l - length h - 1)) by lia.
Qed.

Lemma peek_fresh {A B} `{!Boxed cell A} (o : ptr cell B) s h (z : A) news : p_loc o < length h →
  peek (cell_ptr (length h)) (poke o s (h ++ box z :: news)) = Some z.
Proof. intros ?. rewrite peek_poke_ne by (simpl; lia). apply peek_cell. Qed.

(** A new cell is made and [*out] refers to it. *)
Lemma alloc_store {A B} `{!Boxed cell A} (o : ptr cell B) `{!PtrLaws o} h old (z : A) s :
  peek o h = Some old → store o s (h ++ [box z]) = (Ok tt, poke o s (h ++ [box z])) ∧
  peek o (poke o s (h ++ [box z])) = Some s ∧ p_loc o < length h.
Proof.
  intros Ho. pose proof (peek_app _ _ [box z] _ Ho) as Ho'. split_and!; [by eapply store_ok| |by eapply peek_lt].
  by eapply peek_poke.
Qed.

Lemma deref_some {A} `{!Boxed cell A} l h : deref (A := A) (Some l) h = (Ok (cell_ptr l), h).
Proof. done. Qed.

Lemma copy_ref_fills {A V} `{!Boxed cell A} `{!Zero A} (r : relr A V) `{!Stable r} body :
  copies r body → fills (rep_ref r) (copy_ref body).
Proof.
  intros Hbody h i o x v Ho Hne Hi Hold Hr. unfold copy_ref. go_step (load_ok _ _ _ Hi).
  destruct x as [l|], v as [w|]; try done; [|exists None, []; rewrite app_nil_r, poke_same by done; done].
  destruct Hr as (Hl & a & Ha & Hr). pose proof (peek_lt _ _ _ Ha) as Hlt. simpl in Hlt.
  destruct (alloc_store o h _ (zero (A := A)) (Some (length h)) Hold) as (Hs & Hp & Hlo).
  set (H0 := poke o (Some (length h)) (h ++ [box zero])) in *.
  assert (Hi0 : peek i H0 = Some (Some l)) by (unfold H0; rewrite peek_poke_ne by done; by apply peek_app).
  erewrite st_bind_step by reflexivity. cbn [p_loc cell_ptr]. go_step Hs. go_step (load_ok _ _ _ Hi0).
  go_step (deref_some (A := A) l H0). go_step (load_ok _ _ _ Hp). go_step (deref_some (A := A) (length h) H0).
  destruct (Hbody H0 (cell_ptr l) (cell_ptr (length h)) a w zero) as (y & news & Hf & Hy).
  { apply _. } { simpl. lia. } { unfold H0. rewrite peek_poke_ne by done. by apply peek_app. }
  { by apply peek_fresh. } { unfold H0. eapply (stable_poke r); [exact Hr|]. simpl. lia. }
  exists (Some (length h)), (box y :: news). subst H0.
  rewrite Hf. rewrite poke_app in Hy |- * by (rewrite length_app; lia). rewrite <-app_assoc in Hy |- *.
  simpl in Hy |- *. split; [f_equal; by apply poke_fresh|].
  split; [unfold beyond; lia|]. exists y. split; [apply peek_cell|].
  eapply (stable (r:=r)); [exact Hy|]. unfold beyond. rewrite length_poke, length_app. simpl. intros l' c Hl' Hc.
  split; [lia|]. rewrite <-Hc. symmetry. apply fresh_tail; lia.
Qed.

(** A write to the map that [*out] refers to. *)
Lemma map_assign_fresh {A} `{!Boxed cell (gmap string A)} (o : ptr cell (option nat)) `{!PtrLaws o} h old m news k (y : A) :
  peek o h = Some old →
  map_assign o k y (poke o (Some (length h)) (h ++ box m :: news)) =
    (Ok tt, poke o (Some (length h)) (h ++ box (<[k := y]> m) :: news)).
Proof.
  intros Ho. pose proof (peek_lt _ _ _ Ho) as Hlo. unfold map_assign.
  assert (Hp : peek o (poke o (Some (length h)) (h ++ box m :: news)) = Some (Some (length h)))
    by (eapply peek_poke, peek_app; [done|exact Ho]).
  go_step (load_ok _ _ _ Hp). pose proof (peek_fresh o (Some (length h)) h m news Hlo) as Hm.
  go_step (load_ok _ _ _ Hm). rewrite (store_ok _ _ _ _ Hm). f_equal. by apply poke_fresh.
Qed.

(** The loop over the entries of a map copies those it has visited. *)
Lemma map_loop {A V} `{!Boxed cell (gmap string A)} (r : relr A V) `{!Stable r} elem (o : ptr cell (option nat))
    `{!PtrLaws o} h old (w : gmap string V) :
  copies_value r elem → peek o h = Some old → ∀ kvs (m : gmap string A) news, NoDup kvs.*1 →
  (∀ k a, (k, a) ∈ kvs → ∃ b, w !! k = Some b ∧ r (λ l, l ≠ p_loc o) h a b) →
  ∃ m' news',
    st_iter (λ '(key, v), let! v' := elem v in map_assign o key v') kvs (poke o (Some (length h)) (h ++ box m :: news)) =
      (Ok tt, poke o (Some (length h)) (h ++ box m' :: news ++ news')) ∧
    (∀ k, k ∉ kvs.*1 → m' !! k = m !! k) ∧
    (∀ k a, (k, a) ∈ kvs → ∃ a' b, m' !! k = Some a' ∧ w !! k = Some b ∧
      r (λ l, length h < l) (h ++ box m' :: news ++ news') a' b).
Proof.
  intros Helem Ho. pose proof (peek_lt _ _ _ Ho) as Hlo.
  induction kvs as [|[k a] kvs IH]; intros m news Hnd Hkvs.
  { exists m, []. rewrite app_nil_r. split_and!; [done..|]. intros k a Hin. by apply not_elem_of_nil in Hin. }
  apply NoDup_cons in Hnd as [Hk Hnd]. simpl in Hk. destruct (Hkvs k a) as (b & Hb & Hab); [by left|].
  destruct (Helem (poke o (Some (length h)) (h ++ box m :: news)) a b) as (y & news1 & He & Hy).
  { eapply (stable_poke r); [exact Hab|]. done. }
  rewrite poke_app in He, Hy by (rewrite length_app; lia). rewrite <-app_assoc in He, Hy. simpl in He, Hy.
  destruct (IH (<[k := y]> m) (news ++ news1) Hnd) as (m' & news' & Hit & Hold & Hnew).
  { intros k' a' Hin. apply Hkvs. by right. }
  exists m', (news1 ++ news'). rewrite <-app_assoc in Hit, Hnew. split_and!.
  - cbn [st_iter]. erewrite st_bind_step; [exact Hit|]. erewrite st_bind_step by exact He. by eapply map_assign_fresh.
  - intros k' Hk'. apply not_elem_of_cons in Hk' as [Hne Hk']. rewrite Hold by done. by apply lookup_insert_ne.
  - intros k' a' [[= -> ->]|Hin]%elem_of_cons; [|by apply (Hnew k' a')].
    exists y, b. rewrite Hold, lookup_insert_eq by done. split_and!; [done..|].
    eapply (stable (r:=r)); [exact Hy|]. unfold beyond. rewrite length_poke, length_app. simpl. intros l c Hl Hc.
    split; [lia|]. rewrite (fresh_tail _ _ _ _ (box m')) in Hc by lia.
    apply (lookup_app_l_Some _ news') in Hc. by rewrite <-app_assoc in Hc; simpl in Hc; rewrite <-app_assoc in Hc.
Qed.

Lemma copy_map_fills `{MapOrder} {A V} `{!Boxed cell (gmap string A)} (r : relr A V) `{!Stable r} loop elem :
  copies_value r elem → fills (rep_ref (rep_map r)) (copy_map loop elem).
Proof.
  intros Helem h i o x v Ho Hne Hi Hold Hr. unfold copy_map. go_step (load_ok _ _ _ Hi).
  destruct x as [l|], v as [w|]; try done; [|exists None, []; rewrite app_nil_r, poke_same by done; done].
  destruct Hr as (Hl & m & Hm & Hr). pose proof (peek_lt _ _ _ Hm) as Hlt. simpl in Hlt.
  destruct (alloc_store o h _ (∅ : gmap string A) (Some (length h)) Hold) as (Hs & _ & Hlo).
  set (H0 := poke o (Some (length h)) (h ++ [box ∅])) in *.
  assert (Hi0 : peek i H0 = Some (Some l)) by (unfold H0; rewrite peek_poke_ne by done; by apply peek_app).
  assert (Hm0 : peek (cell_ptr l) H0 = Some m) by (unfold H0; rewrite peek_poke_ne by done; by apply peek_app).
  erewrite st_bind_step by reflexivity. cbn [p_loc cell_ptr]. go_step Hs. go_step (load_ok _ _ _ Hi0).
  go_step (deref_some (A := gmap string A) l H0). go_step (load_ok _ _ _ Hm0).
  destruct (map_loop r elem o h _ w Helem Hold (range loop m) ∅ [] (range_fst_NoDup _ _)) as (m' & news & Hit & Hnone & Hsome).
  { intros k a Hin%elem_of_range. specialize (Hr k). rewrite Hin in Hr. inversion Hr as [? b Hab Heq|]. by exists b. }
  exists (Some (length h)), (box m' :: news). subst H0. split; [exact Hit|]. split; [unfold beyond; lia|].
  exists m'. split; [apply peek_cell|]. intros k. destruct (m !! k) as [a|] eqn:Hk.
  - destruct (Hsome k a) as (a' & b & -> & -> & Hab); [by apply elem_of_range|]. constructor.
    eapply (stable (r:=r)); [exact Hab|]. unfold beyond. intros l' c Hl' Hc. split; [lia|done].
  - specialize (Hr k). rewrite Hk in Hr. inversion Hr as [|Hn]. rewrite Hnone; [constructor|].
    rewrite elem_of_range_fst. by apply not_elem_of_dom.
Qed.

(** The same of a value in a loop variable. *)
Lemma copy_value_correct {A V} `{!Boxed cell A} (r : relr A V) `{!Stable r} copy :
  deep_copy_ok r copy → copies_value r (copy_value copy).
Proof.
  intros [_ Hcopy] h x v Hr.
  destruct (Hcopy (h ++ [box x]) (cell_ptr (length h)) x v) as (q & news & Hf & _ & y & Hy & _).
  { apply peek_cell. } { by eapply (stable_app r). }
  destruct (Hy (h ++ [box x] ++ news)) as [Hq Hr'].
  { intros l _. by rewrite <-app_assoc. }
  exists y, ([box x] ++ news). split; [|eapply (stable (r:=r)); [exact Hr'|]].
  - unfold copy_value. erewrite st_bind_step by reflexivity. rewrite <-app_assoc in Hf. go_step Hf. by apply load_ok.
  - unfold beyond. rewrite length_app. simpl. intros l c Hl Hc. split; [lia|done].
Qed.

(** *** Slices *)

Lemma window_length {A} s (xs : list A) : sh_off s + sh_len s ≤ length xs → length (window s xs) = sh_len s.
Proof. intros ?. unfold window. rewrite length_take, length_drop. lia. Qed.

Lemma window_all {A} l (xs : list A) : window (mkHeader l 0 (length xs) (length xs)) xs = xs.
Proof. unfold window. simpl. by rewrite drop_0, firstn_all. Qed.

Lemma window_lookup {A} s (xs : list A) k : k < sh_len s → window s xs !! k = xs !! (sh_off s + k).
Proof. intros ?. unfold window. rewrite lookup_take_lt by done. apply lookup_drop. Qed.

Lemma copy_slice_fills {A} `{!Boxed cell (list A)} `{!Zero A} : fills (rep_slice (rep_eq (A := A))) (copy_slice (A := A)).
Proof.
  intros h i o x v Ho Hne Hi Hold Hr. unfold copy_slice. go_step (load_ok _ _ _ Hi).
  destruct x as [s|], v as [vs|]; try done; [|exists None, []; rewrite app_nil_r, poke_same by done; done].
  destruct Hr as (Hl & xs & Hx & Hle & Heq%list_eq_Forall2). pose proof (window_length _ _ Hle) as Hlen.
  set (t := mkHeader (length h) 0 (sh_len s) (sh_len s)).
  destruct (alloc_store o h _ (replicate (sh_len s) (zero (A := A))) (Some t) Hold) as (Hs & Hp & Hlo).
  set (H0 := poke o (Some t) (h ++ [box (replicate (sh_len s) zero)])) in *.
  assert (Hi0 : peek i H0 = Some (Some s)) by (unfold H0; rewrite peek_poke_ne by done; by apply peek_app).
  assert (Hx0 : peek (cell_ptr (sh_array s)) H0 = Some xs) by (unfold H0; rewrite peek_poke_ne by done; by apply peek_app).
  pose proof (peek_fresh o (Some t) h (replicate (sh_len s) zero) [] Hlo) as Ht.
  erewrite st_bind_step by reflexivity. go_step Hs. go_step (load_ok _ _ _ Hi0). go_step (load_ok _ _ _ Hp).
  unfold copy_elems. cbn [header_of default id]. go_step (load_ok _ _ _ Hx0). go_step (load_ok _ _ _ Ht).
  exists (Some t), [box vs]. rewrite (store_ok _ _ _ _ Ht). subst H0. split.
  - f_equal. simpl. rewrite Nat.min_id, drop_ge by (rewrite length_replicate; lia). rewrite app_nil_r, <-Heq.
    rewrite take_ge by lia. by apply poke_fresh.
  - split; [unfold beyond; simpl; lia|]. exists vs. subst vs. split_and!; [apply peek_cell|simpl; lia|].
    apply list_eq_Forall2. unfold t. rewrite <-Hlen. apply window_all.
Qed.

Lemma poke_fresh_elem {A B} `{!Boxed cell (list A)} (o : ptr cell B) s h (ys : list A) k y news : p_loc o < length h →
  poke (elem_ptr (length h) k) y (poke o s (h ++ box ys :: news)) = poke o s (h ++ box (<[k := y]> ys) :: news).
Proof.
  intros Hlt. unfold poke. simpl. rewrite list_alter_alter_ne by lia. rewrite alter_app_r_alt by done.
  rewrite Nat.sub_diag. simpl. by rewrite unbox_box.
Qed.

(** The loop over the elements of a slice copies those it has visited. *)
Lemma slice_loop {A V} `{!Boxed cell (list A)} (r : relr A V) `{!Stable r} into (i o : ptr cell (option header))
    `{!PtrLaws o} h old s xs vs :
  let t := mkHeader (length h) 0 (sh_len s) (sh_len s) in
  copies r into → p_loc i ≠ p_loc o → peek i h = Some (Some s) → peek o h = Some old → sh_array s ≠ p_loc o →
  peek (cell_ptr (sh_array s)) h = Some xs → sh_off s + sh_len s ≤ length xs →
  Forall2 (r (λ l, l ≠ p_loc o) h) (window s xs) vs → ∀ n k (ys : list A) news,
  k + n = sh_len s → length ys = sh_len s → ∃ ys' news',
    st_iter (λ i0, let! s := load i in let! t := load o in
        let! pi := index (header_of s) i0 in let! po := index (header_of t) i0 in into pi po) (seq k n)
      (poke o (Some t) (h ++ box ys :: news)) = (Ok tt, poke o (Some t) (h ++ box ys' :: news ++ news')) ∧
    length ys' = sh_len s ∧ (∀ j, j < k → ys' !! j = ys !! j) ∧
    (∀ j, k ≤ j < k + n → ∃ a b, ys' !! j = Some a ∧ vs !! j = Some b ∧
      r (λ l, length h < l) (h ++ box ys' :: news ++ news') a b).
Proof.
  intros t Hinto Hne Hi Ho Hso Hxs Hle Hvs. pose proof (peek_lt _ _ _ Ho) as Hlo. pose proof (peek_lt _ _ _ Hxs) as Hlx.
  simpl in Hlx. induction n as [|n IH]; intros k ys news Hk Hys.
  { exists ys, []. rewrite app_nil_r. split_and!; [done..|]. intros j Hj. lia. }
  set (H1 := poke o (Some t) (h ++ box ys :: news)).
  destruct (lookup_lt_is_Some_2 (window s xs) k) as [a Ha]; [rewrite window_length by done; lia|].
  destruct (Forall2_lookup_l _ _ _ _ _ Hvs Ha) as (b & Hb & Hab). rewrite window_lookup in Ha by lia.
  destruct (lookup_lt_is_Some_2 ys k) as [y0 Hy0]; [lia|].
  assert (Hi1 : peek i H1 = Some (Some s)) by (unfold H1; rewrite peek_poke_ne by done; by apply peek_app).
  assert (Ho1 : peek o H1 = Some (Some t)) by (eapply peek_poke, peek_app; [done|exact Ho]).
  assert (Hx1 : peek (cell_ptr (sh_array s)) H1 = Some xs) by (unfold H1; rewrite peek_poke_ne by done; by apply peek_app).
  pose proof (peek_fresh o (Some t) h ys news Hlo) as Hy1.
  destruct (Hinto H1 (elem_ptr (sh_array s) (sh_off s + k)) (elem_ptr (length h) k) a b y0) as (y & news1 & Hf & Hy).
  { apply _. } { simpl. lia. }
  { by apply peek_elem with xs. } { by apply peek_elem with ys. }
  { unfold H1. eapply (stable_poke r); [exact Hab|]. simpl. lia. }
  unfold H1 in Hf, Hy. rewrite poke_app in Hf, Hy by (rewrite length_app; lia). rewrite <-app_assoc in Hf, Hy.
  simpl in Hf, Hy. rewrite poke_fresh_elem in Hf by done. fold H1 in Hf.
  destruct (IH (S k) (<[k := y]> ys) (news ++ news1)) as (ys' & news' & Hit & Hlen & Hold & Hnew);
    [lia|by rewrite length_insert|].
  exists ys', (news1 ++ news'). rewrite <-app_assoc in Hit, Hnew. split_and!; [|done| |].
  - cbn [seq st_iter]. fold H1. erewrite st_bind_step; [exact Hit|]. go_step (load_ok _ _ _ Hi1). go_step (load_ok _ _ _ Ho1).
    unfold index. cbn [header_of default id sh_len t]. rewrite !bool_decide_true by (simpl; lia).
    exact Hf.
  - intros j Hj. rewrite Hold by lia. by rewrite list_lookup_insert_ne by lia.
  - intros j Hj. destruct (decide (j = k)) as [->|Hjk]; [|apply Hnew; lia].
    exists y, b. rewrite Hold, list_lookup_insert_eq by lia. split_and!; [done..|].
    eapply (stable (r:=r)); [exact Hy|]. unfold beyond. rewrite length_poke, length_app. simpl. intros l c Hl Hc.
    split; [lia|]. rewrite (fresh_tail _ _ _ _ (box ys')) in Hc by lia.
    apply (lookup_app_l_Some _ news') in Hc. by rewrite <-app_assoc in Hc; simpl in Hc; rewrite <-app_assoc in Hc.
Qed.

Lemma copy_slice_into_fills {A V} `{!Boxed cell (list A)} `{!Zero A} (r : relr A V) `{!Stable r} into :
  copies r into → fills (rep_slice r) (copy_slice_into into).
Proof.
  intros Hinto h i o x v Ho Hne Hi Hold Hr. unfold copy_slice_into. go_step (load_ok _ _ _ Hi).
  destruct x as [s|], v as [vs|]; try done; [|exists None, []; rewrite app_nil_r, poke_same by done; done].
  destruct Hr as (Hl & xs & Hx & Hle & Hvs). pose proof (Forall2_length _ _ _ Hvs) as Hlen.
  rewrite window_length in Hlen by done.
  set (t := mkHeader (length h) 0 (sh_len s) (sh_len s)).
  destruct (alloc_store o h _ (replicate (sh_len s) (zero (A := A))) (Some t) Hold) as (Hs & _ & _).
  destruct (slice_loop r into i o h _ s xs vs Hinto Hne Hi Hold Hl Hx Hle Hvs (sh_len s) 0
    (replicate (sh_len s) zero) []) as (ys & news & Hit & Hys & _ & Hnew); [done|apply length_replicate|].
  erewrite st_bind_step by reflexivity. go_step Hs. exists (Some t), (box ys :: news). split; [exact Hit|].
  split; [unfold beyond; simpl; lia|]. exists ys. split_and!; [apply peek_cell|simpl; lia|].
  unfold t. rewrite <-Hys, window_all. apply Forall2_same_length_lookup. split; [lia|]. intros j a b Ha Hb.
  destruct (Hnew j) as (a' & b' & Ha' & Hb' & Hr); [apply lookup_lt_Some in Ha; lia|]. simplify_eq.
  eapply (stable (r:=r)); [exact Hr|]. unfold beyond. intros l c Hlc Hc. split; [lia|done].
Qed.

(** ** Structs, field by field *)

(** After [*out = *in], a part of the struct is filled in. *)
Lemma fills_field {A B W} (i o : ptr cell A) (f : field A B) (r : relr B W) into h x y old news w :
  PtrLaws o → FieldLaws f → fills r into → p_loc i ≠ p_loc o → peek i h = Some x → peek o h = Some old →
  r (λ l, l ≠ p_loc o) h (f_get f x) w → f_get f y = f_get f x → Stable r → ∃ z news',
    into (at_field i f) (at_field o f) (poke o y (h ++ news)) = (Ok tt, poke o (f_set f z y) (h ++ news ++ news')) ∧
    r (beyond h) (h ++ news ++ news') z w.
Proof.
  intros Ho Hf Hinto Hne Hi Hold Hr Hy Hs. pose proof (peek_lt _ _ _ Hold) as Hlo.
  pose proof (peek_app _ _ news _ Hold) as Hold'.
  assert (Hlo' : p_loc o < length (h ++ news)) by (rewrite length_app; lia).
  destruct (Hinto (poke o y (h ++ news)) (at_field i f) (at_field o f) (f_get f x) w) as (z & news' & Hrun & Hz).
  { apply _. } { done. }
  { apply peek_field. rewrite peek_poke_ne by done. by apply peek_app. }
  { rewrite <-Hy. apply peek_field. by eapply peek_poke. }
  { eapply (stable_poke r); [exact Hr|]. done. }
  exists z, news'. split.
  - rewrite Hrun. f_equal. rewrite poke_app by done. rewrite <-app_assoc.
    eapply poke_field; [done|]. rewrite app_assoc. by apply peek_app.
  - rewrite poke_app in Hz by done. rewrite <-app_assoc in Hz. eapply (stable (r:=r)); [exact Hz|].
    unfold beyond. rewrite length_poke, length_app. intros l c Hl Hc. split; [lia|]. rewrite <-Hc.
    symmetry. apply lookup_poke_ne. lia.
Qed.

Lemma assign_start {A} (i o : ptr cell A) h x old :
  peek i h = Some x → peek o h = Some old → assign i o h = (Ok tt, poke o x (h ++ [])).
Proof.
  intros Hi Hold. unfold assign. go_step (load_ok _ _ _ Hi). rewrite (store_ok _ _ _ _ Hold). by rewrite app_nil_r.
Qed.

End idioms.

#[export] Hint Resolve copies_fills copies_assign copy_map_fills copy_slice_fills copy_slice_into_fills
  copy_ref_fills copies_value_ret copy_value_correct deep_copy_correct : go.

(** [DeepCopyInto] of a struct: the parts read from references are made anew one after
    the other; what was made before stays readable. *)
Ltac rep_extend news :=
  repeat match goal with
  | H : ?r (beyond ?h) (?h ++ ?n) ?z ?w |- _ =>
      lazymatch n with context [news] => fail | _ => idtac end;
      apply (stable_app r _ (beyond h) _ news) in H; [rewrite <-(app_assoc h) in H|by intros]
  end.

Ltac copy_field :=
  lazymatch goal with
  | Hi : peek ?i ?h = Some ?x, Ho : peek ?o ?h = Some ?old
    |- ∃ _ _, st_bind (?into (at_field ?i ?f) (at_field ?o ?f)) _ (poke ?o ?y0 (?h ++ ?n)) = _ ∧ _ =>
      let z := fresh "z" in let m := fresh "news" in let Hf := fresh "Hf" in let Hz := fresh "Hz" in
      let Hfill := fresh "Hfill" in
      eassert (Hfill : fills _ into) by eauto with go typeclass_instances;
      lazymatch type of Hfill with
      | fills ?r _ => edestruct (fills_field i o f r into h x y0 old n) as (z & m & Hf & Hz);
          [apply _|apply _|exact Hfill|eassumption|exact Hi|exact Ho|first [eassumption|reflexivity]|reflexivity|apply _|]
      end; clear Hfill; rewrite (st_bind_step _ _ _ _ _ Hf); clear Hf; rep_extend m
  end.

(** The parts that hold no reference are in the copy as they are. *)
Ltac copy_struct :=
  let h := fresh "h" in let i := fresh "i" in let o := fresh "o" in let x := fresh "x" in let v := fresh "v" in
  let old := fresh "old" in
  intros h i o x v old ? ? Hi Ho Hr; hnf in Hr; destruct_and? Hr;
  lazymatch goal with |- context [?f i o h] => let g := eval red in (f i o h) in change (f i o h) with g end;
  rewrite (st_bind_step _ _ _ _ _ (assign_start _ _ _ _ _ Hi Ho));
  repeat copy_field; eexists _, _; split; [reflexivity|];
  first [ progress unfold rep_eq in *; subst; by destruct v
        | hnf; simpl; unfold rep_eq in *; split_and!; first [eassumption | simpl in *; congruence] ].
