(* ===== verification/ApiTypes.v ===== *)
(** * The API types

    The Kubernetes, Metal3 and operator types the reconcilers and webhooks work
    on: object metadata, [BareMetalHost] (the fields the operator reads or
    writes), and the types of [api/v1beta1/openstackbaremetalset_types.go] and
    [api/v1beta1/openstackprovisionserver_types.go], field by field.

    A Go map whose nil value is told apart from an empty one in the code is an
    [option] of a [gmap]; a map that is only read, compared semantically or
    merged is a plain [gmap], since a nil map reads as an empty one. A pointer is
    an [option]. Go's [int], [int32] and [int64] are [Z]. *)

From S2P Require Import Prelude.
From Corelib Require Import SpecFloat.

(** ** Object metadata *)

(** [metav1.ObjectMeta]: the parts the operator uses. *)
Record ObjectMeta := mkObjectMeta {
  om_Name : string;
  om_Namespace : string;
  om_UID : string;
  om_Generation : Z;
  om_Labels : gmap string string;
  om_Annotations : gmap string string;
  om_Finalizers : list string;
  om_DeletionTimestamp : option Z;
}.

(** [corev1.SecretReference] and [corev1.ObjectReference]. *)
Record SecretReference := mkSecretReference {
  sr_Name : string;
  sr_Namespace : string;
}.

Record ObjectReference := mkObjectReference {
  or_Name : string;
  or_Kind : string;
  or_Namespace : string;
}.

(** [corev1.Secret]: its name and its data, as text. *)
Record Secret := mkSecret {
  sec_Name : string;
  sec_Data : gmap string string;
}.

(** [corev1.ResourceRequirements], quantities kept as their text. *)
Record ResourceRequirements := mkResources {
  rr_Limits : gmap string string;
  rr_Requests : gmap string string;
}.

(** [condition.Condition] and [condition.Conditions] of lib-common. *)
Inductive ConditionStatus := ConditionTrue | ConditionFalse | ConditionUnknown.

Record Condition := mkCondition {
  cond_Type : string;
  cond_Status : ConditionStatus;
  cond_Severity : string;
  cond_LastTransitionTime : Z;
  cond_Reason : string;
  cond_Message : string;
}.

Definition Conditions : Type := option (list Condition).

(** [ctrl.Result]; [RequeueAfter] in seconds. *)
Record Result := mkResult {
  res_Requeue : bool;
  res_RequeueAfter : Z;
}.
Definition Result_zero : Result := mkResult false 0.
Definition RequeueAfter (seconds : Z) : Result := mkResult false seconds.

(** ** Metal3 *)

(** [metal3v1.ProvisioningState]: the states the operator names. *)
Definition StateAvailable : string := "available".
Definition StateProvisioned : string := "provisioned".

(** [metal3v1.ChecksumType] *)
Definition MD5 : string := "md5".
Definition SHA256 : string := "sha256".
Definition SHA512 : string := "sha512".

Record Image := mkImage {
  img_URL : string;
  img_Checksum : string;
  img_ChecksumType : string;
}.

Record CPU := mkCPU {
  cpu_Arch : string;
  cpu_ClockMegahertz : spec_float;
  cpu_Count : Z;
}.

Record Storage := mkStorage {
  sto_Name : string;
  sto_Rotational : bool;
  sto_SizeBytes : Z;
}.

Record HardwareDetails := mkHardwareDetails {
  hd_RAMMebibytes : Z;
  hd_Storage : list Storage;
  hd_CPU : CPU;
}.

Record BareMetalHostSpec := mkBmhSpec {
  bmhs_Image : option Image;
  bmhs_ExternallyProvisioned : bool;
  bmhs_CustomDeploy : option string;
  bmhs_ConsumerRef : option ObjectReference;
  bmhs_Online : bool;
  bmhs_UserData : option SecretReference;
  bmhs_NetworkData : option SecretReference;
  bmhs_AutomatedCleaningMode : string;
}.

Record BareMetalHostStatus := mkBmhStatus {
  bmht_ProvisioningState : string;
  bmht_HardwareDetails : option HardwareDetails;
}.

Record BareMetalHost := mkBmh {
  bmh_Meta : ObjectMeta;
  bmh_Spec : BareMetalHostSpec;
  bmh_Status : BareMetalHostStatus;
}.

Definition bmh_Name (b : BareMetalHost) : string := om_Name (bmh_Meta b).
Definition bmh_Labels (b : BareMetalHost) : gmap string string := om_Labels (bmh_Meta b).

(** ** OpenStackBaremetalSet *)

Definition CleaningModeDisabled : string := "disabled".
Definition CleaningModeMetadata : string := "metadata".
Definition OSImageDeploymentTypeSelfExtracting : string := "SelfExtracting".
Definition OSImageDeploymentTypePassThrough : string := "PassThrough".

Record BondConfig := mkBondConfig {
  bc_BondInterfaces : list string;
  bc_BondMode : string;
  bc_BondOptions : gmap string string;
}.

Record InstanceSpec := mkInstanceSpec {
  is_BmhLabelSelector : option (gmap string string);
  is_CtlPlaneIP : string;
  is_CtlplaneGateway : string;
  is_CtlplaneInterface : string;
  is_CtlplaneVlan : option Z;
  is_UserData : option SecretReference;
  is_NetworkData : option SecretReference;
}.

Definition InstanceSpec_zero : InstanceSpec := mkInstanceSpec None "" "" "" None None None.

Record CPUCountReq := mkCPUCountReq { ccr_Count : Z; ccr_ExactMatch : bool }.
Record CPUMhzReq := mkCPUMhzReq { cmr_Mhz : Z; cmr_ExactMatch : bool }.
Record CPUReqs := mkCPUReqs {
  cr_Arch : string;
  cr_CountReq : CPUCountReq;
  cr_MhzReq : CPUMhzReq;
}.
Record MemGbReq := mkMemGbReq { mgr_Gb : Z; mgr_ExactMatch : bool }.
Record MemReqs := mkMemReqs { mr_GbReq : MemGbReq }.
Record DiskGbReq := mkDiskGbReq { dgr_Gb : Z; dgr_ExactMatch : bool }.
Record DiskSSDReq := mkDiskSSDReq { dsr_SSD : bool; dsr_ExactMatch : bool }.
Record DiskReqs := mkDiskReqs { dr_GbReq : DiskGbReq; dr_SSDReq : DiskSSDReq }.
Record HardwareReqs := mkHardwareReqs {
  hr_CPUReqs : CPUReqs;
  hr_MemReqs : MemReqs;
  hr_DiskReqs : DiskReqs;
}.

(** [HardwareReqs{}] *)
Definition HardwareReqs_zero : HardwareReqs :=
  mkHardwareReqs
    (mkCPUReqs "" (mkCPUCountReq 0 false) (mkCPUMhzReq 0 false))
    (mkMemReqs (mkMemGbReq 0 false))
    (mkDiskReqs (mkDiskGbReq 0 false) (mkDiskSSDReq false false)).

Record OpenStackBaremetalSetTemplateSpec := mkTemplateSpec {
  ts_OSImage : string;
  ts_OSContainerImageURL : string;
  ts_OSImageDeploymentType : string;
  ts_ApacheImageURL : string;
  ts_AgentImageURL : string;
  ts_AutomatedCleaningMode : string;
  ts_ProvisionServerName : string;
  ts_ProvisonServerNodeSelector : gmap string string;
  ts_ProvisioningInterface : string;
  ts_DeploymentSSHSecret : string;
  ts_CtlplaneInterface : string;
  ts_CtlplaneBond : option BondConfig;
  ts_BmhNamespace : string;
  ts_BmhLabelSelector : gmap string string;
  ts_HardwareReqs : HardwareReqs;
  ts_PasswordSecret : option SecretReference;
  ts_CloudUserName : string;
  ts_DomainName : string;
}.

Record OpenStackBaremetalSetSpec := mkSetSpec {
  bs_BaremetalHosts : gmap string InstanceSpec;
  bs_CtlplaneGateway : string;
  bs_CtlplaneVlan : option Z;
  bs_BootstrapDNS : list string;
  bs_DNSSearchDomains : list string;
  bs_Template : OpenStackBaremetalSetTemplateSpec;
}.

Record IPStatus := mkIPStatus {
  ips_Hostname : string;
  ips_BmhRef : string;
  ips_IPAddresses : gmap string string;
}.

Record HostStatus := mkHostStatus {
  hs_IPStatus : IPStatus;
  hs_ProvisioningState : string;
  hs_AnnotatedForDeletion : bool;
  hs_UserDataSecretName : string;
  hs_NetworkDataSecretName : string;
}.

Definition hs_Hostname (h : HostStatus) : string := ips_Hostname (hs_IPStatus h).
Definition hs_BmhRef (h : HostStatus) : string := ips_BmhRef (hs_IPStatus h).

(** [HostStatus{}], what indexing a map without the key yields. *)
Definition HostStatus_zero : HostStatus :=
  mkHostStatus (mkIPStatus "" "" ∅) "" false "" "".

Record OpenStackBaremetalSetStatus := mkSetStatus {
  bst_Conditions : Conditions;
  bst_Hash : option (gmap string string);
  bst_BaremetalHosts : option (gmap string HostStatus);
  bst_ObservedGeneration : Z;
}.

Record OpenStackBaremetalSet := mkSet {
  set_Kind : string;
  set_Meta : ObjectMeta;
  set_Spec : OpenStackBaremetalSetSpec;
  set_Status : OpenStackBaremetalSetStatus;
}.

Definition set_Name (i : OpenStackBaremetalSet) : string := om_Name (set_Meta i).
Definition set_Namespace (i : OpenStackBaremetalSet) : string := om_Namespace (set_Meta i).
Definition set_Template (i : OpenStackBaremetalSet) : OpenStackBaremetalSetTemplateSpec :=
  bs_Template (set_Spec i).
Definition set_SpecHosts (i : OpenStackBaremetalSet) : gmap string InstanceSpec :=
  bs_BaremetalHosts (set_Spec i).
Definition set_BmhNamespace (i : OpenStackBaremetalSet) : string :=
  ts_BmhNamespace (set_Template i).

(** [instance.Status.BaremetalHosts] as a map to read. *)
Definition set_Hosts (i : OpenStackBaremetalSet) : gmap string HostStatus :=
  default ∅ (bst_BaremetalHosts (set_Status i)).

(** [instance.Spec.BaremetalHosts[hostName]] *)
Definition spec_host (i : OpenStackBaremetalSet) (hostName : string) : InstanceSpec :=
  default InstanceSpec_zero (set_SpecHosts i !! hostName).

Definition set_with_Status (s : OpenStackBaremetalSetStatus) (i : OpenStackBaremetalSet) :
  OpenStackBaremetalSet := mkSet (set_Kind i) (set_Meta i) (set_Spec i) s.
Definition set_with_Meta (m : ObjectMeta) (i : OpenStackBaremetalSet) : OpenStackBaremetalSet :=
  mkSet (set_Kind i) m (set_Spec i) (set_Status i).
Definition set_with_Hosts (h : option (gmap string HostStatus)) (i : OpenStackBaremetalSet) :
  OpenStackBaremetalSet :=
  set_with_Status (mkSetStatus (bst_Conditions (set_Status i)) (bst_Hash (set_Status i)) h
    (bst_ObservedGeneration (set_Status i))) i.
Definition set_with_Conditions (c : Conditions) (i : OpenStackBaremetalSet) :
  OpenStackBaremetalSet :=
  set_with_Status (mkSetStatus c (bst_Hash (set_Status i)) (bst_BaremetalHosts (set_Status i))
    (bst_ObservedGeneration (set_Status i))) i.

(** [delete(instance.Status.BaremetalHosts, name)]: a nil map is left alone. *)
Definition set_delete_host (name : string) (i : OpenStackBaremetalSet) : OpenStackBaremetalSet :=
  set_with_Hosts (delete name <$> bst_BaremetalHosts (set_Status i)) i.

(** ** OpenStackProvisionServer *)

Definition ProvisioningNetworkManaged : string := "Managed".
Definition ProvisioningNetworkUnmanaged : string := "Unmanaged".
Definition ProvisioningNetworkDisabled : string := "Disabled".
Definition ChecksumHash : string := "checksum".
Definition ProvisionServerPortStart : Z := 6190.
Definition ProvisionServerPortEnd : Z := 6210.

Definition OSContainerImage : string :=
  "quay.io/podified-antelope-centos9/edpm-hardened-uefi:current-podified".
Definition AgentImage : string :=
  "quay.io/openstack-k8s-operators/openstack-baremetal-operator-agent:latest".
Definition ApacheImage : string := "registry.redhat.io/ubi9/httpd-24:latest".
Definition OSImage : string := "edpm-hardened-uefi.qcow2".

Record OpenStackProvisionServerSpec := mkProvSpec {
  pss_Port : Z;
  pss_Interface : string;
  pss_OSImage : string;
  pss_OSImageDir : option string;
  pss_OSContainerImageURL : string;
  pss_ApacheImageURL : string;
  pss_AgentImageURL : string;
  pss_NodeSelector : gmap string string;
  pss_Resources : ResourceRequirements;
  pss_PreserveJobs : bool;
}.

Record OpenStackProvisionServerStatus := mkProvStatus {
  pst_ReadyCount : Z;
  pst_Conditions : Conditions;
  pst_Hash : option (gmap string string);
  pst_ProvisionIP : string;
  pst_ProvisionIPError : string;
  pst_LocalImageURL : string;
  pst_OSImageChecksumFilename : string;
  pst_OSImageChecksumType : string;
  pst_LocalImageChecksumURL : string;
}.

Record OpenStackProvisionServer := mkProv {
  ps_Kind : string;
  ps_Meta : ObjectMeta;
  ps_Spec : OpenStackProvisionServerSpec;
  ps_Status : OpenStackProvisionServerStatus;
}.

Definition ps_Name (p : OpenStackProvisionServer) : string := om_Name (ps_Meta p).
Definition ps_Namespace (p : OpenStackProvisionServer) : string := om_Namespace (ps_Meta p).
Definition ps_Port (p : OpenStackProvisionServer) : Z := pss_Port (ps_Spec p).

Record OpenStackProvisionServerDefaults := mkProvDefaults {
  psd_OSContainerImageURL : string;
  psd_AgentImageURL : string;
  psd_ApacheImageURL : string;
  psd_OSImage : string;
}.

Definition ps_with_Spec (s : OpenStackProvisionServerSpec) (p : OpenStackProvisionServer) :
  OpenStackProvisionServer := mkProv (ps_Kind p) (ps_Meta p) s (ps_Status p).
Definition ps_with_Meta (m : ObjectMeta) (p : OpenStackProvisionServer) :
  OpenStackProvisionServer := mkProv (ps_Kind p) m (ps_Spec p) (ps_Status p).
Definition ps_with_Status (s : OpenStackProvisionServerStatus) (p : OpenStackProvisionServer) :
  OpenStackProvisionServer := mkProv (ps_Kind p) (ps_Meta p) (ps_Spec p) s.

Definition pss_with_Port (n : Z) (s : OpenStackProvisionServerSpec) :
  OpenStackProvisionServerSpec :=
  mkProvSpec n (pss_Interface s) (pss_OSImage s) (pss_OSImageDir s) (pss_OSContainerImageURL s)
    (pss_ApacheImageURL s) (pss_AgentImageURL s) (pss_NodeSelector s) (pss_Resources s)
    (pss_PreserveJobs s).
Definition pss_with_images (osContainer agent apache osImage : string)
    (s : OpenStackProvisionServerSpec) : OpenStackProvisionServerSpec :=
  mkProvSpec (pss_Port s) (pss_Interface s) osImage (pss_OSImageDir s) osContainer apache agent
    (pss_NodeSelector s) (pss_Resources s) (pss_PreserveJobs s).

(** [&OpenStackProvisionServer{}] with the given metadata. *)
Definition OpenStackProvisionServer_zero (m : ObjectMeta) : OpenStackProvisionServer :=
  mkProv "" m (mkProvSpec 0 "" "" None "" "" "" ∅ (mkResources ∅ ∅) false)
    (mkProvStatus 0 None None "" "" "" "" "" "").
Definition ObjectMeta_named (name namespace : string) : ObjectMeta :=
  mkObjectMeta name namespace "" 0 ∅ ∅ [] None.

(** ** Objects of any kind *)

(** A [runtime.Object], as a type assertion sees it: one of the operator's kinds, or
    another type, of which only its name [%T] is used. *)
Inductive RuntimeObject :=
| ObjBaremetalSet (i : OpenStackBaremetalSet)
| ObjProvisionServer (p : OpenStackProvisionServer)
| ObjOther (type : string).

(** [fmt.Sprintf("%T", obj)] *)
Definition type_name (o : RuntimeObject) : string :=
  match o with
  | ObjBaremetalSet _ => "*v1beta1.OpenStackBaremetalSet"
  | ObjProvisionServer _ => "*v1beta1.OpenStackProvisionServer"
  | ObjOther t => t
  end.

(** [field.Error] of [field.Invalid(path, value, detail)]. *)
Record FieldError := mkFieldError {
  fe_Path : string;
  fe_Value : string;
  fe_Detail : string;
}.

(** ** Decidable equality *)

#[export] Instance HardwareReqs_eq_dec : EqDecision HardwareReqs.
Proof.
  assert (EqDecision CPUReqs) by
    (assert (EqDecision CPUCountReq) by solve_decision;
     assert (EqDecision CPUMhzReq) by solve_decision; solve_decision).
  assert (EqDecision MemReqs) by
    (assert (EqDecision MemGbReq) by solve_decision; solve_decision).
  assert (EqDecision DiskReqs) by
    (assert (EqDecision DiskGbReq) by solve_decision;
     assert (EqDecision DiskSSDReq) by solve_decision; solve_decision).
  solve_decision.
Defined.

#[export] Instance Result_eq_dec : EqDecision Result.
Proof. solve_decision. Defined.

#[export] Instance ConditionStatus_eq_dec : EqDecision ConditionStatus.
Proof. solve_decision. Defined.

#[export] Instance SecretReference_eq_dec : EqDecision SecretReference.
Proof. solve_decision. Defined.

(** ** Facts *)

Lemma set_Hosts_with_Hosts h i : set_Hosts (set_with_Hosts h i) = default ∅ h.
Proof. done. Qed.

Lemma set_Hosts_delete name i : set_Hosts (set_delete_host name i) = delete name (set_Hosts i).
Proof.
  unfold set_delete_host, set_Hosts; simpl.
  destruct (bst_BaremetalHosts (set_Status i)); simpl; [done|]. by rewrite delete_empty.
Qed.

#[export] Hint Rewrite set_Hosts_with_Hosts set_Hosts_delete : go.
