(* ===== verification/DeepTypes.v ===== *)
(** * The API types in memory

    The structs of [api/v1beta1/*_types.go] as they lie in memory, for the deep copies
    of [DeepCopy]: pointers, maps and slices are references ([mem]), or the content
    they stand for ([val]). [ApiTypes] has the same structs as the values the rest of
    the development works on. Structs without references are those of [ApiTypes]. *)

From S2P Require Import Prelude ApiTypes GoHeap.

Set Implicit Arguments.
Unset Strict Implicit.
Set Maximal Implicit Insertion.

(** ** The structs *)

Record TypeMeta := mkTypeMeta {
  tm_Kind : string;
  tm_APIVersion : string;
}.

Record ObjectMetaF (R : refs) := mkObjectMetaF {
  omF_Name : string;
  omF_Namespace : string;
  omF_UID : string;
  omF_Generation : Z;
  omF_DeletionTimestamp : ref R Z;
  omF_Labels : ref R (gmap string string);
  omF_Annotations : ref R (gmap string string);
  omF_Finalizers : sl R string;
}.

Record ListMetaF (R : refs) := mkListMetaF {
  lmF_ResourceVersion : string;
  lmF_Continue : string;
  lmF_RemainingItemCount : ref R Z;
}.

Record ResourceRequirementsF (R : refs) := mkResourceRequirementsF {
  rrF_Limits : ref R (gmap string string);
  rrF_Requests : ref R (gmap string string);
}.

Record BondConfigF (R : refs) := mkBondConfigF {
  bcF_BondInterfaces : sl R string;
  bcF_BondMode : string;
  bcF_BondOptions : ref R (gmap string string);
}.

Record InstanceSpecF (R : refs) := mkInstanceSpecF {
  isF_BmhLabelSelector : ref R (gmap string string);
  isF_CtlPlaneIP : string;
  isF_CtlplaneGateway : string;
  isF_CtlplaneInterface : string;
  isF_CtlplaneVlan : ref R Z;
  isF_UserData : ref R SecretReference;
  isF_NetworkData : ref R SecretReference;
}.

Record OpenStackBaremetalSetTemplateSpecF (R : refs) := mkOpenStackBaremetalSetTemplateSpecF {
  tsF_OSImage : string;
  tsF_OSContainerImageURL : string;
  tsF_OSImageDeploymentType : string;
  tsF_ApacheImageURL : string;
  tsF_AgentImageURL : string;
  tsF_AutomatedCleaningMode : string;
  tsF_ProvisionServerName : string;
  tsF_ProvisonServerNodeSelector : ref R (gmap string string);
  tsF_ProvisioningInterface : string;
  tsF_DeploymentSSHSecret : string;
  tsF_CtlplaneInterface : string;
  tsF_CtlplaneBond : ref R (BondConfigF R);
  tsF_BmhNamespace : string;
  tsF_BmhLabelSelector : ref R (gmap string string);
  tsF_HardwareReqs : HardwareReqs;
  tsF_PasswordSecret : ref R SecretReference;
  tsF_CloudUserName : string;
  tsF_DomainName : string;
}.

Record OpenStackBaremetalSetSpecF (R : refs) := mkOpenStackBaremetalSetSpecF {
  bsF_BaremetalHosts : ref R (gmap string (InstanceSpecF R));
  bsF_CtlplaneGateway : string;
  bsF_CtlplaneVlan : ref R Z;
  bsF_BootstrapDNS : sl R string;
  bsF_DNSSearchDomains : sl R string;
  bsF_Template : OpenStackBaremetalSetTemplateSpecF R;
}.

Record IPStatusF (R : refs) := mkIPStatusF {
  ipF_Hostname : string;
  ipF_BmhRef : string;
  ipF_IPAddresses : ref R (gmap string string);
}.

Record HostStatusF (R : refs) := mkHostStatusF {
  hsF_IPStatus : IPStatusF R;
  hsF_ProvisioningState : string;
  hsF_AnnotatedForDeletion : bool;
  hsF_UserDataSecretName : string;
  hsF_NetworkDataSecretName : string;
}.

Record OpenStackBaremetalSetStatusF (R : refs) := mkOpenStackBaremetalSetStatusF {
  btF_Conditions : sl R Condition;
  btF_Hash : ref R (gmap string string);
  btF_BaremetalHosts : ref R (gmap string (HostStatusF R));
  btF_ObservedGeneration : Z;
}.

Record OpenStackBaremetalSetF (R : refs) := mkOpenStackBaremetalSetF {
  setF_TypeMeta : TypeMeta;
  setF_ObjectMeta : ObjectMetaF R;
  setF_Spec : OpenStackBaremetalSetSpecF R;
  setF_Status : OpenStackBaremetalSetStatusF R;
}.

Record OpenStackBaremetalSetListF (R : refs) := mkOpenStackBaremetalSetListF {
  setlF_TypeMeta : TypeMeta;
  setlF_ListMeta : ListMetaF R;
  setlF_Items : sl R (OpenStackBaremetalSetF R);
}.

Record OpenStackProvisionServerSpecF (R : refs) := mkOpenStackProvisionServerSpecF {
  psF_Port : Z;
  psF_Interface : string;
  psF_OSImage : string;
  psF_OSImageDir : ref R string;
  psF_OSContainerImageURL : string;
  psF_ApacheImageURL : string;
  psF_AgentImageURL : string;
  psF_NodeSelector : ref R (gmap string string);
  psF_Resources : ResourceRequirementsF R;
  psF_PreserveJobs : bool;
}.

Record OpenStackProvisionServerStatusF (R : refs) := mkOpenStackProvisionServerStatusF {
  ptF_ReadyCount : Z;
  ptF_Conditions : sl R Condition;
  ptF_Hash : ref R (gmap string string);
  ptF_ProvisionIP : string;
  ptF_ProvisionIPError : string;
  ptF_LocalImageURL : string;
  ptF_OSImageChecksumFilename : string;
  ptF_OSImageChecksumType : string;
  ptF_LocalImageChecksumURL : string;
}.

Record OpenStackProvisionServerF (R : refs) := mkOpenStackProvisionServerF {
  provF_TypeMeta : TypeMeta;
  provF_ObjectMeta : ObjectMetaF R;
  provF_Spec : OpenStackProvisionServerSpecF R;
  provF_Status : OpenStackProvisionServerStatusF R;
}.

Record OpenStackProvisionServerListF (R : refs) := mkOpenStackProvisionServerListF {
  provlF_TypeMeta : TypeMeta;
  provlF_ListMeta : ListMetaF R;
  provlF_Items : sl R (OpenStackProvisionServerF R);
}.

Unset Implicit Arguments.
Set Strict Implicit.
Unset Maximal Implicit Insertion.

(** ** The cells *)

(** What [new] and [make] make: what a pointer, a map or an array holds. *)
Inductive cell :=
| CString (a : string)
| CInt (a : Z)
| CSecretReference (a : SecretReference)
| CStrings (a : list string)
| CStringMap (a : gmap string string)
| CCondition (a : Condition)
| CConditions (a : list Condition)
| CInstances (a : gmap string (InstanceSpecF mem))
| CHosts (a : gmap string (HostStatusF mem))
| CSets (a : list (OpenStackBaremetalSetF mem))
| CServers (a : list (OpenStackProvisionServerF mem))
| CCPUCountReq (a : CPUCountReq)
| CCPUMhzReq (a : CPUMhzReq)
| CCPUReqs (a : CPUReqs)
| CDiskGbReq (a : DiskGbReq)
| CDiskReqs (a : DiskReqs)
| CDiskSSDReq (a : DiskSSDReq)
| CHardwareReqs (a : HardwareReqs)
| CMemGbReq (a : MemGbReq)
| CMemReqs (a : MemReqs)
| COpenStackProvisionServerDefaults (a : OpenStackProvisionServerDefaults)
| CBondConfig (a : BondConfigF mem)
| CInstanceSpec (a : InstanceSpecF mem)
| COpenStackBaremetalSetTemplateSpec (a : OpenStackBaremetalSetTemplateSpecF mem)
| COpenStackBaremetalSetSpec (a : OpenStackBaremetalSetSpecF mem)
| CIPStatus (a : IPStatusF mem)
| CHostStatus (a : HostStatusF mem)
| COpenStackBaremetalSetStatus (a : OpenStackBaremetalSetStatusF mem)
| COpenStackBaremetalSet (a : OpenStackBaremetalSetF mem)
| COpenStackBaremetalSetList (a : OpenStackBaremetalSetListF mem)
| COpenStackProvisionServerSpec (a : OpenStackProvisionServerSpecF mem)
| COpenStackProvisionServerStatus (a : OpenStackProvisionServerStatusF mem)
| COpenStackProvisionServer (a : OpenStackProvisionServerF mem)
| COpenStackProvisionServerList (a : OpenStackProvisionServerListF mem).

Abbreviation go_heap := (heap cell).
Abbreviation go_ptr A := (ptr cell A).

#[local] Ltac boxed := first [done | by (intros [] ? ?; simplify_eq/=)].

#[export] Instance CString_boxed : Boxed cell string.
Proof. by refine {| box := CString; unbox c := match c with CString a => Some a | _ => None end |}; boxed. Defined.
#[export] Instance CInt_boxed : Boxed cell Z.
Proof. by refine {| box := CInt; unbox c := match c with CInt a => Some a | _ => None end |}; boxed. Defined.
#[export] Instance CSecretReference_boxed : Boxed cell SecretReference.
Proof. by refine {| box := CSecretReference; unbox c := match c with CSecretReference a => Some a | _ => None end |}; boxed. Defined.
#[export] Instance CStrings_boxed : Boxed cell (list string).
Proof. by refine {| box := CStrings; unbox c := match c with CStrings a => Some a | _ => None end |}; boxed. Defined.
#[export] Instance CStringMap_boxed : Boxed cell (gmap string string).
Proof. by refine {| box := CStringMap; unbox c := match c with CStringMap a => Some a | _ => None end |}; boxed. Defined.
#[export] Instance CCondition_boxed : Boxed cell Condition.
Proof. by refine {| box := CCondition; unbox c := match c with CCondition a => Some a | _ => None end |}; boxed. Defined.
#[export] Instance CConditions_boxed : Boxed cell (list Condition).
Proof. by refine {| box := CConditions; unbox c := match c with CConditions a => Some a | _ => None end |}; boxed. Defined.
#[export] Instance CInstances_boxed : Boxed cell (gmap string (InstanceSpecF mem)).
Proof. by refine {| box := CInstances; unbox c := match c with CInstances a => Some a | _ => None end |}; boxed. Defined.
#[export] Instance CHosts_boxed : Boxed cell (gmap string (HostStatusF mem)).
Proof. by refine {| box := CHosts; unbox c := match c with CHosts a => Some a | _ => None end |}; boxed. Defined.
#[export] Instance CSets_boxed : Boxed cell (list (OpenStackBaremetalSetF mem)).
Proof. by refine {| box := CSets; unbox c := match c with CSets a => Some a | _ => None end |}; boxed. Defined.
#[export] Instance CServers_boxed : Boxed cell (list (OpenStackProvisionServerF mem)).
Proof. by refine {| box := CServers; unbox c := match c with CServers a => Some a | _ => None end |}; boxed. Defined.
#[export] Instance CCPUCountReq_boxed : Boxed cell CPUCountReq.
Proof. by refine {| box := CCPUCountReq; unbox c := match c with CCPUCountReq a => Some a | _ => None end |}; boxed. Defined.
#[export] Instance CCPUMhzReq_boxed : Boxed cell CPUMhzReq.
Proof. by refine {| box := CCPUMhzReq; unbox c := match c with CCPUMhzReq a => Some a | _ => None end |}; boxed. Defined.
#[export] Instance CCPUReqs_boxed : Boxed cell CPUReqs.
Proof. by refine {| box := CCPUReqs; unbox c := match c with CCPUReqs a => Some a | _ => None end |}; boxed. Defined.
#[export] Instance CDiskGbReq_boxed : Boxed cell DiskGbReq.
Proof. by refine {| box := CDiskGbReq; unbox c := match c with CDiskGbReq a => Some a | _ => None end |}; boxed. Defined.
#[export] Instance CDiskReqs_boxed : Boxed cell DiskReqs.
Proof. by refine {| box := CDiskReqs; unbox c := match c with CDiskReqs a => Some a | _ => None end |}; boxed. Defined.
#[export] Instance CDiskSSDReq_boxed : Boxed cell DiskSSDReq.
Proof. by refine {| box := CDiskSSDReq; unbox c := match c with CDiskSSDReq a => Some a | _ => None end |}; boxed. Defined.
#[export] Instance CHardwareReqs_boxed : Boxed cell HardwareReqs.
Proof. by refine {| box := CHardwareReqs; unbox c := match c with CHardwareReqs a => Some a | _ => None end |}; boxed. Defined.
#[export] Instance CMemGbReq_boxed : Boxed cell MemGbReq.
Proof. by refine {| box := CMemGbReq; unbox c := match c with CMemGbReq a => Some a | _ => None end |}; boxed. Defined.
#[export] Instance CMemReqs_boxed : Boxed cell MemReqs.
Proof. by refine {| box := CMemReqs; unbox c := match c with CMemReqs a => Some a | _ => None end |}; boxed. Defined.
#[export] Instance COpenStackProvisionServerDefaults_boxed : Boxed cell OpenStackProvisionServerDefaults.
Proof. by refine {| box := COpenStackProvisionServerDefaults; unbox c := match c with COpenStackProvisionServerDefaults a => Some a | _ => None end |}; boxed. Defined.
#[export] Instance CBondConfig_boxed : Boxed cell (BondConfigF mem).
Proof. by refine {| box := CBondConfig; unbox c := match c with CBondConfig a => Some a | _ => None end |}; boxed. Defined.
#[export] Instance CInstanceSpec_boxed : Boxed cell (InstanceSpecF mem).
Proof. by refine {| box := CInstanceSpec; unbox c := match c with CInstanceSpec a => Some a | _ => None end |}; boxed. Defined.
#[export] Instance COpenStackBaremetalSetTemplateSpec_boxed : Boxed cell (OpenStackBaremetalSetTemplateSpecF mem).
Proof. by refine {| box := COpenStackBaremetalSetTemplateSpec; unbox c := match c with COpenStackBaremetalSetTemplateSpec a => Some a | _ => None end |}; boxed. Defined.
#[export] Instance COpenStackBaremetalSetSpec_boxed : Boxed cell (OpenStackBaremetalSetSpecF mem).
Proof. by refine {| box := COpenStackBaremetalSetSpec; unbox c := match c with COpenStackBaremetalSetSpec a => Some a | _ => None end |}; boxed. Defined.
#[export] Instance CIPStatus_boxed : Boxed cell (IPStatusF mem).
Proof. by refine {| box := CIPStatus; unbox c := match c with CIPStatus a => Some a | _ => None end |}; boxed. Defined.
#[export] Instance CHostStatus_boxed : Boxed cell (HostStatusF mem).
Proof. by refine {| box := CHostStatus; unbox c := match c with CHostStatus a => Some a | _ => None end |}; boxed. Defined.
#[export] Instance COpenStackBaremetalSetStatus_boxed : Boxed cell (OpenStackBaremetalSetStatusF mem).
Proof. by refine {| box := COpenStackBaremetalSetStatus; unbox c := match c with COpenStackBaremetalSetStatus a => Some a | _ => None end |}; boxed. Defined.
#[export] Instance COpenStackBaremetalSet_boxed : Boxed cell (OpenStackBaremetalSetF mem).
Proof. by refine {| box := COpenStackBaremetalSet; unbox c := match c with COpenStackBaremetalSet a => Some a | _ => None end |}; boxed. Defined.
#[export] Instance COpenStackBaremetalSetList_boxed : Boxed cell (OpenStackBaremetalSetListF mem).
Proof. by refine {| box := COpenStackBaremetalSetList; unbox c := match c with COpenStackBaremetalSetList a => Some a | _ => None end |}; boxed. Defined.
#[export] Instance COpenStackProvisionServerSpec_boxed : Boxed cell (OpenStackProvisionServerSpecF mem).
Proof. by refine {| box := COpenStackProvisionServerSpec; unbox c := match c with COpenStackProvisionServerSpec a => Some a | _ => None end |}; boxed. Defined.
#[export] Instance COpenStackProvisionServerStatus_boxed : Boxed cell (OpenStackProvisionServerStatusF mem).
Proof. by refine {| box := COpenStackProvisionServerStatus; unbox c := match c with COpenStackProvisionServerStatus a => Some a | _ => None end |}; boxed. Defined.
#[export] Instance COpenStackProvisionServer_boxed : Boxed cell (OpenStackProvisionServerF mem).
Proof. by refine {| box := COpenStackProvisionServer; unbox c := match c with COpenStackProvisionServer a => Some a | _ => None end |}; boxed. Defined.
#[export] Instance COpenStackProvisionServerList_boxed : Boxed cell (OpenStackProvisionServerListF mem).
Proof. by refine {| box := COpenStackProvisionServerList; unbox c := match c with COpenStackProvisionServerList a => Some a | _ => None end |}; boxed. Defined.

(** ** Zero values *)

#[export] Instance zero_SecretReference : Zero SecretReference := mkSecretReference "" "".
#[export] Instance zero_Condition : Zero Condition := mkCondition "" ConditionUnknown "" 0 "" "".
#[export] Instance zero_HardwareReqs : Zero HardwareReqs := HardwareReqs_zero.
#[export] Instance zero_CPUReqs : Zero CPUReqs := hr_CPUReqs zero.
#[export] Instance zero_MemReqs : Zero MemReqs := hr_MemReqs zero.
#[export] Instance zero_DiskReqs : Zero DiskReqs := hr_DiskReqs zero.
#[export] Instance zero_CPUCountReq : Zero CPUCountReq := cr_CountReq zero.
#[export] Instance zero_CPUMhzReq : Zero CPUMhzReq := cr_MhzReq zero.
#[export] Instance zero_MemGbReq : Zero MemGbReq := mr_GbReq zero.
#[export] Instance zero_DiskGbReq : Zero DiskGbReq := dr_GbReq zero.
#[export] Instance zero_DiskSSDReq : Zero DiskSSDReq := dr_SSDReq zero.
#[export] Instance zero_OpenStackProvisionServerDefaults : Zero OpenStackProvisionServerDefaults :=
  mkProvDefaults "" "" "" "".
#[export] Instance zero_TypeMeta : Zero TypeMeta := mkTypeMeta "" "".
#[export] Instance zero_ObjectMetaF : Zero (ObjectMetaF mem) := @mkObjectMetaF mem "" "" "" 0%Z None None
  None None.
#[export] Instance zero_ListMetaF : Zero (ListMetaF mem) := @mkListMetaF mem "" "" None.
#[export] Instance zero_ResourceRequirementsF : Zero (ResourceRequirementsF mem) := @mkResourceRequirementsF
  mem None None.
#[export] Instance zero_BondConfigF : Zero (BondConfigF mem) := @mkBondConfigF mem None "" None.
#[export] Instance zero_InstanceSpecF : Zero (InstanceSpecF mem) := @mkInstanceSpecF mem None "" "" "" None
  None None.
#[export] Instance zero_OpenStackBaremetalSetTemplateSpecF : Zero (OpenStackBaremetalSetTemplateSpecF mem)
  := @mkOpenStackBaremetalSetTemplateSpecF mem "" "" "" "" "" "" "" None "" "" "" None "" None zero None ""
  "".
#[export] Instance zero_OpenStackBaremetalSetSpecF : Zero (OpenStackBaremetalSetSpecF mem) :=
  @mkOpenStackBaremetalSetSpecF mem None "" None None None zero.
#[export] Instance zero_IPStatusF : Zero (IPStatusF mem) := @mkIPStatusF mem "" "" None.
#[export] Instance zero_HostStatusF : Zero (HostStatusF mem) := @mkHostStatusF mem zero "" false "" "".
#[export] Instance zero_OpenStackBaremetalSetStatusF : Zero (OpenStackBaremetalSetStatusF mem) :=
  @mkOpenStackBaremetalSetStatusF mem None None None 0%Z.
#[export] Instance zero_OpenStackBaremetalSetF : Zero (OpenStackBaremetalSetF mem) :=
  @mkOpenStackBaremetalSetF mem zero zero zero zero.
#[export] Instance zero_OpenStackBaremetalSetListF : Zero (OpenStackBaremetalSetListF mem) :=
  @mkOpenStackBaremetalSetListF mem zero zero None.
#[export] Instance zero_OpenStackProvisionServerSpecF : Zero (OpenStackProvisionServerSpecF mem) :=
  @mkOpenStackProvisionServerSpecF mem 0%Z "" "" None "" "" "" None zero false.
#[export] Instance zero_OpenStackProvisionServerStatusF : Zero (OpenStackProvisionServerStatusF mem) :=
  @mkOpenStackProvisionServerStatusF mem 0%Z None None "" "" "" "" "" "".
#[export] Instance zero_OpenStackProvisionServerF : Zero (OpenStackProvisionServerF mem) :=
  @mkOpenStackProvisionServerF mem zero zero zero zero.
#[export] Instance zero_OpenStackProvisionServerListF : Zero (OpenStackProvisionServerListF mem) :=
  @mkOpenStackProvisionServerListF mem zero zero None.

(** ** Fields that are copied one by one *)

#[local] Ltac field_laws := by (split; [..|intros []]).

Definition f_cr_CountReq : field CPUReqs CPUCountReq :=
  mkField cr_CountReq (λ b a, mkCPUReqs (cr_Arch a) b (cr_MhzReq a)).
#[export] Instance f_cr_CountReq_laws : FieldLaws f_cr_CountReq.
Proof. field_laws. Qed.

Definition f_cr_MhzReq : field CPUReqs CPUMhzReq :=
  mkField cr_MhzReq (λ b a, mkCPUReqs (cr_Arch a) (cr_CountReq a) b).
#[export] Instance f_cr_MhzReq_laws : FieldLaws f_cr_MhzReq.
Proof. field_laws. Qed.

Definition f_mr_GbReq : field MemReqs MemGbReq :=
  mkField mr_GbReq (λ b a, mkMemReqs b).
#[export] Instance f_mr_GbReq_laws : FieldLaws f_mr_GbReq.
Proof. field_laws. Qed.

Definition f_dr_GbReq : field DiskReqs DiskGbReq :=
  mkField dr_GbReq (λ b a, mkDiskReqs b (dr_SSDReq a)).
#[export] Instance f_dr_GbReq_laws : FieldLaws f_dr_GbReq.
Proof. field_laws. Qed.

Definition f_dr_SSDReq : field DiskReqs DiskSSDReq :=
  mkField dr_SSDReq (λ b a, mkDiskReqs (dr_GbReq a) b).
#[export] Instance f_dr_SSDReq_laws : FieldLaws f_dr_SSDReq.
Proof. field_laws. Qed.

Definition f_hr_CPUReqs : field HardwareReqs CPUReqs :=
  mkField hr_CPUReqs (λ b a, mkHardwareReqs b (hr_MemReqs a) (hr_DiskReqs a)).
#[export] Instance f_hr_CPUReqs_laws : FieldLaws f_hr_CPUReqs.
Proof. field_laws. Qed.

Definition f_hr_MemReqs : field HardwareReqs MemReqs :=
  mkField hr_MemReqs (λ b a, mkHardwareReqs (hr_CPUReqs a) b (hr_DiskReqs a)).
#[export] Instance f_hr_MemReqs_laws : FieldLaws f_hr_MemReqs.
Proof. field_laws. Qed.

Definition f_hr_DiskReqs : field HardwareReqs DiskReqs :=
  mkField hr_DiskReqs (λ b a, mkHardwareReqs (hr_CPUReqs a) (hr_MemReqs a) b).
#[export] Instance f_hr_DiskReqs_laws : FieldLaws f_hr_DiskReqs.
Proof. field_laws. Qed.

Definition f_omF_DeletionTimestamp : field (ObjectMetaF mem) (ref mem Z) :=
  mkField omF_DeletionTimestamp (λ b a, mkObjectMetaF (omF_Name a) (omF_Namespace a) (omF_UID a)
    (omF_Generation a) b (omF_Labels a) (omF_Annotations a) (omF_Finalizers a)).
#[export] Instance f_omF_DeletionTimestamp_laws : FieldLaws f_omF_DeletionTimestamp.
Proof. field_laws. Qed.

Definition f_omF_Labels : field (ObjectMetaF mem) (ref mem (gmap string string)) :=
  mkField omF_Labels (λ b a, mkObjectMetaF (omF_Name a) (omF_Namespace a) (omF_UID a) (omF_Generation a)
    (omF_DeletionTimestamp a) b (omF_Annotations a) (omF_Finalizers a)).
#[export] Instance f_omF_Labels_laws : FieldLaws f_omF_Labels.
Proof. field_laws. Qed.

Definition f_omF_Annotations : field (ObjectMetaF mem) (ref mem (gmap string string)) :=
  mkField omF_Annotations (λ b a, mkObjectMetaF (omF_Name a) (omF_Namespace a) (omF_UID a) (omF_Generation
    a) (omF_DeletionTimestamp a) (omF_Labels a) b (omF_Finalizers a)).
#[export] Instance f_omF_Annotations_laws : FieldLaws f_omF_Annotations.
Proof. field_laws. Qed.

Definition f_omF_Finalizers : field (ObjectMetaF mem) (sl mem string) :=
  mkField omF_Finalizers (λ b a, mkObjectMetaF (omF_Name a) (omF_Namespace a) (omF_UID a) (omF_Generation a)
    (omF_DeletionTimestamp a) (omF_Labels a) (omF_Annotations a) b).
#[export] Instance f_omF_Finalizers_laws : FieldLaws f_omF_Finalizers.
Proof. field_laws. Qed.

Definition f_lmF_RemainingItemCount : field (ListMetaF mem) (ref mem Z) :=
  mkField lmF_RemainingItemCount (λ b a, mkListMetaF (lmF_ResourceVersion a) (lmF_Continue a) b).
#[export] Instance f_lmF_RemainingItemCount_laws : FieldLaws f_lmF_RemainingItemCount.
Proof. field_laws. Qed.

Definition f_rrF_Limits : field (ResourceRequirementsF mem) (ref mem (gmap string string)) :=
  mkField rrF_Limits (λ b a, mkResourceRequirementsF b (rrF_Requests a)).
#[export] Instance f_rrF_Limits_laws : FieldLaws f_rrF_Limits.
Proof. field_laws. Qed.

Definition f_rrF_Requests : field (ResourceRequirementsF mem) (ref mem (gmap string string)) :=
  mkField rrF_Requests (λ b a, mkResourceRequirementsF (rrF_Limits a) b).
#[export] Instance f_rrF_Requests_laws : FieldLaws f_rrF_Requests.
Proof. field_laws. Qed.

Definition f_bcF_BondInterfaces : field (BondConfigF mem) (sl mem string) :=
  mkField bcF_BondInterfaces (λ b a, mkBondConfigF b (bcF_BondMode a) (bcF_BondOptions a)).
#[export] Instance f_bcF_BondInterfaces_laws : FieldLaws f_bcF_BondInterfaces.
Proof. field_laws. Qed.

Definition f_bcF_BondOptions : field (BondConfigF mem) (ref mem (gmap string string)) :=
  mkField bcF_BondOptions (λ b a, mkBondConfigF (bcF_BondInterfaces a) (bcF_BondMode a) b).
#[export] Instance f_bcF_BondOptions_laws : FieldLaws f_bcF_BondOptions.
Proof. field_laws. Qed.

Definition f_isF_BmhLabelSelector : field (InstanceSpecF mem) (ref mem (gmap string string)) :=
  mkField isF_BmhLabelSelector (λ b a, mkInstanceSpecF b (isF_CtlPlaneIP a) (isF_CtlplaneGateway a)
    (isF_CtlplaneInterface a) (isF_CtlplaneVlan a) (isF_UserData a) (isF_NetworkData a)).
#[export] Instance f_isF_BmhLabelSelector_laws : FieldLaws f_isF_BmhLabelSelector.
Proof. field_laws. Qed.

Definition f_isF_CtlplaneVlan : field (InstanceSpecF mem) (ref mem Z) :=
  mkField isF_CtlplaneVlan (λ b a, mkInstanceSpecF (isF_BmhLabelSelector a) (isF_CtlPlaneIP a)
    (isF_CtlplaneGateway a) (isF_CtlplaneInterface a) b (isF_UserData a) (isF_NetworkData a)).
#[export] Instance f_isF_CtlplaneVlan_laws : FieldLaws f_isF_CtlplaneVlan.
Proof. field_laws. Qed.

Definition f_isF_UserData : field (InstanceSpecF mem) (ref mem SecretReference) :=
  mkField isF_UserData (λ b a, mkInstanceSpecF (isF_BmhLabelSelector a) (isF_CtlPlaneIP a)
    (isF_CtlplaneGateway a) (isF_CtlplaneInterface a) (isF_CtlplaneVlan a) b (isF_NetworkData a)).
#[export] Instance f_isF_UserData_laws : FieldLaws f_isF_UserData.
Proof. field_laws. Qed.

Definition f_isF_NetworkData : field (InstanceSpecF mem) (ref mem SecretReference) :=
  mkField isF_NetworkData (λ b a, mkInstanceSpecF (isF_BmhLabelSelector a) (isF_CtlPlaneIP a)
    (isF_CtlplaneGateway a) (isF_CtlplaneInterface a) (isF_CtlplaneVlan a) (isF_UserData a) b).
#[export] Instance f_isF_NetworkData_laws : FieldLaws f_isF_NetworkData.
Proof. field_laws. Qed.

Definition f_tsF_ProvisonServerNodeSelector : field (OpenStackBaremetalSetTemplateSpecF mem) (ref mem (gmap
    string string)) :=
  mkField tsF_ProvisonServerNodeSelector (λ b a, mkOpenStackBaremetalSetTemplateSpecF (tsF_OSImage a)
    (tsF_OSContainerImageURL a) (tsF_OSImageDeploymentType a) (tsF_ApacheImageURL a) (tsF_AgentImageURL a)
    (tsF_AutomatedCleaningMode a) (tsF_ProvisionServerName a) b (tsF_ProvisioningInterface a)
    (tsF_DeploymentSSHSecret a) (tsF_CtlplaneInterface a) (tsF_CtlplaneBond a) (tsF_BmhNamespace a)
    (tsF_BmhLabelSelector a) (tsF_HardwareReqs a) (tsF_PasswordSecret a) (tsF_CloudUserName a)
    (tsF_DomainName a)).
#[export] Instance f_tsF_ProvisonServerNodeSelector_laws : FieldLaws f_tsF_ProvisonServerNodeSelector.
Proof. field_laws. Qed.

Definition f_tsF_CtlplaneBond : field (OpenStackBaremetalSetTemplateSpecF mem) (ref mem (BondConfigF mem))
    :=
  mkField tsF_CtlplaneBond (λ b a, mkOpenStackBaremetalSetTemplateSpecF (tsF_OSImage a)
    (tsF_OSContainerImageURL a) (tsF_OSImageDeploymentType a) (tsF_ApacheImageURL a) (tsF_AgentImageURL a)
    (tsF_AutomatedCleaningMode a) (tsF_ProvisionServerName a) (tsF_ProvisonServerNodeSelector a)
    (tsF_ProvisioningInterface a) (tsF_DeploymentSSHSecret a) (tsF_CtlplaneInterface a) b (tsF_BmhNamespace
    a) (tsF_BmhLabelSelector a) (tsF_HardwareReqs a) (tsF_PasswordSecret a) (tsF_CloudUserName a)
    (tsF_DomainName a)).
#[export] Instance f_tsF_CtlplaneBond_laws : FieldLaws f_tsF_CtlplaneBond.
Proof. field_laws. Qed.

Definition f_tsF_BmhLabelSelector : field (OpenStackBaremetalSetTemplateSpecF mem) (ref mem (gmap string
    string)) :=
  mkField tsF_BmhLabelSelector (λ b a, mkOpenStackBaremetalSetTemplateSpecF (tsF_OSImage a)
    (tsF_OSContainerImageURL a) (tsF_OSImageDeploymentType a) (tsF_ApacheImageURL a) (tsF_AgentImageURL a)
    (tsF_AutomatedCleaningMode a) (tsF_ProvisionServerName a) (tsF_ProvisonServerNodeSelector a)
    (tsF_ProvisioningInterface a) (tsF_DeploymentSSHSecret a) (tsF_CtlplaneInterface a) (tsF_CtlplaneBond a)
    (tsF_BmhNamespace a) b (tsF_HardwareReqs a) (tsF_PasswordSecret a) (tsF_CloudUserName a) (tsF_DomainName
    a)).
#[export] Instance f_tsF_BmhLabelSelector_laws : FieldLaws f_tsF_BmhLabelSelector.
Proof. field_laws. Qed.

Definition f_tsF_HardwareReqs : field (OpenStackBaremetalSetTemplateSpecF mem) HardwareReqs :=
  mkField tsF_HardwareReqs (λ b a, mkOpenStackBaremetalSetTemplateSpecF (tsF_OSImage a)
    (tsF_OSContainerImageURL a) (tsF_OSImageDeploymentType a) (tsF_ApacheImageURL a) (tsF_AgentImageURL a)
    (tsF_AutomatedCleaningMode a) (tsF_ProvisionServerName a) (tsF_ProvisonServerNodeSelector a)
    (tsF_ProvisioningInterface a) (tsF_DeploymentSSHSecret a) (tsF_CtlplaneInterface a) (tsF_CtlplaneBond a)
    (tsF_BmhNamespace a) (tsF_BmhLabelSelector a) b (tsF_PasswordSecret a) (tsF_CloudUserName a)
    (tsF_DomainName a)).
#[export] Instance f_tsF_HardwareReqs_laws : FieldLaws f_tsF_HardwareReqs.
Proof. field_laws. Qed.

Definition f_tsF_PasswordSecret : field (OpenStackBaremetalSetTemplateSpecF mem) (ref mem SecretReference)
    :=
  mkField tsF_PasswordSecret (λ b a, mkOpenStackBaremetalSetTemplateSpecF (tsF_OSImage a)
    (tsF_OSContainerImageURL a) (tsF_OSImageDeploymentType a) (tsF_ApacheImageURL a) (tsF_AgentImageURL a)
    (tsF_AutomatedCleaningMode a) (tsF_ProvisionServerName a) (tsF_ProvisonServerNodeSelector a)
    (tsF_ProvisioningInterface a) (tsF_DeploymentSSHSecret a) (tsF_CtlplaneInterface a) (tsF_CtlplaneBond a)
    (tsF_BmhNamespace a) (tsF_BmhLabelSelector a) (tsF_HardwareReqs a) b (tsF_CloudUserName a)
    (tsF_DomainName a)).
#[export] Instance f_tsF_PasswordSecret_laws : FieldLaws f_tsF_PasswordSecret.
Proof. field_laws. Qed.

Definition f_bsF_BaremetalHosts : field (OpenStackBaremetalSetSpecF mem) (ref mem (gmap string
    (InstanceSpecF mem))) :=
  mkField bsF_BaremetalHosts (λ b a, mkOpenStackBaremetalSetSpecF b (bsF_CtlplaneGateway a)
    (bsF_CtlplaneVlan a) (bsF_BootstrapDNS a) (bsF_DNSSearchDomains a) (bsF_Template a)).
#[export] Instance f_bsF_BaremetalHosts_laws : FieldLaws f_bsF_BaremetalHosts.
Proof. field_laws. Qed.

Definition f_bsF_CtlplaneVlan : field (OpenStackBaremetalSetSpecF mem) (ref mem Z) :=
  mkField bsF_CtlplaneVlan (λ b a, mkOpenStackBaremetalSetSpecF (bsF_BaremetalHosts a) (bsF_CtlplaneGateway
    a) b (bsF_BootstrapDNS a) (bsF_DNSSearchDomains a) (bsF_Template a)).
#[export] Instance f_bsF_CtlplaneVlan_laws : FieldLaws f_bsF_CtlplaneVlan.
Proof. field_laws. Qed.

Definition f_bsF_BootstrapDNS : field (OpenStackBaremetalSetSpecF mem) (sl mem string) :=
  mkField bsF_BootstrapDNS (λ b a, mkOpenStackBaremetalSetSpecF (bsF_BaremetalHosts a) (bsF_CtlplaneGateway
    a) (bsF_CtlplaneVlan a) b (bsF_DNSSearchDomains a) (bsF_Template a)).
#[export] Instance f_bsF_BootstrapDNS_laws : FieldLaws f_bsF_BootstrapDNS.
Proof. field_laws. Qed.

Definition f_bsF_DNSSearchDomains : field (OpenStackBaremetalSetSpecF mem) (sl mem string) :=
  mkField bsF_DNSSearchDomains (λ b a, mkOpenStackBaremetalSetSpecF (bsF_BaremetalHosts a)
    (bsF_CtlplaneGateway a) (bsF_CtlplaneVlan a) (bsF_BootstrapDNS a) b (bsF_Template a)).
#[export] Instance f_bsF_DNSSearchDomains_laws : FieldLaws f_bsF_DNSSearchDomains.
Proof. field_laws. Qed.

Definition f_bsF_Template : field (OpenStackBaremetalSetSpecF mem) (OpenStackBaremetalSetTemplateSpecF mem)
    :=
  mkField bsF_Template (λ b a, mkOpenStackBaremetalSetSpecF (bsF_BaremetalHosts a) (bsF_CtlplaneGateway a)
    (bsF_CtlplaneVlan a) (bsF_BootstrapDNS a) (bsF_DNSSearchDomains a) b).
#[export] Instance f_bsF_Template_laws : FieldLaws f_bsF_Template.
Proof. field_laws. Qed.

Definition f_ipF_IPAddresses : field (IPStatusF mem) (ref mem (gmap string string)) :=
  mkField ipF_IPAddresses (λ b a, mkIPStatusF (ipF_Hostname a) (ipF_BmhRef a) b).
#[export] Instance f_ipF_IPAddresses_laws : FieldLaws f_ipF_IPAddresses.
Proof. field_laws. Qed.

Definition f_hsF_IPStatus : field (HostStatusF mem) (IPStatusF mem) :=
  mkField hsF_IPStatus (λ b a, mkHostStatusF b (hsF_ProvisioningState a) (hsF_AnnotatedForDeletion a)
    (hsF_UserDataSecretName a) (hsF_NetworkDataSecretName a)).
#[export] Instance f_hsF_IPStatus_laws : FieldLaws f_hsF_IPStatus.
Proof. field_laws. Qed.

Definition f_btF_Conditions : field (OpenStackBaremetalSetStatusF mem) (sl mem Condition) :=
  mkField btF_Conditions (λ b a, mkOpenStackBaremetalSetStatusF b (btF_Hash a) (btF_BaremetalHosts a)
    (btF_ObservedGeneration a)).
#[export] Instance f_btF_Conditions_laws : FieldLaws f_btF_Conditions.
Proof. field_laws. Qed.

Definition f_btF_Hash : field (OpenStackBaremetalSetStatusF mem) (ref mem (gmap string string)) :=
  mkField btF_Hash (λ b a, mkOpenStackBaremetalSetStatusF (btF_Conditions a) b (btF_BaremetalHosts a)
    (btF_ObservedGeneration a)).
#[export] Instance f_btF_Hash_laws : FieldLaws f_btF_Hash.
Proof. field_laws. Qed.

Definition f_btF_BaremetalHosts : field (OpenStackBaremetalSetStatusF mem) (ref mem (gmap string
    (HostStatusF mem))) :=
  mkField btF_BaremetalHosts (λ b a, mkOpenStackBaremetalSetStatusF (btF_Conditions a) (btF_Hash a) b
    (btF_ObservedGeneration a)).
#[export] Instance f_btF_BaremetalHosts_laws : FieldLaws f_btF_BaremetalHosts.
Proof. field_laws. Qed.

Definition f_setF_TypeMeta : field (OpenStackBaremetalSetF mem) TypeMeta :=
  mkField setF_TypeMeta (λ b a, mkOpenStackBaremetalSetF b (setF_ObjectMeta a) (setF_Spec a) (setF_Status
    a)).
#[export] Instance f_setF_TypeMeta_laws : FieldLaws f_setF_TypeMeta.
Proof. field_laws. Qed.

Definition f_setF_ObjectMeta : field (OpenStackBaremetalSetF mem) (ObjectMetaF mem) :=
  mkField setF_ObjectMeta (λ b a, mkOpenStackBaremetalSetF (setF_TypeMeta a) b (setF_Spec a) (setF_Status
    a)).
#[export] Instance f_setF_ObjectMeta_laws : FieldLaws f_setF_ObjectMeta.
Proof. field_laws. Qed.

Definition f_setF_Spec : field (OpenStackBaremetalSetF mem) (OpenStackBaremetalSetSpecF mem) :=
  mkField setF_Spec (λ b a, mkOpenStackBaremetalSetF (setF_TypeMeta a) (setF_ObjectMeta a) b (setF_Status
    a)).
#[export] Instance f_setF_Spec_laws : FieldLaws f_setF_Spec.
Proof. field_laws. Qed.

Definition f_setF_Status : field (OpenStackBaremetalSetF mem) (OpenStackBaremetalSetStatusF mem) :=
  mkField setF_Status (λ b a, mkOpenStackBaremetalSetF (setF_TypeMeta a) (setF_ObjectMeta a) (setF_Spec a)
    b).
#[export] Instance f_setF_Status_laws : FieldLaws f_setF_Status.
Proof. field_laws. Qed.

Definition f_setlF_TypeMeta : field (OpenStackBaremetalSetListF mem) TypeMeta :=
  mkField setlF_TypeMeta (λ b a, mkOpenStackBaremetalSetListF b (setlF_ListMeta a) (setlF_Items a)).
#[export] Instance f_setlF_TypeMeta_laws : FieldLaws f_setlF_TypeMeta.
Proof. field_laws. Qed.

Definition f_setlF_ListMeta : field (OpenStackBaremetalSetListF mem) (ListMetaF mem) :=
  mkField setlF_ListMeta (λ b a, mkOpenStackBaremetalSetListF (setlF_TypeMeta a) b (setlF_Items a)).
#[export] Instance f_setlF_ListMeta_laws : FieldLaws f_setlF_ListMeta.
Proof. field_laws. Qed.

Definition f_setlF_Items : field (OpenStackBaremetalSetListF mem) (sl mem (OpenStackBaremetalSetF mem)) :=
  mkField setlF_Items (λ b a, mkOpenStackBaremetalSetListF (setlF_TypeMeta a) (setlF_ListMeta a) b).
#[export] Instance f_setlF_Items_laws : FieldLaws f_setlF_Items.
Proof. field_laws. Qed.

Definition f_psF_OSImageDir : field (OpenStackProvisionServerSpecF mem) (ref mem string) :=
  mkField psF_OSImageDir (λ b a, mkOpenStackProvisionServerSpecF (psF_Port a) (psF_Interface a) (psF_OSImage
    a) b (psF_OSContainerImageURL a) (psF_ApacheImageURL a) (psF_AgentImageURL a) (psF_NodeSelector a)
    (psF_Resources a) (psF_PreserveJobs a)).
#[export] Instance f_psF_OSImageDir_laws : FieldLaws f_psF_OSImageDir.
Proof. field_laws. Qed.

Definition f_psF_NodeSelector : field (OpenStackProvisionServerSpecF mem) (ref mem (gmap string string)) :=
  mkField psF_NodeSelector (λ b a, mkOpenStackProvisionServerSpecF (psF_Port a) (psF_Interface a)
    (psF_OSImage a) (psF_OSImageDir a) (psF_OSContainerImageURL a) (psF_ApacheImageURL a) (psF_AgentImageURL
    a) b (psF_Resources a) (psF_PreserveJobs a)).
#[export] Instance f_psF_NodeSelector_laws : FieldLaws f_psF_NodeSelector.
Proof. field_laws. Qed.

Definition f_psF_Resources : field (OpenStackProvisionServerSpecF mem) (ResourceRequirementsF mem) :=
  mkField psF_Resources (λ b a, mkOpenStackProvisionServerSpecF (psF_Port a) (psF_Interface a) (psF_OSImage
    a) (psF_OSImageDir a) (psF_OSContainerImageURL a) (psF_ApacheImageURL a) (psF_AgentImageURL a)
    (psF_NodeSelector a) b (psF_PreserveJobs a)).
#[export] Instance f_psF_Resources_laws : FieldLaws f_psF_Resources.
Proof. field_laws. Qed.

Definition f_ptF_Conditions : field (OpenStackProvisionServerStatusF mem) (sl mem Condition) :=
  mkField ptF_Conditions (λ b a, mkOpenStackProvisionServerStatusF (ptF_ReadyCount a) b (ptF_Hash a)
    (ptF_ProvisionIP a) (ptF_ProvisionIPError a) (ptF_LocalImageURL a) (ptF_OSImageChecksumFilename a)
    (ptF_OSImageChecksumType a) (ptF_LocalImageChecksumURL a)).
#[export] Instance f_ptF_Conditions_laws : FieldLaws f_ptF_Conditions.
Proof. field_laws. Qed.

Definition f_ptF_Hash : field (OpenStackProvisionServerStatusF mem) (ref mem (gmap string string)) :=
  mkField ptF_Hash (λ b a, mkOpenStackProvisionServerStatusF (ptF_ReadyCount a) (ptF_Conditions a) b
    (ptF_ProvisionIP a) (ptF_ProvisionIPError a) (ptF_LocalImageURL a) (ptF_OSImageChecksumFilename a)
    (ptF_OSImageChecksumType a) (ptF_LocalImageChecksumURL a)).
#[export] Instance f_ptF_Hash_laws : FieldLaws f_ptF_Hash.
Proof. field_laws. Qed.

Definition f_provF_TypeMeta : field (OpenStackProvisionServerF mem) TypeMeta :=
  mkField provF_TypeMeta (λ b a, mkOpenStackProvisionServerF b (provF_ObjectMeta a) (provF_Spec a)
    (provF_Status a)).
#[export] Instance f_provF_TypeMeta_laws : FieldLaws f_provF_TypeMeta.
Proof. field_laws. Qed.

Definition f_provF_ObjectMeta : field (OpenStackProvisionServerF mem) (ObjectMetaF mem) :=
  mkField provF_ObjectMeta (λ b a, mkOpenStackProvisionServerF (provF_TypeMeta a) b (provF_Spec a)
    (provF_Status a)).
#[export] Instance f_provF_ObjectMeta_laws : FieldLaws f_provF_ObjectMeta.
Proof. field_laws. Qed.

Definition f_provF_Spec : field (OpenStackProvisionServerF mem) (OpenStackProvisionServerSpecF mem) :=
  mkField provF_Spec (λ b a, mkOpenStackProvisionServerF (provF_TypeMeta a) (provF_ObjectMeta a) b
    (provF_Status a)).
#[export] Instance f_provF_Spec_laws : FieldLaws f_provF_Spec.
Proof. field_laws. Qed.

Definition f_provF_Status : field (OpenStackProvisionServerF mem) (OpenStackProvisionServerStatusF mem) :=
  mkField provF_Status (λ b a, mkOpenStackProvisionServerF (provF_TypeMeta a) (provF_ObjectMeta a)
    (provF_Spec a) b).
#[export] Instance f_provF_Status_laws : FieldLaws f_provF_Status.
Proof. field_laws. Qed.

Definition f_provlF_TypeMeta : field (OpenStackProvisionServerListF mem) TypeMeta :=
  mkField provlF_TypeMeta (λ b a, mkOpenStackProvisionServerListF b (provlF_ListMeta a) (provlF_Items a)).
#[export] Instance f_provlF_TypeMeta_laws : FieldLaws f_provlF_TypeMeta.
Proof. field_laws. Qed.

Definition f_provlF_ListMeta : field (OpenStackProvisionServerListF mem) (ListMetaF mem) :=
  mkField provlF_ListMeta (λ b a, mkOpenStackProvisionServerListF (provlF_TypeMeta a) b (provlF_Items a)).
#[export] Instance f_provlF_ListMeta_laws : FieldLaws f_provlF_ListMeta.
Proof. field_laws. Qed.

Definition f_provlF_Items : field (OpenStackProvisionServerListF mem) (sl mem (OpenStackProvisionServerF
    mem)) :=
  mkField provlF_Items (λ b a, mkOpenStackProvisionServerListF (provlF_TypeMeta a) (provlF_ListMeta a) b).
#[export] Instance f_provlF_Items_laws : FieldLaws f_provlF_Items.
Proof. field_laws. Qed.

(** ** What the structs read as *)

Definition rep_ObjectMeta : relr (cell := cell) (ObjectMetaF mem) (ObjectMetaF val) := λ D h x v,
  omF_Name x = omF_Name v ∧
  omF_Namespace x = omF_Namespace v ∧
  omF_UID x = omF_UID v ∧
  omF_Generation x = omF_Generation v ∧
  rep_ref rep_eq D h (omF_DeletionTimestamp x) (omF_DeletionTimestamp v) ∧
  rep_ref (rep_map rep_eq) D h (omF_Labels x) (omF_Labels v) ∧
  rep_ref (rep_map rep_eq) D h (omF_Annotations x) (omF_Annotations v) ∧
  rep_slice rep_eq D h (omF_Finalizers x) (omF_Finalizers v).

Definition rep_ListMeta : relr (cell := cell) (ListMetaF mem) (ListMetaF val) := λ D h x v,
  lmF_ResourceVersion x = lmF_ResourceVersion v ∧
  lmF_Continue x = lmF_Continue v ∧
  rep_ref rep_eq D h (lmF_RemainingItemCount x) (lmF_RemainingItemCount v).

Definition rep_ResourceRequirements : relr (cell := cell) (ResourceRequirementsF mem) (ResourceRequirementsF val) := λ D h x v,
  rep_ref (rep_map rep_eq) D h (rrF_Limits x) (rrF_Limits v) ∧
  rep_ref (rep_map rep_eq) D h (rrF_Requests x) (rrF_Requests v).

Definition rep_BondConfig : relr (cell := cell) (BondConfigF mem) (BondConfigF val) := λ D h x v,
  rep_slice rep_eq D h (bcF_BondInterfaces x) (bcF_BondInterfaces v) ∧
  bcF_BondMode x = bcF_BondMode v ∧
  rep_ref (rep_map rep_eq) D h (bcF_BondOptions x) (bcF_BondOptions v).

Definition rep_InstanceSpec : relr (cell := cell) (InstanceSpecF mem) (InstanceSpecF val) := λ D h x v,
  rep_ref (rep_map rep_eq) D h (isF_BmhLabelSelector x) (isF_BmhLabelSelector v) ∧
  isF_CtlPlaneIP x = isF_CtlPlaneIP v ∧
  isF_CtlplaneGateway x = isF_CtlplaneGateway v ∧
  isF_CtlplaneInterface x = isF_CtlplaneInterface v ∧
  rep_ref rep_eq D h (isF_CtlplaneVlan x) (isF_CtlplaneVlan v) ∧
  rep_ref rep_eq D h (isF_UserData x) (isF_UserData v) ∧
  rep_ref rep_eq D h (isF_NetworkData x) (isF_NetworkData v).

Definition rep_OpenStackBaremetalSetTemplateSpec : relr (cell := cell) (OpenStackBaremetalSetTemplateSpecF mem) (OpenStackBaremetalSetTemplateSpecF val) := λ D h x v,
  tsF_OSImage x = tsF_OSImage v ∧
  tsF_OSContainerImageURL x = tsF_OSContainerImageURL v ∧
  tsF_OSImageDeploymentType x = tsF_OSImageDeploymentType v ∧
  tsF_ApacheImageURL x = tsF_ApacheImageURL v ∧
  tsF_AgentImageURL x = tsF_AgentImageURL v ∧
  tsF_AutomatedCleaningMode x = tsF_AutomatedCleaningMode v ∧
  tsF_ProvisionServerName x = tsF_ProvisionServerName v ∧
  rep_ref (rep_map rep_eq) D h (tsF_ProvisonServerNodeSelector x) (tsF_ProvisonServerNodeSelector v) ∧
  tsF_ProvisioningInterface x = tsF_ProvisioningInterface v ∧
  tsF_DeploymentSSHSecret x = tsF_DeploymentSSHSecret v ∧
  tsF_CtlplaneInterface x = tsF_CtlplaneInterface v ∧
  rep_ref rep_BondConfig D h (tsF_CtlplaneBond x) (tsF_CtlplaneBond v) ∧
  tsF_BmhNamespace x = tsF_BmhNamespace v ∧
  rep_ref (rep_map rep_eq) D h (tsF_BmhLabelSelector x) (tsF_BmhLabelSelector v) ∧
  tsF_HardwareReqs x = tsF_HardwareReqs v ∧
  rep_ref rep_eq D h (tsF_PasswordSecret x) (tsF_PasswordSecret v) ∧
  tsF_CloudUserName x = tsF_CloudUserName v ∧
  tsF_DomainName x = tsF_DomainName v.

Definition rep_OpenStackBaremetalSetSpec : relr (cell := cell) (OpenStackBaremetalSetSpecF mem) (OpenStackBaremetalSetSpecF val) := λ D h x v,
  rep_ref (rep_map rep_InstanceSpec) D h (bsF_BaremetalHosts x) (bsF_BaremetalHosts v) ∧
  bsF_CtlplaneGateway x = bsF_CtlplaneGateway v ∧
  rep_ref rep_eq D h (bsF_CtlplaneVlan x) (bsF_CtlplaneVlan v) ∧
  rep_slice rep_eq D h (bsF_BootstrapDNS x) (bsF_BootstrapDNS v) ∧
  rep_slice rep_eq D h (bsF_DNSSearchDomains x) (bsF_DNSSearchDomains v) ∧
  rep_OpenStackBaremetalSetTemplateSpec D h (bsF_Template x) (bsF_Template v).

Definition rep_IPStatus : relr (cell := cell) (IPStatusF mem) (IPStatusF val) := λ D h x v,
  ipF_Hostname x = ipF_Hostname v ∧
  ipF_BmhRef x = ipF_BmhRef v ∧
  rep_ref (rep_map rep_eq) D h (ipF_IPAddresses x) (ipF_IPAddresses v).

Definition rep_HostStatus : relr (cell := cell) (HostStatusF mem) (HostStatusF val) := λ D h x v,
  rep_IPStatus D h (hsF_IPStatus x) (hsF_IPStatus v) ∧
  hsF_ProvisioningState x = hsF_ProvisioningState v ∧
  hsF_AnnotatedForDeletion x = hsF_AnnotatedForDeletion v ∧
  hsF_UserDataSecretName x = hsF_UserDataSecretName v ∧
  hsF_NetworkDataSecretName x = hsF_NetworkDataSecretName v.

Definition rep_OpenStackBaremetalSetStatus : relr (cell := cell) (OpenStackBaremetalSetStatusF mem) (OpenStackBaremetalSetStatusF val) := λ D h x v,
  rep_slice rep_eq D h (btF_Conditions x) (btF_Conditions v) ∧
  rep_ref (rep_map rep_eq) D h (btF_Hash x) (btF_Hash v) ∧
  rep_ref (rep_map rep_HostStatus) D h (btF_BaremetalHosts x) (btF_BaremetalHosts v) ∧
  btF_ObservedGeneration x = btF_ObservedGeneration v.

Definition rep_OpenStackBaremetalSet : relr (cell := cell) (OpenStackBaremetalSetF mem) (OpenStackBaremetalSetF val) := λ D h x v,
  setF_TypeMeta x = setF_TypeMeta v ∧
  rep_ObjectMeta D h (setF_ObjectMeta x) (setF_ObjectMeta v) ∧
  rep_OpenStackBaremetalSetSpec D h (setF_Spec x) (setF_Spec v) ∧
  rep_OpenStackBaremetalSetStatus D h (setF_Status x) (setF_Status v).

Definition rep_OpenStackBaremetalSetList : relr (cell := cell) (OpenStackBaremetalSetListF mem) (OpenStackBaremetalSetListF val) := λ D h x v,
  setlF_TypeMeta x = setlF_TypeMeta v ∧
  rep_ListMeta D h (setlF_ListMeta x) (setlF_ListMeta v) ∧
  rep_slice rep_OpenStackBaremetalSet D h (setlF_Items x) (setlF_Items v).

Definition rep_OpenStackProvisionServerSpec : relr (cell := cell) (OpenStackProvisionServerSpecF mem) (OpenStackProvisionServerSpecF val) := λ D h x v,
  psF_Port x = psF_Port v ∧
  psF_Interface x = psF_Interface v ∧
  psF_OSImage x = psF_OSImage v ∧
  rep_ref rep_eq D h (psF_OSImageDir x) (psF_OSImageDir v) ∧
  psF_OSContainerImageURL x = psF_OSContainerImageURL v ∧
  psF_ApacheImageURL x = psF_ApacheImageURL v ∧
  psF_AgentImageURL x = psF_AgentImageURL v ∧
  rep_ref (rep_map rep_eq) D h (psF_NodeSelector x) (psF_NodeSelector v) ∧
  rep_ResourceRequirements D h (psF_Resources x) (psF_Resources v) ∧
  psF_PreserveJobs x = psF_PreserveJobs v.

Definition rep_OpenStackProvisionServerStatus : relr (cell := cell) (OpenStackProvisionServerStatusF mem) (OpenStackProvisionServerStatusF val) := λ D h x v,
  ptF_ReadyCount x = ptF_ReadyCount v ∧
  rep_slice rep_eq D h (ptF_Conditions x) (ptF_Conditions v) ∧
  rep_ref (rep_map rep_eq) D h (ptF_Hash x) (ptF_Hash v) ∧
  ptF_ProvisionIP x = ptF_ProvisionIP v ∧
  ptF_ProvisionIPError x = ptF_ProvisionIPError v ∧
  ptF_LocalImageURL x = ptF_LocalImageURL v ∧
  ptF_OSImageChecksumFilename x = ptF_OSImageChecksumFilename v ∧
  ptF_OSImageChecksumType x = ptF_OSImageChecksumType v ∧
  ptF_LocalImageChecksumURL x = ptF_LocalImageChecksumURL v.

Definition rep_OpenStackProvisionServer : relr (cell := cell) (OpenStackProvisionServerF mem) (OpenStackProvisionServerF val) := λ D h x v,
  provF_TypeMeta x = provF_TypeMeta v ∧
  rep_ObjectMeta D h (provF_ObjectMeta x) (provF_ObjectMeta v) ∧
  rep_OpenStackProvisionServerSpec D h (provF_Spec x) (provF_Spec v) ∧
  rep_OpenStackProvisionServerStatus D h (provF_Status x) (provF_Status v).

Definition rep_OpenStackProvisionServerList : relr (cell := cell) (OpenStackProvisionServerListF mem) (OpenStackProvisionServerListF val) := λ D h x v,
  provlF_TypeMeta x = provlF_TypeMeta v ∧
  rep_ListMeta D h (provlF_ListMeta x) (provlF_ListMeta v) ∧
  rep_slice rep_OpenStackProvisionServer D h (provlF_Items x) (provlF_Items v).

(** They are read from the cells their references lead to, and from nothing else. *)
#[local] Ltac struct_stable :=
  let Hr := fresh "Hr" in intros D D' h h' x v Hr Hk; hnf in Hr |- *; destruct_and? Hr; split_and!;
  first [assumption | by eapply stable; [eassumption|exact Hk]].

#[export] Instance ObjectMeta_stable : Stable rep_ObjectMeta.
Proof. struct_stable. Qed.
#[export] Instance ListMeta_stable : Stable rep_ListMeta.
Proof. struct_stable. Qed.
#[export] Instance ResourceRequirements_stable : Stable rep_ResourceRequirements.
Proof. struct_stable. Qed.
#[export] Instance BondConfig_stable : Stable rep_BondConfig.
Proof. struct_stable. Qed.
#[export] Instance InstanceSpec_stable : Stable rep_InstanceSpec.
Proof. struct_stable. Qed.
#[export] Instance OpenStackBaremetalSetTemplateSpec_stable : Stable rep_OpenStackBaremetalSetTemplateSpec.
Proof. struct_stable. Qed.
#[export] Instance OpenStackBaremetalSetSpec_stable : Stable rep_OpenStackBaremetalSetSpec.
Proof. struct_stable. Qed.
#[export] Instance IPStatus_stable : Stable rep_IPStatus.
Proof. struct_stable. Qed.
#[export] Instance HostStatus_stable : Stable rep_HostStatus.
Proof. struct_stable. Qed.
#[export] Instance OpenStackBaremetalSetStatus_stable : Stable rep_OpenStackBaremetalSetStatus.
Proof. struct_stable. Qed.
#[export] Instance OpenStackBaremetalSet_stable : Stable rep_OpenStackBaremetalSet.
Proof. struct_stable. Qed.
#[export] Instance OpenStackBaremetalSetList_stable : Stable rep_OpenStackBaremetalSetList.
Proof. struct_stable. Qed.
#[export] Instance OpenStackProvisionServerSpec_stable : Stable rep_OpenStackProvisionServerSpec.
Proof. struct_stable. Qed.
#[export] Instance OpenStackProvisionServerStatus_stable : Stable rep_OpenStackProvisionServerStatus.
Proof. struct_stable. Qed.
#[export] Instance OpenStackProvisionServer_stable : Stable rep_OpenStackProvisionServer.
Proof. struct_stable. Qed.
#[export] Instance OpenStackProvisionServerList_stable : Stable rep_OpenStackProvisionServerList.
Proof. struct_stable. Qed.
