(* ===== verification/DeepCopy.v ===== *)
(** * Deep copies

    [api/v1beta1/zz_generated.deepcopy.go]: [DeepCopyInto], [DeepCopy] and
    [DeepCopyObject] of every type of the API, on the heap of [GoHeap] with the structs
    of [DeepTypes]. The deep copies of Kubernetes types and of [condition.Condition]
    are code outside the repository: the class [DeepCopyLib], with [DeepCopyLaws] that
    they copy deeply.

    The theorems show that each copy reads as the original and shares no cell with it:
    a write to one is never seen through the other. *)

From S2P Require Import Prelude ApiTypes GoHeap DeepTypes.

(** ** Code outside the repository *)

Class DeepCopyLib := {
  ObjectMeta_DeepCopyInto : go_ptr (ObjectMetaF mem) → go_ptr (ObjectMetaF mem) → st go_heap unit;
  ListMeta_DeepCopyInto : go_ptr (ListMetaF mem) → go_ptr (ListMetaF mem) → st go_heap unit;
  Condition_DeepCopyInto : go_ptr Condition → go_ptr Condition → st go_heap unit;
  ResourceRequirements_DeepCopyInto :
    go_ptr (ResourceRequirementsF mem) → go_ptr (ResourceRequirementsF mem) → st go_heap unit;
}.

Class DeepCopyLaws `{DeepCopyLib} : Prop := {
  ObjectMeta_copies : copies rep_ObjectMeta ObjectMeta_DeepCopyInto;
  ListMeta_copies : copies rep_ListMeta ListMeta_DeepCopyInto;
  Condition_copies : copies rep_eq Condition_DeepCopyInto;
  ResourceRequirements_copies : copies rep_ResourceRequirements ResourceRequirements_DeepCopyInto;
}.

#[export] Hint Resolve ObjectMeta_copies ListMeta_copies Condition_copies ResourceRequirements_copies : go.

(** [runtime.Object]: nil, or a pointer of one of the kinds, which may itself be nil. *)
Inductive Object :=
| SetObject (p : option (go_ptr (OpenStackBaremetalSetF mem)))
| SetListObject (p : option (go_ptr (OpenStackBaremetalSetListF mem)))
| ProvisionServerObject (p : option (go_ptr (OpenStackProvisionServerF mem)))
| ProvisionServerListObject (p : option (go_ptr (OpenStackProvisionServerListF mem))).

(** [if c := in.DeepCopy(); c != nil { return c }; return nil] *)
Definition deep_copy_object {A} (copy : option (go_ptr A) → st go_heap (option (go_ptr A)))
    (object : option (go_ptr A) → Object) (in_ : option (go_ptr A)) : st go_heap (option Object) :=
  let! c := copy in_ in
  match c with
  | Some _ => st_ret (Some (object c))
  | None => st_ret None
  end.

Definition deep_copy_object_ok {A V} (r : relr A V) (object : option (go_ptr A) → Object)
    (f : option (go_ptr A) → st go_heap (option Object)) : Prop :=
  (∀ h, f None h = (Ok None, h)) ∧
  ∀ h p x v, peek p h = Some x → r anywhere h x v → ∃ q news,
    f (Some p) h = (Ok (Some (object (Some q))), h ++ news) ∧ copied_apart r h p q v news.

#[local] Notation "p ⇢ f" := (at_field p f) (at level 9, f at level 9).

Section generated.
Context `{MapOrder} `{DeepCopyLib}.

(** The loops and blocks of the generated code on the types they are used at. *)
Definition copy_string_map (loop : nat) := copy_map (cell := cell) (A := string) loop st_ret.
Definition copy_strings := copy_slice (cell := cell) (A := string).

(** ** The functions of the file *)

Definition BondConfig_DeepCopyInto (in_ out : go_ptr (BondConfigF mem)) : st go_heap unit :=
  do! assign in_ out then
  do! copy_strings in_⇢f_bcF_BondInterfaces out⇢f_bcF_BondInterfaces then
  do! copy_string_map 1 in_⇢f_bcF_BondOptions out⇢f_bcF_BondOptions then
  st_ret tt.
Definition BondConfig_DeepCopy := deep_copy BondConfig_DeepCopyInto.

Definition CPUCountReq_DeepCopyInto (in_ out : go_ptr CPUCountReq) : st go_heap unit :=
  do! assign in_ out then
  st_ret tt.
Definition CPUCountReq_DeepCopy := deep_copy CPUCountReq_DeepCopyInto.

Definition CPUMhzReq_DeepCopyInto (in_ out : go_ptr CPUMhzReq) : st go_heap unit :=
  do! assign in_ out then
  st_ret tt.
Definition CPUMhzReq_DeepCopy := deep_copy CPUMhzReq_DeepCopyInto.

Definition CPUReqs_DeepCopyInto (in_ out : go_ptr CPUReqs) : st go_heap unit :=
  do! assign in_ out then
  do! assign in_⇢f_cr_CountReq out⇢f_cr_CountReq then
  do! assign in_⇢f_cr_MhzReq out⇢f_cr_MhzReq then
  st_ret tt.
Definition CPUReqs_DeepCopy := deep_copy CPUReqs_DeepCopyInto.

Definition DiskGbReq_DeepCopyInto (in_ out : go_ptr DiskGbReq) : st go_heap unit :=
  do! assign in_ out then
  st_ret tt.
Definition DiskGbReq_DeepCopy := deep_copy DiskGbReq_DeepCopyInto.

Definition DiskReqs_DeepCopyInto (in_ out : go_ptr DiskReqs) : st go_heap unit :=
  do! assign in_ out then
  do! assign in_⇢f_dr_GbReq out⇢f_dr_GbReq then
  do! assign in_⇢f_dr_SSDReq out⇢f_dr_SSDReq then
  st_ret tt.
Definition DiskReqs_DeepCopy := deep_copy DiskReqs_DeepCopyInto.

Definition DiskSSDReq_DeepCopyInto (in_ out : go_ptr DiskSSDReq) : st go_heap unit :=
  do! assign in_ out then
  st_ret tt.
Definition DiskSSDReq_DeepCopy := deep_copy DiskSSDReq_DeepCopyInto.

Definition HardwareReqs_DeepCopyInto (in_ out : go_ptr HardwareReqs) : st go_heap unit :=
  do! assign in_ out then
  do! assign in_⇢f_hr_CPUReqs out⇢f_hr_CPUReqs then
  do! assign in_⇢f_hr_MemReqs out⇢f_hr_MemReqs then
  do! assign in_⇢f_hr_DiskReqs out⇢f_hr_DiskReqs then
  st_ret tt.
Definition HardwareReqs_DeepCopy := deep_copy HardwareReqs_DeepCopyInto.

Definition IPStatus_DeepCopyInto (in_ out : go_ptr (IPStatusF mem)) : st go_heap unit :=
  do! assign in_ out then
  do! copy_string_map 2 in_⇢f_ipF_IPAddresses out⇢f_ipF_IPAddresses then
  st_ret tt.
Definition IPStatus_DeepCopy := deep_copy IPStatus_DeepCopyInto.

Definition HostStatus_DeepCopyInto (in_ out : go_ptr (HostStatusF mem)) : st go_heap unit :=
  do! assign in_ out then
  do! IPStatus_DeepCopyInto in_⇢f_hsF_IPStatus out⇢f_hsF_IPStatus then
  st_ret tt.
Definition HostStatus_DeepCopy := deep_copy HostStatus_DeepCopyInto.

Definition InstanceSpec_DeepCopyInto (in_ out : go_ptr (InstanceSpecF mem)) : st go_heap unit :=
  do! assign in_ out then
  do! copy_string_map 3 in_⇢f_isF_BmhLabelSelector out⇢f_isF_BmhLabelSelector then
  do! copy_ref (A := Z) assign in_⇢f_isF_CtlplaneVlan out⇢f_isF_CtlplaneVlan then
  do! copy_ref (A := SecretReference) assign in_⇢f_isF_UserData out⇢f_isF_UserData then
  do! copy_ref (A := SecretReference) assign in_⇢f_isF_NetworkData out⇢f_isF_NetworkData then
  st_ret tt.
Definition InstanceSpec_DeepCopy := deep_copy InstanceSpec_DeepCopyInto.

Definition MemGbReq_DeepCopyInto (in_ out : go_ptr MemGbReq) : st go_heap unit :=
  do! assign in_ out then
  st_ret tt.
Definition MemGbReq_DeepCopy := deep_copy MemGbReq_DeepCopyInto.

Definition MemReqs_DeepCopyInto (in_ out : go_ptr MemReqs) : st go_heap unit :=
  do! assign in_ out then
  do! assign in_⇢f_mr_GbReq out⇢f_mr_GbReq then
  st_ret tt.
Definition MemReqs_DeepCopy := deep_copy MemReqs_DeepCopyInto.

Definition OpenStackBaremetalSetTemplateSpec_DeepCopyInto (in_ out : go_ptr (OpenStackBaremetalSetTemplateSpecF mem)) : st go_heap unit :=
  do! assign in_ out then
  do! copy_string_map 8 in_⇢f_tsF_ProvisonServerNodeSelector out⇢f_tsF_ProvisonServerNodeSelector then
  do! copy_ref BondConfig_DeepCopyInto in_⇢f_tsF_CtlplaneBond out⇢f_tsF_CtlplaneBond then
  do! copy_string_map 9 in_⇢f_tsF_BmhLabelSelector out⇢f_tsF_BmhLabelSelector then
  do! assign in_⇢f_tsF_HardwareReqs out⇢f_tsF_HardwareReqs then
  do! copy_ref (A := SecretReference) assign in_⇢f_tsF_PasswordSecret out⇢f_tsF_PasswordSecret then
  st_ret tt.
Definition OpenStackBaremetalSetTemplateSpec_DeepCopy := deep_copy OpenStackBaremetalSetTemplateSpec_DeepCopyInto.

Definition OpenStackBaremetalSetSpec_DeepCopyInto (in_ out : go_ptr (OpenStackBaremetalSetSpecF mem)) : st go_heap unit :=
  do! assign in_ out then
  do! copy_map 5 (copy_value InstanceSpec_DeepCopy) in_⇢f_bsF_BaremetalHosts out⇢f_bsF_BaremetalHosts then
  do! copy_ref (A := Z) assign in_⇢f_bsF_CtlplaneVlan out⇢f_bsF_CtlplaneVlan then
  do! copy_strings in_⇢f_bsF_BootstrapDNS out⇢f_bsF_BootstrapDNS then
  do! copy_strings in_⇢f_bsF_DNSSearchDomains out⇢f_bsF_DNSSearchDomains then
  do! OpenStackBaremetalSetTemplateSpec_DeepCopyInto in_⇢f_bsF_Template out⇢f_bsF_Template then
  st_ret tt.
Definition OpenStackBaremetalSetSpec_DeepCopy := deep_copy OpenStackBaremetalSetSpec_DeepCopyInto.

Definition OpenStackBaremetalSetStatus_DeepCopyInto (in_ out : go_ptr (OpenStackBaremetalSetStatusF mem)) : st go_heap unit :=
  do! assign in_ out then
  do! copy_slice_into Condition_DeepCopyInto in_⇢f_btF_Conditions out⇢f_btF_Conditions then
  do! copy_string_map 6 in_⇢f_btF_Hash out⇢f_btF_Hash then
  do! copy_map 7 (copy_value HostStatus_DeepCopy) in_⇢f_btF_BaremetalHosts out⇢f_btF_BaremetalHosts then
  st_ret tt.
Definition OpenStackBaremetalSetStatus_DeepCopy := deep_copy OpenStackBaremetalSetStatus_DeepCopyInto.

Definition OpenStackBaremetalSet_DeepCopyInto (in_ out : go_ptr (OpenStackBaremetalSetF mem)) : st go_heap unit :=
  do! assign in_ out then
  do! assign in_⇢f_setF_TypeMeta out⇢f_setF_TypeMeta then
  do! ObjectMeta_DeepCopyInto in_⇢f_setF_ObjectMeta out⇢f_setF_ObjectMeta then
  do! OpenStackBaremetalSetSpec_DeepCopyInto in_⇢f_setF_Spec out⇢f_setF_Spec then
  do! OpenStackBaremetalSetStatus_DeepCopyInto in_⇢f_setF_Status out⇢f_setF_Status then
  st_ret tt.
Definition OpenStackBaremetalSet_DeepCopy := deep_copy OpenStackBaremetalSet_DeepCopyInto.
Definition OpenStackBaremetalSet_DeepCopyObject := deep_copy_object OpenStackBaremetalSet_DeepCopy SetObject.

Definition OpenStackBaremetalSetList_DeepCopyInto (in_ out : go_ptr (OpenStackBaremetalSetListF mem)) : st go_heap unit :=
  do! assign in_ out then
  do! assign in_⇢f_setlF_TypeMeta out⇢f_setlF_TypeMeta then
  do! ListMeta_DeepCopyInto in_⇢f_setlF_ListMeta out⇢f_setlF_ListMeta then
  do! copy_slice_into OpenStackBaremetalSet_DeepCopyInto in_⇢f_setlF_Items out⇢f_setlF_Items then
  st_ret tt.
Definition OpenStackBaremetalSetList_DeepCopy := deep_copy OpenStackBaremetalSetList_DeepCopyInto.
Definition OpenStackBaremetalSetList_DeepCopyObject := deep_copy_object OpenStackBaremetalSetList_DeepCopy SetListObject.

Definition OpenStackProvisionServerDefaults_DeepCopyInto (in_ out : go_ptr OpenStackProvisionServerDefaults) : st go_heap unit :=
  do! assign in_ out then
  st_ret tt.
Definition OpenStackProvisionServerDefaults_DeepCopy := deep_copy OpenStackProvisionServerDefaults_DeepCopyInto.

Definition OpenStackProvisionServerSpec_DeepCopyInto (in_ out : go_ptr (OpenStackProvisionServerSpecF mem)) : st go_heap unit :=
  do! assign in_ out then
  do! copy_ref (A := string) assign in_⇢f_psF_OSImageDir out⇢f_psF_OSImageDir then
  do! copy_string_map 10 in_⇢f_psF_NodeSelector out⇢f_psF_NodeSelector then
  do! ResourceRequirements_DeepCopyInto in_⇢f_psF_Resources out⇢f_psF_Resources then
  st_ret tt.
Definition OpenStackProvisionServerSpec_DeepCopy := deep_copy OpenStackProvisionServerSpec_DeepCopyInto.

Definition OpenStackProvisionServerStatus_DeepCopyInto (in_ out : go_ptr (OpenStackProvisionServerStatusF mem)) : st go_heap unit :=
  do! assign in_ out then
  do! copy_slice_into Condition_DeepCopyInto in_⇢f_ptF_Conditions out⇢f_ptF_Conditions then
  do! copy_string_map 11 in_⇢f_ptF_Hash out⇢f_ptF_Hash then
  st_ret tt.
Definition OpenStackProvisionServerStatus_DeepCopy := deep_copy OpenStackProvisionServerStatus_DeepCopyInto.

Definition OpenStackProvisionServer_DeepCopyInto (in_ out : go_ptr (OpenStackProvisionServerF mem)) : st go_heap unit :=
  do! assign in_ out then
  do! assign in_⇢f_provF_TypeMeta out⇢f_provF_TypeMeta then
  do! ObjectMeta_DeepCopyInto in_⇢f_provF_ObjectMeta out⇢f_provF_ObjectMeta then
  do! OpenStackProvisionServerSpec_DeepCopyInto in_⇢f_provF_Spec out⇢f_provF_Spec then
  do! OpenStackProvisionServerStatus_DeepCopyInto in_⇢f_provF_Status out⇢f_provF_Status then
  st_ret tt.
Definition OpenStackProvisionServer_DeepCopy := deep_copy OpenStackProvisionServer_DeepCopyInto.
Definition OpenStackProvisionServer_DeepCopyObject := deep_copy_object OpenStackProvisionServer_DeepCopy ProvisionServerObject.

Definition OpenStackProvisionServerList_DeepCopyInto (in_ out : go_ptr (OpenStackProvisionServerListF mem)) : st go_heap unit :=
  do! assign in_ out then
  do! assign in_⇢f_provlF_TypeMeta out⇢f_provlF_TypeMeta then
  do! ListMeta_DeepCopyInto in_⇢f_provlF_ListMeta out⇢f_provlF_ListMeta then
  do! copy_slice_into OpenStackProvisionServer_DeepCopyInto in_⇢f_provlF_Items out⇢f_provlF_Items then
  st_ret tt.
Definition OpenStackProvisionServerList_DeepCopy := deep_copy OpenStackProvisionServerList_DeepCopyInto.
Definition OpenStackProvisionServerList_DeepCopyObject := deep_copy_object OpenStackProvisionServerList_DeepCopy ProvisionServerListObject.

(** ** They copy deeply *)

Context `{!DeepCopyLaws}.

Lemma copy_string_map_fills loop : fills (rep_ref (rep_map (rep_eq (A := string)))) (copy_string_map loop).
Proof. apply (copy_map_fills rep_eq), copies_value_ret. Qed.

Lemma copy_strings_fills : fills (rep_slice (rep_eq (A := string))) copy_strings.
Proof. apply copy_slice_fills. Qed.

#[local] Hint Resolve copy_string_map_fills copy_strings_fills : go.

Lemma BondConfig_copies : copies rep_BondConfig BondConfig_DeepCopyInto.
Proof. copy_struct. Qed.
#[local] Hint Resolve BondConfig_copies : go.
Lemma CPUCountReq_copies : copies rep_eq CPUCountReq_DeepCopyInto.
Proof. copy_struct. Qed.
#[local] Hint Resolve CPUCountReq_copies : go.
Lemma CPUMhzReq_copies : copies rep_eq CPUMhzReq_DeepCopyInto.
Proof. copy_struct. Qed.
#[local] Hint Resolve CPUMhzReq_copies : go.
Lemma CPUReqs_copies : copies rep_eq CPUReqs_DeepCopyInto.
Proof. copy_struct. Qed.
#[local] Hint Resolve CPUReqs_copies : go.
Lemma DiskGbReq_copies : copies rep_eq DiskGbReq_DeepCopyInto.
Proof. copy_struct. Qed.
#[local] Hint Resolve DiskGbReq_copies : go.
Lemma DiskReqs_copies : copies rep_eq DiskReqs_DeepCopyInto.
Proof. copy_struct. Qed.
#[local] Hint Resolve DiskReqs_copies : go.
Lemma DiskSSDReq_copies : copies rep_eq DiskSSDReq_DeepCopyInto.
Proof. copy_struct. Qed.
#[local] Hint Resolve DiskSSDReq_copies : go.
Lemma HardwareReqs_copies : copies rep_eq HardwareReqs_DeepCopyInto.
Proof. copy_struct. Qed.
#[local] Hint Resolve HardwareReqs_copies : go.
Lemma IPStatus_copies : copies rep_IPStatus IPStatus_DeepCopyInto.
Proof. copy_struct. Qed.
#[local] Hint Resolve IPStatus_copies : go.
Lemma HostStatus_copies : copies rep_HostStatus HostStatus_DeepCopyInto.
Proof. copy_struct. Qed.
#[local] Hint Resolve HostStatus_copies : go.
Lemma InstanceSpec_copies : copies rep_InstanceSpec InstanceSpec_DeepCopyInto.
Proof. copy_struct. Qed.
#[local] Hint Resolve InstanceSpec_copies : go.
Lemma MemGbReq_copies : copies rep_eq MemGbReq_DeepCopyInto.
Proof. copy_struct. Qed.
#[local] Hint Resolve MemGbReq_copies : go.
Lemma MemReqs_copies : copies rep_eq MemReqs_DeepCopyInto.
Proof. copy_struct. Qed.
#[local] Hint Resolve MemReqs_copies : go.
Lemma OpenStackBaremetalSetTemplateSpec_copies : copies rep_OpenStackBaremetalSetTemplateSpec OpenStackBaremetalSetTemplateSpec_DeepCopyInto.
Proof. copy_struct. Qed.
#[local] Hint Resolve OpenStackBaremetalSetTemplateSpec_copies : go.
Lemma OpenStackBaremetalSetSpec_copies : copies rep_OpenStackBaremetalSetSpec OpenStackBaremetalSetSpec_DeepCopyInto.
Proof. copy_struct. Qed.
#[local] Hint Resolve OpenStackBaremetalSetSpec_copies : go.
Lemma OpenStackBaremetalSetStatus_copies : copies rep_OpenStackBaremetalSetStatus OpenStackBaremetalSetStatus_DeepCopyInto.
Proof. copy_struct. Qed.
#[local] Hint Resolve OpenStackBaremetalSetStatus_copies : go.
Lemma OpenStackBaremetalSet_copies : copies rep_OpenStackBaremetalSet OpenStackBaremetalSet_DeepCopyInto.
Proof. copy_struct. Qed.
#[local] Hint Resolve OpenStackBaremetalSet_copies : go.
Lemma OpenStackBaremetalSetList_copies : copies rep_OpenStackBaremetalSetList OpenStackBaremetalSetList_DeepCopyInto.
Proof. copy_struct. Qed.
#[local] Hint Resolve OpenStackBaremetalSetList_copies : go.
Lemma OpenStackProvisionServerDefaults_copies : copies rep_eq OpenStackProvisionServerDefaults_DeepCopyInto.
Proof. copy_struct. Qed.
#[local] Hint Resolve OpenStackProvisionServerDefaults_copies : go.
Lemma OpenStackProvisionServerSpec_copies : copies rep_OpenStackProvisionServerSpec OpenStackProvisionServerSpec_DeepCopyInto.
Proof. copy_struct. Qed.
#[local] Hint Resolve OpenStackProvisionServerSpec_copies : go.
Lemma OpenStackProvisionServerStatus_copies : copies rep_OpenStackProvisionServerStatus OpenStackProvisionServerStatus_DeepCopyInto.
Proof. copy_struct. Qed.
#[local] Hint Resolve OpenStackProvisionServerStatus_copies : go.
Lemma OpenStackProvisionServer_copies : copies rep_OpenStackProvisionServer OpenStackProvisionServer_DeepCopyInto.
Proof. copy_struct. Qed.
#[local] Hint Resolve OpenStackProvisionServer_copies : go.
Lemma OpenStackProvisionServerList_copies : copies rep_OpenStackProvisionServerList OpenStackProvisionServerList_DeepCopyInto.
Proof. copy_struct. Qed.
#[local] Hint Resolve OpenStackProvisionServerList_copies : go.

Lemma deep_copy_object_correct {A V} `{!Boxed cell A} `{!Zero A} (r : relr A V) `{!Stable r} into object :
  copies r into → deep_copy_object_ok r object (deep_copy_object (deep_copy into) object).
Proof.
  intros Hinto%(deep_copy_correct r). destruct Hinto as [Hnil Hcopy]. split; [done|]. intros h p x v Hp Hr.
  destruct (Hcopy h p x v Hp Hr) as (q & news & Hf & Hq). exists q, news. split; [|done].
  unfold deep_copy_object. by rewrite (st_bind_step _ _ _ _ _ Hf).
Qed.

End generated.

#[export] Hint Resolve BondConfig_copies CPUCountReq_copies CPUMhzReq_copies CPUReqs_copies
  DiskGbReq_copies DiskReqs_copies DiskSSDReq_copies HardwareReqs_copies IPStatus_copies
  HostStatus_copies InstanceSpec_copies MemGbReq_copies MemReqs_copies
  OpenStackBaremetalSetTemplateSpec_copies OpenStackBaremetalSetSpec_copies
  OpenStackBaremetalSetStatus_copies OpenStackBaremetalSet_copies OpenStackBaremetalSetList_copies
  OpenStackProvisionServerDefaults_copies OpenStackProvisionServerSpec_copies
  OpenStackProvisionServerStatus_copies OpenStackProvisionServer_copies
  OpenStackProvisionServerList_copies : go.

(** ** The deep copies of Kubernetes, on the parts of the structs that are modelled *)

Section library.
Context `{MapOrder}.

Definition mem_ObjectMeta (in_ out : go_ptr (ObjectMetaF mem)) : st go_heap unit :=
  do! assign in_ out then
  do! copy_ref (A := Z) assign in_⇢f_omF_DeletionTimestamp out⇢f_omF_DeletionTimestamp then
  do! copy_string_map 12 in_⇢f_omF_Labels out⇢f_omF_Labels then
  do! copy_string_map 13 in_⇢f_omF_Annotations out⇢f_omF_Annotations then
  do! copy_strings in_⇢f_omF_Finalizers out⇢f_omF_Finalizers then
  st_ret tt.
Definition mem_ListMeta (in_ out : go_ptr (ListMetaF mem)) : st go_heap unit :=
  do! assign in_ out then
  do! copy_ref (A := Z) assign in_⇢f_lmF_RemainingItemCount out⇢f_lmF_RemainingItemCount then
  st_ret tt.
Definition mem_ResourceRequirements (in_ out : go_ptr (ResourceRequirementsF mem)) : st go_heap unit :=
  do! assign in_ out then
  do! copy_string_map 14 in_⇢f_rrF_Limits out⇢f_rrF_Limits then
  do! copy_string_map 15 in_⇢f_rrF_Requests out⇢f_rrF_Requests then
  st_ret tt.

#[local] Hint Resolve copy_string_map_fills copy_strings_fills : go.

Lemma mem_ObjectMeta_copies : copies rep_ObjectMeta mem_ObjectMeta.
Proof. copy_struct. Qed.
Lemma mem_ListMeta_copies : copies rep_ListMeta mem_ListMeta.
Proof. copy_struct. Qed.
Lemma mem_ResourceRequirements_copies : copies rep_ResourceRequirements mem_ResourceRequirements.
Proof. copy_struct. Qed.

Definition mem_deep_copy : DeepCopyLib := {|
  ObjectMeta_DeepCopyInto := mem_ObjectMeta;
  ListMeta_DeepCopyInto := mem_ListMeta;
  Condition_DeepCopyInto := assign;
  ResourceRequirements_DeepCopyInto := mem_ResourceRequirements;
|}.

Lemma mem_deep_copy_laws : DeepCopyLaws (H := mem_deep_copy).
Proof.
  constructor; [apply mem_ObjectMeta_copies|apply mem_ListMeta_copies|apply copies_assign|
    apply mem_ResourceRequirements_copies].
Qed.

End library.

(** ** A set in memory *)

(** Its bond has a slice with room to spare, its compute a selector, a VLAN and a secret,
    its status a condition and the addresses of a host; what is not given is nil. *)
Definition sample_heap : go_heap :=
  [CStrings ["eno1"; "eno2"; "spare"]; CStringMap {["miimon" := "100"]};
   CBondConfig (mkBondConfigF (R := mem) (Some (mkHeader 0 0 2 3)) "active-backup" (Some 1));
   CStringMap {["rack" := "1"]}; CInt 20; CSecretReference (mkSecretReference "user-data" "openstack");
   CInstances {["compute-0" := mkInstanceSpecF (R := mem) (Some 3) "192.168.1.5/24" "" "" (Some 4) (Some 5) None]};
   CStrings ["finalizer"]; CConditions [mkCondition "Ready" ConditionTrue "" 0 "" ""];
   CStringMap {["ctlplane" := "192.168.1.5"]};
   CHosts {["compute-0" := mkHostStatusF (R := mem) (mkIPStatusF (R := mem) "compute-0" "host-0" (Some 9))
     "provisioned" false "ud" "nd"]};
   COpenStackBaremetalSet (mkOpenStackBaremetalSetF (R := mem) (mkTypeMeta "OpenStackBaremetalSet" "v1beta1")
     (mkObjectMetaF (R := mem) "edpm" "openstack" "uid" 1 None None None (Some (mkHeader 7 0 1 1)))
     (mkOpenStackBaremetalSetSpecF (R := mem) (Some 6) "" None None None
        (mkOpenStackBaremetalSetTemplateSpecF (R := mem) "" "" "" "" "" "" "" None "" "" "" (Some 2) "" None
          HardwareReqs_zero None "" ""))
     (mkOpenStackBaremetalSetStatusF (R := mem) (Some (mkHeader 8 0 1 1)) None (Some 10) 1))].

Definition sample_value : OpenStackBaremetalSetF val :=
  mkOpenStackBaremetalSetF (R := val) (mkTypeMeta "OpenStackBaremetalSet" "v1beta1")
    (mkObjectMetaF (R := val) "edpm" "openstack" "uid" 1 None None None (Some ["finalizer"]))
    (mkOpenStackBaremetalSetSpecF (R := val)
      (Some {["compute-0" := mkInstanceSpecF (R := val) (Some {["rack" := "1"]}) "192.168.1.5/24" "" "" (Some 20%Z)
        (Some (mkSecretReference "user-data" "openstack")) None]}) "" None None None
      (mkOpenStackBaremetalSetTemplateSpecF (R := val) "" "" "" "" "" "" "" None "" "" ""
        (Some (mkBondConfigF (R := val) (Some ["eno1"; "eno2"]) "active-backup" (Some {["miimon" := "100"]}))) "" None
        HardwareReqs_zero None "" ""))
    (mkOpenStackBaremetalSetStatusF (R := val) (Some [mkCondition "Ready" ConditionTrue "" 0 "" ""]) None
      (Some {["compute-0" := mkHostStatusF (R := val) (mkIPStatusF (R := val) "compute-0" "host-0"
        (Some {["ctlplane" := "192.168.1.5"]})) "provisioned" false "ud" "nd"]}) 1).

(** Follows the references of a concrete struct. *)
#[local] Ltac follow :=
  repeat first [ reflexivity | apply rep_map_eq | apply rep_map_singleton | apply Forall2_nil_2 | apply Forall2_cons_2
               | eexists | split | simpl; lia | hnf ].

Definition sample_set : OpenStackBaremetalSetF mem :=
  match sample_heap !! 11 with Some (COpenStackBaremetalSet x) => x | _ => zero end.

Lemma sample_reads : rep_OpenStackBaremetalSet anywhere sample_heap sample_set sample_value.
Proof. follow. Qed.

(** The copy of a slice has no room to spare: what is appended to it goes elsewhere. *)
Example copy_has_no_room : ∃ y h',
  BondConfig_DeepCopy (H := list_order) (Some (cell_ptr 2)) sample_heap = (Ok (Some (cell_ptr 12)), h') ∧
  peek (cell_ptr 12) h' = Some y ∧ bcF_BondInterfaces y = Some (mkHeader 13 0 2 2) ∧
  h' !! 13 = Some (CStrings ["eno1"; "eno2"]).
Proof. eexists _, _. split; [vm_compute; reflexivity|]. by split_and!. Qed.

(** [DeepCopyInto] is for two different structs: copied into itself a bond loses the
    names of its interfaces. *)
Example copied_into_itself : ∃ h' y,
  BondConfig_DeepCopyInto (H := list_order) (cell_ptr 2) (cell_ptr 2) sample_heap = (Ok tt, h') ∧
  peek (cell_ptr 2) h' = Some y ∧ bcF_BondInterfaces y = Some (mkHeader 12 0 2 2) ∧ h' !! 12 = Some (CStrings [""; ""]).
Proof. eexists _, _. split; [vm_compute; reflexivity|]. by split_and!. Qed.

(** ** Properties *)

(** C23: the deep copy of an object of any of the four kinds of the API, nil or not:
    [DeepCopyObject] of nil is the nil interface, not an interface that holds a nil
    pointer; otherwise the copy reads as the original, field by field and through every
    pointer, map and slice, nil ones staying nil; only new cells are written; and no
    later write to the original shows in the copy, nor one to the copy in the original. *)
Theorem DeepCopyObject_copies `{MapOrder} `{DeepCopyLib} `{!DeepCopyLaws} :
  deep_copy_object_ok rep_OpenStackBaremetalSet SetObject OpenStackBaremetalSet_DeepCopyObject ∧
  deep_copy_object_ok rep_OpenStackBaremetalSetList SetListObject OpenStackBaremetalSetList_DeepCopyObject ∧
  deep_copy_object_ok rep_OpenStackProvisionServer ProvisionServerObject OpenStackProvisionServer_DeepCopyObject ∧
  deep_copy_object_ok rep_OpenStackProvisionServerList ProvisionServerListObject OpenStackProvisionServerList_DeepCopyObject.
Proof. split_and!; apply (deep_copy_object_correct _ _ _); eauto with go. Qed.

Lemma DeepCopyObject_copies_witness :
  rep_OpenStackBaremetalSet anywhere sample_heap sample_set sample_value ∧ ∃ q news,
    OpenStackBaremetalSet_DeepCopyObject (H := list_order) (H0 := mem_deep_copy (H := list_order))
      (Some (cell_ptr 11)) sample_heap = (Ok (Some (SetObject (Some q))), sample_heap ++ news) ∧
    copied_apart rep_OpenStackBaremetalSet sample_heap (cell_ptr 11) q sample_value news.
Proof.
  split; [exact sample_reads|].
  exact (proj2 (proj1 (DeepCopyObject_copies (H := list_order) (H1 := mem_deep_copy_laws (H := list_order))))
    sample_heap (cell_ptr 11) sample_set sample_value eq_refl sample_reads).
Defined.

(** C24: so does [DeepCopy] of every other struct of the API, whatever it is part of. *)
Theorem DeepCopy_copies `{MapOrder} `{DeepCopyLib} `{!DeepCopyLaws} :
  deep_copy_ok rep_BondConfig BondConfig_DeepCopy ∧
  deep_copy_ok (rep_eq (A := CPUCountReq)) CPUCountReq_DeepCopy ∧
  deep_copy_ok (rep_eq (A := CPUMhzReq)) CPUMhzReq_DeepCopy ∧
  deep_copy_ok (rep_eq (A := CPUReqs)) CPUReqs_DeepCopy ∧
  deep_copy_ok (rep_eq (A := DiskGbReq)) DiskGbReq_DeepCopy ∧
  deep_copy_ok (rep_eq (A := DiskReqs)) DiskReqs_DeepCopy ∧
  deep_copy_ok (rep_eq (A := DiskSSDReq)) DiskSSDReq_DeepCopy ∧
  deep_copy_ok (rep_eq (A := HardwareReqs)) HardwareReqs_DeepCopy ∧
  deep_copy_ok rep_IPStatus IPStatus_DeepCopy ∧
  deep_copy_ok rep_HostStatus HostStatus_DeepCopy ∧
  deep_copy_ok rep_InstanceSpec InstanceSpec_DeepCopy ∧
  deep_copy_ok (rep_eq (A := MemGbReq)) MemGbReq_DeepCopy ∧
  deep_copy_ok (rep_eq (A := MemReqs)) MemReqs_DeepCopy ∧
  deep_copy_ok rep_OpenStackBaremetalSetTemplateSpec OpenStackBaremetalSetTemplateSpec_DeepCopy ∧
  deep_copy_ok rep_OpenStackBaremetalSetSpec OpenStackBaremetalSetSpec_DeepCopy ∧
  deep_copy_ok rep_OpenStackBaremetalSetStatus OpenStackBaremetalSetStatus_DeepCopy ∧
  deep_copy_ok (rep_eq (A := OpenStackProvisionServerDefaults)) OpenStackProvisionServerDefaults_DeepCopy ∧
  deep_copy_ok rep_OpenStackProvisionServerSpec OpenStackProvisionServerSpec_DeepCopy ∧
  deep_copy_ok rep_OpenStackProvisionServerStatus OpenStackProvisionServerStatus_DeepCopy.
Proof. split_and!; apply (deep_copy_correct _ _); eauto with go. Qed.

(** [instance.Status.DeepCopy()] of a set. *)
Lemma DeepCopy_copies_witness :
  rep_OpenStackBaremetalSetStatus anywhere sample_heap (setF_Status sample_set) (setF_Status sample_value) ∧
  ∃ q news,
    OpenStackBaremetalSetStatus_DeepCopy (H := list_order) (H0 := mem_deep_copy (H := list_order))
      (Some (at_field (cell_ptr 11) f_setF_Status)) sample_heap = (Ok (Some q), sample_heap ++ news) ∧
    copied_apart rep_OpenStackBaremetalSetStatus sample_heap (at_field (cell_ptr 11) f_setF_Status) q
      (setF_Status sample_value) news.
Proof.
  pose proof sample_reads as (_ & _ & _ & Hr). split; [exact Hr|].
  pose proof (DeepCopy_copies (H := list_order) (H1 := mem_deep_copy_laws (H := list_order))) as Hall.
  destruct_and? Hall.
  match goal with H : deep_copy_ok rep_OpenStackBaremetalSetStatus _ |- _ => 
    exact (proj2 H sample_heap (at_field (cell_ptr 11) f_setF_Status) (setF_Status sample_set) (setF_Status sample_value)
      eq_refl Hr) end.
Defined.
