(* ===== verification/Samples.v ===== *)
(** * Concrete objects

    Small objects on which the definitions of the development are run: a host
    Metal3 reports as available, an OpenStackBaremetalSet and an
    OpenStackProvisionServer. The witnesses of the theorems are built from them. *)

From S2P Require Import Prelude ApiTypes.
From Corelib Require Import SpecFloat.

Definition sample_meta (ns name : string) (labels : gmap string string) : ObjectMeta :=
  mkObjectMeta name ns ("uid-" +:+ name) 1 labels ∅ [] None.

Definition sample_bmh_spec : BareMetalHostSpec :=
  mkBmhSpec None false None None false None None "metadata".

Definition sample_hardware (ram : Z) (disks : list Storage) : HardwareDetails :=
  mkHardwareDetails ram disks (mkCPU "x86_64" (S754_finite false 1 11) 8).

(** An available host in namespace [bmh]. *)
Definition sample_bmh (name : string) (labels : gmap string string) : BareMetalHost :=
  mkBmh (sample_meta "bmh" name labels) sample_bmh_spec
    (mkBmhStatus StateAvailable (Some (sample_hardware 16384 [mkStorage "/dev/sda" true 107374182400]))).

Definition sample_template (reqs : HardwareReqs) : OpenStackBaremetalSetTemplateSpec :=
  mkTemplateSpec "edpm-hardened-uefi.qcow2" "quay.io/os" OSImageDeploymentTypeSelfExtracting
    "apache" "agent" CleaningModeMetadata "" ∅ "" "ssh-key" "eth0" None "bmh" ∅ reqs None
    "cloud-admin" "".

Definition sample_instance (labels : gmap string string) : InstanceSpec :=
  mkInstanceSpec (Some labels) "192.168.1.10/24" "" "" None None None.

(** A set in namespace [openstack] with the given computes and status. *)
Definition sample_set (reqs : HardwareReqs) (hosts : gmap string InstanceSpec)
    (status : gmap string HostStatus) : OpenStackBaremetalSet :=
  mkSet "OpenStackBaremetalSet" (sample_meta "openstack" "edpm" ∅)
    (mkSetSpec hosts "192.168.1.1" None [] [] (sample_template reqs))
    (mkSetStatus (Some []) (Some ∅) (Some status) 1).

Definition sample_host_status (hostname bmh : string) : HostStatus :=
  mkHostStatus (mkIPStatus hostname bmh {["ctlplane" := "192.168.1.10/24"]}) StateProvisioned false
    "ud" "nd".

Definition sample_prov_spec (port : Z) : OpenStackProvisionServerSpec :=
  mkProvSpec port "" "edpm-hardened-uefi.qcow2" (Some "/usr/local/apache2/htdocs") "os" "apache"
    "agent" ∅ (mkResources ∅ ∅) false.

Definition sample_prov (ns name : string) (port : Z) : OpenStackProvisionServer :=
  mkProv "OpenStackProvisionServer" (sample_meta ns name ∅) (sample_prov_spec port)
    (mkProvStatus 0 (Some []) (Some ∅) "" "" "" "" "" "").
