(* ===== verification/Kube.v ===== *)
(** * The cluster and the libraries the operator calls

    What the operator reaches through [controller-runtime], [lib-common] and
    [k8s.io] is code outside the repository. It is a parameter here: a class of
    operations over an abstract cluster [W], with the behaviour those packages
    document stated as separate classes of laws. A call moves the cluster from
    one state to the next and may fail, so theorems that use no law hold under any
    failure and any interference by other clients; the laws describe a cluster
    that nobody else changes during the call.

    Theorems about the operator are proved against these classes; [MemCluster]
    discharges them for an in-memory cluster. *)

From S2P Require Import Prelude ApiTypes.

(** ** Requests *)

(** [client.ListOption] *)
Inductive ListOption :=
| InNamespace (ns : string)
| MatchingLabels (labels : gmap string string).

(** The values the operator puts in [ConfigOptions map[string]any]. *)
Inductive TemplateValue :=
| TVString (s : string)
| TVStringPtr (s : option string)
| TVInt (z : Z)
| TVIP (ip : list Z)
| TVStrings (l : list string)
| TVStringMap (m : gmap string string).

(** [util.Template] of lib-common. *)
Record Template := mkTemplate {
  tpl_Name : string;
  tpl_Namespace : string;
  tpl_Type : string;
  tpl_InstanceType : string;
  tpl_AdditionalTemplate : gmap string string;
  tpl_Labels : gmap string string;
  tpl_ConfigOptions : gmap string TemplateValue;
}.

(** [util.TemplateTypeConfig] *)
Definition TemplateTypeConfig : string := "config".

(** [map[string]env.Setter]: the setters the operator builds are [env.SetValue(v)]. *)
Abbreviation EnvVars := (gmap string string) (only parsing).

(** ** The API server, as seen by the OpenStackBaremetalSet code *)

Class Client (W : Type) := {
  bmh_List : list ListOption → st W (list BareMetalHost);
  bmh_Get : string → string → st W BareMetalHost;
  bmh_Update : BareMetalHost → st W unit;
  bmh_CreateOrPatch : BareMetalHost → (BareMetalHost → BareMetalHost) → st W BareMetalHost;
  prov_List : list ListOption → st W (list OpenStackProvisionServer);
  prov_Get : string → string → st W OpenStackProvisionServer;
  prov_Delete : string → string → st W unit;
  prov_CreateOrPatch : OpenStackProvisionServer →
    (OpenStackProvisionServer → st W OpenStackProvisionServer) → st W OpenStackProvisionServer;
  GetSecret : string → string → st W (Secret * string);
  EnsureSecrets : OpenStackBaremetalSet → list Template → EnvVars → st W EnvVars;
  DeleteSecretsWithName : string → string → st W unit;
}.

(** ** The reconciler's own object *)

Class SetClient (W : Type) := {
  (** [r.Get] of the reconciled object *)
  set_Get : string → string → st W OpenStackBaremetalSet;
  (** [helper.NewHelper], which may fail *)
  set_NewHelper : OpenStackBaremetalSet → st W unit;
  (** [helper.PatchInstance]: the object as it was when the helper was made, and
      as it is now *)
  set_PatchInstance : OpenStackBaremetalSet → OpenStackBaremetalSet → st W unit;
}.

(** ** Labels, maps and object metadata of lib-common and controller-runtime *)

Class LibCommon := {
  (** [labels.GetGroupLabel], [labels.GetOwnerUIDLabelSelector] and the like *)
  GetGroupLabel : string → string;
  GetOwnerUIDLabelSelector : string → string;
  GetOwnerNameSpaceLabelSelector : string → string;
  GetOwnerNameLabelSelector : string → string;
  (** [labels.GetLabels(obj, service, custom)] *)
  GetLabels : ObjectMeta → string → gmap string string → gmap string string;
  (** [util.MergeStringMaps], [util.MergeMaps] *)
  MergeStringMaps : gmap string string → list (gmap string string) → gmap string string;
  MergeMaps : ∀ {V}, gmap string V → gmap string V → gmap string V;
  (** [backup.GetBackupLabels(CategoryDataPlane)] and
      [backup.GetRestoreLabels(RestoreOrder10, CategoryDataPlane)] *)
  GetBackupLabels : gmap string string;
  GetRestoreLabels : gmap string string;
  (** [annotations.IsPaused], [annotations.SkipValidation] *)
  IsPaused : gmap string string → bool;
  SkipValidation : gmap string string → bool;
  SkipValidationAnnotation : string;
  (** [controllerutil.AddFinalizer] (the metadata and whether it changed),
      [controllerutil.RemoveFinalizer], [helper.GetFinalizer] by kind *)
  AddFinalizer : ObjectMeta → string → ObjectMeta * bool;
  RemoveFinalizer : ObjectMeta → string → ObjectMeta;
  GetFinalizer : string → string;
  (** [controllerutil.SetControllerReference] *)
  SetControllerReference : OpenStackBaremetalSet → OpenStackProvisionServer →
    outcome OpenStackProvisionServer;
  (** [equality.Semantic.DeepEqual] at the two types it is used at *)
  DeepEqual_labels : gmap string string → gmap string string → bool;
  DeepEqual_reqs : HardwareReqs → HardwareReqs → bool;
  (** [validate.Var(name, "hostname_rfc1123") == nil] *)
  hostname_rfc1123 : string → bool;
  (** [apierrors.NewInvalid(GroupKind{group, kind}, name, errs)] *)
  NewInvalid : string → string → string → list FieldError → error;
}.

(** The owner labels [labels.GetLabels] derives from the object. *)
Definition owner_labels `{LibCommon} (o : ObjectMeta) (service : string) : gmap string string :=
  <[GetOwnerUIDLabelSelector service := om_UID o]>
  (<[GetOwnerNameSpaceLabelSelector service := om_Namespace o]>
   {[GetOwnerNameLabelSelector service := om_Name o]}).

Definition ps_key (p : OpenStackProvisionServer) : string * string := (ps_Namespace p, ps_Name p).

(** Documented behaviour: custom labels are added to the owner labels; merged
    maps keep the value of the first map that has a key; semantic equality of
    label maps and of the hardware struct is equality; the three owner labels are
    different ones; a finalizer is added once and removed wherever it is, and the
    object stays the same object; the controller reference is part of the metadata. *)
Class LibCommonLaws `{LibCommon} : Prop := {
  GetLabels_spec : ∀ o service custom, GetLabels o service custom = custom ∪ owner_labels o service;
  MergeStringMaps_spec : ∀ m ms, MergeStringMaps m ms = m ∪ ⋃ ms;
  MergeMaps_spec : ∀ V (m1 m2 : gmap string V), MergeMaps m1 m2 = m1 ∪ m2;
  DeepEqual_labels_spec : ∀ m1 m2, DeepEqual_labels m1 m2 = true ↔ m1 = m2;
  DeepEqual_reqs_spec : ∀ r1 r2, DeepEqual_reqs r1 r2 = true ↔ r1 = r2;
  owner_selectors_distinct : ∀ service, NoDup [GetOwnerUIDLabelSelector service;
    GetOwnerNameSpaceLabelSelector service; GetOwnerNameLabelSelector service];
  AddFinalizer_spec : ∀ o f,
    om_Finalizers (AddFinalizer o f).1 = (if decide (f ∈ om_Finalizers o) then om_Finalizers o
                                          else om_Finalizers o ++ [f]) ∧
    ((AddFinalizer o f).2 = false ↔ f ∈ om_Finalizers o);
  AddFinalizer_identity : ∀ o f, let o' := (AddFinalizer o f).1 in
    om_Name o' = om_Name o ∧ om_Namespace o' = om_Namespace o ∧ om_UID o' = om_UID o;
  RemoveFinalizer_spec : ∀ o f,
    om_Finalizers (RemoveFinalizer o f) = filter (λ g, g ≠ f) (om_Finalizers o);
  RemoveFinalizer_identity : ∀ o f, let o' := RemoveFinalizer o f in
    om_Name o' = om_Name o ∧ om_Namespace o' = om_Namespace o ∧ om_UID o' = om_UID o;
  SetControllerReference_spec : ∀ i p p', SetControllerReference i p = Ok p' →
    ps_Spec p' = ps_Spec p ∧ ps_Status p' = ps_Status p ∧ ps_key p' = ps_key p;
}.

(** ** Documented behaviour of the API server *)

(** The objects stored in the cluster, by namespace and name. *)
Class ClientView (W : Type) := {
  hosts : W → gmap (string * string) BareMetalHost;
  secrets : W → gset (string * string);
  provs : W → gmap (string * string) OpenStackProvisionServer;
}.

Definition bmh_key (b : BareMetalHost) : string * string := (om_Namespace (bmh_Meta b), bmh_Name b).

(** Does an object with these labels in this namespace satisfy the options? *)
Definition opt_selects (o : ListOption) (ns : string) (labels : gmap string string) : Prop :=
  match o with
  | InNamespace ns' => ns = ns'
  | MatchingLabels sel => sel ⊆ labels
  end.

Definition opts_select (opts : list ListOption) (ns : string) (labels : gmap string string) : Prop :=
  Forall (λ o, opt_selects o ns labels) opts.

(** What a call that succeeds has done. A read leaves the cluster as it is; a list
    returns the stored objects its options select, each once; an update stores the
    object; [CreateOrPatch] of a stored object stores what the callback makes of
    it and returns that; the secret operations touch only secrets. *)
Class ClientLaws (W : Type) `{Client W} `{ClientView W} : Prop := {
  hosts_keyed : ∀ w k b, hosts w !! k = Some b → bmh_key b = k;
  bmh_List_ok : ∀ opts w l w', bmh_List opts w = (Ok l, w') →
    w' = w ∧ NoDup (bmh_key <$> l) ∧
    ∀ b, b ∈ l ↔ hosts w !! bmh_key b = Some b ∧
      opts_select opts (om_Namespace (bmh_Meta b)) (bmh_Labels b);
  bmh_Get_ok : ∀ ns n w b w', bmh_Get ns n w = (Ok b, w') →
    w' = w ∧ hosts w !! (ns, n) = Some b;
  bmh_Get_not_found : ∀ ns n w e w', bmh_Get ns n w = (Err e, w') → err_is_not_found e = true →
    w' = w ∧ hosts w !! (ns, n) = None;
  bmh_Update_ok : ∀ b w w', bmh_Update b w = (Ok tt, w') →
    hosts w' = <[bmh_key b := b]> (hosts w) ∧ secrets w' = secrets w ∧ provs w' = provs w;
  bmh_CreateOrPatch_ok : ∀ b f w b' w' cur, bmh_CreateOrPatch b f w = (Ok b', w') →
    hosts w !! bmh_key b = Some cur → bmh_key (f cur) = bmh_key cur →
    b' = f cur ∧ hosts w' = <[bmh_key b := f cur]> (hosts w) ∧
    secrets w' = secrets w ∧ provs w' = provs w;
  EnsureSecrets_ok : ∀ owner sts env w env' w', EnsureSecrets owner sts env w = (Ok env', w') →
    hosts w' = hosts w ∧ provs w' = provs w ∧
    secrets w' = list_to_set ((λ t, (tpl_Namespace t, tpl_Name t)) <$> sts) ∪ secrets w;
  DeleteSecretsWithName_ok : ∀ n ns w w', DeleteSecretsWithName n ns w = (Ok tt, w') →
    hosts w' = hosts w ∧ provs w' = provs w ∧ secrets w' = secrets w ∖ {[(ns, n)]};
  prov_List_ok : ∀ opts w l w', prov_List opts w = (Ok l, w') →
    w' = w ∧ NoDup (ps_key <$> l) ∧
    ∀ p, p ∈ l ↔ provs w !! ps_key p = Some p ∧
      opts_select opts (ps_Namespace p) (om_Labels (ps_Meta p));
}.

(** ** What a call can change, however it ends *)

(** On a cluster that nobody else changes during the call. A call that fails may
    have been carried out all the same (the answer was lost), or not at all. *)
Class HostFrame (W : Type) `{Client W} `{ClientView W} : Prop := {
  frame_bmh_List : ∀ opts w, hosts (bmh_List opts w).2 = hosts w;
  frame_bmh_Get : ∀ ns n w, hosts (bmh_Get ns n w).2 = hosts w;
  frame_bmh_Update : ∀ b w,
    hosts (bmh_Update b w).2 = hosts w ∨ hosts (bmh_Update b w).2 = <[bmh_key b := b]> (hosts w);
  frame_bmh_CreateOrPatch : ∀ b f w cur,
    hosts w !! bmh_key b = Some cur → bmh_key (f cur) = bmh_key cur →
    hosts (bmh_CreateOrPatch b f w).2 = hosts w ∨
    hosts (bmh_CreateOrPatch b f w).2 = <[bmh_key b := f cur]> (hosts w);
  frame_prov_List : ∀ opts w, hosts (prov_List opts w).2 = hosts w;
  frame_prov_Get : ∀ ns n w, hosts (prov_Get ns n w).2 = hosts w;
  frame_prov_Delete : ∀ ns n w, hosts (prov_Delete ns n w).2 = hosts w;
  frame_prov_CreateOrPatch : ∀ p f w, (∀ q v, hosts (f q v).2 = hosts v) →
    hosts (prov_CreateOrPatch p f w).2 = hosts w;
  frame_GetSecret : ∀ n ns w, hosts (GetSecret n ns w).2 = hosts w;
  frame_EnsureSecrets : ∀ owner sts env w, hosts (EnsureSecrets owner sts env w).2 = hosts w;
  frame_DeleteSecretsWithName : ∀ n ns w, hosts (DeleteSecretsWithName n ns w).2 = hosts w;
}.

Class SetFrame (W : Type) `{SetClient W} `{ClientView W} : Prop := {
  frame_set_Get : ∀ ns n w, hosts (set_Get ns n w).2 = hosts w;
  frame_set_NewHelper : ∀ i w, hosts (set_NewHelper i w).2 = hosts w;
  frame_set_PatchInstance : ∀ i j w, hosts (set_PatchInstance i j w).2 = hosts w;
}.

(** A cluster whose calls succeed, and go on doing so: what can be asked of the
    operator when nothing around it fails. *)
Class Reliable (W : Type) `{Client W} `{ClientView W} := {
  healthy : W → Prop;
  reliable_bmh_List : ∀ opts w, healthy w → ∃ l, bmh_List opts w = (Ok l, w);
  reliable_bmh_Get : ∀ ns n w b, healthy w → hosts w !! (ns, n) = Some b → bmh_Get ns n w = (Ok b, w);
  reliable_bmh_CreateOrPatch : ∀ b f w, healthy w → hosts w !! bmh_key b = Some b →
    ∃ b' w', bmh_CreateOrPatch b f w = (Ok b', w') ∧ healthy w';
  reliable_EnsureSecrets : ∀ owner sts env w, healthy w →
    ∃ env' w', EnsureSecrets owner sts env w = (Ok env', w') ∧ healthy w';
}.

(** ** Several sets on one cluster *)

(** The stored sets, by namespace and name, and whether the cluster does what it
    is asked to. *)
Class SystemView (W : Type) := {
  sets : W → gmap (string * string) OpenStackBaremetalSet;
  dependable : W → bool;
}.

Definition set_key (i : OpenStackBaremetalSet) : string * string := (set_Namespace i, set_Name i).

(** What the calls on other objects leave alone, however they end. *)
Definition standing {W} `{SystemView W} (w : W) : gmap (string * string) OpenStackBaremetalSet * bool :=
  (sets w, dependable w).

Class SystemFrame (W : Type) `{Client W} `{SetClient W} `{SystemView W} : Prop := {
  standing_bmh_List :: ∀ opts, Keeps standing (bmh_List opts);
  standing_bmh_Get :: ∀ ns n, Keeps standing (bmh_Get ns n);
  standing_bmh_Update :: ∀ b, Keeps standing (bmh_Update b);
  standing_bmh_CreateOrPatch :: ∀ b f, Keeps standing (bmh_CreateOrPatch b f);
  standing_prov_List :: ∀ opts, Keeps standing (prov_List opts);
  standing_prov_Get :: ∀ ns n, Keeps standing (prov_Get ns n);
  standing_prov_Delete :: ∀ ns n, Keeps standing (prov_Delete ns n);
  standing_prov_CreateOrPatch :: ∀ p f, (∀ q, Keeps standing (f q)) → Keeps standing (prov_CreateOrPatch p f);
  standing_GetSecret :: ∀ n ns, Keeps standing (GetSecret n ns);
  standing_EnsureSecrets :: ∀ owner sts env, Keeps standing (EnsureSecrets owner sts env);
  standing_DeleteSecretsWithName :: ∀ n ns, Keeps standing (DeleteSecretsWithName n ns);
  standing_set_Get :: ∀ ns n, Keeps standing (set_Get ns n);
  standing_set_NewHelper :: ∀ i, Keeps standing (set_NewHelper i);
}.

(** On a dependable cluster any read or write may be refused, but a write of a
    host that is refused was not carried out, and two calls are not refused: the
    deletion of a secret and the patch of the set. A patch that removes the last
    finalizer of a set that is being deleted removes the set. *)
Class Dependable (W : Type) `{Client W} `{SetClient W} `{ClientView W} `{SystemView W} : Prop := {
  sets_keyed : ∀ w k i, sets w !! k = Some i → set_key i = k;
  set_Get_ok : ∀ ns n w i w', set_Get ns n w = (Ok i, w') → sets w !! (ns, n) = Some i;
  no_panic_bmh_List :: ∀ opts, NoPanic (bmh_List opts);
  no_panic_bmh_Get :: ∀ ns n, NoPanic (bmh_Get ns n);
  no_panic_bmh_Update :: ∀ b, NoPanic (bmh_Update b);
  no_panic_bmh_CreateOrPatch :: ∀ b f, NoPanic (bmh_CreateOrPatch b f);
  no_panic_EnsureSecrets :: ∀ owner sts env, NoPanic (EnsureSecrets owner sts env);
  refused_bmh_Update : ∀ b w e, dependable w = true → (bmh_Update b w).1 = Err e →
    hosts (bmh_Update b w).2 = hosts w;
  refused_bmh_CreateOrPatch : ∀ b f w e, dependable w = true → (bmh_CreateOrPatch b f w).1 = Err e →
    hosts (bmh_CreateOrPatch b f w).2 = hosts w;
  done_DeleteSecretsWithName : ∀ n ns w, dependable w = true → (DeleteSecretsWithName n ns w).1 = Ok tt;
  done_set_PatchInstance : ∀ i j w, dependable w = true → ∃ w', set_PatchInstance i j w = (Ok tt, w') ∧
    dependable w' = true ∧ (sets w' = <[set_key j := j]> (sets w) ∨ sets w' = delete (set_key j) (sets w));
}.
