(* ===== verification/MemCluster.v ===== *)
(** * An in-memory cluster

    An executable instance of the classes of [Kube]: objects are kept in maps by
    namespace and name, calls succeed unless the cluster says that the kind of
    call fails. It shows that the documented behaviour the theorems assume can
    hold, and the witnesses run the operator on it. *)

From S2P Require Import Prelude ApiTypes Kube.

Record mem := mkMem {
  mem_hosts : gmap (string * string) BareMetalHost;
  mem_secrets : gmap (string * string) Secret;
  mem_provs : gmap (string * string) OpenStackProvisionServer;
  mem_sets : gmap (string * string) OpenStackBaremetalSet;
  mem_faults : list string;
}.

Definition not_found (what : string) : error := mkError true (what +:+ " not found").

(** A call fails when the cluster lists its name among the faults. *)
Definition mem_call {A} (op : string) (c : st mem A) : st mem A := λ w,
  if bool_decide (op ∈ mem_faults w) then (Err (Errorf (op +:+ " failed")), w) else c w.

Definition mem_with_hosts (h : gmap (string * string) BareMetalHost) (w : mem) : mem :=
  mkMem h (mem_secrets w) (mem_provs w) (mem_sets w) (mem_faults w).
Definition mem_with_secrets (s : gmap (string * string) Secret) (w : mem) : mem :=
  mkMem (mem_hosts w) s (mem_provs w) (mem_sets w) (mem_faults w).
Definition mem_with_provs (p : gmap (string * string) OpenStackProvisionServer) (w : mem) : mem :=
  mkMem (mem_hosts w) (mem_secrets w) p (mem_sets w) (mem_faults w).
Definition mem_with_sets (i : gmap (string * string) OpenStackBaremetalSet) (w : mem) : mem :=
  mkMem (mem_hosts w) (mem_secrets w) (mem_provs w) i (mem_faults w).

#[export] Instance opt_selects_dec o ns labels : Decision (opt_selects o ns labels).
Proof. destruct o; simpl; apply _. Defined.

#[export] Instance opts_select_dec opts ns labels : Decision (opts_select opts ns labels).
Proof. unfold opts_select. apply _. Defined.

(** Reads see the objects stored under their own key. *)
Definition mem_view_hosts (w : mem) : gmap (string * string) BareMetalHost :=
  filter (λ kb : (string * string) * BareMetalHost, bmh_key kb.2 = kb.1) (mem_hosts w).

Definition mem_view_provs (w : mem) : gmap (string * string) OpenStackProvisionServer :=
  filter (λ kp : (string * string) * OpenStackProvisionServer, ps_key kp.2 = kp.1) (mem_provs w).

Definition mem_view_sets (w : mem) : gmap (string * string) OpenStackBaremetalSet :=
  filter (λ ki : (string * string) * OpenStackBaremetalSet, set_key ki.2 = ki.1) (mem_sets w).

Definition mem_list_hosts (opts : list ListOption) (w : mem) : list BareMetalHost :=
  filter (λ b, opts_select opts (om_Namespace (bmh_Meta b)) (bmh_Labels b))
    (map_to_list (mem_view_hosts w)).*2.

Definition mem_list_provs (opts : list ListOption) (w : mem) : list OpenStackProvisionServer :=
  filter (λ p, opts_select opts (ps_Namespace p) (om_Labels (ps_Meta p)))
    (map_to_list (mem_view_provs w)).*2.

(** [controllerutil.CreateOrPatch]: read the object, apply the callback, store. *)
Definition mem_patch_host (b : BareMetalHost) (f : BareMetalHost → BareMetalHost) :
    st mem BareMetalHost := λ w,
  let b' := f (default b (mem_view_hosts w !! bmh_key b)) in
  (Ok b', mem_with_hosts (<[bmh_key b := b']> (mem_hosts w)) w).

Definition mem_patch_prov (p : OpenStackProvisionServer)
    (f : OpenStackProvisionServer → st mem OpenStackProvisionServer) :
    st mem OpenStackProvisionServer :=
  let! cur := st_gets (λ w, default p (mem_view_provs w !! ps_key p)) in
  let! p' := f cur in
  do! st_modify (λ w, mem_with_provs (<[ps_key p := p']> (mem_provs w)) w) then
  st_ret p'.

#[export] Instance mem_client : Client mem := {
  bmh_List opts := mem_call "bmh.List" (st_gets (mem_list_hosts opts));
  bmh_Get ns n := mem_call "bmh.Get" (λ w,
    match mem_view_hosts w !! (ns, n) with
    | Some b => (Ok b, w)
    | None => (Err (not_found n), w)
    end);
  bmh_Update b := mem_call "bmh.Update"
    (st_modify (λ w, mem_with_hosts (<[bmh_key b := b]> (mem_hosts w)) w));
  bmh_CreateOrPatch b f := mem_call "bmh.Patch" (mem_patch_host b f);
  prov_List opts := mem_call "prov.List" (st_gets (mem_list_provs opts));
  prov_Get ns n := mem_call "prov.Get" (λ w,
    match mem_view_provs w !! (ns, n) with
    | Some p => (Ok p, w)
    | None => (Err (not_found n), w)
    end);
  prov_Delete ns n := mem_call "prov.Delete" (λ w,
    match mem_view_provs w !! (ns, n) with
    | Some _ => (Ok tt, mem_with_provs (delete (ns, n) (mem_provs w)) w)
    | None => (Err (not_found n), w)
    end);
  prov_CreateOrPatch p f := mem_call "prov.Patch" (mem_patch_prov p f);
  GetSecret n ns := mem_call "secret.Get" (λ w,
    match mem_secrets w !! (ns, n) with
    | Some s => (Ok (s, "hash-" +:+ n), w)
    | None => (Err (not_found n), w)
    end);
  EnsureSecrets _ sts env := mem_call "secret.Ensure" (λ w,
    (Ok (foldr (λ t e, <[tpl_Name t := "hash-" +:+ tpl_Name t]> e) env sts),
     mem_with_secrets
       (foldr (λ t s, <[(tpl_Namespace t, tpl_Name t) := mkSecret (tpl_Name t) ∅]> s)
          (mem_secrets w) sts) w));
  DeleteSecretsWithName n ns := mem_call "secret.Delete"
    (st_modify (λ w, mem_with_secrets (delete (ns, n) (mem_secrets w)) w));
}.

#[export] Instance mem_set_client : SetClient mem := {
  set_Get ns n := mem_call "set.Get" (λ w,
    match mem_view_sets w !! (ns, n) with
    | Some i => (Ok i, w)
    | None => (Err (not_found n), w)
    end);
  set_NewHelper _ := mem_call "helper.New" (st_ret tt);
  set_PatchInstance _ i := mem_call "set.Patch"
    (st_modify (λ w, mem_with_sets (<[(set_Namespace i, set_Name i) := i]> (mem_sets w)) w));
}.

#[export] Instance mem_view : ClientView mem := {
  hosts := mem_view_hosts;
  secrets w := dom (mem_secrets w);
  provs := mem_view_provs;
}.

Definition mem_with_finalizers (l : list string) (o : ObjectMeta) : ObjectMeta :=
  mkObjectMeta (om_Name o) (om_Namespace o) (om_UID o) (om_Generation o) (om_Labels o)
    (om_Annotations o) l (om_DeletionTimestamp o).

(** The label and metadata functions of lib-common on concrete data. *)
#[export] Instance mem_lib : LibCommon := {
  GetGroupLabel s := s +:+ ".openstack.org";
  GetOwnerUIDLabelSelector s := s +:+ "/uid";
  GetOwnerNameSpaceLabelSelector s := s +:+ "/namespace";
  GetOwnerNameLabelSelector s := s +:+ "/name";
  GetLabels o s custom := custom ∪
    <[s +:+ "/uid" := om_UID o]>
    (<[s +:+ "/namespace" := om_Namespace o]> {[s +:+ "/name" := om_Name o]});
  MergeStringMaps m ms := m ∪ ⋃ ms;
  MergeMaps _ m1 m2 := m1 ∪ m2;
  GetBackupLabels := {["backup.openstack.org/category" := "dataplane"]};
  GetRestoreLabels := {["backup.openstack.org/restore-order" := "10"]};
  IsPaused a := bool_decide (a !! "core.openstack.org/paused" = Some "true");
  SkipValidation a := bool_decide (a !! "core.openstack.org/skip-validation" = Some "true");
  AddFinalizer o f :=
    if decide (f ∈ om_Finalizers o) then (o, false)
    else (mem_with_finalizers (om_Finalizers o ++ [f]) o, true);
  RemoveFinalizer o f := mem_with_finalizers (filter (λ g, g ≠ f) (om_Finalizers o)) o;
  GetFinalizer kind := "openstack.org/" +:+ kind;
  SetControllerReference _ p := Ok p;
  SkipValidationAnnotation := "core.openstack.org/skip-validation";
  DeepEqual_labels m1 m2 := bool_decide (m1 = m2);
  DeepEqual_reqs r1 r2 := bool_decide (r1 = r2);
  hostname_rfc1123 s := negb (String.eqb s "");
  NewInvalid group kind name _ :=
    Errorf (kind +:+ "." +:+ group +:+ " " +:+ name +:+ " is invalid");
}.

(** A long prefix is not equal to a shorter string. *)
Lemma suffix_ne (s a b : string) : a ≠ b → s +:+ a ≠ s +:+ b.
Proof.
  intros Hne Heq. apply Hne. induction s as [|c s IH]; [done|].
  apply IH. by injection Heq.
Qed.

#[export] Instance mem_lib_laws : LibCommonLaws.
Proof.
  constructor; cbv zeta; try done; intros.
  - unfold DeepEqual_labels; simpl. by rewrite bool_decide_eq_true.
  - unfold DeepEqual_reqs; simpl. by rewrite bool_decide_eq_true.
  - simpl. rewrite !NoDup_cons, !elem_of_cons. split_and!; [| |set_solver|by apply NoDup_nil].
    + intros [Heq|[Heq|?]]; [by eapply suffix_ne, Heq..|set_solver].
    + intros [Heq|?]; [by eapply suffix_ne, Heq|set_solver].
  - simpl. by case_decide.
  - simpl. by case_decide.
  - by simplify_eq/=.
Qed.

(** ** The laws *)

Lemma mem_view_hosts_keyed w k b : mem_view_hosts w !! k = Some b → bmh_key b = k.
Proof. by intros [_ ?]%map_lookup_filter_Some. Qed.

Lemma mem_view_provs_keyed w k p : mem_view_provs w !! k = Some p → ps_key p = k.
Proof. by intros [_ ?]%map_lookup_filter_Some. Qed.

Lemma mem_view_hosts_insert w k b :
  bmh_key b = k →
  mem_view_hosts (mem_with_hosts (<[k := b]> (mem_hosts w)) w) = <[k := b]> (mem_view_hosts w).
Proof. intros Hk. unfold mem_view_hosts; simpl. by rewrite map_filter_insert_True. Qed.

(** Listing the values of a keyed map that satisfy a test. *)
Lemma list_keyed {K A} `{Countable K} (m : gmap K A) (key : A → K) (P : A → Prop)
    `{∀ x, Decision (P x)} :
  (∀ k x, m !! k = Some x → key x = k) →
  NoDup (key <$> filter P (map_to_list m).*2) ∧
  ∀ x, x ∈ filter P (map_to_list m).*2 ↔ m !! key x = Some x ∧ P x.
Proof.
  intros Hkey.
  assert (Hin : ∀ x, x ∈ (map_to_list m).*2 ↔ m !! key x = Some x).
  { intros x. rewrite list_elem_of_fmap. split.
    - intros ([k y] & -> & Hkx%elem_of_map_to_list). simpl. by rewrite (Hkey _ _ Hkx).
    - intros Hx. exists (key x, x). split; [done|]. by apply elem_of_map_to_list. }
  split; [|intros x; rewrite list_elem_of_filter, Hin; tauto].
  apply NoDup_fmap_2_strong.
  - intros x y [_ Hx%Hin]%list_elem_of_filter [_ Hy%Hin]%list_elem_of_filter Heq. congruence.
  - apply NoDup_filter. apply NoDup_fmap_2_strong; [|apply NoDup_map_to_list].
    intros [k1 x1] [k2 x2] H1%elem_of_map_to_list H2%elem_of_map_to_list ?. simplify_eq/=.
    by rewrite <-(Hkey _ _ H1), <-(Hkey _ _ H2).
Qed.

Lemma dom_foldr_secrets (sts : list Template) (s : gmap (string * string) Secret) :
  dom (foldr (λ t s, <[(tpl_Namespace t, tpl_Name t) := mkSecret (tpl_Name t) ∅]> s) s sts) =
  list_to_set ((λ t, (tpl_Namespace t, tpl_Name t)) <$> sts) ∪ dom s.
Proof. induction sts as [|t sts IH]; simpl; [set_solver|]. rewrite dom_insert_L, IH. set_solver. Qed.

Ltac mem_step :=
  unfold mem_call, st_gets, st_modify; intros;
  repeat match goal with
  | H : context [bool_decide ?P] |- _ => destruct (bool_decide P); [done|]
  end; simplify_eq/=.

#[export] Instance mem_laws : ClientLaws mem.
Proof.
  constructor; simpl.
  - apply mem_view_hosts_keyed.
  - mem_step. split; [done|]. by apply list_keyed, mem_view_hosts_keyed.
  - mem_step. destruct (mem_view_hosts w !! (ns, n)) eqn:?; by simplify_eq.
  - unfold mem_call. intros ns n w e w'. case_bool_decide; [by intros [= <- <-]|].
    destruct (mem_view_hosts w !! (ns, n)) eqn:?; by intros [= <- <-].
  - mem_step. split_and!; [by apply mem_view_hosts_insert|done|done].
  - unfold mem_patch_host, mem_call. intros b f w b' w' cur Hc Hcur Hk. case_bool_decide; [done|].
    rewrite Hcur in Hc. injection Hc as <- <-. apply mem_view_hosts_keyed in Hcur.
    split_and!; [done|apply mem_view_hosts_insert; by rewrite <-Hcur|done|done].
  - mem_step. split_and!; [done|done|apply dom_foldr_secrets].
  - mem_step. split_and!; [done|done|apply dom_delete_L].
  - mem_step. split; [done|]. by apply list_keyed, mem_view_provs_keyed.
Qed.

#[export] Instance mem_frame : HostFrame mem.
Proof.
  constructor; simpl; unfold mem_call, st_gets, st_modify; intros; try case_bool_decide; try done.
  - by destruct (mem_view_hosts w !! (ns, n)).
  - by left.
  - right. by apply mem_view_hosts_insert.
  - by left.
  - right. match goal with Hcur : _ !! _ = Some cur |- _ =>
      unfold mem_patch_host; rewrite Hcur; apply mem_view_hosts_keyed in Hcur end.
    apply mem_view_hosts_insert. congruence.
  - by destruct (mem_view_provs w !! (ns, n)).
  - by destruct (mem_view_provs w !! (ns, n)).
  - unfold mem_patch_prov, st_bind, st_gets, st_modify, st_ret. simpl.
    match goal with Hf : ∀ _ _, _ = _ |- _ => specialize (Hf (default p (mem_view_provs w !! ps_key p)) w) end.
    by destruct (f _ w) as [[q|e|m] w'].
  - by destruct (mem_secrets w !! (ns, n)).
Qed.

#[export] Instance mem_set_frame : SetFrame mem.
Proof.
  constructor; simpl; unfold mem_call, st_gets, st_modify; intros; try case_bool_decide; try done.
  by destruct (mem_view_sets w !! (ns, n)).
Qed.

#[export] Program Instance mem_reliable : Reliable mem := {| healthy w := mem_faults w = [] |}.
Next Obligation. intros opts w Hw. simpl. unfold mem_call. rewrite Hw. by eexists. Qed.
Next Obligation. intros ns n w b Hw Hb. simpl in *. unfold mem_call. by rewrite Hw, Hb. Qed.
Next Obligation. intros b f w Hw Hb. simpl. unfold mem_call. rewrite Hw. by eexists _, _. Qed.
Next Obligation. intros owner sts env w Hw. simpl. unfold mem_call. rewrite Hw. by eexists _, _. Qed.

#[export] Instance mem_system : SystemView mem := {
  sets := mem_view_sets;
  dependable w := bool_decide ("secret.Delete" ∉ mem_faults w ∧ "set.Patch" ∉ mem_faults w);
}.

#[export] Instance mem_system_frame : SystemFrame mem.
Proof.
  constructor; intros; intros w; simpl; unfold mem_call, st_gets, st_modify;
    try (case_bool_decide; [done|]); try done.
  - by destruct (mem_view_hosts w !! (ns, n)).
  - by destruct (mem_view_provs w !! (ns, n)).
  - by destruct (mem_view_provs w !! (ns, n)).
  - unfold mem_patch_prov, st_bind, st_gets, st_modify, st_ret. simpl.
    pose proof (kept (f := standing) (c := f (default p (mem_view_provs w !! ps_key p))) w) as Hf.
    by destruct (f _ w) as [[q|e|m] w'].
  - by destruct (mem_secrets w !! (ns, n)).
  - by destruct (mem_view_sets w !! (ns, n)).
Qed.

#[export] Instance mem_dependable : Dependable mem.
Proof.
  constructor; simpl.
  - by intros w k i [_ ?]%map_lookup_filter_Some.
  - mem_step. destruct (mem_view_sets w !! (ns, n)) eqn:?; by simplify_eq.
  - intros opts w m. simpl. unfold mem_call. by case_bool_decide.
  - intros ns n w m. simpl. unfold mem_call. case_bool_decide; [done|].
    by destruct (mem_view_hosts w !! (ns, n)).
  - intros b w m. simpl. unfold mem_call. by case_bool_decide.
  - intros b f w m. simpl. unfold mem_call. by case_bool_decide.
  - intros owner sts env w m. simpl. unfold mem_call. by case_bool_decide.
  - intros b w e _. unfold mem_call. by case_bool_decide.
  - intros b f w e _. unfold mem_call. by case_bool_decide.
  - intros n ns w Hd%bool_decide_eq_true. unfold mem_call. rewrite bool_decide_eq_false_2 by tauto. done.
  - intros i j w Hd. pose proof Hd as Hd'%bool_decide_eq_true. unfold mem_call.
    rewrite bool_decide_eq_false_2 by tauto. eexists. split; [reflexivity|]. split; [exact Hd|]. left.
    unfold mem_view_sets. simpl. by rewrite map_filter_insert_True.
Qed.
