(* ===== verification/Conditions.v ===== *)
(** * Status conditions

    The condition types and messages of [api/v1beta1/conditions.go], and package
    [condition] of lib-common, which keeps the condition list of a status: it is
    code outside the repository, so it is the class [ConditionLib], with the
    documented effect of each operation on the status of each condition as the
    laws [ConditionLaws]. [mem_conditions] is an executable instance. *)

From S2P Require Import Prelude ApiTypes.

(** ** conditions.go *)

Definition OpenStackProvisionServerReadyCondition := "OpenStackProvisionServerReady".
Definition OpenStackProvisionServerProvIntfReadyCondition := "OpenStackProvisionServerProvIntfReady".
Definition OpenStackProvisionServerLocalImageURLReadyCondition :=
  "OpenStackProvisionServerLocalImageURLReady".
Definition OpenStackProvisionServerChecksumReadyCondition := "OpenStackProvisionServerChecksumReady".
Definition OpenStackBaremetalSetReadyCondition := "OpenStackBaremetalSetReady".
Definition OpenStackBaremetalSetProvServerReadyCondition := "OpenStackBaremetalSetProvServerReady".
Definition OpenStackBaremetalSetBmhProvisioningReadyCondition :=
  "OpenStackBaremetalSetBmhProvisioningReady".

Definition OpenStackProvisionServerReadyInitMessage := "OpenStackProvisionServer not started".
Definition OpenStackProvisionServerReadyErrorMessage := "OpenStackProvisionServer error occured %s".
Definition OpenStackProvisionServerProvIntfReadyInitMessage :=
  "OpenStackProvisionServerProvIntf not started".
Definition OpenStackProvisionServerProvIntfReadyErrorMessage :=
  "OpenStackProvisionServerProvIntf error occured %s".
Definition OpenStackProvisionServerProvIntfReadyRunningMessage :=
  "OpenStackProvisionServerProvIntf acquisition in progress".
Definition OpenStackProvisionServerProvIntfReadyMessage :=
  "OpenStackProvisionServerProvIntf found and IP acquired".
Definition OpenStackProvisionServerLocalImageURLReadyInitMessage :=
  "OpenStackProvisionServerLocalImageURL not started".
Definition OpenStackProvisionServerLocalImageURLReadyErrorMessage :=
  "OpenStackProvisionServerLocalImageURL error occured %s".
Definition OpenStackProvisionServerLocalImageURLReadyRunningMessage :=
  "OpenStackProvisionServerLocalImageURL generation in progress".
Definition OpenStackProvisionServerLocalImageURLReadyMessage :=
  "OpenStackProvisionServerLocalImageURL generated".
Definition OpenStackProvisionServerChecksumReadyInitMessage :=
  "OpenStackProvisionServerChecksum not started".
Definition OpenStackProvisionServerChecksumReadyErrorMessage :=
  "OpenStackProvisionServerChecksum error occured %s".
Definition OpenStackProvisionServerChecksumReadyRunningMessage :=
  "OpenStackProvisionServerChecksum acquisition in progress".
Definition OpenStackProvisionServerChecksumReadyMessage := "OpenStackProvisionServerChecksum acquired".
Definition OpenStackBaremetalSetReadyInitMessage := "OpenStackBaremetalSet not started".
Definition OpenStackBaremetalSetReadyErrorMessage := "OpenStackBaremetalSet error occured %s".
Definition OpenStackBaremetalSetProvServerReadyInitMessage :=
  "OpenStackBaremetalSet provision server not started".
Definition OpenStackBaremetalSetProvServerReadyWaitingMessage :=
  "OpenStackBaremetalSet waiting for provision server creation".
Definition OpenStackBaremetalSetProvServerReadyRunningMessage :=
  "OpenStackBaremetalSet provision server deployment in progress".
Definition OpenStackBaremetalSetProvServerReadyErrorMessage :=
  "OpenStackBaremetalSet provision server error occured %s".
Definition OpenStackBaremetalSetProvServerReadyMessage := "OpenStackBaremetalSet provision server ready".
Definition OpenStackBaremetalSetBmhProvisioningReadyInitMessage :=
  "OpenStackBaremetalSet BMH provisioning not started".
Definition OpenStackBaremetalSetBmhProvisioningReadyRunningMessage :=
  "OpenStackBaremetalSet BMH provisioning in progress".
Definition OpenStackBaremetalSetBmhProvisioningReadyErrorMessage :=
  "OpenStackBaremetalSet BMH provisioning error occured %s".
Definition OpenStackBaremetalSetBmhProvisioningReadyMessage :=
  "OpenStackBaremetalSet BMH provisioning completed".

(** ** Package condition *)

Class ConditionLib := {
  (** the value of a constant of the package, by its name *)
  cond_const : string → string;
  (** [FalseCondition(type, reason, severity, format, args...)] *)
  FalseCondition : string → string → string → string → list string → Condition;
  (** [UnknownCondition(type, reason, format)] *)
  UnknownCondition : string → string → string → Condition;
  (** [cl := CreateList(l...); conditions.Init(&cl)] *)
  cond_Init : Conditions → list Condition → Conditions;
  cond_Set : Conditions → Condition → Conditions;
  (** [MarkTrue(type, format)], [MarkFalse(type, reason, severity, format, args...)] *)
  cond_MarkTrue : Conditions → string → string → Conditions;
  cond_MarkFalse : Conditions → string → string → string → string → list string → Conditions;
  cond_Remove : Conditions → string → Conditions;
  cond_IsTrue : Conditions → string → bool;
  cond_IsUnknown : Conditions → string → bool;
  cond_Mirror : Conditions → string → Condition;
  cond_AllSubConditionIsTrue : Conditions → bool;
  (** [RestoreLastTransitionTimes(&conditions, saved)] *)
  RestoreLastTransitionTimes : Conditions → Conditions → Conditions;
}.

(** The types the operator takes from the package. *)
Definition ReadyCondition `{ConditionLib} := cond_const "ReadyCondition".
Definition InputReadyCondition `{ConditionLib} := cond_const "InputReadyCondition".
Definition DeploymentReadyCondition `{ConditionLib} := cond_const "DeploymentReadyCondition".
Definition ServiceConfigReadyCondition `{ConditionLib} := cond_const "ServiceConfigReadyCondition".
Definition ServiceAccountReadyCondition `{ConditionLib} := cond_const "ServiceAccountReadyCondition".
Definition RoleReadyCondition `{ConditionLib} := cond_const "RoleReadyCondition".
Definition RoleBindingReadyCondition `{ConditionLib} := cond_const "RoleBindingReadyCondition".

(** The status of the condition of a type, when there is one. *)
Definition cond_status (cs : Conditions) (t : string) : option ConditionStatus :=
  cond_Status <$> List.find (λ c, String.eqb (cond_Type c) t) (default [] cs).

(** No two conditions have the same type. *)
Definition cond_unique (cs : Conditions) : Prop := NoDup (cond_Type <$> default [] cs).

Class ConditionLaws `{ConditionLib} : Prop := {
  cond_types_distinct : NoDup [ReadyCondition; InputReadyCondition; DeploymentReadyCondition;
    ServiceConfigReadyCondition; ServiceAccountReadyCondition; RoleReadyCondition;
    RoleBindingReadyCondition; OpenStackProvisionServerProvIntfReadyCondition;
    OpenStackProvisionServerLocalImageURLReadyCondition;
    OpenStackProvisionServerChecksumReadyCondition; OpenStackBaremetalSetProvServerReadyCondition;
    OpenStackBaremetalSetBmhProvisioningReadyCondition];
  FalseCondition_spec : ∀ t reason severity format args,
    cond_Type (FalseCondition t reason severity format args) = t ∧
    cond_Status (FalseCondition t reason severity format args) = ConditionFalse;
  UnknownCondition_spec : ∀ t reason format,
    cond_Type (UnknownCondition t reason format) = t ∧
    cond_Status (UnknownCondition t reason format) = ConditionUnknown;
  cond_Init_spec : ∀ cs l c, NoDup (cond_Type <$> l) → c ∈ l →
    cond_status (cond_Init cs l) (cond_Type c) = Some (cond_Status c);
  cond_Init_ready : ∀ cs l, ReadyCondition ∉ cond_Type <$> l →
    cond_status (cond_Init cs l) ReadyCondition = Some ConditionUnknown;
  (** [Init] adds conditions of no other type *)
  cond_Init_other : ∀ cs l t s, t ∉ ReadyCondition :: (cond_Type <$> l) →
    cond_status (cond_Init cs l) t = Some s → cond_status cs t = Some s;
  cond_Init_unique : ∀ cs l, NoDup (cond_Type <$> l) → cond_unique cs → cond_unique (cond_Init cs l);
  cond_MarkTrue_unique : ∀ cs t format, cond_unique cs → cond_unique (cond_MarkTrue cs t format);
  cond_Set_spec : ∀ cs c t,
    cond_status (cond_Set cs c) t = if decide (t = cond_Type c) then Some (cond_Status c) else cond_status cs t;
  cond_MarkTrue_spec : ∀ cs t format t',
    cond_status (cond_MarkTrue cs t format) t' = if decide (t' = t) then Some ConditionTrue else cond_status cs t';
  cond_MarkFalse_spec : ∀ cs t reason severity format args t',
    cond_status (cond_MarkFalse cs t reason severity format args) t' =
      if decide (t' = t) then Some ConditionFalse else cond_status cs t';
  cond_Remove_spec : ∀ cs t t',
    cond_status (cond_Remove cs t) t' = if decide (t' = t) then None else cond_status cs t';
  cond_IsTrue_spec : ∀ cs t, cond_IsTrue cs t = true ↔ cond_status cs t = Some ConditionTrue;
  cond_IsUnknown_spec : ∀ cs t s, cond_status cs t = Some s →
    cond_IsUnknown cs t = true ↔ s = ConditionUnknown;
  (** the mirrored condition is true only when every other one is *)
  cond_Mirror_spec : ∀ cs,
    cond_Type (cond_Mirror cs ReadyCondition) = ReadyCondition ∧
    (cond_Status (cond_Mirror cs ReadyCondition) = ConditionTrue →
     ∀ t s, t ≠ ReadyCondition → cond_status cs t = Some s → s = ConditionTrue);
  cond_AllSub_spec : ∀ cs, cond_AllSubConditionIsTrue cs = true →
    ∀ t s, t ≠ ReadyCondition → cond_status cs t = Some s → s = ConditionTrue;
  cond_AllSub_complete : ∀ cs, cond_unique cs →
    (∀ t s, t ≠ ReadyCondition → cond_status cs t = Some s → s = ConditionTrue) →
    cond_AllSubConditionIsTrue cs = true;
  RestoreLastTransitionTimes_spec : ∀ cs saved t,
    cond_status (RestoreLastTransitionTimes cs saved) t = cond_status cs t;
}.

(** ** An executable instance *)

Definition mem_cond_set (l : list Condition) (c : Condition) : list Condition :=
  c :: filter (λ d, cond_Type d ≠ cond_Type c) l.
Definition mem_all_sub (l : list Condition) : bool :=
  forallb (λ c, String.eqb (cond_Type c) "ReadyCondition" || bool_decide (cond_Status c = ConditionTrue)) l.

Definition mem_cond_init (l : list Condition) : list Condition :=
  if decide ("ReadyCondition" ∈ cond_Type <$> l) then l
  else l ++ [mkCondition "ReadyCondition" ConditionUnknown "" 0 "Init" "Setup started"].

#[export] Instance mem_conditions : ConditionLib := {
  cond_const n := n;
  FalseCondition t reason severity format _ := mkCondition t ConditionFalse severity 0 reason format;
  UnknownCondition t reason format := mkCondition t ConditionUnknown "" 0 reason format;
  cond_Init _ l := Some (mem_cond_init l);
  cond_Set cs c := Some (mem_cond_set (default [] cs) c);
  cond_MarkTrue cs t format :=
    Some (mem_cond_set (default [] cs) (mkCondition t ConditionTrue "" 0 "Ready" format));
  cond_MarkFalse cs t reason severity format _ :=
    Some (mem_cond_set (default [] cs) (mkCondition t ConditionFalse severity 0 reason format));
  cond_Remove cs t := Some (filter (λ d, cond_Type d ≠ t) (default [] cs));
  cond_IsTrue cs t := bool_decide (cond_status cs t = Some ConditionTrue);
  cond_IsUnknown cs t := bool_decide (cond_status cs t = Some ConditionUnknown);
  cond_Mirror cs t := mkCondition t
    (if mem_all_sub (default [] cs) then ConditionTrue else ConditionUnknown) "" 0 "Mirror" "";
  cond_AllSubConditionIsTrue cs := mem_all_sub (default [] cs);
  RestoreLastTransitionTimes cs _ := cs;
}.

Lemma find_other l t t' :
  t' ≠ t →
  List.find (λ c, String.eqb (cond_Type c) t') (filter (λ d, cond_Type d ≠ t) l) =
  List.find (λ c, String.eqb (cond_Type c) t') l.
Proof.
  intros Hne. induction l as [|c l IH]; [done|].
  rewrite filter_cons. case_decide as Hc; simpl.
  - by rewrite IH.
  - destruct (String.eqb_spec (cond_Type c) t'); [congruence|done].
Qed.

Lemma find_removed l t :
  List.find (λ c, String.eqb (cond_Type c) t) (filter (λ d, cond_Type d ≠ t) l) = None.
Proof.
  induction l as [|c l IH]; [done|]. rewrite filter_cons. case_decide as Hc; [|done]. simpl.
  by rewrite (proj2 (String.eqb_neq _ _) Hc).
Qed.

(** A listed condition is found in any extension of the list. *)
Lemma find_listed l r c :
  NoDup (cond_Type <$> l) → c ∈ l → cond_status (Some (l ++ r)) (cond_Type c) = Some (cond_Status c).
Proof.
  induction l as [|d l IH]; [set_solver|]. intros [Hd Hnd]%NoDup_cons Hc. unfold cond_status. simpl.
  destruct (String.eqb_spec (cond_Type d) (cond_Type c)) as [Heq|Hne].
  - apply elem_of_cons in Hc as [->|Hc]; [done|]. destruct Hd. rewrite Heq. by apply list_elem_of_fmap_2.
  - apply elem_of_cons in Hc as [->|Hc]; [done|]. by apply IH.
Qed.

Lemma mem_cond_set_spec cs c t :
  cond_status (Some (mem_cond_set (default [] cs) c)) t =
    if decide (t = cond_Type c) then Some (cond_Status c) else cond_status cs t.
Proof.
  unfold cond_status, mem_cond_set. simpl.
  destruct (String.eqb_spec (cond_Type c) t) as [->|Hne]; case_decide; try congruence; [done|].
  by rewrite find_other.
Qed.

Lemma mem_all_sub_spec cs :
  mem_all_sub (default [] cs) = true →
  ∀ t s, t ≠ "ReadyCondition" → cond_status cs t = Some s → s = ConditionTrue.
Proof.
  unfold mem_all_sub, cond_status. rewrite forallb_forall. intros Ha t s Ht.
  rewrite fmap_Some. intros (c & [Hin <-%String.eqb_eq]%find_some & ->).
  apply Ha, orb_true_iff in Hin as [?%String.eqb_eq|?%bool_decide_eq_true]; done.
Qed.

Lemma mem_all_sub_complete cs :
  cond_unique cs → (∀ t s, t ≠ "ReadyCondition" → cond_status cs t = Some s → s = ConditionTrue) →
  mem_all_sub (default [] cs) = true.
Proof.
  intros Hu Ha. apply forallb_forall. intros c Hc%list_elem_of_In. apply orb_true_iff.
  destruct (String.eqb_spec (cond_Type c) "ReadyCondition") as [|Hne]; [by left|]. right.
  apply bool_decide_eq_true, (Ha _ _ Hne). pose proof (find_listed _ [] c Hu Hc) as Hf. rewrite app_nil_r in Hf.
  unfold cond_status in *. exact Hf.
Qed.

Lemma mem_cond_set_unique cs c : cond_unique cs → cond_unique (Some (mem_cond_set (default [] cs) c)).
Proof.
  intros Hu. unfold cond_unique, mem_cond_set. simpl. apply NoDup_cons. split.
  - intros (d & Heq & [Hne _]%list_elem_of_filter)%list_elem_of_fmap. by destruct Hne.
  - exact (sublist_NoDup _ _ Hu (fmap_sublist cond_Type _ _ (sublist_filter _ _))).
Qed.

#[export] Instance mem_cond_laws : ConditionLaws.
Proof.
  constructor; try done.
  - by_compute.
  - intros cs l c Hnd Hc. simpl. unfold mem_cond_init. case_decide; [rewrite <-(app_nil_r l)|]; by apply find_listed.
  - intros cs l Hn. simpl. unfold mem_cond_init. rewrite decide_False by done.
    unfold cond_status. simpl. induction l as [|d l IH]; simpl; [done|].
    change (cond_Type <$> d :: l) with (cond_Type d :: (cond_Type <$> l)) in Hn.
    apply not_elem_of_cons in Hn as [Hd Hn].
    destruct (String.eqb_spec (cond_Type d) "ReadyCondition") as [Heq|_]; [by destruct Hd|by apply IH].
  - intros cs l t s Ht%not_elem_of_cons. destruct Ht as [Hr Ht]. intros Hs. exfalso. simpl in Hs.
    apply fmap_Some in Hs as (c & [Hin <-%String.eqb_eq]%find_some & _). apply list_elem_of_In in Hin. simpl in Hin.
    unfold mem_cond_init in Hin. case_decide; [by apply Ht, list_elem_of_fmap_2|].
    apply elem_of_app in Hin as [?|Hin%list_elem_of_singleton]; [by apply Ht, list_elem_of_fmap_2|subst c; by apply Hr].
  - intros cs l Hl _. unfold cond_unique. simpl. unfold mem_cond_init. case_decide as Hr; [done|].
    rewrite fmap_app. apply NoDup_app. split_and!; [done| |apply NoDup_singleton].
    intros t Ht ->%list_elem_of_singleton. done.
  - intros. by apply mem_cond_set_unique.
  - intros. apply mem_cond_set_spec.
  - intros. by rewrite <-(mem_cond_set_spec cs (mkCondition t ConditionTrue "" 0 "Ready" format)).
  - intros. by rewrite <-(mem_cond_set_spec cs (mkCondition t ConditionFalse severity 0 reason format)).
  - intros cs t t'. unfold cond_status. simpl. case_decide as Ht; [subst; by rewrite find_removed|].
    by rewrite find_other.
  - intros. apply bool_decide_eq_true.
  - intros cs t s Hs. simpl. rewrite bool_decide_eq_true, Hs. naive_solver.
  - intros cs. split; [done|]. simpl. intros Hm. apply mem_all_sub_spec.
    by destruct (mem_all_sub _).
  - intros cs. apply mem_all_sub_spec.
  - apply mem_all_sub_complete.
Qed.
