(* ===== verification/ApiMethods.v ===== *)
(** * Methods and registration of the API types

    The methods of [OpenStackProvisionServer] that lib-common's rbac package calls
    ([api/v1beta1/openstackprovisionserver_types.go]), on the heap of [GoHeap]: they
    have value receivers, so they work on a copy of the struct that shares its arrays.
    And the registration of the kinds with the scheme: [groupversion_info.go] and the
    [init] functions. [condition.Conditions.Set] and the scheme builder are code outside
    the repository, the classes [ConditionsSet] and [SchemeLib]. *)

From S2P Require Import Prelude ApiTypes GoHeap DeepTypes Conditions.

#[local] Notation "p ⇢ f" := (at_field p f) (at level 9, f at level 9).

(** ** Value receivers *)

Class ConditionsSet := {
  (** [conditions.Set(c)] *)
  Conditions_Set : go_ptr (option header) → option (go_ptr Condition) → st go_heap unit;
}.

(** The conditions of a slice. *)
Definition conditions_read (h : go_heap) (s : option header) : Conditions :=
  match s with
  | None => None
  | Some s => window s <$> peek (cell_ptr (sh_array s)) h
  end.

(** [Set] writes to the variable it is called on, to the array of the list, to the
    condition it is given, and to cells it makes; an array keeps its size. The condition
    of a type that the list has is set where it is, among the others. *)
Class ConditionsSetLaws `{ConditionsSet} : Prop := {
  Set_frame : ∀ h q s c o h', peek q h = Some s → Conditions_Set q c h = (o, h') →
    ∀ l, l < length h → l ≠ p_loc q → (∀ s', s = Some s' → l ≠ sh_array s') →
      (∀ p, c = Some p → l ≠ p_loc p) → h' !! l = h !! l;
  Set_array : ∀ h q s (cs : list Condition) c o h', p_loc q ≠ sh_array s → peek q h = Some (Some s) → peek (cell_ptr (sh_array s)) h = Some cs →
    Conditions_Set q c h = (o, h') →
    ∃ cs', peek (cell_ptr (A := list Condition) (sh_array s)) h' = Some cs' ∧ length cs' = length cs;
  Set_present : ∀ h q s p c, p_loc q ≠ sh_array s → peek q h = Some (Some s) → peek p h = Some c →
    is_Some (cond_status (conditions_read h (Some s)) (cond_Type c)) →
    ∃ h', Conditions_Set q (Some p) h = (Ok tt, h') ∧
      ∀ t, cond_status (conditions_read h' (Some s)) t =
        if decide (t = cond_Type c) then Some (cond_Status c) else cond_status (conditions_read h (Some s)) t;
}.

(** [func (instance OpenStackProvisionServer) RbacConditionsSet(c *condition.Condition)]:
    the receiver is a variable of the call. *)
Definition RbacConditionsSet `{ConditionsSet} (instance : go_ptr (OpenStackProvisionServerF mem))
    (c : option (go_ptr Condition)) : st go_heap unit :=
  let! x := load instance in
  let! instance := alloc x in
  Conditions_Set (instance⇢f_provF_Status)⇢f_ptF_Conditions c.

(** ** Registration *)

(** [schema.GroupVersion] *)
Record GroupVersionT := mkGroupVersion { gv_Group : string; gv_Version : string }.

#[export] Instance GroupVersionT_eq_dec : EqDecision GroupVersionT.
Proof. solve_decision. Defined.

Class SchemeLib := {
  Builder : Type;
  Scheme : Type;
  (** [&scheme.Builder{GroupVersion: gv}] *)
  new_Builder : GroupVersionT → Builder;
  (** [Register], given the names of the Go types of its arguments *)
  Register : Builder → list string → Builder;
  Builder_AddToScheme : Builder → Scheme → Scheme;
  (** the Go type the scheme has for a kind *)
  known_type : Scheme → GroupVersionT → string → option string;
}.

(** The types registered with a builder are known under their own names in its group
    and version; nothing else changes. *)
Class SchemeLaws `{SchemeLib} : Prop := {
  added_new : ∀ gv s gv' k, known_type (Builder_AddToScheme (new_Builder gv) s) gv' k = known_type s gv' k;
  added_Register : ∀ gv regs ts s gv' k,
    known_type (Builder_AddToScheme (Register (foldl Register (new_Builder gv) regs) ts) s) gv' k =
    if decide (gv' = gv ∧ k ∈ ts) then Some k
    else known_type (Builder_AddToScheme (foldl Register (new_Builder gv) regs) s) gv' k;
}.

Definition GroupVersion : GroupVersionT := mkGroupVersion "baremetal.openstack.org" "v1beta1".

Section scheme.
Context `{SchemeLib}.

(** The [init] functions of the two files of types, run in the order of the files. *)
Definition init_openstackbaremetalset_types (b : Builder) : Builder :=
  Register b ["OpenStackBaremetalSet"; "OpenStackBaremetalSetList"].
Definition init_openstackprovisionserver_types (b : Builder) : Builder :=
  Register b ["OpenStackProvisionServer"; "OpenStackProvisionServerList"].

Definition SchemeBuilder : Builder :=
  init_openstackprovisionserver_types (init_openstackbaremetalset_types (new_Builder GroupVersion)).
Definition AddToScheme : Scheme → Scheme := Builder_AddToScheme SchemeBuilder.
End scheme.

(** ** Lemmas *)

Lemma peek_box {A} `{!Boxed cell A} l h (a : A) : peek (cell_ptr l) h = Some a → h !! l = Some (box a).
Proof. unfold peek. simpl. destruct (h !! l); [|done]. simpl. by intros ->%box_unbox. Qed.

(** What the call leaves of the cells the caller knows. *)
Lemma RbacConditionsSet_run `{ConditionsSet} h p x c : peek p h = Some x →
  RbacConditionsSet p c h =
    Conditions_Set ((cell_ptr (length h))⇢f_provF_Status)⇢f_ptF_Conditions c (h ++ [box x]).
Proof. intros Hp. unfold RbacConditionsSet. go_step (load_ok _ _ _ Hp). done. Qed.

Lemma conditions_read_app h news s cs : peek (cell_ptr (sh_array s)) h = Some cs →
  conditions_read (h ++ news) (Some s) = Some (window s cs).
Proof. intros Hcs. unfold conditions_read. by rewrite (peek_app _ _ news _ Hcs). Qed.

(** ** An executable instance: what is not there is appended to a new array *)

Definition has_type (t : string) (d : Condition) : bool := String.eqb (cond_Type d) t.
Definition set_type (c d : Condition) : Condition := if has_type (cond_Type c) d then c else d.

Definition mem_Set (q : go_ptr (option header)) (c : option (go_ptr Condition)) : st go_heap unit :=
  let! c := match c with Some c => load c | None => st_panic nil_dereference end in
  let! s := load q in
  match s with
  | None => let! a := alloc [c] in store q (Some (mkHeader (p_loc a) 0 1 1))
  | Some s =>
      let! cs := load (cell_ptr (sh_array s)) in
      if existsb (has_type (cond_Type c)) (window s cs) then
        store (cell_ptr (sh_array s))
          (take (sh_off s) cs ++ (set_type c <$> window s cs) ++ drop (sh_off s + length (window s cs)) cs)
      else
        let! a := alloc (window s cs ++ [c]) in
        store q (Some (mkHeader (p_loc a) 0 (S (sh_len s)) (S (sh_len s))))
  end.

#[export] Instance mem_conditions_set : ConditionsSet := {| Conditions_Set := mem_Set |}.

Lemma set_type_status c l t : is_Some (cond_status (Some l) (cond_Type c)) →
  cond_status (Some (set_type c <$> l)) t =
    if decide (t = cond_Type c) then Some (cond_Status c) else cond_status (Some l) t.
Proof.
  unfold cond_status, set_type, has_type. simpl. induction l as [|d l IH]; simpl; [by intros []|].
  destruct (String.eqb_spec (cond_Type d) (cond_Type c)) as [Hd|Hd].
  - intros _. clear IH. rewrite Hd. destruct (decide (t = cond_Type c)) as [->|Hne].
    + by rewrite String.eqb_refl.
    + destruct (String.eqb_spec (cond_Type c) t) as [|_]; [done|]. f_equal.
      induction l as [|e l IH]; simpl; [done|].
      destruct (String.eqb_spec (cond_Type e) (cond_Type c)) as [He|He]; [rewrite He|].
      * by destruct (String.eqb_spec (cond_Type c) t).
      * by destruct (String.eqb (cond_Type e) t).
  - intros Hs. destruct (String.eqb_spec (cond_Type d) t) as [Ht|Ht]; [|by apply IH].
    simpl. by rewrite decide_False by congruence.
Qed.

Lemma existsb_status t l : existsb (has_type t) l = bool_decide (is_Some (cond_status (Some l) t)).
Proof.
  unfold cond_status, has_type. simpl. induction l as [|d l IH]; simpl; [done|].
  by destruct (String.eqb (cond_Type d) t).
Qed.

Lemma mem_Set_load q h s (p : go_ptr Condition) c : peek q h = Some s → peek p h = Some c →
  mem_Set q (Some p) h =
    match s with
    | None => (let! a := alloc [c] in store q (Some (mkHeader (p_loc a) 0 1 1))) h
    | Some s => (let! cs := load (cell_ptr (sh_array s)) in
      if existsb (has_type (cond_Type c)) (window s cs) then
        store (cell_ptr (sh_array s))
          (take (sh_off s) cs ++ (set_type c <$> window s cs) ++ drop (sh_off s + length (window s cs)) cs)
      else
        let! a := alloc (window s cs ++ [c]) in
        store q (Some (mkHeader (p_loc a) 0 (S (sh_len s)) (S (sh_len s))))) h
    end.
Proof. intros Hq Hp. unfold mem_Set. go_step (load_ok _ _ _ Hp). go_step (load_ok _ _ _ Hq). by destruct s. Qed.

Lemma window_update {A} s (xs ws : list A) : length ws = length (window s xs) →
  window s (take (sh_off s) xs ++ ws ++ drop (sh_off s + length (window s xs)) xs) = ws ∧
  length (take (sh_off s) xs ++ ws ++ drop (sh_off s + length (window s xs)) xs) = length xs.
Proof.
  unfold window. rewrite length_take, length_drop. intros Hws. split.
  - destruct (decide (sh_off s ≤ length xs)) as [Hle|Hgt].
    + rewrite drop_app_ge, length_take by (rewrite length_take; lia).
      replace (sh_off s - sh_off s `min` length xs) with 0 by lia. rewrite drop_0.
      destruct (decide (length ws = sh_len s)) as [Heq|Hne]; [by apply take_app_length'|].
      rewrite drop_ge, app_nil_r by lia. apply take_ge. lia.
    + rewrite drop_ge by (rewrite !length_app, length_take, length_drop; lia). destruct ws; [by rewrite take_nil|].
      simpl in Hws. lia.
  - rewrite !length_app, length_take, length_drop. lia.
Qed.

(** How a run of [mem_Set] can end: in the heap it found, with the array rewritten, or
    with a new array. *)
Lemma mem_Set_cases q c h s o h' : peek q h = Some s → mem_Set q c h = (o, h') →
  h' = h ∨
  (∃ s' (cs ws : list Condition), s = Some s' ∧ peek (cell_ptr (sh_array s')) h = Some cs ∧ length ws = length (window s' cs) ∧
     h' = poke (cell_ptr (sh_array s'))
       (take (sh_off s') cs ++ ws ++ drop (sh_off s' + length (window s' cs)) cs) h) ∨
  ∃ t a, h' = poke q t (h ++ [box (A := list Condition) a]).
Proof.
  intros Hq. destruct c as [p|]; [|intros [= _ <-]; by left].
  destruct (peek p h) as [c|] eqn:Hp; [|unfold mem_Set, st_bind, load; rewrite Hp; intros [= _ <-]; by left].
  rewrite (mem_Set_load q h s p c Hq Hp). destruct s as [s|].
  - destruct (peek (cell_ptr (A := list Condition) (sh_array s)) h) as [cs|] eqn:Hcs;
      [|unfold st_bind, load; rewrite Hcs; intros [= _ <-]; by left].
    go_step (load_ok _ _ _ Hcs). destruct (existsb _ _).
    + rewrite (store_ok _ _ _ _ Hcs). intros [= _ <-]. right; left. exists s, cs, (set_type c <$> window s cs).
      by rewrite length_fmap.
    + cbn [st_bind alloc]. unfold st_bind, alloc. rewrite (store_ok _ _ _ _ (peek_app _ _ _ _ Hq)). intros [= _ <-].
      right; right. by eexists _, _.
  - unfold st_bind, alloc. rewrite (store_ok _ _ _ _ (peek_app _ _ _ _ Hq)). intros [= _ <-]. right; right. by eexists _, _.
Qed.

#[export] Instance mem_conditions_set_laws : ConditionsSetLaws.
Proof.
  split.
  - intros h q s c o h' Hq Hrun l Hl Hne Harr _.
    destruct (mem_Set_cases _ _ _ _ _ _ Hq Hrun) as [->|[(s' & cs & ws & -> & _ & _ & ->)|(t & a & ->)]]; [done| |].
    + apply lookup_poke_ne. by apply Harr.
    + rewrite lookup_poke_ne by done. by apply lookup_app_l.
  - intros h q s cs c o h' Hqs Hq Hcs Hrun.
    destruct (mem_Set_cases _ _ _ _ _ _ Hq Hrun) as [->|[(s' & cs' & ws & [= <-] & Hcs' & Hws & ->)|(t & a & ->)]].
    + by exists cs.
    + simplify_eq. eexists. split; [eapply (peek_poke _); exact Hcs|]. by apply window_update.
    + exists cs. split; [|done]. rewrite peek_poke_ne by done. by apply peek_app.
  - intros h q s p c Hqs Hq Hp Hin. simpl. rewrite (mem_Set_load q h _ p c Hq Hp).
    unfold conditions_read in Hin |- *.
    destruct (peek (cell_ptr (A := list Condition) (sh_array s)) h) as [cs|] eqn:Hcs; [|by destruct Hin].
    go_step (load_ok _ _ _ Hcs). simpl in Hin. rewrite existsb_status, bool_decide_true by done.
    rewrite (store_ok _ _ _ _ Hcs). eexists. split; [reflexivity|]. intros t. rewrite (peek_poke (cell_ptr (sh_array s)) h _ cs Hcs). simpl.
    destruct (window_update s cs (set_type c <$> window s cs)) as [-> _]; [by rewrite length_fmap|].
    by apply set_type_status.
Qed.

(** ** Properties *)

(** C36: [RbacConditionsSet] has a value receiver. A condition of a type the instance has
    is updated where the instance sees it, and no other changes; but the struct of the
    instance stays as it is, so it never has more conditions than before: a condition of
    a new type, which [Set] adds to the copy, is lost. *)
Theorem RbacConditionsSet_receiver `{ConditionsSetLaws} h l p (x : OpenStackProvisionServerF mem) s (cs : list Condition) (c : Condition) :
  peek (cell_ptr l) h = Some x → ptF_Conditions (provF_Status x) = Some s →
  peek (cell_ptr (sh_array s)) h = Some cs → sh_off s + sh_len s ≤ length cs → peek (cell_ptr p) h = Some c →
  let r := RbacConditionsSet (cell_ptr l) (Some (cell_ptr p)) h in
  peek (cell_ptr l) r.2 = Some x ∧
  length (default [] (conditions_read r.2 (Some s))) = length (default [] (conditions_read h (Some s))) ∧
  (is_Some (cond_status (conditions_read h (Some s)) (cond_Type c)) →
   r.1 = Ok tt ∧ ∀ t, cond_status (conditions_read r.2 (Some s)) t =
     if decide (t = cond_Type c) then Some (cond_Status c) else cond_status (conditions_read h (Some s)) t).
Proof.
  intros Hx Hs Hcs Hlen Hc r. pose proof (peek_lt _ _ _ Hx) as Hl. pose proof (peek_lt _ _ _ Hcs) as Ha.
  pose proof (peek_box _ _ _ Hx) as Hbx. pose proof (peek_box _ _ _ Hcs) as Hba. pose proof (peek_box _ _ _ Hc) as Hbc.
  assert (Hla : l ≠ sh_array s) by (intros ->; simplify_eq).
  assert (Hlp : l ≠ p) by (intros ->; simplify_eq).
  subst r. rewrite (RbacConditionsSet_run _ _ _ _ Hx). set (q := (_⇢_)⇢_). simpl in Hl, Ha.
  assert (Hq : peek q (h ++ [box x]) = Some (Some s)).
  { rewrite <-Hs. apply (peek_field _ f_ptF_Conditions), (peek_field _ f_provF_Status), peek_cell. }
  assert (Hqs : p_loc q ≠ sh_array s) by (simpl; lia).
  destruct (Conditions_Set q _ _) as [o h'] eqn:Hrun. cbn [fst snd].
  destruct (Set_array _ _ _ _ _ _ _ Hqs Hq (peek_app _ _ [box x] _ Hcs) Hrun) as (cs' & Hcs' & Hlen').
  split_and!.
  - eapply peek_same; [exact Hx|]. intros b Hb. cbn [p_loc cell_ptr] in *.
    rewrite (Set_frame _ _ _ _ _ _ Hq Hrun); [by apply lookup_app_l_Some|rewrite length_app; lia|simpl; lia| |].
    + by intros s' [= <-].
    + by intros p' [= <-].
  - unfold conditions_read. rewrite Hcs, Hcs'. simpl. rewrite !window_length; lia.
  - intros Hin. pose proof (conditions_read_app h [box x] s cs Hcs) as Hread.
    assert (Hsame : conditions_read h (Some s) = conditions_read (h ++ [box x]) (Some s))
      by (rewrite Hread; unfold conditions_read; by rewrite Hcs).
    rewrite Hsame in Hin |- *. destruct (Set_present _ q s _ c Hqs Hq (peek_app _ _ [box x] _ Hc) Hin) as (h2 & Hrun2 & Ht).
    rewrite Hrun in Hrun2. by simplify_eq.
Qed.

(** An instance with one condition, [RoleReady], and two conditions to set. *)
Definition rbac_heap : go_heap :=
  [CConditions [mkCondition "RoleReady" ConditionUnknown "" 0 "" ""];
   CCondition (mkCondition "RoleReady" ConditionTrue "" 0 "" "");
   CCondition (mkCondition "RoleBindingReady" ConditionTrue "" 0 "" "");
   COpenStackProvisionServer (mkOpenStackProvisionServerF (R := mem) (mkTypeMeta "" "") zero zero
     (mkOpenStackProvisionServerStatusF (R := mem) 0 (Some (mkHeader 0 0 1 1)) None "" "" "" "" "" ""))].

(** The first is seen by the caller, the second is not. *)
Lemma RbacConditionsSet_receiver_witness :
  let set p := (RbacConditionsSet (cell_ptr 3) (Some (cell_ptr p)) rbac_heap).2 in
  let status p := cond_status (conditions_read (set p) (Some (mkHeader 0 0 1 1))) in
  (status 1 "RoleReady" = Some ConditionTrue ∧ status 2 "RoleBindingReady" = None) ∧
  length (default [] (conditions_read (set 2) (Some (mkHeader 0 0 1 1)))) = 1.
Proof.
  intros set status. split; [split; [|by vm_compute]|].
  - by apply (RbacConditionsSet_receiver rbac_heap 3 1 _ (mkHeader 0 0 1 1) _ _ eq_refl eq_refl eq_refl (le_n 1) eq_refl).
  - by apply (RbacConditionsSet_receiver rbac_heap 3 2 _ (mkHeader 0 0 1 1) _ _ eq_refl eq_refl eq_refl (le_n 1) eq_refl).
Defined.

(** The operator's scheme knows the four kinds, in the group and version of the API and
    in no other, and keeps what it knew. *)
Theorem AddToScheme_kinds `{SchemeLaws} s gv k :
  known_type (AddToScheme s) gv k =
    if decide (gv = GroupVersion ∧
      k ∈ ["OpenStackBaremetalSet"; "OpenStackBaremetalSetList"; "OpenStackProvisionServer"; "OpenStackProvisionServerList"])
    then Some k else known_type s gv k.
Proof.
  unfold AddToScheme, SchemeBuilder, init_openstackprovisionserver_types, init_openstackbaremetalset_types.
  pose proof (added_Register GroupVersion [["OpenStackBaremetalSet"; "OpenStackBaremetalSetList"]]
    ["OpenStackProvisionServer"; "OpenStackProvisionServerList"] s gv k) as Hps.
  pose proof (added_Register GroupVersion [] ["OpenStackBaremetalSet"; "OpenStackBaremetalSetList"] s gv k) as Hset.
  cbn [foldl] in Hset, Hps. rewrite Hps, Hset, added_new. repeat case_decide; try done; set_solver.
Qed.

(** A builder that keeps a list, and a scheme that is a map. *)
Definition mem_scheme : SchemeLib := {|
  Builder := GroupVersionT * list string;
  Scheme := list (GroupVersionT * string);
  new_Builder gv := (gv, []);
  Register b ts := (b.1, ts ++ b.2);
  Builder_AddToScheme b s := (pair b.1 <$> b.2) ++ s;
  known_type s gv k := if decide ((gv, k) ∈ s) then Some k else None;
|}.

Lemma mem_scheme_laws : SchemeLaws (H := mem_scheme).
Proof.
  split; simpl; [done|]. intros gv regs ts s gv' k.
  assert (Hgv : (foldl (Register (SchemeLib := mem_scheme)) (gv, []) regs).1 = gv).
  { generalize (@nil string). induction regs as [|r regs IH]; intros l; simpl; [done|apply IH]. }
  simpl in *. destruct (foldl _ _ regs) as [gv0 ks]. simpl in *. subst gv0.
  rewrite fmap_app, <-app_assoc. repeat case_decide; try done; set_solver.
Qed.

Lemma AddToScheme_kinds_witness :
  known_type (SchemeLib := mem_scheme) (AddToScheme (H := mem_scheme) []) GroupVersion "OpenStackBaremetalSet" =
    Some "OpenStackBaremetalSet" ∧
  known_type (SchemeLib := mem_scheme) (AddToScheme (H := mem_scheme) []) GroupVersion "BareMetalHost" = None.
Proof.
  pose proof mem_scheme_laws. split; rewrite (AddToScheme_kinds (H := mem_scheme)); [|done].
  rewrite decide_True; [done|]. split; [done|by left].
Defined.
