(* ===== verification/Reconciler.v ===== *)
(** * What the two reconcilers share

    A reconciliation threads the cluster and the object it holds in memory: what
    it changes in the object before it fails is there when the deferred function
    patches it. [StatusObject] is the interface of an object whose status has
    conditions; the idioms both controllers write out (set a condition and return
    the error, return early when a result is not empty, restore and mirror the
    conditions before the patch) are defined and proved once, against it. *)

From S2P Require Import Prelude ApiTypes Conditions.

Class StatusObject (I : Type) := {
  obj_conditions : I → Conditions;
  obj_with_conditions : Conditions → I → I;
}.

Class StatusObjectLaws (I : Type) `{StatusObject I} : Prop := {
  obj_conditions_with : ∀ c i, obj_conditions (obj_with_conditions c i) = c;
}.

#[export] Instance set_status_object : StatusObject OpenStackBaremetalSet := {
  obj_conditions i := bst_Conditions (set_Status i);
  obj_with_conditions := set_with_Conditions;
}.

Definition ps_with_Conditions (c : Conditions) (p : OpenStackProvisionServer) : OpenStackProvisionServer :=
  let s := ps_Status p in
  ps_with_Status (mkProvStatus (pst_ReadyCount s) c (pst_Hash s) (pst_ProvisionIP s)
    (pst_ProvisionIPError s) (pst_LocalImageURL s) (pst_OSImageChecksumFilename s)
    (pst_OSImageChecksumType s) (pst_LocalImageChecksumURL s)) p.

#[export] Instance prov_status_object : StatusObject OpenStackProvisionServer := {
  obj_conditions p := pst_Conditions (ps_Status p);
  obj_with_conditions := ps_with_Conditions;
}.

#[export] Instance set_status_laws : StatusObjectLaws OpenStackBaremetalSet.
Proof. done. Qed.
#[export] Instance prov_status_laws : StatusObjectLaws OpenStackProvisionServer.
Proof. done. Qed.

(** [IsReady] of the two kinds. *)
Definition set_IsReady `{ConditionLib} (instance : OpenStackBaremetalSet) : bool :=
  cond_IsTrue (bst_Conditions (set_Status instance)) ReadyCondition.
Definition ps_IsReady `{ConditionLib} (instance : OpenStackProvisionServer) : bool :=
  cond_IsTrue (pst_Conditions (ps_Status instance)) ReadyCondition.

(** ** The idioms of the code *)

Section idioms.
Context {W I : Type}.

Definition on_cluster {A} (c : st W A) : st (W * I) A := st_zoom fst (λ w s, (w, s.2)) c.
Definition get_instance : st (W * I) I := st_gets snd.
Definition put_instance (i : I) : st (W * I) unit := st_modify (λ s, (s.1, i)).
(** A call that changes the instance when it succeeds. *)
Definition on_instance (c : I → st W I) : st (W * I) unit :=
  let! i := get_instance in
  let! i' := on_cluster (c i) in
  put_instance i'.

(** [if err != nil {...} else if (ctrlResult != ctrl.Result{}) { return ctrlResult, nil }] *)
Definition unless_requeued (c k : st (W * I) Result) : st (W * I) Result :=
  let! ctrlResult := c in
  if decide (ctrlResult = Result_zero) then k else st_ret ctrlResult.

Context `{StatusObject I} `{ConditionLib}.

Definition upd_conditions (f : Conditions → Conditions) : st (W * I) unit :=
  st_modify (λ s, (s.1, obj_with_conditions (f (obj_conditions s.2)) s.2)).
Definition set_condition (c : Condition) : st (W * I) unit := upd_conditions (λ cs, cond_Set cs c).
Definition mark_true (t format : string) : st (W * I) unit := upd_conditions (λ cs, cond_MarkTrue cs t format).

(** The conditions of a failure, of a missing input, and of work in progress. *)
Definition error_condition (t format : string) (err : error) : Condition :=
  FalseCondition t (cond_const "ErrorReason") (cond_const "SeverityWarning") format [err_text err].
Definition warning_condition (t format : string) : Condition :=
  FalseCondition t (cond_const "ErrorReason") (cond_const "SeverityWarning") format [].
Definition running_condition (t format : string) : Condition :=
  FalseCondition t (cond_const "RequestedReason") (cond_const "SeverityInfo") format [].

(** [if err != nil { Conditions.Set(FalseCondition(...)); return ctrl.Result{}, err }] *)
Definition or_fail {A} (t format : string) (c : st (W * I) A) : st (W * I) A :=
  st_catch c (λ err, do! set_condition (error_condition t format err) then st_err err).

(** What the deferred function does to the conditions before the patch. *)
Definition finish_conditions (savedConditions cs : Conditions) : Conditions :=
  let cs := RestoreLastTransitionTimes cs savedConditions in
  if cond_IsUnknown cs ReadyCondition then cond_Set cs (cond_Mirror cs ReadyCondition) else cs.

(** The status of a condition of the object. *)
Definition inst_status (i : I) (t : string) : option ConditionStatus := cond_status (obj_conditions i) t.

End idioms.

(** ** Lemmas *)

Section calls.
Context {W I : Type}.

(** Calls on the cluster leave the instance alone. *)
Lemma triple_on_cluster {A} (P : I → Prop) (c : st W A) Q :
  (∀ o w i, P i → Q o (w, i)) → triple (λ s : W * I, P s.2) (on_cluster c) Q.
Proof.
  intros HQ [w i] Hi. unfold on_cluster, st_zoom. simpl. destruct (c w) as [o w']. by apply HQ.
Qed.

Lemma on_instance_run (c : I → st W I) w i :
  on_instance c (w, i) =
    match c i w with
    | (Ok i', w') => (Ok tt, (w', i'))
    | (Err e, w') => (Err e, (w', i))
    | (Panic m, w') => (Panic m, (w', i))
    end.
Proof.
  unfold on_instance, on_cluster, get_instance, put_instance, st_bind, st_zoom, st_gets. simpl.
  by destruct (c i w) as [[]].
Qed.

(** Calls on the instance change it only when they succeed. *)
Lemma triple_on_instance (P : I → Prop) (c : I → st W I) :
  (∀ i i' w w', P i → c i w = (Ok i', w') → P i') →
  triple (λ s : W * I, P s.2) (on_instance c) (λ _ s, P s.2).
Proof.
  intros HP [w i] Hi. rewrite on_instance_run. simpl in *.
  destruct (c i w) as [[i'| |] w'] eqn:Hr; simpl; [|done..]. by eapply HP.
Qed.

End calls.

Section conditions.
Context {W I : Type} `{Ho : StatusObject I} `{Hol : !StatusObjectLaws I}.
Context `{Hcl : ConditionLib} `{Hcw : !ConditionLaws}.

(** The conditions the reconcilers set on their early returns. *)
Lemma early_conditions t format err :
  cond_Status (error_condition t format err) = ConditionFalse ∧
  cond_Status (warning_condition t format) = ConditionFalse ∧
  cond_Status (running_condition t format) = ConditionFalse ∧
  cond_Type (error_condition t format err) = t ∧ cond_Type (warning_condition t format) = t ∧
  cond_Type (running_condition t format) = t.
Proof.
  unfold error_condition, warning_condition, running_condition.
  split_and!; by apply FalseCondition_spec.
Qed.

(** What each update does to the status of each condition. *)
Lemma set_condition_status (c : Condition) (w : W) (i : I) :
  ∃ i', set_condition c (w, i) = (Ok tt, (w, i')) ∧
    (∃ cs, i' = obj_with_conditions cs i) ∧
    ∀ t, inst_status i' t = if decide (t = cond_Type c) then Some (cond_Status c) else inst_status i t.
Proof.
  eexists. split; [reflexivity|]. split; [by eexists|]. intros t. unfold inst_status. simpl.
  rewrite obj_conditions_with. apply cond_Set_spec.
Qed.

Lemma mark_true_status t format (w : W) (i : I) :
  ∃ i', mark_true t format (w, i) = (Ok tt, (w, i')) ∧
    (∃ cs, i' = obj_with_conditions cs i) ∧
    ∀ t', inst_status i' t' = if decide (t' = t) then Some ConditionTrue else inst_status i t'.
Proof.
  eexists. split; [reflexivity|]. split; [by eexists|]. intros t'. unfold inst_status. simpl.
  rewrite obj_conditions_with. apply cond_MarkTrue_spec.
Qed.

(** When no condition but Ready is other than true, those that are there are true. *)
Lemma all_true (types : list string) cs :
  ReadyCondition ∉ types → Forall (λ t, is_Some (cond_status cs t)) types →
  (∀ t s, t ≠ ReadyCondition → cond_status cs t = Some s → s = ConditionTrue) →
  Forall (λ t, cond_status cs t = Some ConditionTrue) types.
Proof.
  rewrite !Forall_forall. intros Hn Hs Ha t Ht. destruct (Hs t Ht) as [s Hts]. rewrite Hts. f_equal.
  eapply Ha, Hts. by intros ->.
Qed.

(** Ready in what is patched means that every other condition is true: either the
    reconciler found it so, or the mirrored condition does. *)
Lemma finish_ready (types : list string) saved cs :
  ReadyCondition ∉ types → Forall (λ t, is_Some (cond_status cs t)) types →
  cond_status cs ReadyCondition = Some ConditionUnknown ∨
    cond_status cs ReadyCondition = Some ConditionTrue ∧ Forall (λ t, cond_status cs t = Some ConditionTrue) types →
  cond_status (finish_conditions saved cs) ReadyCondition = Some ConditionTrue →
  Forall (λ t, cond_status cs t = Some ConditionTrue) types ∧
  Forall (λ t, cond_status (finish_conditions saved cs) t = Some ConditionTrue) types.
Proof.
  intros Hn Hs Hr. unfold finish_conditions.
  pose proof (λ t, RestoreLastTransitionTimes_spec cs saved t) as Hcs.
  set (cs' := RestoreLastTransitionTimes cs saved) in *.
  assert (Hsub : Forall (λ t, is_Some (cond_status cs' t)) types).
  { eapply Forall_impl; [exact Hs|]. intros t. by rewrite Hcs. }
  assert (Hback : Forall (λ t, cond_status cs' t = Some ConditionTrue) types →
    Forall (λ t, cond_status cs t = Some ConditionTrue) types).
  { intros Hf. eapply Forall_impl; [exact Hf|]. intros t. simpl. by rewrite Hcs. }
  destruct (cond_Mirror_spec cs') as [Hmt Hm]. destruct Hr as [Hr|[Hr Ht]].
  - rewrite (proj2 (cond_IsUnknown_spec cs' _ _ (eq_trans (Hcs _) Hr)) eq_refl).
    rewrite cond_Set_spec, Hmt, decide_True by done. intros [= Htrue].
    pose proof (all_true types cs' Hn Hsub (Hm Htrue)) as Hall. split; [by apply Hback|].
    rewrite Forall_forall in *. intros t Hin. rewrite cond_Set_spec, Hmt, decide_False; [by apply Hall|].
    by intros ->.
  - rewrite (not_true_is_false (cond_IsUnknown cs' ReadyCondition)).
    + intros _. split; [done|]. eapply Forall_impl; [exact Ht|]. intros t. by rewrite Hcs.
    + by rewrite (cond_IsUnknown_spec cs' _ _ (eq_trans (Hcs _) Hr)).
Qed.

End conditions.
