(* ===== verification/Matching.v ===== *)
(** * Assigning compute hosts to BareMetalHosts

    [findValidBaremetalSetInstanceLabelAssignments] and [IsMapSubset] of
    [api/v1beta1/openstackbaremetalset.go]: the backtracking search that gives
    every requested compute host a BareMetalHost of its own whose labels contain
    the labels the compute asks for.

    The search keeps its two Go maps, [assignment] and [assignedBMHs], in a state
    that each branch updates and undoes. The slice [computeArray] is walked by
    index in Go; here [backtrack] takes the part of the slice from [index] on, so
    [index == len(computes)] is the empty list. *)

From S2P Require Import Prelude ApiTypes Samples.

(** ** The code *)

(** [sort.Slice(l, less)] sorts [l] so that [less] holds of no later element and
    an earlier one: the order of elements that [less] does not separate is
    unspecified in Go; the slice it is applied to below is built in the arbitrary
    order of a map, so a stable sort reaches every outcome. *)
Definition not_after {A} (less : A → A → bool) (a b : A) : Prop := less b a = false.

#[export] Instance not_after_dec {A} (less : A → A → bool) : RelDecision (not_after less).
Proof. intros a b. unfold not_after. apply _. Defined.

Definition sort_Slice {A} (less : A → A → bool) (l : list A) : list A :=
  merge_sort (not_after less) l.

(** [IsMapSubset(m, sub)] *)
Definition IsMapSubset `{MapOrder} {K V} `{Countable K} `{EqDecision V}
    (m : gmap K V) (sub : option (gmap K V)) : bool :=
  match sub with
  | None => true
  | Some sub =>
      if bool_decide (size m < size sub) then false
      else forallb (λ '(k, vsub),
             match m !! k with
             | Some vm => bool_decide (vm = vsub)
             | None => false
             end) (range 0 sub)
  end.

(** The maps [assignment] and [assignedBMHs]. *)
Record bt_state := mkBt {
  assignment : gmap string BareMetalHost;
  assignedBMHs : gmap string bool;
}.

(** [assignedBMHs[name]]: false for a name that is not in the map. *)
Definition isAssigned (s : bt_state) (name : string) : bool :=
  default false (assignedBMHs s !! name).

(** [assignment[comp] = bmh; assignedBMHs[bmh.Name] = true] *)
Definition bt_assign (comp : string) (bmh : BareMetalHost) (s : bt_state) : bt_state :=
  mkBt (<[comp := bmh]> (assignment s)) (<[bmh_Name bmh := true]> (assignedBMHs s)).

(** [delete(assignment, comp); assignedBMHs[bmh.Name] = false] *)
Definition bt_undo (comp : string) (bmh : BareMetalHost) (s : bt_state) : bt_state :=
  mkBt (delete comp (assignment s)) (<[bmh_Name bmh := false]> (assignedBMHs s)).

(** The loop [for _, bmh := range computesToBmhs[comp]] of [backtrack], with the
    recursive call [backtrack(index + 1)] as [rec]. *)
Fixpoint bt_loop (rec : bt_state → bool * bt_state) (comp : string)
    (cands : list BareMetalHost) (s : bt_state) : bool * bt_state :=
  match cands with
  | [] => (false, s)
  | bmh :: cands' =>
      if isAssigned s (bmh_Name bmh) then bt_loop rec comp cands' s
      else
        let '(done, s') := rec (bt_assign comp bmh s) in
        if done then (true, s')
        else bt_loop rec comp cands' (bt_undo comp bmh s')
  end.

Fixpoint backtrack (computesToBmhs : gmap string (list BareMetalHost)) (rest : list string)
    (s : bt_state) : bool * bt_state :=
  match rest with
  | [] => (true, s)
  | comp :: rest' =>
      bt_loop (backtrack computesToBmhs rest') comp
        (default [] (computesToBmhs !! comp)) s
  end.

(** The map of the candidate BareMetalHosts of each compute. *)
Definition computesToBmhs_of `{MapOrder} (computes : gmap string InstanceSpec)
    (bmhs : list BareMetalHost) : gmap string (list BareMetalHost) :=
  foldl (λ acc '(compName, comp),
    foldl (λ acc bmh,
      if IsMapSubset (bmh_Labels bmh) (is_BmhLabelSelector comp)
      then <[compName := default [] (acc !! compName) ++ [bmh]]> acc
      else acc) acc bmhs) ∅ (range 1 computes).

Definition findValidBaremetalSetInstanceLabelAssignments `{MapOrder}
    (computes : gmap string InstanceSpec) (bmhs : list BareMetalHost) :
    option (gmap string BareMetalHost) :=
  let computesToBmhs := computesToBmhs_of computes bmhs in
  let computeArray := sort_Slice
    (λ a b, Nat.ltb (length (default [] (computesToBmhs !! a)))
                    (length (default [] (computesToBmhs !! b))))
    (range 2 computes).*1 in
  let '(found, s) := backtrack computesToBmhs computeArray (mkBt ∅ ∅) in
  if found then Some (assignment s) else None.

(** ** What the search promises *)

(** An assignment of computes to BareMetalHosts that satisfies every compute. *)
Record valid_assignment `{MapOrder} (computes : gmap string InstanceSpec)
    (bmhs : list BareMetalHost) (a : gmap string BareMetalHost) : Prop := {
  va_all : dom a = dom computes;
  va_cand : ∀ c comp bmh, computes !! c = Some comp → a !! c = Some bmh →
    bmh ∈ bmhs ∧ IsMapSubset (bmh_Labels bmh) (is_BmhLabelSelector comp) = true;
  va_inj : ∀ c1 c2 b1 b2, a !! c1 = Some b1 → a !! c2 = Some b2 →
    bmh_Name b1 = bmh_Name b2 → c1 = c2;
}.

Section matching.
Context `{Hord : MapOrder}.

(** *** IsMapSubset *)

Lemma IsMapSubset_Some {K V} `{Countable K} `{EqDecision V} (m sub : gmap K V) :
  IsMapSubset m (Some sub) = true ↔ sub ⊆ m.
Proof.
  unfold IsMapSubset. case_bool_decide as Hlen.
  - split; [done|]. intros Hsub%map_subseteq_size. lia.
  - rewrite forallb_range, map_subseteq_spec. unfold map_Forall. split.
    + intros Hm k v Hk. specialize (Hm k v Hk). simpl in Hm.
      destruct (m !! k); [|done]. by apply bool_decide_eq_true in Hm as ->.
    + intros Hm k v Hk. simpl. rewrite (Hm k v Hk). by apply bool_decide_eq_true.
Qed.

(** *** The candidate map *)

(** The inner loop appends the matching hosts under the compute's name. *)
Definition add_cands (k : string) (l : list BareMetalHost)
    (acc : gmap string (list BareMetalHost)) : gmap string (list BareMetalHost) :=
  if decide (l = []) then acc else <[k := default [] (acc !! k) ++ l]> acc.

Definition matching_bmhs (sel : option (gmap string string)) (bmhs : list BareMetalHost) :=
  filter (λ b, IsMapSubset (bmh_Labels b) sel = true) bmhs.

Lemma candidates_inner comp sel bmhs (acc : gmap string (list BareMetalHost)) :
  foldl (λ acc bmh,
    if IsMapSubset (bmh_Labels bmh) sel
    then <[comp := default [] (acc !! comp) ++ [bmh]]> acc else acc) acc bmhs
  = add_cands comp (matching_bmhs sel bmhs) acc.
Proof.
  revert acc. induction bmhs as [|b bmhs IH]; intros acc; simpl; [done|].
  rewrite IH. unfold matching_bmhs, add_cands. rewrite filter_cons.
  destruct (IsMapSubset (bmh_Labels b) sel) eqn:Hb; [|done].
  destruct (filter _ bmhs) as [|b' l]; simpl; [done|].
  by rewrite lookup_insert_eq, insert_insert_eq; simpl; rewrite <-app_assoc.
Qed.

Lemma add_cands_eq k l acc : acc !! k = None → default [] (add_cands k l acc !! k) = l.
Proof.
  intros Hk. unfold add_cands. case_decide as Hl; [by rewrite Hk, Hl|].
  by rewrite lookup_insert_eq, Hk.
Qed.

Lemma add_cands_ne k k' l acc : k ≠ k' → add_cands k l acc !! k' = acc !! k'.
Proof. intros. unfold add_cands. case_decide; [done|]. by rewrite lookup_insert_ne. Qed.

Lemma candidates_outer bmhs (l : list (string * InstanceSpec))
    (acc : gmap string (list BareMetalHost)) c :
  NoDup l.*1 → (∀ k, k ∈ l.*1 → acc !! k = None) →
  default [] (foldl (λ acc '(compName, comp),
      foldl (λ acc bmh,
        if IsMapSubset (bmh_Labels bmh) (is_BmhLabelSelector comp)
        then <[compName := default [] (acc !! compName) ++ [bmh]]> acc
        else acc) acc bmhs) acc l !! c) =
    match (list_to_map l : gmap string InstanceSpec) !! c with
    | Some comp => matching_bmhs (is_BmhLabelSelector comp) bmhs
    | None => default [] (acc !! c)
    end.
Proof.
  revert acc. induction l as [|[k comp] l IH]; intros acc Hnd Hfresh; simpl; [done|].
  apply NoDup_cons in Hnd as [Hk Hnd]. rewrite candidates_inner, IH; [|done|].
  - destruct (decide (c = k)) as [->|].
    + rewrite lookup_insert_eq, (not_elem_of_list_to_map_1 l k) by done.
      apply add_cands_eq, Hfresh. set_solver.
    + by rewrite lookup_insert_ne, add_cands_ne by done.
  - intros k' Hk'. rewrite add_cands_ne by set_solver. apply Hfresh. set_solver.
Qed.

Lemma computesToBmhs_lookup computes bmhs c :
  default [] (computesToBmhs_of computes bmhs !! c) =
    match computes !! c with
    | Some comp => matching_bmhs (is_BmhLabelSelector comp) bmhs
    | None => []
    end.
Proof.
  unfold computesToBmhs_of. rewrite candidates_outer; [|auto with go|done].
  rewrite lookup_empty; simpl.
  enough (list_to_map (range 1 computes) = computes) as -> by done.
  rewrite <-(list_to_map_to_list computes) at 2.
  apply list_to_map_proper; [auto with go|apply range_perm].
Qed.

(** *** The search *)

Context (c2b : gmap string (list BareMetalHost)).

Abbreviation cands c := (default [] (c2b !! c)).

(** [s'] extends [s] by an assignment of the computes of [l] to hosts that were
    free in [s], all different. *)
Record bt_extends (l : list string) (s s' : bt_state) : Prop := {
  ext_other : ∀ c, c ∉ l → assignment s' !! c = assignment s !! c;
  ext_new : ∀ c, c ∈ l → ∃ b, assignment s' !! c = Some b ∧ b ∈ cands c ∧
    isAssigned s (bmh_Name b) = false;
  ext_inj : ∀ c1 c2 b1 b2, c1 ∈ l → c2 ∈ l → assignment s' !! c1 = Some b1 →
    assignment s' !! c2 = Some b2 → bmh_Name b1 = bmh_Name b2 → c1 = c2;
}.

(** A failed search leaves the state as it found it. *)
Record bt_restored (l : list string) (s s' : bt_state) : Prop := {
  rst_assignment : ∀ c, c ∉ l → assignment s' !! c = assignment s !! c;
  rst_cleared : ∀ c, c ∈ l → assignment s' !! c = None ∨ assignment s' !! c = assignment s !! c;
  rst_assigned : ∀ n, isAssigned s' n = isAssigned s n;
}.

Lemma isAssigned_assign comp b s n :
  isAssigned (bt_assign comp b s) n = bool_decide (bmh_Name b = n) || isAssigned s n.
Proof.
  unfold isAssigned; simpl. rewrite lookup_insert.
  case_decide; [by rewrite bool_decide_eq_true_2|by rewrite bool_decide_eq_false_2].
Qed.

Lemma isAssigned_undo comp b s n :
  isAssigned (bt_undo comp b s) n = negb (bool_decide (bmh_Name b = n)) && isAssigned s n.
Proof.
  unfold isAssigned; simpl. rewrite lookup_insert.
  case_decide; [by rewrite bool_decide_eq_true_2|by rewrite bool_decide_eq_false_2].
Qed.

Lemma bt_loop_restored rec comp l cs s s' :
  comp ∉ l →
  (∀ s1 s2, rec s1 = (false, s2) → bt_restored l s1 s2) →
  bt_loop rec comp cs s = (false, s') → bt_restored (comp :: l) s s'.
Proof.
  intros Hcomp Hrec. revert s. induction cs as [|b cs IH]; intros s; simpl.
  { intros [= ->]. constructor; eauto. }
  destruct (isAssigned s (bmh_Name b)) eqn:Hb; [apply IH|].
  destruct (rec (bt_assign comp b s)) as [[] s2] eqn:Hr; [done|]. intros Hloop.
  apply Hrec in Hr as [Ho Hc Ha]. apply IH in Hloop as [Ho' Hc' Ha'].
  constructor.
  - intros c Hc1. rewrite Ho' by done. simpl. apply not_elem_of_cons in Hc1 as [??].
    rewrite lookup_delete_ne by done. rewrite Ho by done. by apply lookup_insert_ne.
  - intros c Hin. destruct (Hc' c Hin) as [?| ->]; [by left|]. simpl.
    destruct (decide (c = comp)) as [->|]; [left; apply lookup_delete_eq|].
    rewrite lookup_delete_ne by done. apply elem_of_cons in Hin as [?|Hin]; [done|].
    destruct (Hc c Hin) as [?| ->]; [by left|]. right. by apply lookup_insert_ne.
  - intros n. rewrite Ha', isAssigned_undo, Ha, isAssigned_assign.
    case_bool_decide as Hn; simpl; [|done]. by subst n.
Qed.

(** A failed search restores the set of taken hosts and the assignments made
    before it. *)
Lemma backtrack_restored l s s' :
  NoDup l → backtrack c2b l s = (false, s') → bt_restored l s s'.
Proof.
  revert s s'. induction l as [|comp l IH]; intros s s' Hnd; simpl; [done|].
  apply NoDup_cons in Hnd as [??]. intros Hloop.
  apply (bt_loop_restored _ _ _ _ _ _ ltac:(done) (λ s1 s2, IH s1 s2 ltac:(done)) Hloop).
Qed.

Lemma bt_loop_extends rec comp l cs s s' :
  comp ∉ l → NoDup l → (∀ b, b ∈ cs → b ∈ cands comp) →
  (∀ s1 s2, rec s1 = (false, s2) → bt_restored l s1 s2) →
  (∀ s1 s2, rec s1 = (true, s2) → bt_extends l s1 s2) →
  bt_loop rec comp cs s = (true, s') → bt_extends (comp :: l) s s'.
Proof.
  intros Hcomp Hnd Hcs Hfail Hok. revert s Hcs.
  induction cs as [|b cs IH]; intros s Hcs; simpl; [done|].
  destruct (isAssigned s (bmh_Name b)) eqn:Hb; [apply IH; set_solver|].
  destruct (rec (bt_assign comp b s)) as [[] s2] eqn:Hr.
  - intros [= <-]. apply Hok in Hr as [Ho Hn Hi].
    assert (Hself : assignment s2 !! comp = Some b)
      by (rewrite Ho by done; apply lookup_insert_eq).
    constructor.
    + intros c [??]%not_elem_of_cons. rewrite Ho by done. by apply lookup_insert_ne.
    + intros c [->|Hin]%elem_of_cons.
      * exists b. split_and!; [done|apply Hcs; set_solver|done].
      * destruct (Hn c Hin) as (b' & ? & ? & Hf). exists b'. split_and!; [done..|].
        rewrite isAssigned_assign in Hf. by apply orb_false_iff in Hf as [_ ?].
    + assert (Hneq : ∀ c b', c ∈ l → assignment s2 !! c = Some b' → bmh_Name b' ≠ bmh_Name b).
      { intros c b' Hc Hb' Heq. destruct (Hn c Hc) as (b'' & ? & _ & Hf). simplify_eq.
        rewrite isAssigned_assign in Hf. by rewrite bool_decide_eq_true_2 in Hf. }
      intros c1 c2 b1 b2 Hc1 Hc2 H1 H2 Heq.
      apply elem_of_cons in Hc1 as [->|Hc1]; apply elem_of_cons in Hc2 as [->|Hc2]; [done| | |].
      * simplify_eq. by destruct (Hneq c2 b2 Hc2 H2).
      * simplify_eq. by destruct (Hneq c1 b1 Hc1 H1).
      * by eapply Hi.
  - intros Hloop. apply Hfail in Hr as [Hro Hrc Hra]. apply IH in Hloop as [Ho Hn Hi]; [|set_solver].
    assert (Hu : ∀ n, isAssigned (bt_undo comp b s2) n = isAssigned s n).
    { intros n. rewrite isAssigned_undo, Hra, isAssigned_assign.
      case_bool_decide as Hbn; simpl; [by subst n|done]. }
    constructor; [|setoid_rewrite <-Hu; apply Hn|done].
    intros c [??]%not_elem_of_cons. rewrite Ho by set_solver. simpl.
    rewrite lookup_delete_ne by done. rewrite Hro by done. by apply lookup_insert_ne.
Qed.

Lemma backtrack_extends l s s' :
  NoDup l → backtrack c2b l s = (true, s') → bt_extends l s s'.
Proof.
  revert s s'. induction l as [|comp l IH]; intros s s' Hnd; simpl.
  { intros [= ->]. constructor; set_solver. }
  apply NoDup_cons in Hnd as [??].
  apply bt_loop_extends; [done|done|done|by intros; apply backtrack_restored|].
  intros; by apply IH.
Qed.

(** A choice of distinct free candidates for the computes of [l]. *)
Definition bt_choice (l : list string) (s : bt_state) (f : string → BareMetalHost) : Prop :=
  (∀ c, c ∈ l → f c ∈ cands c ∧ isAssigned s (bmh_Name (f c)) = false) ∧
  (∀ c1 c2, c1 ∈ l → c2 ∈ l → bmh_Name (f c1) = bmh_Name (f c2) → c1 = c2).

Lemma bt_loop_complete rec comp l cs f s :
  comp ∉ l → f comp ∈ cs → bt_choice (comp :: l) s f →
  (∀ s1 s2, rec s1 = (false, s2) → bt_restored l s1 s2) →
  (∀ s1, bt_choice l s1 f → (rec s1).1 = true) →
  (bt_loop rec comp cs s).1 = true.
Proof.
  intros Hcomp Hin Hf Hfail Hrec. revert s Hf Hin.
  induction cs as [|b cs IH]; intros s Hf Hin; [by apply elem_of_nil in Hin|]. simpl.
  destruct Hf as [Hf Hinj]. destruct (Hf comp ltac:(set_solver)) as [_ Hfree].
  destruct (isAssigned s (bmh_Name b)) eqn:Hb.
  { apply IH; [done|]. apply elem_of_cons in Hin as [<-|?]; [congruence|done]. }
  destruct (rec (bt_assign comp b s)) as [[] s2] eqn:Hr; [done|].
  apply elem_of_cons in Hin as [<-|Hin].
  - assert (Hc : bt_choice l (bt_assign comp (f comp) s) f).
    { split; [|set_solver]. intros c Hc. destruct (Hf c ltac:(set_solver)) as [? Hfr].
      split; [done|]. rewrite isAssigned_assign, Hfr, orb_false_r.
      apply bool_decide_eq_false. intros Heq.
      assert (comp = c) as -> by (apply Hinj; set_solver). done. }
    apply Hrec in Hc. by rewrite Hr in Hc.
  - apply IH; [|done]. apply Hfail in Hr as [_ _ Hra]. split; [|done].
    intros c Hc. destruct (Hf c Hc) as [? Hfr]. split; [done|].
    rewrite isAssigned_undo, Hra, isAssigned_assign.
    case_bool_decide; simpl; [done|by rewrite Hfr].
Qed.

Lemma backtrack_complete l s f :
  NoDup l → bt_choice l s f → (backtrack c2b l s).1 = true.
Proof.
  revert s. induction l as [|comp l IH]; intros s Hnd Hf; simpl; [done|].
  apply NoDup_cons in Hnd as [??].
  apply (bt_loop_complete _ _ l _ f); [done| |done|by intros; apply backtrack_restored|auto].
  apply Hf. set_solver.
Qed.

End matching.

Section find.
Context `{Hord : MapOrder}.

Lemma sort_Slice_perm {A} less (l : list A) : sort_Slice less l ≡ₚ l.
Proof. apply merge_sort_Permutation. Qed.

(** The slice of compute names [backtrack] walks lists every compute once. *)
Lemma computeArray_elem n (computes : gmap string InstanceSpec) less c :
  c ∈ sort_Slice less (range n computes).*1 ↔ c ∈ dom computes.
Proof. rewrite sort_Slice_perm. apply elem_of_range_fst. Qed.

Lemma computeArray_NoDup n (computes : gmap string InstanceSpec) less :
  NoDup (sort_Slice less (range n computes).*1).
Proof. rewrite sort_Slice_perm. apply range_fst_NoDup. Qed.

#[local] Hint Resolve computeArray_NoDup : go.

(** Every assignment the search returns is valid. *)
Lemma findValid_sound computes bmhs a :
  findValidBaremetalSetInstanceLabelAssignments computes bmhs = Some a →
  valid_assignment computes bmhs a.
Proof.
  unfold findValidBaremetalSetInstanceLabelAssignments.
  set (arr := sort_Slice _ _). destruct (backtrack _ arr _) as [[] s] eqn:Hb; [|done].
  intros [= <-]. apply backtrack_extends in Hb as [Ho Hn Hi]; [|apply computeArray_NoDup].
  assert (Hdom : dom (assignment s) = dom computes).
  { apply set_eq. intros c. rewrite elem_of_dom. split.
    - intros [b Hb]. destruct (decide (c ∈ arr)) as [?|Hc]; [by eapply computeArray_elem|].
      apply Ho in Hc. by rewrite Hb in Hc.
    - intros Hc. destruct (Hn c) as (b & -> & _); [by apply computeArray_elem|by eexists]. }
  constructor; [done| |].
  - intros c comp b Hc Hb. destruct (Hn c) as (b' & ? & Hin & _).
    { apply computeArray_elem. by apply elem_of_dom_2 in Hc. }
    simplify_eq. rewrite computesToBmhs_lookup, Hc in Hin.
    by apply list_elem_of_filter in Hin as [??].
  - intros c1 c2 b1 b2 H1 H2. apply Hi; [..|done|done];
      apply computeArray_elem; rewrite <-Hdom; by eapply elem_of_dom_2.
Qed.

(** When some valid assignment exists the search returns one. *)
Lemma findValid_complete computes bmhs a :
  valid_assignment computes bmhs a →
  is_Some (findValidBaremetalSetInstanceLabelAssignments computes bmhs).
Proof.
  intros [Hdom Hcand Hinj]. unfold findValidBaremetalSetInstanceLabelAssignments.
  set (arr := sort_Slice _ _).
  destruct (decide (arr = [])) as [->|Hne]; [by eexists|].
  destruct arr as [|c0 arr0] eqn:Harr; [done|]. rewrite <-Harr.
  assert (Hlk : ∀ c, c ∈ arr → ∃ b comp, a !! c = Some b ∧ computes !! c = Some comp).
  { intros c Hc%computeArray_elem. pose proof Hc as Hc'. rewrite <-Hdom in Hc'.
    apply elem_of_dom in Hc as [comp ?]. apply elem_of_dom in Hc' as [b ?]. eauto. }
  destruct (Hlk c0) as (b0 & _ & _); [rewrite Harr; set_solver|].
  destruct (backtrack _ arr _) as [found s] eqn:Hb.
  enough (found = true) as -> by (by eexists).
  change found with (found, s).1. rewrite <-Hb.
  apply (backtrack_complete _ _ _ (λ c, default b0 (a !! c))); [apply computeArray_NoDup|].
  split.
  - intros c Hc. destruct (Hlk c Hc) as (b & comp & Hb1 & Hc1). rewrite Hb1; simpl.
    split; [|done]. rewrite computesToBmhs_lookup, Hc1. apply list_elem_of_filter.
    destruct (Hcand c comp b Hc1 Hb1). done.
  - intros c1 c2 Hc1 Hc2. destruct (Hlk c1 Hc1) as (b1 & _ & E1 & _).
    destruct (Hlk c2 Hc2) as (b2 & _ & E2 & _). rewrite E1, E2; simpl. by apply Hinj.
Qed.

Lemma valid_assignment_size computes bmhs a :
  valid_assignment computes bmhs a → size a = size computes.
Proof. intros [Hdom _ _]. by rewrite <-!size_dom, Hdom. Qed.

End find.

(** ** Properties *)

(** C2: the backtracking search is correct for every order in which Go may
    iterate the maps: when it returns an assignment, every compute has a host,
    the host carries the labels the compute selects and no two computes share a
    host name; when it returns nil, no such assignment exists. *)
Theorem findValid_correct `{MapOrder} computes bmhs :
  match findValidBaremetalSetInstanceLabelAssignments computes bmhs with
  | Some a => valid_assignment computes bmhs a
  | None => ∀ a, ¬ valid_assignment computes bmhs a
  end.
Proof.
  destruct (findValidBaremetalSetInstanceLabelAssignments computes bmhs) as [a|] eqn:Hf.
  - by apply findValid_sound.
  - intros a Ha%findValid_complete. rewrite Hf in Ha. by destruct Ha.
Qed.

(** Whether computes can be placed does not depend on the order of map
    iteration: two runs with different orders both find an assignment or both
    return nil. *)
Theorem findValid_order_independent (o1 o2 : MapOrder) computes bmhs :
  is_Some (@findValidBaremetalSetInstanceLabelAssignments o1 computes bmhs) ↔
  is_Some (@findValidBaremetalSetInstanceLabelAssignments o2 computes bmhs).
Proof.
  assert (Hva : ∀ (o o' : MapOrder) a,
    @valid_assignment o computes bmhs a → @valid_assignment o' computes bmhs a).
  { intros o o' a [Hd Hc Hi]. constructor; [done| |done]. intros c comp b Hcc Hb.
    destruct (Hc c comp b Hcc Hb) as [? Hs]. split; [done|].
    destruct (is_BmhLabelSelector comp); [|done]. apply IsMapSubset_Some in Hs.
    by apply IsMapSubset_Some. }
  split; intros [a Ha%findValid_sound]; eapply findValid_complete;
    [exact (Hva o1 o2 a Ha)|exact (Hva o2 o1 a Ha)].
Qed.

(** C28: a branch of the search that fails undoes its work: the hosts marked as
    taken are those marked before it, computes outside the branch keep their
    assignment, and the computes of the branch are left unassigned or as they
    were. *)
Theorem backtrack_failure_restores c2b rest s s' :
  NoDup rest → backtrack c2b rest s = (false, s') →
  (∀ n, isAssigned s' n = isAssigned s n) ∧
  (∀ c, c ∉ rest → assignment s' !! c = assignment s !! c) ∧
  (∀ c, c ∈ rest → assignment s' !! c = None ∨ assignment s' !! c = assignment s !! c).
Proof. intros Hnd Hb. by destruct (backtrack_restored _ _ _ _ Hnd Hb). Qed.

(** ** Runs *)

Definition label_map (l : list string) : gmap string string := list_to_map ((λ x, (x, "")) <$> l).

(** The example in the comments of [VerifyBaremetalSetScaleUp]: three hosts and
    three computes of which a careless choice for the first two strands the third. *)
Definition example_bmhs : list BareMetalHost :=
  [sample_bmh "bmh3" (label_map ["a"; "b"]); sample_bmh "bmh1" (label_map ["a"; "b"; "c"]);
   sample_bmh "bmh2" (label_map ["a"; "c"])].
Definition example_computes : gmap string InstanceSpec :=
  list_to_map [("comp1", sample_instance (label_map ["a"; "b"]));
               ("comp2", sample_instance (label_map ["a"; "c"]));
               ("comp3", sample_instance (label_map ["a"; "b"]))].

Definition names_of (a : option (gmap string BareMetalHost)) : list (string * string) :=
  merge_sort (λ x y : string * string, String.le x.1 y.1)
    ((λ kb : string * BareMetalHost, (kb.1, bmh_Name kb.2)) <$> map_to_list (default ∅ a)).

Example documented_example :
  names_of (@findValidBaremetalSetInstanceLabelAssignments list_order example_computes example_bmhs)
  = [("comp1", "bmh1"); ("comp2", "bmh2"); ("comp3", "bmh3")]
  ∨ names_of (@findValidBaremetalSetInstanceLabelAssignments list_order example_computes example_bmhs)
  = [("comp1", "bmh3"); ("comp2", "bmh2"); ("comp3", "bmh1")].
Proof. (left; vm_compute; reflexivity) || (right; vm_compute; reflexivity). Qed.

(** Two computes, one host: the search fails and leaves nothing marked. *)
Definition contended : gmap string (list BareMetalHost) :=
  list_to_map [("c1", [sample_bmh "h" ∅]); ("c2", [sample_bmh "h" ∅])].

Lemma backtrack_failure_restores_witness :
  backtrack contended ["c1"; "c2"] (mkBt ∅ ∅) =
    (false, (backtrack contended ["c1"; "c2"] (mkBt ∅ ∅)).2) ∧
  (∀ n, isAssigned (backtrack contended ["c1"; "c2"] (mkBt ∅ ∅)).2 n = false).
Proof.
  assert (Hb : backtrack contended ["c1"; "c2"] (mkBt ∅ ∅) =
    (false, (backtrack contended ["c1"; "c2"] (mkBt ∅ ∅)).2)) by (vm_compute; reflexivity).
  split; [exact Hb|].
  assert (Hnd : NoDup ["c1"; "c2"]) by (apply (bool_decide_unpack _); vm_compute; exact I).
  destruct (backtrack_failure_restores contended ["c1"; "c2"] (mkBt ∅ ∅) _ Hnd Hb) as [Ha _].
  intros n. rewrite (Ha n). reflexivity.
Defined.
