(* ===== verification/Hardware.v ===== *)
(** * Hardware requirements

    [verifyBaremetalSetHardwareMatch] of [api/v1beta1/openstackbaremetalset.go]:
    whether a BareMetalHost meets the CPU, memory and disk requirements of an
    OpenStackBaremetalSet. Memory and disk sizes are compared as [float64]
    gigabytes in the code; the specification below states the comparison on the
    integers the user wrote and Metal3 reported. *)

From S2P Require Import Prelude GoFloat ApiTypes Samples.
#[local] Open Scope Z_scope.

(** ** The code *)

(** The test of the disk loop: [diskGbBmh == diskGbBms || (!ExactMatch && diskGbBmh > diskGbBms)] *)
Definition diskSizeMatches (req : DiskGbReq) (disk : Storage) : bool :=
  let diskGbBms := float64_of_Z (dgr_Gb req) in
  let diskGbBmh := float64_div (float64_of_Z (sto_SizeBytes disk)) (float64_of_Z 1073741824) in
  float64_eqb diskGbBmh diskGbBms ||
  (negb (dgr_ExactMatch req) && float64_gtb diskGbBmh diskGbBms).

Definition verifyBaremetalSetHardwareMatch (instance : OpenStackBaremetalSet)
    (bmh : BareMetalHost) : bool :=
  let reqs := ts_HardwareReqs (set_Template instance) in
  if bool_decide (reqs = HardwareReqs_zero) then true
  else match bmht_HardwareDetails (bmh_Status bmh) with
  | None => false
  | Some hw =>
      let cpuReqs := hr_CPUReqs reqs in
      let countReq := cr_CountReq cpuReqs in
      let mhzReq := cr_MhzReq cpuReqs in
      if negb (String.eqb (cr_Arch cpuReqs) "") &&
         negb (String.eqb (cpu_Arch (hd_CPU hw)) (cr_Arch cpuReqs)) then false
      else if negb (ccr_Count countReq =? 0) &&
              negb (cpu_Count (hd_CPU hw) =? ccr_Count countReq) &&
              (ccr_ExactMatch countReq || (cpu_Count (hd_CPU hw) <? ccr_Count countReq)) then false
      else
        let clockSpeed := int_of_float64 (cpu_ClockMegahertz (hd_CPU hw)) in
        if negb (cmr_Mhz mhzReq =? 0) &&
           (negb (cmr_Mhz mhzReq =? clockSpeed) &&
            (cmr_ExactMatch mhzReq || (clockSpeed <? cmr_Mhz mhzReq))) then false
        else
          let memReq := mr_GbReq (hr_MemReqs reqs) in
          let memGbBms := float64_of_Z (mgr_Gb memReq) in
          let memGbBmh := float64_div (float64_of_Z (hd_RAMMebibytes hw)) (float64_of_Z 1024) in
          if negb (mgr_Gb memReq =? 0) &&
             (negb (float64_eqb memGbBmh memGbBms) &&
              (mgr_ExactMatch memReq || float64_gtb memGbBms memGbBmh)) then false
          else
            let diskReqs := hr_DiskReqs reqs in
            let gbReq := dr_GbReq diskReqs in
            let ssdReq := dr_SSDReq diskReqs in
            let foundDisk :=
              if dgr_Gb gbReq =? 0 then None
              else List.find (diskSizeMatches gbReq) (hd_Storage hw) in
            if negb (dgr_Gb gbReq =? 0) && bool_decide (foundDisk = None) then false
            else if dsr_ExactMatch ssdReq || dsr_SSD ssdReq then
              match foundDisk with
              | Some disk => negb (Bool.eqb (sto_Rotational disk) (dsr_SSD ssdReq))
              | None =>
                  existsb (λ disk, negb (Bool.eqb (sto_Rotational disk) (dsr_SSD ssdReq)))
                    (hd_Storage hw)
              end
            else true
  end.

(** ** The specification, on integers *)

(** A requirement of [req] units (0: none) against an actual amount. *)
Definition quantity_ok (exact : bool) (req actual : Z) : Prop :=
  req = 0 ∨ (if exact then actual = req else req ≤ actual).

Definition disk_fits (req : DiskGbReq) (disk : Storage) : Prop :=
  if dgr_ExactMatch req then sto_SizeBytes disk = dgr_Gb req * 2 ^ 30
  else dgr_Gb req * 2 ^ 30 ≤ sto_SizeBytes disk.

(** A disk of the requested kind: an SSD is not rotational. *)
Definition disk_kind_ok (req : DiskSSDReq) (disk : Storage) : Prop :=
  sto_Rotational disk ≠ dsr_SSD req.

Definition disk_kind_matters (req : DiskSSDReq) : Prop :=
  dsr_ExactMatch req = true ∨ dsr_SSD req = true.

(** Without a size requirement any disk may be of the requested kind; with one,
    the first disk of a fitting size is the one whose kind counts. *)
Inductive disks_ok (reqs : DiskReqs) (disks : list Storage) : Prop :=
| disks_any :
    dgr_Gb (dr_GbReq reqs) = 0 →
    (disk_kind_matters (dr_SSDReq reqs) →
     ∃ d, d ∈ disks ∧ disk_kind_ok (dr_SSDReq reqs) d) →
    disks_ok reqs disks
| disks_first pre d post :
    dgr_Gb (dr_GbReq reqs) ≠ 0 →
    disks = pre ++ d :: post →
    (∀ d', d' ∈ pre → ¬ disk_fits (dr_GbReq reqs) d') →
    disk_fits (dr_GbReq reqs) d →
    (disk_kind_matters (dr_SSDReq reqs) → disk_kind_ok (dr_SSDReq reqs) d) →
    disks_ok reqs disks.

Record hardware_ok (reqs : HardwareReqs) (hw : HardwareDetails) : Prop := {
  hw_arch : cr_Arch (hr_CPUReqs reqs) = ""%string ∨
    cpu_Arch (hd_CPU hw) = cr_Arch (hr_CPUReqs reqs);
  hw_count : quantity_ok (ccr_ExactMatch (cr_CountReq (hr_CPUReqs reqs)))
    (ccr_Count (cr_CountReq (hr_CPUReqs reqs))) (cpu_Count (hd_CPU hw));
  hw_mhz : quantity_ok (cmr_ExactMatch (cr_MhzReq (hr_CPUReqs reqs)))
    (cmr_Mhz (cr_MhzReq (hr_CPUReqs reqs))) (int_of_float64 (cpu_ClockMegahertz (hd_CPU hw)));
  hw_mem : quantity_ok (mgr_ExactMatch (mr_GbReq (hr_MemReqs reqs)))
    (mgr_Gb (mr_GbReq (hr_MemReqs reqs)) * 1024) (hd_RAMMebibytes hw);
  hw_disks : disks_ok (hr_DiskReqs reqs) (hd_Storage hw);
}.

(** The sizes for which a [float64] is exact: below 2^53. *)
Record sizes_in_range (reqs : HardwareReqs) (hw : HardwareDetails) : Prop := {
  rng_mem : 0 ≤ mgr_Gb (mr_GbReq (hr_MemReqs reqs)) < 2 ^ 53;
  rng_ram : 0 ≤ hd_RAMMebibytes hw < 2 ^ 53;
  rng_disk : 0 ≤ dgr_Gb (dr_GbReq (hr_DiskReqs reqs)) < 2 ^ 53;
  rng_sizes : ∀ d, d ∈ hd_Storage hw → 0 ≤ sto_SizeBytes d < 2 ^ 53;
}.

(** ** Lemmas *)

Lemma diskSizeMatches_fits req d :
  0 ≤ dgr_Gb req < 2 ^ 53 → 0 ≤ sto_SizeBytes d < 2 ^ 53 →
  diskSizeMatches req d = true ↔ disk_fits req d.
Proof.
  intros Hr Hd. unfold diskSizeMatches, disk_fits.
  change 1073741824 with (2 ^ 30).
  rewrite float64_quotient_eqb by (done || lia).
  rewrite (proj2 (float64_quotient_lt _ _ 30 Hd Hr ltac:(lia) eq_refl)).
  destruct (dgr_ExactMatch req); simpl;
    rewrite ?orb_false_r, ?orb_true_iff, ?Z.eqb_eq, ?Z.ltb_lt; lia.
Qed.

Lemma quantity_ok_spec exact req actual :
  (negb (req =? 0) && negb (actual =? req) && (exact || (actual <? req))) = false ↔
  quantity_ok exact req actual.
Proof.
  unfold quantity_ok.
  destruct (Z.eqb_spec req 0), (Z.eqb_spec actual req), exact, (Z.ltb_spec actual req); simpl;
    (split; [intros; try done; lia|intros [?|?]; (done || lia)]).
Qed.

Lemma memory_ok_spec exact gb ram :
  0 ≤ gb < 2 ^ 53 → 0 ≤ ram < 2 ^ 53 →
  let bms := float64_of_Z gb in
  let bmh := float64_div (float64_of_Z ram) (float64_of_Z 1024) in
  (negb (gb =? 0) && (negb (float64_eqb bmh bms) && (exact || float64_gtb bms bmh))) = false ↔
  quantity_ok exact (gb * 1024) ram.
Proof.
  intros Hg Hr bms bmh. subst bms bmh. change 1024 with (2 ^ 10).
  rewrite float64_quotient_eqb by (done || lia).
  rewrite (proj1 (float64_quotient_lt _ _ 10 Hr Hg ltac:(lia) eq_refl)).
  rewrite <-quantity_ok_spec, andb_assoc.
  replace (gb * 2 ^ 10 =? 0) with (gb =? 0); [done|].
  destruct (Z.eqb_spec gb 0), (Z.eqb_spec (gb * 2 ^ 10) 0); (done || lia).
Qed.

Lemma find_first {A} (f : A → bool) l :
  (∀ pre x post, l = pre ++ x :: post → (∀ y, y ∈ pre → f y = false) → f x = true →
    List.find f l = Some x) ∧
  (∀ x, List.find f l = Some x →
    ∃ pre post, l = pre ++ x :: post ∧ (∀ y, y ∈ pre → f y = false) ∧ f x = true).
Proof.
  induction l as [|a l [IH1 IH2]]; split; simpl.
  - by intros [|??].
  - done.
  - intros [|b pre] x post Heq Hpre Hx; simplify_eq/=; [by rewrite Hx|].
    rewrite (Hpre b) by set_solver. apply (IH1 pre x post); [done| |done].
    intros y Hy. apply Hpre. set_solver.
  - intros x. destruct (f a) eqn:Ha.
    + intros [= ->]. exists [], l. split_and!; [done|set_solver|done].
    + intros (pre & post & -> & Hpre & Hx)%IH2. exists (a :: pre), post.
      split_and!; [done| |done]. intros y [->|?]%elem_of_cons; auto.
Qed.

(** The first element with a property, and what precedes it, are unique. *)
Lemma first_split_unique {A} (P : A → Prop) pre x post pre' x' post' :
  pre ++ x :: post = pre' ++ x' :: post' →
  (∀ y, y ∈ pre → ¬ P y) → P x → (∀ y, y ∈ pre' → ¬ P y) → P x' →
  pre = pre' ∧ x = x' ∧ post = post'.
Proof.
  revert pre'. induction pre as [|a pre IH]; intros [|a' pre'] Heq H1 Hx H2 Hx';
    simplify_eq/=; [done|by destruct (H2 a'); [left|]|by destruct (H1 x'); [left|]|].
  destruct (IH pre') as (-> & -> & ->); [done|set_solver..|]. done.
Qed.

Lemma disk_kind_bool req d :
  negb (Bool.eqb (sto_Rotational d) (dsr_SSD req)) = true ↔ disk_kind_ok req d.
Proof. unfold disk_kind_ok. destruct (sto_Rotational d), (dsr_SSD req); simpl; naive_solver. Qed.

Lemma disks_ok_spec reqs disks :
  0 ≤ dgr_Gb (dr_GbReq reqs) < 2 ^ 53 →
  (∀ d, d ∈ disks → 0 ≤ sto_SizeBytes d < 2 ^ 53) →
  let foundDisk := if dgr_Gb (dr_GbReq reqs) =? 0 then None
    else List.find (diskSizeMatches (dr_GbReq reqs)) disks in
  (if negb (dgr_Gb (dr_GbReq reqs) =? 0) && bool_decide (foundDisk = None) then false
   else if dsr_ExactMatch (dr_SSDReq reqs) || dsr_SSD (dr_SSDReq reqs) then
     match foundDisk with
     | Some disk => negb (Bool.eqb (sto_Rotational disk) (dsr_SSD (dr_SSDReq reqs)))
     | None => existsb (λ disk,
         negb (Bool.eqb (sto_Rotational disk) (dsr_SSD (dr_SSDReq reqs)))) disks
     end
   else true) = true ↔ disks_ok reqs disks.
Proof.
  intros Hr Hd foundDisk.
  assert (Hfit : ∀ d, d ∈ disks → diskSizeMatches (dr_GbReq reqs) d = true ↔
    disk_fits (dr_GbReq reqs) d) by (intros; apply diskSizeMatches_fits; auto).
  assert (Hm : dsr_ExactMatch (dr_SSDReq reqs) || dsr_SSD (dr_SSDReq reqs) = true ↔
    disk_kind_matters (dr_SSDReq reqs)) by apply orb_true_iff.
  destruct (Z.eqb_spec (dgr_Gb (dr_GbReq reqs)) 0) as [Hz|Hz]; subst foundDisk; simpl.
  - split.
    + intros H. apply disks_any; [done|]. intros Hk. apply Hm in Hk. rewrite Hk in H.
      apply existsb_exists in H as (d & Hin & Hkd). exists d.
      split; [by apply list_elem_of_In|by apply disk_kind_bool].
    + intros [_ Hk|]; [|done]. destruct (_ || _) eqn:E; [|done].
      destruct Hk as (d & Hin & Hkd); [by apply Hm|]. apply existsb_exists. exists d.
      split; [by apply list_elem_of_In|by apply disk_kind_bool].
  - destruct (List.find _ disks) as [d|] eqn:Hf; simpl.
    + pose proof (proj2 (find_first _ disks) d Hf) as (pre & post & Heq & Hpre & Hx).
      assert (Hin : ∀ y, y ∈ pre → y ∈ disks) by (intros; rewrite Heq; set_solver).
      assert (Hdin : d ∈ disks) by (rewrite Heq; set_solver).
      split.
      * intros H. apply (disks_first _ _ pre d post); [done|done| |by apply Hfit|].
        { intros d' Hd'. rewrite <-Hfit by auto. by rewrite Hpre. }
        intros Hk%Hm. rewrite Hk in H. by apply disk_kind_bool.
      * intros [|pre' d' post' _ Heq' Hpre' Hd' Hk]; [done|].
        assert (Some d' = Some d) as [= ->].
        { rewrite <-Hf. symmetry. apply (proj1 (find_first _ disks) pre' d' post'); [done| |].
          - intros y Hy. apply not_true_iff_false. rewrite Hfit by (rewrite Heq'; set_solver).
            by apply Hpre'.
          - apply Hfit; [rewrite Heq'; set_solver|done]. }
        destruct (_ || _) eqn:E; [|done]. apply disk_kind_bool, Hk. by apply Hm.
    + split; [done|]. intros [|pre d post _ Heq Hpre Hd' _]; [done|].
      assert (List.find (diskSizeMatches (dr_GbReq reqs)) disks = Some d) as Hs.
      { apply (proj1 (find_first _ disks) pre d post); [done| |].
        - intros y Hy. apply not_true_iff_false. rewrite Hfit by (rewrite Heq; set_solver).
          by apply Hpre.
        - apply Hfit; [rewrite Heq; set_solver|done]. }
      by rewrite Hf in Hs.
Qed.

Lemma if_false_else (b c : bool) : (if b then false else c) = true ↔ b = false ∧ c = true.
Proof. destruct b; naive_solver. Qed.

Lemma arch_ok_spec (req actual : string) :
  negb (String.eqb req "") && negb (String.eqb actual req) = false ↔
  req = ""%string ∨ actual = req.
Proof.
  rewrite andb_false_iff, !negb_false_iff, !String.eqb_eq. done.
Qed.

(** The code's test on a host with hardware details, requirement by requirement. *)
Lemma verify_hardware_ok instance bmh hw :
  let reqs := ts_HardwareReqs (set_Template instance) in
  reqs ≠ HardwareReqs_zero → bmht_HardwareDetails (bmh_Status bmh) = Some hw →
  sizes_in_range reqs hw →
  verifyBaremetalSetHardwareMatch instance bmh = true ↔ hardware_ok reqs hw.
Proof.
  intros reqs Hnz Hhw [Hm Hram Hd Hs]. unfold verifyBaremetalSetHardwareMatch.
  fold reqs. rewrite Hhw, bool_decide_eq_false_2 by done. cbv zeta.
  rewrite 4!if_false_else, arch_ok_spec, quantity_ok_spec, memory_ok_spec by done.
  rewrite (disks_ok_spec (hr_DiskReqs reqs) (hd_Storage hw)) by done.
  rewrite andb_assoc, (Z.eqb_sym (cmr_Mhz _) (int_of_float64 _)), quantity_ok_spec.
  split; [intros (?&?&?&?&?); by constructor|intros []; done].
Qed.

(** ** Properties *)

(** C14: for sizes a [float64] holds exactly (below 2^53), the hardware test
    accepts a host exactly when no requirement is set, or the host reports its
    hardware and meets every requirement stated on integers: the CPU
    architecture, the CPU count and clock, the memory in GiB and the disks. *)
Theorem verifyHardware_correct instance bmh :
  let reqs := ts_HardwareReqs (set_Template instance) in
  (∀ hw, bmht_HardwareDetails (bmh_Status bmh) = Some hw → sizes_in_range reqs hw) →
  verifyBaremetalSetHardwareMatch instance bmh = true ↔
  reqs = HardwareReqs_zero ∨
  ∃ hw, bmht_HardwareDetails (bmh_Status bmh) = Some hw ∧ hardware_ok reqs hw.
Proof.
  intros reqs Hrng. destruct (decide (reqs = HardwareReqs_zero)) as [Hz|Hnz].
  - split; [by left|]. intros _. unfold verifyBaremetalSetHardwareMatch.
    fold reqs. by rewrite bool_decide_eq_true_2.
  - destruct (bmht_HardwareDetails (bmh_Status bmh)) as [hw|] eqn:Hhw.
    + rewrite (verify_hardware_ok instance bmh hw Hnz Hhw) by auto. fold reqs. naive_solver.
    + unfold verifyBaremetalSetHardwareMatch. fold reqs.
      rewrite Hhw, bool_decide_eq_false_2 by done. naive_solver.
Qed.

(** With a size requirement, only the first disk of a fitting size is asked
    for its kind: a host whose first fitting disk is of the wrong kind is turned
    down, whatever disks follow it. *)
Theorem verifyHardware_first_disk_decides instance bmh hw pre d post :
  let reqs := ts_HardwareReqs (set_Template instance) in
  let disks := hr_DiskReqs reqs in
  bmht_HardwareDetails (bmh_Status bmh) = Some hw → sizes_in_range reqs hw →
  hd_Storage hw = pre ++ d :: post →
  (∀ d', d' ∈ pre → ¬ disk_fits (dr_GbReq disks) d') → disk_fits (dr_GbReq disks) d →
  dgr_Gb (dr_GbReq disks) ≠ 0 → disk_kind_matters (dr_SSDReq disks) →
  ¬ disk_kind_ok (dr_SSDReq disks) d →
  verifyBaremetalSetHardwareMatch instance bmh = false.
Proof.
  intros reqs disks Hhw Hrng Hst Hpre Hd Hgb Hk Hbad. apply not_true_iff_false. intros Hv.
  assert (Hnz : reqs ≠ HardwareReqs_zero) by (intros Hz; apply Hgb; unfold disks; by rewrite Hz).
  apply (verify_hardware_ok instance bmh hw Hnz Hhw Hrng) in Hv as [_ _ _ _ Hdisks].
  destruct Hdisks as [Hz _|pre' d' post' _ Heq Hpre' Hd' Hk']; [done|].
  destruct (first_split_unique (disk_fits (dr_GbReq disks)) pre d post pre' d' post') as (_ & <- & _);
    [congruence|done..|]. by apply Hbad, Hk'.
Qed.

(** ** Runs *)

(** At least 100 GB of disk on an SSD and 16 GB of memory. *)
Definition ssd_reqs : HardwareReqs :=
  mkHardwareReqs (mkCPUReqs "x86_64" (mkCPUCountReq 4 false) (mkCPUMhzReq 2000 false))
    (mkMemReqs (mkMemGbReq 16 false)) (mkDiskReqs (mkDiskGbReq 100 false) (mkDiskSSDReq true false)).

Definition host_with_disks (disks : list Storage) : BareMetalHost :=
  mkBmh (sample_meta "bmh" "h" ∅) sample_bmh_spec
    (mkBmhStatus StateAvailable (Some (sample_hardware 16384 disks))).

Definition hdd (gb : Z) : Storage := mkStorage "/dev/sda" true (gb * 2 ^ 30).
Definition ssd (gb : Z) : Storage := mkStorage "/dev/nvme0n1" false (gb * 2 ^ 30).

Lemma sizes_in_range_sample disks :
  Forall (λ d, 0 ≤ sto_SizeBytes d < 2 ^ 53) disks →
  sizes_in_range ssd_reqs (sample_hardware 16384 disks).
Proof.
  intros Hd. constructor; simpl; [lia|lia|lia|]. intros d Hin. by eapply Forall_forall in Hd.
Qed.

Lemma verifyHardware_correct_witness :
  verifyBaremetalSetHardwareMatch (sample_set ssd_reqs ∅ ∅) (host_with_disks [ssd 100]) = true ∧
  ∃ hw, bmht_HardwareDetails (bmh_Status (host_with_disks [ssd 100])) = Some hw ∧
    hardware_ok ssd_reqs hw.
Proof.
  assert (Hv : verifyBaremetalSetHardwareMatch (sample_set ssd_reqs ∅ ∅)
    (host_with_disks [ssd 100]) = true) by (vm_compute; reflexivity).
  split; [exact Hv|].
  assert (Hr : ∀ hw, bmht_HardwareDetails (bmh_Status (host_with_disks [ssd 100])) = Some hw →
    sizes_in_range ssd_reqs hw).
  { intros hw [= <-]. apply sizes_in_range_sample. repeat constructor; simpl; lia. }
  destruct (proj1 (verifyHardware_correct (sample_set ssd_reqs ∅ ∅) (host_with_disks [ssd 100]) Hr) Hv)
    as [Hz|H]; [discriminate Hz|exact H].
Defined.

(** A host with a 200 GB rotational disk before a 200 GB SSD is turned down. *)
Lemma verifyHardware_first_disk_decides_witness :
  verifyBaremetalSetHardwareMatch (sample_set ssd_reqs ∅ ∅) (host_with_disks [hdd 200; ssd 200]) = false.
Proof.
  apply (verifyHardware_first_disk_decides (sample_set ssd_reqs ∅ ∅)
    (host_with_disks [hdd 200; ssd 200]) (sample_hardware 16384 [hdd 200; ssd 200])
    [] (hdd 200) [ssd 200]).
  - reflexivity.
  - apply sizes_in_range_sample. repeat constructor; simpl; lia.
  - reflexivity.
  - intros d' Hd'. by apply elem_of_nil in Hd'.
  - unfold disk_fits; simpl; lia.
  - simpl; lia.
  - by right.
  - unfold disk_kind_ok; simpl. intros Hne. by apply Hne.
Defined.
