(* ===== verification/ScaleUp.v ===== *)
(** * Finding BareMetalHosts for an OpenStackBaremetalSet

    [GetBaremetalHosts], [VerifyAndSyncBaremetalStatusBmhRefs],
    [VerifyBaremetalSetScaleUp] and [VerifyBaremetalSetScaleDown] of
    [api/v1beta1/openstackbaremetalset.go]: which hosts a new compute may be
    given, and whether there are enough of them. The webhooks and the reconciler
    share these functions. *)

From S2P Require Import Prelude GoStrings ApiTypes Samples Kube MemCluster Matching Hardware.

(** ** The code *)

Definition ServiceName : string := "openstackbaremetalset".
Definition IndividualComputeLabelMismatch : string :=
  "one or more computes did not match the available Baremetalhosts due to their bmhLabelSelector(s)".

Definition GetBaremetalHosts {W} `{Client W} (namespace : string)
    (labelSelector : gmap string string) : st W (list BareMetalHost) :=
  let listOpts := [InNamespace namespace] in
  let listOpts := if bool_decide (0 < size labelSelector)
                  then listOpts ++ [MatchingLabels labelSelector] else listOpts in
  bmh_List listOpts.

(** The loop over [instance.Status.BaremetalHosts]: an entry whose host is gone is
    deleted. Only the entry being visited is deleted, so the entries visited are
    those the map had at the start. *)
Definition syncBmhRefs `{MapOrder} (allBaremetalHosts : list BareMetalHost)
    (instance : OpenStackBaremetalSet) : OpenStackBaremetalSet :=
  foldl (λ inst '(computeName, bmhStatus),
    if existsb (λ bmh, String.eqb (bmh_Name bmh) (hs_BmhRef bmhStatus)) allBaremetalHosts
    then inst else set_delete_host computeName inst) instance (range 3 (set_Hosts instance)).

(** Returns the instance as the call leaves it. *)
Definition VerifyAndSyncBaremetalStatusBmhRefs {W} `{Client W} `{MapOrder}
    (instance : OpenStackBaremetalSet) : st W OpenStackBaremetalSet :=
  let! allBaremetalHosts := GetBaremetalHosts (set_BmhNamespace instance) ∅ in
  st_ret (syncBmhRefs allBaremetalHosts instance).

(** The computes of the spec that have no entry in the status. *)
Definition newComputes `{MapOrder} (instance : OpenStackBaremetalSet) : gmap string InstanceSpec :=
  foldl (λ acc '(hostName, compute),
    match set_Hosts instance !! hostName with
    | Some _ => acc
    | None => <[hostName := compute]> acc
    end) ∅ (range 4 (set_SpecHosts instance)).

(** The body of the loop that filters the hosts: [!mismatch]. *)
Definition bmhUsable (instance : OpenStackBaremetalSet) (baremetalHost : BareMetalHost) : bool :=
  let mismatch := false in
  let mismatch := mismatch || negb (verifyBaremetalSetHardwareMatch instance baremetalHost) in
  let mismatch := mismatch ||
    negb (String.eqb (bmht_ProvisioningState (bmh_Status baremetalHost)) StateAvailable) in
  let mismatch := mismatch ||
    match bmhs_Image (bmh_Spec baremetalHost) with
    | Some image => negb (String.eqb (img_URL image) "")
    | None => false
    end in
  let mismatch := mismatch || bmhs_ExternallyProvisioned (bmh_Spec baremetalHost) in
  let mismatch := mismatch || bool_decide (bmhs_CustomDeploy (bmh_Spec baremetalHost) ≠ None) in
  let mismatch := mismatch || bool_decide (bmhs_ConsumerRef (bmh_Spec baremetalHost) ≠ None) in
  negb mismatch.

(** [len(m)] of a map that may be nil. *)
Definition go_len {V} (m : option (gmap string V)) : nat := size (default ∅ m).

Definition VerifyBaremetalSetScaleUp `{MapOrder} (instance : OpenStackBaremetalSet)
    (allBmhs existingBmhs : list BareMetalHost) :
    outcome (option (gmap string BareMetalHost)) :=
  let newComputes := newComputes instance in
  let newBmhsNeededCount := size newComputes in
  let selector := ts_BmhLabelSelector (set_Template instance) in
  let '(labelStr, errIndividualLabelsStr, availableBaremetalHosts, selectedBaremetalHosts) :=
    if bool_decide (0 < newBmhsNeededCount) then
      let labelStr := if bool_decide (0 < size selector)
                      then Replace1 (sprint_string_map selector) "map[" "[" else "" in
      let available := List.filter (bmhUsable instance) allBmhs in
      if bool_decide (newBmhsNeededCount ≤ length available) then
        let selected := findValidBaremetalSetInstanceLabelAssignments newComputes available in
        (labelStr,
         if bool_decide (go_len selected < 1) then ": " +:+ IndividualComputeLabelMismatch else "",
         available, selected)
      else (labelStr, "", available, None)
    else ("", "", [], None) in
  if bool_decide (go_len selectedBaremetalHosts < newBmhsNeededCount) then
    let errLabelStr := if String.eqb labelStr "" then "" else " with labels " +:+ labelStr in
    Err (Errorf ("unable to find " +:+ pretty (size (set_SpecHosts instance)) +:+
      " requested BaremetalHosts" +:+ errLabelStr +:+ " in namespace " +:+
      set_BmhNamespace instance +:+ " for scale-up (" +:+ pretty (length existingBmhs) +:+
      " in use, " +:+ pretty (length availableBaremetalHosts) +:+ " available)" +:+
      errIndividualLabelsStr))
  else Ok selectedBaremetalHosts.

Definition VerifyBaremetalSetScaleDown (instance : OpenStackBaremetalSet)
    (existingBmhs : list BareMetalHost) (removalAnnotatedBmhCount : Z) : outcome unit :=
  let bmhsToRemoveCount :=
    (Z.of_nat (length existingBmhs) - Z.of_nat (size (set_SpecHosts instance)))%Z in
  if Z.ltb removalAnnotatedBmhCount bmhsToRemoveCount then
    Err (Errorf ("unable to find sufficient amount of BaremetalHosts annotated for scale-down (" +:+
      pretty removalAnnotatedBmhCount +:+ " found, " +:+ pretty bmhsToRemoveCount +:+ " requested)"))
  else Ok tt.

(** ** Lemmas *)

Section sync.
Context `{Hord : MapOrder}.

Definition ref_alive (all : list BareMetalHost) (h : HostStatus) : Prop :=
  ∃ b, b ∈ all ∧ bmh_Name b = hs_BmhRef h.

#[export] Instance ref_alive_dec all h : Decision (ref_alive all h).
Proof.
  refine (cast_if (decide (Exists (λ b, bmh_Name b = hs_BmhRef h) all)));
    rewrite Exists_exists in *; done.
Defined.

Lemma ref_alive_existsb all h :
  existsb (λ bmh, String.eqb (bmh_Name bmh) (hs_BmhRef h)) all = true ↔ ref_alive all h.
Proof.
  rewrite existsb_exists. unfold ref_alive.
  setoid_rewrite <-list_elem_of_In. by setoid_rewrite String.eqb_eq.
Qed.

(** The synchronised status keeps exactly the entries whose host exists. *)
Lemma syncBmhRefs_lookup all instance c h :
  set_Hosts (syncBmhRefs all instance) !! c = Some h ↔
  set_Hosts instance !! c = Some h ∧ ref_alive all h.
Proof.
  unfold syncBmhRefs.
  assert (Hgen : ∀ (l : list (string * HostStatus)) inst, NoDup l.*1 →
    (∀ k v, (k, v) ∈ l → set_Hosts inst !! k = Some v) →
    set_Hosts (foldl (λ inst '(computeName, bmhStatus),
      if existsb (λ bmh, String.eqb (bmh_Name bmh) (hs_BmhRef bmhStatus)) all
      then inst else set_delete_host computeName inst) inst l) !! c = Some h ↔
    set_Hosts inst !! c = Some h ∧ (c ∈ l.*1 → ref_alive all h)).
  { induction l as [|[k v] l IH]; intros inst Hnd Hl; simpl; [set_solver|].
    apply NoDup_cons in Hnd as [Hk Hnd].
    assert (Hlk : set_Hosts inst !! k = Some v) by (apply Hl; set_solver).
    destruct (existsb _ all) eqn:He.
    - apply ref_alive_existsb in He. rewrite IH by (done || set_solver).
      rewrite elem_of_cons. split; [|naive_solver].
      intros [Hc ?]. split; [done|]. intros [->|?]; [by simplify_eq|auto].
    - assert (Hna : ¬ ref_alive all v) by (rewrite <-ref_alive_existsb; by rewrite He).
      rewrite IH; [|done|].
      + rewrite set_Hosts_delete, lookup_delete, elem_of_cons. case_decide; [|naive_solver].
        subst. split; [naive_solver|]. intros [? Hr]. rewrite Hlk in *. simplify_eq.
        destruct Hna. auto.
      + intros k' v' Hin. rewrite set_Hosts_delete, lookup_delete_ne; [apply Hl; set_solver|].
        intros ->. apply Hk. apply list_elem_of_fmap. by exists (k', v'). }
  rewrite Hgen; [|auto with go|intros k v; by rewrite elem_of_range].
  rewrite elem_of_range_fst. split; [|naive_solver].
  intros [Hc Ha]. split; [done|]. apply Ha. by eapply elem_of_dom_2.
Qed.

(** Nothing but the status hosts changes. *)
Lemma syncBmhRefs_rest all instance :
  set_Spec (syncBmhRefs all instance) = set_Spec instance ∧
  set_Meta (syncBmhRefs all instance) = set_Meta instance ∧
  bst_Conditions (set_Status (syncBmhRefs all instance)) = bst_Conditions (set_Status instance).
Proof.
  unfold syncBmhRefs. generalize (range 3 (set_Hosts instance)) as l. intros l. revert instance.
  induction l as [|[c h] l IH]; intros inst; simpl; [done|].
  destruct (existsb _ all); by rewrite !(proj1 (IH _)), !(proj1 (proj2 (IH _))),
    !(proj2 (proj2 (IH _))).
Qed.

Lemma newComputes_lookup instance c comp :
  newComputes instance !! c = Some comp ↔
  set_SpecHosts instance !! c = Some comp ∧ set_Hosts instance !! c = None.
Proof.
  unfold newComputes.
  assert (Hgen : ∀ (l : list (string * InstanceSpec)) (acc : gmap string InstanceSpec),
    NoDup l.*1 → (∀ k, k ∈ l.*1 → acc !! k = None) →
    foldl (λ acc '(hostName, compute),
      match set_Hosts instance !! hostName with
      | Some _ => acc
      | None => <[hostName := compute]> acc
      end) acc l !! c = Some comp ↔
    acc !! c = Some comp ∨ (c, comp) ∈ l ∧ set_Hosts instance !! c = None).
  { induction l as [|[k v] l IH]; intros acc Hnd Hfr; simpl; [set_solver|].
    apply NoDup_cons in Hnd as [Hk Hnd].
    destruct (set_Hosts instance !! k) eqn:Hs.
    - rewrite IH by (done || set_solver). rewrite elem_of_cons. naive_solver.
    - rewrite IH; [|done|].
      + rewrite lookup_insert, elem_of_cons. case_decide; [subst|naive_solver].
        split; [naive_solver|]. rewrite (Hfr c) by set_solver. intros [?|[[?|Hin] _]]; [done|naive_solver|].
        destruct Hk. apply list_elem_of_fmap. by exists (c, comp).
      + intros k' Hk'. rewrite lookup_insert_ne by set_solver. apply Hfr. set_solver. }
  rewrite Hgen; [|auto with go|done]. rewrite lookup_empty, elem_of_range. naive_solver.
Qed.

End sync.

(** What makes a BareMetalHost free to be given to a compute. *)
Record host_available (instance : OpenStackBaremetalSet) (b : BareMetalHost) : Prop := {
  ha_hardware : verifyBaremetalSetHardwareMatch instance b = true;
  ha_state : bmht_ProvisioningState (bmh_Status b) = StateAvailable;
  ha_image : ∀ i, bmhs_Image (bmh_Spec b) = Some i → img_URL i = "";
  ha_external : bmhs_ExternallyProvisioned (bmh_Spec b) = false;
  ha_custom : bmhs_CustomDeploy (bmh_Spec b) = None;
  ha_consumer : bmhs_ConsumerRef (bmh_Spec b) = None;
}.

Lemma bmhUsable_spec instance b : bmhUsable instance b = true ↔ host_available instance b.
Proof.
  unfold bmhUsable. cbv zeta. rewrite negb_true_iff, !orb_false_iff, negb_false_iff.
  rewrite negb_false_iff, String.eqb_eq, !bool_decide_eq_false. split.
  - intros [[[[[[_ ?] ?] Hi] ?] Hd] Hc]. constructor; try done.
    + intros i Hi'. rewrite Hi' in Hi. by apply negb_false_iff, String.eqb_eq in Hi.
    + by destruct (bmhs_CustomDeploy (bmh_Spec b)); [destruct Hd|].
    + by destruct (bmhs_ConsumerRef (bmh_Spec b)); [destruct Hc|].
  - intros [? ? Hi ? Hd Hc]. rewrite Hd, Hc. split_and!; try done; try (by intros ?).
    destruct (bmhs_Image (bmh_Spec b)); [|done].
    apply negb_false_iff, String.eqb_eq. by apply Hi.
Qed.

Section scale_up.
Context `{Hord : MapOrder}.

(** The hosts an instance may use, and what a selection for it must satisfy. *)
Definition valid_selection (instance : OpenStackBaremetalSet) (allBmhs : list BareMetalHost)
    (a : gmap string BareMetalHost) : Prop :=
  valid_assignment (newComputes instance) (List.filter (bmhUsable instance) allBmhs) a.

Lemma elem_of_List_filter {A} (f : A → bool) l x : x ∈ List.filter f l ↔ x ∈ l ∧ f x = true.
Proof. rewrite !list_elem_of_In. apply filter_In. Qed.

(** Each compute needs a host of its own. *)
Lemma valid_assignment_pigeonhole computes bmhs a :
  valid_assignment computes bmhs a → size computes ≤ length bmhs.
Proof.
  intros Ha. rewrite <-(valid_assignment_size _ _ _ Ha). destruct Ha as [Hdom Hc Hi].
  rewrite <-length_map_to_list, <-(length_fmap (λ kb : string * BareMetalHost, bmh_Name kb.2)).
  rewrite <-(length_fmap bmh_Name bmhs).
  apply submseteq_length, NoDup_submseteq.
  - apply NoDup_fmap_2_strong; [|apply NoDup_map_to_list].
    intros [c1 b1] [c2 b2] H1%elem_of_map_to_list H2%elem_of_map_to_list Heq. simpl in Heq.
    assert (c1 = c2) as -> by eauto. by simplify_eq.
  - intros n ([c b] & -> & Hcb%elem_of_map_to_list)%list_elem_of_fmap.
    assert (c ∈ dom computes) as [comp ?]%elem_of_dom by (rewrite <-Hdom; by eapply elem_of_dom_2).
    apply list_elem_of_fmap. exists b. split; [done|]. by destruct (Hc c comp b).
Qed.

Lemma scaleUp_cases instance allBmhs existingBmhs :
  match VerifyBaremetalSetScaleUp instance allBmhs existingBmhs with
  | Ok None => newComputes instance = ∅
  | Ok (Some a) => newComputes instance ≠ ∅ ∧ valid_selection instance allBmhs a
  | Err _ => newComputes instance ≠ ∅ ∧ ∀ a, ¬ valid_selection instance allBmhs a
  | Panic _ => False
  end.
Proof.
  unfold VerifyBaremetalSetScaleUp, valid_selection.
  set (nc := newComputes instance). set (av := List.filter _ _).
  case_bool_decide as Hn.
  - assert (nc ≠ ∅) by (intros Heq; rewrite Heq, map_size_empty in Hn; lia).
    case_bool_decide as Hl.
    + destruct (findValidBaremetalSetInstanceLabelAssignments nc av) as [a|] eqn:Hf; simpl.
      * pose proof (findValid_sound _ _ _ Hf) as Ha.
        unfold go_len; simpl. rewrite (valid_assignment_size _ _ _ Ha).
        by rewrite bool_decide_eq_false_2 by lia.
      * unfold go_len; simpl. rewrite map_size_empty, bool_decide_eq_true_2 by lia.
        split; [done|]. intros a Ha%findValid_complete. rewrite Hf in Ha. by destruct Ha.
    + unfold go_len; simpl. rewrite map_size_empty, bool_decide_eq_true_2 by lia.
      split; [done|]. intros a Ha%valid_assignment_pigeonhole. lia.
  - unfold go_len; simpl. rewrite map_size_empty, bool_decide_eq_false_2 by lia.
    apply map_size_empty_inv. lia.
Qed.

Lemma dom_newComputes instance :
  dom (newComputes instance) = dom (set_SpecHosts instance) ∖ dom (set_Hosts instance).
Proof.
  apply set_eq. intros c. rewrite elem_of_difference, !elem_of_dom, <-eq_None_not_Some. split.
  - intros [comp ?%newComputes_lookup]. naive_solver.
  - intros [[comp ?] ?]. exists comp. by apply newComputes_lookup.
Qed.

(** What the check returns covers the computes without a host. *)
Lemma scaleUp_dom instance allBmhs existingBmhs sel :
  VerifyBaremetalSetScaleUp instance allBmhs existingBmhs = Ok sel →
  dom (default ∅ sel) = dom (set_SpecHosts instance) ∖ dom (set_Hosts instance).
Proof.
  intros Hs. pose proof (scaleUp_cases instance allBmhs existingBmhs) as Hc. rewrite Hs in Hc.
  rewrite <-dom_newComputes. destruct sel as [a|]; simpl.
  - destruct Hc as [_ Ha]. apply (va_all _ _ _ Ha).
  - by rewrite Hc, !dom_empty_L.
Qed.

(** The check succeeds exactly when the computes without a host can all get one. *)
Lemma scaleUp_ok_iff instance allBmhs existingBmhs :
  (∃ sel, VerifyBaremetalSetScaleUp instance allBmhs existingBmhs = Ok sel) ↔
  ∃ a, valid_selection instance allBmhs a.
Proof.
  pose proof (scaleUp_cases instance allBmhs existingBmhs) as Hc.
  destruct (VerifyBaremetalSetScaleUp _ _ _) as [[a|]|e|m]; [|..|done].
  - split; [|by eexists]. destruct Hc. by exists a.
  - split; [|by eexists]. intros _. exists ∅. unfold valid_selection. rewrite Hc.
    split; [done|..]; intros *; by rewrite lookup_empty.
  - split; [by intros [??]|]. intros [a Ha]. destruct Hc as [_ Hc]. by destruct (Hc a).
Qed.

End scale_up.

(** ** Properties *)

(** C1: the scale-up check never panics. When it succeeds without a selection,
    every compute of the spec already has a host; when it returns a selection,
    every compute without a host gets one, no two the same, and every host given
    out is one of the hosts listed, is available (its hardware meets the
    requirements, Metal3 reports it available, and it has no image, no custom
    deploy, no consumer and no external provisioner) and carries the compute's
    labels; it returns an error only when no such selection exists. *)
Theorem VerifyBaremetalSetScaleUp_correct `{MapOrder} instance allBmhs existingBmhs :
  match VerifyBaremetalSetScaleUp instance allBmhs existingBmhs with
  | Ok None => dom (set_SpecHosts instance) ⊆ dom (set_Hosts instance)
  | Ok (Some a) =>
      valid_selection instance allBmhs a ∧
      dom a = dom (set_SpecHosts instance) ∖ dom (set_Hosts instance) ∧
      map_Forall (λ _ b, b ∈ allBmhs ∧ host_available instance b) a
  | Err _ => ∀ a, ¬ valid_selection instance allBmhs a
  | Panic _ => False
  end.
Proof.
  pose proof (scaleUp_cases instance allBmhs existingBmhs) as Hc.
  pose proof (dom_newComputes instance) as Hdom.
  destruct (VerifyBaremetalSetScaleUp _ _ _) as [[a|]|e|m]; [|..|done].
  - destruct Hc as [_ Ha]. split_and!; [done|by rewrite <-Hdom, (va_all _ _ _ Ha)|].
    intros c b Hb. assert (c ∈ dom (newComputes instance)) as [comp ?]%elem_of_dom
      by (rewrite <-(va_all _ _ _ Ha); by eapply elem_of_dom_2).
    destruct (va_cand _ _ _ Ha c comp b) as [[??]%elem_of_List_filter _]; [done..|].
    by rewrite <-bmhUsable_spec.
  - rewrite Hc, dom_empty_L in Hdom. intros c Hc1. apply dec_stable. intros ?. set_solver.
  - by destruct Hc.
Qed.

(** C29: synchronising the status with the cluster keeps exactly the entries
    whose BareMetalHost still exists, changes nothing else of the instance, and
    fails only when the hosts cannot be listed: a deleted host is dropped from
    the status, it is never an error. *)
Theorem VerifyAndSync_correct {W} `{Client W} `{MapOrder} instance (w : W) :
  match bmh_List [InNamespace (set_BmhNamespace instance)] w with
  | (Ok all, w') => ∃ instance',
      VerifyAndSyncBaremetalStatusBmhRefs instance w = (Ok instance', w') ∧
      (∀ c h, set_Hosts instance' !! c = Some h ↔
        set_Hosts instance !! c = Some h ∧ ∃ b, b ∈ all ∧ bmh_Name b = hs_BmhRef h) ∧
      set_Spec instance' = set_Spec instance ∧ set_Meta instance' = set_Meta instance
  | (Err e, w') => VerifyAndSyncBaremetalStatusBmhRefs instance w = (Err e, w')
  | (Panic m, w') => VerifyAndSyncBaremetalStatusBmhRefs instance w = (Panic m, w')
  end.
Proof.
  unfold VerifyAndSyncBaremetalStatusBmhRefs, GetBaremetalHosts, st_bind.
  rewrite map_size_empty. simpl.
  destruct (bmh_List _ w) as [[all|e|m] w'] eqn:Hl; [|done..].
  exists (syncBmhRefs all instance). destruct (syncBmhRefs_rest all instance) as (?&?&_).
  split_and!; [done|apply syncBmhRefs_lookup|done|done].
Qed.
