(* ===== verification/ProvPorts.v ===== *)
(** * Ports of the OpenStackProvisionServers

    [GetExistingProvServerPorts] and [AssignProvisionServerPort] of
    [api/v1beta1/openstackprovisionserver.go]: provision servers use the host
    network, so each one listens on a port of its own in a small range.

    The search loop [for ; ; cur++] runs on an [int32] with its wrap-around
    written out; its fuel is one more than the number of ports from the first
    candidate to the end of the range, which [portLoop_spec] shows to be enough
    whenever [portEnd] is below the largest [int32]. *)

From S2P Require Import Prelude ApiTypes Samples Kube MemCluster.
#[local] Open Scope Z_scope.

(** ** The code *)

Definition int32_wrap (z : Z) : Z := (z + 2 ^ 31) mod 2 ^ 32 - 2 ^ 31.
Definition int32_max : Z := 2 ^ 31 - 1.
Definition is_int32 (z : Z) : Prop := - 2 ^ 31 ≤ z ≤ int32_max.

(** [types.NamespacedName{...}.String()] *)
Definition NamespacedName_String (namespace name : string) : string :=
  namespace +:+ "/" +:+ name.

Definition ps_NamespacedName (p : OpenStackProvisionServer) : string :=
  NamespacedName_String (ps_Namespace p) (ps_Name p).

(** The loop that fills the map of ports in use. *)
Definition portsOf (items : list OpenStackProvisionServer) : gmap string Z :=
  foldl (λ found provServer,
    if ps_Port provServer =? 0 then found
    else <[ps_NamespacedName provServer := ps_Port provServer]> found) ∅ items.

Definition GetExistingProvServerPorts {W} `{Client W} (instance : OpenStackProvisionServer) :
    st W (gmap string Z) :=
  let! items := st_catch (prov_List []) (λ err, st_err (Errorf
    ("failed to get list of all OpenStackProvisionServer(s): " +:+ err_text err))) in
  st_ret (portsOf items).

(** [for ; ; cur++ { ... }] *)
Fixpoint portLoop `{MapOrder} (fuel : nat) (existingPorts : gmap string Z) (self : string)
    (portStart portEnd cur : Z) : outcome Z :=
  match fuel with
  | O => Panic "port loop: out of fuel"
  | S fuel' =>
      if portEnd <? cur then
        Err (Errorf ("selected port is out of range " +:+ pretty cur +:+ "-" +:+
          pretty portStart +:+ "-" +:+ pretty portEnd))
      else
        let found := existsb (λ '(_, port), port =? cur) (range 5 existingPorts) in
        if found then
          if negb (default 0 (existingPorts !! self) =? cur)
          then portLoop fuel' existingPorts self portStart portEnd (int32_wrap (cur + 1))
          else Ok cur
        else Ok cur
  end.

Definition portFuel (portEnd cur : Z) : nat := S (S (Z.to_nat (portEnd - cur))).
#[global] Arguments portFuel : simpl never.

(** Returns the instance with its port set. *)
Definition AssignProvisionServerPort {W} `{Client W} `{MapOrder}
    (instance : OpenStackProvisionServer) (portStart portEnd : Z) : st W OpenStackProvisionServer :=
  let! existingPorts := GetExistingProvServerPorts instance in
  let self := ps_NamespacedName instance in
  let cur := default 0 (existingPorts !! self) in
  let cur := if cur =? 0 then portStart else cur in
  let! cur := st_lift (portLoop (portFuel portEnd cur) existingPorts self portStart portEnd cur) in
  st_ret (ps_with_Spec (pss_with_Port cur (ps_Spec instance)) instance).

(** ** Lemmas *)

Lemma int32_wrap_id z : is_int32 z → int32_wrap z = z.
Proof.
  unfold is_int32, int32_max, int32_wrap. intros Hz. rewrite Z.mod_small; lia.
Qed.

Section ports.
Context `{Hord : MapOrder}.

(** A port somebody uses. *)
Definition port_used (ports : gmap string Z) (p : Z) : Prop := ∃ k, ports !! k = Some p.

Lemma port_used_existsb n (ports : gmap string Z) p :
  existsb (λ '(_, port), port =? p) (range n ports) = true ↔ port_used ports p.
Proof.
  rewrite existsb_range. unfold port_used. setoid_rewrite Z.eqb_eq. naive_solver.
Qed.

(** What the loop returns: the first port from [cur] on that nobody uses or that
    is the server's own; an error when there is none up to [portEnd]. *)
Definition port_spec (ports : gmap string Z) (self : string) (cur portEnd : Z)
    (r : outcome Z) : Prop :=
  let own := default 0 (ports !! self) in
  match r with
  | Ok p => cur ≤ p ≤ portEnd ∧ (¬ port_used ports p ∨ own = p) ∧
      ∀ q, cur ≤ q < p → port_used ports q ∧ own ≠ q
  | Err _ => ∀ q, cur ≤ q ≤ portEnd → port_used ports q ∧ own ≠ q
  | Panic _ => False
  end.

Lemma portLoop_spec fuel ports self start portEnd cur :
  is_int32 cur → portEnd < int32_max → (Z.to_nat (portEnd + 1 - cur) < fuel)%nat →
  port_spec ports self cur portEnd (portLoop fuel ports self start portEnd cur).
Proof.
  revert cur. induction fuel as [|fuel IH]; intros cur Hcur Hend Hfuel; [lia|]. simpl.
  destruct (Z.ltb_spec portEnd cur); [intros q ?; lia|].
  destruct (existsb _ _) eqn:Hf.
  - apply port_used_existsb in Hf.
    destruct (Z.eqb_spec (default 0 (ports !! self)) cur) as [Hown|Hown]; simpl.
    + split_and!; [lia|lia|by right|intros q ?; lia].
    + rewrite int32_wrap_id by (unfold is_int32 in *; lia).
      specialize (IH (cur + 1) ltac:(unfold is_int32 in *; lia) Hend ltac:(lia)).
      unfold port_spec in *. destruct (portLoop _ _ _ _ _ _) as [p|e|]; [|..|done].
      * destruct IH as (?&?&Hq). split_and!; [lia|lia|done|]. intros q ?.
        destruct (Z.eq_dec q cur) as [->|]; [done|]. apply Hq. lia.
      * intros q ?. destruct (Z.eq_dec q cur) as [->|]; [done|]. apply IH. lia.
  - assert (¬ port_used ports cur) by (rewrite <-(port_used_existsb 5), Hf; done).
    split_and!; [lia|lia|by left|intros q ?; lia].
Qed.

(** At the end of the type the counter wraps around: with every port up to the
    largest [int32] in use, the search goes on at the smallest one. *)
Lemma portLoop_wraps fuel ports self start cur :
  is_int32 cur → default 0 (ports !! self) = 0 → 0 < cur →
  (∀ q, cur ≤ q ≤ int32_max → port_used ports q) → ¬ port_used ports (- 2 ^ 31) →
  (Z.to_nat (int32_max + 1 - cur) < fuel)%nat →
  portLoop fuel ports self start int32_max cur = Ok (- 2 ^ 31).
Proof.
  intros Hcur Hown Hpos Hall Hfree. revert cur Hcur Hpos Hall.
  assert (Hstop : ∀ fuel, portLoop (S fuel) ports self start int32_max (- 2 ^ 31) = Ok (- 2 ^ 31)).
  { intros f. cbn [portLoop]. rewrite (proj2 (Z.ltb_ge _ _)) by (unfold int32_max; lia).
    destruct (existsb _ _) eqn:He; [|done]. by apply port_used_existsb in He. }
  induction fuel as [|fuel IH]; intros cur Hcur Hpos Hall Hfuel; [lia|]. cbn [portLoop].
  rewrite (proj2 (Z.ltb_ge _ _)) by (unfold is_int32, int32_max in *; lia).
  rewrite (proj2 (port_used_existsb 5 ports cur)) by (apply Hall; unfold is_int32, int32_max in *; lia).
  rewrite Hown, (proj2 (Z.eqb_neq 0 cur)) by lia. simpl.
  destruct (Z.eq_dec cur int32_max) as [->|Hne].
  - destruct fuel; [unfold int32_max in *; lia|]. apply Hstop.
  - rewrite int32_wrap_id by (unfold is_int32, int32_max in *; lia).
    apply IH; [unfold is_int32, int32_max in *; lia|lia| |unfold is_int32, int32_max in *; lia]. intros q ?. apply Hall. lia.
Qed.

End ports.

(** The ports a list of servers uses, when no two share a name. *)
Lemma portsOf_lookup items k p :
  NoDup (ps_NamespacedName <$> items) →
  portsOf items !! k = Some p ↔
  ∃ s, s ∈ items ∧ ps_NamespacedName s = k ∧ ps_Port s = p ∧ p ≠ 0.
Proof.
  unfold portsOf.
  assert (Hgen : ∀ (acc : gmap string Z), NoDup (ps_NamespacedName <$> items) →
    (∀ s, s ∈ items → acc !! ps_NamespacedName s = None) →
    foldl (λ found provServer,
      if ps_Port provServer =? 0 then found
      else <[ps_NamespacedName provServer := ps_Port provServer]> found) acc items !! k = Some p ↔
    acc !! k = Some p ∨ ∃ s, s ∈ items ∧ ps_NamespacedName s = k ∧ ps_Port s = p ∧ p ≠ 0).
  { induction items as [|s items IH]; intros acc Hnd Hfr; simpl; [set_solver|].
    apply NoDup_cons in Hnd as [Hs Hnd].
    assert (Hne : ∀ s', s' ∈ items → ps_NamespacedName s ≠ ps_NamespacedName s').
    { intros s' Hs' Heq. apply Hs. rewrite Heq. by apply list_elem_of_fmap_2. }
    destruct (Z.eqb_spec (ps_Port s) 0) as [Hz|Hz].
    - rewrite IH; [|done|set_solver]. setoid_rewrite elem_of_cons. naive_solver.
    - rewrite IH; [|done|].
      + rewrite lookup_insert. setoid_rewrite elem_of_cons. case_decide as Hk; [|naive_solver].
        subst k. rewrite (Hfr s) by set_solver. split; [naive_solver|].
        intros [?|(s' & [->|Hs'] & Heq & ?)]; [done|naive_solver|]. by destruct (Hne s' Hs').
      + intros s' Hs'. rewrite lookup_insert_ne by auto. apply Hfr. set_solver. }
  intros Hnd. rewrite Hgen by (done || set_solver). rewrite lookup_empty. naive_solver.
Qed.

(** One call of [AssignProvisionServerPort], when the servers can be listed. *)
Lemma AssignProvisionServerPort_run {W} `{Client W} `{MapOrder} instance portStart portEnd
    (w w' : W) items :
  prov_List [] w = (Ok items, w') →
  AssignProvisionServerPort instance portStart portEnd w =
    (let ports := portsOf items in
     let own := default 0 (ports !! ps_NamespacedName instance) in
     let cur := if own =? 0 then portStart else own in
     match portLoop (portFuel portEnd cur) ports (ps_NamespacedName instance) portStart portEnd cur with
     | Ok p => (Ok (ps_with_Spec (pss_with_Port p (ps_Spec instance)) instance), w')
     | Err e => (Err e, w')
     | Panic m => (Panic m, w')
     end).
Proof.
  intros Hl. unfold AssignProvisionServerPort, GetExistingProvServerPorts, st_bind, st_catch.
  rewrite Hl. simpl. by destruct (portLoop _ _ _ _ _ _).
Qed.

(** Whatever the cluster answers, nothing but the port of the instance changes. *)
Lemma AssignProvisionServerPort_only_port {W} `{Client W} `{MapOrder} instance portStart portEnd
    (w w' : W) i :
  AssignProvisionServerPort instance portStart portEnd w = (Ok i, w') →
  ∃ p, i = ps_with_Spec (pss_with_Port p (ps_Spec instance)) instance.
Proof.
  destruct (prov_List [] w) as [[items|e|m] w1] eqn:Hl.
  - rewrite (AssignProvisionServerPort_run _ _ _ _ _ _ Hl). cbv zeta.
    destruct (portLoop _ _ _ _ _ _) as [p| |]; [|done..]. intros [= <- _]. by exists p.
  - unfold AssignProvisionServerPort, GetExistingProvServerPorts, st_bind, st_catch. by rewrite Hl.
  - unfold AssignProvisionServerPort, GetExistingProvServerPorts, st_bind, st_catch. by rewrite Hl.
Qed.

(** The first port tried is in use by nobody else, so the loop stops at once. *)
Lemma portLoop_own `{MapOrder} fuel ports self start portEnd own :
  ports !! self = Some own → own ≤ portEnd →
  portLoop (S fuel) ports self start portEnd own = Ok own.
Proof.
  intros Hown Hle. simpl. rewrite Hown. simpl.
  rewrite (proj2 (Z.ltb_ge _ _) Hle), Z.eqb_refl. simpl. by destruct (existsb _ _).
Qed.

Section assign.
Context {W : Type} `{Hc : Client W} `{Ho : MapOrder}.
Context (instance : OpenStackProvisionServer) (w w' : W) (items : list OpenStackProvisionServer).
Hypothesis listed : prov_List [] w = (Ok items, w').
Hypothesis distinct : NoDup (ps_NamespacedName <$> items).

(** A port that a server of the cluster has. *)
Definition port_taken (p : Z) : Prop := ∃ s, s ∈ items ∧ ps_Port s = p ∧ p ≠ 0.

Lemma port_used_taken p : port_used (portsOf items) p ↔ port_taken p.
Proof.
  unfold port_used, port_taken. setoid_rewrite portsOf_lookup; [|done]. naive_solver.
Qed.

Lemma AssignProvisionServerPort_new portStart portEnd :
  (∀ s, s ∈ items → ps_NamespacedName s = ps_NamespacedName instance → ps_Port s = 0) →
  0 < portStart → is_int32 portStart → portEnd < int32_max →
  match AssignProvisionServerPort instance portStart portEnd w with
  | (Ok i, w2) => w2 = w' ∧ ∃ p, i = ps_with_Spec (pss_with_Port p (ps_Spec instance)) instance ∧
      portStart ≤ p ≤ portEnd ∧ ¬ port_taken p ∧ ∀ q, portStart ≤ q < p → port_taken q
  | (Err _, w2) => w2 = w' ∧ ∀ q, portStart ≤ q ≤ portEnd → port_taken q
  | (Panic _, _) => False
  end.
Proof.
  intros Hnew Hpos Hs He. rewrite (AssignProvisionServerPort_run _ _ _ _ _ _ listed). cbv zeta.
  assert (portsOf items !! ps_NamespacedName instance = None) as Hn.
  { destruct (portsOf items !! ps_NamespacedName instance) eqn:Hl; [|done].
    apply portsOf_lookup in Hl as (s&?&?&?&?); [|done]. exfalso. naive_solver. }
  rewrite Hn. change (default 0 None) with 0. cbn [Z.eqb].
  pose proof (portLoop_spec (portFuel portEnd portStart) (portsOf items)
    (ps_NamespacedName instance) portStart portEnd portStart Hs He ltac:(unfold portFuel; lia)) as Hl.
  unfold port_spec in Hl. rewrite Hn in Hl.
  pose proof port_used_taken as Hut.
  destruct (portLoop _ _ _ _ _ _) as [p|e|m]; [| |done].
  - destruct Hl as (?&Hf&Hq). split; [done|]. exists p.
    split_and!; [done|lia|lia| |intros q ?; apply Hut, Hq; lia].
    rewrite <-Hut. simpl in Hf. destruct Hf; [done|lia].
  - split; [done|]. intros q ?. apply Hut, Hl. lia.
Qed.

Lemma AssignProvisionServerPort_old s portStart portEnd :
  s ∈ items → ps_NamespacedName s = ps_NamespacedName instance → ps_Port s ≠ 0 →
  AssignProvisionServerPort instance portStart portEnd w =
    if ps_Port s <=? portEnd
    then (Ok (ps_with_Spec (pss_with_Port (ps_Port s) (ps_Spec instance)) instance), w')
    else (Err (Errorf ("selected port is out of range " +:+ pretty (ps_Port s) +:+ "-" +:+
            pretty portStart +:+ "-" +:+ pretty portEnd)), w').
Proof.
  intros Hs Hn Hp. rewrite (AssignProvisionServerPort_run _ _ _ _ _ _ listed). cbv zeta.
  assert (portsOf items !! ps_NamespacedName instance = Some (ps_Port s)) as Hl.
  { apply portsOf_lookup; [done|]. by exists s. }
  rewrite Hl. cbn [default from_option id]. rewrite (proj2 (Z.eqb_neq _ _) Hp). unfold portFuel.
  destruct (Z.leb_spec (ps_Port s) portEnd) as [Hle|Hlt].
  - by rewrite portLoop_own.
  - simpl. by rewrite (proj2 (Z.ltb_lt _ _) Hlt).
Qed.

(** With the range of the operator: the port of a server that has one, the lowest
    free one for a server that has none. *)
Lemma AssignProvisionServerPort_managed :
  let own s := s ∈ items ∧ ps_NamespacedName s = ps_NamespacedName instance ∧ ps_Port s ≠ 0 in
  let taken q := ∃ s, s ∈ items ∧ ps_Port s = q in
  match AssignProvisionServerPort instance ProvisionServerPortStart ProvisionServerPortEnd w with
  | (Ok i, w2) => w2 = w' ∧ ps_Port i ≤ 6210 ∧ (∀ s, own s → ps_Port i = ps_Port s) ∧
      ((∀ s, ¬ own s) → 6190 ≤ ps_Port i ∧ ¬ taken (ps_Port i) ∧ ∀ q, 6190 ≤ q < ps_Port i → taken q)
  | (Err _, w2) => w2 = w' ∧ ((∃ s, own s) ∨ ∀ q, 6190 ≤ q ≤ 6210 → taken q)
  | (Panic _, _) => False
  end.
Proof.
  intros own taken. destruct (portsOf items !! ps_NamespacedName instance) as [port|] eqn:Hown.
  - apply portsOf_lookup in Hown as (s & Hs & Hn & <- & Hp); [|done].
    rewrite (AssignProvisionServerPort_old s) by done. unfold ProvisionServerPortEnd.
    assert (Hsame : ∀ s', own s' → ps_Port s = ps_Port s').
    { intros s' (Hs' & Hn' & Hp'). assert (Hlk : portsOf items !! ps_NamespacedName instance = Some (ps_Port s))
        by (apply portsOf_lookup; [done|by exists s]).
      assert (Hlk' : portsOf items !! ps_NamespacedName instance = Some (ps_Port s'))
        by (apply portsOf_lookup; [done|by exists s']). congruence. }
    destruct (Z.leb_spec (ps_Port s) 6210); [|split; [done|left; by exists s]].
    split_and!; [done|done|done|]. intros Hno. by destruct (Hno s).
  - assert (Hno : ∀ s, ¬ own s).
    { intros s (Hs & Hn & Hp). assert (Hlk : portsOf items !! ps_NamespacedName instance = Some (ps_Port s))
        by (apply portsOf_lookup; [done|by exists s]). congruence. }
    pose proof (AssignProvisionServerPort_new ProvisionServerPortStart ProvisionServerPortEnd
      ltac:(intros s Hs Hn; destruct (Z.eq_dec (ps_Port s) 0) as [|Hp]; [done|by destruct (Hno s)])
      ltac:(done) ltac:(by unfold is_int32, int32_max) ltac:(done)) as Ha.
    unfold port_taken in Ha. destruct (AssignProvisionServerPort _ _ _ _) as [[i|e|m] w2]; [| |done].
    + destruct Ha as (-> & q & -> & [Hge Hle] & Hf & Hq). unfold ProvisionServerPortStart, ProvisionServerPortEnd in *.
      change (ps_Port (ps_with_Spec (pss_with_Port q (ps_Spec instance)) instance)) with q. split_and!; [done|done|naive_solver|].
      intros _. split_and!; [done| |intros q' (s & ? & ? & _)%Hq; by exists s].
      intros (s & Hs & Heq). apply Hf. exists s. split_and!; [done|done|lia].
    + destruct Ha as [-> Ha]. split; [done|]. right. intros q (s & ? & ? & _)%Ha. by exists s.
Qed.

End assign.

(** ** Properties *)

(** C15: a server without a port is given the lowest port of the range that no
    server of the cluster has, nothing else of it changes and the cluster is left
    as listing it left it; the call fails exactly when every port of the range is
    taken, and the search always ends. *)
Theorem AssignProvisionServerPort_lowest_free {W} `{Client W} `{MapOrder}
    instance portStart portEnd (w w' : W) items :
  prov_List [] w = (Ok items, w') → NoDup (ps_NamespacedName <$> items) →
  (∀ s, s ∈ items → ps_NamespacedName s = ps_NamespacedName instance → ps_Port s = 0) →
  0 < portStart → portStart < 2 ^ 31 → portEnd < 2 ^ 31 - 1 →
  match AssignProvisionServerPort instance portStart portEnd w with
  | (Ok i, w2) => w2 = w' ∧
      ∃ p, i = ps_with_Spec (pss_with_Port p (ps_Spec instance)) instance ∧
        portStart ≤ p ≤ portEnd ∧ (∀ s, s ∈ items → ps_Port s ≠ p) ∧
        ∀ q, portStart ≤ q < p → ∃ s, s ∈ items ∧ ps_Port s = q
  | (Err _, w2) => w2 = w' ∧ ∀ q, portStart ≤ q ≤ portEnd → ∃ s, s ∈ items ∧ ps_Port s = q
  | (Panic _, _) => False
  end.
Proof.
  intros Hl Hd Hn Hpos Hs He.
  pose proof (AssignProvisionServerPort_new instance w w' items Hl Hd portStart portEnd Hn Hpos
    ltac:(unfold is_int32, int32_max; lia) He) as Hr. unfold port_taken in Hr.
  destruct (AssignProvisionServerPort _ _ _ _) as [[i|e|m] w2]; [|naive_solver|done].
  destruct Hr as (->&p&?&?&Hf&?). split; [done|]. exists p. split_and!; [done|lia|lia| |naive_solver].
  intros s Hs' Hp. apply Hf. exists s. split_and!; [done|done|lia].
Qed.

Definition port_mem (ports : list (string * Z)) : mem :=
  mkMem ∅ ∅ (list_to_map ((λ '(n, p), (("ns", n), sample_prov "ns" n p)) <$> ports)) ∅ [].

Lemma AssignProvisionServerPort_lowest_free_witness :
  let w := port_mem [("a", 6190); ("b", 6192)] in
  ∃ i, AssignProvisionServerPort (H0 := list_order) (sample_prov "ns" "c" 0) 6190 6210 w = (Ok i, w) ∧
    ps_Port i = 6191.
Proof.
  intros w.
  pose proof (AssignProvisionServerPort_lowest_free (H0 := list_order) (sample_prov "ns" "c" 0) 6190 6210
    w w (mem_list_provs [] w)) as Ht.
  assert (Hrun : AssignProvisionServerPort (H0 := list_order) (sample_prov "ns" "c" 0) 6190 6210 w =
    (Ok (sample_prov "ns" "c" 6191), w)) by (vm_compute; reflexivity).
  rewrite Hrun in Ht.
  destruct Ht as (_ & p & Hi & _); [vm_compute; reflexivity| | |lia|lia|lia|].
  - by_compute.
  - apply (proj1 (Forall_forall (λ s, ps_NamespacedName s = "ns/c" → ps_Port s = 0) _)). by_compute.
  - exists (sample_prov "ns" "c" 6191). split; [exact Hrun|reflexivity].
Defined.

(** A server that already has a port keeps it, when it is at most
    [portEnd], even when another server has the same one; above [portEnd] the
    call fails, whatever ports are free. *)
Theorem AssignProvisionServerPort_keeps_own {W} `{Client W} `{MapOrder}
    instance portStart portEnd (w w' : W) items s :
  prov_List [] w = (Ok items, w') → NoDup (ps_NamespacedName <$> items) →
  s ∈ items → ps_NamespacedName s = ps_NamespacedName instance → ps_Port s ≠ 0 →
  AssignProvisionServerPort instance portStart portEnd w =
    (if ps_Port s <=? portEnd
     then Ok (ps_with_Spec (pss_with_Port (ps_Port s) (ps_Spec instance)) instance)
     else Err (Errorf ("selected port is out of range " +:+ pretty (ps_Port s) +:+ "-" +:+
            pretty portStart +:+ "-" +:+ pretty portEnd)), w').
Proof.
  intros Hl Hd Hs Hn Hp.
  rewrite (AssignProvisionServerPort_old instance w w' items Hl Hd s) by done.
  by destruct (ps_Port s <=? portEnd).
Qed.

(** Port 6215 is allowed by the CRD (6190 to 6220) but above the end of the range. *)
Lemma AssignProvisionServerPort_keeps_own_witness :
  let w := port_mem [("a", 6215)] in
  AssignProvisionServerPort (H0 := list_order) (sample_prov "ns" "a" 0) ProvisionServerPortStart
    ProvisionServerPortEnd w =
  (Err (Errorf "selected port is out of range 6215-6190-6210"), w).
Proof.
  intros w.
  rewrite (AssignProvisionServerPort_keeps_own (H0 := list_order) (sample_prov "ns" "a" 0)
    ProvisionServerPortStart ProvisionServerPortEnd w w [sample_prov "ns" "a" 6215]
    (sample_prov "ns" "a" 6215)).
  - vm_compute. reflexivity.
  - vm_compute. reflexivity.
  - apply NoDup_singleton.
  - apply list_elem_of_singleton. reflexivity.
  - reflexivity.
  - discriminate.
Defined.

(** C34: the port assigned is an [int32] and at most [portEnd], and at least
    [portStart] for a server that has none yet, as long as [portEnd] is below the
    largest [int32]. With the largest [int32] as the end of the range the bound
    check never fires: when all the ports up to it are taken, the counter wraps
    around and a negative port is assigned. *)
Theorem AssignProvisionServerPort_bounds {W} `{Client W} `{MapOrder}
    instance portStart portEnd (w w' : W) items :
  prov_List [] w = (Ok items, w') → NoDup (ps_NamespacedName <$> items) →
  Forall (λ s, is_int32 (ps_Port s)) items → 0 < portStart → is_int32 portStart →
  (portEnd < int32_max →
   ∀ i w2, AssignProvisionServerPort instance portStart portEnd w = (Ok i, w2) →
     is_int32 (ps_Port i) ∧ ps_Port i ≤ portEnd ∧
     ((∀ s, s ∈ items → ps_NamespacedName s = ps_NamespacedName instance → ps_Port s = 0) →
      portStart ≤ ps_Port i)) ∧
  (portEnd = int32_max →
   (∀ s, s ∈ items → ps_NamespacedName s = ps_NamespacedName instance → ps_Port s = 0) →
   (∀ q, portStart ≤ q ≤ int32_max → ∃ s, s ∈ items ∧ ps_Port s = q) →
   (∀ s, s ∈ items → ps_Port s ≠ - 2 ^ 31) →
   ∃ i, AssignProvisionServerPort instance portStart portEnd w = (Ok i, w') ∧ ps_Port i = - 2 ^ 31).
Proof.
  intros Hl Hd Hint Hpos Hs. pose proof (port_used_taken items Hd) as Hut.
  assert (Hown : (∀ s, s ∈ items → ps_NamespacedName s = ps_NamespacedName instance → ps_Port s = 0) →
    default 0 (portsOf items !! ps_NamespacedName instance) = 0).
  { intros Hno. destruct (portsOf items !! _) eqn:Hlk; [|done].
    apply portsOf_lookup in Hlk as (s & ? & ? & <- & ?); [|done]. simpl. by apply Hno. }
  rewrite (AssignProvisionServerPort_run _ _ _ _ _ _ Hl). cbv zeta.
  set (own := default 0 _) in *. split.
  - intros He i w2. set (cur := if own =? 0 then portStart else own).
    assert (Hcur : is_int32 cur).
    { unfold cur, own. destruct (portsOf items !! _) as [p|] eqn:Hlk; simpl; [|done].
      apply portsOf_lookup in Hlk as (s & Hin & _ & <- & _); [|done]. rewrite Forall_forall in Hint.
      destruct (_ =? 0); [done|by apply Hint]. }
    pose proof (portLoop_spec (portFuel portEnd cur) (portsOf items) (ps_NamespacedName instance) portStart
      portEnd cur Hcur He ltac:(unfold portFuel; lia)) as Hp. unfold port_spec in Hp.
    destruct (portLoop _ _ _ _ _ _) as [p|e|m]; [|done..]. intros [= <- _].
    change (ps_Port (ps_with_Spec (pss_with_Port p (ps_Spec instance)) instance)) with p.
    destruct Hp as (? & _). split_and!; [unfold is_int32 in *; lia|lia|].
    intros Hno%Hown. unfold cur in *. rewrite Hno in *. simpl in *. lia.
  - intros -> Hno%Hown Hall Hfree. rewrite Hno. change (0 =? 0) with true. cbv iota.
    rewrite portLoop_wraps; [by eexists; split|done|done|done| | |unfold portFuel; lia].
    + intros q Hq. apply Hut. destruct (Hall q Hq) as (s & ? & ?). exists s. split_and!; [done|done|lia].
    + intros (s & ? & ? & _)%Hut. by apply (Hfree s).
Qed.

Lemma AssignProvisionServerPort_bounds_witness :
  let w := port_mem [("a", 2147483647)] in
  ∃ i, AssignProvisionServerPort (H0 := list_order) (sample_prov "ns" "b" 0) 2147483647 2147483647 w = (Ok i, w) ∧
    ps_Port i = -2147483648.
Proof.
  intros w.
  destruct (AssignProvisionServerPort_bounds (H0 := list_order) (sample_prov "ns" "b" 0) 2147483647 2147483647
    w w (mem_list_provs [] w)) as [_ Hwrap].
  - vm_compute. reflexivity.
  - by_compute.
  - unfold is_int32. by_compute.
  - lia.
  - unfold is_int32, int32_max. lia.
  - destruct Hwrap as (i & Hr & Hi); [reflexivity| | | |exists i; split; [exact Hr|exact Hi]].
    + apply (proj1 (Forall_forall (λ s, ps_NamespacedName s = "ns/b" → ps_Port s = 0) _)). by_compute.
    + intros q Hq. exists (sample_prov "ns" "a" 2147483647). split; [|unfold int32_max in Hq; change (2147483647 = q); lia].
      vm_compute. left.
    + apply (proj1 (Forall_forall (λ s, ps_Port s ≠ - 2 ^ 31) _)). by_compute.
Defined.
