(* ===== verification/ProvWebhook.v ===== *)
(** * Admission of OpenStackProvisionServers

    [api/v1beta1/openstackprovisionserver_webhook.go], [SetupDefaults] of
    [api/v1beta1/openstackprovisionserver_types.go] and the webhook registered for
    the kind, [internal/webhook/v1beta1/openstackprovisionserver_webhook.go].

    The package variable [openstackProvisionServerDefaults] is an argument of the
    defaulter. The admission of requests, one at a time, is the step relation
    [admit_step]: the object a request leaves behind is the one the defaulter
    returned and the validator accepted. *)

From S2P Require Import Prelude GoStrings ApiTypes Samples Kube MemCluster ProvPorts.
From Stdlib Require Import Ascii.
#[local] Open Scope Z_scope.

(** ** The code *)

(** [util.GetEnvVar] of lib-common is the argument. *)
Definition SetupDefaults (GetEnvVar : string → string → string) :
    OpenStackProvisionServerDefaults :=
  {| psd_OSContainerImageURL := GetEnvVar "RELATED_IMAGE_OS_CONTAINER_IMAGE_URL_DEFAULT" OSContainerImage;
     psd_AgentImageURL := GetEnvVar "RELATED_IMAGE_AGENT_IMAGE_URL_DEFAULT" AgentImage;
     psd_ApacheImageURL := GetEnvVar "RELATED_IMAGE_APACHE_IMAGE_URL_DEFAULT" ApacheImage;
     psd_OSImage := GetEnvVar "OS_IMAGE_DEFAULT" OSImage |}.

Definition prov_validateCr {W} `{Client W} `{MapOrder} (r : OpenStackProvisionServer) : st W unit :=
  if ps_Port r =? 0 then
    st_err (Errorf ("no available ports in range " +:+ pretty ProvisionServerPortStart +:+ "-" +:+
      pretty ProvisionServerPortEnd))
  else
    let! existingPorts := GetExistingProvServerPorts r in
    match List.find (λ '(name, port),
        (port =? ps_Port r) && negb (String.eqb name (ps_NamespacedName r)))
        (range 6 existingPorts) with
    | Some (name, port) =>
        st_err (Errorf ("port " +:+ pretty port +:+
          " is already in use by another OpenStackProvisionServer: " +:+ name))
    | None => st_ret tt
    end.

(** The warnings returned with a verdict; the name errors collected on the way
    are not part of it. *)
Definition prov_ValidateCreate {W} `{Client W} `{LibCommon} `{MapOrder}
    (r : OpenStackProvisionServer) : st W (list string) :=
  let errors : list FieldError :=
    if hostname_rfc1123 (ps_Name r) then []
    else [mkFieldError "Name" (ps_Name r)
      ("Error validating OpenStackProvisionServer name " +:+ ps_Name r +:+ ", name must follow RFC1123")] in
  do! prov_validateCr r then st_ret [].

Definition prov_ValidateUpdate {W} `{Client W} `{MapOrder} (r : OpenStackProvisionServer)
    (old : RuntimeObject) : st W (list string) :=
  do! prov_validateCr r then st_ret [].

Definition prov_ValidateDelete {W} (r : OpenStackProvisionServer) : st W (list string) :=
  st_ret [].

Definition or_default (s d : string) : string := if String.eqb s "" then d else s.

(** Returns the object as the call leaves it: an error of the port search is
    logged and the port stays 0. *)
Definition prov_Default {W} `{Client W} `{MapOrder} (defaults : OpenStackProvisionServerDefaults)
    (r : OpenStackProvisionServer) : st W OpenStackProvisionServer :=
  let s := ps_Spec r in
  let r := ps_with_Spec (pss_with_images
    (or_default (pss_OSContainerImageURL s) (psd_OSContainerImageURL defaults))
    (or_default (pss_AgentImageURL s) (psd_AgentImageURL defaults))
    (or_default (pss_ApacheImageURL s) (psd_ApacheImageURL defaults))
    (or_default (pss_OSImage s) (psd_OSImage defaults)) s) r in
  if ps_Port r =? 0 then
    st_catch (AssignProvisionServerPort r ProvisionServerPortStart ProvisionServerPortEnd)
      (λ _, st_ret r)
  else st_ret r.

(** The registered webhook: type assertions around the functions above. *)
Definition ErrInvalidOpenStackProvisionServerType : string :=
  "expected an OpenStackProvisionServer object".

Definition as_prov {S A} (obj : RuntimeObject) (k : OpenStackProvisionServer → st S A) : st S A :=
  match obj with
  | ObjProvisionServer p => k p
  | _ => st_err (Errorf (ErrInvalidOpenStackProvisionServerType +:+ " but got " +:+ type_name obj))
  end.

Definition prov_Custom_Default {W} `{Client W} `{MapOrder} (defaults : OpenStackProvisionServerDefaults)
    (obj : RuntimeObject) : st W RuntimeObject :=
  as_prov obj (λ p, let! p' := prov_Default defaults p in st_ret (ObjProvisionServer p')).
Definition prov_Custom_ValidateCreate {W} `{Client W} `{LibCommon} `{MapOrder}
    (obj : RuntimeObject) : st W (list string) :=
  as_prov obj prov_ValidateCreate.
Definition prov_Custom_ValidateUpdate {W} `{Client W} `{MapOrder}
    (oldObj newObj : RuntimeObject) : st W (list string) :=
  as_prov newObj (λ p, prov_ValidateUpdate p oldObj).
Definition prov_Custom_ValidateDelete {W} (obj : RuntimeObject) : st W (list string) :=
  as_prov obj prov_ValidateDelete.

(** ** Names

    Namespaces hold no slash, so two servers with the same printed name are the
    same server. *)

Fixpoint no_slash (s : string) : bool :=
  match s with
  | EmptyString => true
  | String c s' => negb (Ascii.eqb c "/"%char) && no_slash s'
  end.

Lemma slash_inj a a' b b' :
  no_slash a = true → no_slash a' = true →
  a +:+ "/" +:+ b = a' +:+ "/" +:+ b' → a = a' ∧ b = b'.
Proof.
  revert a'. induction a as [|c a IH]; intros [|c' a'] Ha Ha' Heq;
    rewrite ?string_app_cons in Heq; simpl in Ha, Ha'.
  - injection Heq as Heq. split; [done|exact Heq].
  - injection Heq as <- _. done.
  - injection Heq as -> _. done.
  - apply andb_true_iff in Ha as [_ Ha], Ha' as [_ Ha']. injection Heq as -> Heq.
    destruct (IH a' Ha Ha' Heq) as [-> ->]. done.
Qed.

Lemma ps_NamespacedName_inj p q :
  no_slash (ps_Namespace p) = true → no_slash (ps_Namespace q) = true →
  ps_NamespacedName p = ps_NamespacedName q → ps_key p = ps_key q.
Proof.
  unfold ps_NamespacedName, NamespacedName_String, ps_key. intros Hp Hq Heq.
  by destruct (slash_inj _ _ _ _ Hp Hq Heq) as [-> ->].
Qed.

(** ** Lemmas *)

Section admission.
Context {W : Type} `{Hc : Client W} `{Ho : MapOrder}.

(** The validator accepts exactly a port that no other server has. *)
Lemma prov_validateCr_spec r (w w' : W) items :
  prov_List [] w = (Ok items, w') → NoDup (ps_NamespacedName <$> items) →
  (∃ w2, prov_validateCr r w = (Ok tt, w2)) ↔
  ps_Port r ≠ 0 ∧ ∀ s, s ∈ items → ps_Port s = ps_Port r → ps_NamespacedName s = ps_NamespacedName r.
Proof.
  intros Hl Hd. unfold prov_validateCr. destruct (Z.eqb_spec (ps_Port r) 0) as [Hz|Hz].
  { split; [intros [? ?]; done|naive_solver]. }
  unfold GetExistingProvServerPorts, st_bind, st_catch. rewrite Hl. simpl.
  destruct (List.find _ _) as [[name port]|] eqn:Hf.
  - apply find_some in Hf as [Hin%list_elem_of_In%elem_of_range [Hp Hn]%andb_true_iff].
    apply Z.eqb_eq in Hp. apply negb_true_iff, String.eqb_neq in Hn.
    apply portsOf_lookup in Hin as (s&?&?&?&?); [|done].
    split; [intros [? ?]; done|naive_solver].
  - split; [|intros _; by eexists]. intros _. split; [done|]. intros s Hs Hp.
    assert (Hin : (ps_NamespacedName s, ps_Port s) ∈ range 6 (portsOf items)).
    { apply elem_of_range, portsOf_lookup; [done|]. exists s. by rewrite Hp. }
    apply list_elem_of_In in Hin. apply (find_none _ _ Hf) in Hin. simpl in Hin.
    rewrite (proj2 (Z.eqb_eq _ _) Hp) in Hin. simpl in Hin.
    by apply negb_false_iff, String.eqb_eq in Hin.
Qed.

Lemma prov_validateCr_state r (w w' : W) items u w2 :
  prov_List [] w = (Ok items, w') → prov_validateCr r w = (Ok u, w2) → w2 = w'.
Proof.
  intros Hl. unfold prov_validateCr, GetExistingProvServerPorts, st_bind, st_catch.
  destruct (_ =? 0); [done|]. rewrite Hl. simpl. by destruct (List.find _ _) as [[??]|]; intros [= _ ->].
Qed.

(** The defaulter keeps the object's name, and its port when it has one. *)
Lemma prov_Default_meta defaults r r' (w w' : W) :
  prov_Default defaults r w = (Ok r', w') →
  ps_Meta r' = ps_Meta r ∧ (ps_Port r ≠ 0 → ps_Port r' = ps_Port r).
Proof.
  unfold prov_Default, st_catch. cbv zeta.
  change (ps_Port (ps_with_Spec (pss_with_images ?a ?b ?c ?d (ps_Spec r)) r)) with (ps_Port r).
  destruct (Z.eqb_spec (ps_Port r) 0); [|by intros [= <- _]].
  destruct (AssignProvisionServerPort _ _ _ w) as [[i| |] w1] eqn:Ha; [|by intros [= <- _]|done].
  apply AssignProvisionServerPort_only_port in Ha as [p ->]. by intros [= <- _].
Qed.

Lemma ps_NamespacedName_meta r r' : ps_Meta r' = ps_Meta r → ps_NamespacedName r' = ps_NamespacedName r.
Proof. intros Hm. unfold ps_NamespacedName, ps_Namespace, ps_Name. by rewrite Hm. Qed.

(** The defaulter gives a new server the first free port, if there is one. *)
Lemma prov_Default_new defaults r (w : W) items :
  prov_List [] w = (Ok items, w) → NoDup (ps_NamespacedName <$> items) →
  ps_NamespacedName r ∉ ps_NamespacedName <$> items → ps_Port r = 0 →
  ∃ r', prov_Default defaults r w = (Ok r', w) ∧ ps_Meta r' = ps_Meta r ∧
    ((6190 ≤ ps_Port r' ≤ 6210 ∧ (∀ s, s ∈ items → ps_Port s ≠ ps_Port r') ∧
      ∀ q, 6190 ≤ q < ps_Port r' → ∃ s, s ∈ items ∧ ps_Port s = q) ∨
     (ps_Port r' = 0 ∧ ∀ q, 6190 ≤ q ≤ 6210 → ∃ s, s ∈ items ∧ ps_Port s = q)).
Proof.
  intros Hl Hd Hn Hp. unfold prov_Default, st_catch. cbv zeta.
  set (r1 := ps_with_Spec _ r). change (ps_Port r1) with (ps_Port r). rewrite Hp.
  cbn [Z.eqb]. change (ps_Meta r) with (ps_Meta r1).
  change (ps_NamespacedName r) with (ps_NamespacedName r1) in Hn.
  assert (Hnew : ∀ s, s ∈ items → ps_NamespacedName s ≠ ps_NamespacedName r1).
  { intros s Hs Heq. apply Hn. rewrite <-Heq. by apply list_elem_of_fmap_2. }
  pose proof (AssignProvisionServerPort_new r1 w w items Hl Hd ProvisionServerPortStart
    ProvisionServerPortEnd ltac:(naive_solver) ltac:(done) ltac:(by unfold is_int32, int32_max)
    ltac:(done)) as Ha. unfold port_taken, ProvisionServerPortStart, ProvisionServerPortEnd in *.
  destruct (AssignProvisionServerPort _ _ _ _) as [[i|e|m] w2]; [| |done].
  - destruct Ha as (->&p&->&?&Hf&Hq). eexists. split_and!; [done|done|]. left.
    split; [done|]. split; [|intros q (s&?&?&_)%Hq; by exists s].
    intros s Hs Heq. apply Hf. exists s. split_and!; [done|done|lia].
  - destruct Ha as [-> Ha]. eexists. split_and!; [done|done|]. right. split; [done|].
    intros q (s&?&?&_)%Ha. by exists s.
Qed.

(** The validator accepts a new server that has a port nobody else has. *)
Lemma prov_ValidateCreate_new r (w : W) items :
  prov_List [] w = (Ok items, w) → NoDup (ps_NamespacedName <$> items) →
  ps_NamespacedName r ∉ ps_NamespacedName <$> items →
  (∃ warnings w', prov_ValidateCreate r w = (Ok warnings, w')) ↔
    ps_Port r ≠ 0 ∧ ∀ s, s ∈ items → ps_Port s ≠ ps_Port r.
Proof.
  intros Hl Hd Hn.
  assert (Hv : (∃ warnings w', prov_ValidateCreate r w = (Ok warnings, w')) ↔ ∃ w', prov_validateCr r w = (Ok tt, w')).
  { unfold prov_ValidateCreate, st_bind. destruct (prov_validateCr r w) as [[[]| |] w1]; naive_solver. }
  rewrite Hv, (prov_validateCr_spec r w w items Hl Hd). split; intros [Hp Hf]; (split; [done|]).
  - intros s Hs Heq. apply Hn. rewrite <-(Hf s Hs Heq). by apply list_elem_of_fmap_2.
  - intros s Hs Heq. by destruct (Hf s Hs).
Qed.

End admission.

(** ** Admission, one request at a time *)

Section reach.
Context {W : Type} `{Hc : Client W} `{Hv : ClientView W} `{Hl : !ClientLaws W}.
Context `{Hlib : LibCommon} `{Ho : MapOrder} (defaults : OpenStackProvisionServerDefaults).

(** A request passes the mutating webhook, then the validating one; what it
    leaves in the cluster is the object they agreed on. Status updates do not
    go through the webhooks. *)
Inductive admit_step (w w' : W) : Prop :=
| admit_create r r' warns :
    provs w !! ps_key r = None → no_slash (ps_Namespace r) = true →
    prov_Custom_Default defaults (ObjProvisionServer r) w = (Ok (ObjProvisionServer r'), w) →
    prov_Custom_ValidateCreate (ObjProvisionServer r') w = (Ok warns, w) →
    provs w' = <[ps_key r := r']> (provs w) → admit_step w w'
| admit_update old r r' warns :
    provs w !! ps_key r = Some old →
    prov_Custom_Default defaults (ObjProvisionServer r) w = (Ok (ObjProvisionServer r'), w) →
    prov_Custom_ValidateUpdate (ObjProvisionServer old) (ObjProvisionServer r') w = (Ok warns, w) →
    provs w' = <[ps_key r := r']> (provs w) → admit_step w w'
| admit_delete r warns :
    prov_Custom_ValidateDelete (ObjProvisionServer r) w = (Ok warns, w) →
    provs w' = delete (ps_key r) (provs w) → admit_step w w'
| admit_status old s :
    provs w !! ps_key old = Some old →
    provs w' = <[ps_key old := ps_with_Status s old]> (provs w) → admit_step w w'.

(** Every server is stored under its own name, has a port, and no two share one. *)
Record ports_inv (m : gmap (string * string) OpenStackProvisionServer) : Prop := {
  pi_key : ∀ k s, m !! k = Some s → ps_key s = k ∧ no_slash (ps_Namespace s) = true;
  pi_port : ∀ k s, m !! k = Some s → ps_Port s ≠ 0;
  pi_uniq : ∀ k1 k2 s1 s2, m !! k1 = Some s1 → m !! k2 = Some s2 →
    ps_Port s1 = ps_Port s2 → k1 = k2;
}.

(** Storing a server whose port nobody else has keeps the invariant. *)
Lemma ports_inv_insert m r :
  ports_inv m → no_slash (ps_Namespace r) = true → ps_Port r ≠ 0 →
  (∀ k s, m !! k = Some s → ps_Port s = ps_Port r → k = ps_key r) →
  ports_inv (<[ps_key r := r]> m).
Proof.
  intros [Hk Hp Hu] Hs Hr Hf. split.
  - intros k s [[<- <-]|[_ ?]]%lookup_insert_Some; [done|]. by apply Hk.
  - intros k s [[<- <-]|[_ ?]]%lookup_insert_Some; [done|]. by eapply Hp.
  - intros k1 k2 s1 s2 [[<- <-]|[? H1]]%lookup_insert_Some [[<- <-]|[? H2]]%lookup_insert_Some Heq;
      [done|symmetry; by eapply Hf|by eapply Hf|by eapply Hu].
Qed.

(** The servers listed are those stored, each with a name of its own. *)
Lemma prov_List_inv (w : W) items w' :
  ports_inv (provs w) → prov_List [] w = (Ok items, w') →
  NoDup (ps_NamespacedName <$> items) ∧ ∀ k s, provs w !! k = Some s ↔ s ∈ items ∧ ps_key s = k.
Proof.
  intros [Hk Hp Hu] (-> & Hnd & Hin)%prov_List_ok.
  assert (Hin' : ∀ p, p ∈ items ↔ provs w !! ps_key p = Some p).
  { intros p. rewrite Hin. unfold opts_select. rewrite Forall_nil. tauto. }
  split.
  - apply NoDup_fmap_2_strong; [|by eapply NoDup_fmap_1].
    intros p q Hip%Hin' Hiq%Hin' Heq. apply ps_NamespacedName_inj in Heq;
      [rewrite Heq in Hip; congruence|by eapply Hk..].
  - intros k s. rewrite Hin'. split; [|by intros [? <-]]. intros Hs.
    by rewrite (proj1 (Hk _ _ Hs)).
Qed.

(** What an accepted object brings into the cluster. *)
Lemma validateCr_inv (w : W) r :
  ports_inv (provs w) → no_slash (ps_Namespace r) = true →
  (∃ w2, prov_validateCr r w = (Ok tt, w2)) →
  ports_inv (<[ps_key r := r]> (provs w)).
Proof.
  intros Hi Hs Hok.
  assert (Hpl : ∃ items w', prov_List [] w = (Ok items, w')).
  { destruct Hok as [w2 Hok]. unfold prov_validateCr, GetExistingProvServerPorts, st_bind, st_catch in Hok.
    destruct (_ =? 0); [done|]. destruct (prov_List [] w) as [[items| |] w']; by eauto. }
  destruct Hpl as (items & w' & Hpl). destruct (prov_List_inv w items w' Hi Hpl) as [Hnd Hin].
  destruct (proj1 (prov_validateCr_spec r w w' items Hpl Hnd) Hok) as [Hp Hu].
  apply ports_inv_insert; [done..|]. intros k s Hks Heq.
  assert (Hs' := proj2 (pi_key _ Hi _ _ Hks)). apply Hin in Hks as [? <-].
  apply ps_NamespacedName_inj; auto.
Qed.

Lemma admit_step_inv w w' : admit_step w w' → ports_inv (provs w) → ports_inv (provs w').
Proof.
  assert (Hd : ∀ r r', prov_Custom_Default defaults (ObjProvisionServer r) w =
    (Ok (ObjProvisionServer r'), w) → ps_Meta r' = ps_Meta r).
  { intros r r'. unfold prov_Custom_Default, as_prov, st_bind.
    destruct (prov_Default defaults r w) as [[p| |] w1] eqn:He; [|done..].
    intros [= -> _]. by eapply prov_Default_meta. }
  assert (Hkey : ∀ r r', ps_Meta r' = ps_Meta r →
    ps_key r' = ps_key r ∧ ps_Namespace r' = ps_Namespace r).
  { intros r r' Hm. unfold ps_key, ps_Namespace, ps_Name. by rewrite Hm. }
  intros Hstep Hi. destruct Hstep as [r r' warns Hn Hs Hdef Hval ->|old r r' warns Hn Hdef Hval ->
    |r warns _ ->|old s Ho' ->].
  - apply Hd, Hkey in Hdef as [<- Hns]. apply validateCr_inv; [done|by rewrite Hns|].
    unfold prov_Custom_ValidateCreate, as_prov, prov_ValidateCreate, st_bind in Hval.
    destruct (prov_validateCr r' w) as [[[]| |] w2]; by eauto.
  - apply Hd, Hkey in Hdef as [Hk Hns]. destruct (pi_key _ Hi _ _ Hn) as [Hkr Hs].
    rewrite <-Hk. apply validateCr_inv; [done| |].
    + rewrite Hns. injection Hkr as Hkr _. by rewrite <-Hkr.
    + unfold prov_Custom_ValidateUpdate, as_prov, prov_ValidateUpdate, st_bind in Hval.
      destruct (prov_validateCr r' w) as [[[]| |] w2]; by eauto.
  - destruct Hi as [Hk Hp Hu]. split; intros *; rewrite ?lookup_delete_Some; naive_solver.
  - change (ps_key old) with (ps_key (ps_with_Status s old)).
    apply ports_inv_insert; [done|exact (proj2 (pi_key _ Hi _ _ Ho'))|exact (pi_port _ Hi _ _ Ho')|].
    intros k s' Hs' Heq. eapply (pi_uniq _ Hi); [exact Hs'|exact Ho'|exact Heq].
Qed.

End reach.

(** ** Properties *)

(** C16: from a cluster without provision servers, after any sequence of
    creations, updates, deletions and status updates that pass the webhooks one
    at a time, every provision server has a port and no two have the same. *)
Theorem prov_ports_unique {W} `{Client W} `{ClientView W} `{!ClientLaws W} `{LibCommon} `{MapOrder}
    defaults (w0 w : W) :
  provs w0 = ∅ → rtc (admit_step defaults) w0 w →
  (∀ k s, provs w !! k = Some s → ps_Port s ≠ 0) ∧
  (∀ k1 k2 s1 s2, provs w !! k1 = Some s1 → provs w !! k2 = Some s2 →
    ps_Port s1 = ps_Port s2 → k1 = k2).
Proof.
  intros Hw0 Hr.
  assert (Hi : ports_inv (provs w0)) by (rewrite Hw0; split; intros *; by rewrite ?lookup_empty).
  clear Hw0. induction Hr as [w|w w1 w2 Hs _ IH]; [destruct Hi; naive_solver|].
  apply IH. by eapply admit_step_inv.
Qed.

Definition sample_defaults : OpenStackProvisionServerDefaults := SetupDefaults (λ _ d, d).

Lemma prov_ports_unique_witness :
  let w := port_mem [("a", 6190); ("b", 6191)] in
  rtc (admit_step (Ho := list_order) sample_defaults) (port_mem []) w ∧
  (∀ k s, provs w !! k = Some s → ps_Port s ≠ 0).
Proof.
  intros w.
  assert (Hr : rtc (admit_step (Ho := list_order) sample_defaults) (port_mem []) w).
  { apply rtc_l with (port_mem [("a", 6190)]).
    - eapply (admit_create _ _ _ (sample_prov "ns" "a" 0) (sample_prov "ns" "a" 6190) []);
        vm_compute; reflexivity.
    - apply rtc_once.
      eapply (admit_create _ _ _ (sample_prov "ns" "b" 0) (sample_prov "ns" "b" 6191) []);
        vm_compute; reflexivity. }
  split; [exact Hr|].
  exact (proj1 (prov_ports_unique (H2 := list_order) sample_defaults (port_mem []) w
    eq_refl Hr)).
Defined.

(** A new server without a port, whatever its name, passes the webhooks
    exactly when one of the ports 6190 to 6210 is free. The name is checked on the
    way, but the verdict does not depend on it. *)
Theorem prov_admission_free_port {W} `{Client W} `{LibCommon} `{MapOrder}
    defaults r (w : W) items :
  prov_List [] w = (Ok items, w) → NoDup (ps_NamespacedName <$> items) →
  ps_NamespacedName r ∉ ps_NamespacedName <$> items → ps_Port r = 0 →
  ∃ r', prov_Default defaults r w = (Ok r', w) ∧ ps_Meta r' = ps_Meta r ∧
    ((∃ warnings w', prov_ValidateCreate r' w = (Ok warnings, w')) ↔
     ∃ p, 6190 ≤ p ≤ 6210 ∧ ∀ s, s ∈ items → ps_Port s ≠ p).
Proof.
  intros Hl Hd Hn Hp. destruct (prov_Default_new defaults r w items Hl Hd Hn Hp) as (r' & Hr & Hm & Hcases).
  exists r'. split; [done|]. split; [done|]. rewrite <-(ps_NamespacedName_meta _ _ Hm) in Hn.
  etrans; [exact (prov_ValidateCreate_new r' w items Hl Hd Hn)|].
  destruct Hcases as [(Hrange & Hf & _)|[Hz Htaken]].
  - split; [intros _; by exists (ps_Port r')|]. intros _. split; [lia|done].
  - split; [by intros [? _]|]. intros (p & Hin & Hf). destruct (Htaken p Hin) as (s & Hs & ?). by destruct (Hf s Hs).
Qed.

Lemma prov_admission_free_port_witness :
  let w := port_mem [("a", 6190)] in let r := sample_prov "ns" "" 0 in
  hostname_rfc1123 (ps_Name r) = false ∧
  ∃ r', prov_Default (H0 := list_order) sample_defaults r w = (Ok r', w) ∧
    ∃ warnings w', prov_ValidateCreate (H1 := list_order) r' w = (Ok warnings, w').
Proof.
  intros w r. split; [vm_compute; reflexivity|].
  destruct (prov_admission_free_port (H1 := list_order) sample_defaults r w [sample_prov "ns" "a" 6190])
    as (r' & Hr & _ & Hv).
  - vm_compute; reflexivity.
  - apply NoDup_singleton.
  - by_compute.
  - vm_compute; reflexivity.
  - exists r'. split; [exact Hr|]. apply Hv. exists 6191. split; [lia|].
    intros s ->%list_elem_of_singleton. vm_compute. discriminate.
Defined.

(** C35: the webhooks look at the servers that are stored, so they cannot tell two
    requests apart that overlap: two new servers without a port whose webhooks run
    before either is stored get the same port, and both pass, whenever a port is free. *)
Theorem overlapping_admissions_share_port {W} `{Client W} `{LibCommon} `{MapOrder}
    defaults r s (w : W) items :
  prov_List [] w = (Ok items, w) → NoDup (ps_NamespacedName <$> items) →
  ps_NamespacedName r ∉ ps_NamespacedName <$> items → ps_NamespacedName s ∉ ps_NamespacedName <$> items →
  ps_Port r = 0 → ps_Port s = 0 →
  (∃ p, 6190 ≤ p ≤ 6210 ∧ ∀ q, q ∈ items → ps_Port q ≠ p) →
  ∃ r' s' warns_r warns_s w_r w_s,
    prov_Default defaults r w = (Ok r', w) ∧ prov_Default defaults s w = (Ok s', w) ∧
    prov_ValidateCreate r' w = (Ok warns_r, w_r) ∧ prov_ValidateCreate s' w = (Ok warns_s, w_s) ∧
    ps_Port r' = ps_Port s' ∧ 6190 ≤ ps_Port r' ≤ 6210.
Proof.
  intros Hl Hd Hnr Hns Hpr Hps (p & Hp & Hfree).
  destruct (prov_Default_new defaults r w items Hl Hd Hnr Hpr) as (r' & Hr & Hmr & Hcr).
  destruct (prov_Default_new defaults s w items Hl Hd Hns Hps) as (s' & Hs & Hms & Hcs).
  destruct Hcr as [(Hinr & Hfr & Hlr)|[_ Ht]]; [|by destruct (Ht p Hp) as (q & Hq & ?); destruct (Hfree q Hq)].
  destruct Hcs as [(Hins & Hfs & Hls)|[_ Ht]]; [|by destruct (Ht p Hp) as (q & Hq & ?); destruct (Hfree q Hq)].
  assert (Heq : ps_Port r' = ps_Port s').
  { destruct (Z.lt_trichotomy (ps_Port r') (ps_Port s')) as [Hlt|[?|Hlt]]; [|done|].
    - destruct (Hls (ps_Port r')) as (q & Hq & Hpq); [lia|]. by destruct (Hfr q Hq).
    - destruct (Hlr (ps_Port s')) as (q & Hq & Hpq); [lia|]. by destruct (Hfs q Hq). }
  destruct (proj2 (prov_ValidateCreate_new r' w items Hl Hd ltac:(by rewrite (ps_NamespacedName_meta _ _ Hmr)))
    ltac:(split; [lia|done])) as (wr & w1 & Hvr).
  destruct (proj2 (prov_ValidateCreate_new s' w items Hl Hd ltac:(by rewrite (ps_NamespacedName_meta _ _ Hms)))
    ltac:(split; [lia|done])) as (ws & w2 & Hvs).
  by exists r', s', wr, ws, w1, w2.
Qed.

Lemma overlapping_admissions_share_port_witness :
  let w := port_mem [("a", 6190)] in
  ∃ r' s', prov_Default (H0 := list_order) sample_defaults (sample_prov "ns" "b" 0) w = (Ok r', w) ∧
    prov_Default (H0 := list_order) sample_defaults (sample_prov "ns" "c" 0) w = (Ok s', w) ∧
    ps_Port r' = ps_Port s'.
Proof.
  intros w.
  destruct (overlapping_admissions_share_port (H1 := list_order) sample_defaults (sample_prov "ns" "b" 0)
    (sample_prov "ns" "c" 0) w [sample_prov "ns" "a" 6190])
    as (r' & s' & wr & ws & w1 & w2 & Hr & Hs & _ & _ & Heq & _).
  - vm_compute; reflexivity.
  - apply NoDup_singleton.
  - by_compute.
  - by_compute.
  - reflexivity.
  - reflexivity.
  - exists 6191. split; [lia|]. intros q ->%list_elem_of_singleton. vm_compute. discriminate.
  - exists r', s'. exact (conj Hr (conj Hs Heq)).
Defined.
