(* ===== verification/SetWebhook.v ===== *)
(** * Admission of OpenStackBaremetalSets

    [api/v1beta1/openstackbaremetalset_webhook.go] and the webhook registered for
    the kind, [internal/webhook/v1beta1/openstackbaremetalset_webhook.go]: what a
    creation or an update must satisfy before the reconciler sees it. *)

From S2P Require Import Prelude GoStrings ApiTypes Samples Kube MemCluster Matching Hardware ScaleUp.

(** ** The code *)

(** [fmt.Sprintf("%v", l)] *)
Definition sprint_strings (l : list string) : string := "[" +:+ String.concat " " l +:+ "]".

Definition secret_elsewhere (ref : option SecretReference) (namespace : string) : bool :=
  match ref with
  | Some s => negb (String.eqb (sr_Namespace s) namespace)
  | None => false
  end.
Definition secret_name (ref : option SecretReference) : string :=
  match ref with Some s => sr_Name s | None => "" end.

Definition secretsWithIssue `{MapOrder} (r : OpenStackBaremetalSet) : list string :=
  let ns := set_Namespace r in
  let bmhNs := set_BmhNamespace r in
  let password := ts_PasswordSecret (set_Template r) in
  (if secret_elsewhere password ns
   then [secret_name password +:+ " (must be in OpenStackBaremetalSet namespace " +:+ ns +:+ ")"] else []) ++
  concat ((λ '(_, host),
    (if secret_elsewhere (is_NetworkData host) bmhNs
     then [secret_name (is_NetworkData host) +:+ " (must be in bmh namespace " +:+ bmhNs +:+ ")"] else []) ++
    (if secret_elsewhere (is_UserData host) bmhNs
     then [secret_name (is_UserData host) +:+ " (must be in bmh namespace " +:+ bmhNs +:+ ")"] else []))
    <$> range 7 (set_SpecHosts r)).

Definition ValidateSecretNamespaces `{MapOrder} (r : OpenStackBaremetalSet) : outcome unit :=
  match secretsWithIssue r with
  | [] => Ok tt
  | l => Err (Errorf ("invalid secret namespace references: " +:+ sprint_strings l))
  end.

Definition set_ValidateCreate {W} `{Client W} `{LibCommon} `{MapOrder} (r : OpenStackBaremetalSet) :
    st W (list string) :=
  if negb (hostname_rfc1123 (set_Name r)) then
    st_err (NewInvalid "baremetal.openstack.org" "OpenStackBaremetalSet" (set_Name r)
      [mkFieldError "Name" (set_Name r) ("Error validating OpenStackBaremetalSet name " +:+
         set_Name r +:+ ", name must follow RFC1123")])
  else
    do! st_lift (ValidateSecretNamespaces r) then
    let! baremetalHostsList :=
      GetBaremetalHosts (set_BmhNamespace r) (ts_BmhLabelSelector (set_Template r)) in
    do! st_lift (VerifyBaremetalSetScaleUp r baremetalHostsList []) then
    st_ret [].

Definition ValidateTemplate `{LibCommon} (spec : OpenStackBaremetalSetTemplateSpec) (oldCount : nat)
    (oldSpec : OpenStackBaremetalSetTemplateSpec) : outcome unit :=
  if bool_decide (0 < oldCount) &&
     (negb (DeepEqual_labels (ts_BmhLabelSelector spec) (ts_BmhLabelSelector oldSpec)) ||
      negb (DeepEqual_reqs (ts_HardwareReqs spec) (ts_HardwareReqs oldSpec)))
  then Err (Errorf ("cannot change " +:+ dquote +:+ "bmhLabelSelector" +:+ dquote +:+ " nor " +:+
    dquote +:+ "hardwareReqs" +:+ dquote +:+ " when previous count of " +:+ dquote +:+
    "baremetalHosts" +:+ dquote +:+ " > 0"))
  else Ok tt.

(** The cluster is asked for hosts only when the number of computes changes. *)
Definition set_ValidateUpdate {W} `{Client W} `{LibCommon} `{MapOrder} (r : OpenStackBaremetalSet)
    (old : RuntimeObject) : st W (list string) :=
  match old with
  | ObjBaremetalSet oldInstance =>
      let oldCount := size (set_SpecHosts oldInstance) in
      do! st_lift (ValidateTemplate (set_Template r) oldCount (set_Template oldInstance)) then
      do! st_lift (ValidateSecretNamespaces r) then
      let newCount := size (set_SpecHosts r) in
      if negb (Nat.eqb newCount oldCount) then
        let! r := VerifyAndSyncBaremetalStatusBmhRefs r in
        if Nat.ltb oldCount newCount then
          let! baremetalHostsList :=
            GetBaremetalHosts (set_BmhNamespace r) (ts_BmhLabelSelector (set_Template r)) in
          let! existingBaremetalHosts :=
            GetBaremetalHosts (set_BmhNamespace r)
              (GetLabels (set_Meta r) (GetGroupLabel ServiceName) ∅) in
          do! st_lift (VerifyBaremetalSetScaleUp r baremetalHostsList existingBaremetalHosts) then
          st_ret []
        else st_ret []
      else st_ret []
  | _ => st_err (Errorf "runtime object is not an OpenStackBaremetalSet")
  end.

Definition set_ValidateDelete {W} (r : OpenStackBaremetalSet) : st W (list string) := st_ret [].

(** The registered webhook. *)
Definition ErrInvalidOpenStackBaremetalSetType : string := "expected an OpenStackBaremetalSet object".

Definition skipValidationWarning `{LibCommon} : string :=
  "webhook validation is being skipped due to the " +:+ SkipValidationAnnotation +:+
  " annotation; remove it when no longer needed".

Definition as_set {S A} (obj : RuntimeObject) (k : OpenStackBaremetalSet → st S A) : st S A :=
  match obj with
  | ObjBaremetalSet i => k i
  | _ => st_err (Errorf (ErrInvalidOpenStackBaremetalSetType +:+ " but got " +:+ type_name obj))
  end.

(** [if annotations.SkipValidation(obj) { return warning } else { k }] *)
Definition unless_skipped {W} `{LibCommon} (i : OpenStackBaremetalSet) (k : st W (list string)) :
    st W (list string) :=
  if SkipValidation (om_Annotations (set_Meta i)) then st_ret [skipValidationWarning] else k.

Definition set_Custom_Default {W} (obj : RuntimeObject) : st W RuntimeObject :=
  as_set obj (λ i, st_ret (ObjBaremetalSet i)).
Definition set_Custom_ValidateCreate {W} `{Client W} `{LibCommon} `{MapOrder} (obj : RuntimeObject) :
    st W (list string) :=
  as_set obj (λ i, unless_skipped i (set_ValidateCreate i)).
Definition set_Custom_ValidateUpdate {W} `{Client W} `{LibCommon} `{MapOrder}
    (oldObj newObj : RuntimeObject) : st W (list string) :=
  as_set newObj (λ i, unless_skipped i (set_ValidateUpdate i oldObj)).
Definition set_Custom_ValidateDelete {W} `{LibCommon} (obj : RuntimeObject) : st W (list string) :=
  as_set obj (λ i, unless_skipped i (set_ValidateDelete i)).

(** ** Lemmas *)

(** Every secret reference points where the reconciler reads it from. *)
Record secrets_in_place (r : OpenStackBaremetalSet) : Prop := {
  sip_password : ∀ s, ts_PasswordSecret (set_Template r) = Some s → sr_Namespace s = set_Namespace r;
  sip_network : ∀ c host s, set_SpecHosts r !! c = Some host → is_NetworkData host = Some s →
    sr_Namespace s = set_BmhNamespace r;
  sip_user : ∀ c host s, set_SpecHosts r !! c = Some host → is_UserData host = Some s →
    sr_Namespace s = set_BmhNamespace r;
}.

Lemma secret_elsewhere_spec ref ns :
  secret_elsewhere ref ns = false ↔ ∀ s, ref = Some s → sr_Namespace s = ns.
Proof.
  destruct ref as [s|]; simpl; [|naive_solver].
  rewrite negb_false_iff, String.eqb_eq. naive_solver.
Qed.

Lemma ValidateSecretNamespaces_spec `{MapOrder} r :
  ValidateSecretNamespaces r = Ok tt ↔ secrets_in_place r.
Proof.
  trans (secretsWithIssue r = []).
  { unfold ValidateSecretNamespaces. by destruct (secretsWithIssue r). }
  assert (Hif : ∀ (b : bool) (s : string), (if b then [s] else []) = [] ↔ b = false).
  { intros [] s; naive_solver. }
  unfold secretsWithIssue. rewrite app_nil, Hif, secret_elsewhere_spec.
  rewrite concat_nil_Forall, Forall_fmap, Forall_forall.
  split.
  - intros [Hp Hh]. split; [done|..]; intros c host s Hc;
      specialize (Hh (c, host)); rewrite elem_of_range in Hh; specialize (Hh Hc); simpl in Hh;
      apply app_nil in Hh as [Hn%Hif Hu%Hif]; rewrite secret_elsewhere_spec in Hn, Hu; auto.
  - intros [Hp Hn Hu]. split; [done|]. intros [c host] Hc%elem_of_range. simpl.
    rewrite app_nil, !Hif, !secret_elsewhere_spec. eauto.
Qed.

Lemma ValidateTemplate_spec `{LibCommon} `{!LibCommonLaws} spec n oldSpec :
  ValidateTemplate spec n oldSpec = Ok tt ↔
  (n ≠ 0 → ts_BmhLabelSelector spec = ts_BmhLabelSelector oldSpec ∧
           ts_HardwareReqs spec = ts_HardwareReqs oldSpec).
Proof.
  unfold ValidateTemplate.
  pose proof (DeepEqual_labels_spec (ts_BmhLabelSelector spec) (ts_BmhLabelSelector oldSpec)) as Hl.
  pose proof (DeepEqual_reqs_spec (ts_HardwareReqs spec) (ts_HardwareReqs oldSpec)) as Hr.
  case_bool_decide as Hn; simpl; [|naive_solver lia].
  destruct (DeepEqual_labels _ _), (DeepEqual_reqs _ _); simpl; split; try done; intros Hd;
    try specialize (Hd ltac:(lia)); naive_solver.
Qed.

Lemma unless_skipped_ok {W} `{LibCommon} i (k : st W (list string)) w :
  (∃ warns w', unless_skipped i k w = (Ok warns, w')) ↔
  SkipValidation (om_Annotations (set_Meta i)) = true ∨ ∃ warns w', k w = (Ok warns, w').
Proof.
  unfold unless_skipped, st_ret. destruct (SkipValidation _); [|naive_solver].
  split; [by left|]. intros _. by eexists _, _.
Qed.

(** A check that succeeds lets the rest decide. *)
Lemma st_lift_ok {S B} (o : outcome unit) (k : unit → st S B) s :
  (∃ b s', st_bind (st_lift o) k s = (Ok b, s')) ↔ o = Ok tt ∧ ∃ b s', k tt s = (Ok b, s').
Proof. unfold st_bind, st_lift. destruct o as [[]| |]; naive_solver. Qed.

Lemma st_lift_last {S A} (o : outcome A) (s : S) (l : list string) :
  (∃ b s', st_bind (st_lift o) (λ _, st_ret l) s = (Ok b, s')) ↔ ∃ a, o = Ok a.
Proof.
  unfold st_bind, st_lift, st_ret. destruct o as [a| |]; [|naive_solver..].
  split; [by exists a|by eexists _, _].
Qed.

(** A read that answers without changing the cluster. *)
Lemma st_read_bind {S A B} (c : st S A) (k : A → st S B) s a :
  c s = (Ok a, s) → st_bind c k s = k a s.
Proof. intros Hc. unfold st_bind. by rewrite Hc. Qed.

(** ** Properties *)

(** C20: while the cluster answers, the webhook accepts the creation of a set
    exactly when it asks for validation to be skipped, or its name is a valid
    label value, every secret it refers to is in the namespace it is read from,
    and its computes can all be given distinct available hosts that match the
    selectors. *)
Theorem set_create_admission {W} `{Client W} `{LibCommon} `{MapOrder} r (w : W) matching :
  GetBaremetalHosts (set_BmhNamespace r) (ts_BmhLabelSelector (set_Template r)) w = (Ok matching, w) →
  (∃ warns w', set_Custom_ValidateCreate (ObjBaremetalSet r) w = (Ok warns, w')) ↔
  SkipValidation (om_Annotations (set_Meta r)) = true ∨
  (hostname_rfc1123 (set_Name r) = true ∧ secrets_in_place r ∧ ∃ a, valid_selection r matching a).
Proof.
  intros Hm. simpl. rewrite unless_skipped_ok. apply or_iff_compat_l. unfold set_ValidateCreate.
  destruct (hostname_rfc1123 (set_Name r)); simpl; [|split; [by intros (?&?&?)|by intros [? _]]].
  rewrite st_lift_ok, (st_read_bind _ _ _ _ Hm), st_lift_last.
  rewrite <-ValidateSecretNamespaces_spec, <-(scaleUp_ok_iff r matching []). tauto.
Qed.

(** C19: while the cluster answers, the webhook accepts an update of a set
    exactly when it asks for validation to be skipped, or: the label selector and
    the hardware requirements are those of the old set, unless that had no
    computes; every secret reference is in its namespace; and, when there are
    more computes than before, the computes that have no live host can all be
    given distinct available ones. An update that exchanges computes without
    changing their number is not checked against the hosts. *)
Theorem set_update_admission {W} `{Client W} `{LibCommon} `{!LibCommonLaws} `{MapOrder}
    old r (w : W) all matching existing :
  GetBaremetalHosts (set_BmhNamespace r) ∅ w = (Ok all, w) →
  GetBaremetalHosts (set_BmhNamespace r) (ts_BmhLabelSelector (set_Template r)) w = (Ok matching, w) →
  GetBaremetalHosts (set_BmhNamespace r)
    (GetLabels (set_Meta r) (GetGroupLabel ServiceName) ∅) w = (Ok existing, w) →
  (∃ warns w', set_Custom_ValidateUpdate (ObjBaremetalSet old) (ObjBaremetalSet r) w = (Ok warns, w')) ↔
  SkipValidation (om_Annotations (set_Meta r)) = true ∨
  ((set_SpecHosts old ≠ ∅ →
      ts_BmhLabelSelector (set_Template r) = ts_BmhLabelSelector (set_Template old) ∧
      ts_HardwareReqs (set_Template r) = ts_HardwareReqs (set_Template old)) ∧
   secrets_in_place r ∧
   (size (set_SpecHosts old) < size (set_SpecHosts r) →
      ∃ a, valid_selection (syncBmhRefs all r) matching a)).
Proof.
  intros Ha Hm He. simpl. rewrite unless_skipped_ok. apply or_iff_compat_l. unfold set_ValidateUpdate.
  rewrite !st_lift_ok, <-map_size_non_empty_iff, <-ValidateTemplate_spec, <-ValidateSecretNamespaces_spec.
  apply and_iff_compat_l, and_iff_compat_l.
  destruct (syncBmhRefs_rest all r) as (Hsp & Hme & _).
  assert (Hsync : VerifyAndSyncBaremetalStatusBmhRefs r w = (Ok (syncBmhRefs all r), w)).
  { unfold VerifyAndSyncBaremetalStatusBmhRefs. by rewrite (st_read_bind _ _ _ _ Ha). }
  assert (Hok : ∃ warns w', st_ret (S := W) (@nil string) w = (Ok warns, w')) by by eexists _, _.
  destruct (Nat.eqb_spec (size (set_SpecHosts r)) (size (set_SpecHosts old))) as [Heq|Hne]; simpl.
  { split; [intros _; lia|done]. }
  rewrite (st_read_bind _ _ _ _ Hsync).
  destruct (Nat.ltb_spec (size (set_SpecHosts old)) (size (set_SpecHosts r))) as [Hlt|Hge].
  - unfold set_BmhNamespace, set_Template in *. rewrite Hsp, Hme.
    rewrite (st_read_bind _ _ _ _ Hm), (st_read_bind _ _ _ _ He), st_lift_last, scaleUp_ok_iff.
    split; auto.
  - split; [intros _; lia|done].
Qed.

(** A second compute is added while a matching host is free. *)
Definition webhook_mem : mem :=
  mkMem (list_to_map ((λ n, (("bmh", n), sample_bmh n {["rack" := "1"]})) <$> ["h0"; "h1"])) ∅ ∅ ∅ [].
Definition webhook_old : OpenStackBaremetalSet :=
  sample_set HardwareReqs_zero {["c0" := sample_instance ∅]} {["c0" := sample_host_status "c0" "h0"]}.
Definition webhook_new : OpenStackBaremetalSet :=
  sample_set HardwareReqs_zero {["c0" := sample_instance ∅; "c1" := sample_instance {["rack" := "1"]}]}
    {["c0" := sample_host_status "c0" "h0"]}.

Lemma set_create_admission_witness :
  let hosts := mem_list_hosts [InNamespace "bmh"] webhook_mem in
  secrets_in_place webhook_new ∧ ∃ a, valid_selection (Hord := list_order) webhook_new hosts a.
Proof.
  intros hosts.
  assert (Hl : GetBaremetalHosts (H := mem_client) "bmh" ∅ webhook_mem = (Ok hosts, webhook_mem))
    by (vm_compute; reflexivity).
  assert (Hok : set_Custom_ValidateCreate (H1 := list_order) (ObjBaremetalSet webhook_new) webhook_mem =
    (Ok [], webhook_mem)) by (vm_compute; reflexivity).
  destruct (proj1 (set_create_admission (H1 := list_order) webhook_new webhook_mem hosts Hl)
    (ex_intro _ [] (ex_intro _ webhook_mem Hok))) as [Hskip|(_&Hs)].
  - vm_compute in Hskip. discriminate.
  - exact Hs.
Defined.

Lemma set_update_admission_witness :
  let hosts := mem_list_hosts [InNamespace "bmh"] webhook_mem in
  ∃ a, valid_selection (Hord := list_order) (syncBmhRefs (H := list_order) hosts webhook_new) hosts a.
Proof.
  intros hosts.
  assert (Hl : GetBaremetalHosts (H := mem_client) "bmh" ∅ webhook_mem = (Ok hosts, webhook_mem))
    by (vm_compute; reflexivity).
  assert (He : GetBaremetalHosts (H := mem_client) "bmh"
    (GetLabels (set_Meta webhook_new) (GetGroupLabel ServiceName) ∅) webhook_mem = (Ok [], webhook_mem))
    by (vm_compute; reflexivity).
  assert (Hok : set_Custom_ValidateUpdate (H1 := list_order) (ObjBaremetalSet webhook_old)
    (ObjBaremetalSet webhook_new) webhook_mem = (Ok [], webhook_mem)) by (vm_compute; reflexivity).
  destruct (proj1 (set_update_admission (H2 := list_order) webhook_old webhook_new webhook_mem
    hosts hosts [] Hl Hl He) (ex_intro _ [] (ex_intro _ webhook_mem Hok))) as [Hskip|(_&_&Hsel)].
  - vm_compute in Hskip. discriminate.
  - apply Hsel. vm_compute. lia.
Defined.
