(* ===== verification/BmhProvision.v ===== *)
(** * Provisioning and deprovisioning a BareMetalHost

    [internal/openstackbaremetalset/baremetalhost.go], [baremetalset.go] and
    [const.go]: what a host given to a compute is made to look like, which
    cloud-init secrets are generated for it, and how it is released.

    Both operations write the status of the instance in their last step, so they
    return the instance they leave; on an error it is the one they were given.
    The callers pass the provision server and the SSH secret they obtained
    without error, so these are not nil. *)

From S2P Require Import Prelude GoStrings GoNet ApiTypes Samples Kube MemCluster Hardware ScaleUp.

(** ** Names *)

Definition BmhRefInitState : string := "unassigned".
Definition CloudInitUserDataSecretName (instance hostName : string) : string :=
  instance +:+ "-cloudinit-userdata-" +:+ hostName.
Definition CloudInitNetworkDataSecretName (instance hostName : string) : string :=
  instance +:+ "-cloudinit-networkdata-" +:+ hostName.
Definition HostnameLabelSelectorSuffix : string := "-osbms-hostname".
Definition HostRemovalAnnotation : string := "baremetal.openstack.org/delete-host".
Definition MustGatherSecret : string := "baremetal.openstack.org/must-gather-secret".

Definition newline : string := String (Ascii.ascii_of_nat 10) "".

(** ** Host names *)

Module Fqdn.
Import Regexp.

Definition alpha (c : Ascii.ascii) : bool :=
  let z := code c in
  ((97 <=? z) && (z <=? 122) || (65 <=? z) && (z <=? 90))%Z.
(** [[a-zA-Z0-9-]] *)
Definition label_char (c : Ascii.ascii) : bool :=
  alpha c || is_digit c || Ascii.eqb c (Ascii.ascii_of_nat 45).

(** [([a-zA-Z0-9-]+\.)*[a-zA-Z0-9-]+\.[a-zA-Z]{2,}] *)
Definition regex : re :=
  Cat (Star (Cat (Plus (Cls label_char)) (Chr dot)))
    (Cat (Plus (Cls label_char)) (Cat (Chr dot) (AtLeast2 (Cls alpha)))).

End Fqdn.

Definition hostNameIsFQDN (hostname : string) : bool :=
  Regexp.full_match Fqdn.regex (chars hostname).

(** ** Cloud-init secrets *)

Definition backupLabels `{LibCommon} : gmap string string :=
  MergeStringMaps GetBackupLabels [GetRestoreLabels].

(** The user data template, when the spec gives no secret. *)
Definition userDataTemplate `{LibCommon} (instance : OpenStackBaremetalSet) (hostName : string)
    (sshSecret : Secret) (passwordSecret : option Secret) : Template :=
  let domain := ts_DomainName (set_Template instance) in
  let templateParameters : gmap string TemplateValue :=
    {["AuthorizedKeys" :=
        TVString (TrimSuffix (default "" (sec_Data sshSecret !! "authorized_keys")) newline)]} in
  let templateParameters := <["HostName" := TVString hostName]> templateParameters in
  let templateParameters :=
    if negb (hostNameIsFQDN hostName) && negb (String.eqb domain "")
    then <["FQDN" := TVString (String.concat "." [hostName; domain])]> templateParameters
    else <["FQDN" := TVString hostName]> templateParameters in
  let templateParameters :=
    <["CloudUserName" := TVString (ts_CloudUserName (set_Template instance))]> templateParameters in
  let secretLabels := GetLabels (set_Meta instance) (GetGroupLabel ServiceName) backupLabels in
  let templateParameters :=
    match passwordSecret with
    | Some s =>
        let p := default "" (sec_Data s !! "NodeRootPassword") in
        if bool_decide (0 < String.length p) then <["NodeRootPassword" := TVString p]> templateParameters
        else templateParameters
    | None => templateParameters
    end in
  {| tpl_Name := CloudInitUserDataSecretName (set_Name instance) hostName;
     tpl_Namespace := set_BmhNamespace instance;
     tpl_Type := TemplateTypeConfig;
     tpl_InstanceType := set_Kind instance;
     tpl_AdditionalTemplate := {["userData" := "/openstackbaremetalset/cloudinit/userdata"]};
     tpl_Labels := secretLabels;
     tpl_ConfigOptions := templateParameters |}.


(** The parameters of the network data template, for the parsed address. *)
Definition networkDataParameters (instance : OpenStackBaremetalSet) (hostName : string)
    (ipAddr netmask : list Z) : gmap string TemplateValue :=
  let host := spec_host instance hostName in
  let spec := set_Spec instance in
  let CtlplaneIPVersion := match To4 ipAddr with Some _ => "ipv4" | None => "ipv6" end in
  let p : gmap string TemplateValue := {["CtlplaneIpVersion" := TVString CtlplaneIPVersion]} in
  let p := <["CtlplaneIp" := TVIP ipAddr]> p in
  let p :=
    match is_CtlplaneVlan host, bs_CtlplaneVlan spec with
    | Some vlan, _ => <["CtlplaneVlan" := TVInt vlan]> p
    | None, Some vlan => <["CtlplaneVlan" := TVInt vlan]> p
    | None, None => p
    end in
  let p := <["CtlplaneInterface" := TVString
      (if negb (String.eqb (is_CtlplaneInterface host) "") then is_CtlplaneInterface host
       else ts_CtlplaneInterface (set_Template instance))]> p in
  let p := <["CtlplaneGateway" := TVString
      (if negb (String.eqb (is_CtlplaneGateway host) "") then is_CtlplaneGateway host
       else bs_CtlplaneGateway spec)]> p in
  let p :=
    match ts_CtlplaneBond (set_Template instance) with
    | Some bond =>
        let p := <["CtlplaneBondInterfaces" := TVStrings (bc_BondInterfaces bond)]> p in
        let p := if negb (String.eqb (bc_BondMode bond) "")
                 then <["CtlplaneBondMode" := TVString (bc_BondMode bond)]> p else p in
        if bool_decide (0 < size (bc_BondOptions bond))
        then <["CtlplaneBondOptions" := TVStringMap (bc_BondOptions bond)]> p else p
    | None => p
    end in
  let p := <["CtlplaneNetmask" := TVIP netmask]> p in
  let p := <["CtlplaneDns" := TVStrings
      (if bool_decide (0 < length (bs_BootstrapDNS spec)) then bs_BootstrapDNS spec else [])]> p in
  <["CtlplaneDnsSearch" := TVStrings
      (if bool_decide (0 < length (bs_DNSSearchDomains spec)) then bs_DNSSearchDomains spec else [])]> p.

(** The network data template, when the spec gives no secret; an error when the
    control plane address is not one. *)
Definition networkDataTemplate `{LibCommon} (instance : OpenStackBaremetalSet)
    (hostName ctlPlaneIP : string) : outcome Template :=
  let? (ipAddr, netmask) := ParseCIDR ctlPlaneIP in
  let networkDataLabels :=
    MergeStringMaps {[MustGatherSecret := "yes"]} [GetBackupLabels; GetRestoreLabels] in
  Ok {| tpl_Name := CloudInitNetworkDataSecretName (set_Name instance) hostName;
        tpl_Namespace := set_BmhNamespace instance;
        tpl_Type := TemplateTypeConfig;
        tpl_InstanceType := set_Kind instance;
        tpl_AdditionalTemplate := {["networkData" := "/openstackbaremetalset/cloudinit/networkdata"]};
        tpl_Labels := GetLabels (set_Meta instance) (GetGroupLabel ServiceName) networkDataLabels;
        tpl_ConfigOptions := networkDataParameters instance hostName ipAddr netmask |}.

(** The templates to create and the secrets the host will use. *)
Definition userDataFor `{LibCommon} (instance : OpenStackBaremetalSet) (hostName : string)
    (sshSecret : Secret) (passwordSecret : option Secret) : list Template * SecretReference :=
  match is_UserData (spec_host instance hostName) with
  | Some s => ([], s)
  | None =>
      let t := userDataTemplate instance hostName sshSecret passwordSecret in
      ([t], mkSecretReference (tpl_Name t) (set_BmhNamespace instance))
  end.

Definition networkDataFor `{LibCommon} (instance : OpenStackBaremetalSet)
    (hostName ctlPlaneIP : string) : outcome (list Template * SecretReference) :=
  match is_NetworkData (spec_host instance hostName) with
  | Some s => Ok ([], s)
  | None =>
      let? t := networkDataTemplate instance hostName ctlPlaneIP in
      Ok ([t], mkSecretReference (tpl_Name t) (set_BmhNamespace instance))
  end.

(** ** The host *)

Definition hostnameLabelKey (instance : OpenStackBaremetalSet) : string :=
  set_Name instance +:+ HostnameLabelSelectorSuffix.

(** The labels that say which compute of which instance a host belongs to. *)
Definition bmhOwnerLabels `{LibCommon} (instance : OpenStackBaremetalSet) (hostName : string) :
    gmap string string :=
  GetLabels (set_Meta instance) (GetGroupLabel ServiceName) {[hostnameLabelKey instance := hostName]}.

(** The image a host is provisioned with, by deployment type. *)
Definition imageFor (instance : OpenStackBaremetalSet) (provServer : OpenStackProvisionServer) : Image :=
  if String.eqb (ts_OSImageDeploymentType (set_Template instance)) OSImageDeploymentTypePassThrough
  then mkImage (ts_OSContainerImageURL (set_Template instance)) "" ""
  else mkImage (pst_LocalImageURL (ps_Status provServer))
         (pst_LocalImageChecksumURL (ps_Status provServer))
         (pst_OSImageChecksumType (ps_Status provServer)).

Definition bmh_with_labels (l : gmap string string) (m : ObjectMeta) : ObjectMeta :=
  mkObjectMeta (om_Name m) (om_Namespace m) (om_UID m) (om_Generation m) l (om_Annotations m)
    (om_Finalizers m) (om_DeletionTimestamp m).
Definition bmh_with_annotations (a : gmap string string) (m : ObjectMeta) : ObjectMeta :=
  mkObjectMeta (om_Name m) (om_Namespace m) (om_UID m) (om_Generation m) (om_Labels m) a
    (om_Finalizers m) (om_DeletionTimestamp m).

(** What the callback of [CreateOrPatch] makes of the spec of a host in the
    given provisioning state. *)
Definition provisionSpec (instance : OpenStackBaremetalSet) (provServer : OpenStackProvisionServer)
    (userData networkData : SecretReference) (state : string) (s : BareMetalHostSpec) :
    BareMetalHostSpec :=
  let s := mkBmhSpec (bmhs_Image s) (bmhs_ExternallyProvisioned s) (bmhs_CustomDeploy s)
    (bmhs_ConsumerRef s) (bmhs_Online s) (bmhs_UserData s) (bmhs_NetworkData s)
    (ts_AutomatedCleaningMode (set_Template instance)) in
  let s :=
    if negb (String.eqb state StateProvisioned) then
      mkBmhSpec (Some (imageFor instance provServer)) (bmhs_ExternallyProvisioned s)
        (bmhs_CustomDeploy s) (bmhs_ConsumerRef s) (bmhs_Online s) (bmhs_UserData s)
        (bmhs_NetworkData s) (bmhs_AutomatedCleaningMode s)
    else s in
  match bmhs_ConsumerRef s with
  | None =>
      mkBmhSpec (Some (imageFor instance provServer)) (bmhs_ExternallyProvisioned s)
        (bmhs_CustomDeploy s)
        (Some (mkObjectReference (set_Name instance) (set_Kind instance) (set_Namespace instance)))
        true (Some userData) (Some networkData) (bmhs_AutomatedCleaningMode s)
  | Some _ => s
  end.

(** The callback of [CreateOrPatch]. *)
Definition provisionPatch `{LibCommon} (instance : OpenStackBaremetalSet) (hostName : string)
    (provServer : OpenStackProvisionServer) (userData networkData : SecretReference)
    (found : BareMetalHost) : BareMetalHost :=
  let labelSelector := bmhOwnerLabels instance hostName in
  let meta := bmh_with_labels (MergeStringMaps (bmh_Labels found) [labelSelector]) (bmh_Meta found) in
  mkBmh meta
    (provisionSpec instance provServer userData networkData
       (bmht_ProvisioningState (bmh_Status found)) (bmh_Spec found))
    (bmh_Status found).

(** ** The operations *)

Definition provisionStatus (instance : OpenStackBaremetalSet) (bmh hostName ctlPlaneIP : string) :
    HostStatus :=
  match set_Hosts instance !! hostName with
  | Some bmhStatus => bmhStatus
  | None => mkHostStatus (mkIPStatus hostName bmh {["ctlplane" := ctlPlaneIP]}) "" false "" ""
  end.

(** The status entry once the host has been patched. *)
Definition provisionedStatus (bmhStatus : HostStatus) (userData networkData : SecretReference)
    (found : BareMetalHost) : HostStatus :=
  mkHostStatus (hs_IPStatus bmhStatus) (bmht_ProvisioningState (bmh_Status found))
    (hs_AnnotatedForDeletion bmhStatus) (sr_Name userData) (sr_Name networkData).

Definition BaremetalHostProvision {W} `{Client W} `{LibCommon} (instance : OpenStackBaremetalSet)
    (bmh hostName ctlPlaneIP : string) (provServer : OpenStackProvisionServer)
    (sshSecret : Secret) (passwordSecret : option Secret) (envVars : EnvVars) :
    st W (OpenStackBaremetalSet * EnvVars) :=
  let bmhStatus := provisionStatus instance bmh hostName ctlPlaneIP in
  let '(userSts, userDataSecret) := userDataFor instance hostName sshSecret passwordSecret in
  let! netData := st_lift (networkDataFor instance hostName ctlPlaneIP) in
  let '(netSts, networkDataSecret) := netData in
  let sts := userSts ++ netSts in
  let! envVars :=
    if bool_decide (0 < length sts) then EnsureSecrets instance sts envVars else st_ret envVars in
  let! foundBaremetalHost := bmh_Get (set_BmhNamespace instance) bmh in
  let! foundBaremetalHost := bmh_CreateOrPatch foundBaremetalHost
    (provisionPatch instance hostName provServer userDataSecret networkDataSecret) in
  match bst_BaremetalHosts (set_Status instance) with
  | Some hosts =>
      let bmhStatus := provisionedStatus bmhStatus userDataSecret networkDataSecret foundBaremetalHost in
      st_ret (set_with_Hosts (Some (<[hostName := bmhStatus]> hosts)) instance, envVars)
  | None => st_panic "assignment to entry in nil map"
  end.

(** The host as [BaremetalHostDeprovision] writes it back. *)
Definition deprovisionedHost `{LibCommon} `{MapOrder} (instance : OpenStackBaremetalSet)
    (bmhStatus : HostStatus) (baremetalHost : BareMetalHost) : BareMetalHost :=
  let labelSelector := bmhOwnerLabels instance (hs_Hostname bmhStatus) in
  let labels := foldl (λ l '(key, _), delete key l) (bmh_Labels baremetalHost) (range 8 labelSelector) in
  let meta := bmh_with_labels labels (bmh_Meta baremetalHost) in
  let annotations := delete HostRemovalAnnotation (om_Annotations meta) in
  let s := bmh_Spec baremetalHost in
  mkBmh (bmh_with_annotations annotations meta)
    (mkBmhSpec None (bmhs_ExternallyProvisioned s) (bmhs_CustomDeploy s) None false None None
       (bmhs_AutomatedCleaningMode s))
    (bmh_Status baremetalHost).

Definition BaremetalHostDeprovision {W} `{Client W} `{LibCommon} `{MapOrder}
    (instance : OpenStackBaremetalSet) (bmhStatus : HostStatus) : st W OpenStackBaremetalSet :=
  let! baremetalHost := bmh_Get (set_BmhNamespace instance) (hs_BmhRef bmhStatus) in
  do! bmh_Update (deprovisionedHost instance bmhStatus baremetalHost) then
  do! st_iter (λ secret, DeleteSecretsWithName secret (set_BmhNamespace instance))
        [CloudInitUserDataSecretName (set_Name instance) (hs_BmhRef bmhStatus);
         CloudInitNetworkDataSecretName (set_Name instance) (hs_BmhRef bmhStatus)] then
  st_ret (set_delete_host (hs_Hostname bmhStatus) instance).

Definition GetBmhRefStatus `{MapOrder} (instance : OpenStackBaremetalSet) (bmh : string) :
    outcome HostStatus :=
  match List.find (λ '(_, bmhStatus), String.eqb (hs_BmhRef bmhStatus) bmh)
          (range 9 (set_Hosts instance)) with
  | Some (_, bmhStatus) => Ok bmhStatus
  | None => Err (mkError true ("OpenStackBaremetalHostStatus " +:+ dquote +:+ "not found" +:+ dquote +:+
              " not found"))
  end.

(** ** Lemmas on host names *)

Section fqdn.
Import Fqdn Regexp.

(** A label of a domain name, and a top-level domain. *)
Definition is_label (s : string) : Prop :=
  s ≠ "" ∧ Forall (λ c, label_char c = true) (chars s).
Definition is_tld (s : string) : Prop :=
  2 ≤ length (chars s) ∧ Forall (λ c, alpha c = true) (chars s).

Lemma chars_of_list l : chars (String.string_of_list_ascii l) = l.
Proof. apply String.list_ascii_of_string_of_list_ascii. Qed.

Lemma chars_nil s : chars s = [] ↔ s = "".
Proof. by destruct s. Qed.

Lemma chars_concat labels tld :
  chars (String.concat "." (labels ++ [tld])) =
  concat ((λ l, chars l ++ [dot]) <$> labels) ++ chars tld.
Proof.
  induction labels as [|l labels IH]; [done|].
  assert (Hc : String.concat "." ((l :: labels) ++ [tld]) = l +:+ "." +:+ String.concat "." (labels ++ [tld]))
    by (by destruct labels).
  rewrite Hc, !chars_app, IH. simpl. by rewrite <-!app_assoc.
Qed.

Lemma matches_label_dot s :
  matches (Cat (Plus (Cls label_char)) (Chr dot)) s ↔ ∃ l, s = chars l ++ [dot] ∧ is_label l.
Proof.
  rewrite matches_cat_inv. unfold Chr. setoid_rewrite matches_plus_cls.
  setoid_rewrite matches_cls_inv. split.
  - intros (s1 & s2 & -> & [Hne Hf] & c & -> & <-%Ascii.eqb_eq).
    exists (String.string_of_list_ascii s1). unfold is_label.
    rewrite <-chars_nil, chars_of_list. done.
  - intros (l & -> & Hne & Hf). exists (chars l), [dot]. rewrite chars_nil.
    split_and!; [done|done|done|]. by exists dot.
Qed.

Lemma fqdn_matches s :
  matches regex s ↔ ∃ labels tld, labels ≠ [] ∧ s = chars (String.concat "." (labels ++ [tld])) ∧
    Forall is_label labels ∧ is_tld tld.
Proof.
  assert (Hassoc : matches regex s ↔ ∃ parts p t, s = concat parts ++ p ++ t ∧
    Forall (matches (Cat (Plus (Cls label_char)) (Chr dot))) parts ∧
    matches (Cat (Plus (Cls label_char)) (Chr dot)) p ∧ matches (AtLeast2 (Cls alpha)) t).
  { unfold regex. rewrite matches_cat_inv. setoid_rewrite matches_star. split.
    - intros (?&s2&->&(parts&->&Hp)&Hs). apply matches_cat_inv in Hs as (a&?&->&Ha&Hs).
      apply matches_cat_inv in Hs as (b&t&->&Hb&Ht). exists parts, (a ++ b), t.
      rewrite <-app_assoc. split; [done|]. split; [done|]. split; [|done].
      apply matches_cat_inv. by exists a, b.
    - intros (parts&p&t&->&Hp&Hs&Ht). apply matches_cat_inv in Hs as (a&b&->&Ha&Hb).
      exists (concat parts), ((a ++ b) ++ t). split; [done|]. split; [by exists parts|].
      rewrite <-app_assoc. apply matches_cat_inv. exists a, (b ++ t). split; [done|]. split; [done|].
      apply matches_cat_inv. by exists b, t. }
  rewrite Hassoc. clear Hassoc. setoid_rewrite chars_concat. split.
  - intros (parts & p & t & -> & Hp & (l & -> & Hl)%matches_label_dot & Ht%matches_atleast2_cls).
    assert (∃ labels, parts = (λ l, chars l ++ [dot]) <$> labels ∧ Forall is_label labels)
      as (labels & -> & Hls).
    { induction Hp as [|q parts Hq _ IH]; [by exists []|].
      apply matches_label_dot in Hq as (lq & -> & Hq). destruct IH as (labels & -> & ?).
      exists (lq :: labels). split; [done|by constructor]. }
    exists (labels ++ [l]), (String.string_of_list_ascii t). unfold is_tld. rewrite chars_of_list.
    rewrite fmap_app, concat_app, <-!app_assoc. simpl. rewrite app_nil_r, <-app_assoc.
    split_and!; [by destruct labels|done| |naive_solver..]. apply Forall_app; auto.
  - intros (labels & tld & Hne & -> & Hls & Htld).
    destruct labels as [|l labels _] using rev_ind; [done|].
    apply Forall_app in Hls as [Hls Hl%Forall_inv].
    exists ((λ l, chars l ++ [dot]) <$> labels), (chars l ++ [dot]), (chars tld). split_and!.
    + rewrite fmap_app, concat_app, <-!app_assoc. simpl. by rewrite app_nil_r, <-app_assoc.
    + apply Forall_fmap, (Forall_impl _ _ _ Hls). intros l' ?. apply matches_label_dot. by exists l'.
    + apply matches_label_dot. by exists l.
    + by apply matches_atleast2_cls.
Qed.

End fqdn.

(** ** Lemmas on provisioning *)

Section provision.
Context {W : Type} `{Hc : Client W} `{Hv : ClientView W} `{Hcl : !ClientLaws W}.
Context `{Hlib : LibCommon} `{Hll : !LibCommonLaws} `{Hord : MapOrder}.

Lemma provisionPatch_key instance hostName ps ud nd b :
  bmh_key (provisionPatch instance hostName ps ud nd b) = bmh_key b.
Proof. done. Qed.

Lemma provisionPatch_Status instance hostName ps ud nd b :
  bmh_Status (provisionPatch instance hostName ps ud nd b) = bmh_Status b.
Proof. done. Qed.

Lemma provisionPatch_Labels instance hostName ps ud nd b :
  bmh_Labels (provisionPatch instance hostName ps ud nd b) =
  bmh_Labels b ∪ bmhOwnerLabels instance hostName.
Proof.
  unfold provisionPatch, bmh_Labels. simpl. rewrite MergeStringMaps_spec. simpl.
  by rewrite map_union_empty.
Qed.

(** The key of a template's secret. *)
Definition tpl_key (t : Template) : string * string := (tpl_Namespace t, tpl_Name t).

(** What a successful call has done. *)
Record provisioned (instance : OpenStackBaremetalSet) (bmh hostName ctlPlaneIP : string)
    (ps : OpenStackProvisionServer) (ssh : Secret) (pw : option Secret)
    (i' : OpenStackBaremetalSet) (w w' : W) (b : BareMetalHost)
    (userSts netSts : list Template) (ud nd : SecretReference) : Prop := {
  pr_found : hosts w !! (set_BmhNamespace instance, bmh) = Some b;
  pr_user : userDataFor instance hostName ssh pw = (userSts, ud);
  pr_net : networkDataFor instance hostName ctlPlaneIP = Ok (netSts, nd);
  pr_hosts : hosts w' = <[(set_BmhNamespace instance, bmh) :=
    provisionPatch instance hostName ps ud nd b]> (hosts w);
  pr_secrets : secrets w' = list_to_set (tpl_key <$> userSts ++ netSts) ∪ secrets w;
  pr_provs : provs w' = provs w;
  pr_map : bst_BaremetalHosts (set_Status instance) ≠ None;
  pr_instance : i' = set_with_Hosts (Some (<[hostName :=
    provisionedStatus (provisionStatus instance bmh hostName ctlPlaneIP) ud nd b]> (set_Hosts instance)))
    instance;
}.

Lemma provision_run instance bmh hostName ip ps ssh pw env i' env' (w w' : W) :
  BaremetalHostProvision instance bmh hostName ip ps ssh pw env w = (Ok (i', env'), w') →
  ∃ b userSts netSts ud nd,
    provisioned instance bmh hostName ip ps ssh pw i' w w' b userSts netSts ud nd.
Proof.
  unfold BaremetalHostProvision.
  destruct (userDataFor instance hostName ssh pw) as [userSts ud] eqn:Hu.
  intros ([netSts nd] & w1 & [Hn ->]%st_lift_inv & Hr)%st_bind_ok.
  apply st_bind_ok in Hr as (env1 & w1 & He & Hr).
  assert (Hes : hosts w1 = hosts w ∧ provs w1 = provs w ∧
    secrets w1 = list_to_set (tpl_key <$> userSts ++ netSts) ∪ secrets w).
  { case_bool_decide as Hlen; [by apply EnsureSecrets_ok in He|].
    apply st_ret_inv in He as [_ ->]. destruct (userSts ++ netSts); [set_solver|simpl in Hlen; lia]. }
  apply st_bind_ok in Hr as (b & w2 & [-> Hb]%bmh_Get_ok & Hr).
  apply st_bind_ok in Hr as (b' & w3 & Hp & Hr).
  pose proof (hosts_keyed _ _ _ Hb) as Hkey.
  eapply bmh_CreateOrPatch_ok in Hp as (Hb' & Hh & Hs & Hps);
    [|by rewrite Hkey|apply provisionPatch_key].
  destruct Hes as (Hh1 & Hp1 & Hs1).
  destruct (bst_BaremetalHosts (set_Status instance)) as [hs|] eqn:Hhs; [|done].
  apply st_ret_inv in Hr as [[= -> ->] ->].
  exists b, userSts, netSts, ud, nd. split; try done.
  - by rewrite <-Hh1.
  - by rewrite Hh, Hkey, Hh1.
  - by rewrite Hs, Hs1.
  - by rewrite Hps, Hp1.
  - by rewrite Hhs.
  - unfold set_Hosts. by rewrite Hhs, Hb'.
Qed.

(** A host that has a consumer keeps what made it provisioned. *)
Lemma provisionSpec_consumer instance ps ud nd state b c :
  bmhs_ConsumerRef b = Some c →
  let s := provisionSpec instance ps ud nd state b in
  bmhs_ConsumerRef s = Some c ∧ bmhs_Online s = bmhs_Online b ∧
  bmhs_UserData s = bmhs_UserData b ∧ bmhs_NetworkData s = bmhs_NetworkData b ∧
  bmhs_Image s = (if decide (state = StateProvisioned) then bmhs_Image b
                  else Some (imageFor instance ps)).
Proof.
  intros Hcr. unfold provisionSpec. simpl.
  destruct (String.eqb_spec state StateProvisioned) as [He|He]; simpl; rewrite Hcr; simpl;
    (split_and!; [done..|by case_decide]).
Qed.

Lemma provisionSpec_free instance ps ud nd state b :
  bmhs_ConsumerRef b = None →
  let s := provisionSpec instance ps ud nd state b in
  bmhs_ConsumerRef s =
    Some (mkObjectReference (set_Name instance) (set_Kind instance) (set_Namespace instance)) ∧
  bmhs_Online s = true ∧ bmhs_UserData s = Some ud ∧ bmhs_NetworkData s = Some nd ∧
  bmhs_Image s = Some (imageFor instance ps).
Proof.
  intros Hcr. unfold provisionSpec. simpl. by destruct (String.eqb _ _); simpl; rewrite Hcr.
Qed.

Lemma provisionSpec_idem instance ps ud nd state b :
  let f := provisionSpec instance ps ud nd state in f (f b) = f b.
Proof.
  unfold provisionSpec. simpl. destruct (String.eqb state StateProvisioned); simpl;
    by destruct (bmhs_ConsumerRef b) eqn:Hcr; simpl; rewrite ?Hcr.
Qed.

(** Patching a host a second time changes nothing. *)
Lemma provisionPatch_idem instance hostName ps ud nd b :
  let f := provisionPatch instance hostName ps ud nd in f (f b) = f b.
Proof.
  intros f. unfold f, provisionPatch. cbn [bmh_Spec bmh_Status].
  pose proof (provisionSpec_idem instance ps ud nd (bmht_ProvisioningState (bmh_Status b)) (bmh_Spec b))
    as Hs. simpl in Hs. rewrite Hs. f_equal.
  unfold bmh_with_labels, bmh_Labels. simpl. f_equal.
  rewrite !MergeStringMaps_spec. simpl. by rewrite map_union_empty, <-map_union_assoc, map_union_idemp.
Qed.

End provision.

(** ** Lemmas on deprovisioning *)

Section deprovision.
Context {W : Type} `{Hc : Client W} `{Hv : ClientView W} `{Hcl : !ClientLaws W}.
Context `{Hlib : LibCommon} `{Hll : !LibCommonLaws} `{Hord : MapOrder}.

Lemma foldl_delete_lookup {V V'} (l : list (string * V')) (m : gmap string V) k :
  foldl (λ acc '(key, _), delete key acc) m l !! k = if decide (k ∈ l.*1) then None else m !! k.
Proof.
  revert m. induction l as [|[k' v] l IH]; intros m; simpl; [done|].
  rewrite IH, lookup_delete. repeat case_decide; set_solver.
Qed.

(** The labels of the instance are taken off, whatever their values. *)
Lemma deprovisionedHost_labels instance st b k :
  bmh_Labels (deprovisionedHost instance st b) !! k =
    if decide (k ∈ dom (bmhOwnerLabels instance (hs_Hostname st))) then None else bmh_Labels b !! k.
Proof.
  unfold deprovisionedHost, bmh_Labels. simpl. rewrite foldl_delete_lookup.
  destruct (decide (k ∈ _)) as [Hk|Hk]; rewrite elem_of_range_fst in Hk; by case_decide.
Qed.

Lemma bmhOwnerLabels_spec instance hostName :
  bmhOwnerLabels instance hostName =
  {[hostnameLabelKey instance := hostName]} ∪ owner_labels (set_Meta instance) (GetGroupLabel ServiceName).
Proof. unfold bmhOwnerLabels. apply GetLabels_spec. Qed.

Definition userDataKey (instance : OpenStackBaremetalSet) (name : string) : string * string :=
  (set_BmhNamespace instance, CloudInitUserDataSecretName (set_Name instance) name).
Definition networkDataKey (instance : OpenStackBaremetalSet) (name : string) : string * string :=
  (set_BmhNamespace instance, CloudInitNetworkDataSecretName (set_Name instance) name).

Lemma deprovision_run instance st i' (w w' : W) :
  BaremetalHostDeprovision instance st w = (Ok i', w') →
  ∃ b, hosts w !! (set_BmhNamespace instance, hs_BmhRef st) = Some b ∧
    hosts w' = <[(set_BmhNamespace instance, hs_BmhRef st) := deprovisionedHost instance st b]> (hosts w) ∧
    secrets w' = secrets w ∖ {[userDataKey instance (hs_BmhRef st);
                               networkDataKey instance (hs_BmhRef st)]} ∧
    provs w' = provs w ∧ i' = set_delete_host (hs_Hostname st) instance.
Proof.
  unfold BaremetalHostDeprovision.
  intros (b & w1 & [-> Hb]%bmh_Get_ok & Hr)%st_bind_ok.
  apply st_bind_ok in Hr as ([] & w2 & (Hh & Hs & Hp)%bmh_Update_ok & Hr).
  apply st_bind_ok in Hr as (? & w3 & Hd & [-> ->]%st_ret_inv). simpl in Hd.
  apply st_bind_ok in Hd as ([] & w4 & (Hh4 & Hp4 & Hs4)%DeleteSecretsWithName_ok & Hd).
  apply st_bind_ok in Hd as ([] & w5 & (Hh5 & Hp5 & Hs5)%DeleteSecretsWithName_ok & [_ ->]%st_ret_inv).
  exists b. pose proof (hosts_keyed _ _ _ Hb) as Hkey.
  change (bmh_key (deprovisionedHost instance st b)) with (bmh_key b) in Hh. rewrite Hkey in Hh.
  split_and!; [done|congruence| |congruence|done].
  rewrite Hs5, Hs4, Hs. unfold userDataKey, networkDataKey. set_solver.
Qed.

(** The names of the two secrets of a compute differ, and so do those of two computes. *)
Lemma string_app_inj a b c : a +:+ b = a +:+ c → b = c.
Proof. induction a as [|x a IH]; [done|]. rewrite !string_app_cons. intros [= ?]. auto. Qed.

Lemma userDataKey_inj instance a b : userDataKey instance a = userDataKey instance b → a = b.
Proof. intros [= He]. by apply string_app_inj, string_app_inj in He. Qed.

Lemma networkDataKey_inj instance a b : networkDataKey instance a = networkDataKey instance b → a = b.
Proof. intros [= He]. by apply string_app_inj, string_app_inj in He. Qed.

Lemma userData_networkData_ne instance a b : userDataKey instance a ≠ networkDataKey instance b.
Proof. intros [= He]. by apply string_app_inj in He. Qed.

End deprovision.

(** A parameter that neither the bond nor the VLAN sets. *)
Ltac bond_vlan_cases :=
  destruct (ts_CtlplaneBond _) as [bond|];
    [destruct (negb (String.eqb (bc_BondMode bond) "")), (bool_decide (0 < size (bc_BondOptions bond)))|];
    rewrite !lookup_insert_ne by done;
    repeat match goal with |- match ?o with Some _ => _ | None => _ end !! _ = _ => destruct o end;
    rewrite ?lookup_insert_ne by done; by simplify_map_eq.

(** ** Properties *)

(** C5: provisioning that succeeds finds the host, writes it and no other host,
    and records it under the compute's name. The host gets the owner labels it
    lacks. A host without a consumer is claimed for the instance, put online with
    the instance's image and pointed at its two cloud-init secrets. A host that
    has a consumer keeps it, its power state and its secrets; once Metal3 reports
    it provisioned it keeps its image too. Each secret the spec does not name has
    been generated under the compute's name. *)
Theorem BaremetalHostProvision_correct {W} `{Client W} `{ClientView W} `{!ClientLaws W}
    `{LibCommon} `{!LibCommonLaws} instance bmh hostName ip ps ssh pw env i' env' (w w' : W) :
  BaremetalHostProvision instance bmh hostName ip ps ssh pw env w = (Ok (i', env'), w') →
  let ns := set_BmhNamespace instance in
  ∃ b b' ud nd,
    hosts w !! (ns, bmh) = Some b ∧ hosts w' = <[(ns, bmh) := b']> (hosts w) ∧ provs w' = provs w ∧
    bmh_Labels b' = bmh_Labels b ∪ bmhOwnerLabels instance hostName ∧ bmh_Status b' = bmh_Status b ∧
    match bmhs_ConsumerRef (bmh_Spec b) with
    | None =>
        bmhs_ConsumerRef (bmh_Spec b') =
          Some (mkObjectReference (set_Name instance) (set_Kind instance) (set_Namespace instance)) ∧
        bmhs_Online (bmh_Spec b') = true ∧ bmhs_Image (bmh_Spec b') = Some (imageFor instance ps) ∧
        bmhs_UserData (bmh_Spec b') = Some ud ∧ bmhs_NetworkData (bmh_Spec b') = Some nd
    | Some c =>
        bmhs_ConsumerRef (bmh_Spec b') = Some c ∧ bmhs_Online (bmh_Spec b') = bmhs_Online (bmh_Spec b) ∧
        bmhs_UserData (bmh_Spec b') = bmhs_UserData (bmh_Spec b) ∧
        bmhs_NetworkData (bmh_Spec b') = bmhs_NetworkData (bmh_Spec b) ∧
        bmhs_Image (bmh_Spec b') =
          if decide (bmht_ProvisioningState (bmh_Status b) = StateProvisioned)
          then bmhs_Image (bmh_Spec b) else Some (imageFor instance ps)
    end ∧
    match is_UserData (spec_host instance hostName) with
    | Some s => ud = s
    | None => userDataKey instance hostName = (ns, sr_Name ud) ∧ userDataKey instance hostName ∈ secrets w'
    end ∧
    match is_NetworkData (spec_host instance hostName) with
    | Some s => nd = s
    | None => networkDataKey instance hostName = (ns, sr_Name nd) ∧ networkDataKey instance hostName ∈ secrets w'
    end ∧
    ∃ st, set_Hosts i' = <[hostName := st]> (set_Hosts instance) ∧
      hs_ProvisioningState st = bmht_ProvisioningState (bmh_Status b) ∧
      hs_UserDataSecretName st = sr_Name ud ∧ hs_NetworkDataSecretName st = sr_Name nd ∧
      hs_BmhRef st = hs_BmhRef (default (mkHostStatus (mkIPStatus hostName bmh ∅) "" false "" "")
                                  (set_Hosts instance !! hostName)).
Proof.
  intros (b & usts & nsts & ud & nd & Hr)%provision_run. simpl. destruct Hr as [Hb Hu Hn Hh Hs Hp _ ->].
  exists b, (provisionPatch instance hostName ps ud nd b), ud, nd.
  split; [done|]. split; [done|]. split; [done|]. split; [apply provisionPatch_Labels|]. split; [done|].
  split; [|split; [|split]].
  - unfold provisionPatch. cbn [bmh_Spec].
    destruct (bmhs_ConsumerRef (bmh_Spec b)) as [c|] eqn:Hcr.
    + by apply provisionSpec_consumer.
    + pose proof (provisionSpec_free instance ps ud nd (bmht_ProvisioningState (bmh_Status b)) _ Hcr).
      simpl in *. tauto.
  - unfold userDataFor in Hu. destruct (is_UserData _); simplify_eq; [done|]. split; [done|].
    rewrite Hs. set_solver.
  - unfold networkDataFor in Hn. destruct (is_NetworkData _); simplify_eq/=; [done|].
    apply outcome_bind_ok in Hn as (t & Ht & [= <- <-]).
    apply outcome_bind_ok in Ht as ([ip' mask] & _ & [= <-]). simpl. split; [done|].
    rewrite Hs, fmap_app. set_solver.
  - exists (provisionedStatus (provisionStatus instance bmh hostName ip) ud nd b).
    split; [by rewrite set_Hosts_with_Hosts|]. split_and!; [done..|].
    unfold hs_BmhRef, provisionedStatus,  provisionStatus. by destruct (set_Hosts instance !! hostName).
Qed.

(** A first provisioning: a free host, an SSH key, an IPv4 address. *)
Definition prov_set : OpenStackBaremetalSet :=
  sample_set HardwareReqs_zero {["c0" := sample_instance ∅]} ∅.
Definition prov_mem : mem := mkMem {[("bmh", "h0") := sample_bmh "h0" ∅]} ∅ ∅ ∅ [].
Definition prov_ssh : Secret := mkSecret "ssh-key" {["authorized_keys" := "ssh-rsa AAAA"]}.
Definition prov_run (i : OpenStackBaremetalSet) (w : mem) :
    outcome (OpenStackBaremetalSet * EnvVars) * mem :=
  BaremetalHostProvision i "h0" "c0" "192.168.1.10/24" (sample_prov "openstack" "ps" 6190)
    prov_ssh None ∅ w.
Definition prov_after : OpenStackBaremetalSet * EnvVars * mem :=
  match prov_run prov_set prov_mem with
  | (Ok (i, env), w) => (i, env, w)
  | (_, w) => (prov_set, ∅, w)
  end.
Definition release_run (i : OpenStackBaremetalSet) (w : mem) : outcome OpenStackBaremetalSet * mem :=
  BaremetalHostDeprovision (H1 := list_order) i (default HostStatus_zero (set_Hosts i !! "c0")) w.
Definition release_after : OpenStackBaremetalSet * mem :=
  match release_run prov_after.1.1 prov_after.2 with
  | (Ok i, w) => (i, w)
  | (_, w) => (prov_set, w)
  end.

Lemma BaremetalHostProvision_correct_witness :
  let '(i, env, w) := prov_after in
  prov_run prov_set prov_mem = (Ok (i, env), w) ∧
  ∃ b b', hosts prov_mem !! ("bmh", "h0") = Some b ∧ hosts w = <[("bmh", "h0") := b']> (hosts prov_mem).
Proof.
  assert (Hrun : prov_run prov_set prov_mem =
    (Ok (prov_after.1.1, prov_after.1.2), prov_after.2)) by vm_refl.
  destruct (BaremetalHostProvision_correct _ _ _ _ _ _ _ _ _ _ _ _ Hrun) as (b & b' & ? & ? & Hb & Hb' & _).
  destruct prov_after as [[i env] w]. split; [exact Hrun|]. exists b, b'. split; [exact Hb|exact Hb'].
Defined.

(** C30: provisioning is idempotent: repeating it on what it left changes no
    host, no secret and nothing in the instance. *)
Theorem BaremetalHostProvision_idempotent {W} `{Client W} `{ClientView W} `{!ClientLaws W}
    `{LibCommon} `{!LibCommonLaws} instance bmh hostName ip ps ssh pw env i1 env1 env2 i2 env3 (w w1 w2 : W) :
  BaremetalHostProvision instance bmh hostName ip ps ssh pw env w = (Ok (i1, env1), w1) →
  BaremetalHostProvision i1 bmh hostName ip ps ssh pw env2 w1 = (Ok (i2, env3), w2) →
  hosts w2 = hosts w1 ∧ secrets w2 = secrets w1 ∧ i2 = i1.
Proof.
  intros (b & us & ns & ud & nd & Hr)%provision_run (b1 & us1 & ns1 & ud1 & nd1 & Hr1)%provision_run.
  destruct Hr as [Hb Hu Hn Hh Hs Hp Hm ->], Hr1 as [Hb1 Hu1 Hn1 Hh1 Hs1 _ _ ->].
  assert (Husr : (us1, ud1) = (us, ud)) by (rewrite <-Hu, <-Hu1; reflexivity).
  assert (Hnet : Ok (ns1, nd1) = Ok (ns, nd)) by (rewrite <-Hn, <-Hn1; reflexivity).
  simplify_eq. set (i1 := set_with_Hosts _ instance) in *.
  change (set_BmhNamespace i1) with (set_BmhNamespace instance) in *.
  rewrite Hh, lookup_insert_eq in Hb1. injection Hb1 as <-.
  assert (Hpatch : provisionPatch i1 hostName ps ud nd = provisionPatch instance hostName ps ud nd)
    by reflexivity.
  split_and!.
  - rewrite Hh1, Hpatch, provisionPatch_idem, Hh, insert_insert_eq. reflexivity.
  - rewrite Hs1, Hs. set_solver.
  - set (st := provisionedStatus _ ud nd b) in i1.
    assert (Hst : set_Hosts i1 = <[hostName := st]> (set_Hosts instance)) by reflexivity.
    assert (Hsame : provisionStatus i1 bmh hostName ip = st)
      by (unfold provisionStatus; by rewrite Hst, lookup_insert_eq).
    rewrite Hsame, Hst, insert_insert_eq. reflexivity.
Qed.

Lemma BaremetalHostProvision_idempotent_witness :
  let '(i, env, w) := prov_after in prov_run i w = (Ok (i, env), w).
Proof.
  assert (Hrun : prov_run prov_set prov_mem =
    (Ok (prov_after.1.1, prov_after.1.2), prov_after.2)) by vm_refl.
  assert (Hrun2 : prov_run prov_after.1.1 prov_after.2 =
    (Ok (prov_after.1.1, prov_after.1.2), prov_after.2)) by vm_refl.
  destruct (BaremetalHostProvision_idempotent _ _ _ _ _ _ _ _ _ _ _ _ _ _ _ _ Hrun Hrun2) as (_ & _ & _).
  destruct prov_after as [[i env] w]. exact Hrun2.
Defined.

(** C6: deprovisioning that succeeds releases the host: it is switched off, has
    no consumer, image or cloud-init data and none of the instance's labels, so no
    listing by the owner labels finds it, and once Metal3 reports it available it
    can be given to a compute again, unless its own settings forbid it. Its other
    labels stay and no other host changes. Of the secrets, exactly the two named after
    the set and the host are gone; and exactly the compute's entry leaves the status. *)
Theorem BaremetalHostDeprovision_correct {W} `{Client W} `{ClientView W} `{!ClientLaws W}
    `{LibCommon} `{!LibCommonLaws} `{MapOrder} instance st i' (w w' : W) :
  BaremetalHostDeprovision instance st w = (Ok i', w') →
  let key := (set_BmhNamespace instance, hs_BmhRef st) in
  ∃ b b', hosts w !! key = Some b ∧ hosts w' = <[key := b']> (hosts w) ∧ provs w' = provs w ∧
    secrets w' = secrets w ∖ {[userDataKey instance (hs_BmhRef st); networkDataKey instance (hs_BmhRef st)]} ∧
    (∀ k, bmh_Labels b' !! k =
       if decide (k ∈ dom (bmhOwnerLabels instance (hs_Hostname st))) then None else bmh_Labels b !! k) ∧
    ¬ owner_labels (set_Meta instance) (GetGroupLabel ServiceName) ⊆ bmh_Labels b' ∧
    bmhs_Online (bmh_Spec b') = false ∧ bmhs_ConsumerRef (bmh_Spec b') = None ∧
    bmhs_Image (bmh_Spec b') = None ∧ bmhs_UserData (bmh_Spec b') = None ∧ bmhs_NetworkData (bmh_Spec b') = None ∧
    (∀ j, host_available j b' ↔
       verifyBaremetalSetHardwareMatch j b = true ∧
       bmht_ProvisioningState (bmh_Status b) = StateAvailable ∧
       bmhs_ExternallyProvisioned (bmh_Spec b) = false ∧ bmhs_CustomDeploy (bmh_Spec b) = None) ∧
    i' = set_delete_host (hs_Hostname st) instance ∧
    set_Hosts i' = delete (hs_Hostname st) (set_Hosts instance).
Proof.
  intros (b & Hb & Hh & Hs & Hp & ->)%deprovision_run. simpl.
  exists b, (deprovisionedHost instance st b).
  split_and!; [done|done|done|done|apply deprovisionedHost_labels| |done|done|done|done|done| |done|apply set_Hosts_delete].
  - set (k := GetOwnerUIDLabelSelector (GetGroupLabel ServiceName)). intros Hsub.
    assert (Hk : owner_labels (set_Meta instance) (GetGroupLabel ServiceName) !! k =
      Some (om_UID (set_Meta instance))) by apply lookup_insert_eq.
    eapply lookup_weaken in Hsub; [|exact Hk]. rewrite deprovisionedHost_labels in Hsub.
    case_decide as Hd; [done|]. apply Hd. rewrite bmhOwnerLabels_spec, dom_union_L.
    apply elem_of_union_r. by eapply elem_of_dom_2.
  - intros j. split.
    + intros [? ? ? ? ? ?]. done.
    + intros (?&?&?&?). split; try done.
Qed.

Lemma BaremetalHostDeprovision_correct_witness :
  release_run prov_after.1.1 prov_after.2 = (Ok release_after.1, release_after.2) ∧
  set_Hosts release_after.1 = delete "c0" (set_Hosts prov_after.1.1) ∧
  userDataKey prov_after.1.1 "h0" ∉ secrets release_after.2.
Proof.
  assert (Hrun : release_run prov_after.1.1 prov_after.2 = (Ok release_after.1, release_after.2)) by vm_refl.
  assert (Hh : hs_Hostname (default HostStatus_zero (set_Hosts prov_after.1.1 !! "c0")) = "c0") by vm_refl.
  assert (Hb : hs_BmhRef (default HostStatus_zero (set_Hosts prov_after.1.1 !! "c0")) = "h0") by vm_refl.
  destruct (BaremetalHostDeprovision_correct _ _ _ _ _ Hrun) as (_ & _ & _ & _ & _ & Hs & _ & _ & _ & _ & _ & _ & _ & _ & _ & Hi).
  rewrite Hh in Hi. rewrite Hb in Hs. split; [exact Hrun|]. split; [exact Hi|].
  rewrite Hs. intros [_ Hn]%elem_of_difference. apply Hn, elem_of_union_l, elem_of_singleton_2. reflexivity.
Defined.

(** C37: deprovisioning removes the secrets named after the BareMetalHost, not
    those named after the compute: when the two names differ, the secrets that
    provisioning generated for the compute are left behind. *)
Theorem BaremetalHostDeprovision_leaks_secrets {W} `{Client W} `{ClientView W} `{!ClientLaws W}
    `{LibCommon} `{!LibCommonLaws} `{MapOrder} instance st i' (w w' : W) :
  BaremetalHostDeprovision instance st w = (Ok i', w') → hs_Hostname st ≠ hs_BmhRef st →
  (userDataKey instance (hs_Hostname st) ∈ secrets w' ↔
   userDataKey instance (hs_Hostname st) ∈ secrets w) ∧
  (networkDataKey instance (hs_Hostname st) ∈ secrets w' ↔
   networkDataKey instance (hs_Hostname st) ∈ secrets w).
Proof.
  intros (b & _ & _ & Hs & _)%deprovision_run Hne. rewrite Hs.
  rewrite !elem_of_difference, !elem_of_union, !elem_of_singleton. split; split; try tauto; intros Hin;
    (split; [done|]); intros [Heq|Heq].
  - by apply userDataKey_inj in Heq.
  - by apply userData_networkData_ne in Heq.
  - by apply eq_sym, userData_networkData_ne in Heq.
  - by apply networkDataKey_inj in Heq.
Qed.

Lemma BaremetalHostDeprovision_leaks_secrets_witness :
  release_run prov_after.1.1 prov_after.2 = (Ok release_after.1, release_after.2) ∧
  userDataKey prov_after.1.1 "c0" ∈ secrets release_after.2.
Proof.
  assert (Hrun : release_run prov_after.1.1 prov_after.2 = (Ok release_after.1, release_after.2)) by vm_refl.
  assert (Hin : userDataKey prov_after.1.1 "c0" ∈ secrets prov_after.2) by by_compute.
  assert (Hh : hs_Hostname (default HostStatus_zero (set_Hosts prov_after.1.1 !! "c0")) = "c0") by vm_refl.
  assert (Hne : hs_Hostname (default HostStatus_zero (set_Hosts prov_after.1.1 !! "c0")) ≠
    hs_BmhRef (default HostStatus_zero (set_Hosts prov_after.1.1 !! "c0"))) by (vm_compute; discriminate).
  destruct (BaremetalHostDeprovision_leaks_secrets _ _ _ _ _ Hrun Hne) as [[_ Hu] _].
  rewrite Hh in Hu. split; [exact Hrun|exact (Hu Hin)].
Defined.

(** C31: a host name is taken for a fully qualified one exactly when it is two or
    more dot-separated parts of which the last has at least two characters, all
    letters, and the others are not empty and made of letters, digits and
    hyphens. *)
Theorem hostNameIsFQDN_correct hostname :
  hostNameIsFQDN hostname = true ↔
  ∃ labels tld, labels ≠ [] ∧ hostname = String.concat "." (labels ++ [tld]) ∧
    Forall is_label labels ∧ is_tld tld.
Proof.
  unfold hostNameIsFQDN. rewrite Regexp.full_match_spec, fqdn_matches.
  split; intros (labels & tld & Hne & Heq & ?); exists labels, tld; split_and!; try tauto.
  - by apply chars_inj.
  - by rewrite Heq.
Qed.

(** With an IPv4 control plane address in CIDR form and no network data in
    the spec, the generated network data says ipv4, gives that address and the
    netmask of that prefix length, whatever the rest of the spec. *)
Theorem networkData_ipv4 `{LibCommon} instance hostName a b c d n :
  is_NetworkData (spec_host instance hostName) = None → octets a b c d → (0 ≤ n ≤ 32)%Z →
  ∃ t ref, networkDataFor instance hostName (print_ipv4 a b c d +:+ "/" +:+ pretty n) = Ok ([t], ref) ∧
    tpl_ConfigOptions t !! "CtlplaneIpVersion" = Some (TVString "ipv4") ∧
    (∃ ip, tpl_ConfigOptions t !! "CtlplaneIp" = Some (TVIP ip) ∧ To4 ip = Some [a; b; c; d]) ∧
    tpl_ConfigOptions t !! "CtlplaneNetmask" = Some (TVIP (CIDRMask n 32)).
Proof.
  intros Hn Ho Hpre. unfold networkDataFor, networkDataTemplate.
  rewrite Hn, (ParseCIDR_dotted a b c d n Ho Hpre). simpl.
  eexists _, _. split; [reflexivity|]. cbn [tpl_ConfigOptions]. unfold networkDataParameters.
  cbv zeta.
  split_and!.
  - rewrite !lookup_insert_ne by done. bond_vlan_cases.
  - eexists. split; [|by apply To4_mapped]. rewrite !lookup_insert_ne by done. bond_vlan_cases.
  - by simplify_map_eq.
Qed.

Lemma networkData_ipv4_witness :
  ∃ t ref, networkDataFor prov_set "c0" "192.168.1.10/24" = Ok ([t], ref) ∧
    tpl_ConfigOptions t !! "CtlplaneNetmask" = Some (TVIP [255; 255; 255; 0]%Z).
Proof.
  destruct (networkData_ipv4 prov_set "c0" 192 168 1 10 24) as (t & ref & Ht & _ & _ & Hm).
  - vm_compute. reflexivity.
  - unfold octets. lia.
  - lia.
  - exists t, ref. split; [exact Ht|exact Hm].
Defined.
