(* ===== verification/SetController.v ===== *)
(** * The OpenStackBaremetalSet reconciler

    [internal/controller/openstackbaremetalset_controller.go]. The state of a
    reconciliation is the cluster and the instance the reconciler holds in memory:
    what it changes in the instance before it fails is there when the deferred
    function patches it. A handler that may return early takes the rest of the
    reconciliation as an argument. *)

From S2P Require Import Prelude GoStrings ApiTypes Samples Kube MemCluster Conditions Matching.
From S2P Require Import Reconciler Hardware ScaleUp ProvPorts BmhProvision.

(** ** The code *)

Definition ErrBaremetalSetReconciliationPanic : string := "baremetal set reconciliation panic occurred".

Section code.
Context {W : Type} `{Client W} `{SetClient W} `{LibCommon} `{ConditionLib} `{MapOrder}.

(** The cluster and the instance. *)
Definition rstate : Type := W * OpenStackBaremetalSet.

Definition autoProvServerName (instance : OpenStackBaremetalSet) : string :=
  set_Name instance +:+ "-provisionserver".

(** The callback of [CreateOrPatch]. *)
Definition provisionServerPatch (instance : OpenStackBaremetalSet)
    (provisionServer : OpenStackProvisionServer) : st W OpenStackProvisionServer :=
  let! provisionServer := AssignProvisionServerPort provisionServer ProvisionServerPortStart
    ProvisionServerPortEnd in
  let t := set_Template instance in
  let s := ps_Spec provisionServer in
  let provisionServer := ps_with_Spec
    (mkProvSpec (pss_Port s) (ts_ProvisioningInterface t) (ts_OSImage t) (pss_OSImageDir s)
       (ts_OSContainerImageURL t) (ts_ApacheImageURL t) (ts_AgentImageURL t)
       (ts_ProvisonServerNodeSelector t) (pss_Resources s) (pss_PreserveJobs s)) provisionServer in
  st_lift (SetControllerReference instance provisionServer).

Definition provisionServerCreateOrUpdate (instance : OpenStackBaremetalSet) :
    st W OpenStackProvisionServer :=
  prov_CreateOrPatch
    (OpenStackProvisionServer_zero
       (ObjectMeta_named (autoProvServerName instance) (set_Namespace instance)))
    (provisionServerPatch instance).

Definition provisionServerDelete (instance : OpenStackBaremetalSet) : st W unit :=
  st_catch (prov_Delete (set_Namespace instance) (autoProvServerName instance))
    (λ err, if err_is_not_found err then st_ret tt else st_err err).

(** The host names of the hosts the spec no longer has, from their labels. *)
Definition hostNamesToDeprovision (instance : OpenStackBaremetalSet)
    (existing : list BareMetalHost) : list string :=
  omap (λ existingBmh,
    let label := default "" (bmh_Labels existingBmh !! hostnameLabelKey instance) in
    let found := existsb (λ '(hostName, _), String.eqb label hostName)
                   (range 10 (set_SpecHosts instance)) in
    if found then None else Some label) existing.

Definition deleteBmh (labels : gmap string string) : st rstate unit :=
  let! instance := get_instance in
  let! existingBaremetalHosts := on_cluster (GetBaremetalHosts (set_BmhNamespace instance) labels) in
  st_iter (λ hostName,
    on_instance (λ i,
      let bmhStatus := default HostStatus_zero (set_Hosts i !! hostName) in
      BaremetalHostDeprovision i bmhStatus))
    (hostNamesToDeprovision instance existingBaremetalHosts).

Definition buildExistingHostBMHMap (instance : OpenStackBaremetalSet)
    (existingBMHs : list BareMetalHost) : gmap string BareMetalHost :=
  foldl (λ m bmh,
    match bmh_Labels bmh !! hostnameLabelKey instance with
    | Some hostName => <[hostName := bmh]> m
    | None => m
    end) ∅ existingBMHs.

(** [for desiredHostName, bmh := range selectedHostBMHMap { ... }]; the map is a
    fresh one, so provisioning does not change it. *)
Fixpoint provisionAll (provisionServer : OpenStackProvisionServer) (sshSecret : Secret)
    (passwordSecret : option Secret) (envVars : EnvVars) (l : list (string * BareMetalHost)) :
    st rstate unit :=
  match l with
  | [] => st_ret tt
  | (desiredHostName, bmh) :: l' =>
      let! instance := get_instance in
      let! r := on_cluster (BaremetalHostProvision instance (bmh_Name bmh) desiredHostName
        (is_CtlPlaneIP (spec_host instance desiredHostName)) provisionServer sshSecret
        passwordSecret envVars) in
      do! put_instance r.1 then
      provisionAll provisionServer sshSecret passwordSecret r.2 l'
  end.

Definition ensureBaremetalHosts (provisionServer : OpenStackProvisionServer) (sshSecret : Secret)
    (passwordSecret : option Secret) (bmhLabels : gmap string string) (envVars : EnvVars) :
    st rstate unit :=
  let! instance := get_instance in
  let! baremetalHostsList := on_cluster (GetBaremetalHosts (set_BmhNamespace instance)
    (ts_BmhLabelSelector (set_Template instance))) in
  let! existingBaremetalHosts :=
    on_cluster (GetBaremetalHosts (set_BmhNamespace instance) bmhLabels) in
  let! selectedHostBMHMap :=
    st_lift (VerifyBaremetalSetScaleUp instance baremetalHostsList existingBaremetalHosts) in
  let existingHostBMHMap := buildExistingHostBMHMap instance existingBaremetalHosts in
  let selectedHostBMHMap := MergeMaps (default ∅ selectedHostBMHMap) existingHostBMHMap in
  provisionAll provisionServer sshSecret passwordSecret envVars (range 11 selectedHostBMHMap).

(** [range] over the live status map: deprovisioning deletes entries from it, and
    an entry deleted before it is reached is not visited. *)
Fixpoint cleanupAll (l : list (string * HostStatus)) : st rstate unit :=
  match l with
  | [] => st_ret tt
  | (hostName, bmh) :: l' =>
      let! instance := get_instance in
      do! (if decide (is_Some (set_Hosts instance !! hostName))
           then on_instance (λ i, BaremetalHostDeprovision i bmh) else st_ret tt) then
      cleanupAll l'
  end.

Definition baremetalHostCleanup : st rstate unit :=
  let! instance := get_instance in
  cleanupAll (range 12 (set_Hosts instance)).

Definition reconcileDelete : st rstate Result :=
  do! st_catch baremetalHostCleanup
        (λ err, if err_is_not_found err then st_ret tt else st_err err) then
  let! instance := get_instance in
  do! put_instance (set_with_Meta
        (RemoveFinalizer (set_Meta instance) (GetFinalizer (set_Kind instance))) instance) then
  st_ret Result_zero.

Definition reconcileInit : st rstate Result := st_ret Result_zero.
Definition reconcileUpdate : st rstate Result := st_ret Result_zero.
Definition reconcileUpgrade : st rstate Result := st_ret Result_zero.

(** A secret the user must provide. *)
Definition withInputSecret (name namespace : string) (k : Secret → string → st rstate Result) :
    st rstate Result :=
  let! r := st_try (on_cluster (GetSecret name namespace)) in
  match r with
  | inl (secret, hash) => k secret hash
  | inr err =>
      if err_is_not_found err then
        do! set_condition (warning_condition InputReadyCondition (cond_const "InputReadyWaitingMessage")) then
        st_ret (RequeueAfter 10)
      else
        do! set_condition (error_condition InputReadyCondition (cond_const "InputReadyErrorMessage") err) then
        st_err err
  end.

(** Find or create the provision server. *)
Definition findProvisionServer (instance : OpenStackBaremetalSet) : st W OpenStackProvisionServer :=
  let name := ts_ProvisionServerName (set_Template instance) in
  if String.eqb name "" then provisionServerCreateOrUpdate instance
  else
    do! (if negb (String.eqb name (autoProvServerName instance)) then provisionServerDelete instance
         else st_ret tt) then
    prov_Get (set_Namespace instance) name.

Definition withProvisionServer (k : OpenStackProvisionServer → st rstate Result) : st rstate Result :=
  let! instance := get_instance in
  let condition := OpenStackBaremetalSetProvServerReadyCondition in
  if String.eqb (ts_OSImageDeploymentType (set_Template instance)) OSImageDeploymentTypeSelfExtracting
  then
    let! r := st_try (on_cluster (findProvisionServer instance)) in
    match r with
    | inr err =>
        if err_is_not_found err then
          do! set_condition (warning_condition condition
                OpenStackBaremetalSetProvServerReadyWaitingMessage) then
          st_ret (RequeueAfter 10)
        else
          do! set_condition (error_condition condition
                OpenStackBaremetalSetProvServerReadyErrorMessage err) then
          st_err err
    | inl provisionServer =>
        if String.eqb (pst_LocalImageURL (ps_Status provisionServer)) "" then
          do! set_condition (running_condition condition
                OpenStackBaremetalSetProvServerReadyRunningMessage) then
          st_ret (RequeueAfter 30)
        else if String.eqb (pst_LocalImageChecksumURL (ps_Status provisionServer)) "" then
          do! set_condition (running_condition condition
                OpenStackBaremetalSetProvServerReadyRunningMessage) then
          st_ret (RequeueAfter 5)
        else
          do! mark_true condition OpenStackBaremetalSetProvServerReadyMessage then
          k provisionServer
    end
  else if String.eqb (ts_OSContainerImageURL (set_Template instance)) "" then
    do! set_condition (warning_condition InputReadyCondition
          "OSContainerImageURL is required for PassThrough mode") then
    st_ret (RequeueAfter 10)
  else
    do! mark_true condition "Provision server not needed for PassThrough mode" then
    k (OpenStackProvisionServer_zero (ObjectMeta_named "" "")).

(** The overall state of the hosts, and the Ready condition. *)
Definition finishProvisioning : st rstate Result :=
  let! instance := get_instance in
  if existsb (λ '(_, bmhStatus), negb (String.eqb (hs_ProvisioningState bmhStatus) StateProvisioned))
       (range 13 (set_Hosts instance))
  then
    do! set_condition (running_condition OpenStackBaremetalSetBmhProvisioningReadyCondition
          OpenStackBaremetalSetBmhProvisioningReadyRunningMessage) then
    st_ret Result_zero
  else
    do! mark_true OpenStackBaremetalSetBmhProvisioningReadyCondition
          OpenStackBaremetalSetBmhProvisioningReadyMessage then
    let! instance := get_instance in
    do! (if cond_AllSubConditionIsTrue (bst_Conditions (set_Status instance))
         then mark_true ReadyCondition (cond_const "ReadyMessage") else st_ret tt) then
    st_ret Result_zero.

(** The hosts, once the inputs are there. *)
Definition reconcileHosts (provisionServer : OpenStackProvisionServer) (sshSecret : Secret)
    (passwordSecret : option Secret) (envVars : EnvVars) : st rstate Result :=
  let condition := OpenStackBaremetalSetBmhProvisioningReadyCondition in
  let format := OpenStackBaremetalSetBmhProvisioningReadyErrorMessage in
  do! or_fail condition format (on_instance VerifyAndSyncBaremetalStatusBmhRefs) then
  let! instance := get_instance in
  let bmhLabels := GetLabels (set_Meta instance) (GetGroupLabel ServiceName) ∅ in
  do! or_fail condition format (deleteBmh bmhLabels) then
  do! or_fail condition format
        (ensureBaremetalHosts provisionServer sshSecret passwordSecret bmhLabels envVars) then
  finishProvisioning.

Definition reconcileNormal : st rstate Result :=
  let! instance := get_instance in
  withInputSecret (ts_DeploymentSSHSecret (set_Template instance)) (set_Namespace instance)
    (λ sshSecret hash,
      let configMapVars : EnvVars := {[sec_Name sshSecret := hash]} in
      do! mark_true InputReadyCondition (cond_const "InputReadyMessage") then
      let rest passwordSecret configMapVars :=
        unless_requeued reconcileInit (unless_requeued reconcileUpdate (unless_requeued reconcileUpgrade
          (withProvisionServer (λ provisionServer,
             reconcileHosts provisionServer sshSecret passwordSecret configMapVars)))) in
      match ts_PasswordSecret (set_Template instance) with
      | None => rest None configMapVars
      | Some ref =>
          withInputSecret (sr_Name ref) (sr_Namespace ref) (λ passwordSecret hash,
            rest (Some passwordSecret) (<[sec_Name passwordSecret := hash]> configMapVars))
      end).

(** The conditions a reconciliation starts with. *)
Definition initialConditions : list Condition :=
  [UnknownCondition ReadyCondition (cond_const "InitReason") (cond_const "ReadyInitMessage");
   UnknownCondition InputReadyCondition (cond_const "InitReason") (cond_const "InputReadyInitMessage");
   UnknownCondition OpenStackBaremetalSetProvServerReadyCondition (cond_const "InitReason")
     OpenStackBaremetalSetProvServerReadyInitMessage;
   UnknownCondition OpenStackBaremetalSetBmhProvisioningReadyCondition (cond_const "InitReason")
     OpenStackBaremetalSetBmhProvisioningReadyInitMessage].

Definition initialStatus (i : OpenStackBaremetalSet) : OpenStackBaremetalSet :=
  set_with_Status (mkSetStatus (cond_Init (bst_Conditions (set_Status i)) initialConditions)
    (bst_Hash (set_Status i)) (bst_BaremetalHosts (set_Status i)) (om_Generation (set_Meta i))) i.

(** The maps of the status, made when they are nil. *)
Definition statusMaps (i : OpenStackBaremetalSet) : OpenStackBaremetalSet :=
  let s := set_Status i in
  set_with_Status (mkSetStatus (bst_Conditions s) (Some (default ∅ (bst_Hash s)))
    (Some (default ∅ (bst_BaremetalHosts s))) (bst_ObservedGeneration s)) i.

(** [Reconcile] after the deferred function is set up. *)
Definition set_reconcile (isNewInstance : bool) : st rstate Result :=
  let! instance := get_instance in
  let instance := initialStatus instance in
  let deleting := bool_decide (om_DeletionTimestamp (set_Meta instance) ≠ None) in
  let '(instance, added) :=
    if negb deleting then
      let '(meta, added) := AddFinalizer (set_Meta instance) (GetFinalizer (set_Kind instance)) in
      (set_with_Meta meta instance, added)
    else (instance, false) in
  do! put_instance instance then
  if added || isNewInstance then st_ret Result_zero
  else
    do! put_instance (statusMaps instance) then
    if deleting then reconcileDelete else reconcileNormal.

(** What the deferred function does to the instance before it patches it. *)
Definition set_finish (savedConditions : Conditions) (i : OpenStackBaremetalSet) :
    OpenStackBaremetalSet :=
  set_with_Conditions (finish_conditions savedConditions (bst_Conditions (set_Status i))) i.

Definition Reconcile (namespace name : string) : st W Result := λ w,
  match set_Get namespace name w with
  | (Err err, w) => if err_is_not_found err then (Ok Result_zero, w) else (Err err, w)
  | (Panic m, w) => (Panic m, w)
  | (Ok instance, w) =>
      if IsPaused (om_Annotations (set_Meta instance)) &&
         bool_decide (om_DeletionTimestamp (set_Meta instance) = None)
      then (Ok Result_zero, w)
      else
        match set_NewHelper instance w with
        | (Err err, w) => (Err err, w)
        | (Panic m, w) => (Panic m, w)
        | (Ok _, w) =>
            let isNewInstance := bool_decide (bst_Conditions (set_Status instance) = None) in
            let started := if isNewInstance then set_with_Conditions (Some []) instance else instance in
            let savedConditions := bst_Conditions (set_Status started) in
            match set_reconcile isNewInstance (w, started) with
            | (Panic m, (w, _)) =>
                (Err (Errorf (ErrBaremetalSetReconciliationPanic +:+ ": " +:+ m)), w)
            | (o, (w, reconciled)) =>
                match set_PatchInstance instance (set_finish savedConditions reconciled) w with
                | (Ok _, w) => (o, w)
                | (Err err, w) => (Err err, w)
                | (Panic m, w) => (Panic m, w)
                end
            end
        end
  end.

(** ** Events *)

(** The requests a BareMetalHost event gives rise to: namespace and name of the
    set its labels name. *)
Definition bareMetalHostRequests (labels : gmap string string) : list (string * string) :=
  let groupLabel := GetGroupLabel ServiceName in
  match labels !! GetOwnerUIDLabelSelector groupLabel with
  | Some uid =>
      [(default "" (labels !! GetOwnerNameSpaceLabelSelector groupLabel),
        default "" (labels !! GetOwnerNameLabelSelector groupLabel))]
  | None => []
  end.

(** An event, with the objects that are BareMetalHosts; [reflect.DeepEqual] of two
    statuses is the argument. *)
Inductive WatchEvent :=
| CreateEvent
| UpdateEvent (ObjectOld ObjectNew : option BareMetalHost)
| DeleteEvent
| GenericEvent.

Definition statusChangePredicate (DeepEqual : BareMetalHostStatus → BareMetalHostStatus → bool)
    (e : WatchEvent) : bool :=
  match e with
  | UpdateEvent (Some oldObj) (Some newObj) =>
      negb (DeepEqual (bmh_Status oldObj) (bmh_Status newObj))
  | UpdateEvent _ _ => false
  | CreateEvent => false
  | DeleteEvent => true
  | GenericEvent => false
  end.

End code.

(** ** Instances that differ in the status of the hosts *)

Section frame.
Context {W : Type} `{Hc : Client W} `{Hlib : LibCommon} `{Hord : MapOrder}.

Lemma set_with_Hosts_twice h h' i : set_with_Hosts h (set_with_Hosts h' i) = set_with_Hosts h i.
Proof. done. Qed.

Lemma syncBmhRefs_hosts all i : ∃ h, syncBmhRefs all i = set_with_Hosts h i.
Proof.
  unfold syncBmhRefs. generalize (range 3 (set_Hosts i)) as l. intros l.
  assert (Hi : ∃ h, i = set_with_Hosts h i) by (exists (bst_BaremetalHosts (set_Status i)); by destruct i as [? ? ? []]).
  assert (Hgen : ∀ j h0, j = set_with_Hosts h0 i → ∃ h, foldl (λ inst '(computeName, bmhStatus),
    if existsb (λ bmh, String.eqb (bmh_Name bmh) (hs_BmhRef bmhStatus)) all
    then inst else set_delete_host computeName inst) j l = set_with_Hosts h i).
  { induction l as [|[c st] l IH]; intros j h0 ->; simpl; [by eexists|].
    destruct (existsb _ all); by eapply IH. }
  destruct Hi as [h Hi]. by eapply Hgen.
Qed.

Lemma deprovision_instance i st (w w' : W) i' :
  BaremetalHostDeprovision i st w = (Ok i', w') → i' = set_delete_host (hs_Hostname st) i.
Proof.
  unfold BaremetalHostDeprovision. intros (b & w1 & _ & Hr)%st_bind_ok.
  apply st_bind_ok in Hr as ([] & w2 & _ & Hr). by apply st_bind_ok in Hr as (? & w3 & _ & [-> _]%st_ret_inv).
Qed.

Lemma provision_instance i bmh hostName ip ps ssh pw env (w w' : W) i' env' :
  BaremetalHostProvision i bmh hostName ip ps ssh pw env w = (Ok (i', env'), w') →
  ∃ st, i' = set_with_Hosts (Some (<[hostName := st]> (set_Hosts i))) i.
Proof.
  unfold BaremetalHostProvision. destruct (userDataFor i hostName ssh pw) as [us ud].
  intros ([ns nd] & w1 & _ & Hr)%st_bind_ok. apply st_bind_ok in Hr as (? & w2 & _ & Hr).
  apply st_bind_ok in Hr as (? & w3 & _ & Hr). apply st_bind_ok in Hr as (? & w4 & _ & Hr).
  unfold set_Hosts. destruct (bst_BaremetalHosts (set_Status i)) as [hs|]; [|done].
  apply st_ret_inv in Hr as [[= -> _] _]. by eexists.
Qed.

End frame.

(** ** The shape of the hosts part *)

Section hosts.
Context {W : Type} `{Hc : Client W} `{Hsc : SetClient W} `{Hlib : LibCommon} `{Hll : !LibCommonLaws}.
Context `{Hcl : ConditionLib} `{Hord : MapOrder}.
Abbreviation RS := (rstate (W := W)).

(** A property of the instance that does not look at the status of the hosts. *)
Definition hosts_irrelevant (I : OpenStackBaremetalSet → Prop) : Prop :=
  ∀ h i, I i → I (set_with_Hosts h i).

Lemma sync_keeps I : hosts_irrelevant I →
  triple (λ s : RS, I s.2) (on_instance VerifyAndSyncBaremetalStatusBmhRefs) (λ _ s, I s.2).
Proof.
  intros HI. apply triple_on_instance. intros i i' w w' Hi.
  unfold VerifyAndSyncBaremetalStatusBmhRefs. intros (all & w1 & _ & [-> _]%st_ret_inv)%st_bind_ok.
  destruct (syncBmhRefs_hosts all i) as [h ->]. by apply HI.
Qed.

Lemma deleteBmh_keeps I labels : hosts_irrelevant I →
  triple (λ s : RS, I s.2) (deleteBmh labels) (λ _ s, I s.2).
Proof.
  intros HI. unfold deleteBmh.
  apply triple_bind with (R := λ _ s, I s.2); [by apply triple_gets|]. intros i.
  apply triple_bind with (R := λ _ s, I s.2).
  { apply triple_on_cluster. by intros [] w j. }
  intros existing. apply triple_iter; [|done]. intros hostName.
  eapply triple_conseq; [apply (triple_on_instance I)|done|by intros []].
  intros j j' w w' Hj ->%deprovision_instance. by apply HI.
Qed.

(** After provisioning, every compute of the list has an entry. *)
Lemma provisionAll_keeps I ps ssh pw env l D : hosts_irrelevant I →
  triple (λ s : RS, I s.2 ∧ D ⊆ dom (set_Hosts s.2)) (provisionAll ps ssh pw env l)
    (λ o s, I s.2 ∧ (o = Ok tt → D ∪ list_to_set l.*1 ⊆ dom (set_Hosts s.2))).
Proof.
  intros HI. revert D env. induction l as [|[c b] l IH]; intros D env; simpl.
  { apply triple_ret. intros s [? ?]. split; [done|]. set_solver. }
  intros [w i] [Hi HD]. unfold get_instance, st_bind, on_cluster, put_instance, st_gets, st_zoom. simpl.
  destruct (BaremetalHostProvision _ _ _ _ _ _ _ _ _) as [[[i' env']|e|m] w'] eqn:Hr; simpl;
    [|split; [done|by intros ?]..].
  apply provision_instance in Hr as [st ->].
  pose proof (IH (D ∪ {[c]}) env' (w', set_with_Hosts (Some (<[c := st]> (set_Hosts i))) i)) as Hrec.
  destruct Hrec as [Hi' Hd].
  { split; [by apply HI|]. simpl in *. rewrite set_Hosts_with_Hosts. simpl. set_solver. }
  split; [exact Hi'|]. intros Ho. specialize (Hd Ho). simpl in *. set_solver.
Qed.

(** When the hosts are ensured, every compute of the spec has an entry. *)
Lemma ensure_keeps I ps ssh pw labels env : hosts_irrelevant I →
  triple (λ s : RS, I s.2) (ensureBaremetalHosts ps ssh pw labels env)
    (λ o s, I s.2 ∧ (o = Ok tt → dom (set_SpecHosts s.2) ⊆ dom (set_Hosts s.2))).
Proof.
  intros HI [w i] Hi.
  unfold ensureBaremetalHosts, get_instance, on_cluster, st_bind, st_zoom, st_gets, st_lift. simpl.
  destruct (GetBaremetalHosts _ (ts_BmhLabelSelector _) w) as [[all|e|m] w1]; simpl; [|done..].
  destruct (GetBaremetalHosts _ labels w1) as [[existing|e|m] w2]; simpl; [|done..].
  destruct (VerifyBaremetalSetScaleUp i all existing) as [sel|e|m] eqn:Hsel; simpl; [|done..].
  pose proof (provisionAll_keeps (λ j, I j ∧ set_Spec j = set_Spec i) ps ssh pw env
    (range 11 (MergeMaps (default ∅ sel) (buildExistingHostBMHMap i existing))) (dom (set_Hosts i))
    ltac:(intros h j [? <-]; split; [by apply HI|done]) (w2, i) ltac:(done)) as [[HI' Hsp] Hd].
  split; [exact HI'|]. intros Ho. specialize (Hd Ho). unfold set_SpecHosts. rewrite Hsp.
  intros c Hc'. apply Hd. destruct (decide (c ∈ dom (set_Hosts i))) as [|Hn]; [set_solver|].
  apply elem_of_union_r, elem_of_list_to_set, elem_of_range_fst.
  rewrite MergeMaps_spec, dom_union_L, (scaleUp_dom _ _ _ _ Hsel). set_solver.
Qed.

End hosts.

(** ** The conditions along a reconciliation *)

Section ready.
Context {W : Type} `{Hc : Client W} `{Hsc : SetClient W} `{Hlib : LibCommon} `{Hll : !LibCommonLaws}.
Context `{Hcl : ConditionLib} `{Hcw : !ConditionLaws} `{Hord : MapOrder}.
Abbreviation RS := (rstate (W := W)).

Abbreviation ProvServerReady := OpenStackBaremetalSetProvServerReadyCondition.
Abbreviation BmhReady := OpenStackBaremetalSetBmhProvisioningReadyCondition.

Lemma set_types_ne :
  InputReadyCondition ≠ ReadyCondition ∧ ProvServerReady ≠ ReadyCondition ∧ BmhReady ≠ ReadyCondition ∧
  InputReadyCondition ≠ BmhReady ∧ ProvServerReady ≠ BmhReady ∧ InputReadyCondition ≠ ProvServerReady.
Proof.
  pose proof cond_types_distinct as Hd. rewrite !NoDup_cons in Hd.
  destruct Hd as (H1&H2&_&_&_&_&_&_&_&_&H3&_). set_solver.
Qed.

(** The condition types a set reports besides Ready. *)
Definition sub_types : list string := [InputReadyCondition; ProvServerReady; BmhReady].

(** While the work goes on: nothing says that the hosts are provisioned. *)
Record in_progress (i : OpenStackBaremetalSet) : Prop := {
  ip_ready : inst_status i ReadyCondition = Some ConditionUnknown;
  ip_bmh : inst_status i BmhReady ≠ Some ConditionTrue;
  ip_sub : Forall (λ t, is_Some (inst_status i t)) sub_types;
}.

(** Every compute of the spec has a host and every host is provisioned. *)
Definition all_provisioned (i : OpenStackBaremetalSet) : Prop :=
  dom (set_SpecHosts i) ⊆ dom (set_Hosts i) ∧
  map_Forall (λ _ st, hs_ProvisioningState st = StateProvisioned) (set_Hosts i).

(** When the work ends. *)
Record sound_status (i : OpenStackBaremetalSet) : Prop := {
  ss_ready : inst_status i ReadyCondition = Some ConditionUnknown ∨
    inst_status i ReadyCondition = Some ConditionTrue ∧
    Forall (λ t, inst_status i t = Some ConditionTrue) sub_types;
  ss_sub : Forall (λ t, is_Some (inst_status i t)) sub_types;
  ss_bmh : inst_status i BmhReady = Some ConditionTrue → all_provisioned i;
}.

(** How a call of the reconciler ends. *)
Definition ends_sound {A} (o : outcome A) (s : RS) : Prop :=
  match o with Panic _ => True | _ => sound_status s.2 end.

Lemma in_progress_sound i : in_progress i → sound_status i.
Proof. intros [? ? ?]. split; [by left|done|done]. Qed.

Lemma in_progress_hosts : hosts_irrelevant in_progress.
Proof. intros h i [? ? ?]. by split. Qed.

Lemma in_progress_meta m i : in_progress i → in_progress (set_with_Meta m i).
Proof. intros [? ? ?]. by split. Qed.

Lemma in_progress_maps i : in_progress i → in_progress (statusMaps i).
Proof. intros [? ? ?]. by split. Qed.

(** Setting a condition other than Ready, and not BmhReady to true. *)
Lemma in_progress_update i f t st :
  in_progress i → t ≠ ReadyCondition → (t = BmhReady → st ≠ ConditionTrue) →
  (∀ cs t', cond_status (f cs) t' = if decide (t' = t) then Some st else cond_status cs t') →
  in_progress (set_with_Conditions (f (bst_Conditions (set_Status i))) i).
Proof.
  intros [Hr Hb Hs] Ht Hst Hf. unfold inst_status in *. split; unfold inst_status; simpl.
  - rewrite Hf. by case_decide.
  - rewrite Hf. case_decide; [|done]. subst. intros [= ->]. by apply Hst.
  - eapply Forall_impl; [exact Hs|]. intros t' [? Ht']. rewrite Hf. case_decide; [by eexists|by exists x].
Qed.

Lemma set_condition_false (c : Condition) Q :
  cond_Type c ≠ ReadyCondition → cond_Status c = ConditionFalse →
  (∀ s, in_progress s.2 → Q (Ok tt) s) →
  triple (λ s : RS, in_progress s.2) (set_condition c) Q.
Proof.
  intros Ht Hs HQ. apply triple_modify. intros [w i] Hi. apply HQ. simpl in *.
  eapply (in_progress_update _ (λ cs, cond_Set cs c) (cond_Type c) ConditionFalse); [done|exact Ht|done|].
  intros cs t'. by rewrite cond_Set_spec, Hs.
Qed.

Lemma mark_true_sub t format Q :
  t ≠ ReadyCondition → t ≠ BmhReady → (∀ s, in_progress s.2 → Q (Ok tt) s) →
  triple (λ s : RS, in_progress s.2) (mark_true t format) Q.
Proof.
  intros Ht Hb HQ. apply triple_modify. intros [w i] Hi. apply HQ. simpl in *.
  eapply (in_progress_update _ (λ cs, cond_MarkTrue cs t format) t ConditionTrue); [done..|].
  intros cs t'. apply cond_MarkTrue_spec.
Qed.

(** A condition that is not true, then an early return. *)
Lemma stop_with (c : Condition) (k : st RS Result) :
  cond_Type c ≠ ReadyCondition → cond_Status c = ConditionFalse →
  triple (λ s : RS, in_progress s.2) k ends_sound →
  triple (λ s : RS, in_progress s.2) (do! set_condition c then k) ends_sound.
Proof.
  intros Ht Hs Hk. eapply triple_bind with (R := λ _ s, in_progress s.2).
  - apply set_condition_false; [done..|]. by intros.
  - by intros _.
Qed.

Lemma ret_sound r : triple (λ s : RS, in_progress s.2) (st_ret r) (ends_sound (A := Result)).
Proof. apply triple_ret. intros s. apply in_progress_sound. Qed.

Lemma err_sound e : triple (λ s : RS, in_progress s.2) (st_err e) (ends_sound (A := Result)).
Proof. apply triple_err. intros s. apply in_progress_sound. Qed.

Lemma withInputSecret_sound name ns k :
  (∀ secret hash, triple (λ s : RS, in_progress s.2) (k secret hash) ends_sound) →
  triple (λ s : RS, in_progress s.2) (withInputSecret name ns k) ends_sound.
Proof.
  intros Hk. unfold withInputSecret. destruct set_types_ne as (Hir & _).
  eapply triple_bind with (R := λ _ s, in_progress s.2).
  { apply triple_try, triple_on_cluster. by intros []. }
  intros [[secret hash]|err]; [apply Hk|].
  destruct (early_conditions InputReadyCondition (cond_const "InputReadyErrorMessage") err) as (?&_&_&Ht&_).
  destruct (early_conditions InputReadyCondition (cond_const "InputReadyWaitingMessage") err) as (_&?&_&_&Ht'&_).
  destruct (err_is_not_found err); apply stop_with; rewrite ?Ht, ?Ht'; auto using ret_sound, err_sound.
Qed.

Lemma withProvisionServer_sound k :
  (∀ ps, triple (λ s : RS, in_progress s.2) (k ps) ends_sound) →
  triple (λ s : RS, in_progress s.2) (withProvisionServer k) ends_sound.
Proof.
  intros Hk. unfold withProvisionServer. destruct set_types_ne as (Hir & Hpr & _ & _ & Hpb & _).
  assert (Hfalse : ∀ c t format (k' : st RS Result), t ≠ ReadyCondition →
    (c = warning_condition t format ∨ c = running_condition t format ∨ ∃ e, c = error_condition t format e) →
    triple (λ s : RS, in_progress s.2) k' ends_sound →
    triple (λ s : RS, in_progress s.2) (do! set_condition c then k') ends_sound).
  { intros c t format k' Ht Hcs Hk'.
    destruct (early_conditions t format (Errorf "")) as (_&?&?&_&?&?).
    destruct Hcs as [->|[->|[e ->]]]; [apply stop_with; [congruence|congruence|done]..|].
    destruct (early_conditions t format e) as (?&_&_&?&_). apply stop_with; [congruence|congruence|done]. }
  eapply triple_bind with (R := λ _ s, in_progress s.2); [by apply triple_gets|]. intros i.
  assert (Hm : ∀ m ps, triple (λ s : RS, in_progress s.2)
    (do! mark_true ProvServerReady m then k ps) ends_sound).
  { intros m ps. eapply triple_bind with (R := λ _ s, in_progress s.2); [|by intros _].
    by apply mark_true_sub. }
  destruct (String.eqb (ts_OSImageDeploymentType _) _).
  - eapply triple_bind with (R := λ _ s, in_progress s.2).
    { apply triple_try, triple_on_cluster. by intros []. }
    intros [ps|err].
    + destruct (String.eqb _ ""); [eapply (Hfalse _ ProvServerReady); eauto using ret_sound|].
      destruct (String.eqb _ ""); [eapply (Hfalse _ ProvServerReady); eauto using ret_sound|]. apply Hm.
    + destruct (err_is_not_found err); eapply (Hfalse _ ProvServerReady); eauto using ret_sound, err_sound.
  - destruct (String.eqb _ ""); [eapply (Hfalse _ InputReadyCondition); eauto using ret_sound|]. apply Hm.
Qed.

Lemma ready_not_sub : ReadyCondition ∉ sub_types.
Proof.
  destruct set_types_ne as (? & ? & ? & _). unfold sub_types. rewrite !elem_of_cons.
  intros [?|[?|[?|?%not_elem_of_nil]]]; congruence.
Qed.

Lemma finishProvisioning_sound :
  triple (λ s : RS, in_progress s.2 ∧ dom (set_SpecHosts s.2) ⊆ dom (set_Hosts s.2))
    finishProvisioning ends_sound.
Proof.
  destruct set_types_ne as (Hir & Hpr & Hbr & Hib & Hpb & _).
  intros [w i] [Hi Hd]. unfold finishProvisioning, get_instance, st_bind, st_gets. simpl in *.
  destruct (existsb _ _) eqn:He.
  - destruct (early_conditions BmhReady OpenStackBaremetalSetBmhProvisioningReadyRunningMessage
      (Errorf "")) as (_&_&?&_&_&Ht).
    apply (stop_with _ _ ltac:(by rewrite Ht) ltac:(done) (ret_sound Result_zero) (w, i) Hi).
  - assert (Hall : all_provisioned i).
    { split; [done|]. intros c st Hst. apply not_true_iff_false in He.
      destruct (decide (hs_ProvisioningState st = StateProvisioned)) as [|Hne]; [done|].
      destruct He. apply existsb_range. exists c, st. split; [done|]. by apply negb_true_iff, String.eqb_neq. }
    unfold mark_true, upd_conditions, st_modify. simpl.
    set (cs := cond_MarkTrue (bst_Conditions (set_Status i)) BmhReady _).
    destruct Hi as [Hr _ Hs]. unfold inst_status in *.
    assert (Hcs : ∀ t, cond_status cs t = if decide (t = BmhReady) then Some ConditionTrue
      else cond_status (bst_Conditions (set_Status i)) t) by (intros t; apply cond_MarkTrue_spec).
    assert (Hsub : Forall (λ t, is_Some (cond_status cs t)) sub_types).
    { eapply Forall_impl; [exact Hs|]. intros t ?. rewrite Hcs. by case_decide. }
    destruct (cond_AllSubConditionIsTrue cs) eqn:Ha; simpl.
    + pose proof (cond_AllSub_spec cs Ha) as Hall'.
      pose proof (all_true sub_types cs ready_not_sub Hsub Hall') as Htrue.
      assert (Hcs' : ∀ t, t ∈ sub_types → cond_status (cond_MarkTrue cs ReadyCondition
        (cond_const "ReadyMessage")) t = cond_status cs t).
      { intros t Ht. rewrite cond_MarkTrue_spec. case_decide as Heq; [|done]. subst t.
        unfold sub_types in Ht. rewrite !elem_of_cons in Ht. naive_solver set_solver. }
      rewrite Forall_forall in Hsub, Htrue.
      split; unfold inst_status; simpl; [right; split| |done].
      * rewrite cond_MarkTrue_spec. by rewrite decide_True.
      * apply Forall_forall. intros t Ht. rewrite Hcs'; auto.
      * apply Forall_forall. intros t Ht. rewrite Hcs'; auto.
    + split; unfold inst_status; simpl; [left|done|done]. rewrite Hcs. by rewrite decide_False.
Qed.

Lemma or_fail_sound {A} format (c : st RS A) (R : A → RS → Prop) :
  triple (λ s : RS, in_progress s.2) c (λ o s, in_progress s.2 ∧ ∀ a, o = Ok a → R a s) →
  triple (λ s : RS, in_progress s.2) (or_fail BmhReady format c)
    (post_bind R (ends_sound (A := Result))).
Proof.
  intros Hc'. destruct set_types_ne as (_ & _ & Hbr & _).
  unfold or_fail. apply triple_catch with (R := λ _ s, in_progress s.2).
  { eapply triple_conseq; [exact Hc'|done|]. intros [a|e|m] s [? ?]; simpl; auto. }
  intros e. destruct (early_conditions BmhReady format e) as (Hs&_&_&Ht&_).
  eapply triple_bind with (R := λ _ s, in_progress s.2).
  - apply set_condition_false; [by rewrite Ht|done|by intros].
  - intros _. apply triple_err. intros s. apply in_progress_sound.
Qed.

Lemma reconcileHosts_sound ps ssh pw env :
  triple (λ s : RS, in_progress s.2) (reconcileHosts ps ssh pw env) ends_sound.
Proof.
  unfold reconcileHosts.
  eapply triple_bind with (R := λ _ s, in_progress s.2).
  { apply or_fail_sound. eapply triple_conseq; [apply sync_keeps, in_progress_hosts|done|]. by split. }
  intros _. eapply triple_bind with (R := λ _ s, in_progress s.2); [by apply triple_gets|]. intros i.
  eapply triple_bind with (R := λ _ s, in_progress s.2).
  { apply or_fail_sound. eapply triple_conseq; [apply deleteBmh_keeps, in_progress_hosts|done|]. by split. }
  intros _.
  eapply triple_bind with (R := λ _ s, in_progress s.2 ∧ dom (set_SpecHosts s.2) ⊆ dom (set_Hosts s.2)).
  { apply or_fail_sound. eapply triple_conseq; [apply ensure_keeps, in_progress_hosts|done|].
    intros o s [? Hd]. split; [done|]. intros [] ->. auto. }
  intros _. apply finishProvisioning_sound.
Qed.

Lemma reconcileNormal_sound : triple (λ s : RS, in_progress s.2) reconcileNormal ends_sound.
Proof.
  destruct set_types_ne as (Hir & _ & _ & Hib & _).
  unfold reconcileNormal.
  eapply triple_bind with (R := λ _ s, in_progress s.2); [by apply triple_gets|]. intros i.
  apply withInputSecret_sound. intros ssh hash.
  eapply triple_bind with (R := λ _ s, in_progress s.2); [by apply mark_true_sub|]. intros _.
  assert (Hrest : ∀ pw env, triple (λ s : RS, in_progress s.2)
    (unless_requeued reconcileInit (unless_requeued reconcileUpdate (unless_requeued reconcileUpgrade
       (withProvisionServer (λ ps, reconcileHosts ps ssh pw env))))) ends_sound).
  { intros pw env. apply (withProvisionServer_sound (λ ps, reconcileHosts ps ssh pw env)).
    intros ps. apply reconcileHosts_sound. }
  destruct (ts_PasswordSecret _) as [ref|]; [|apply Hrest].
  apply withInputSecret_sound. intros pw hash'. apply Hrest.
Qed.

Lemma cleanupAll_keeps I l : hosts_irrelevant I →
  triple (λ s : RS, I s.2) (cleanupAll l) (λ _ s, I s.2).
Proof.
  intros HI. induction l as [|[c st] l IH]; simpl; [by apply triple_ret|].
  eapply triple_bind with (R := λ _ s, I s.2); [by apply triple_gets|]. intros i.
  eapply triple_bind with (R := λ _ s, I s.2); [|by intros _].
  destruct (decide _); [|by apply triple_ret].
  eapply triple_conseq; [apply (triple_on_instance I)|done|by intros []].
  intros j j' w w' Hj ->%deprovision_instance. by apply HI.
Qed.

Lemma reconcileDelete_sound : triple (λ s : RS, in_progress s.2) reconcileDelete ends_sound.
Proof.
  unfold reconcileDelete.
  eapply triple_bind with (R := λ _ s, in_progress s.2).
  { apply triple_catch with (R := λ _ s, in_progress s.2).
    - unfold baremetalHostCleanup.
      eapply triple_bind with (R := λ _ s, in_progress s.2); [by apply triple_gets|]. intros i.
      eapply triple_conseq; [apply cleanupAll_keeps, in_progress_hosts|done|]. by intros [].
    - intros e. destruct (err_is_not_found e); [by apply triple_ret|].
      apply triple_err. intros s. apply in_progress_sound. }
  intros _. eapply triple_bind with (R := λ i _, in_progress i); [by apply triple_gets|]. intros i.
  intros [w j] Hi. by apply in_progress_sound, in_progress_meta.
Qed.

Lemma initialStatus_in_progress i : in_progress (initialStatus i).
Proof.
  destruct set_types_ne as (Hir & Hpr & Hbr & Hib & Hpb & Hip).
  assert (Hu : ∀ t r f, UnknownCondition t r f ∈ initialConditions →
    inst_status (initialStatus i) t = Some ConditionUnknown).
  { intros t r f Hin. unfold inst_status. simpl.
    destruct (UnknownCondition_spec t r f) as [Ht Hs]. rewrite <-Ht at 1.
    rewrite cond_Init_spec, Hs; [done| |exact Hin].
    unfold initialConditions. simpl. rewrite !(proj1 (UnknownCondition_spec _ _ _)).
    repeat (apply NoDup_cons; split; [rewrite ?elem_of_cons, elem_of_nil; intuition congruence|]).
    apply NoDup_nil. done. }
  unfold initialConditions in Hu. setoid_rewrite elem_of_cons in Hu. setoid_rewrite elem_of_cons in Hu.
  setoid_rewrite elem_of_cons in Hu. setoid_rewrite elem_of_cons in Hu.
  assert (Hb : inst_status (initialStatus i) BmhReady = Some ConditionUnknown) by (eapply Hu; eauto 6).
  split.
  - eapply Hu. eauto.
  - by rewrite Hb.
  - repeat constructor; eexists; eapply Hu; eauto 6.
Qed.

Lemma set_reconcile_sound isNew : triple (λ _ : RS, True) (set_reconcile isNew) ends_sound.
Proof.
  intros [w i] _. unfold set_reconcile, get_instance, put_instance, st_bind, st_gets, st_modify. simpl.
  pose proof (initialStatus_in_progress i) as Hi.
  destruct (negb _) eqn:Hdel; [|].
  - destruct (AddFinalizer _ _) as [meta added]. simpl.
    assert (Hm : in_progress (set_with_Meta meta (initialStatus i))) by by apply in_progress_meta.
    destruct (added || isNew); [by apply in_progress_sound|].
    apply negb_true_iff in Hdel. rewrite Hdel. apply reconcileNormal_sound. by apply in_progress_maps.
  - simpl. destruct isNew; [by apply in_progress_sound|].
    apply negb_false_iff in Hdel. rewrite Hdel. apply reconcileDelete_sound. by apply in_progress_maps.
Qed.

(** Ready in what is patched means ready in earnest. *)
Lemma set_finish_ready saved i :
  sound_status i → inst_status (set_finish saved i) ReadyCondition = Some ConditionTrue →
  Forall (λ t, inst_status (set_finish saved i) t = Some ConditionTrue) sub_types ∧ all_provisioned i.
Proof.
  intros [Hr Hs Hb] Hready.
  destruct (finish_ready sub_types saved (bst_Conditions (set_Status i)) ready_not_sub Hs Hr Hready) as [Ht Hf].
  split; [exact Hf|]. apply Hb. rewrite Forall_forall in Ht. apply Ht. unfold sub_types. set_solver.
Qed.

End ready.

(** ** Releasing the hosts of a deleted set *)

Section cleanup.
Context {W : Type} `{Hc : Client W} `{Hv : ClientView W} `{Hcl : !ClientLaws W} `{Hsc : SetClient W}.
Context `{Hlib : LibCommon} `{Hll : !LibCommonLaws} `{Hord : MapOrder}.
Abbreviation RS := (rstate (W := W)).

(** A host that the instance has let go. *)
Definition released (i : OpenStackBaremetalSet) (b : BareMetalHost) : Prop :=
  bmhs_ConsumerRef (bmh_Spec b) = None ∧ bmhs_Image (bmh_Spec b) = None ∧
  bmhs_Online (bmh_Spec b) = false ∧
  bmh_Labels b !! GetOwnerUIDLabelSelector (GetGroupLabel ServiceName) = None.

Lemma deprovisionedHost_released i st b : released i (deprovisionedHost i st b).
Proof.
  split_and!; [done..|]. rewrite deprovisionedHost_labels. case_decide as Hd; [done|].
  destruct Hd. rewrite bmhOwnerLabels_spec, dom_union_L. apply elem_of_union_r.
  unfold owner_labels. rewrite dom_insert_L. set_solver.
Qed.

Definition released_at (i : OpenStackBaremetalSet) (w : W) (name : string) : Prop :=
  ∃ b, hosts w !! (set_BmhNamespace i, name) = Some b ∧ released i b.

(** The entries still in the status after some have been released. *)
Lemma cleanupAll_ok l w i w' i' :
  cleanupAll (W := W) l (w, i) = (Ok tt, (w', i')) →
  NoDup l.*1 → (∀ c st, (c, st) ∈ l → hs_Hostname st = c) → (∀ c st, (c, st) ∈ l → is_Some (set_Hosts i !! c)) →
  (∀ name, released_at i w name → released_at i w' name) ∧
  (∀ c st, (c, st) ∈ l → released_at i w' (hs_BmhRef st)) ∧
  set_Spec i' = set_Spec i ∧
  ∀ c, set_Hosts i' !! c = if decide (c ∈ l.*1) then None else set_Hosts i !! c.
Proof.
  revert w i. induction l as [|[c st] l IH]; intros w i Hr Hnd Hn Hin.
  { injection Hr as -> ->. split_and!; [done|set_solver|done|done]. }
  apply NoDup_cons in Hnd as [Hcl' Hnd]. cbn [cleanupAll] in Hr.
  unfold get_instance, st_bind, st_gets in Hr. cbn [snd] in Hr.
  rewrite decide_True in Hr by (eapply (Hin c st); set_solver). rewrite on_instance_run in Hr.
  destruct (BaremetalHostDeprovision i st w) as [[j| |] w1] eqn:Hd; simpl in Hr; [|done..].
  apply deprovision_run in Hd as (b & Hb & Hh & _ & _ & ->).
  assert (Hname : hs_Hostname st = c) by (apply (Hn c st); set_solver).
  destruct (IH w1 _ Hr Hnd) as (Hold & Hnew & Hsp & Hlk).
  { intros c' st' ?. apply Hn. set_solver. }
  { intros c' st' Hc'. rewrite set_Hosts_delete, lookup_delete_ne; [apply (Hin c' st'); set_solver|].
    rewrite Hname. intros <-. apply Hcl'. apply list_elem_of_fmap. by exists (c, st'). }
  change (set_BmhNamespace (set_delete_host (hs_Hostname st) i)) with (set_BmhNamespace i) in *.
  assert (Hrel : ∀ name, released_at i w1 name → released_at i w' name) by (intros name Hx; apply (Hold name Hx)).
  split_and!.
  - intros name (b0 & Hb0 & Hr0). apply Hrel. unfold released_at. rewrite Hh.
    destruct (decide (name = hs_BmhRef st)) as [->|Hne].
    + eexists. split; [apply lookup_insert_eq|]. apply deprovisionedHost_released.
    + exists b0. split; [|done]. rewrite lookup_insert_ne; [done|]. congruence.
  - intros c' st' [[= -> ->]|Hc']%elem_of_cons; [|apply (Hnew _ _ Hc')].
    apply Hrel. unfold released_at. rewrite Hh. eexists. split; [apply lookup_insert_eq|].
    apply deprovisionedHost_released.
  - by rewrite Hsp.
  - intros c'. rewrite Hlk, set_Hosts_delete, Hname. simpl.
    destruct (decide (c' ∈ l.*1)) as [Hl|Hl].
    + by rewrite decide_True by (apply elem_of_cons; by right).
    + rewrite lookup_delete. destruct (decide (c = c')) as [->|Hne].
      * by rewrite decide_True by (apply elem_of_cons; by left).
      * by rewrite decide_False by (rewrite elem_of_cons; naive_solver).
Qed.

(** One host is released; the others that were released stay so. *)
Lemma deprovision_released i st w w' i' :
  BaremetalHostDeprovision i st w = (Ok i', w') →
  i' = set_delete_host (hs_Hostname st) i ∧ released_at i w' (hs_BmhRef st) ∧
  ∀ name, released_at i w name → released_at i w' name.
Proof.
  intros (b & Hb & Hh & _ & _ & ->)%deprovision_run.
  assert (Hst : released_at i w' (hs_BmhRef st)).
  { exists (deprovisionedHost i st b). rewrite Hh. split; [apply lookup_insert_eq|].
    apply deprovisionedHost_released. }
  split_and!; [done|done|]. intros name (b0 & Hb0 & Hr0).
  destruct (decide (name = hs_BmhRef st)) as [->|Hne]; [done|].
  exists b0. rewrite Hh. split; [|done]. rewrite lookup_insert_ne; [done|]. congruence.
Qed.

Definition keyed (i : OpenStackBaremetalSet) : Prop :=
  map_Forall (λ c st, hs_Hostname st = c) (set_Hosts i).

(** Deallocating a list of computes releases the host of each one's entry. *)
Lemma deallocate_ok l w i w' i' :
  st_iter (λ hostName, on_instance (λ i,
    BaremetalHostDeprovision i (default HostStatus_zero (set_Hosts i !! hostName)))) l (w, i) =
    (Ok tt, (w', i')) → keyed i → set_Hosts i !! "" = None →
  (∀ name, released_at i w name → released_at i w' name) ∧ set_Hosts i' ⊆ set_Hosts i ∧
  ∀ c st, c ∈ l → set_Hosts i !! c = Some st → released_at i w' (hs_BmhRef st) ∧ set_Hosts i' !! c = None.
Proof.
  revert w i. induction l as [|c l IH]; intros w i Hr Hk He; cbn [st_iter] in Hr.
  { injection Hr as -> ->. split_and!; [done|done|set_solver]. }
  unfold st_bind in Hr. rewrite on_instance_run in Hr.
  destruct (BaremetalHostDeprovision i _ w) as [[j| |] w1] eqn:Hd; [|done..].
  apply deprovision_released in Hd as (-> & Hst & Hold).
  destruct (IH w1 _ Hr) as (Hold' & Hsub & Hnew).
  { intros c' st'. rewrite set_Hosts_delete, lookup_delete_Some. intros [_ ?]. by apply Hk. }
  { rewrite set_Hosts_delete, lookup_delete. by case_decide. }
  rewrite set_Hosts_delete in Hsub, Hnew.
  assert (Hrel : ∀ name, released_at i w1 name → released_at i w' name) by (intros name Hx; apply (Hold' name Hx)).
  split_and!.
  - auto.
  - etrans; [exact Hsub|apply delete_subseteq].
  - intros c' st' Hin Hc'. destruct (decide (c' = c)) as [->|Hne].
    + rewrite Hc' in Hst, Hsub. simpl in Hst, Hsub. split; [by apply Hrel|].
      apply Hk in Hc'. rewrite Hc' in Hsub. apply eq_None_not_Some. intros [x Hx].
      eapply lookup_weaken in Hsub; [|exact Hx]. by rewrite lookup_delete_eq in Hsub.
    + apply elem_of_cons in Hin as [?|Hin]; [done|].
      destruct (decide (hs_Hostname (default HostStatus_zero (set_Hosts i !! c)) = c')) as [Heq|Hne'].
      * destruct (set_Hosts i !! c) as [st0|] eqn:Hc0; simpl in *.
        -- apply Hk in Hc0. congruence.
        -- change (hs_Hostname HostStatus_zero) with "" in Heq. congruence.
      * apply (Hnew c' st' Hin). by rewrite lookup_delete_ne.
Qed.

End cleanup.

(** ** Properties *)

(** C3: however a reconciliation of a set ends short of a panic, with or without
    an error, when the status it is about to write says Ready, it also says that
    the inputs, the provision server and the hosts are ready; every compute of
    the spec then has an entry, and every entry a host that Metal3 reports as
    provisioned. No assumption is made on what the cluster answers. *)
Theorem Reconcile_ready_sound {W} `{Client W} `{SetClient W} `{LibCommon} `{!LibCommonLaws}
    `{ConditionLib} `{!ConditionLaws} `{MapOrder} isNew saved (w w' : W) i i' o :
  set_reconcile isNew (w, i) = (o, (w', i')) → (∀ m, o ≠ Panic m) →
  let patched := set_finish saved i' in
  set_IsReady patched = true →
  inst_status patched InputReadyCondition = Some ConditionTrue ∧
  inst_status patched OpenStackBaremetalSetProvServerReadyCondition = Some ConditionTrue ∧
  inst_status patched OpenStackBaremetalSetBmhProvisioningReadyCondition = Some ConditionTrue ∧
  dom (set_SpecHosts patched) ⊆ dom (set_Hosts patched) ∧
  map_Forall (λ _ st, hs_ProvisioningState st = StateProvisioned) (set_Hosts patched).
Proof.
  intros Hr Hp patched Hready%cond_IsTrue_spec. pose proof (set_reconcile_sound isNew (w, i) I) as Hs. rewrite Hr in Hs.
  assert (Hss : sound_status i') by (unfold ends_sound in Hs; destruct o; [done|done|by destruct (Hp msg)]).
  destruct (set_finish_ready saved i' Hss Hready) as [Hsub [Hd Hall]].
  unfold sub_types in Hsub. rewrite !Forall_cons in Hsub. by destruct Hsub as (?&?&?&_).
Qed.

(** A set whose only compute runs on a provisioned host. *)
Definition ready_set : OpenStackBaremetalSet :=
  set_with_Meta (mem_with_finalizers ["openstack.org/OpenStackBaremetalSet"] (sample_meta "openstack" "edpm" ∅))
    (sample_set HardwareReqs_zero {["c0" := sample_instance ∅]} {["c0" := sample_host_status "c0" "h0"]}).
Definition ready_host (name hostName : string) : BareMetalHost :=
  let b := provisionPatch ready_set hostName (sample_prov "openstack" "ps" 6190)
    (mkSecretReference "ud" "bmh") (mkSecretReference "nd" "bmh") (sample_bmh name ∅) in
  mkBmh (bmh_Meta b) (bmh_Spec b) (mkBmhStatus StateProvisioned (bmht_HardwareDetails (bmh_Status b))).
Definition ready_server : OpenStackProvisionServer :=
  ps_with_Status (mkProvStatus 1 (Some []) (Some ∅) "" "" "http://10.0.0.1:6190/image" "sum" SHA256
    "http://10.0.0.1:6190/sum") (sample_prov "openstack" "edpm-provisionserver" 6190).
Definition ready_mem : mem :=
  mkMem {[("bmh", "h0") := ready_host "h0" "c0"]}
    {[("openstack", "ssh-key") := mkSecret "ssh-key" {["authorized_keys" := "ssh-rsa AAAA"]}]}
    {[("openstack", "edpm-provisionserver") := ready_server]} {[("openstack", "edpm") := ready_set]} [].
Definition ready_run : outcome Result * (mem * OpenStackBaremetalSet) :=
  set_reconcile (H3 := list_order) false (ready_mem, ready_set).

Lemma Reconcile_ready_sound_witness :
  let patched := set_finish (Some []) ready_run.2.2 in
  set_IsReady patched = true ∧
  dom (set_SpecHosts patched) ⊆ dom (set_Hosts patched).
Proof.
  intros patched.
  assert (Hr := run_outcome ready_run (Ok Result_zero) ltac:(vm_refl)).
  assert (Hready : set_IsReady patched = true) by vm_refl.
  split; [exact Hready|].
  exact (proj1 (proj2 (proj2 (proj2 (Reconcile_ready_sound (H5 := list_order) false (Some []) _ _ _ _ _ Hr
    ltac:(intros m; discriminate) Hready))))).
Defined.

(** The reconciler does not panic when reading the object, building the helper
    and patching the status do not: a panic on the way is returned as an error,
    and then the cluster is what the interrupted reconciliation left, without the
    status being written. *)
Theorem Reconcile_no_panic {W} `{Client W} `{SetClient W} `{LibCommon} `{ConditionLib} `{MapOrder}
    namespace name (w : W) :
  (∀ w m, (set_Get namespace name w).1 ≠ Panic m) → (∀ i w m, (set_NewHelper i w).1 ≠ Panic m) →
  (∀ i j w m, (set_PatchInstance i j w).1 ≠ Panic m) →
  (∀ m, (Reconcile namespace name w).1 ≠ Panic m) ∧
  ∀ i w1 w2 m w3 i3, set_Get namespace name w = (Ok i, w1) → set_NewHelper i w1 = (Ok tt, w2) →
    IsPaused (om_Annotations (set_Meta i)) = false → bst_Conditions (set_Status i) ≠ None →
    set_reconcile false (w2, i) = (Panic m, (w3, i3)) →
    Reconcile namespace name w =
      (Err (Errorf ("baremetal set reconciliation panic occurred: " +:+ m)), w3).
Proof.
  intros Hg Hh Hp. split.
  - intros m. unfold Reconcile. pose proof (Hg w) as Hgw.
    destruct (set_Get namespace name w) as [[i|e|m'] w1]; simpl in *.
    + destruct (_ && _); [done|]. pose proof (Hh i w1) as Hhw.
      destruct (set_NewHelper i w1) as [[[]|e|m'] w2]; simpl in *; [|done|by destruct (Hhw m')].
      destruct (set_reconcile _ _) as [[r|e|m'] [w3 i3]] eqn:Hr; [..|done].
      all: match goal with |- context [set_PatchInstance ?a ?b ?c] => pose proof (Hp a b c) as Hpw;
             destruct (set_PatchInstance a b c) as [[?|?|m'] ?] end; simpl in *;
           [done|done|by destruct (Hpw m')].
    + by destruct (err_is_not_found e).
    + by destruct (Hgw m').
  - intros i w1 w2 m w3 i3 Hget Hhelp Hpause Hnew Hr. unfold Reconcile.
    rewrite Hget, Hpause. simpl. rewrite Hhelp, bool_decide_eq_false_2 by done. by rewrite Hr.
Qed.

Lemma Reconcile_no_panic_witness :
  match (Reconcile (W := mem) (H3 := list_order) "openstack" "edpm" ready_mem).1 with
  | Panic _ => False
  | _ => True
  end.
Proof.
  assert (Hn : ∀ m, (Reconcile (W := mem) (H3 := list_order) "openstack" "edpm" ready_mem).1 ≠ Panic m).
  { refine (proj1 (Reconcile_no_panic (H3 := list_order) "openstack" "edpm" ready_mem _ _ _)).
    - intros w m. simpl. unfold mem_call. destruct (bool_decide _); [discriminate|].
      destruct (mem_view_sets w !! _); discriminate.
    - intros i w m. simpl. unfold mem_call. destruct (bool_decide _); discriminate.
    - intros i j w m. simpl. unfold mem_call. destruct (bool_decide _); discriminate. }
  destruct (Reconcile _ _ _) as [[r|e|m] w']; [exact I..|destruct (Hn m eq_refl)].
Defined.

(** C17: when the clean-up of a deleted set runs to its end, every BareMetalHost
    of its status has been released: it has no consumer, no image and no owner
    label, and is switched off; and the status has no entry left. *)
Theorem baremetalHostCleanup_releases {W} `{Client W} `{ClientView W} `{!ClientLaws W}
    `{LibCommon} `{!LibCommonLaws} `{MapOrder} (w w' : W) i i' :
  baremetalHostCleanup (w, i) = (Ok tt, (w', i')) →
  map_Forall (λ c st, hs_Hostname st = c) (set_Hosts i) →
  set_Hosts i' = ∅ ∧
  ∀ c st, set_Hosts i !! c = Some st →
    ∃ b, hosts w' !! (set_BmhNamespace i, hs_BmhRef st) = Some b ∧ released i b.
Proof.
  intros Hr Hn.
  destruct (cleanupAll_ok (range 12 (set_Hosts i)) w i w' i') as (_ & Hrel & _ & Hl).
  - exact Hr.
  - apply range_fst_NoDup.
  - intros c st Hin%elem_of_range. by apply Hn.
  - intros c st Hin%elem_of_range. by eexists.
  - split; [|intros c st Hc; apply (Hrel c st); by apply elem_of_range].
    apply map_empty. intros c. rewrite Hl. destruct (decide _) as [|Hd]; [done|].
    rewrite elem_of_range_fst in Hd. by apply not_elem_of_dom.
Qed.

Definition cleanup_run (l : list (string * string)) : outcome unit * (mem * OpenStackBaremetalSet) :=
  baremetalHostCleanup (H3 := list_order)
    (mkMem (list_to_map ((λ '(c, b), (("bmh", b), ready_host b c)) <$> l)) ∅ ∅ ∅ [],
     set_with_Hosts (Some (list_to_map ((λ '(c, b), (c, sample_host_status c b)) <$> l))) ready_set).

Lemma baremetalHostCleanup_releases_witness :
  set_Hosts (cleanup_run [("c0", "h0"); ("c1", "h1")]).2.2 = ∅.
Proof.
  assert (Hr := run_outcome (cleanup_run [("c0", "h0"); ("c1", "h1")]) (Ok tt) ltac:(vm_refl)).
  refine (proj1 (baremetalHostCleanup_releases (H3 := list_order) _ _ _ _ Hr _)).
  by_compute.
Defined.

(** C40: a BareMetalHost that is gone stops the deletion of a set, yet the
    deletion is reported as done: when the first host visited is not found, no
    host is released, the finalizer is removed and the reconciliation succeeds,
    however many hosts the set still holds. *)
Theorem reconcileDelete_stops_at_missing_host {W} `{Client W} `{LibCommon} `{MapOrder}
    (w : W) i c st rest e :
  range 12 (set_Hosts i) = (c, st) :: rest →
  bmh_Get (set_BmhNamespace i) (hs_BmhRef st) w = (Err e, w) → err_is_not_found e = true →
  reconcileDelete (w, i) =
    (Ok Result_zero, (w, set_with_Meta (RemoveFinalizer (set_Meta i) (GetFinalizer (set_Kind i))) i)).
Proof.
  intros Hr Hg He.
  assert (Hin : set_Hosts i !! c = Some st) by (apply (elem_of_range 12); rewrite Hr; set_solver).
  assert (Hcl : baremetalHostCleanup (w, i) = (Err e, (w, i))).
  { unfold baremetalHostCleanup, get_instance, st_bind, st_gets. simpl. rewrite Hr. cbn [cleanupAll].
    unfold get_instance, st_bind, st_gets. simpl. rewrite decide_True by (rewrite Hin; by eexists).
    rewrite on_instance_run. unfold BaremetalHostDeprovision, st_bind. by rewrite Hg. }
  unfold reconcileDelete, st_catch, st_bind. rewrite Hcl, He. reflexivity.
Qed.

(** Two hosts, of which the first visited has been deleted: the other stays
    claimed, and the set loses its finalizer. *)
Definition leak_set : OpenStackBaremetalSet :=
  set_with_Hosts (Some (list_to_map [("c0", sample_host_status "c0" "h0"); ("c1", sample_host_status "c1" "h1")]))
    ready_set.
Definition leak_first : string * HostStatus :=
  default ("", HostStatus_zero) (head (map_to_list (set_Hosts leak_set))).
Definition leak_rest : list (string * HostStatus) := tail (map_to_list (set_Hosts leak_set)).
Definition leak_mem : mem :=
  mkMem (list_to_map ((λ cs : string * HostStatus,
      (("bmh", hs_BmhRef cs.2), ready_host (hs_BmhRef cs.2) cs.1)) <$> leak_rest)) ∅ ∅ ∅ [].

Lemma reconcileDelete_stops_at_missing_host_witness :
  reconcileDelete (H3 := list_order) (leak_mem, leak_set) =
    (Ok Result_zero, (leak_mem, set_with_Meta
      (RemoveFinalizer (set_Meta leak_set) (GetFinalizer (set_Kind leak_set))) leak_set)) ∧
  om_Finalizers (RemoveFinalizer (set_Meta leak_set) (GetFinalizer (set_Kind leak_set))) = [] ∧
  size (mem_view_hosts leak_mem) = 1.
Proof.
  split; [|split; vm_refl].
  apply (reconcileDelete_stops_at_missing_host (H1 := list_order) leak_mem leak_set leak_first.1 leak_first.2
    leak_rest (not_found (hs_BmhRef leak_first.2))); vm_refl.
Defined.

(** C18: when the hosts a set no longer wants are dealt with, each host that
    carries the set's labels and the name of a compute the spec does not have, and
    that the status records for that compute, has been released, and the compute's
    entry is gone from the status. *)
Theorem deleteBmh_releases {W} `{Client W} `{ClientView W} `{!ClientLaws W}
    `{LibCommon} `{!LibCommonLaws} `{MapOrder} (w w' : W) i i' labels b hostName st :
  deleteBmh labels (w, i) = (Ok tt, (w', i')) → keyed i → set_Hosts i !! "" = None →
  hosts w !! (set_BmhNamespace i, bmh_Name b) = Some b → om_Namespace (bmh_Meta b) = set_BmhNamespace i →
  labels ⊆ bmh_Labels b → bmh_Labels b !! hostnameLabelKey i = Some hostName →
  hostName ∉ dom (set_SpecHosts i) →
  set_Hosts i !! hostName = Some st → hs_BmhRef st = bmh_Name b →
  set_Hosts i' !! hostName = None ∧
  ∃ b', hosts w' !! (set_BmhNamespace i, bmh_Name b) = Some b' ∧ released i b'.
Proof.
  intros Hr Hk He Hb Hns Hl Hlab Hspec Hst Href.
  unfold deleteBmh, get_instance, st_bind, st_gets, on_cluster, st_zoom in Hr. simpl in Hr.
  destruct (GetBaremetalHosts (set_BmhNamespace i) labels w) as [[ex| |] w1] eqn:Hg; [|done..].
  assert (Hex : w1 = w ∧ b ∈ ex).
  { unfold GetBaremetalHosts in Hg.
    apply bmh_List_ok in Hg as (-> & _ & Hin). split; [done|]. apply Hin.
    assert (Hkey : bmh_key b = (set_BmhNamespace i, bmh_Name b)) by (unfold bmh_key; by rewrite Hns).
    rewrite Hkey. split; [done|].
    unfold opts_select. case_bool_decide; repeat constructor; done. }
  destruct Hex as [-> Hin].
  destruct (deallocate_ok _ _ _ _ _ Hr Hk He) as (_ & _ & Hrel).
  destruct (Hrel hostName st) as [Hrl Hnone]; [|done|].
  - unfold hostNamesToDeprovision. apply list_elem_of_omap. exists b. split; [done|].
    rewrite Hlab. simpl. destruct (existsb _ _) eqn:Hf; [|done].
    apply existsb_range in Hf as (k & v & Hkv & ->%String.eqb_eq). destruct Hspec. by eapply elem_of_dom_2.
  - split; [done|]. rewrite <-Href. exact Hrl.
Qed.

Definition shrink_set : OpenStackBaremetalSet :=
  mkSet (set_Kind ready_set) (set_Meta ready_set)
    (mkSetSpec ∅ "" None [] [] (set_Template ready_set)) (set_Status ready_set).
Definition shrink_run : outcome unit * (mem * OpenStackBaremetalSet) :=
  deleteBmh (H3 := list_order) (owner_labels (set_Meta shrink_set) (GetGroupLabel ServiceName))
    (ready_mem, shrink_set).

Lemma deleteBmh_releases_witness :
  set_Hosts shrink_run.2.2 !! "c0" = None ∧
  ∃ b', hosts shrink_run.2.1 !! ("bmh", "h0") = Some b' ∧ released shrink_set b'.
Proof.
  assert (Hr := run_outcome shrink_run (Ok tt) ltac:(vm_refl)).
  apply (deleteBmh_releases (H3 := list_order) ready_mem shrink_run.2.1 shrink_set shrink_run.2.2
    (owner_labels (set_Meta shrink_set) (GetGroupLabel ServiceName)) (ready_host "h0" "c0") "c0"
    (sample_host_status "c0" "h0")); try vm_refl.
  - by_compute.
  - by_compute.
  - by_compute.
Defined.

(** C32: what the reconciler makes of the provision server it manages: the images,
    the interface and the node selector come from the set, and the other settings and
    the status stay. A server that has a port keeps it, and it is at most 6210; a new one
    gets the lowest port from 6190 to 6210 that no server of the cluster has. When none
    is left for a new one, or its own port is above the range, the call fails. *)
Theorem provisionServerPatch_correct {W} `{Client W} `{LibCommon} `{!LibCommonLaws} `{MapOrder}
    i p (w w1 : W) items :
  prov_List [] w = (Ok items, w1) → NoDup (ps_NamespacedName <$> items) →
  let own s := s ∈ items ∧ ps_NamespacedName s = ps_NamespacedName p ∧ ps_Port s ≠ 0%Z in
  let taken q := ∃ s, s ∈ items ∧ ps_Port s = q in
  (∀ p' w', provisionServerPatch i p w = (Ok p', w') →
    let t := set_Template i in
    w' = w1 ∧ (ps_Port p' ≤ 6210)%Z ∧ (∀ s, own s → ps_Port p' = ps_Port s) ∧
    ((∀ s, ¬ own s) → (6190 ≤ ps_Port p')%Z ∧ ¬ taken (ps_Port p') ∧ ∀ q, (6190 ≤ q < ps_Port p')%Z → taken q) ∧
    pss_OSImage (ps_Spec p') = ts_OSImage t ∧
    pss_OSContainerImageURL (ps_Spec p') = ts_OSContainerImageURL t ∧
    pss_ApacheImageURL (ps_Spec p') = ts_ApacheImageURL t ∧
    pss_AgentImageURL (ps_Spec p') = ts_AgentImageURL t ∧
    pss_Interface (ps_Spec p') = ts_ProvisioningInterface t ∧
    pss_NodeSelector (ps_Spec p') = ts_ProvisonServerNodeSelector t ∧
    pss_OSImageDir (ps_Spec p') = pss_OSImageDir (ps_Spec p) ∧
    pss_Resources (ps_Spec p') = pss_Resources (ps_Spec p) ∧
    pss_PreserveJobs (ps_Spec p') = pss_PreserveJobs (ps_Spec p) ∧
    ps_Status p' = ps_Status p ∧ ps_key p' = ps_key p) ∧
  ((∃ s, own s ∧ (6210 < ps_Port s)%Z) ∨ (∀ s, ¬ own s) ∧ (∀ q, (6190 ≤ q ≤ 6210)%Z → taken q) →
   ∃ e, provisionServerPatch i p w = (Err e, w1)).
Proof.
  intros Hl Hd own taken. pose proof (AssignProvisionServerPort_managed p w w1 items Hl Hd) as Hport. cbv zeta in Hport.
  fold own taken in Hport. split.
  - intros p' w'. unfold provisionServerPatch. intros (q & w2 & Ha & Hs)%st_bind_ok. cbv zeta in *.
    apply st_lift_inv in Hs as [Hs ->]. pose proof Ha as Hq. apply AssignProvisionServerPort_only_port in Hq as [n ->].
    apply SetControllerReference_spec in Hs as (Hsp & Hst & Hk). rewrite Ha in Hport.
    destruct Hport as (-> & Hle & Hown & Hnew).
    assert (Hpp : ps_Port p' = n) by (unfold ps_Port; by rewrite Hsp). rewrite Hpp, Hsp, Hst, Hk.
    split; [done|]. split; [done|]. split; [exact Hown|]. split; [exact Hnew|]. done.
  - intros Hfail. unfold provisionServerPatch, st_bind.
    destruct (AssignProvisionServerPort p _ _ w) as [[q|e|m] w2]; [|by destruct Hport as [-> _]; eexists|done].
    exfalso. destruct Hport as (_ & Hle & Hown & Hnew). destruct Hfail as [(s & Hs & Hlt)|[Hno Hall]].
    + rewrite (Hown s Hs) in Hle. lia.
    + destruct (Hnew Hno) as (Hge & Hf & _). by apply Hf, Hall.
Qed.

Definition patch_mem : mem :=
  mkMem ∅ ∅ {[("openstack", "other") := sample_prov "openstack" "other" 6190]} ∅ [].

Lemma provisionServerPatch_correct_witness :
  ∃ p', provisionServerPatch (H3 := list_order) ready_set (sample_prov "openstack" "edpm-provisionserver" 0) patch_mem =
      (Ok p', patch_mem) ∧
    pss_OSContainerImageURL (ps_Spec p') = "quay.io/os" ∧ ps_Port p' ≠ 6190%Z ∧ (6190 ≤ ps_Port p' ≤ 6210)%Z.
Proof.
  set (p := sample_prov "openstack" "edpm-provisionserver" 0).
  assert (Hr : ∃ p', provisionServerPatch (H3 := list_order) ready_set p patch_mem = (Ok p', patch_mem))
    by (eexists; vm_compute; reflexivity).
  destruct Hr as [p' Hr]. exists p'. split; [exact Hr|].
  destruct (provisionServerPatch_correct (H2 := list_order) ready_set p patch_mem patch_mem
    [sample_prov "openstack" "other" 6190]) as [Hok _].
  - vm_compute. reflexivity.
  - apply NoDup_singleton.
  - destruct (Hok _ _ Hr) as (_ & Hle & _ & Hnew & _ & Hu & _). split; [exact Hu|].
    destruct Hnew as (Hge & Hf & _); [|split; [|exact (conj Hge Hle)]].
    + intros s (->%list_elem_of_singleton & Hn & _). vm_compute in Hn. discriminate Hn.
    + intros Heq. apply Hf. exists (sample_prov "openstack" "other" 6190). split; [by apply list_elem_of_singleton|].
      by rewrite Heq.
Defined.

(** Once a host without owner labels has been provisioned for a set, each of
    its events asks for that very set to be reconciled. *)
Theorem provisioned_host_requests `{LibCommon} `{!LibCommonLaws} i hostName ps ud nd b :
  let group := GetGroupLabel ServiceName in
  (∀ k, k ∈ dom (owner_labels (set_Meta i) group) → bmh_Labels b !! k = None ∧ k ≠ hostnameLabelKey i) →
  bareMetalHostRequests (bmh_Labels (provisionPatch i hostName ps ud nd b)) =
    [(set_Namespace i, set_Name i)].
Proof.
  simpl. intros Hno. rewrite provisionPatch_Labels, bmhOwnerLabels_spec.
  pose proof (owner_selectors_distinct (GetGroupLabel ServiceName)) as Hd.
  rewrite !NoDup_cons, !elem_of_cons in Hd.
  set (group := GetGroupLabel ServiceName) in *. set (ow := owner_labels (set_Meta i) group) in *.
  assert (Hlk : ∀ k v, ow !! k = Some v →
    (bmh_Labels b ∪ ({[hostnameLabelKey i := hostName]} ∪ ow)) !! k = Some v).
  { intros k v Hk. destruct (Hno k) as [Hb Hne]; [by eapply elem_of_dom_2|].
    rewrite lookup_union_r by done. rewrite lookup_union_r; [done|]. by apply lookup_singleton_ne. }
  unfold bareMetalHostRequests. fold group.
  rewrite (Hlk (GetOwnerUIDLabelSelector group) (om_UID (set_Meta i))) by apply lookup_insert_eq.
  rewrite (Hlk (GetOwnerNameSpaceLabelSelector group) (set_Namespace i)).
  2:{ unfold ow, owner_labels. rewrite lookup_insert_ne by naive_solver. apply lookup_insert_eq. }
  rewrite (Hlk (GetOwnerNameLabelSelector group) (set_Name i)); [done|].
  unfold ow, owner_labels. rewrite !lookup_insert_ne by naive_solver. apply lookup_singleton_eq.
Qed.

Lemma provisioned_host_requests_witness :
  bareMetalHostRequests (bmh_Labels (provisionPatch ready_set "c0" (sample_prov "openstack" "ps" 6190)
    (mkSecretReference "ud" "bmh") (mkSecretReference "nd" "bmh") (sample_bmh "h0" ∅))) =
  [("openstack", "edpm")].
Proof.
  apply (provisioned_host_requests ready_set "c0").
  intros k Hk%elem_of_elements. revert k Hk.
  apply (proj1 (Forall_forall (λ k, bmh_Labels (sample_bmh "h0" ∅) !! k = None ∧ k ≠ hostnameLabelKey ready_set) _)).
  by_compute.
Defined.
