(* ===== verification/Lifecycle.v ===== *)
(** * What a reconciliation does to the hosts, however it ends

    A reconciliation of an OpenStackBaremetalSet reads and writes BareMetalHosts
    that other sets and other operators use too, and any of its calls may fail.
    [set_step] is the specification of what it may do to the hosts and to the
    status it holds, one step at a time: patch a host that is free or its own,
    record it in the status, release a host of the status, forget an entry, or
    change something that is neither. [Reconcile] is shown to be a sequence of
    such steps whatever its outcome, and what holds of the steps (by induction on
    them) holds of the reconciler. [pool_step] is a coarser specification, which
    sees only who consumes each host, and the steps refine it. *)

From S2P Require Import Prelude GoStrings ApiTypes Samples Kube MemCluster Conditions Matching Reconciler Hardware ScaleUp ProvPorts BmhProvision SetController.

(** ** Calls that leave the hosts alone *)

Section keeps.
Context {W : Type} `{Hv : ClientView W}.
Context `{Hc : Client W} `{Hsc : SetClient W} `{Hf : !HostFrame W} `{Hsf : !SetFrame W}.

#[export] Instance keeps_bmh_List opts : Keeps hosts (bmh_List opts).
Proof. intros w. apply frame_bmh_List. Qed.
#[export] Instance keeps_bmh_Get ns n : Keeps hosts (bmh_Get ns n).
Proof. intros w. apply frame_bmh_Get. Qed.
#[export] Instance keeps_prov_List opts : Keeps hosts (prov_List opts).
Proof. intros w. apply frame_prov_List. Qed.
#[export] Instance keeps_prov_Get ns n : Keeps hosts (prov_Get ns n).
Proof. intros w. apply frame_prov_Get. Qed.
#[export] Instance keeps_prov_Delete ns n : Keeps hosts (prov_Delete ns n).
Proof. intros w. apply frame_prov_Delete. Qed.
#[export] Instance keeps_prov_CreateOrPatch p f :
  (∀ q, Keeps hosts (f q)) → Keeps hosts (prov_CreateOrPatch p f).
Proof. intros Hk w. by apply frame_prov_CreateOrPatch. Qed.
#[export] Instance keeps_GetSecret n ns : Keeps hosts (GetSecret n ns).
Proof. intros w. apply frame_GetSecret. Qed.
#[export] Instance keeps_EnsureSecrets o sts env : Keeps hosts (EnsureSecrets o sts env).
Proof. intros w. apply frame_EnsureSecrets. Qed.
#[export] Instance keeps_DeleteSecretsWithName n ns : Keeps hosts (DeleteSecretsWithName n ns).
Proof. intros w. apply frame_DeleteSecretsWithName. Qed.

Context `{Hlib : LibCommon} `{Hord : MapOrder}.

(** The provision server a set manages is no concern of the hosts. *)
#[export] Instance keeps_findProvisionServer i : Keeps hosts (findProvisionServer i).
Proof.
  unfold findProvisionServer, provisionServerCreateOrUpdate, provisionServerDelete, provisionServerPatch,
    AssignProvisionServerPort, GetExistingProvServerPorts. apply _.
Qed.

#[export] Instance keeps_GetBaremetalHosts ns sel : Keeps hosts (GetBaremetalHosts ns sel).
Proof. unfold GetBaremetalHosts. apply _. Qed.

End keeps.

(** ** The steps *)

Section steps.
Context `{Hlib : LibCommon} `{Hord : MapOrder}.

(** The hosts of the cluster, and the instance the reconciler holds. *)
Definition hview : Type := gmap (string * string) BareMetalHost * OpenStackBaremetalSet.

(** How the instance refers to itself as a consumer. *)
Definition self_ref (i : OpenStackBaremetalSet) : ObjectReference :=
  mkObjectReference (set_Name i) (set_Kind i) (set_Namespace i).

(** A host that carries the labels the instance gives its hosts. *)
Definition labelled (i : OpenStackBaremetalSet) (b : BareMetalHost) : Prop :=
  owner_labels (set_Meta i) (GetGroupLabel ServiceName) ⊆ bmh_Labels b.

(** A host the instance may patch: nobody's, or its own by reference or by label. *)
Definition ours (i : OpenStackBaremetalSet) (b : BareMetalHost) : Prop :=
  bmhs_ConsumerRef (bmh_Spec b) = None ∨ bmhs_ConsumerRef (bmh_Spec b) = Some (self_ref i) ∨
  labelled i b.

#[export] Instance labelled_dec i b : Decision (labelled i b).
Proof. unfold labelled. apply _. Defined.

#[export] Instance ObjectReference_eq_dec : EqDecision ObjectReference.
Proof. solve_decision. Defined.

#[export] Instance ours_dec i b : Decision (ours i b).
Proof. unfold ours. apply _. Defined.

Record same_object (i j : OpenStackBaremetalSet) : Prop := {
  so_spec : set_Spec j = set_Spec i;
  so_kind : set_Kind j = set_Kind i;
  so_name : set_Name j = set_Name i;
  so_namespace : set_Namespace j = set_Namespace i;
  so_uid : om_UID (set_Meta j) = om_UID (set_Meta i);
}.

Definition host_key (i : OpenStackBaremetalSet) (name : string) : string * string :=
  (set_BmhNamespace i, name).

Inductive set_step : hview → hview → Prop :=
| step_patch σ i c name ps ud nd b :
    σ !! host_key i name = Some b → ours i b →
    set_step (σ, i) (<[host_key i name := provisionPatch i c ps ud nd b]> σ, i)
| step_record σ i c name ip ud nd b :
    σ !! host_key i name = Some b → ours i b → bmhs_ConsumerRef (bmh_Spec b) ≠ None →
    set_step (σ, i) (σ, set_with_Hosts (Some
      (<[c := provisionedStatus (provisionStatus i name c ip) ud nd b]> (set_Hosts i))) i)
| step_release σ i st b :
    (st = HostStatus_zero ∨ ∃ c, set_Hosts i !! c = Some st) →
    σ !! host_key i (hs_BmhRef st) = Some b →
    set_step (σ, i) (<[host_key i (hs_BmhRef st) := deprovisionedHost i st b]> σ, i)
| step_forget σ i c : set_step (σ, i) (σ, set_delete_host c i)
| step_other σ i j : same_object i j → set_Hosts j = set_Hosts i → set_step (σ, i) (σ, j).

(** Whatever happens to it, the instance stays the same object. *)
Lemma same_object_refl i : same_object i i.
Proof. done. Qed.

Lemma same_object_trans i j k : same_object i j → same_object j k → same_object i k.
Proof. intros [? ? ? ? ?] [? ? ? ? ?]. split; congruence. Qed.

Lemma set_step_same s s' : set_step s s' → same_object s.2 s'.2.
Proof. by destruct 1. Qed.

Lemma set_steps_same s s' : rtc set_step s s' → same_object s.2 s'.2.
Proof.
  induction 1; [apply same_object_refl|]. eapply same_object_trans; [by apply set_step_same|done].
Qed.

Lemma ours_same i j b : same_object i j → ours i b → ours j b.
Proof.
  intros [_ Hk Hn Hns Hu]. unfold ours, self_ref, labelled, owner_labels, set_Name, set_Namespace in *. by rewrite Hk, Hn, Hns, Hu.
Qed.

Lemma host_key_same i j name : same_object i j → host_key j name = host_key i name.
Proof. intros [Hs _ _ _ _]. unfold host_key, set_BmhNamespace, set_Template. by rewrite Hs. Qed.

Context `{Hll : !LibCommonLaws}.

(** Patching makes a host consumed, and keeps it the instance's. *)
Lemma provisionPatch_ours i c ps ud nd b : ours i b → ours i (provisionPatch i c ps ud nd b).
Proof.
  intros Ho. destruct (bmhs_ConsumerRef (bmh_Spec b)) as [r|] eqn:Hr.
  - destruct (provisionSpec_consumer i ps ud nd (bmht_ProvisioningState (bmh_Status b)) _ r Hr) as [Hc _].
    destruct Ho as [?|[?|Hl]]; [congruence| |].
    + right; left. simpl. congruence.
    + right; right. unfold labelled. rewrite provisionPatch_Labels. etrans; [exact Hl|apply map_union_subseteq_l].
  - destruct (provisionSpec_free i ps ud nd (bmht_ProvisioningState (bmh_Status b)) _ Hr) as [Hc _].
    right; left. exact Hc.
Qed.

Lemma provisionPatch_consumed i c ps ud nd b :
  bmhs_ConsumerRef (bmh_Spec (provisionPatch i c ps ud nd b)) =
    Some (default (self_ref i) (bmhs_ConsumerRef (bmh_Spec b))).
Proof.
  destruct (bmhs_ConsumerRef (bmh_Spec b)) as [r|] eqn:Hr.
  - apply (provisionSpec_consumer i ps ud nd (bmht_ProvisioningState (bmh_Status b)) _ r Hr).
  - apply (provisionSpec_free i ps ud nd (bmht_ProvisioningState (bmh_Status b)) _ Hr).
Qed.

(** A host the instance may patch stays one. *)
Definition claimable (s : hview) (name : string) : Prop :=
  ∃ b, s.1 !! host_key s.2 name = Some b ∧ ours s.2 b.

Lemma claimable_insert (s : hview) k b name :
  ours s.2 b → claimable s name → claimable (<[k := b]> s.1, s.2) name.
Proof.
  intros Hb (b0 & Hb0 & Ho). unfold claimable. simpl.
  destruct (decide (k = host_key s.2 name)) as [->|Hne].
  - exists b. by rewrite lookup_insert_eq.
  - exists b0. by rewrite lookup_insert_ne.
Qed.

Lemma claimable_same σ i j name : same_object i j → claimable (σ, i) name → claimable (σ, j) name.
Proof.
  intros Hs (b & Hb & Ho). exists b. simpl in *. rewrite (host_key_same i j) by done.
  split; [done|]. by eapply ours_same.
Qed.

Lemma claimable_step s s' name : set_step s s' → claimable s name → claimable s' name.
Proof.
  destruct 1 as [σ i c n ps ud nd b Hb Ho|σ i c n ip ud nd b Hb Ho Hc|σ i st b Hst Hb|σ i c|σ i j Hs Hh].
  - apply (claimable_insert (σ, i)). by apply provisionPatch_ours.
  - by apply claimable_same.
  - apply (claimable_insert (σ, i)). by left.
  - by apply claimable_same.
  - by apply claimable_same.
Qed.

Lemma claimable_steps s s' name : rtc set_step s s' → claimable s name → claimable s' name.
Proof. induction 1; eauto using claimable_step. Qed.

End steps.

(** ** The reconciler takes such steps *)

Section simulation.
Context {W : Type} `{Hc : Client W} `{Hv : ClientView W} `{Hcl : !ClientLaws W} `{Hf : !HostFrame W}.
Context `{Hsc : SetClient W} `{Hsf : !SetFrame W} `{Hlib : LibCommon} `{Hll : !LibCommonLaws}.
Context `{Hcd : ConditionLib} `{Hord : MapOrder}.
Abbreviation RS := (rstate (W := W)).

Definition view (s : RS) : hview := (hosts s.1, s.2).

(** A call that goes from one view to the other by steps, however it ends. *)
Class Steps {A} (c : st RS A) : Prop := steps_run : ∀ s, rtc set_step (view s) (view (c s).2).

#[export] Instance steps_ret {A} (a : A) : Steps (st_ret a).
Proof. by intros s. Qed.
#[export] Instance steps_err {A} e : Steps (st_err (A := A) e).
Proof. by intros s. Qed.
#[export] Instance steps_get : Steps get_instance.
Proof. by intros s. Qed.
#[export] Instance steps_bind {A B} (c : st RS A) (f : A → st RS B) :
  Steps c → (∀ a, Steps (f a)) → Steps (st_bind c f).
Proof.
  intros Hc' Hf' s. unfold st_bind. specialize (Hc' s). destruct (c s) as [[a|e|m] s1]; simpl in *; [|done..].
  etrans; [exact Hc'|apply Hf'].
Qed.
#[export] Instance steps_catch {A} (c : st RS A) h : Steps c → (∀ e, Steps (h e)) → Steps (st_catch c h).
Proof.
  intros Hc' Hh s. unfold st_catch. specialize (Hc' s). destruct (c s) as [[a|e|m] s1]; simpl in *; [done| |done].
  etrans; [exact Hc'|apply Hh].
Qed.
#[export] Instance steps_try {A} (c : st RS A) : Steps c → Steps (st_try c).
Proof. intros Hc' s. unfold st_try. specialize (Hc' s). by destruct (c s) as [[a|e|m] s1]. Qed.
#[export] Instance steps_if {A} (b : bool) (c d : st RS A) : Steps c → Steps d → Steps (if b then c else d).
Proof. by destruct b. Qed.
#[export] Instance steps_decide {A} P (b : {P} + {¬ P}) (c d : st RS A) :
  Steps c → Steps d → Steps (if b then c else d).
Proof. by destruct b. Qed.
#[export] Instance steps_iter {A} (f : A → st RS unit) l : (∀ a, Steps (f a)) → Steps (st_iter f l).
Proof. intros Hf'. induction l; simpl; apply _. Qed.
#[export] Instance steps_unless c k : Steps c → Steps k → Steps (unless_requeued c k).
Proof. intros ? ?. unfold unless_requeued. apply _. Qed.

#[export] Instance steps_cluster {A} (c : st W A) : Keeps hosts c → Steps (on_cluster c).
Proof.
  intros Hk [w i]. unfold on_cluster, st_zoom. simpl. specialize (Hk w).
  destruct (c w) as [o w1]; simpl in *. unfold view. simpl. by rewrite Hk.
Qed.

#[export] Instance steps_conditions f : Steps (upd_conditions f).
Proof. intros [w i]. apply rtc_once. by apply step_other. Qed.
#[export] Instance steps_set_condition c : Steps (set_condition c).
Proof. unfold set_condition. apply _. Qed.
#[export] Instance steps_mark_true t m : Steps (mark_true t m).
Proof. unfold mark_true. apply _. Qed.
#[export] Instance steps_or_fail {A} t m (c : st RS A) : Steps c → Steps (or_fail t m c).
Proof. intros ?. unfold or_fail. apply _. Qed.

(** From a view, a call that returns the instance goes by steps to the view with
    that instance, or with the one it was given when it fails. *)
Definition ending {A : Type} (get : A → OpenStackBaremetalSet) (i : OpenStackBaremetalSet) (o : outcome A) :
    OpenStackBaremetalSet := match o with Ok a => get a | _ => i end.

Definition steps_from {A : Type} (get : A → OpenStackBaremetalSet) σ i (o : outcome A) (w : W) : Prop :=
  rtc set_step (σ, i) (hosts w, ending get i o).

Lemma steps_on_instance (c : OpenStackBaremetalSet → st W OpenStackBaremetalSet) w i :
  triple (λ v, v = w) (c i) (steps_from id (hosts w) i) →
  rtc set_step (view (w, i)) (view (on_instance c (w, i)).2).
Proof.
  intros Ht. specialize (Ht w eq_refl). rewrite on_instance_run. unfold steps_from in Ht.
  by destruct (c i w) as [[i'|e|m] w1].
Qed.

Lemma triple_Get (P : gmap (string * string) BareMetalHost → Prop) ns name :
  triple (λ w, P (hosts w)) (bmh_Get ns name)
    (λ o w, P (hosts w) ∧ ∀ b, o = Ok b → hosts w !! (ns, name) = Some b).
Proof.
  intros w Hw. rewrite frame_bmh_Get. split; [done|]. intros b Ho.
  by destruct (bmh_Get ns name w) as [o w1] eqn:Hg; simpl in Ho; subst; apply bmh_Get_ok in Hg as [_ ?].
Qed.

(** Synchronising the status forgets entries. *)
Lemma syncBmhRefs_steps all σ i : rtc set_step (σ, i) (σ, syncBmhRefs all i).
Proof.
  unfold syncBmhRefs. generalize (range 3 (set_Hosts i)) as l. intros l. revert i.
  induction l as [|[c st] l IH]; intros i; simpl; [done|].
  destruct (existsb _ all); [apply IH|]. eapply rtc_l; [apply step_forget|apply IH].
Qed.

#[export] Instance steps_sync : Steps (on_instance VerifyAndSyncBaremetalStatusBmhRefs).
Proof.
  intros [w i]. apply steps_on_instance. unfold VerifyAndSyncBaremetalStatusBmhRefs.
  apply triple_bind with (R := λ _ v, hosts v = hosts w).
  - eapply triple_conseq; [apply (triple_keeps hosts (λ σ, σ = hosts w)); apply _|by intros v ->|].
    intros [all|e|m] v Hv'; simpl; unfold steps_from; by rewrite Hv'.
  - intros all. apply triple_ret. intros v Hv'. unfold steps_from. simpl. rewrite Hv'. apply syncBmhRefs_steps.
Qed.

(** Releasing the host of an entry. *)
Lemma deprovision_steps i st w :
  st = HostStatus_zero ∨ (∃ c, set_Hosts i !! c = Some st) →
  triple (λ v, v = w) (BaremetalHostDeprovision i st) (steps_from id (hosts w) i).
Proof.
  intros Hst. unfold BaremetalHostDeprovision.
  set (at_w := λ σ, rtc set_step (hosts w, i) (σ, i)).
  apply triple_bind with (R := λ b v, hosts v = hosts w ∧ hosts w !! host_key i (hs_BmhRef st) = Some b).
  { eapply triple_conseq; [apply (triple_Get (λ σ, σ = hosts w))|by intros v ->|].
    intros [b|e|m] v [Hh Hb]; simpl; [|unfold steps_from; by rewrite Hh..].
    split; [done|]. rewrite <-Hh. by apply Hb. }
  intros b. apply triple_bind with (R := λ _ v, at_w (hosts v)).
  { intros v [Hh Hb].
    assert (Hkey : bmh_key (deprovisionedHost i st b) = host_key i (hs_BmhRef st)).
    { change (bmh_key b = host_key i (hs_BmhRef st)). eapply hosts_keyed. by rewrite Hh. }
    assert (Hrel : at_w (hosts (bmh_Update (deprovisionedHost i st b) v).2)).
    { unfold at_w. destruct (frame_bmh_Update (deprovisionedHost i st b) v) as [->| ->]; rewrite Hh; [done|].
      rewrite Hkey. apply rtc_once. by apply step_release. }
    by destruct (bmh_Update _ v) as [[u|e|m] v1]. }
  intros _. apply triple_bind with (R := λ _ v, at_w (hosts v)).
  { eapply triple_conseq; [apply (triple_keeps hosts at_w); apply _|done|]. by intros [u|e|m] v. }
  intros _. apply triple_ret. intros v Hv'. eapply rtc_r; [exact Hv'|apply step_forget].
Qed.

#[export] Instance steps_deleteBmh labels : Steps (deleteBmh labels).
Proof.
  unfold deleteBmh. apply steps_bind; [apply _|]. intros i. apply steps_bind; [apply _|]. intros ex.
  apply steps_iter. intros c [w j]. apply steps_on_instance, deprovision_steps.
  destruct (set_Hosts j !! c) as [st|] eqn:Hst; [right; by exists c|by left].
Qed.

(** Provisioning a host that is free or the instance's. *)
Lemma provision_steps i bmh hostName ip ps ssh pw env w :
  claimable (hosts w, i) bmh →
  triple (λ v, v = w) (BaremetalHostProvision i bmh hostName ip ps ssh pw env) (steps_from fst (hosts w) i).
Proof.
  intros (b0 & Hb0 & Ho). simpl in Hb0, Ho. unfold BaremetalHostProvision.
  destruct (userDataFor i hostName ssh pw) as [us ud].
  apply triple_bind with (R := λ _ v, v = w).
  { apply triple_lift. intros v ->. destruct (networkDataFor i hostName ip); simpl; unfold steps_from; done. }
  intros [ns nd]. apply triple_bind with (R := λ _ v, hosts v = hosts w).
  { eapply triple_conseq; [apply (triple_keeps hosts (λ σ, σ = hosts w)); apply _|by intros v ->|].
    intros [env1|e|m] v Hh; simpl; [done|unfold steps_from; by rewrite Hh..]. }
  intros env1. apply triple_bind with (R := λ b v, hosts v = hosts w ∧ b = b0).
  { eapply triple_conseq; [apply (triple_Get (λ σ, σ = hosts w))|done|].
    intros [b|e|m] v [Hh Hb]; simpl; [|unfold steps_from; by rewrite Hh..].
    split; [done|]. specialize (Hb b eq_refl). rewrite Hh in Hb. unfold host_key in Hb0. congruence. }
  intros b. set (f := provisionPatch i hostName ps ud nd).
  apply triple_bind with (R := λ b' v, b' = f b0 ∧ hosts v = <[host_key i bmh := f b0]> (hosts w)).
  { intros v [Hh ->]. pose proof (hosts_keyed _ _ _ Hb0) as Hkey.
    assert (Hp : rtc set_step (hosts w, i) (hosts (bmh_CreateOrPatch b0 f v).2, i)).
    { destruct (frame_bmh_CreateOrPatch b0 f v b0) as [->| ->];
        rewrite ?Hh, ?Hkey; [done|done|done|]. apply rtc_once. by apply step_patch. }
    destruct (bmh_CreateOrPatch b0 f v) as [[b'|e|m] v1] eqn:Hpatch; simpl in *; [|done..].
    apply bmh_CreateOrPatch_ok with (cur := b0) in Hpatch as (-> & Hh' & _ & _);
      [by rewrite Hh', Hh, Hkey|by rewrite Hh, Hkey|done]. }
  intros b'. intros v [-> Hh].
  assert (Hp : rtc set_step (hosts w, i) (hosts v, i)) by (rewrite Hh; apply rtc_once; by apply step_patch).
  destruct (bst_BaremetalHosts (set_Status i)) as [hs|] eqn:Hhs; [|exact Hp].
  eapply rtc_r; [exact Hp|]. simpl. replace hs with (set_Hosts i) by (unfold set_Hosts; by rewrite Hhs).
  apply step_record; [by rewrite Hh, lookup_insert_eq|by apply provisionPatch_ours|].
  unfold f. by rewrite provisionPatch_consumed.
Qed.

Lemma provisionAll_steps ps ssh pw env l w i :
  (∀ c b, (c, b) ∈ l → claimable (hosts w, i) (bmh_Name b)) →
  rtc set_step (view (w, i)) (view (provisionAll ps ssh pw env l (w, i)).2).
Proof.
  revert w i env. induction l as [|[c b] l IH]; intros w i env Hl; cbn [provisionAll]; [done|].
  unfold get_instance, on_cluster, put_instance, st_bind, st_zoom, st_gets, st_modify. simpl.
  pose proof (provision_steps i (bmh_Name b) c (is_CtlPlaneIP (spec_host i c)) ps ssh pw env w
    ltac:(apply (Hl c b), list_elem_of_here) w eq_refl) as Hs. unfold steps_from in Hs.
  destruct (BaremetalHostProvision _ _ _ _ _ _ _ _ w) as [[[i' env']|e|m] w']; simpl in *; [|done..].
  etrans; [exact Hs|]. apply IH. intros c' b' Hin. eapply claimable_steps; [exact Hs|]. by apply (Hl c' b'), list_elem_of_further.
Qed.

(** The hosts the set labelled are its own; those picked for new computes are free. *)
Lemma labelled_listed i labels all (w w' : W) b :
  labels = GetLabels (set_Meta i) (GetGroupLabel ServiceName) ∅ →
  GetBaremetalHosts (set_BmhNamespace i) labels w = (Ok all, w') → b ∈ all →
  w' = w ∧ hosts w !! host_key i (bmh_Name b) = Some b ∧ labelled i b.
Proof.
  intros -> [-> [_ Hin]]%bmh_List_ok Hb. apply Hin in Hb as [Hb Hsel]. split; [done|].
  rewrite GetLabels_spec, map_empty_union in Hsel. unfold opts_select in Hsel.
  set (ow := owner_labels _ _) in *.
  assert (Hsz : 0 < size ow).
  { destruct (decide (size ow = 0)) as [H0%map_size_empty_inv|]; [|lia].
    assert (Hk : ow !! GetOwnerUIDLabelSelector (GetGroupLabel ServiceName) = Some (om_UID (set_Meta i)))
      by apply lookup_insert_eq. rewrite H0, lookup_empty in Hk. done. }
  rewrite bool_decide_eq_true_2 in Hsel by done. simpl in Hsel.
  rewrite Forall_cons, Forall_singleton in Hsel. destruct Hsel as [Hns Hsel]. simpl in Hns, Hsel.
  unfold bmh_key in Hb. rewrite Hns in Hb. split; [exact Hb|done].
Qed.

Lemma selected_free i sel existing all (w w' : W) c b m :
  GetBaremetalHosts (set_BmhNamespace i) sel w = (Ok all, w') →
  VerifyBaremetalSetScaleUp i all existing = Ok m → default ∅ m !! c = Some b →
  hosts w !! host_key i (bmh_Name b) = Some b ∧ bmhs_ConsumerRef (bmh_Spec b) = None ∧ w' = w.
Proof.
  intros [-> [_ Hin]]%bmh_List_ok Hm Hb.
  pose proof (scaleUp_cases i all existing) as Hs. rewrite Hm in Hs. destruct m as [a|]; [|done].
  destruct Hs as [_ Ha]. simpl in Hb.
  assert (Hd : c ∈ dom (newComputes i)) by (rewrite <-(va_all _ _ _ Ha); by eapply elem_of_dom_2).
  apply elem_of_dom in Hd as [comp Hcomp].
  destruct (va_cand _ _ _ Ha c comp b) as [[Hall Hu]%elem_of_List_filter _]; [done..|].
  apply Hin in Hall as [Hb' Hsel].
  assert (Hns : om_Namespace (bmh_Meta b) = set_BmhNamespace i).
  { unfold opts_select in Hsel. case_bool_decide; by apply Forall_inv in Hsel. }
  unfold bmh_key in Hb'. rewrite Hns in Hb'. split_and!; [exact Hb'| |done]. by apply bmhUsable_spec in Hu as [].
Qed.

Lemma buildExisting_from i l c b :
  buildExistingHostBMHMap i l !! c = Some b → b ∈ l.
Proof.
  unfold buildExistingHostBMHMap.
  assert (Hgen : ∀ l (m : gmap string BareMetalHost),
    foldl (λ m bmh, match bmh_Labels bmh !! hostnameLabelKey i with
      | Some hostName => <[hostName := bmh]> m | None => m end) m l !! c = Some b →
    m !! c = Some b ∨ b ∈ l).
  { clear. induction l as [|x l IH]; intros m; simpl; [by left|].
    intros [Hm|?]%IH; [|by right; apply list_elem_of_further].
    destruct (bmh_Labels x !! _); [|by left]. apply lookup_insert_Some in Hm as [[_ ->]|[_ ?]]; [|by left].
    right. apply list_elem_of_here. }
  intros [Hm|?]%Hgen; [by rewrite lookup_empty in Hm|done].
Qed.

Lemma buildExisting_label i l c b :
  buildExistingHostBMHMap i l !! c = Some b → bmh_Labels b !! hostnameLabelKey i = Some c.
Proof.
  unfold buildExistingHostBMHMap.
  assert (Hgen : ∀ l (m : gmap string BareMetalHost),
    (∀ b, m !! c = Some b → bmh_Labels b !! hostnameLabelKey i = Some c) →
    ∀ b, foldl (λ m bmh, match bmh_Labels bmh !! hostnameLabelKey i with
      | Some hostName => <[hostName := bmh]> m | None => m end) m l !! c = Some b →
    bmh_Labels b !! hostnameLabelKey i = Some c).
  { clear. induction l as [|x l IH]; intros m Hm; simpl; [done|]. apply IH. intros b.
    destruct (bmh_Labels x !! hostnameLabelKey i) as [c'|] eqn:Hx; [|apply Hm].
    intros [[<- <-]|[_ ?]]%lookup_insert_Some; [done|by apply Hm]. }
  intros Hb. eapply Hgen; [|exact Hb]. intros b' Hb'. by rewrite lookup_empty in Hb'.
Qed.

Lemma ensure_steps ps ssh pw labels env w i :
  labels = GetLabels (set_Meta i) (GetGroupLabel ServiceName) ∅ →
  rtc set_step (view (w, i)) (view (ensureBaremetalHosts ps ssh pw labels env (w, i)).2).
Proof.
  intros Hlab. unfold ensureBaremetalHosts, get_instance, on_cluster, st_bind, st_zoom, st_gets, st_lift.
  simpl. pose proof (keeps_GetBaremetalHosts (set_BmhNamespace i) (ts_BmhLabelSelector (set_Template i)) w) as Hk.
  destruct (GetBaremetalHosts _ (ts_BmhLabelSelector _) w) as [[all|e|m] w1] eqn:Hall; simpl in Hk |- *;
    [|by unfold view; simpl; rewrite Hk..].
  pose proof (keeps_GetBaremetalHosts (set_BmhNamespace i) labels w1) as Hk1.
  destruct (GetBaremetalHosts _ labels w1) as [[existing|e|m] w2] eqn:Hex; simpl in Hk1 |- *;
    [|by unfold view; simpl; rewrite Hk1, Hk..].
  destruct (VerifyBaremetalSetScaleUp i all existing) as [m|e|m] eqn:Hm; simpl;
    [|by unfold view; simpl; rewrite Hk1, Hk..].
  replace (view (w, i)) with (view (w2, i)) by (unfold view; simpl; by rewrite Hk1, Hk).
  apply provisionAll_steps. intros c b Hcb%elem_of_range. rewrite Hk1, Hk.
  rewrite MergeMaps_spec in Hcb. apply lookup_union_Some_raw in Hcb as [Hcb|[_ Hcb]].
  - destruct (selected_free i _ existing all w w1 c b m Hall Hm Hcb) as (? & ? & ->). exists b. split; [done|by left].
  - apply buildExisting_from in Hcb. destruct (labelled_listed i labels existing w1 w2 b Hlab Hex Hcb) as (_&?&?).
    rewrite <-Hk. exists b. split; [done|]. by right; right.
Qed.

#[export] Instance steps_reconcileHosts ps ssh pw env : Steps (reconcileHosts ps ssh pw env).
Proof.
  unfold reconcileHosts. apply steps_bind; [apply _|]. intros _ [w i].
  unfold get_instance at 1, st_bind at 1, st_gets. cbn [fst snd]. cbv zeta.
  set (labels := GetLabels (set_Meta i) _ ∅).
  set (del := or_fail _ _ (deleteBmh labels)).
  assert (Hd : rtc set_step (view (w, i)) (view (del (w, i)).2)) by (unfold del; apply steps_run).
  unfold st_bind at 1. destruct (del (w, i)) as [[u|e|m] [w1 j]]; simpl in Hd |- *; [|done..].
  etrans; [exact Hd|]. apply set_steps_same in Hd. simpl in Hd.
  assert (Hlab : labels = GetLabels (set_Meta j) (GetGroupLabel ServiceName) ∅).
  { unfold labels. rewrite !GetLabels_spec. unfold owner_labels. destruct Hd as [_ _ Hn Hns Hu].
    unfold set_Name, set_Namespace in Hn, Hns. by rewrite Hn, Hns, Hu. }
  pose proof (ensure_steps ps ssh pw labels env w1 j Hlab) as He.
  unfold or_fail, st_bind at 1, st_catch.
  destruct (ensureBaremetalHosts ps ssh pw labels env (w1, j)) as [[u'|e|m] [w2 k]]; simpl in He |- *; [..|done];
    (etrans; [exact He|]).
  - assert (Hfin : Steps finishProvisioning) by (unfold finishProvisioning; apply _). apply (Hfin (w2, k)).
  - apply rtc_once. by apply step_other.
Qed.

#[export] Instance steps_withInputSecret name ns k :
  (∀ secret hash, Steps (k secret hash)) → Steps (withInputSecret name ns k).
Proof.
  intros Hk. unfold withInputSecret. apply steps_bind; [apply _|]. intros [[secret hash]|err]; apply _.
Qed.

#[export] Instance steps_withProvisionServer k : (∀ ps, Steps (k ps)) → Steps (withProvisionServer k).
Proof.
  intros Hk. unfold withProvisionServer. apply steps_bind; [apply _|]. intros i. apply steps_if; [|apply _].
  apply steps_bind; [apply _|]. intros [ps|err]; apply _.
Qed.

#[export] Instance steps_reconcileNormal : Steps reconcileNormal.
Proof.
  unfold reconcileNormal. apply steps_bind; [apply _|]. intros i.
  assert (∀ A (c : option A) d f, Steps d → (∀ a, Steps (f a)) →
    Steps (A := Result) (match c with None => d | Some a => f a end)) as Hopt by (intros ? []; auto).
  apply steps_withInputSecret. intros secret hash. apply steps_bind; [apply _|]. intros _. cbv zeta.
  apply Hopt; intros; unfold reconcileInit, reconcileUpdate, reconcileUpgrade; apply _.
Qed.

(** The clean-up releases entries of the status it started with, unless they are
    gone when their turn comes. *)
Lemma cleanupAll_steps l w i :
  (∀ c st st', (c, st) ∈ l → set_Hosts i !! c = Some st' → st' = st) →
  rtc set_step (view (w, i)) (view (cleanupAll l (w, i)).2).
Proof.
  revert w i. induction l as [|[c st] l IH]; intros w i Hl; cbn [cleanupAll]; [done|].
  assert (Hl' : ∀ c st st', (c, st) ∈ l → set_Hosts i !! c = Some st' → st' = st)
    by (intros c' st1 st2 Hin; apply Hl; by apply list_elem_of_further).
  unfold get_instance, st_bind, st_gets. cbn [snd].
  destruct (decide (is_Some (set_Hosts i !! c))) as [[st' Hc']|Hn]; [|by apply IH].
  assert (st' = st) as -> by (eapply Hl; [apply list_elem_of_here|done]).
  pose proof (deprovision_steps i st w ltac:(right; by exists c) w eq_refl) as Hd. unfold steps_from in Hd.
  rewrite on_instance_run. destruct (BaremetalHostDeprovision i st w) as [[j|e|m] w1] eqn:Hr; [|done..].
  etrans; [exact Hd|]. simpl. apply deprovision_instance in Hr as ->. apply IH.
  intros c' st1 st2 Hin. rewrite set_Hosts_delete, lookup_delete_Some. intros [_ ?]. by eapply Hl'.
Qed.

#[export] Instance steps_cleanup : Steps baremetalHostCleanup.
Proof.
  intros [w i]. unfold baremetalHostCleanup, get_instance, st_bind, st_gets. simpl. apply cleanupAll_steps.
  intros c st st' Hin%elem_of_range ?. congruence.
Qed.

(** An update of the instance that is not about its hosts. *)
Lemma steps_put w i f :
  same_object i f → set_Hosts f = set_Hosts i → rtc set_step (view (w, i)) (view (w, f)).
Proof. intros. apply rtc_once. by apply step_other. Qed.

#[export] Instance steps_reconcileDelete : Steps reconcileDelete.
Proof.
  unfold reconcileDelete. apply steps_bind.
  - apply steps_catch; [apply _|]. intros e. apply _.
  - intros _ [w i]. apply steps_put; [|done].
    destruct (RemoveFinalizer_identity (set_Meta i) (GetFinalizer (set_Kind i))) as (?&?&?). by split.
Qed.

#[export] Instance steps_set_reconcile isNew : Steps (set_reconcile isNew).
Proof.
  intros [w i]. unfold set_reconcile, get_instance, put_instance, st_bind, st_gets, st_modify.
  cbn [fst snd]. cbv zeta.
  assert (Hi : same_object i (initialStatus i) ∧ set_Hosts (initialStatus i) = set_Hosts i) by done.
  destruct (AddFinalizer_identity (set_Meta (initialStatus i)) (GetFinalizer (set_Kind (initialStatus i))))
    as (?&?&?).
  set (deleting := bool_decide _).
  set (started := if negb deleting then _ else _).
  assert (Hs : same_object i started.1 ∧ set_Hosts started.1 = set_Hosts i).
  { unfold started. destruct (negb deleting); [|exact Hi]. by destruct (AddFinalizer _ _). }
  destruct started as [j added]. destruct Hs as [Hs Hh]. cbn [fst snd] in Hs, Hh |- *.
  pose proof (steps_put w i j Hs Hh) as Hj. destruct (added || isNew); [exact Hj|].
  etrans; [exact Hj|]. etrans; [by apply (steps_put w j (statusMaps j))|].
  destruct deleting; apply steps_run.
Qed.

End simulation.

(** ** Who consumes which host *)

(** The pool as the sets see it: the consumer of every host, and the host the
    status of the set gives each compute. *)
Record pool := mkPool {
  pl_consumers : gmap (string * string) (option ObjectReference);
  pl_refs : gmap string string;
}.

Definition pool_of (s : hview) : pool :=
  mkPool ((λ b, bmhs_ConsumerRef (bmh_Spec b)) <$> s.1) (hs_BmhRef <$> set_Hosts s.2).

(** What the set [me], whose hosts are in the namespace [ns], may do: claim a free
    host, give a compute that has none a consumed host, release the host of a
    compute, forget a compute. *)
Inductive pool_step (me : ObjectReference) (ns : string) : pool → pool → Prop :=
| pool_claim m r h : m !! (ns, h) = Some None →
    pool_step me ns (mkPool m r) (mkPool (<[(ns, h) := Some me]> m) r)
| pool_record m r c h x : m !! (ns, h) = Some (Some x) → r !! c = None →
    pool_step me ns (mkPool m r) (mkPool m (<[c := h]> r))
| pool_release m r h x : h = "" ∨ (∃ c, r !! c = Some h) → m !! (ns, h) = Some x →
    pool_step me ns (mkPool m r) (mkPool (<[(ns, h) := None]> m) r)
| pool_forget m r c : pool_step me ns (mkPool m r) (mkPool m (delete c r)).

Section refinement.
Context `{Hlib : LibCommon} `{Hord : MapOrder} `{Hll : !LibCommonLaws}.

Lemma set_step_pool s s' : set_step s s' →
  rtc (pool_step (self_ref s.2) (set_BmhNamespace s.2)) (pool_of s) (pool_of s').
Proof.
  destruct 1 as [σ i c n ps ud nd b Hb Ho|σ i c n ip ud nd b Hb Ho Hc|σ i st b Hst Hb|σ i c|σ i j Hs Hh];
    unfold pool_of; simpl.
  - rewrite fmap_insert, provisionPatch_consumed. destruct (bmhs_ConsumerRef (bmh_Spec b)) as [x|] eqn:Hx; simpl.
    + rewrite insert_id; [done|]. by rewrite lookup_fmap, Hb; simpl; rewrite Hx.
    + apply rtc_once, pool_claim. unfold host_key in Hb. by rewrite lookup_fmap, Hb; simpl; rewrite Hx.
  - rewrite set_Hosts_with_Hosts. simpl. rewrite fmap_insert. unfold provisionStatus.
    destruct (set_Hosts i !! c) as [st|] eqn:Hst; simpl.
    + rewrite insert_id; [done|]. by rewrite lookup_fmap, Hst.
    + destruct (bmhs_ConsumerRef (bmh_Spec b)) as [x|] eqn:Hx; [|done].
      apply rtc_once. apply (pool_record _ _ _ _ c n x).
      * unfold host_key in Hb. by rewrite lookup_fmap, Hb; simpl; rewrite Hx.
      * by rewrite lookup_fmap, Hst.
  - rewrite fmap_insert. apply rtc_once. eapply pool_release.
    + destruct Hst as [->|[c Hc]]; [by left|right]. exists c. by rewrite lookup_fmap, Hc.
    + unfold host_key in Hb. by rewrite lookup_fmap, Hb.
  - rewrite set_Hosts_delete, fmap_delete. apply rtc_once, pool_forget.
  - by rewrite Hh.
Qed.

Lemma set_steps_pool s s' : rtc set_step s s' →
  rtc (pool_step (self_ref s.2) (set_BmhNamespace s.2)) (pool_of s) (pool_of s').
Proof.
  induction 1 as [|s1 s2 s3 H1 _ IH]; [done|]. etrans; [by apply set_step_pool|].
  apply set_step_same in H1. destruct H1 as [Hsp Hk Hn Hns _].
  unfold self_ref, set_BmhNamespace, set_Template in *. by rewrite <-Hk, <-Hn, <-Hns, <-Hsp.
Qed.

End refinement.

(** ** Invariants of the steps *)

(** A host a reconciliation of the set has no business with: in another namespace,
    or consumed by somebody else, without the set's labels and not in its status. *)
Definition spared `{LibCommon} (i : OpenStackBaremetalSet) (k : string * string) (h : BareMetalHost) : Prop :=
  k.1 ≠ set_BmhNamespace i ∨
  k.1 = set_BmhNamespace i ∧ ¬ ours i h ∧ k.2 ≠ "" ∧ map_Forall (λ _ st, hs_BmhRef st ≠ k.2) (set_Hosts i).

Lemma set_step_spared `{LibCommon} `{!LibCommonLaws} `{MapOrder} s s' k h : set_step s s' →
  s.1 !! k = Some h ∧ spared s.2 k h → s'.1 !! k = Some h ∧ spared s'.2 k h.
Proof.
  assert (Hname : ∀ i name, spared i k h → k = host_key i name → ¬ ours i h ∧ name ≠ "" ∧
    map_Forall (λ _ st, hs_BmhRef st ≠ name) (set_Hosts i)) by (by intros i name [?|(_ & ?)] ->).
  destruct 1 as [σ i c n ps ud nd b Hb Ho|σ i c n ip ud nd b Hb Ho Hc|σ i st b Hst Hb|σ i c|σ i j Hs Hh];
    simpl; intros [Hk Hsp].
  - split; [|done]. rewrite lookup_insert_ne; [done|]. intros Heq.
    destruct (Hname i n Hsp) as (Hno & _); [done|]. destruct Hno. congruence.
  - split; [done|]. destruct Hsp as [Hns|[Hns Hsp]]; [by left|right]. destruct Hsp as (Hno & Hne & Hst).
    split_and!; [done..|].
    rewrite set_Hosts_with_Hosts. simpl. apply map_Forall_insert_2; [|done].
    change (hs_BmhRef (provisionStatus i n c ip) ≠ k.2). unfold provisionStatus.
    destruct (set_Hosts i !! c) as [st|] eqn:Hlk; [by apply (Hst c)|]. intros Hn. change (n = k.2) in Hn. subst n.
    destruct Hno. assert (host_key i k.2 = k) as Heq by (unfold host_key; rewrite <-Hns; by destruct k).
    rewrite Heq in Hb. congruence.
  - split; [|done]. rewrite lookup_insert_ne; [done|]. intros Heq.
    destruct (Hname i (hs_BmhRef st) Hsp) as (_ & Hne & Hno); [done|].
    destruct Hst as [->|[c Hc]]; [done|]. by apply (Hno c st).
  - split; [done|]. destruct Hsp as [Hns|(Hns & Hno & Hne & Hst)]; [by left|right]. split_and!; [done..|].
    rewrite set_Hosts_delete. by apply map_Forall_delete.
  - split; [done|]. unfold spared, set_BmhNamespace, set_Template in *. rewrite (so_spec _ _ Hs).
    destruct Hsp as [Hns|(Hns & Hno & Hne & Hst)]; [by left|].
    right. rewrite Hh. split_and!; [done| |done..]. intros Ho. apply Hno. apply (ours_same j); [|done].
      destruct Hs. by split.
Qed.

(** An entry of the status: it is that of its compute, and has an address on the
    control plane. *)
Record entry_wf (c : string) (st : HostStatus) : Prop := {
  ew_name : hs_Hostname st = c;
  ew_ip : is_Some (ips_IPAddresses (hs_IPStatus st) !! "ctlplane");
}.

Definition status_wf (i : OpenStackBaremetalSet) : Prop := map_Forall entry_wf (set_Hosts i).

#[export] Instance entry_wf_dec c st : Decision (entry_wf c st).
Proof.
  destruct (decide (hs_Hostname st = c ∧ is_Some (ips_IPAddresses (hs_IPStatus st) !! "ctlplane"))) as [Hd|Hd].
  - left. destruct Hd. by split.
  - right. intros [? ?]. by apply Hd.
Defined.

Lemma set_step_wf `{LibCommon} `{MapOrder} s s' : set_step s s' → status_wf s.2 → status_wf s'.2.
Proof.
  unfold status_wf.
  destruct 1 as [σ i c n ps ud nd b Hb Ho|σ i c n ip ud nd b Hb Ho Hc|σ i st b Hst Hb|σ i c|σ i j Hs Hh];
    simpl; intros Hwf; [done| |done| |by rewrite Hh].
  - rewrite set_Hosts_with_Hosts. simpl. apply map_Forall_insert_2; [|done].
    unfold provisionStatus. destruct (set_Hosts i !! c) as [st|] eqn:Hlk.
    + destruct (Hwf c st Hlk) as [? ?]. by split.
    + split; [done|]. simpl. rewrite lookup_singleton_eq. by eexists.
  - rewrite set_Hosts_delete. by apply map_Forall_delete.
Qed.

(** A whole reconciliation, from the cluster it finds to the cluster it leaves. *)
Lemma Reconcile_steps {W} `{Client W} `{ClientView W} `{!ClientLaws W} `{!HostFrame W}
    `{SetClient W} `{!SetFrame W} `{LibCommon} `{!LibCommonLaws} `{ConditionLib} `{MapOrder}
    namespace name (w w' : W) o :
  Reconcile namespace name w = (o, w') →
  hosts w' = hosts w ∨
  ∃ i w1 i', set_Get namespace name w = (Ok i, w1) ∧ rtc set_step (hosts w, i) (hosts w', i').
Proof.
  intros Hr.
  unfold Reconcile in Hr. pose proof (frame_set_Get namespace name w) as Hk.
  destruct (set_Get namespace name w) as [[i|e|m] w1]; simpl in Hk.
  2: { left. by destruct (err_is_not_found e); simplify_eq. }
  2: { left. by simplify_eq. }
  destruct (_ && _); [left; by simplify_eq|].
  pose proof (frame_set_NewHelper i w1) as Hk2.
  destruct (set_NewHelper i w1) as [[u|e|m] w2]; simpl in Hk2; [|left; simplify_eq; congruence..].
  right. cbv zeta in Hr. set (isNew := bool_decide _) in Hr.
  set (started := if isNew then _ else _) in Hr.
  assert (Hst : rtc set_step (hosts w, i) (view (w2, started))).
  { unfold view. simpl. rewrite Hk2, Hk. apply rtc_once. unfold started. by destruct isNew; apply step_other. }
  pose proof (steps_run (c := set_reconcile isNew) (w2, started)) as Hrun.
  destruct (set_reconcile isNew (w2, started)) as [oc [w3 i3]]. simpl in Hrun.
  exists i, w1, i3. split; [done|]. etrans; [exact Hst|]. etrans; [exact Hrun|]. unfold view. simpl.
  assert (Hp : ∀ j, hosts (set_PatchInstance i j w3).2 = hosts w3) by (intros; apply frame_set_PatchInstance).
  destruct oc as [r|e|m]; [| |by simplify_eq].
  all: specialize (Hp (set_finish (bst_Conditions (set_Status started)) i3)).
  all: destruct (set_PatchInstance i _ w3) as [[u'|e'|m'] w4]; simpl in Hp; simplify_eq; by rewrite Hp.
Qed.

(** ** Properties *)

(** C9: whatever the outcome of a reconciliation of a set (an error or a panic
    included), what it did to the hosts and to the status it held is a sequence of
    the steps of the specification, and seen by consumer only it claimed free
    hosts, released hosts of its status, and gave computes without a host one that
    is consumed. *)
Theorem Reconcile_refines {W} `{Client W} `{ClientView W} `{!ClientLaws W} `{!HostFrame W}
    `{SetClient W} `{!SetFrame W} `{LibCommon} `{!LibCommonLaws} `{ConditionLib} `{MapOrder}
    namespace name (w w' : W) o :
  Reconcile namespace name w = (o, w') →
  hosts w' = hosts w ∨
  ∃ i w1 i', set_Get namespace name w = (Ok i, w1) ∧
    rtc set_step (hosts w, i) (hosts w', i') ∧
    rtc (pool_step (self_ref i) (set_BmhNamespace i)) (pool_of (hosts w, i)) (pool_of (hosts w', i')).
Proof.
  intros [?|(i & w1 & i' & Hg & Hs)]%Reconcile_steps; [by left|right]. exists i, w1, i'.
  split_and!; [done|done|]. by apply set_steps_pool in Hs.
Qed.

(** A compute to provision, a free host, and a host another set consumes. *)
Definition fresh_set : OpenStackBaremetalSet :=
  set_with_Meta (mem_with_finalizers ["openstack.org/OpenStackBaremetalSet"] (sample_meta "openstack" "edpm" ∅))
    (sample_set HardwareReqs_zero {["c0" := sample_instance ∅]} ∅).
Definition other_host : BareMetalHost :=
  let b := provisionPatch (set_with_Meta (sample_meta "openstack" "other" ∅) fresh_set) "c9"
    (sample_prov "openstack" "ps" 6190) (mkSecretReference "ud" "bmh") (mkSecretReference "nd" "bmh")
    (sample_bmh "h9" ∅) in b.
Definition fresh_mem : mem :=
  mkMem {[("bmh", "h0") := sample_bmh "h0" ∅; ("bmh", "h9") := other_host]}
    {[("openstack", "ssh-key") := mkSecret "ssh-key" {["authorized_keys" := "ssh-rsa AAAA"]}]}
    {[("openstack", "edpm-provisionserver") := ready_server]} {[("openstack", "edpm") := fresh_set]} [].
Definition fresh_run : outcome Result * mem := Reconcile (W := mem) (H3 := list_order) "openstack" "edpm" fresh_mem.

Lemma Reconcile_refines_witness :
  hosts fresh_run.2 = hosts fresh_mem ∨
  ∃ i w1 i', set_Get "openstack" "edpm" fresh_mem = (Ok i, w1) ∧
    rtc (set_step (Hord := list_order)) (hosts fresh_mem, i) (hosts fresh_run.2, i') ∧
    rtc (pool_step (self_ref i) (set_BmhNamespace i)) (pool_of (hosts fresh_mem, i))
      (pool_of (hosts fresh_run.2, i')).
Proof.
  apply (Reconcile_refines (H5 := list_order) "openstack" "edpm" fresh_mem fresh_run.2 fresh_run.1).
  apply surjective_pairing.
Defined.

(** C10: a reconciliation of a set, whatever its outcome, leaves alone every host of
    another namespace, and every host that somebody else consumes, that does not
    carry the set's labels and that the set's status does not name. *)
Theorem Reconcile_spares_others {W} `{Client W} `{ClientView W} `{!ClientLaws W} `{!HostFrame W}
    `{SetClient W} `{!SetFrame W} `{LibCommon} `{!LibCommonLaws} `{ConditionLib} `{MapOrder}
    namespace name (w : W) k h :
  hosts w !! k = Some h →
  (∀ i w1, set_Get namespace name w = (Ok i, w1) → spared i k h) →
  hosts (Reconcile namespace name w).2 !! k = Some h.
Proof.
  intros Hk Hsp. destruct (Reconcile namespace name w) as [o w'] eqn:Hr. simpl.
  apply Reconcile_steps in Hr as [->|(i & w1 & i' & Hg & Hs)]; [done|].
  assert (Hinv : ∀ s s', rtc set_step s s' → s.1 !! k = Some h ∧ spared s.2 k h → s'.1 !! k = Some h ∧ spared s'.2 k h)
    by (induction 1; eauto using set_step_spared).
  destruct (Hinv _ _ Hs) as [? _]; [|done]. split; [done|]. by eapply Hsp.
Qed.

(** The set is to let its host go, and deleting the secrets fails half-way. *)
Definition broken_mem : mem :=
  mkMem {[("bmh", "h0") := ready_host "h0" "c0"; ("bmh", "h9") := other_host]} (mem_secrets ready_mem)
    (mem_provs ready_mem) {[("openstack", "edpm") := shrink_set]} ["secret.Delete"].

Lemma Reconcile_spares_others_witness :
  hosts (Reconcile (W := mem) (H3 := list_order) "openstack" "edpm" broken_mem).2 !! ("bmh", "h9") =
    Some other_host.
Proof.
  apply (Reconcile_spares_others (H5 := list_order) "openstack" "edpm" broken_mem ("bmh", "h9") other_host).
  - vm_refl.
  - intros i w1 Hg. assert (Hi : (set_Get "openstack" "edpm" broken_mem).1 = Ok shrink_set) by vm_refl.
    rewrite Hg in Hi. injection Hi as ->. right. split_and!; [vm_refl|by_compute|done|by_compute].
Defined.

(** C22: whatever the outcome of a reconciliation, every entry of the status is
    under its own compute's name and has a control plane address, if that was so
    before. *)
Theorem set_reconcile_status_wf {W} `{Client W} `{ClientView W} `{!ClientLaws W} `{!HostFrame W}
    `{SetClient W} `{LibCommon} `{!LibCommonLaws} `{ConditionLib} `{MapOrder}
    isNew (w w' : W) i i' o :
  set_reconcile isNew (w, i) = (o, (w', i')) → status_wf i → status_wf i'.
Proof.
  intros Hr Hwf. pose proof (steps_run (c := set_reconcile isNew) (w, i)) as Hs. rewrite Hr in Hs.
  change (status_wf (view (w', i')).2). revert Hwf. change (status_wf i) with (status_wf (view (w, i)).2).
  simpl in Hs. induction Hs; eauto using set_step_wf.
Qed.

Lemma set_reconcile_status_wf_witness :
  status_wf (set_reconcile (W := mem) (H3 := list_order) false (broken_mem, ready_set)).2.2.
Proof.
  destruct (set_reconcile (W := mem) (H3 := list_order) false (broken_mem, ready_set)) as [o [w' i']] eqn:Hr.
  apply (set_reconcile_status_wf (H5 := list_order) _ _ _ _ _ _ Hr). unfold status_wf. by_compute.
Defined.

(** A host as Metal3 registers it: nothing of what provisioning sets is set, and
    it has none of the labels the set would add. *)
Record pristine `{LibCommon} (i : OpenStackBaremetalSet) (c : string) (b : BareMetalHost) : Prop := {
  pt_spec : let s := bmh_Spec b in bmhs_ConsumerRef s = None ∧ bmhs_Image s = None ∧ bmhs_Online s = false ∧
    bmhs_UserData s = None ∧ bmhs_NetworkData s = None;
  pt_labels : ∀ k, k ∈ dom (bmhOwnerLabels i c) → bmh_Labels b !! k = None;
  pt_annotation : om_Annotations (bmh_Meta b) !! HostRemovalAnnotation = None;
}.

Definition with_cleaning_mode (mode : string) (b : BareMetalHost) : BareMetalHost :=
  let s := bmh_Spec b in
  mkBmh (bmh_Meta b) (mkBmhSpec (bmhs_Image s) (bmhs_ExternallyProvisioned s) (bmhs_CustomDeploy s)
    (bmhs_ConsumerRef s) (bmhs_Online s) (bmhs_UserData s) (bmhs_NetworkData s) mode) (bmh_Status b).

Lemma deprovision_provision_host `{LibCommon} `{!LibCommonLaws} `{MapOrder} i i' c st ps ud nd b :
  pristine i c b → same_object i i' → hs_Hostname st = c →
  deprovisionedHost i' st (provisionPatch i c ps ud nd b) =
    with_cleaning_mode (ts_AutomatedCleaningMode (set_Template i)) b.
Proof.
  intros [(Hcr & Hi & Ho & Hu & Hn) Hl Ha] Hs Hc.
  set (b' := provisionPatch i c ps ud nd b).
  assert (Hlab : bmh_Labels (deprovisionedHost i' st b') = bmh_Labels b).
  { apply map_eq. intros k. unfold b'. rewrite deprovisionedHost_labels, Hc, provisionPatch_Labels.
    assert (Hown : bmhOwnerLabels i' c = bmhOwnerLabels i c).
    { rewrite !bmhOwnerLabels_spec. unfold hostnameLabelKey, owner_labels. destruct Hs as [_ _ Hn' Hns' Hu'].
      unfold set_Namespace in Hns'. unfold set_Name in *. by rewrite Hn', Hns', Hu'. }
    rewrite Hown. case_decide as Hk; [by rewrite (Hl k Hk)|].
    rewrite lookup_union_l; [done|]. by apply not_elem_of_dom. }
  assert (Hspec : bmh_Spec (deprovisionedHost i' st b') =
    bmh_Spec (with_cleaning_mode (ts_AutomatedCleaningMode (set_Template i)) b)).
  { unfold b', deprovisionedHost, with_cleaning_mode, provisionPatch, provisionSpec. simpl.
    destruct (negb _); simpl; rewrite Hcr; simpl; congruence. }
  unfold with_cleaning_mode in *. cbn [bmh_Spec] in Hspec. rewrite <-Hspec.
  unfold deprovisionedHost in *. cbn [bmh_Spec]. f_equal. unfold bmh_Labels in Hlab at 1.
  cbn [bmh_Meta bmh_with_annotations bmh_with_labels om_Labels] in Hlab. rewrite Hlab.
  unfold b', provisionPatch, bmh_with_annotations, bmh_with_labels, bmh_Labels. simpl.
  rewrite delete_id by done. by destruct (bmh_Meta b).
Qed.

(** C21: provisioning a pristine host for a compute and releasing it again leaves
    the cluster's hosts as they were, but for the cleaning mode of that host, and
    the status as it was. *)
Theorem provision_deprovision_roundtrip {W} `{Client W} `{ClientView W} `{!ClientLaws W}
    `{LibCommon} `{!LibCommonLaws} `{MapOrder} i bmh c ip ps ssh pw env b (w w1 w2 : W) i1 env1 i2 :
  hosts w !! host_key i bmh = Some b → pristine i c b → set_Hosts i !! c = None →
  BaremetalHostProvision i bmh c ip ps ssh pw env w = (Ok (i1, env1), w1) →
  BaremetalHostDeprovision i1 (default HostStatus_zero (set_Hosts i1 !! c)) w1 = (Ok i2, w2) →
  hosts w2 = <[host_key i bmh := with_cleaning_mode (ts_AutomatedCleaningMode (set_Template i)) b]> (hosts w) ∧
  set_Hosts i2 = set_Hosts i ∧ provs w2 = provs w.
Proof.
  intros Hb Hp Hnone (b0 & us & ns & ud & nd & Hpr)%provision_run Hd. destruct Hpr.
  assert (b0 = b) as -> by (unfold host_key in Hb; congruence).
  set (st := provisionedStatus _ ud nd b) in *.
  assert (Hst : set_Hosts i1 !! c = Some st) by (by rewrite pr_instance, set_Hosts_with_Hosts; apply lookup_insert_eq).
  assert (Href : hs_BmhRef st = bmh ∧ hs_Hostname st = c) by (unfold st, provisionStatus; by rewrite Hnone).
  destruct Href as [Href Hname]. rewrite Hst in Hd. simpl in Hd.
  apply deprovision_run in Hd as (b1 & Hb1 & Hh & _ & Hprovs & ->).
  assert (Hsame : same_object i i1) by (by rewrite pr_instance).
  assert (Hkey : (set_BmhNamespace i1, hs_BmhRef st) = host_key i bmh)
    by (rewrite Href; exact (host_key_same i i1 bmh Hsame)).
  rewrite Hkey in *. unfold host_key in *. rewrite pr_hosts, lookup_insert_eq in Hb1. injection Hb1 as <-.
  split_and!.
  - rewrite Hh, pr_hosts, insert_insert_eq. by rewrite (deprovision_provision_host i i1 c).
  - rewrite set_Hosts_delete, Hname, pr_instance, set_Hosts_with_Hosts. simpl. by apply delete_insert_id.
  - congruence.
Qed.

Lemma provision_deprovision_roundtrip_witness :
  hosts release_after.2 =
    <[("bmh", "h0") := with_cleaning_mode CleaningModeMetadata (sample_bmh "h0" ∅)]> (hosts prov_mem) ∧
  set_Hosts release_after.1 = ∅.
Proof.
  assert (Hp : prov_run prov_set prov_mem = (Ok (prov_after.1.1, prov_after.1.2), prov_after.2)) by vm_refl.
  assert (Hr : release_run prov_after.1.1 prov_after.2 = (Ok release_after.1, release_after.2)) by vm_refl.
  destruct (provision_deprovision_roundtrip (H3 := list_order) prov_set "h0" "c0" _ _ _ _ _ (sample_bmh "h0" ∅) _ _ _ _ _ _
    ltac:(vm_refl) ltac:(split; [by split_and!|intros k _; apply lookup_empty|vm_refl]) ltac:(vm_refl) Hp Hr)
    as (Hh & Hi & _).
  split; [exact Hh|]. rewrite Hi. reflexivity.
Defined.

(** C38: when the host of a compute has been released but the deletion of its
    secrets fails, the status keeps naming the host. Should the set be cleaned up
    later, the host is released again, whoever consumes it by then. *)
Theorem failed_release_takes_host_later {W} `{Client W} `{ClientView W} `{!ClientLaws W} `{!HostFrame W}
    `{LibCommon} `{!LibCommonLaws} `{MapOrder} i c st b e (w w1 w2 : W) :
  let key := host_key i (hs_BmhRef st) in
  keyed i → set_Hosts i !! c = Some st →
  bmh_Get (set_BmhNamespace i) (hs_BmhRef st) w = (Ok b, w) →
  bmh_Update (deprovisionedHost i st b) w = (Ok tt, w1) →
  DeleteSecretsWithName (CloudInitUserDataSecretName (set_Name i) (hs_BmhRef st)) (set_BmhNamespace i) w1 =
    (Err e, w2) →
  on_instance (λ j, BaremetalHostDeprovision j st) (w, i) = (Err e, (w2, i)) ∧
  (∃ b', hosts w2 !! key = Some b' ∧ released i b') ∧
  ∀ w3 w4 i4, baremetalHostCleanup (w3, i) = (Ok tt, (w4, i4)) →
    ∃ b4, hosts w4 !! key = Some b4 ∧ bmhs_ConsumerRef (bmh_Spec b4) = None ∧ bmhs_Image (bmh_Spec b4) = None.
Proof.
  intros key Hk Hc Hg Hu Hd. split_and!.
  - rewrite on_instance_run. unfold BaremetalHostDeprovision, st_bind. rewrite Hg, Hu. simpl. unfold st_bind.
    by rewrite Hd.
  - pose proof (frame_DeleteSecretsWithName (CloudInitUserDataSecretName (set_Name i) (hs_BmhRef st))
      (set_BmhNamespace i) w1) as Hf. rewrite Hd in Hf. simpl in Hf. rewrite Hf.
    apply bmh_Get_ok in Hg as [_ Hb]. apply bmh_Update_ok in Hu as (-> & _ & _).
    exists (deprovisionedHost i st b). split; [|apply deprovisionedHost_released].
    replace key with (bmh_key (deprovisionedHost i st b)); [apply lookup_insert_eq|].
    change (bmh_key b = key). by eapply hosts_keyed.
  - intros w3 w4 i4 Hr.
    destruct (cleanupAll_ok (range 12 (set_Hosts i)) w3 i w4 i4 Hr) as (_ & Hrel & _).
    + apply range_fst_NoDup.
    + intros c' st' Hin%elem_of_range. by apply Hk.
    + intros c' st' Hin%elem_of_range. by eexists.
    + destruct (Hrel c st) as (b4 & Hb4 & ? & ? & _); [by apply elem_of_range|]. by exists b4.
Qed.

(** The set gives its host up but cannot delete the secrets; another set takes the
    host; the first set is cleaned up. *)
Definition stolen_mem : mem :=
  mkMem {[("bmh", "h0") := provisionPatch (set_with_Meta (sample_meta "openstack" "other" ∅) fresh_set) "c9"
    (sample_prov "openstack" "ps" 6190) (mkSecretReference "ud" "bmh") (mkSecretReference "nd" "bmh")
    (sample_bmh "h0" ∅)]} ∅ ∅ ∅ [].
Definition stolen_run : outcome unit * (mem * OpenStackBaremetalSet) :=
  baremetalHostCleanup (H3 := list_order) (stolen_mem, shrink_set).

Lemma failed_release_takes_host_later_witness :
  (bmhs_ConsumerRef ∘ bmh_Spec <$> hosts stolen_mem !! ("bmh", "h0")) =
    Some (Some (mkObjectReference "other" "OpenStackBaremetalSet" "openstack")) ∧
  ∃ b4, hosts stolen_run.2.1 !! ("bmh", "h0") = Some b4 ∧ bmhs_ConsumerRef (bmh_Spec b4) = None.
Proof.
  split; [vm_refl|].
  set (st := sample_host_status "c0" "h0").
  set (gone := deprovisionedHost (H0 := list_order) shrink_set st (ready_host "h0" "c0")).
  assert (Hrun := run_outcome stolen_run (Ok tt) ltac:(vm_refl)).
  destruct (failed_release_takes_host_later (H3 := list_order) shrink_set "c0" st (ready_host "h0" "c0")
    (Errorf "secret.Delete failed") broken_mem
    (mem_with_hosts (<[("bmh", "h0") := gone]> (mem_hosts broken_mem)) broken_mem)
    (mem_with_hosts (<[("bmh", "h0") := gone]> (mem_hosts broken_mem)) broken_mem)) as (_ & _ & Hlater).
  - by_compute.
  - vm_refl.
  - vm_refl.
  - vm_refl.
  - vm_refl.
  - destruct (Hlater stolen_mem stolen_run.2.1 stolen_run.2.2 Hrun) as (b4 & Hb4 & Hcr & _). exists b4. split; [exact Hb4|exact Hcr].
Defined.
