(* ===== verification/Progress.v ===== *)
(** * What a reconciliation achieves when nothing fails

    On a cluster whose calls succeed, a set whose computes can all get a host
    gets them in one reconciliation, and once Metal3 has provisioned the hosts the
    next one reports them ready. *)

From S2P Require Import Prelude GoStrings ApiTypes Samples Kube MemCluster Conditions Matching Reconciler Hardware ScaleUp ProvPorts BmhProvision SetController Lifecycle.

Section progress.
Context {W : Type} `{Hc : Client W} `{Hv : ClientView W} `{Hcl : !ClientLaws W} `{Hf : !HostFrame W}.
Context `{Hr : !Reliable W} `{Hsc : SetClient W} `{Hlib : LibCommon} `{Hll : !LibCommonLaws}.
Context `{Hcd : ConditionLib} `{Hord : MapOrder}.
Abbreviation RS := (rstate (W := W)).

(** Hosts that only get provisioned for [me]: none disappears, a host changes
    hands only from nobody to [me], and what Metal3 reports of it stays. *)
Definition hosts_kept (me : ObjectReference) (σ σ' : gmap (string * string) BareMetalHost) : Prop :=
  ∀ k b, σ !! k = Some b → ∃ b', σ' !! k = Some b' ∧ bmh_Status b' = bmh_Status b ∧
    (bmhs_ConsumerRef (bmh_Spec b') = bmhs_ConsumerRef (bmh_Spec b) ∨
     bmhs_ConsumerRef (bmh_Spec b) = None ∧ bmhs_ConsumerRef (bmh_Spec b') = Some me).

#[export] Instance hosts_kept_preorder me : PreOrder (hosts_kept me).
Proof.
  split; [by intros σ k b ?; exists b; auto|].
  intros σ1 σ2 σ3 H12 H23 k b Hb. destruct (H12 k b Hb) as (b2 & Hb2 & Hs2 & Hc2).
  destruct (H23 k b2 Hb2) as (b3 & Hb3 & Hs3 & Hc3). exists b3. split; [done|]. split; [congruence|].
  destruct Hc2 as [Hc2|[? ?]], Hc3 as [Hc3|[? ?]]; rewrite ?Hc3; rewrite <-?Hc2; auto.
Qed.

Lemma hosts_kept_patch σ i c name ps ud nd b :
  σ !! host_key i name = Some b →
  hosts_kept (self_ref i) σ (<[host_key i name := provisionPatch i c ps ud nd b]> σ).
Proof.
  intros Hb k b0 Hb0. destruct (decide (k = host_key i name)) as [->|Hne].
  - assert (b0 = b) as -> by congruence. eexists. split; [apply lookup_insert_eq|]. split; [done|].
    rewrite provisionPatch_consumed. destruct (bmhs_ConsumerRef (bmh_Spec b)); auto.
  - exists b0. rewrite lookup_insert_ne by done. auto.
Qed.

(** The network data of a compute can be made. *)
Definition network_ok (i : OpenStackBaremetalSet) (c : string) : Prop :=
  ∃ r, networkDataFor i c (is_CtlPlaneIP (spec_host i c)) = Ok r.

Lemma provision_total i bmh hostName ps ssh pw env w b :
  healthy w → hosts w !! host_key i bmh = Some b → network_ok i hostName →
  bst_BaremetalHosts (set_Status i) ≠ None →
  ∃ i' env' w', BaremetalHostProvision i bmh hostName (is_CtlPlaneIP (spec_host i hostName)) ps ssh pw env w =
    (Ok (i', env'), w') ∧ healthy w'.
Proof.
  intros Hw Hb [[ns nd] Hn] Hst. unfold BaremetalHostProvision.
  destruct (userDataFor i hostName ssh pw) as [us ud]. unfold st_lift, st_bind. rewrite Hn.
  assert (Hsec : ∃ env1 w1, (if bool_decide (0 < length (us ++ ns)) then EnsureSecrets i (us ++ ns) env
    else st_ret env) w = (Ok env1, w1) ∧ healthy w1 ∧ hosts w1 = hosts w).
  { case_bool_decide; [|by exists env, w].
    destruct (reliable_EnsureSecrets i (us ++ ns) env w Hw) as (env1 & w1 & He & Hw1).
    exists env1, w1. split_and!; [done|done|]. by apply EnsureSecrets_ok in He as [? _]. }
  destruct Hsec as (env1 & w1 & -> & Hw1 & Hh). rewrite <-Hh in Hb.
  rewrite (reliable_bmh_Get _ _ _ _ Hw1 Hb).
  pose proof (hosts_keyed _ _ _ Hb) as Hk. unfold host_key in Hk.
  destruct (reliable_bmh_CreateOrPatch b (provisionPatch i hostName ps ud nd) w1 Hw1) as (b' & w2 & -> & Hw2);
    [by rewrite Hk|].
  destruct (bst_BaremetalHosts (set_Status i)); [|done]. by eexists _, _, w2.
Qed.

(** What a compute has got, when it was given the host [name]. *)
Record served (i i' : OpenStackBaremetalSet) (w w' : W) (c name : string) : Prop := {
  sd_entry : ∃ st h, set_Hosts i' !! c = Some st ∧ hosts w !! host_key i name = Some h ∧
    hs_BmhRef st = default name (hs_BmhRef <$> set_Hosts i !! c) ∧
    hs_ProvisioningState st = bmht_ProvisioningState (bmh_Status h);
  sd_host : ∃ h h', hosts w !! host_key i name = Some h ∧ hosts w' !! host_key i name = Some h' ∧
    bmhs_ConsumerRef (bmh_Spec h') = Some (default (self_ref i) (bmhs_ConsumerRef (bmh_Spec h)));
}.

(** Provisioning a list of computes on hosts that are there. *)
Lemma provisionAll_total ps ssh pw env l w i :
  healthy w → NoDup l.*1 → bst_BaremetalHosts (set_Status i) ≠ None →
  (∀ c b, (c, b) ∈ l → is_Some (hosts w !! host_key i (bmh_Name b)) ∧ network_ok i c) →
  ∃ w' i', provisionAll ps ssh pw env l (w, i) = (Ok tt, (w', i')) ∧ healthy w' ∧
    hosts_kept (self_ref i) (hosts w) (hosts w') ∧ (∃ h, i' = set_with_Hosts h i) ∧
    (∀ c, c ∉ l.*1 → set_Hosts i' !! c = set_Hosts i !! c) ∧
    (∀ c b, (c, b) ∈ l → served i i' w w' c (bmh_Name b)).
Proof.
  revert w i env. induction l as [|[c b] l IH]; intros w i env Hw Hnd Hst Hl; cbn [provisionAll].
  { exists w, i. split_and!; [done|done|done| |done|by intros ? ? ?%not_elem_of_nil].
    exists (bst_BaremetalHosts (set_Status i)). by destruct i as [? ? ? []]. }
  apply NoDup_cons in Hnd as [Hcl' Hnd].
  destruct (Hl c b) as [[h Hh] Hn]; [apply list_elem_of_here|].
  destruct (provision_total i (bmh_Name b) c ps ssh pw env w h Hw Hh Hn Hst) as (i1 & env1 & w1 & Hrun & Hw1).
  unfold get_instance, on_cluster, put_instance, st_bind, st_zoom, st_gets, st_modify. cbn [fst snd].
  rewrite Hrun. cbn [fst snd].
  apply provision_run in Hrun as (h0 & us & ns & ud & nd & [Hf' _ _ Hhosts _ _ _ Hi1]).
  fold (host_key i (bmh_Name b)) in Hf', Hhosts. assert (h0 = h) as -> by congruence.
  pose proof (hosts_kept_patch (hosts w) i c (bmh_Name b) ps ud nd h Hh) as Hkept. rewrite <-Hhosts in Hkept.
  destruct (IH w1 i1 env1) as (w' & i' & Hrec & Hw' & Hkept' & [hs Hi'] & Hout & Hin); [done|done|by rewrite Hi1| |].
  { intros c' b' Hin'. destruct (Hl c' b') as [[h' Hh'] Hn']; [by apply list_elem_of_further|].
    rewrite Hi1. split; [|exact Hn']. destruct (Hkept _ _ Hh') as (? & ? & _). by eexists. }
  assert (Hself : self_ref i1 = self_ref i ∧ ∀ n, host_key i1 n = host_key i n) by (by rewrite Hi1).
  destruct Hself as [Hself Hkey]. rewrite Hself in Hkept'.
  exists w', i'. split_and!; [exact Hrec|done|by etrans|exists hs; by rewrite Hi', Hi1| |].
  - intros c' [Hne Hni]%not_elem_of_cons. rewrite Hout by done. rewrite Hi1, set_Hosts_with_Hosts.
    by apply lookup_insert_ne.
  - intros c' b' [[= -> ->]|Hin']%elem_of_cons.
    + split.
      * eexists _, h. rewrite Hout by done. rewrite Hi1, set_Hosts_with_Hosts. simpl.
        split; [apply lookup_insert_eq|]. split; [done|]. split; [|done].
        unfold provisionStatus. by destruct (set_Hosts i !! c).
      * destruct (Hkept' (host_key i (bmh_Name b)) (provisionPatch i c ps ud nd h)) as (h' & Hh' & _ & Hcr);
          [by rewrite Hhosts, lookup_insert_eq|].
        exists h, h'. rewrite provisionPatch_consumed in Hcr. destruct Hcr as [Hcr|[? _]]; done.
    + destruct (Hin c' b' Hin') as [(st & h1 & Hst' & Hh1 & Href & Hstate) (h1' & h2 & Hh1' & Hh2 & Hcr)].
      rewrite Hkey in *. assert (h1' = h1) as -> by congruence.
      destruct (Hl c' b') as [[h' Hh'] _]; [by apply list_elem_of_further|].
      destruct (Hkept _ _ Hh') as (h3 & Hh3 & Hst3 & Hc3). assert (h3 = h1) as -> by congruence.
      assert (Hne : c ≠ c') by (intros <-; apply Hcl'; apply list_elem_of_fmap; by exists (c, b')).
      split.
      * exists st, h'. split_and!; [done|done| |congruence].
        rewrite Href, Hi1, set_Hosts_with_Hosts. simpl. by rewrite lookup_insert_ne.
      * exists h', h2. split_and!; [done|done|]. rewrite Hcr, Hself.
        destruct Hc3 as [->|[-> ->]]; done.
Qed.

(** A cluster that can serve the set: its calls succeed, the hosts of the status
    are there, nothing has to be released, the addresses can be read, and there are
    hosts for the computes without one. *)
Record serviceable (w : W) (i : OpenStackBaremetalSet) : Prop := {
  sv_healthy : healthy w;
  sv_status : bst_BaremetalHosts (set_Status i) ≠ None;
  sv_refs : map_Forall (λ _ st, is_Some (hosts w !! host_key i (hs_BmhRef st))) (set_Hosts i);
  sv_labelled : ∀ name b, hosts w !! host_key i name = Some b → labelled i b →
    ∃ c, bmh_Labels b !! hostnameLabelKey i = Some c ∧ c ∈ dom (set_SpecHosts i);
  sv_computes : ∀ c, c ∈ dom (set_SpecHosts i) → network_ok i c;
  sv_enough : ∀ all w1, GetBaremetalHosts (set_BmhNamespace i) (ts_BmhLabelSelector (set_Template i)) w =
    (Ok all, w1) → ∃ a, valid_selection i all a;
}.

(** A list of the hosts of the namespace. *)
Lemma list_total ns sel w : healthy w →
  ∃ l, GetBaremetalHosts ns sel w = (Ok l, w) ∧
    (∀ b, b ∈ l → hosts w !! (ns, bmh_Name b) = Some b) ∧
    (∀ name b, hosts w !! (ns, name) = Some b → sel ⊆ bmh_Labels b → b ∈ l).
Proof.
  intros Hw. unfold GetBaremetalHosts.
  destruct (reliable_bmh_List (if bool_decide (0 < size sel)
    then [InNamespace ns] ++ [MatchingLabels sel] else [InNamespace ns]) w Hw) as [l Hl].
  exists l. split; [done|]. apply bmh_List_ok in Hl as (_ & _ & Hin). split.
  - intros b [Hb Hs]%Hin. assert (Hns : om_Namespace (bmh_Meta b) = ns).
    { unfold opts_select in Hs. case_bool_decide; by apply Forall_inv in Hs. }
    unfold bmh_key in Hb. by rewrite Hns in Hb.
  - intros name b Hb Hs. pose proof (hosts_keyed _ _ _ Hb) as Hk. apply Hin. rewrite Hk. split; [done|].
    unfold bmh_key in Hk. injection Hk as Hns _. unfold opts_select.
    case_bool_decide; repeat (apply Forall_cons; split; [done|]); by apply Forall_nil.
Qed.

Lemma syncBmhRefs_id all i : map_Forall (λ _ st, ref_alive all st) (set_Hosts i) → syncBmhRefs all i = i.
Proof.
  intros Ha. unfold syncBmhRefs.
  assert (Hl : ∀ c st, (c, st) ∈ range 3 (set_Hosts i) → ref_alive all st)
    by (intros c st Hin%elem_of_range; by eapply Ha).
  generalize dependent (range 3 (set_Hosts i)). intros l Hl. induction l as [|[c st] l IH]; simpl; [done|].
  rewrite (proj2 (ref_alive_existsb all st)) by (eapply Hl, list_elem_of_here).
  apply IH. intros c' st' Hin. eapply Hl. by apply list_elem_of_further.
Qed.

Lemma sync_total w i : serviceable w i → on_instance VerifyAndSyncBaremetalStatusBmhRefs (w, i) = (Ok tt, (w, i)).
Proof.
  intros Hs. rewrite on_instance_run. unfold VerifyAndSyncBaremetalStatusBmhRefs, st_bind.
  destruct (list_total (set_BmhNamespace i) ∅ w (sv_healthy _ _ Hs)) as (l & -> & _ & Hin). simpl.
  rewrite syncBmhRefs_id; [done|]. intros c st Hst. destruct (sv_refs _ _ Hs c st Hst) as [b Hb].
  exists b. split; [|by apply hosts_keyed in Hb as [= _ ?]]. eapply Hin; [exact Hb|apply map_empty_subseteq].
Qed.

Lemma nothing_to_delete w i labels : serviceable w i →
  labels = GetLabels (set_Meta i) (GetGroupLabel ServiceName) ∅ →
  deleteBmh labels (w, i) = (Ok tt, (w, i)).
Proof.
  intros Hs ->. unfold deleteBmh, get_instance, st_bind, st_gets, on_cluster, st_zoom. cbn [fst snd].
  destruct (list_total (set_BmhNamespace i) (GetLabels (set_Meta i) (GetGroupLabel ServiceName) ∅) w
    (sv_healthy _ _ Hs)) as (l & Hl & Hlist & _).
  assert (Hlab : ∀ b, b ∈ l → labelled i b).
  { intros b Hb. by apply (labelled_listed i _ l w w b eq_refl Hl). }
  rewrite Hl. cbn [fst snd].
  assert (Hnone : hostNamesToDeprovision i l = []); [|by rewrite Hnone].
  clear Hl. unfold hostNamesToDeprovision. induction l as [|b l IH]; [done|]. simpl.
  destruct (sv_labelled _ _ Hs (bmh_Name b) b) as (c & Hc' & Hd);
    [apply Hlist, list_elem_of_here|apply Hlab, list_elem_of_here|].
  rewrite Hc'. apply elem_of_dom in Hd as [comp Hcomp]. simpl.
  rewrite (proj2 (existsb_range _ _ _)).
  - apply IH; intros; [apply Hlist|apply Hlab]; by apply list_elem_of_further.
  - exists c, comp. split; [done|apply String.eqb_refl].
Qed.

Lemma buildExisting_has i l c b :
  b ∈ l → bmh_Labels b !! hostnameLabelKey i = Some c → is_Some (buildExistingHostBMHMap i l !! c).
Proof.
  intros Hb Hc'. unfold buildExistingHostBMHMap.
  assert (Hgen : ∀ l (m : gmap string BareMetalHost), is_Some (m !! c) ∨ b ∈ l →
    is_Some (foldl (λ m bmh, match bmh_Labels bmh !! hostnameLabelKey i with
      | Some hostName => <[hostName := bmh]> m | None => m end) m l !! c)).
  { clear - Hc'. induction l as [|x l IH]; intros m; simpl; [by intros [?|?%not_elem_of_nil]|].
    rewrite elem_of_cons. intros [Hm|[<-|?]]; apply IH; [| |by right]; left.
    - destruct (bmh_Labels x !! _) as [c'|]; [|done]. rewrite lookup_insert. by case_decide.
    - rewrite Hc', lookup_insert_eq. by eexists. }
  apply Hgen. by right.
Qed.

(** Every compute without a host gets a free one; every compute of a labelled host
    is brought up to date from it. *)
Lemma ensure_total ps ssh pw labels env w i :
  serviceable w i → labels = GetLabels (set_Meta i) (GetGroupLabel ServiceName) ∅ →
  ∃ w' i', ensureBaremetalHosts ps ssh pw labels env (w, i) = (Ok tt, (w', i')) ∧ healthy w' ∧
    (∃ h, i' = set_with_Hosts h i) ∧
    (∀ c, c ∈ dom (set_SpecHosts i) → set_Hosts i !! c = None → ∃ name h, served i i' w w' c name ∧
       hosts w !! host_key i name = Some h ∧ bmhs_ConsumerRef (bmh_Spec h) = None) ∧
    (∀ c b name, hosts w !! host_key i name = Some b → labelled i b →
       bmh_Labels b !! hostnameLabelKey i = Some c → is_Some (set_Hosts i !! c) →
       ∃ name' h, served i i' w w' c name' ∧ hosts w !! host_key i name' = Some h ∧ labelled i h) ∧
    (∀ c, is_Some (set_Hosts i' !! c) → is_Some (set_Hosts i !! c) ∨ c ∈ dom (set_SpecHosts i)).
Proof.
  intros Hs Hlab. unfold ensureBaremetalHosts, get_instance, on_cluster, st_bind, st_zoom, st_gets, st_lift.
  cbn [fst snd].
  destruct (list_total (set_BmhNamespace i) (ts_BmhLabelSelector (set_Template i)) w (sv_healthy _ _ Hs))
    as (all & Hall & Hall_in & _). rewrite Hall. cbn [fst snd].
  destruct (list_total (set_BmhNamespace i) labels w (sv_healthy _ _ Hs)) as (ex & Hex & _ & Hex_in).
  rewrite Hex. cbn [fst snd].
  destruct (proj2 (scaleUp_ok_iff i all ex) (sv_enough _ _ Hs all w Hall)) as [sel Hsel]. rewrite Hsel.
  pose proof (scaleUp_dom _ _ _ _ Hsel) as Hdom. set (selm := default ∅ sel) in *.
  set (existing := buildExistingHostBMHMap i ex). rewrite MergeMaps_spec.
  set (l := range 11 (selm ∪ existing)).
  assert (Hl : ∀ c b, (c, b) ∈ l ↔ (selm ∪ existing) !! c = Some b) by (intros; apply elem_of_range).
  assert (Hsel_in : ∀ c b, selm !! c = Some b → hosts w !! host_key i (bmh_Name b) = Some b ∧
    bmhs_ConsumerRef (bmh_Spec b) = None).
  { intros c b Hb. by destruct (selected_free i _ ex all w w c b sel Hall Hsel Hb) as (? & ? & _). }
  assert (Hex_b : ∀ c b, existing !! c = Some b → hosts w !! host_key i (bmh_Name b) = Some b ∧ labelled i b ∧
    bmh_Labels b !! hostnameLabelKey i = Some c).
  { intros c b Hb. pose proof (buildExisting_label _ _ _ _ Hb) as Hc'. apply buildExisting_from in Hb.
    by destruct (labelled_listed i labels ex w w b Hlab Hex Hb) as (_ & ? & ?). }
  assert (Hbound : ∀ c, c ∈ l.*1 → c ∈ dom (set_SpecHosts i)).
  { intros c ([c' b] & -> & Hcb%Hl)%list_elem_of_fmap. apply lookup_union_Some_raw in Hcb as [Hcb|[_ Hcb]].
    - apply elem_of_dom_2 in Hcb. set_solver.
    - destruct (Hex_b _ _ Hcb) as (Hb & Hlb & Hcc).
      destruct (sv_labelled _ _ Hs _ _ Hb Hlb) as (c2 & Hc2 & ?). simpl. congruence. }
  destruct (provisionAll_total ps ssh pw env l w i (sv_healthy _ _ Hs) ltac:(apply range_fst_NoDup)
    (sv_status _ _ Hs)) as (w' & i' & Hrun & Hw' & _ & Hi' & Hout & Hin).
  { intros c b Hcb. split.
    - apply Hl, lookup_union_Some_raw in Hcb as [Hcb|[_ Hcb]].
      + by destruct (Hsel_in _ _ Hcb) as [-> _].
      + by destruct (Hex_b _ _ Hcb) as [-> _].
    - apply (sv_computes _ _ Hs), Hbound. apply list_elem_of_fmap. by exists (c, b). }
  exists w', i'. split_and!; [exact Hrun|done|done| | |].
  - intros c Hspec Hnone. assert (c ∈ dom selm) as [b Hb]%elem_of_dom.
    { rewrite Hdom. apply elem_of_difference. split; [done|]. by apply not_elem_of_dom. }
    exists (bmh_Name b), b. destruct (Hsel_in _ _ Hb). split_and!; [|done|done]. apply Hin, Hl.
    by apply lookup_union_Some_l.
  - intros c b name Hb Hlb Hcb Hsome.
    assert (Hb' : b ∈ ex) by (eapply Hex_in; [exact Hb|]; by rewrite Hlab, GetLabels_spec, map_empty_union).
    destruct (buildExisting_has i ex c b Hb' Hcb) as [h Hh]. exists (bmh_Name h), h.
    destruct (Hex_b _ _ Hh) as (? & ? & _). split_and!; [|done|done]. apply Hin, Hl.
    rewrite lookup_union_r; [done|]. apply not_elem_of_dom. rewrite Hdom.
    apply elem_of_dom in Hsome. set_solver.
  - intros c Hsome. destruct (decide (c ∈ l.*1)) as [Hcl'|Hcl']; [by right; apply Hbound|].
    left. by rewrite <-Hout.
Qed.

(** How the work on the hosts ends. *)
Lemma hosts_total ps ssh pw env w i :
  serviceable w i →
  ∃ w' i1 i', reconcileHosts ps ssh pw env (w, i) = (Ok Result_zero, (w', i')) ∧ healthy w' ∧
    ensureBaremetalHosts ps ssh pw (GetLabels (set_Meta i) (GetGroupLabel ServiceName) ∅) env (w, i) =
      (Ok tt, (w', i1)) ∧
    finishProvisioning (w', i1) = (Ok Result_zero, (w', i')) ∧ set_Hosts i' = set_Hosts i1 ∧ set_Spec i' = set_Spec i1.
Proof.
  intros Hs. unfold reconcileHosts, or_fail, st_bind at 1, st_catch at 1. rewrite sync_total by done. cbn [fst snd].
  unfold get_instance at 1, st_bind at 1, st_gets. cbn [fst snd]. cbv zeta.
  unfold st_bind at 1, st_catch at 1. rewrite (nothing_to_delete w i) by done.
  unfold st_bind at 1, st_catch at 1.
  destruct (ensure_total ps ssh pw _ env w i Hs eq_refl) as (w' & i1 & He & Hw' & _). rewrite He.
  assert (Hfin : ∃ i', finishProvisioning (w', i1) = (Ok Result_zero, (w', i')) ∧
    set_Hosts i' = set_Hosts i1 ∧ set_Spec i' = set_Spec i1).
  { unfold finishProvisioning, get_instance, st_bind, st_gets. cbn [fst snd].
    destruct (existsb _ _); [by eexists|]. unfold mark_true, upd_conditions, st_modify. cbn [fst snd].
    destruct (cond_AllSubConditionIsTrue _); by eexists. }
  destruct Hfin as (i' & Hfin & ? & ?). exists w', i1, i'. by rewrite Hfin.
Qed.

Context `{Hcw : !ConditionLaws}.

(** With every host provisioned the hosts part of the status becomes ready. *)
Lemma finishProvisioning_true (w : W) i :
  map_Forall (λ _ st, hs_ProvisioningState st = StateProvisioned) (set_Hosts i) →
  ∃ i', finishProvisioning (w, i) = (Ok Result_zero, (w, i')) ∧
    inst_status i' OpenStackBaremetalSetBmhProvisioningReadyCondition = Some ConditionTrue ∧
    set_Hosts i' = set_Hosts i ∧ set_Spec i' = set_Spec i.
Proof.
  intros Hall. destruct set_types_ne as (_ & _ & Hbr & _).
  unfold finishProvisioning, get_instance, st_bind, st_gets. cbn [fst snd].
  rewrite (not_true_is_false (existsb _ _)).
  2: { intros (c & st & Hst & Hne)%existsb_range. apply (Hall c st) in Hst. by rewrite Hst in Hne. }
  unfold mark_true, upd_conditions, st_modify. cbn [fst snd].
  destruct (cond_AllSubConditionIsTrue _); (eexists; split; [reflexivity|split; [|done]]).
  - unfold inst_status. simpl. rewrite cond_MarkTrue_spec, decide_False by done.
    by rewrite cond_MarkTrue_spec, decide_True.
  - unfold inst_status. simpl. by rewrite cond_MarkTrue_spec, decide_True.
Qed.

End progress.

(** ** What stands in the way *)

Section blocked.
Context {W : Type} `{Hc : Client W} `{Hv : ClientView W} `{Hcl : !ClientLaws W}.
Context `{Hlib : LibCommon} `{Hll : !LibCommonLaws} `{Hord : MapOrder}.

(** Releasing the entries of a list of computes cannot succeed when one of them has
    no entry, as no host has the empty name. *)
Lemma deallocate_blocked l (w : W) i hostName w' i' :
  hostName ∈ l → set_Hosts i !! hostName = None → hosts w !! host_key i "" = None →
  st_iter (λ hostName, on_instance (λ i,
    BaremetalHostDeprovision i (default HostStatus_zero (set_Hosts i !! hostName)))) l (w, i) ≠ (Ok tt, (w', i')).
Proof.
  revert w i. induction l as [|c l IH]; intros w i Hin Hnone Hw; [by apply not_elem_of_nil in Hin|].
  cbn [st_iter]. unfold st_bind. rewrite on_instance_run.
  destruct (BaremetalHostDeprovision i _ w) as [[j|e|m] w1] eqn:Hd; [|done..].
  apply deprovision_run in Hd as (b & Hb & Hh & _ & _ & ->). fold (host_key i) in Hb, Hh.
  apply elem_of_cons in Hin as [<-|Hin].
  { rewrite Hnone in Hb. change (hosts w !! host_key i "" = Some b) in Hb. congruence. }
  apply IH; [done| |].
  - rewrite set_Hosts_delete, lookup_delete. by case_decide.
  - change (host_key (set_delete_host _ i) "") with (host_key i ""). rewrite Hh, lookup_insert_ne; [done|].
    unfold host_key in *. intros Heq. rewrite Heq in Hb. congruence.
Qed.

End blocked.

(** ** Properties *)

(** C11: on a cluster that can serve the set, one reconciliation of the hosts
    succeeds, and then every compute of the spec has an entry, and every compute
    that had none has a host of the cluster that the set consumes. *)
Theorem reconcileHosts_claims {W} `{Client W} `{ClientView W} `{!ClientLaws W} `{!HostFrame W} `{!Reliable W}
    `{SetClient W} `{LibCommon} `{!LibCommonLaws} `{ConditionLib} `{MapOrder}
    ps ssh pw env (w : W) i :
  serviceable w i →
  ∃ w' i', reconcileHosts ps ssh pw env (w, i) = (Ok Result_zero, (w', i')) ∧
    dom (set_SpecHosts i) ⊆ dom (set_Hosts i') ∧
    ∀ c, c ∈ dom (set_SpecHosts i) → set_Hosts i !! c = None →
      ∃ st h, set_Hosts i' !! c = Some st ∧ hosts w' !! host_key i (hs_BmhRef st) = Some h ∧
        bmhs_ConsumerRef (bmh_Spec h) = Some (self_ref i).
Proof.
  intros Hs. destruct (hosts_total ps ssh pw env w i Hs) as (w' & i1 & i' & Hrun & _ & He & _ & Hh & _).
  destruct (ensure_total ps ssh pw _ env w i Hs eq_refl) as (w2 & i2 & He' & _ & _ & Hnew & _).
  rewrite He in He'. injection He' as <- <-. exists w', i'. rewrite Hh.
  pose proof (ensure_keeps (λ _, True) ps ssh pw (GetLabels (set_Meta i) (GetGroupLabel ServiceName) ∅) env
    ltac:(done) (w, i) I) as [_ Hd]. rewrite He in Hd. specialize (Hd eq_refl). simpl in Hd.
  pose proof (set_steps_same _ _ (ensure_steps ps ssh pw _ env w i eq_refl)) as Hsame. rewrite He in Hsame. simpl in Hsame.
  unfold set_SpecHosts in Hd at 1. rewrite (so_spec _ _ Hsame) in Hd.
  split; [exact Hrun|]. split; [exact Hd|]. intros c Hc Hnone.
  destruct (Hnew c Hc Hnone) as (name & h & [(st & h1 & Hst & _ & Href & _) (h2 & h' & Hh2 & Hh' & Hcr)] & Hh0 & Hfree).
  rewrite Hnone in Href. simpl in Href. exists st, h'. rewrite Href. split_and!; [done|done|].
  assert (h2 = h) as -> by congruence. by rewrite Hcr, Hfree.
Qed.

(** A set that lists no labelled host needs none released. *)
Lemma fresh_serviceable : serviceable (Hord := list_order) fresh_mem fresh_set.
Proof.
  split.
  - reflexivity.
  - discriminate.
  - by_compute.
  - assert (Hn : map_Forall (λ _ b, ¬ labelled fresh_set b) (hosts fresh_mem)) by by_compute.
    intros name b Hb Hl. destruct (Hn _ _ Hb Hl).
  - assert (Hn : Forall (λ c, c = "c0") (elements (dom (set_SpecHosts fresh_set)))) by by_compute.
    intros c Hc%elem_of_elements. rewrite Forall_forall in Hn. rewrite (Hn c Hc). eexists. vm_compute. reflexivity.
  - intros all w1 Hl. apply (scaleUp_ok_iff fresh_set all []).
    assert (Hall : (GetBaremetalHosts (set_BmhNamespace fresh_set) (ts_BmhLabelSelector (set_Template fresh_set))
      fresh_mem).1 = Ok (mem_list_hosts [InNamespace "bmh"] fresh_mem)) by vm_refl.
    rewrite Hl in Hall. apply Ok_inj in Hall. rewrite Hall. eexists. vm_compute. reflexivity.
Qed.

Lemma reconcileHosts_claims_witness :
  ∃ w' i' st h, reconcileHosts (H3 := list_order) ready_server (mkSecret "ssh-key" ∅) None ∅ (fresh_mem, fresh_set) =
      (Ok Result_zero, (w', i')) ∧
    set_Hosts i' !! "c0" = Some st ∧ hosts w' !! ("bmh", hs_BmhRef st) = Some h ∧
    bmhs_ConsumerRef (bmh_Spec h) = Some (self_ref fresh_set).
Proof.
  destruct (reconcileHosts_claims (H5 := list_order) ready_server (mkSecret "ssh-key" ∅) None ∅ fresh_mem fresh_set
    fresh_serviceable) as (w' & i' & Hrun & _ & Hnew).
  destruct (Hnew "c0" ltac:(by_compute) ltac:(vm_refl)) as (st & h & Hst & Hh & Hcr).
  exists w', i', st, h. split; [exact Hrun|]. split; [exact Hst|]. split; [exact Hh|exact Hcr].
Defined.

(** C12: on a cluster that can serve the set, when every compute of the spec has an
    entry, every entry's compute has a labelled host, and Metal3 reports the
    labelled hosts provisioned, one reconciliation of the hosts records that in
    every entry and reports the provisioning of the hosts as done. *)
Theorem reconcileHosts_settles {W} `{Client W} `{ClientView W} `{!ClientLaws W} `{!HostFrame W} `{!Reliable W}
    `{SetClient W} `{LibCommon} `{!LibCommonLaws} `{ConditionLib} `{!ConditionLaws} `{MapOrder}
    ps ssh pw env (w : W) i :
  serviceable w i → dom (set_SpecHosts i) ⊆ dom (set_Hosts i) →
  (∀ c, c ∈ dom (set_Hosts i) → ∃ name b, hosts w !! host_key i name = Some b ∧ labelled i b ∧
     bmh_Labels b !! hostnameLabelKey i = Some c) →
  (∀ name b, hosts w !! host_key i name = Some b → labelled i b →
     bmht_ProvisioningState (bmh_Status b) = StateProvisioned) →
  ∃ w' i', reconcileHosts ps ssh pw env (w, i) = (Ok Result_zero, (w', i')) ∧ all_provisioned i' ∧
    inst_status i' OpenStackBaremetalSetBmhProvisioningReadyCondition = Some ConditionTrue.
Proof.
  intros Hs Hspec Hent Hprov. destruct (hosts_total ps ssh pw env w i Hs) as (w' & i1 & i' & Hrun & _ & He & Hfin & Hh & Hsp).
  destruct (ensure_total ps ssh pw _ env w i Hs eq_refl) as (w2 & i2 & He' & _ & [hs Hi2] & _ & Hold & Hback).
  rewrite He in He'. injection He' as <- <-.
  assert (Hserved : ∀ c, c ∈ dom (set_Hosts i) → ∃ st, set_Hosts i1 !! c = Some st ∧
    hs_ProvisioningState st = StateProvisioned).
  { intros c Hc. destruct (Hent c Hc) as (name & b & Hb & Hl & Hcb).
    destruct (Hold c b name Hb Hl Hcb) as (name' & h & [(st & h1 & Hst & Hh1 & _ & Hstate) _] & Hh0 & Hlh);
      [by apply elem_of_dom|].
    exists st. split; [done|]. rewrite Hstate. assert (h1 = h) as -> by congruence. by eapply Hprov. }
  assert (Hall : map_Forall (λ _ st, hs_ProvisioningState st = StateProvisioned) (set_Hosts i1)).
  { intros c st Hst. destruct (Hserved c) as (st' & Hst' & ?); [|congruence].
    destruct (Hback c) as [?|?]; [by eexists|by apply elem_of_dom|by apply Hspec]. }
  destruct (finishProvisioning_true w' i1 Hall) as (i2 & Hfin' & Hready & _ & _).
  rewrite Hfin in Hfin'. injection Hfin' as ->. exists w', i2. split_and!; [done| |done].
  split; [|by rewrite Hh]. unfold set_SpecHosts. rewrite Hsp, Hh, Hi2. intros c Hc. apply elem_of_dom.
  destruct (Hserved c) as (st & Hst & _); [by apply Hspec|]. rewrite Hi2 in Hst. by eexists.
Qed.

Lemma ready_serviceable : serviceable (Hord := list_order) ready_mem ready_set.
Proof.
  split.
  - reflexivity.
  - discriminate.
  - by_compute.
  - assert (Hn : map_Forall (λ _ b, bmh_Labels b !! hostnameLabelKey ready_set = Some "c0") (hosts ready_mem))
      by by_compute.
    intros name b Hb _. exists "c0". split; [exact (Hn _ _ Hb)|by_compute].
  - assert (Hn : Forall (λ c, c = "c0") (elements (dom (set_SpecHosts ready_set)))) by by_compute.
    intros c Hc%elem_of_elements. rewrite Forall_forall in Hn. rewrite (Hn c Hc). eexists. vm_compute. reflexivity.
  - intros all w1 Hl. apply (scaleUp_ok_iff ready_set all []).
    assert (Hall : (GetBaremetalHosts (set_BmhNamespace ready_set) (ts_BmhLabelSelector (set_Template ready_set))
      ready_mem).1 = Ok (mem_list_hosts [InNamespace "bmh"] ready_mem)) by vm_refl.
    rewrite Hl in Hall. apply Ok_inj in Hall. rewrite Hall. eexists. vm_compute. reflexivity.
Qed.

Lemma reconcileHosts_settles_witness :
  ∃ w' i', reconcileHosts (H3 := list_order) ready_server (mkSecret "ssh-key" ∅) None ∅ (ready_mem, ready_set) =
      (Ok Result_zero, (w', i')) ∧ all_provisioned i' ∧
    inst_status i' OpenStackBaremetalSetBmhProvisioningReadyCondition = Some ConditionTrue.
Proof.
  assert (Hone : map_Forall (λ _ b, bmht_ProvisioningState (bmh_Status b) = StateProvisioned) (hosts ready_mem))
    by by_compute.
  assert (Hdom : Forall (λ c, c = "c0") (elements (dom (set_Hosts ready_set)))) by by_compute.
  rewrite Forall_forall in Hdom.
  apply (reconcileHosts_settles (H6 := list_order) ready_server (mkSecret "ssh-key" ∅) None ∅ ready_mem ready_set
    ready_serviceable).
  - by_compute.
  - intros c Hc%elem_of_elements. rewrite (Hdom c Hc). exists "h0", (ready_host "h0" "c0").
    split; [vm_refl|]. split; [by_compute|vm_refl].
  - intros name b Hb _. exact (Hone _ _ Hb).
Defined.

(** A host of the set whose compute is neither in the spec nor in the status: the
    set was changed before its status could be written. *)
Definition unrecorded `{LibCommon} (i : OpenStackBaremetalSet) (b : BareMetalHost) (c : string) : Prop :=
  labelled i b ∧ bmh_Labels b !! hostnameLabelKey i = Some c ∧
  (c ∉ dom (set_SpecHosts i)) ∧ set_Hosts i !! c = None.

(** C39: a host that carries the set's labels with the name of a compute that neither
    the spec nor the status has stops every reconciliation of the hosts: whatever else is in the
    cluster, the work on the hosts never succeeds. *)
Theorem unrecorded_host_blocks {W} `{Client W} `{ClientView W} `{!ClientLaws W}
    `{LibCommon} `{!LibCommonLaws} `{ConditionLib} `{MapOrder}
    ps ssh pw env (w : W) i b name hostName r s' :
  hosts w !! host_key i name = Some b → unrecorded i b hostName → hosts w !! host_key i "" = None →
  reconcileHosts ps ssh pw env (w, i) ≠ (Ok r, s').
Proof.
  intros Hb (Hl & Hlab & Hspec & Hst) Hempty. unfold reconcileHosts. destruct s' as [w' i'].
  intros (u & [w1 j] & Hsync & Hr)%st_bind_ok. unfold or_fail, st_catch in Hsync.
  rewrite on_instance_run in Hsync.
  destruct (VerifyAndSyncBaremetalStatusBmhRefs i w) as [[i1|e|m] w0] eqn:Hs; [|done..].
  injection Hsync as <- <- <-. unfold VerifyAndSyncBaremetalStatusBmhRefs in Hs.
  apply st_bind_ok in Hs as (all & w2 & [-> _]%bmh_List_ok & [-> ->]%st_ret_inv).
  destruct (syncBmhRefs_rest all i) as (Hsp & Hm & _).
  assert (Hst' : set_Hosts (syncBmhRefs all i) !! hostName = None).
  { destruct (set_Hosts (syncBmhRefs all i) !! hostName) eqn:Hx; [|done].
    apply syncBmhRefs_lookup in Hx as [Hx _]. congruence. }
  set (j := syncBmhRefs all i) in *.
  assert (Hid : labelled j b ∧ hostnameLabelKey j = hostnameLabelKey i ∧ (∀ n, host_key j n = host_key i n) ∧
    set_SpecHosts j = set_SpecHosts i).
  { unfold labelled, hostnameLabelKey, host_key, set_BmhNamespace, set_Template, set_SpecHosts, set_Name.
    by rewrite Hsp, Hm. }
  destruct Hid as (Hlj & Hkj & Hnj & Hsj).
  apply st_bind_ok in Hr as (j' & s1 & Hg & Hr). injection Hg as <- <-. cbn [snd] in Hr. cbv zeta in Hr.
  apply st_bind_ok in Hr as (u' & s2 & Hd & _). unfold or_fail, st_catch in Hd.
  destruct (deleteBmh _ (w, j)) as [[[]|e|m] [w3 i3]] eqn:Hdel; [|done..]. clear Hd.
  unfold deleteBmh, get_instance, st_bind, st_gets, on_cluster, st_zoom in Hdel. cbn [fst snd] in Hdel.
  rewrite GetLabels_spec, map_empty_union in Hdel.
  destruct (GetBaremetalHosts (set_BmhNamespace j) _ w) as [[ex| |] w4] eqn:Hex; [|done..].
  unfold GetBaremetalHosts in Hex. apply bmh_List_ok in Hex as (-> & _ & Hin). cbn [fst snd] in Hdel.
  revert Hdel. apply deallocate_blocked with (hostName := hostName); [|done|by rewrite Hnj].
  unfold hostNamesToDeprovision. apply list_elem_of_omap. exists b. split.
  - apply Hin. pose proof (hosts_keyed _ _ _ Hb) as Hk. rewrite Hk. split; [done|].
    unfold bmh_key, host_key in Hk. injection Hk as Hns _. unfold opts_select, labelled in *.
    assert (Hn : set_BmhNamespace j = set_BmhNamespace i) by (specialize (Hnj ""); by injection Hnj).
    case_bool_decide; repeat (apply Forall_cons; split; [simpl; congruence || done|]); apply Forall_nil_2.
  - rewrite Hkj, Hlab. simpl. rewrite Hsj. destruct (existsb _ _) eqn:Hf; [|done].
    apply existsb_range in Hf as (k & v & Hkv & ->%String.eqb_eq). destruct Hspec. by eapply elem_of_dom_2.
Qed.

(** The host of a compute that was taken out of the spec before it was recorded. *)
Lemma unrecorded_host_blocks_witness :
  (reconcileHosts (H3 := list_order) ready_server (mkSecret "ssh-key" ∅) None ∅
    (ready_mem, set_with_Hosts (Some ∅) shrink_set)).1 ≠ Ok Result_zero.
Proof.
  destruct (reconcileHosts (H3 := list_order) ready_server (mkSecret "ssh-key" ∅) None ∅
    (ready_mem, set_with_Hosts (Some ∅) shrink_set)) as [o s'] eqn:Hr. simpl. intros ->.
  refine (unrecorded_host_blocks (H4 := list_order) _ _ _ _ ready_mem (set_with_Hosts (Some ∅) shrink_set)
    (ready_host "h0" "c0") "h0" "c0" _ _ _ _ _ Hr).
  - vm_refl.
  - split_and!; [by_compute|vm_refl|by_compute|vm_refl].
  - vm_refl.
Defined.
