(* ===== verification/System.v ===== *)
(** * Several sets on one cluster

    A cluster has many OpenStackBaremetalSets, reconciled one after the other in
    any order, while Metal3 reports on the hosts and users create, edit and delete
    sets and hosts. [sys_step] is one such event. The invariant [system_ok] says
    that the labels and the consumer of every host agree with the statuses of the
    sets, outside a set of [disturbed] hosts, to which users may do anything. It holds
    along every run of events on a dependable cluster, so two sets never hold the same
    host unless it is disturbed; [recreated_host_shared] and
    [edited_namespace_takes_host] show that the disturbed ones cannot be included. *)

From S2P Require Import Prelude GoStrings GoNet ApiTypes Samples Kube MemCluster Conditions Matching Reconciler Hardware ScaleUp ProvPorts SetWebhook BmhProvision SetController Lifecycle.

(** ** The marks of a set on a host *)

Definition consumer (b : BareMetalHost) : option ObjectReference := bmhs_ConsumerRef (bmh_Spec b).

(** The label with the UID of the set, and the label with the compute of the set
    of a given name. *)
Definition uid_key `{LibCommon} : string := GetOwnerUIDLabelSelector (GetGroupLabel ServiceName).
Definition compute_key (n : string) : string := n +:+ HostnameLabelSelectorSuffix.

Definition set_UID (i : OpenStackBaremetalSet) : string := om_UID (set_Meta i).

(** The owner labels do not look like the label of a compute. *)
Class LabelKeys `{LibCommon} : Prop :=
  label_keys : ∀ n, Forall (λ k, k ≠ compute_key n)
    [GetOwnerUIDLabelSelector (GetGroupLabel ServiceName);
     GetOwnerNameSpaceLabelSelector (GetGroupLabel ServiceName);
     GetOwnerNameLabelSelector (GetGroupLabel ServiceName)].

(** Two strings whose tails are as long as each other. *)
Lemma string_app_tail (s n a b : string) :
  String.length a = String.length b → s +:+ a = n +:+ b → s = n ∧ a = b.
Proof.
  intros Hlen Heq. pose proof (f_equal String.length Heq) as Hl. rewrite !string_length_app, Hlen in Hl.
  assert (Hs : String.length s = String.length n) by lia. clear Hl. revert n Hs Heq.
  induction s as [|c s IH]; intros [|d n] Hs Heq; try done.
  rewrite !string_app_cons in Heq. injection Heq as <- Heq. injection Hs as Hs. by destruct (IH n Hs Heq) as [-> ->].
Qed.

Section marks.
Context `{Hlib : LibCommon} `{Hord : MapOrder} `{Hll : !LibCommonLaws} `{Hlk : !LabelKeys}.

Lemma owner_labels_compute o n : owner_labels o (GetGroupLabel ServiceName) !! compute_key n = None.
Proof.
  pose proof (label_keys n) as Hk. rewrite !Forall_cons in Hk. destruct Hk as (?&?&?&_).
  unfold owner_labels. by rewrite !lookup_insert_ne, lookup_singleton_ne by done.
Qed.

Lemma bmhOwnerLabels_uid i c : bmhOwnerLabels i c !! uid_key = Some (set_UID i).
Proof.
  pose proof (label_keys (set_Name i)) as Hk. rewrite Forall_cons in Hk. destruct Hk as [Hk _].
  rewrite bmhOwnerLabels_spec, lookup_union_r; [apply lookup_insert_eq|].
  apply lookup_singleton_ne. by intros Heq.
Qed.

Lemma bmhOwnerLabels_compute i c n :
  bmhOwnerLabels i c !! compute_key n = if decide (n = set_Name i) then Some c else None.
Proof.
  rewrite bmhOwnerLabels_spec. case_decide as Hn.
  - subst. apply lookup_union_Some_l, lookup_singleton_eq.
  - rewrite lookup_union_r; [apply owner_labels_compute|]. apply lookup_singleton_ne.
    intros Heq. apply Hn. symmetry. by apply string_app_tail in Heq as [? _].
Qed.

(** The labels a claim leaves, and those a release leaves. *)
Lemma patched_labels i c ps ud nd b k :
  bmh_Labels (provisionPatch i c ps ud nd b) !! k =
    match bmh_Labels b !! k with Some v => Some v | None => bmhOwnerLabels i c !! k end.
Proof. rewrite provisionPatch_Labels, lookup_union. destruct (bmh_Labels b !! k), (bmhOwnerLabels i c !! k); done. Qed.

Lemma released_uid i st b : bmh_Labels (deprovisionedHost i st b) !! uid_key = None.
Proof.
  rewrite deprovisionedHost_labels, decide_True; [done|]. apply elem_of_dom. eexists. apply bmhOwnerLabels_uid.
Qed.

Lemma released_compute i st b n :
  bmh_Labels (deprovisionedHost i st b) !! compute_key n =
    if decide (n = set_Name i) then None else bmh_Labels b !! compute_key n.
Proof.
  rewrite deprovisionedHost_labels.
  destruct (decide (compute_key n ∈ _)) as [Hin|Hin]; rewrite elem_of_dom, bmhOwnerLabels_compute in Hin;
    destruct (decide (n = set_Name i)); [done|by destruct Hin|by destruct Hin|done].
Qed.

End marks.

(** ** The invariant *)

(** The hosts, by namespace and name, whose consumer, labels or identity somebody else
    disturbs. Nothing is said of them. *)
Class Disturbed := disturbed : gset (string * string).

(** The labels of the operator are on consumed hosts only, and that of a compute
    on hosts a set of that name consumes. Objects have names. *)
Record hosts_ok `{LibCommon} `{Disturbed} (σ : gmap (string * string) BareMetalHost) : Prop := {
  hk_named : ∀ ns, σ !! (ns, "") = None;
  hk_uid : ∀ k b, k ∉ disturbed → σ !! k = Some b → is_Some (bmh_Labels b !! uid_key) → consumer b ≠ None;
  hk_compute : ∀ k b n, k ∉ disturbed → σ !! k = Some b → is_Some (bmh_Labels b !! compute_key n) →
    ∃ r, consumer b = Some r ∧ or_Name r = n;
}.

(** The hosts of the status of a set are consumed by it and labelled with their
    compute, and hosts with its UID are its own. *)
Record set_ok `{LibCommon} `{Disturbed} (σ : gmap (string * string) BareMetalHost) (i : OpenStackBaremetalSet) : Prop := {
  sk_name : ∀ c st, set_Hosts i !! c = Some st → hs_Hostname st = c;
  sk_host : ∀ c st b, set_Hosts i !! c = Some st → host_key i (hs_BmhRef st) ∉ disturbed → σ !! host_key i (hs_BmhRef st) = Some b →
    consumer b = Some (self_ref i) ∧ bmh_Labels b !! compute_key (set_Name i) = Some c;
  sk_uid : ∀ k b, k ∉ disturbed → σ !! k = Some b → bmh_Labels b !! uid_key = Some (set_UID i) → consumer b = Some (self_ref i);
}.

(** Two sets that cannot be mistaken for each other. *)
Definition apart (i j : OpenStackBaremetalSet) : Prop := self_ref i ≠ self_ref j ∧ set_UID i ≠ set_UID j.

(** A set, among others. *)
Record among `{LibCommon} `{Disturbed} (others : OpenStackBaremetalSet → Prop) (σ : gmap (string * string) BareMetalHost)
    (i : OpenStackBaremetalSet) : Prop := {
  am_hosts : hosts_ok σ;
  am_set : set_ok σ i;
  am_others : ∀ j, others j → apart i j ∧ set_ok σ j;
}.

Section transitions.
Context `{Hlib : LibCommon} `{Hord : MapOrder} `{Hll : !LibCommonLaws} `{Hlk : !LabelKeys} `{Hdi : Disturbed}.
Implicit Types (σ : gmap (string * string) BareMetalHost) (i j : OpenStackBaremetalSet).

(** Writing one host. *)
Lemma hosts_ok_insert σ k b :
  hosts_ok σ → k.2 ≠ "" → (k ∉ disturbed → is_Some (bmh_Labels b !! uid_key) → consumer b ≠ None) →
  (k ∉ disturbed → ∀ n, is_Some (bmh_Labels b !! compute_key n) → ∃ r, consumer b = Some r ∧ or_Name r = n) →
  hosts_ok (<[k := b]> σ).
Proof.
  intros [Hn Hu Hc] Hk Hub Hcb. split.
  - intros ns. rewrite lookup_insert_ne; [apply Hn|]. by intros ->.
  - intros k' b' Hd [[<- <-]|[_ ?]]%lookup_insert_Some; [by apply Hub|by eapply Hu].
  - intros k' b' n Hd [[<- <-]|[_ ?]]%lookup_insert_Some; [by apply Hcb|by eapply Hc].
Qed.

Lemma set_ok_insert σ k b i :
  set_ok σ i →
  (k ∉ disturbed → ∀ c st, set_Hosts i !! c = Some st → host_key i (hs_BmhRef st) = k →
     consumer b = Some (self_ref i) ∧ bmh_Labels b !! compute_key (set_Name i) = Some c) →
  (k ∉ disturbed → bmh_Labels b !! uid_key = Some (set_UID i) → consumer b = Some (self_ref i)) →
  set_ok (<[k := b]> σ) i.
Proof.
  intros [Hn Hh Hu] He Hub. split; [done| |].
  - intros c st b' Hst Hd [[Hk <-]|[_ ?]]%lookup_insert_Some; [|by eapply Hh].
    rewrite <-Hk in Hd. by eapply He.
  - intros k' b' Hd [[<- <-]|[_ ?]]%lookup_insert_Some; [by apply Hub|by eapply Hu].
Qed.

Lemma set_ok_same σ i j : same_object i j → set_Hosts j = set_Hosts i → set_ok σ i → set_ok σ j.
Proof.
  intros Hs Hh [Hn Hho Hu]. split; rewrite ?Hh; [done| |].
  - intros c st b Hst. rewrite (host_key_same i) by done. intros Hd Hb.
    destruct Hs as [_ Hk Hnm Hns _]. unfold self_ref. rewrite Hk, Hnm, Hns. by eapply Hho.
  - intros k b Hd Hb. destruct Hs as [_ Hk Hnm Hns Hu']. unfold self_ref, set_UID. rewrite Hk, Hnm, Hns, Hu'.
    by apply (Hu k).
Qed.

Lemma among_same others σ i j :
  same_object i j → set_Hosts j = set_Hosts i → among others σ i → among others σ j.
Proof.
  intros Hs Hh [Hho Hi Ho]. split; [done|by eapply set_ok_same|].
  intros k Hk. destruct (Ho k Hk) as [[Hr Hu] ?]. split; [|done]. destruct Hs as [_ Hki Hn Hns Hu'].
  unfold apart, self_ref, set_UID in *. by rewrite Hki, Hn, Hns, Hu'.
Qed.

(** A host a compute may be given: nobody consumes it, or it is labelled for that
    compute of that set. *)
Definition eligible i c b : Prop :=
  consumer b = None ∨
  bmh_Labels b !! uid_key = Some (set_UID i) ∧ bmh_Labels b !! compute_key (set_Name i) = Some c.

(** What the claim makes of it. *)
Definition claimed i c b : Prop :=
  consumer b = Some (self_ref i) ∧ bmh_Labels b !! compute_key (set_Name i) = Some c.

Lemma eligible_claimed others σ i c name ps ud nd b :
  among others σ i → host_key i name ∉ disturbed → σ !! host_key i name = Some b → eligible i c b →
  claimed i c (provisionPatch i c ps ud nd b).
Proof.
  intros Ha Hd Hb He. unfold claimed, consumer. rewrite provisionPatch_consumed, patched_labels, bmhOwnerLabels_compute.
  rewrite decide_True by done. destruct He as [Hnone|[Hu Hc]].
  - unfold consumer in Hnone. rewrite Hnone. split; [done|].
    destruct (bmh_Labels b !! _) eqn:Hl; [|done].
    destruct (hk_compute σ (am_hosts _ _ _ Ha) _ _ _ Hd Hb (mk_is_Some _ _ Hl)) as (r & Hr & _). unfold consumer in Hr. congruence.
  - pose proof (sk_uid σ i (am_set _ _ _ Ha) _ _ Hd Hb Hu) as Hr. unfold consumer in Hr. rewrite Hr. by rewrite Hc.
Qed.

(** Writing a disturbed host. *)
Lemma among_disturbed others σ i k b :
  among others σ i → k ∈ disturbed → k.2 ≠ "" → among others (<[k := b]> σ) i.
Proof.
  intros [Hho Hi Ho] Hd Hk. split.
  - by apply hosts_ok_insert.
  - by apply set_ok_insert.
  - intros j Hj. destruct (Ho j Hj). split; [done|]. by apply set_ok_insert.
Qed.

Lemma among_named others σ i name b : among others σ i → σ !! host_key i name = Some b → name ≠ "".
Proof. intros Ha Hb ->. unfold host_key in Hb. by rewrite (hk_named σ (am_hosts _ _ _ Ha)) in Hb. Qed.

Lemma among_claim others σ i c name ps ud nd b :
  among others σ i → σ !! host_key i name = Some b → (host_key i name ∉ disturbed → eligible i c b) →
  among others (<[host_key i name := provisionPatch i c ps ud nd b]> σ) i.
Proof.
  intros Ha Hb He. pose proof (among_named _ _ _ _ _ Ha Hb) as Hname.
  destruct (decide (host_key i name ∈ disturbed)) as [Hd|Hd]; [by apply among_disturbed|]. specialize (He Hd).
  pose proof (eligible_claimed _ _ _ _ _ ps ud nd _ Ha Hd Hb He) as [Hcons Hcomp].
  set (b' := provisionPatch i c ps ud nd b) in *. destruct Ha as [Hho Hi Ho].
  assert (Huid : bmh_Labels b' !! uid_key = bmh_Labels b !! uid_key ∨
    bmh_Labels b' !! uid_key = Some (set_UID i) ∧ consumer b = None).
  { unfold b'. rewrite patched_labels, bmhOwnerLabels_uid. destruct (bmh_Labels b !! uid_key) eqn:Hu; [by left|].
    destruct He as [?|[? _]]; [by right|congruence]. }
  assert (Hmine : ∀ k st, set_ok σ k → (∃ c, set_Hosts k !! c = Some st) → host_key k (hs_BmhRef st) = host_key i name →
    self_ref k = self_ref i).
  { intros k st Hk (c' & Hst) Hkey. destruct (sk_host σ k Hk c' st b Hst) as [Hr _]; [by rewrite Hkey..|].
    destruct He as [Hn|[Hu _]]; [congruence|]. pose proof (sk_uid σ i Hi _ _ Hd Hb Hu). congruence. }
  split.
  - apply hosts_ok_insert; [done|done|by rewrite Hcons|].
    intros _ n [v Hv]. exists (self_ref i). split; [done|]. simpl.
    unfold b' in Hv. rewrite patched_labels, bmhOwnerLabels_compute in Hv.
    destruct (bmh_Labels b !! compute_key n) eqn:Hl; [|by case_decide].
    destruct (hk_compute σ Hho _ _ _ Hd Hb (mk_is_Some _ _ Hl)) as (r & Hr & <-).
    destruct He as [?|[Hu _]]; [congruence|]. pose proof (sk_uid σ i Hi _ _ Hd Hb Hu) as Hr'.
    rewrite Hr in Hr'. by injection Hr' as ->.
  - apply set_ok_insert; [done| |done]. intros _ c' st Hst Hkey. split; [done|].
    destruct (sk_host σ i Hi c' st b Hst) as [Hr Hl]; [by rewrite Hkey..|].
    unfold b'. rewrite patched_labels. by rewrite Hl.
  - intros k Hk. destruct (Ho k Hk) as [[Hne Hnu] Hok]. split; [done|]. apply set_ok_insert; [done| |].
    + intros _ c' st Hst Hkey. destruct Hne. symmetry. eapply (Hmine k st); [done|by eexists|done].
    + intros _. destruct Huid as [->|[-> _]]; [|by intros [= ?]]. intros Hu.
      pose proof (sk_uid σ k Hok _ _ Hd Hb Hu) as Hr.
      destruct He as [?|[Hu' _]]; [congruence|]. rewrite Hu in Hu'. by injection Hu' as ?.
Qed.

(** Recording a claimed host under its compute. *)
Lemma among_record others σ i c name ip ud nd b b0 :
  among others σ i → σ !! host_key i name = Some b → (host_key i name ∉ disturbed → claimed i c b) →
  among others σ (set_with_Hosts (Some
    (<[c := provisionedStatus (provisionStatus i name c ip) ud nd b0]> (set_Hosts i))) i).
Proof.
  intros [Hho Hi Ho] Hb Hcl. split; [done| |].
  - split.
    + intros c' st. rewrite set_Hosts_with_Hosts. simpl. intros [[<- <-]|[_ ?]]%lookup_insert_Some.
      * change (hs_Hostname (provisionStatus i name c ip) = c). unfold provisionStatus.
        destruct (set_Hosts i !! c) eqn:Hst; [by apply (sk_name σ i Hi)|done].
      * by apply (sk_name σ i Hi).
    + intros c' st b'. rewrite set_Hosts_with_Hosts. simpl. intros [[<- <-]|[_ ?]]%lookup_insert_Some Hd Hb'.
      * change (σ !! host_key i (hs_BmhRef (provisionStatus i name c ip)) = Some b') in Hb'.
        change (host_key i (hs_BmhRef (provisionStatus i name c ip)) ∉ disturbed) in Hd.
        unfold provisionStatus in Hb', Hd. destruct (set_Hosts i !! c) as [st|] eqn:Hst; [by eapply (sk_host σ i Hi)|].
        change (σ !! host_key i name = Some b') in Hb'. rewrite Hb in Hb'. injection Hb' as <-. by apply Hcl.
      * by eapply (sk_host σ i Hi).
    + apply (sk_uid σ i Hi).
  - intros k Hk. by apply Ho.
Qed.

(** Forgetting a compute. *)
Lemma among_forget others σ i c : among others σ i → among others σ (set_delete_host c i).
Proof.
  intros [Hho Hi Ho]. split; [done| |done]. split.
  - intros c' st. rewrite set_Hosts_delete. intros [_ ?]%lookup_delete_Some. by apply (sk_name σ i Hi).
  - intros c' st b. rewrite set_Hosts_delete. intros [_ ?]%lookup_delete_Some. by apply (sk_host σ i Hi).
  - apply (sk_uid σ i Hi).
Qed.

(** Releasing the host of an entry and forgetting the entry. *)
Lemma among_release others σ i c st b :
  among others σ i → set_Hosts i !! c = Some st → σ !! host_key i (hs_BmhRef st) = Some b →
  among others (<[host_key i (hs_BmhRef st) := deprovisionedHost i st b]> σ)
    (set_delete_host (hs_Hostname st) i).
Proof.
  intros Ha Hst Hb. pose proof (among_named _ _ _ _ _ Ha Hb) as Hname. set (b' := deprovisionedHost i st b).
  rewrite (sk_name σ i (am_set _ _ _ Ha) c st Hst).
  destruct (decide (host_key i (hs_BmhRef st) ∈ disturbed)) as [Hd|Hd]; [by apply among_disturbed; [apply among_forget|..]|].
  pose proof (among_forget _ _ _ c Ha) as Hf. destruct Ha as [Hho Hi Ho].
  destruct (sk_host σ i Hi c st b Hst Hd Hb) as [Hr Hl].
  assert (Huid : bmh_Labels b' !! uid_key = None) by apply released_uid.
  split.
  - apply hosts_ok_insert; [done|done|by rewrite Huid; intros _ []|].
    intros _ n. unfold b'. rewrite released_compute. case_decide as Hn; [by intros []|]. intros Hv.
    destruct (hk_compute σ Hho _ _ _ Hd Hb Hv) as (r & Hr' & <-). rewrite Hr in Hr'. by injection Hr' as <-.
  - apply set_ok_insert; [apply Hf| |by rewrite Huid]. intros _ c' st'. rewrite set_Hosts_delete.
    intros [Hne Hst']%lookup_delete_Some Hkey. change (host_key i (hs_BmhRef st') = host_key i (hs_BmhRef st)) in Hkey.
    destruct (sk_host σ i Hi c' st' b Hst') as [_ Hl']; [by rewrite Hkey..|]. congruence.
  - intros k Hk. destruct (Ho k Hk) as [[Hne Hnu] Hok]. split; [done|]. apply set_ok_insert; [done| |by rewrite Huid].
    intros _ c' st' Hst' Hkey. destruct (sk_host σ k Hok c' st' b Hst') as [Hr' _]; [by rewrite Hkey..|]. congruence.
Qed.

(** A host written under its own name is still there for others to get. *)
Definition eligible_at σ i c name : Prop :=
  ∃ b, σ !! host_key i name = Some b ∧ (host_key i name ∉ disturbed → eligible i c b).

Lemma eligible_at_insert σ i c name k b :
  (k = host_key i name → k ∈ disturbed) → eligible_at σ i c name → eligible_at (<[k := b]> σ) i c name.
Proof.
  intros Hne (b0 & Hb0 & He). destruct (decide (k = host_key i name)) as [->|Hk].
  - exists b. rewrite lookup_insert_eq. split; [done|]. intros Hd. destruct Hd. by apply Hne.
  - exists b0. by rewrite lookup_insert_ne.
Qed.

Lemma eligible_at_same σ i j c name : same_object i j → eligible_at σ i c name → eligible_at σ j c name.
Proof.
  intros Hs (b & Hb & He). exists b. rewrite (host_key_same i) by done. split; [done|]. intros Hd. specialize (He Hd).
  destruct Hs as [_ _ Hn _ Hu]. unfold eligible, set_UID in *. by rewrite Hn, Hu.
Qed.

End transitions.

(** ** A reconciliation among other sets *)

Lemma ParseCIDR_no_panic str m : ParseCIDR str ≠ Panic m.
Proof.
  unfold ParseCIDR. destruct (cut slash _) as [addr [mask|]]; [|done].
  destruct (ParseAddr addr); [|done]. destruct (negb _); [done|].
  destruct (dtoi mask) as [[n k] ok]. by destruct (_ || _).
Qed.

Lemma networkDataFor_no_panic `{LibCommon} i c ip m : networkDataFor i c ip ≠ Panic m.
Proof.
  unfold networkDataFor. destruct (is_NetworkData _); [done|]. unfold networkDataTemplate.
  pose proof (ParseCIDR_no_panic ip) as Hp. destruct (ParseCIDR ip) as [[a k]|e|m'] eqn:Hc; try done. by destruct (Hp m').
Qed.

Section reconcile.
Context {W : Type} `{Hc : Client W} `{Hv : ClientView W} `{Hcl : !ClientLaws W} `{Hf : !HostFrame W}.
Context `{Hsc : SetClient W} `{Hsf : !SetFrame W} `{Hsy : SystemView W} `{Hsyf : !SystemFrame W}.
Context `{Hdep : !Dependable W} `{Hlib : LibCommon} `{Hll : !LibCommonLaws} `{Hlk : !LabelKeys}.
Context `{Hcd : ConditionLib} `{Hord : MapOrder} `{Hdi : Disturbed}.
Abbreviation RS := (rstate (W := W)).

(** The stored sets, the set under reconciliation, and the others. *)
Context (stored : gmap (string * string) OpenStackBaremetalSet) (self : OpenStackBaremetalSet).
Context (others : OpenStackBaremetalSet → Prop).

Record held (s : RS) : Prop := {
  hd_standing : standing s.1 = (stored, true);
  hd_same : same_object self s.2;
  hd_map : is_Some (bst_BaremetalHosts (set_Status s.2));
  hd_among : among others (hosts s.1) s.2;
}.

Lemma held_cluster w w' i : hosts w' = hosts w → standing w' = standing w → held (w, i) → held (w', i).
Proof. intros Hh Hst [? ? ? ?]. simpl in *. split; simpl; [congruence|done|done|by rewrite Hh]. Qed.

Lemma held_instance w i j : same_object i j → set_Hosts j = set_Hosts i →
  is_Some (bst_BaremetalHosts (set_Status j)) → held (w, i) → held (w, j).
Proof.
  intros Hs Hh Hm [? Hso ? ?]. simpl in *. split; simpl; [done|by eapply same_object_trans|done|by eapply among_same].
Qed.

Lemma held_dependable s : held s → dependable s.1 = true.
Proof. intros [[= _ ?] _ _ _]. done. Qed.

#[export] Instance held_on_cluster {A} (c : st W A) :
  Keeps hosts c → Keeps standing c → NoPanic c → Safe held (on_cluster c).
Proof.
  intros Hk Hs Hn [w i] Hh. unfold on_cluster, st_zoom. simpl. specialize (Hk w). specialize (Hs w). specialize (Hn w).
  destruct (c w) as [o w']; simpl in *. split; [by eapply held_cluster|done].
Qed.

#[export] Instance held_conditions f : Safe held (upd_conditions f).
Proof.
  intros [w i] Hh. split; [|done]. simpl. eapply held_instance; [| |exact (hd_map _ Hh)|exact Hh]; done.
Qed.

#[export] Instance held_or_fail {A} t m (c : st RS A) : Safe held c → Safe held (or_fail t m c).
Proof. intros ?. unfold or_fail, set_condition. apply _. Qed.

#[export] Instance held_finish : Safe held finishProvisioning.
Proof. unfold finishProvisioning, get_instance, set_condition, mark_true. apply _. Qed.

#[export] Instance no_panic_GetBaremetalHosts ns sel : NoPanic (GetBaremetalHosts ns sel).
Proof. unfold GetBaremetalHosts. apply _. Qed.
#[export] Instance standing_GetBaremetalHosts ns sel : Keeps standing (GetBaremetalHosts ns sel).
Proof. unfold GetBaremetalHosts. apply _. Qed.

(** Synchronising the status with the hosts there are. *)
#[export] Instance held_sync : Safe held (on_instance VerifyAndSyncBaremetalStatusBmhRefs).
Proof.
  intros [w i] Hh. rewrite on_instance_run. unfold VerifyAndSyncBaremetalStatusBmhRefs, st_bind.
  pose proof (kept (f := hosts) (c := GetBaremetalHosts (set_BmhNamespace i) ∅) w) as Hk.
  pose proof (kept (f := standing) (c := GetBaremetalHosts (set_BmhNamespace i) ∅) w) as Hs.
  pose proof (no_panic (c := GetBaremetalHosts (set_BmhNamespace i) ∅) w) as Hn.
  destruct (GetBaremetalHosts _ _ w) as [[all|e|m] w1]; simpl in *; [| |by destruct (Hn m)];
    (split; [|done]).
  2: by eapply held_cluster.
  eapply held_cluster; [exact Hk|exact Hs|].
  clear Hk Hs Hn. unfold syncBmhRefs. generalize (range 3 (set_Hosts i)) as l. intros l. revert i Hh.
  induction l as [|[c st] l IH]; intros i Hh; simpl; [done|]. destruct (existsb _ all); apply IH; [done|].
  destruct Hh as [? ? Hm ?]. split; simpl in *;
    [done|by eapply same_object_trans|by apply fmap_is_Some|by apply among_forget].
Qed.

Lemma delete_done n ns w : dependable w = true → ∃ w',
  DeleteSecretsWithName n ns w = (Ok tt, w') ∧ hosts w' = hosts w ∧ standing w' = standing w.
Proof.
  intros Hd. pose proof (done_DeleteSecretsWithName n ns w Hd) as Hr.
  pose proof (kept (f := standing) (c := DeleteSecretsWithName n ns) w).
  pose proof (kept (f := hosts) (c := DeleteSecretsWithName n ns) w).
  destruct (DeleteSecretsWithName n ns w) as [o w']. simpl in *. subst o. by eexists.
Qed.

(** Releasing the host of an entry, or of none. *)
Lemma deprovision_held i st w :
  held (w, i) → st = HostStatus_zero ∨ (∃ c, set_Hosts i !! c = Some st) →
  let '(o, s) := on_instance (λ i, BaremetalHostDeprovision i st) (w, i) in
  held s ∧ ∀ m, o ≠ Panic m.
Proof.
  intros Hh Hst. rewrite on_instance_run. unfold BaremetalHostDeprovision, st_bind at 1.
  pose proof (kept (f := hosts) (c := bmh_Get (set_BmhNamespace i) (hs_BmhRef st)) w) as Hk.
  pose proof (kept (f := standing) (c := bmh_Get (set_BmhNamespace i) (hs_BmhRef st)) w) as Hs.
  pose proof (no_panic (c := bmh_Get (set_BmhNamespace i) (hs_BmhRef st)) w) as Hn.
  destruct (bmh_Get _ _ w) as [[b|e|m] w1] eqn:Hget; simpl in Hk, Hs, Hn; [| |by destruct (Hn m)].
  2: { simpl. split; [by eapply held_cluster|done]. }
  apply bmh_Get_ok in Hget as [-> Hb]. clear Hk Hs Hn.
  destruct Hst as [->|[c Hst]].
  { pose proof (hk_named _ (am_hosts _ _ _ (hd_among _ Hh)) (set_BmhNamespace i)) as Hno.
    change (hosts w !! (set_BmhNamespace i, "") = Some b) in Hb. simpl in Hno. congruence. }
  set (b' := deprovisionedHost i st b). unfold st_bind at 1.
  pose proof (kept (f := standing) (c := bmh_Update b') w) as Hs.
  pose proof (no_panic (c := bmh_Update b') w) as Hn.
  pose proof (refused_bmh_Update b' w) as Href.
  destruct (bmh_Update b' w) as [[[]|e|m] w1] eqn:Hup; simpl in *; [| |by destruct (Hn m)].
  2: { simpl. split; [|done]. eapply held_cluster; [|exact Hs|exact Hh]. by eapply Href; [apply (held_dependable _ Hh)|]. }
  apply bmh_Update_ok in Hup as (Hup & _). change (bmh_key b') with (bmh_key b) in Hup.
  rewrite (hosts_keyed _ _ _ Hb) in Hup. clear Href Hn. destruct Hh as [Hst0 Hso Hm Ham]. simpl in *.
  assert (Hd : ∀ v, standing v = standing w → dependable v = true).
  { intros v. rewrite Hst0. by intros [= _ ?]. }
  unfold st_bind.
  destruct (delete_done (CloudInitUserDataSecretName (set_Name i) (hs_BmhRef st)) (set_BmhNamespace i) w1)
    as (w2 & -> & Hh2 & Hs2); [by apply Hd|].
  destruct (delete_done (CloudInitNetworkDataSecretName (set_Name i) (hs_BmhRef st)) (set_BmhNamespace i) w2)
    as (w3 & -> & Hh3 & Hs3); [apply Hd; congruence|]. simpl. split; [|done].
  split; simpl; [congruence|by eapply same_object_trans|by apply fmap_is_Some|]. rewrite Hh3, Hh2, Hup. by eapply among_release.
Qed.

#[export] Instance held_deleteBmh labels : Safe held (deleteBmh labels).
Proof.
  unfold deleteBmh, get_instance. apply safe_bind; [apply _|]. intros i. apply safe_bind; [apply _|]. intros ex.
  apply safe_iter. intros c [w j] Hh.
  assert (Hst : default HostStatus_zero (set_Hosts j !! c) = HostStatus_zero ∨
    ∃ c', set_Hosts j !! c' = Some (default HostStatus_zero (set_Hosts j !! c))).
  { destruct (set_Hosts j !! c) eqn:Hst; [right; by exists c|by left]. }
  pose proof (deprovision_held j _ w Hh Hst) as Hd.
  rewrite on_instance_run in Hd |- *. by destruct (BaremetalHostDeprovision _ _ w) as [[j'|e|m] w'].
Qed.

(** Giving a compute a host. *)
Lemma provision_held i name c ip ps ssh pw env w :
  held (w, i) → eligible_at (hosts w) i c name →
  match BaremetalHostProvision i name c ip ps ssh pw env w with
  | (Ok (i', _), w') => held (w', i') ∧
      ∀ c2 n2, (n2 = name → host_key i name ∈ disturbed) → eligible_at (hosts w) i c2 n2 → eligible_at (hosts w') i' c2 n2
  | (Err _, w') => held (w', i)
  | (Panic _, _) => False
  end.
Proof.
  intros Hh (b & Hb & He). unfold BaremetalHostProvision.
  destruct (userDataFor i c ssh pw) as [us ud]. unfold st_bind at 1, st_lift.
  pose proof (networkDataFor_no_panic i c ip) as Hn. destruct (networkDataFor i c ip) as [[ns nd]|e|m]; [|done|by destruct (Hn m)].
  clear Hn. set (ens := if bool_decide _ then _ else _). unfold st_bind at 1.
  assert (Hens : Keeps hosts ens ∧ Keeps standing ens ∧ NoPanic ens).
  { unfold ens. split_and!; apply _. }
  destruct Hens as (Hk & Hs & Hn). specialize (Hk w). specialize (Hs w). specialize (Hn w).
  destruct (ens w) as [[env1|e|m] w1]; simpl in Hk, Hs, Hn; [| |by destruct (Hn m)].
  2: by eapply held_cluster.
  apply (held_cluster _ _ _ Hk Hs) in Hh. rewrite <-Hk in Hb |- *. clear Hk Hs Hn w ens. unfold st_bind at 1.
  pose proof (kept (f := hosts) (c := bmh_Get (set_BmhNamespace i) name) w1) as Hk.
  pose proof (kept (f := standing) (c := bmh_Get (set_BmhNamespace i) name) w1) as Hs.
  pose proof (no_panic (c := bmh_Get (set_BmhNamespace i) name) w1) as Hn.
  destruct (bmh_Get _ _ w1) as [[b0|e|m] w2] eqn:Hget; simpl in Hk, Hs, Hn; [| |by destruct (Hn m)].
  2: by eapply held_cluster.
  apply bmh_Get_ok in Hget as [-> Hb0]. unfold host_key in Hb. rewrite Hb in Hb0. injection Hb0 as <-. clear Hk Hs Hn.
  set (f := provisionPatch i c ps ud nd). unfold st_bind at 1.
  pose proof (kept (f := standing) (c := bmh_CreateOrPatch b f) w1) as Hs.
  pose proof (no_panic (c := bmh_CreateOrPatch b f) w1) as Hn.
  pose proof (refused_bmh_CreateOrPatch b f w1) as Href. pose proof (hosts_keyed _ _ _ Hb) as Hkey.
  destruct (bmh_CreateOrPatch b f w1) as [[b'|e|m] w2] eqn:Hp; simpl in Hs, Hn, Href; [| |by destruct (Hn m)].
  2: { eapply held_cluster; [|exact Hs|exact Hh]. by eapply Href; [apply (held_dependable _ Hh)|]. }
  apply bmh_CreateOrPatch_ok with (cur := b) in Hp as (_ & Hh' & _); [|by rewrite Hkey|done].
  rewrite Hkey in Hh'. fold (host_key i name) in Hh', Hb. destruct Hh as [Hst Hso [m Hm] Ham]. simpl in *. rewrite Hm.
  replace m with (set_Hosts i) by (unfold set_Hosts; by rewrite Hm). split.
  - split; simpl; [congruence|by eapply same_object_trans|by eexists|]. rewrite Hh'. eapply among_record.
    + by apply among_claim.
    + apply lookup_insert_eq.
    + intros Hd. eapply eligible_claimed; [exact Ham|done|exact Hb|by apply He].
  - intros c2 n2 Hne He2. apply (eligible_at_same _ i); [done|]. rewrite Hh'. apply eligible_at_insert; [|done].
    intros Heq. apply Hne. unfold host_key in Heq. by injection Heq.
Qed.

(** The pairs of a compute and a host that nobody disturbs. *)
Definition quiet i (l : list (string * BareMetalHost)) : list (string * BareMetalHost) :=
  filter (λ cb, host_key i (bmh_Name cb.2) ∉ disturbed) l.

Lemma provisionAll_held ps ssh pw env l w i :
  held (w, i) → NoDup ((λ cb, bmh_Name cb.2) <$> quiet self l) →
  (∀ c b, (c, b) ∈ l → eligible_at (hosts w) i c (bmh_Name b)) →
  let '(o, s) := provisionAll ps ssh pw env l (w, i) in held s ∧ ∀ m, o ≠ Panic m.
Proof.
  revert w i env. induction l as [|[c b] l IH]; intros w i env Hh Hnd He; cbn [provisionAll]; [done|].
  assert (Hnd' : NoDup ((λ cb, bmh_Name cb.2) <$> quiet self l) ∧
    ∀ c2 b2, (c2, b2) ∈ l → bmh_Name b2 = bmh_Name b → host_key i (bmh_Name b) ∈ disturbed).
  { rewrite (host_key_same self i) by apply (hd_same _ Hh). unfold quiet in Hnd. rewrite filter_cons in Hnd. simpl in Hnd.
    case_decide as Hq; [|split; [exact Hnd|intros c2 b2 _ _; exact Hq]].
    apply NoDup_cons in Hnd as [Hnin Hnd]. split; [exact Hnd|]. intros c2 b2 Hin Heq. destruct Hnin. simpl. rewrite <-Heq.
    apply list_elem_of_fmap. exists (c2, b2). split; [done|]. apply list_elem_of_filter. simpl. by rewrite Heq. }
  clear Hnd. destruct Hnd' as [Hnd Hdist].
  unfold get_instance, on_cluster, put_instance, st_bind, st_zoom, st_gets, st_modify. cbn [fst snd].
  pose proof (provision_held i (bmh_Name b) c (is_CtlPlaneIP (spec_host i c)) ps ssh pw env w Hh
    (He c b ltac:(apply list_elem_of_here))) as Hp.
  destruct (BaremetalHostProvision _ _ _ _ _ _ _ _ w) as [[[i' env']|e|m] w']; cbn [fst snd]; [|done..].
  destruct Hp as [Hh' Hrest]. apply IH; [done|done|]. intros c2 b2 Hin. apply Hrest.
  - by apply (Hdist c2).
  - apply He. by apply list_elem_of_further.
Qed.

(** The hosts picked for the new computes and those the set has already are all
    different hosts. *)
Lemma chosen_distinct i sel existing ex all w m labels :
  held (w, i) → labels = GetLabels (set_Meta i) (GetGroupLabel ServiceName) ∅ →
  GetBaremetalHosts (set_BmhNamespace i) sel w = (Ok all, w) →
  GetBaremetalHosts (set_BmhNamespace i) labels w = (Ok ex, w) →
  VerifyBaremetalSetScaleUp i all existing = Ok m →
  let chosen := default ∅ m ∪ buildExistingHostBMHMap i ex in
  (∀ c b, chosen !! c = Some b → eligible_at (hosts w) i c (bmh_Name b)) ∧
  NoDup ((λ cb, bmh_Name cb.2) <$> quiet self (range 11 chosen)).
Proof.
  intros Hh Hlab Hall Hex Hm chosen. pose proof (am_hosts _ _ _ (hd_among _ Hh)) as Hho. simpl in Hho.
  assert (Hsel : ∀ c b, default ∅ m !! c = Some b → hosts w !! host_key i (bmh_Name b) = Some b ∧ consumer b = None).
  { intros c b Hb. by destruct (selected_free i sel existing all w w c b m Hall Hm Hb) as (? & ? & _). }
  assert (Hold : ∀ c b, buildExistingHostBMHMap i ex !! c = Some b → hosts w !! host_key i (bmh_Name b) = Some b ∧
    bmh_Labels b !! uid_key = Some (set_UID i) ∧ bmh_Labels b !! compute_key (set_Name i) = Some c).
  { intros c b Hb. pose proof (buildExisting_label _ _ _ _ Hb) as Hc'. apply buildExisting_from in Hb.
    destruct (labelled_listed i labels ex w w b Hlab Hex Hb) as (_ & Hb' & Hl). split_and!; [done| |done].
    eapply lookup_weaken; [|exact Hl]. apply lookup_insert_eq. }
  split.
  { intros c b [Hb|[_ Hb]]%lookup_union_Some_raw; exists b.
    + destruct (Hsel c b Hb). split; [done|by left].
    + destruct (Hold c b Hb) as (?&?&?). split; [done|by right]. }
  assert (Hfree : ∀ c1 c2 b1 b2, default ∅ m !! c1 = Some b1 → buildExistingHostBMHMap i ex !! c2 = Some b2 →
    bmh_Name b1 = bmh_Name b2 → host_key i (bmh_Name b1) ∉ disturbed → False).
  { intros c1 c2 b1 b2 H1 H2 Heq Hd. destruct (Hsel _ _ H1) as [Hb1 Hn], (Hold _ _ H2) as (Hb2 & Hu & _).
    rewrite Heq in Hb1, Hd. rewrite Hb2 in Hb1. injection Hb1 as ->. by destruct (hk_uid _ Hho _ _ Hd Hb2 (mk_is_Some _ _ Hu)). }
  apply NoDup_fmap_2_strong; [|by eapply NoDup_filter, NoDup_fmap_1, range_fst_NoDup].
  intros [c1 b1] [c2 b2] [Hd1 H1%elem_of_range]%list_elem_of_filter [Hd2 H2%elem_of_range]%list_elem_of_filter Heq.
  simpl in Hd1, Hd2, Heq. rewrite <-(host_key_same self i) in Hd1, Hd2 by apply (hd_same _ Hh).
  apply lookup_union_Some_raw in H1 as [H1|[_ H1]], H2 as [H2|[_ H2]].
  - pose proof (scaleUp_cases i all existing) as Hca. rewrite Hm in Hca. destruct m as [a|]; [|done].
    destruct Hca as [_ Ha]. simpl in H1, H2. pose proof (va_inj _ _ _ Ha _ _ _ _ H1 H2 Heq) as ->. congruence.
  - by destruct (Hfree _ _ _ _ H1 H2 Heq).
  - by destruct (Hfree _ _ _ _ H2 H1 (eq_sym Heq)).
  - destruct (Hold _ _ H1) as (Hb1 & _ & Hl1), (Hold _ _ H2) as (Hb2 & _ & Hl2). rewrite Heq, Hb2 in Hb1. congruence.
Qed.

Lemma ensure_held ps ssh pw labels env w i :
  held (w, i) → labels = GetLabels (set_Meta i) (GetGroupLabel ServiceName) ∅ →
  let '(o, s) := ensureBaremetalHosts ps ssh pw labels env (w, i) in held s ∧ ∀ m, o ≠ Panic m.
Proof.
  intros Hh Hlab. unfold ensureBaremetalHosts, get_instance, on_cluster, st_zoom, st_gets, st_lift, st_bind.
  cbn [fst snd].
  assert (Hlist : ∀ sel v, held (v, i) → match GetBaremetalHosts (set_BmhNamespace i) sel v with
    | (Ok _, v') => v' = v | (Err _, v') => held (v', i) | (Panic _, _) => False end).
  { intros sel v Hv'. pose proof (kept (f := hosts) (c := GetBaremetalHosts (set_BmhNamespace i) sel) v) as Hk.
    pose proof (kept (f := standing) (c := GetBaremetalHosts (set_BmhNamespace i) sel) v) as Hs.
    pose proof (no_panic (c := GetBaremetalHosts (set_BmhNamespace i) sel) v) as Hn.
    destruct (GetBaremetalHosts _ sel v) as [[l|e|m] v'] eqn:Hg; simpl in *; [|by eapply held_cluster|by destruct (Hn m)].
    by apply bmh_List_ok in Hg as [-> _]. }
  pose proof (Hlist (ts_BmhLabelSelector (set_Template i)) w Hh) as H1.
  destruct (GetBaremetalHosts _ (ts_BmhLabelSelector _) w) as [[all|e|m] w1] eqn:Hall; cbn [fst snd]; [|done..].
  subst w1. pose proof (Hlist labels w Hh) as H2.
  destruct (GetBaremetalHosts _ labels w) as [[ex|e|m] w2] eqn:Hex; cbn [fst snd]; [|done..]. subst w2.
  pose proof (scaleUp_cases i all ex) as Hca.
  destruct (VerifyBaremetalSetScaleUp i all ex) as [m|e|m] eqn:Hm; cbn [fst snd]; [|done..].
  destruct (chosen_distinct i _ ex ex all w m labels Hh Hlab Hall Hex Hm) as [He Hnd].
  rewrite MergeMaps_spec. apply provisionAll_held; [done|done|]. intros c b Hin%elem_of_range. by apply He.
Qed.

(** The work on the hosts. *)
#[export] Instance held_reconcileHosts ps ssh pw env : Safe held (reconcileHosts ps ssh pw env).
Proof.
  unfold reconcileHosts. apply safe_bind; [apply _|]. intros _ [w i] Hh.
  unfold get_instance at 1, st_bind at 1, st_gets. cbn [fst snd]. cbv zeta.
  set (labels := GetLabels (set_Meta i) _ ∅). set (t := OpenStackBaremetalSetBmhProvisioningReadyCondition).
  set (f := OpenStackBaremetalSetBmhProvisioningReadyErrorMessage).
  assert (Hsame : ∀ s : RS, held s → labels = GetLabels (set_Meta s.2) (GetGroupLabel ServiceName) ∅).
  { intros s Hs. unfold labels. rewrite !GetLabels_spec. f_equal. unfold owner_labels.
    pose proof (hd_same _ Hh) as [_ _ Hn Hns Hu]. pose proof (hd_same _ Hs) as [_ _ Hn' Hns' Hu'].
    simpl in *. unfold set_Name, set_Namespace in *. congruence. }
  assert (Hens : Safe held (ensureBaremetalHosts ps ssh pw labels env)).
  { intros [v j] Hj. pose proof (ensure_held ps ssh pw labels env v j Hj (Hsame _ Hj)).
    by destruct (ensureBaremetalHosts _ _ _ _ _ (v, j)). }
  apply (safe_bind held (or_fail t f (deleteBmh labels)) (λ _, st_bind (or_fail t f (ensureBaremetalHosts ps ssh pw labels env))
    (λ _, finishProvisioning))); [apply _| |done]. intros _. apply _.
Qed.

(** The clean-up of a set that is being deleted. *)
Lemma cleanupAll_held l w i :
  held (w, i) → (∀ c st st', (c, st) ∈ l → set_Hosts i !! c = Some st' → st' = st) →
  let '(o, s) := cleanupAll l (w, i) in held s ∧ ∀ m, o ≠ Panic m.
Proof.
  revert w i. induction l as [|[c st] l IH]; intros w i Hh Hl; cbn [cleanupAll]; [done|].
  assert (Hl' : ∀ c st st', (c, st) ∈ l → set_Hosts i !! c = Some st' → st' = st)
    by (intros c' st1 st2 Hin; apply Hl; by apply list_elem_of_further).
  unfold get_instance, st_bind, st_gets. cbn [snd].
  destruct (decide (is_Some (set_Hosts i !! c))) as [[st' Hc']|Hn]; [|by apply IH].
  assert (st' = st) as -> by (eapply Hl; [apply list_elem_of_here|done]).
  pose proof (deprovision_held i st w Hh ltac:(right; by exists c)) as Hd. rewrite on_instance_run in Hd |- *.
  destruct (BaremetalHostDeprovision i st w) as [[j|e|m] w1] eqn:Hr; [|done..].
  destruct Hd as [Hd _]. apply IH; [done|]. apply deprovision_instance in Hr as ->.
  intros c' st1 st2 Hin. rewrite set_Hosts_delete, lookup_delete_Some. intros [_ ?]. by eapply Hl'.
Qed.

#[export] Instance held_reconcileDelete : Safe held reconcileDelete.
Proof.
  unfold reconcileDelete. apply safe_bind.
  - apply safe_catch; [|apply _]. intros [w i] Hh. unfold baremetalHostCleanup, get_instance, st_bind, st_gets.
    cbn [fst snd]. pose proof (cleanupAll_held (range 12 (set_Hosts i)) w i Hh) as Hc'.
    destruct (cleanupAll _ (w, i)); apply Hc'; intros c st st' Hin%elem_of_range ?; congruence.
  - intros _ [w i] Hh. split; [|done]. simpl.
    destruct (RemoveFinalizer_identity (set_Meta i) (GetFinalizer (set_Kind i))) as (?&?&?).
    apply (held_instance w i); [by split|done|exact (hd_map _ Hh)|exact Hh].
Qed.

(** Before the work on the hosts a reconciliation may panic, but has not touched
    them. *)
Definition early (σ : gmap (string * string) BareMetalHost) (s : RS) : Prop := held s ∧ hosts s.1 = σ.

Definition ended (σ : gmap (string * string) BareMetalHost) {A} (o : outcome A) (s : RS) : Prop :=
  match o with Panic _ => standing s.1 = (stored, true) ∧ hosts s.1 = σ | _ => held s end.

Class Early {A} (c : st RS A) : Prop := early_run : ∀ σ s, early σ s → early σ (c s).2.
Class Guarded {A} (c : st RS A) : Prop := guarded_run : ∀ σ, triple (early σ) c (ended σ).

#[export] Instance early_ret {A} (a : A) : Early (st_ret a).
Proof. by intros σ s. Qed.
#[export] Instance early_err {A} e : Early (st_err (A := A) e).
Proof. by intros σ s. Qed.
#[export] Instance early_get : Early get_instance.
Proof. by intros σ s. Qed.
#[export] Instance early_try {A} (c : st RS A) : Early c → Early (st_try c).
Proof. intros He σ s Hs. unfold st_try. specialize (He σ s Hs). by destruct (c s) as [[a|e|m] s1]. Qed.
#[export] Instance early_bind {A B} (c : st RS A) (f : A → st RS B) :
  Early c → (∀ a, Early (f a)) → Early (st_bind c f).
Proof.
  intros He Hf' σ s Hs. unfold st_bind. specialize (He σ s Hs). destruct (c s) as [[a|e|m] s1]; simpl in *; [|done..].
  by apply Hf'.
Qed.
#[export] Instance early_if {A} (b : bool) (c d : st RS A) : Early c → Early d → Early (if b then c else d).
Proof. by destruct b. Qed.
#[export] Instance early_cluster {A} (c : st W A) : Keeps hosts c → Keeps standing c → Early (on_cluster c).
Proof.
  intros Hk Hs σ [w i] [Hh <-]. unfold on_cluster, st_zoom. simpl. specialize (Hk w). specialize (Hs w).
  destruct (c w) as [o w']; simpl in *. split; [by eapply held_cluster|done].
Qed.
#[export] Instance early_conditions f : Early (upd_conditions f).
Proof. intros σ [w i] [Hh <-]. split; [|done]. by destruct (held_conditions f (w, i) Hh). Qed.

#[export] Instance guarded_early {A} (c : st RS A) : Early c → Guarded c | 10.
Proof.
  intros He σ s Hs. specialize (He σ s Hs). destruct He as [Hh Hσ].
  destruct (c s).1; [exact Hh..|]. split; [apply Hh|done].
Qed.
#[export] Instance guarded_bind {A B} (c : st RS A) (f : A → st RS B) :
  Early c → (∀ a, Guarded (f a)) → Guarded (st_bind c f).
Proof.
  intros He Hf' σ s Hs. unfold st_bind. specialize (He σ s Hs). destruct (c s) as [[a|e|m] s1]; simpl in *.
  - by apply Hf'.
  - apply He.
  - split; apply He.
Qed.
#[export] Instance guarded_if {A} (b : bool) (c d : st RS A) : Guarded c → Guarded d → Guarded (if b then c else d).
Proof. by destruct b. Qed.
#[export] Instance guarded_decide {A} P (b : {P} + {¬ P}) (c d : st RS A) :
  Guarded c → Guarded d → Guarded (if b then c else d).
Proof. by destruct b. Qed.

Lemma guarded_safe {A} (c : st RS A) : Safe held c → Guarded c.
Proof.
  intros Hs σ s [Hh _]. destruct (Hs s Hh) as [Hh' Hn]. by destruct (c s) as [[a|e|m] s1]; simpl in *; [..|destruct (Hn m)].
Qed.

#[export] Instance guarded_reconcileHosts ps ssh pw env : Guarded (reconcileHosts ps ssh pw env).
Proof. apply guarded_safe, _. Qed.

#[export] Instance guarded_withInputSecret name ns k :
  (∀ secret hash, Guarded (k secret hash)) → Guarded (withInputSecret name ns k).
Proof.
  intros Hk. unfold withInputSecret, set_condition. apply guarded_bind; [apply _|]. intros [[secret hash]|err]; apply _.
Qed.

#[export] Instance standing_findProvisionServer i : Keeps standing (findProvisionServer i).
Proof.
  unfold findProvisionServer, provisionServerCreateOrUpdate, provisionServerDelete, provisionServerPatch,
    AssignProvisionServerPort, GetExistingProvServerPorts. apply _.
Qed.

#[export] Instance guarded_withProvisionServer k : (∀ ps, Guarded (k ps)) → Guarded (withProvisionServer k).
Proof.
  intros Hk. unfold withProvisionServer, set_condition, mark_true. apply guarded_bind; [apply _|]. intros i.
  apply guarded_if; [|apply _]. apply guarded_bind; [apply _|]. intros [ps|err]; apply _.
Qed.

#[export] Instance guarded_reconcileNormal : Guarded reconcileNormal.
Proof.
  unfold reconcileNormal, mark_true. apply guarded_bind; [apply _|]. intros i.
  apply guarded_withInputSecret. intros secret hash. apply guarded_bind; [apply _|]. intros _. cbv zeta.
  destruct (ts_PasswordSecret _); unfold unless_requeued, reconcileInit, reconcileUpdate, reconcileUpgrade; apply _.
Qed.

(** A reconciliation from the status it finds to the status it leaves. *)
Lemma set_reconcile_among isNew w i :
  standing w = (stored, true) → same_object self i → among others (hosts w) i →
  match set_reconcile isNew (w, i) with
  | (Panic _, (w', _)) => standing w' = (stored, true) ∧ hosts w' = hosts w
  | (_, (w', i')) => standing w' = (stored, true) ∧ same_object self i' ∧ among others (hosts w') i'
  end.
Proof.
  intros Hst Hso Ham. unfold set_reconcile, get_instance, put_instance, st_bind, st_gets, st_modify.
  cbn [fst snd]. cbv zeta.
  destruct (AddFinalizer_identity (set_Meta (initialStatus i)) (GetFinalizer (set_Kind (initialStatus i))))
    as (?&?&?).
  set (deleting := bool_decide _). set (started := if negb deleting then _ else _).
  assert (Hs : same_object i started.1 ∧ set_Hosts started.1 = set_Hosts i).
  { unfold started. destruct (negb deleting); [|done]. by destruct (AddFinalizer _ _). }
  destruct started as [j added]. destruct Hs as [Hs Hh]. cbn [fst snd] in Hs, Hh |- *.
  assert (Hj : same_object self j ∧ among others (hosts w) j)
    by (split; [by eapply same_object_trans|by eapply among_same]).
  destruct (added || isNew); [done|].
  assert (He : early (hosts w) (w, statusMaps j)).
  { split; [|done]. split; simpl; [done|eapply same_object_trans; [apply Hj|done]|by eexists|].
    eapply among_same; [| |apply Hj]; done. }
  assert (Hg : Guarded (if deleting then reconcileDelete else reconcileNormal))
    by (destruct deleting; [apply guarded_safe|]; apply _).
  specialize (Hg _ _ He). destruct deleting; [destruct (reconcileDelete _) as [[] []]|destruct (reconcileNormal _) as [[] []]];
    simpl in Hg; by destruct Hg.
Qed.

End reconcile.

(** ** The system *)

Section system.
Context {W : Type} `{Hc : Client W} `{Hv : ClientView W} `{Hcl : !ClientLaws W} `{Hf : !HostFrame W}.
Context `{Hsc : SetClient W} `{Hsf : !SetFrame W} `{Hsy : SystemView W} `{Hsyf : !SystemFrame W}.
Context `{Hdep : !Dependable W} `{Hlib : LibCommon} `{Hll : !LibCommonLaws} `{Hlk : !LabelKeys}.
Context `{Hcd : ConditionLib} `{Hord : MapOrder} `{Hdi : Disturbed}.

Record system_ok (w : W) : Prop := {
  sys_hosts : hosts_ok (hosts w);
  sys_sets : map_Forall (λ _ i, set_ok (hosts w) i) (sets w);
  sys_uids : ∀ k k' i j, sets w !! k = Some i → sets w !! k' = Some j → set_UID i = set_UID j → k = k';
}.

(** The sets other than the one with a given name. *)
Definition others_of (k : string * string) (stored : gmap (string * string) OpenStackBaremetalSet)
    (j : OpenStackBaremetalSet) : Prop := ∃ k', k' ≠ k ∧ stored !! k' = Some j.

Lemma self_ref_key i j : self_ref i = self_ref j → set_key i = set_key j.
Proof. unfold self_ref, set_key. by intros [= -> _ ->]. Qed.

Lemma system_among w k i : system_ok w → sets w !! k = Some i → among (others_of k (sets w)) (hosts w) i.
Proof.
  intros [Hh Hs Hu] Hi. split; [done|by apply (Hs k)|]. intros j (k' & Hne & Hj). split; [|by apply (Hs k')].
  split; [|intros Heq; apply Hne; symmetry; by eapply Hu].
  intros Heq%self_ref_key. apply Hne. by rewrite <-(sets_keyed _ _ _ Hi), <-(sets_keyed _ _ _ Hj).
Qed.

(** Storing what a reconciliation made of a set. *)
Lemma among_system w w' k i j :
  system_ok w → sets w !! k = Some i → same_object i j → among (others_of k (sets w)) (hosts w') j →
  sets w' = <[k := j]> (sets w) ∨ sets w' = delete k (sets w) ∨ sets w' = sets w ∧ j = i →
  system_ok w'.
Proof.
  intros [Hh Hs Hu] Hi Hso [Hh' Hj Ho] Hw'.
  assert (Hback : ∀ k' i', sets w' !! k' = Some i' → k' = k ∧ i' = j ∨ k' ≠ k ∧ sets w !! k' = Some i').
  { intros k' i' Hi'. destruct (decide (k' = k)) as [->|Hne].
    - left. destruct Hw' as [Hw'|[Hw'|[Hw' ->]]]; rewrite Hw' in Hi'.
      + rewrite lookup_insert_eq in Hi'. by injection Hi' as ->.
      + by rewrite lookup_delete_eq in Hi'.
      + rewrite Hi in Hi'. by injection Hi' as ->.
    - right. split; [done|]. destruct Hw' as [Hw'|[Hw'|[Hw' _]]]; rewrite Hw' in Hi'; [| |done].
      + by rewrite lookup_insert_ne in Hi'.
      + by rewrite lookup_delete_ne in Hi'. }
  assert (Huid : set_UID j = set_UID i) by (unfold set_UID; apply Hso).
  split; [done| |].
  - intros k' i' [[-> ->]|[Hne Hi']]%Hback; [done|]. apply Ho. by exists k'.
  - intros k1 k2 i1 i2 [[-> ->]|[Hn1 H1]]%Hback [[-> ->]|[Hn2 H2]]%Hback; [done|..]; rewrite ?Huid; by apply Hu.
Qed.

Lemma system_moved w w' :
  hosts w' = hosts w → standing w' = (sets w, true) → system_ok w → system_ok w' ∧ dependable w' = true.
Proof. intros Hh [= Hs Hd] [? ? ?]. split; [|done]. split; by rewrite ?Hh, ?Hs. Qed.

Lemma Reconcile_system namespace name w :
  dependable w = true → system_ok w →
  system_ok (Reconcile namespace name w).2 ∧ dependable (Reconcile namespace name w).2 = true.
Proof.
  intros Hd Hok. set (k := (namespace, name)).
  assert (Hst : standing w = (sets w, true)) by (unfold standing; by rewrite Hd).
  destruct (Reconcile namespace name w) as [o w'] eqn:Hr. simpl. unfold Reconcile in Hr.
  pose proof (frame_set_Get namespace name w) as Hh1. pose proof (kept (f := standing) (c := set_Get namespace name) w) as Hs1.
  destruct (set_Get namespace name w) as [[i|e|m] w1] eqn:Hg; simpl in Hh1, Hs1; rewrite Hst in Hs1.
  2: { destruct (err_is_not_found e); simplify_eq; by apply (system_moved w). }
  2: { simplify_eq; by apply (system_moved w). }
  apply set_Get_ok in Hg. destruct (_ && _); [simplify_eq; by apply (system_moved w)|].
  pose proof (frame_set_NewHelper i w1) as Hh2. pose proof (kept (f := standing) (c := set_NewHelper i) w1) as Hs2.
  destruct (set_NewHelper i w1) as [[u|e|m] w2]; simpl in Hh2, Hs2; rewrite Hs1 in Hs2; rewrite Hh1 in Hh2.
  2, 3: simplify_eq; by apply (system_moved w).
  cbv zeta in Hr. set (isNew := bool_decide _) in Hr. set (started := if isNew then _ else _) in Hr.
  assert (Hstart : same_object i started ∧ set_Hosts started = set_Hosts i) by (unfold started; by destruct isNew).
  pose proof (system_among w k i Hok Hg) as Ham. rewrite <-Hh2 in Ham.
  pose proof (set_reconcile_among (sets w) i (others_of k (sets w)) isNew w2 started Hs2 (proj1 Hstart)
    (among_same _ _ i started (proj1 Hstart) (proj2 Hstart) Ham)) as Hrun.
  destruct (set_reconcile isNew (w2, started)) as [oc [w3 j]].
  assert (Hpatch : ∀ c, standing w3 = (sets w, true) ∧ same_object i j ∧ among (others_of k (sets w)) (hosts w3) j →
    ∃ w4, set_PatchInstance i (set_finish c j) w3 = (Ok tt, w4) ∧ system_ok w4 ∧ dependable w4 = true).
  { intros c ([= Hs3 Hd3] & Hso & Haj). set (j' := set_finish c j).
    assert (Hj' : same_object i j') by (eapply same_object_trans; [exact Hso|done]).
    destruct (done_set_PatchInstance i j' w3 Hd3) as (w4 & Hp & Hd4 & Hsets). exists w4. split_and!; [done| |done].
    pose proof (frame_set_PatchInstance i j' w3) as Hh4. rewrite Hp in Hh4. simpl in Hh4.
    assert (Hkey : set_key j' = k).
    { pose proof (sets_keyed _ _ _ Hg) as Hki. destruct Hj' as [_ _ Hn Hns _]. unfold set_key in *. by rewrite Hn, Hns. }
    rewrite Hkey, Hs3 in Hsets. eapply (among_system w w4 k i j'); [done|done|done| |tauto].
    rewrite Hh4. by eapply (among_same _ _ j). }
  destruct oc as [r|e|m]; [..|simplify_eq; destruct Hrun as [? ?]; by apply (system_moved w); [congruence|..]].
  all: destruct (Hpatch (bst_Conditions (set_Status started)) Hrun) as (w4 & Hp & ? & ?); rewrite Hp in Hr; by simplify_eq.
Qed.

(** A host of which Metal3 or a user changes something else than the consumer and the
    operator's labels. *)
Definition alike (b b' : BareMetalHost) : Prop :=
  consumer b' = consumer b ∧ bmh_Labels b' !! uid_key = bmh_Labels b !! uid_key ∧
  ∀ n, bmh_Labels b' !! compute_key n = bmh_Labels b !! compute_key n.

(** A host without labels of the operator, at a place that no status names. *)
Definition nobodys (w : W) (k : string * string) (b : BareMetalHost) : Prop :=
  bmh_Labels b !! uid_key = None ∧ (∀ n, bmh_Labels b !! compute_key n = None) ∧
  map_Forall (λ _ i, map_Forall (λ _ st, host_key i (hs_BmhRef st) ≠ k) (set_Hosts i)) (sets w).

Definition fresh_uid (w : W) (i : OpenStackBaremetalSet) : Prop :=
  map_Forall (λ _ j, set_UID j ≠ set_UID i) (sets w) ∧
  map_Forall (λ k b, k ∉ disturbed → bmh_Labels b !! uid_key ≠ Some (set_UID i)) (hosts w).

(** The entries of the status of [j] are among those of [i], for the same hosts, or name
    disturbed hosts. *)
Definition entries_kept (i j : OpenStackBaremetalSet) : Prop :=
  ∀ c st, set_Hosts j !! c = Some st → hs_Hostname st = c ∧
    (host_key j (hs_BmhRef st) ∈ disturbed ∨
     set_Hosts i !! c = Some st ∧ host_key j (hs_BmhRef st) = host_key i (hs_BmhRef st)).

(** What can happen between two reconciliations. Metal3 and users change hosts, claim
    hosts that no set has, create and delete them; users create, edit and delete sets,
    and may restore the status of one. A host that a status names is deleted and
    created again, its consumer or its labels are edited, or an edited namespace or a
    restored status points at it: that host is [disturbed]. The API server gives a new
    set an UID of its own and keeps the identity of a set. *)
Inductive sys_event (w w' : W) : Prop :=
| host_changed k b b' : hosts w !! k = Some b → alike b b' →
    hosts w' = <[k := b']> (hosts w) → sets w' = sets w → sys_event w w'
| host_written k b : k.2 ≠ "" → nobodys w k b →
    hosts w' = <[k := b]> (hosts w) → sets w' = sets w → sys_event w w'
| host_disturbed k b : k.2 ≠ "" → k ∈ disturbed →
    hosts w' = <[k := b]> (hosts w) → sets w' = sets w → sys_event w w'
| host_deleted k : hosts w' = delete k (hosts w) → sets w' = sets w → sys_event w w'
| set_created k i : sets w !! k = None → entries_kept (set_with_Hosts None i) i → fresh_uid w i →
    hosts w' = hosts w → sets w' = <[k := i]> (sets w) → sys_event w w'
| set_edited k i j : sets w !! k = Some i → self_ref j = self_ref i → set_UID j = set_UID i → entries_kept i j →
    hosts w' = hosts w → sets w' = <[k := j]> (sets w) → sys_event w w'
| set_deleted k : hosts w' = hosts w → sets w' = delete k (sets w) → sys_event w w'
| other_event : hosts w' = hosts w → sets w' = sets w → sys_event w w'.

Inductive sys_step (w w' : W) : Prop :=
| reconciled namespace name : (Reconcile namespace name w).2 = w' → sys_step w w'
| happened : dependable w' = true → sys_event w w' → sys_step w w'.

Lemma set_ok_hosts σ σ' i :
  (∀ k b, σ' !! k = Some b → σ !! k = Some b) → set_ok σ i → set_ok σ' i.
Proof. intros Hsub [Hn Hh Hu]. split; [done|intros; eapply Hh; eauto|intros; eapply Hu; eauto]. Qed.

Lemma hosts_ok_sub σ σ' :
  (∀ k b, σ' !! k = Some b → σ !! k = Some b) → hosts_ok σ → hosts_ok σ'.
Proof.
  intros Hsub [Hn Hu Hc']. split; [|intros; eapply Hu; eauto|intros; eapply Hc'; eauto].
  intros ns. destruct (σ' !! (ns, "")) eqn:Hs; [|done]. apply Hsub in Hs. by rewrite Hn in Hs.
Qed.

(** Writing a host keeps the invariant when its labels and its consumer agree. *)
Lemma system_write w w' k b :
  k.2 ≠ "" → hosts w' = <[k := b]> (hosts w) → sets w' = sets w →
  (k ∉ disturbed → is_Some (bmh_Labels b !! uid_key) → consumer b ≠ None) →
  (k ∉ disturbed → ∀ n, is_Some (bmh_Labels b !! compute_key n) → ∃ r, consumer b = Some r ∧ or_Name r = n) →
  (k ∉ disturbed → ∀ k' i, sets w !! k' = Some i →
     (∀ c st, set_Hosts i !! c = Some st → host_key i (hs_BmhRef st) = k →
        consumer b = Some (self_ref i) ∧ bmh_Labels b !! compute_key (set_Name i) = Some c) ∧
     (bmh_Labels b !! uid_key = Some (set_UID i) → consumer b = Some (self_ref i))) →
  system_ok w → system_ok w'.
Proof.
  intros Hk Hh' Hs' Hu Hc' Hsets [Hh Hs Huids]. split; rewrite ?Hh', ?Hs'; [by apply hosts_ok_insert| |done].
  intros k' i Hi. apply set_ok_insert; [by apply (Hs k')| |]; intros Hd; by apply (Hsets Hd k' i Hi).
Qed.

(** Storing a set whose entries are known keeps the invariant when its UID is its own. *)
Lemma system_store w w' k i :
  hosts w' = hosts w → sets w' = <[k := i]> (sets w) → set_ok (hosts w) i →
  (∀ k' j, k' ≠ k → sets w !! k' = Some j → set_UID j ≠ set_UID i) → system_ok w → system_ok w'.
Proof.
  intros Hh' Hs' Hok Hown [Hh Hs Hu]. split; rewrite ?Hh', ?Hs'; [done|by apply map_Forall_insert_2|].
  intros k1 k2 i1 i2 [[<- <-]|[Hn1 H1]]%lookup_insert_Some [[<- <-]|[Hn2 H2]]%lookup_insert_Some Heq;
    [done|by destruct (Hown k2 i2)|by destruct (Hown k1 i1)|by eapply Hu].
Qed.

Lemma set_ok_kept σ i j :
  self_ref j = self_ref i → set_UID j = set_UID i → entries_kept i j → set_ok σ i → set_ok σ j.
Proof.
  intros Hr Hid He [Hn Hho Hu]. assert (Hname : set_Name j = set_Name i) by (unfold self_ref in Hr; by injection Hr).
  split; rewrite ?Hr, ?Hid, ?Hname; [| |done].
  - intros c st Hst. apply (He c st Hst).
  - intros c st b Hst Hd Hb. destruct (He c st Hst) as [_ [?|[Hsti Hkey]]]; [done|]. rewrite Hkey in Hd, Hb. by eapply Hho.
Qed.

Lemma set_ok_fresh w i : entries_kept (set_with_Hosts None i) i → fresh_uid w i → set_ok (hosts w) i.
Proof.
  intros He [_ Hfr]. split.
  - intros c st Hst. apply (He c st Hst).
  - intros c st b Hst Hd. destruct (He c st Hst) as [_ [?|[Hnone _]]]; [done|]. by rewrite set_Hosts_with_Hosts in Hnone.
  - intros k b Hd Hb Hl. by destruct (Hfr k b Hb Hd).
Qed.

Lemma sys_event_ok w w' : sys_event w w' → system_ok w → system_ok w'.
Proof.
  intros Hev Hok. pose proof Hok as [Hh Hs Hu].
  destruct Hev as [k b b' Hb (Hcons & Huid & Hcomp) Hh' Hs'|k b Hk (Huid & Hcomp & Hno) Hh' Hs'|k b Hk Hd Hh' Hs'|k Hh' Hs'
    |k i Hk Hi Hfr Hh' Hs'|k i j Hi Hr Hid He Hh' Hs'|k Hh' Hs'|Hh' Hs'].
  - eapply (system_write w w' k b'); [|done|done|..|done]; rewrite ?Huid, ?Hcons.
    + intros Hk. destruct k as [ns n]. simpl in Hk. subst n. by rewrite (hk_named _ Hh) in Hb.
    + intros Hd. by apply (hk_uid _ Hh k).
    + intros Hd n. rewrite Hcomp. by apply (hk_compute _ Hh k).
    + intros Hd k' i Hi. split; [|by apply (sk_uid _ _ (Hs k' i Hi) k)]. intros c st Hst Hkey. rewrite Hcomp.
      eapply (sk_host _ _ (Hs k' i Hi)); [done|by rewrite Hkey..].
  - eapply (system_write w w' k b); [done..| | | |done]; rewrite ?Huid.
    + by intros _ [].
    + intros _ n. rewrite Hcomp. by intros [].
    + intros _ k' i Hi. split; [|done]. intros c st Hst Hkey. by destruct (Hno k' i Hi c st Hst).
  - by eapply (system_write w w' k b).
  - assert (Hsub : ∀ k' b, hosts w' !! k' = Some b → hosts w !! k' = Some b)
      by (intros k' b; rewrite Hh'; by intros [_ ?]%lookup_delete_Some).
    split; rewrite ?Hs'; [by eapply hosts_ok_sub| |done]. intros k' i Hi. eapply set_ok_hosts; [done|by apply (Hs k')].
  - eapply (system_store w w' k i); [done|done|by apply set_ok_fresh| |done]. intros k' j _ Hj. by apply (proj1 Hfr k').
  - eapply (system_store w w' k j); [done|done|by eapply set_ok_kept, (Hs k)| |done].
    intros k' j' Hne Hj' Heq. apply Hne. eapply Hu; [done|done|congruence].
  - split; rewrite ?Hh', ?Hs'; [done|by apply map_Forall_delete|].
    intros k1 k2 i1 i2 [_ ?]%lookup_delete_Some [_ ?]%lookup_delete_Some. by apply Hu.
  - split; by rewrite ?Hh', ?Hs'.
Qed.

Lemma sys_steps_ok w w' :
  rtc sys_step w w' → dependable w = true → system_ok w → system_ok w' ∧ dependable w' = true.
Proof.
  induction 1 as [|w1 w2 w3 H1 _ IH]; intros Hd Hok; [done|].
  destruct H1 as [ns n <-|Hd' Hev].
  - destruct (Reconcile_system ns n w1 Hd Hok). by apply IH.
  - apply IH; [done|]. by eapply sys_event_ok.
Qed.

(** Nobody holds a host yet. *)
Record system_fresh (w : W) : Prop := {
  fr_named : map_Forall (λ k _, k.2 ≠ "") (hosts w);
  fr_hosts : map_Forall (λ k b, k ∉ disturbed → bmh_Labels b !! uid_key = None ∧
    ∀ n, bmh_Labels b !! compute_key n = None) (hosts w);
  fr_sets : map_Forall (λ _ i, set_Hosts i = ∅) (sets w);
  fr_uids : ∀ k k' i j, sets w !! k = Some i → sets w !! k' = Some j → set_UID i = set_UID j → k = k';
}.

Lemma system_fresh_ok w : system_fresh w → system_ok w.
Proof.
  intros [Hnm Hh Hs Hu]. split; [|intros k i Hi|done].
  - split.
    + intros ns. destruct (hosts w !! (ns, "")) eqn:Hb; [|done]. by destruct (Hnm _ _ Hb).
    + intros k b Hd Hb. destruct (Hh _ _ Hb Hd) as (-> & _). by intros [].
    + intros k b n Hd Hb. destruct (Hh _ _ Hb Hd) as (_ & ->). by intros [].
  - pose proof (Hs k i Hi) as Hnone. split; rewrite ?Hnone; [done..|].
    intros k' b Hd Hb. destruct (Hh _ _ Hb Hd) as (-> & _). done.
Qed.

End system.

(** ** Properties *)

(** C7: on a cluster where nobody holds a host at first, and whatever the order of
    the reconciliations of the sets and of what Metal3 and the users do in between, a
    host that is not [disturbed] is never held for two computes, be they of one set or of
    two, and the host a status names is consumed by that set. Disturbed are the hosts
    whose consumer or operator's labels a user edits, that are deleted and created again
    while a status names them, or that an edited namespace or a restored status makes a
    set name: they may be shared, the others are safe from what happens to them. Calls
    may be refused, except the deletion of a secret and the patch of the set;
    reconciliations do not overlap with each other or with other events. *)
Theorem hosts_never_shared {W} `{Client W} `{ClientView W} `{!ClientLaws W} `{!HostFrame W}
    `{SetClient W} `{!SetFrame W} `{SystemView W} `{!SystemFrame W} `{!Dependable W} `{LibCommon}
    `{!LibCommonLaws} `{!LabelKeys} `{ConditionLib} `{MapOrder} `{Disturbed} (w w' : W) ki kj i j c d s t b :
  system_fresh w → dependable w = true → rtc sys_step w w' →
  sets w' !! ki = Some i → sets w' !! kj = Some j →
  set_Hosts i !! c = Some s → set_Hosts j !! d = Some t → host_key i (hs_BmhRef s) ∉ disturbed →
  host_key i (hs_BmhRef s) = host_key j (hs_BmhRef t) → hosts w' !! host_key i (hs_BmhRef s) = Some b →
  ki = kj ∧ c = d ∧ bmhs_ConsumerRef (bmh_Spec b) = Some (self_ref i).
Proof.
  intros Hf Hd Hr Hi Hj Hs Ht Hq Hkey Hb.
  destruct (sys_steps_ok w w' Hr Hd (system_fresh_ok w Hf)) as [Hok _].
  destruct (sk_host _ _ (sys_sets w' Hok ki i Hi) c s b Hs Hq Hb) as [Hci Hli]. rewrite Hkey in Hb, Hq.
  destruct (sk_host _ _ (sys_sets w' Hok kj j Hj) d t b Ht Hq Hb) as [Hcj Hlj].
  assert (Hkk : ki = kj).
  { rewrite <-(sets_keyed _ _ _ Hi), <-(sets_keyed _ _ _ Hj). apply self_ref_key. congruence. }
  subst kj. rewrite Hi in Hj. injection Hj as <-. split_and!; [done|congruence|done].
Qed.

Lemma string_tail_ne (s n x y a b : string) :
  String.length a = String.length b → a ≠ b → s +:+ (x +:+ a) ≠ n +:+ (y +:+ b).
Proof. intros Hl Hne. rewrite <-!string_app_assoc. by intros [_ ?]%string_app_tail. Qed.

#[export] Instance mem_label_keys : LabelKeys.
Proof.
  intros n. rewrite !Forall_cons. split_and!; [| | |done].
  - by apply (string_tail_ne (GetGroupLabel ServiceName) n "/ui" "-osbms-hostnam" "d" "e").
  - by apply (string_tail_ne (GetGroupLabel ServiceName) n "/namesp" "-osbms-hostn" "ace" "ame").
  - by apply (string_tail_ne (GetGroupLabel ServiceName) n "" "-osbms-hos" "/name" "tname").
Qed.

(** Two sets and two hosts; each set asks for one compute, of the same name. *)
Definition named_set (name : string) : OpenStackBaremetalSet :=
  set_with_Meta (mem_with_finalizers ["openstack.org/OpenStackBaremetalSet"] (sample_meta "openstack" name ∅))
    (sample_set HardwareReqs_zero {["c0" := sample_instance ∅]} ∅).
Definition named_server (name : string) : OpenStackProvisionServer :=
  ps_with_Status (ps_Status ready_server) (sample_prov "openstack" name 6190).
Definition two_mem : mem :=
  mkMem {[("bmh", "h0") := sample_bmh "h0" ∅; ("bmh", "h1") := sample_bmh "h1" ∅]}
    {[("openstack", "ssh-key") := mkSecret "ssh-key" {["authorized_keys" := "ssh-rsa AAAA"]}]}
    {[("openstack", "a-provisionserver") := named_server "a-provisionserver";
      ("openstack", "b-provisionserver") := named_server "b-provisionserver"]}
    {[("openstack", "a") := named_set "a"; ("openstack", "b") := named_set "b"]} [].
Definition after_a : mem := (Reconcile (W := mem) (H3 := list_order) "openstack" "a" two_mem).2.
(** A user writes another host in between, with the labels of the first set. *)
Definition stray_host : BareMetalHost :=
  sample_bmh "h9" {[uid_key := set_UID (named_set "a"); compute_key "a" := "c0"]}.
Definition disturb (b : BareMetalHost) (w : mem) : mem := mem_with_hosts (<[bmh_key b := b]> (mem_hosts w)) w.
Definition stray_key : Disturbed := ({[("bmh", "h9")]} : gset (string * string)).
Definition after_b : mem := (Reconcile (W := mem) (H3 := list_order) "openstack" "b" (disturb stray_host after_a)).2.

Lemma disturb_hosts b w : hosts (disturb b w) = <[bmh_key b := b]> (hosts w).
Proof. simpl. unfold mem_view_hosts, disturb. simpl. by rewrite map_filter_insert_True. Qed.

Lemma disturb_sets b w : sets (disturb b w) = sets w.
Proof. done. Qed.

Lemma two_mem_fresh : system_fresh (Hdi := stray_key) two_mem.
Proof.
  assert (Hh : hosts two_mem = {[("bmh", "h0") := sample_bmh "h0" ∅; ("bmh", "h1") := sample_bmh "h1" ∅]}) by vm_refl.
  assert (Hs : sets two_mem = {[("openstack", "a") := named_set "a"; ("openstack", "b") := named_set "b"]}) by vm_refl.
  assert (Hl : ∀ n k, bmh_Labels (sample_bmh n ∅) !! k = None) by (intros; apply lookup_empty).
  split; rewrite ?Hh, ?Hs.
  - intros k b [[<- _]|[_ [<- _]%lookup_singleton_Some]]%lookup_insert_Some; by intros [=].
  - intros k b [[<- <-]|[_ [<- <-]%lookup_singleton_Some]]%lookup_insert_Some _; (split; [apply Hl|intros n; apply Hl]).
  - intros k b [[_ <-]|[_ [_ <-]%lookup_singleton_Some]]%lookup_insert_Some; reflexivity.
  - intros k k' i j [[<- <-]|[_ [<- <-]%lookup_singleton_Some]]%lookup_insert_Some
      [[<- <-]|[_ [<- <-]%lookup_singleton_Some]]%lookup_insert_Some Heq; [reflexivity| | |reflexivity];
      by injection Heq.
Qed.

Lemma hosts_never_shared_witness : ∃ i j s t,
  sets after_b !! ("openstack", "a") = Some i ∧ sets after_b !! ("openstack", "b") = Some j ∧
  set_Hosts i !! "c0" = Some s ∧ set_Hosts j !! "c0" = Some t ∧
  host_key i (hs_BmhRef s) ≠ host_key j (hs_BmhRef t).
Proof.
  assert (Ha : is_Some (sets after_b !! ("openstack", "a") ≫= λ i, set_Hosts i !! "c0" ≫= λ s,
    hosts after_b !! host_key i (hs_BmhRef s))) by by_compute.
  assert (Hat : (sets after_b !! ("openstack", "a") ≫= λ i, set_Hosts i !! "c0" ≫= λ s, Some (host_key i (hs_BmhRef s))) =
    Some ("bmh", "h1")) by vm_refl.
  assert (Hb : is_Some (sets after_b !! ("openstack", "b") ≫= λ j, set_Hosts j !! "c0")) by by_compute.
  destruct Ha as [b (i & Hi & (s & Hs & Hh)%bind_Some)%bind_Some], Hb as [t (j & Hj & Ht)%bind_Some].
  assert (Hq : host_key i (hs_BmhRef s) ∉ (stray_key : gset (string * string))).
  { rewrite Hi in Hat. simpl in Hat. rewrite Hs in Hat. simpl in Hat. 
    intros Hin%elem_of_singleton. rewrite Hin in Hat. discriminate Hat. }
  exists i, j, s, t. split_and!; [done..|]. intros Heq.
  destruct (hosts_never_shared (H7 := list_order) (H8 := stray_key) two_mem after_b ("openstack", "a") ("openstack", "b")
    i j "c0" "c0" s t b two_mem_fresh eq_refl) as [[=] _]; [|exact Hi|exact Hj|exact Hs|exact Ht|exact Hq|exact Heq|exact Hh].
  apply rtc_l with after_a; [exact (reconciled two_mem after_a "openstack" "a" eq_refl)|].
  apply rtc_l with (disturb stray_host after_a); [|apply rtc_once].
  - apply happened; [reflexivity|]. apply (host_disturbed _ _ ("bmh", "h9") stray_host).
    + intros [=].
    + change (("bmh", "h9") ∈ ({[("bmh", "h9")]} : gset (string * string))). by apply elem_of_singleton.
    + apply disturb_hosts.
    + apply disturb_sets.
  - exact (reconciled (disturb stray_host after_a) after_b "openstack" "b" eq_refl).
Defined.

(** ** Why disturbed hosts are left out *)

(** A host that a status names is deleted and created again. The set that has it keeps
    its entry, since it looks for the name; a second set finds the new host free and
    takes it: two statuses name it, and one set reports a host that the other consumes. *)
Definition one_mem : mem := mem_with_hosts {[("bmh", "h0") := sample_bmh "h0" ∅]} two_mem.
Definition taken_twice : mem :=
  let reconcile name w := (Reconcile (W := mem) (H3 := list_order) "openstack" name w).2 in
  reconcile "b" (reconcile "a" (disturb (sample_bmh "h0" ∅) (reconcile "a" one_mem))).

Lemma recreated_host_shared :
  let ref name := sets taken_twice !! ("openstack", name) ≫= λ i, set_Hosts i !! "c0" ≫= λ s, Some (hs_BmhRef s) in
  ref "a" = Some "h0" ∧ ref "b" = Some "h0" ∧
  (hosts taken_twice !! ("bmh", "h0") ≫= consumer) = Some (self_ref (named_set "b")).
Proof. split_and!; vm_refl. Qed.

Definition with_bmh_namespace (ns : string) (i : OpenStackBaremetalSet) : OpenStackBaremetalSet :=
  let t := set_Template i in
  let t := mkTemplateSpec (ts_OSImage t) (ts_OSContainerImageURL t) (ts_OSImageDeploymentType t)
    (ts_ApacheImageURL t) (ts_AgentImageURL t) (ts_AutomatedCleaningMode t) (ts_ProvisionServerName t)
    (ts_ProvisonServerNodeSelector t) (ts_ProvisioningInterface t) (ts_DeploymentSSHSecret t)
    (ts_CtlplaneInterface t) (ts_CtlplaneBond t) ns (ts_BmhLabelSelector t) (ts_HardwareReqs t)
    (ts_PasswordSecret t) (ts_CloudUserName t) (ts_DomainName t) in
  let s := set_Spec i in
  mkSet (set_Kind i) (set_Meta i)
    (mkSetSpec (bs_BaremetalHosts s) (bs_CtlplaneGateway s) (bs_CtlplaneVlan s)
       (bs_BootstrapDNS s) (bs_DNSSearchDomains s) t) (set_Status i).

(** The namespace of the hosts is edited: the webhook lets it be while the set holds
    hosts, and the status names hosts without their namespace: when the set is cleaned up it releases the host of that name in
    the new namespace, which another set consumes. *)
Lemma edited_namespace_takes_host :
  let j := with_bmh_namespace "other" ready_set in
  let w := mkMem {[("bmh", "h0") := ready_host "h0" "c0"; ("other", "h0") :=
      mkBmh (sample_meta "other" "h0" ∅) (bmh_Spec other_host) (bmh_Status other_host)]} ∅ ∅ ∅ [] in
  let after := (baremetalHostCleanup (H3 := list_order) (w, j)).2.1 in
  (set_Custom_ValidateUpdate (H1 := list_order) (ObjBaremetalSet ready_set) (ObjBaremetalSet j) w).1 = Ok [] ∧
  (hosts w !! ("other", "h0") ≫= consumer) = Some (mkObjectReference "other" "OpenStackBaremetalSet" "openstack") ∧
  (hosts after !! ("other", "h0") ≫= consumer) = None ∧
  (hosts after !! ("bmh", "h0") ≫= consumer) = Some (self_ref ready_set).
Proof. intros j w after. split_and!; vm_refl. Qed.
