(* ===== verification/Agent.v ===== *)
(** * The agent containers

    [containers/agent/provision_ip_discovery.go]: next to the provision server
    runs an agent that watches the provisioning interface of its node and reports
    its address in the status of the OpenStackProvisionServer.
    [containers/agent/checksum_discovery.go]: a job finds the checksum file of the
    image and reports its name and kind.

    The dynamic client is a parameter; [unstructured.Object] is its metadata and
    the value of its "status" key. [panic] and [glog.Fatalf] both end the process
    and are [Panic]. The endless [for] of the address agent is given by its round
    [agentStep]; the retry loop of the checksum job has fuel, and ends with [None]
    when it is still trying. *)

From S2P Require Import Prelude GoStrings GoNet ApiTypes Samples.

(** ** The code *)

(** [unstructured.Object["status"]]: nil, a map, or a value of another type. The
    agents write strings; the other values of the map are kept as their text. *)
Inductive StatusValue :=
| StatusNil
| StatusMap (m : gmap string string)
| StatusOther.

Record Unstructured := mkUnstructured {
  un_Meta : ObjectMeta;
  un_Status : StatusValue;
}.

(** [dClient.Resource(openstackProvisionServerGVR)]: reads of the status
    subresource and writes to it, by namespace and name. *)
Class DynamicClient (W : Type) := {
  dyn_Get : string → string → st W Unstructured;
  dyn_UpdateStatus : string → Unstructured → st W unit;
}.

Definition Fatalf {A} (msg : string) : outcome A := Panic msg.

(** [os.LookupEnv] is the argument. *)
Definition getEnvOrFail (LookupEnv : string → option string) (envVar defaultValue : string) :
    outcome string :=
  if String.eqb defaultValue "" then
    match LookupEnv envVar with
    | None => Fatalf (envVar +:+ " is required")
    | Some val => if String.eqb val "" then Fatalf (envVar +:+ " is required") else Ok val
    end
  else Ok defaultValue.

(** The options of the two agents once they have started. *)
Record provisionIPOpts := mkProvisionIPOpts {
  pio_provIntf : string;
  pio_provServerName : string;
  pio_provServerNamespace : string;
}.

Definition provisionIPStart (LookupEnv : string → option string) (flags : provisionIPOpts) :
    outcome provisionIPOpts :=
  let? provIntf := getEnvOrFail LookupEnv "PROV_INTF" (pio_provIntf flags) in
  let? provServerName := getEnvOrFail LookupEnv "PROV_SERVER_NAME" (pio_provServerName flags) in
  let? provServerNamespace :=
    getEnvOrFail LookupEnv "PROV_SERVER_NAMESPACE" (pio_provServerNamespace flags) in
  Ok (mkProvisionIPOpts provIntf provServerName provServerNamespace).

(** A [net.Interface]: its name and what [Addrs] returns, as text. *)
Record Interface := mkInterface {
  if_Name : string;
  if_Addrs : outcome (list string);
}.

(** The last IPv4 and the last IPv6 address of an interface. *)
Definition interfaceAddrs (addrs : list string) : string * string :=
  foldl (λ '(ipv4Addr, ipv6Addr) addr,
    match ParseCIDR addr with
    | Ok (ipObj, _) =>
        match To4 ipObj with
        | Some _ => (IP_String ipObj, ipv6Addr)
        | None => (ipv4Addr, IP_String ipObj)
        end
    | _ => (ipv4Addr, ipv6Addr)
    end) ("", "") addrs.

Fixpoint getInterfaceIP_loop (ifaces : list Interface) (interfaceName : string) (intfFound : bool) :
    outcome (string * bool) :=
  match ifaces with
  | [] => Ok ("", intfFound)
  | iface :: ifaces' =>
      if String.eqb (if_Name iface) interfaceName then
        match if_Addrs iface with
        | Err e => Panic (err_text e)
        | Panic m => Panic m
        | Ok addrs =>
            let '(ipv4Addr, ipv6Addr) := interfaceAddrs addrs in
            if negb (String.eqb ipv4Addr "") then Ok (ipv4Addr, true)
            else if negb (String.eqb ipv6Addr "") then Ok (ipv6Addr, true)
            else getInterfaceIP_loop ifaces' interfaceName true
        end
      else getInterfaceIP_loop ifaces' interfaceName intfFound
  end.

(** [net.Interfaces()] is the argument. *)
Definition getInterfaceIP (Interfaces : outcome (list Interface)) (interfaceName : string) :
    outcome (string * bool) :=
  match Interfaces with
  | Ok ifaces => getInterfaceIP_loop ifaces interfaceName false
  | Err e => Panic (err_text e)
  | Panic m => Panic m
  end.

(** [status := unstructured.Object["status"].(map[string]any)], made when nil. *)
Definition status_map (u : Unstructured) : outcome (gmap string string) :=
  match un_Status u with
  | StatusNil => Ok ∅
  | StatusMap m => Ok m
  | StatusOther => Panic "interface conversion: interface {} is not map[string]interface {}"
  end.

Definition provisionIPErrMsg (provIntf : string) (intfFound : bool) : string :=
  if intfFound then "Unable to find provisioning IP on interface " +:+ provIntf
  else "Unable to find provisioning interface " +:+ provIntf.

Definition updateProvisioningStatus {W} `{DynamicClient W} (opts : provisionIPOpts) (curIP : string)
    (intfFound : bool) : st W unit :=
  let! r := st_try (dyn_Get (pio_provServerNamespace opts) (pio_provServerName opts)) in
  match r with
  | inr err => if err_is_not_found err then st_ret tt else st_err err
  | inl unstructured =>
      let! status := st_lift (status_map unstructured) in
      let status :=
        if String.eqb curIP "" then
          <["provisionIpError" := provisionIPErrMsg (pio_provIntf opts) intfFound]>
            (<["provisionIp" := ""]> status)
        else <["provisionIpError" := ""]> (<["provisionIp" := curIP]> status) in
      dyn_UpdateStatus (pio_provServerNamespace opts)
        (mkUnstructured (un_Meta unstructured) (StatusMap status))
  end.

(** One round of the loop: [ip] before it, [ip] after it. *)
Definition agentStep {W} `{DynamicClient W} (opts : provisionIPOpts)
    (Interfaces : outcome (list Interface)) (ip : string) : st W string :=
  let! cur := st_lift (getInterfaceIP Interfaces (pio_provIntf opts)) in
  let '(curIP, intfFound) := cur in
  if String.eqb curIP "" || negb (String.eqb curIP ip) then
    let! r := st_try (updateProvisioningStatus opts curIP intfFound) in
    match r with
    | inr _ => st_ret ""
    | inl _ => st_ret curIP
    end
  else st_ret ip.

(** The loop over what the interfaces are in each round. *)
Fixpoint agentRounds {W} `{DynamicClient W} (opts : provisionIPOpts)
    (rounds : list (outcome (list Interface))) (ip : string) : st W string :=
  match rounds with
  | [] => st_ret ip
  | interfaces :: rounds' =>
      let! ip := agentStep opts interfaces ip in
      agentRounds opts rounds' ip
  end.

(** *** The client configuration *)

(** [clientcmd.BuildConfigFromFlags], [rest.InClusterConfig] and
    [dynamic.NewForConfigOrDie], which panics. *)
Class KubeConfig := {
  RestConfig : Type;
  BuildConfigFromFlags : string → string → outcome RestConfig;
  InClusterConfig : outcome RestConfig;
  NewForConfigOrDie : RestConfig → outcome unit;
}.

(** [os.Getenv(key)] by [os.LookupEnv]. *)
Definition Getenv (LookupEnv : string → option string) (key : string) : string := default "" (LookupEnv key).

Definition getKubeConfig `{KubeConfig} (LookupEnv : string → option string) : outcome RestConfig :=
  let kubeconfig := Getenv LookupEnv "KUBECONFIG" in
  if negb (String.eqb kubeconfig "") then BuildConfigFromFlags "" kubeconfig else InClusterConfig.

(** [if err != nil { panic(err.Error()) }] *)
Definition panic_on_error {A} (o : outcome A) : outcome A :=
  match o with Err err => Panic (err_text err) | _ => o end.

Definition dynamicClient `{KubeConfig} (LookupEnv : string → option string) : outcome unit :=
  let? config := panic_on_error (getKubeConfig LookupEnv) in
  NewForConfigOrDie config.

(** The address agent, for a number of rounds of its endless loop. *)
Definition runProvisionIPStartCmd {W} `{DynamicClient W} `{KubeConfig} (LookupEnv : string → option string)
    (flags : provisionIPOpts) (rounds : list (outcome (list Interface))) : st W string :=
  let! opts := st_lift (provisionIPStart LookupEnv flags) in
  do! st_lift (dynamicClient LookupEnv) then
  agentRounds opts rounds "".

(** *** The checksum job *)

Definition checksumKind (item : string) : option string :=
  if Contains item "md5" then Some MD5
  else if Contains item "sha256" then Some SHA256
  else if Contains item "sha512" then Some SHA512
  else None.

Fixpoint findChecksum (items : list string) : option (string * string) :=
  match items with
  | [] => None
  | item :: items' =>
      match checksumKind item with
      | Some checksumType => Some (item, checksumType)
      | None => findChecksum items'
      end
  end.

Record checksumOpts := mkChecksumOpts {
  co_osImageDir : string;
  co_provServerName : string;
  co_provServerNamespace : string;
}.

Definition env_or_fatal (LookupEnv : string → option string) (envVar flag value : string) : outcome string :=
  if String.eqb value "" then
    match LookupEnv envVar with
    | None => Fatalf (flag +:+ " is required")
    | Some v => if String.eqb v "" then Fatalf (flag +:+ " is required") else Ok v
    end
  else Ok value.

Definition checksumStart (LookupEnv : string → option string) (flags : checksumOpts) :
    outcome checksumOpts :=
  let? dir := env_or_fatal LookupEnv "OS_IMAGE_DIR" "os-image-dir" (co_osImageDir flags) in
  let? name := env_or_fatal LookupEnv "PROV_SERVER_NAME" "prov-server-name" (co_provServerName flags) in
  let? ns := env_or_fatal LookupEnv "PROV_SERVER_NAMESPACE" "prov-server-namespace"
    (co_provServerNamespace flags) in
  Ok (mkChecksumOpts dir name ns).

(** One round of the retry loop: is it over? *)
Definition checksumAttempt {W} `{DynamicClient W} (opts : checksumOpts)
    (checksumFileName checksumType : string) : st W bool :=
  let! r := st_try (dyn_Get (co_provServerNamespace opts) (co_provServerName opts)) in
  match r with
  | inr err => if err_is_not_found err then st_ret true else st_panic (err_text err)
  | inl unstructured =>
      let! status := st_lift (status_map unstructured) in
      let status := <["osImageChecksumType" := checksumType]>
        (<["osImageChecksumFilename" := checksumFileName]> status) in
      let! r := st_try (dyn_UpdateStatus (co_provServerNamespace opts)
        (mkUnstructured (un_Meta unstructured) (StatusMap status))) in
      match r with
      | inr _ => st_ret false
      | inl _ => st_ret true
      end
  end.

Fixpoint checksumLoop {W} `{DynamicClient W} (fuel : nat) (opts : checksumOpts)
    (checksumFileName checksumType : string) : st W (option unit) :=
  match fuel with
  | O => st_ret None
  | S fuel' =>
      let! stop := checksumAttempt opts checksumFileName checksumType in
      if stop then st_ret (Some tt) else checksumLoop fuel' opts checksumFileName checksumType
  end.

Definition ErrOSImageNotFound : string := "could not find any OSImage checksum file".

(** The job; [os.Open] and [Readdirnames] of the image directory are the argument. *)
Definition runChecksumStartCmd {W} `{DynamicClient W} `{KubeConfig} (fuel : nat) (LookupEnv : string → option string)
    (Readdirnames : string → outcome (list string)) (flags : checksumOpts) : st W (option unit) :=
  let! opts := st_lift (checksumStart LookupEnv flags) in
  do! st_lift (dynamicClient LookupEnv) then
  match Readdirnames (co_osImageDir opts) with
  | Err e => st_panic (err_text e)
  | Panic m => st_panic m
  | Ok items =>
      match findChecksum items with
      | None => st_panic (ErrOSImageNotFound +:+ " in " +:+ co_osImageDir opts)
      | Some (checksumFileName, checksumType) =>
          checksumLoop fuel opts checksumFileName checksumType
      end
  end.

(** ** Documented behaviour of the dynamic client *)

Class DynamicView (W : Type) := servers : W → gmap (string * string) Unstructured.

(** A read leaves the servers as they are, and so does a refused write; a write
    that succeeds stores the object. *)
Class DynamicLaws (W : Type) `{DynamicClient W} `{DynamicView W} : Prop := {
  servers_keyed : ∀ w ns n u, servers w !! (ns, n) = Some u → om_Name (un_Meta u) = n;
  dyn_Get_ok : ∀ ns n w u w', dyn_Get ns n w = (Ok u, w') →
    servers w' = servers w ∧ servers w !! (ns, n) = Some u;
  dyn_Get_err : ∀ ns n w e w', dyn_Get ns n w = (Err e, w') →
    servers w' = servers w ∧ (err_is_not_found e = true → servers w !! (ns, n) = None);
  dyn_UpdateStatus_ok : ∀ ns u w w', dyn_UpdateStatus ns u w = (Ok tt, w') →
    servers w' = <[(ns, om_Name (un_Meta u)) := u]> (servers w);
  dyn_UpdateStatus_err : ∀ ns u w e w', dyn_UpdateStatus ns u w = (Err e, w') → servers w' = servers w;
}.

(** A cluster of servers that refuses a number of writes. *)
Record dyn_mem := mkDynMem {
  dm_servers : gmap (string * string) Unstructured;
  dm_refused : nat;
}.

#[export] Instance dyn_mem_client : DynamicClient dyn_mem := {
  dyn_Get ns n := λ w,
    match dm_servers w !! (ns, n) with
    | Some u => if decide (om_Name (un_Meta u) = n) then (Ok u, w) else (Err (mkError true n), w)
    | None => (Err (mkError true n), w)
    end;
  dyn_UpdateStatus ns u := λ w,
    match dm_refused w with
    | O => (Ok tt, mkDynMem (<[(ns, om_Name (un_Meta u)) := u]> (dm_servers w)) 0)
    | S k => (Err (Errorf "the object has been modified"), mkDynMem (dm_servers w) k)
    end;
}.

#[export] Instance dyn_mem_view : DynamicView dyn_mem := λ w,
  filter (λ ku : (string * string) * Unstructured, om_Name (un_Meta ku.2) = ku.1.2) (dm_servers w).

#[export] Instance dyn_mem_laws : DynamicLaws dyn_mem.
Proof.
  constructor; unfold servers, dyn_mem_view.
  - intros w ns n u [_ Hn]%map_lookup_filter_Some. done.
  - intros ns n w u w'. simpl. destruct (dm_servers w !! (ns, n)) as [v|] eqn:Hv; [|done].
    case_decide as Hn; [|done]. intros [= -> ->]. split; [done|]. by apply map_lookup_filter_Some.
  - intros ns n w e w'. simpl. destruct (dm_servers w !! (ns, n)) as [v|] eqn:Hv.
    + case_decide as Hn; [done|]. intros [= _ ->]. split; [done|]. intros _.
      apply map_lookup_filter_None. right. intros u Hu. simpl. by rewrite Hv in Hu; simplify_eq.
    + intros [= _ ->]. split; [done|]. intros _. apply map_lookup_filter_None. by left.
  - intros ns u w w'. simpl. destruct (dm_refused w); [|done]. intros [= <-]. simpl.
    by rewrite map_filter_insert_True.
  - intros ns u w e w'. simpl. destruct (dm_refused w); [done|]. by intros [= _ <-].
Qed.

(** ** Lemmas *)

Lemma interfaceAddrs_app l1 l2 :
  interfaceAddrs (l1 ++ l2) = foldl (λ '(ipv4Addr, ipv6Addr) addr,
    match ParseCIDR addr with
    | Ok (ipObj, _) =>
        match To4 ipObj with
        | Some _ => (IP_String ipObj, ipv6Addr)
        | None => (ipv4Addr, IP_String ipObj)
        end
    | _ => (ipv4Addr, ipv6Addr)
    end) (interfaceAddrs l1) l2.
Proof. apply foldl_app. Qed.

Definition not_ipv4 (addr : string) : Prop :=
  match ParseCIDR addr with
  | Ok (ip, _) => To4 ip = None
  | _ => True
  end.

(** Addresses that are not IPv4 leave the IPv4 address found so far. *)
Lemma interfaceAddrs_not_ipv4 l1 l2 :
  Forall not_ipv4 l2 → (interfaceAddrs (l1 ++ l2)).1 = (interfaceAddrs l1).1.
Proof.
  rewrite interfaceAddrs_app. generalize (interfaceAddrs l1) as acc.
  intros acc Hl. revert acc. induction Hl as [|addr l Ha _ IH]; intros [v4 v6]; simpl; [done|].
  unfold not_ipv4 in Ha. destruct (ParseCIDR addr) as [[ip mask]|e|m]; [|by rewrite IH..].
  rewrite Ha. by rewrite IH.
Qed.

Lemma print_ipv4_ne a b c d : print_ipv4 a b c d ≠ "".
Proof.
  intros Heq. apply (f_equal chars) in Heq. change (dotted a b c d = []) in Heq.
  rewrite dotted_eq in Heq. by destruct (chars (pretty a)).
Qed.

Section agent.
Context {W : Type} `{Hd : DynamicClient W} `{Hv : DynamicView W} `{Hl : !DynamicLaws W}.
Context (opts : provisionIPOpts).

Definition server_key : string * string := (pio_provServerNamespace opts, pio_provServerName opts).

(** What the server's status says about the provisioning address. *)
Definition status_says (w : W) (ip err : string) : Prop :=
  ∃ u m, servers w !! server_key = Some u ∧ un_Status u = StatusMap m ∧
    m !! "provisionIp" = Some ip ∧ m !! "provisionIpError" = Some err.

(** An update that reports no error has written the address, or found no server. *)
Lemma updateProvisioningStatus_ok curIP found (w w' : W) :
  updateProvisioningStatus opts curIP found w = (Ok tt, w') →
  servers w' !! server_key = None ∧ servers w' = servers w ∨
  status_says w' curIP (if String.eqb curIP "" then provisionIPErrMsg (pio_provIntf opts) found else "").
Proof.
  unfold updateProvisioningStatus, st_try, st_bind, st_lift.
  destruct (dyn_Get _ _ w) as [[u|e|m] w1] eqn:Hg; [| |done].
  - apply dyn_Get_ok in Hg as [Hs Hu]. destruct (status_map u) as [m| |]; [|done..].
    intros Hup%dyn_UpdateStatus_ok. right. simpl in Hup. pose proof (servers_keyed _ _ _ _ Hu) as Hn.
    rewrite Hn in Hup. unfold status_says, server_key. rewrite Hup. eexists _, _.
    split; [apply lookup_insert_eq|]. split; [reflexivity|].
    destruct (String.eqb_spec curIP "") as [->|]; by simplify_map_eq.
  - apply dyn_Get_err in Hg as [Hs Hn]. destruct (err_is_not_found e) eqn:He; [|done].
    intros [= <-]. left. rewrite Hs. auto.
Qed.

Lemma updateProvisioningStatus_err curIP found (w w' : W) e :
  updateProvisioningStatus opts curIP found w = (Err e, w') → servers w' = servers w.
Proof.
  unfold updateProvisioningStatus, st_try, st_bind, st_lift.
  destruct (dyn_Get _ _ w) as [[u|e'|m] w1] eqn:Hg; [| |done].
  - apply dyn_Get_ok in Hg as [Hs _].
    destruct (status_map u) as [m|e'|m'] eqn:Hm; [| |done].
    + intros Hup%dyn_UpdateStatus_err. congruence.
    + unfold status_map in Hm. by destruct (un_Status u).
  - apply dyn_Get_err in Hg as [Hs _]. destruct (err_is_not_found e'); [done|]. intros [= _ <-]. done.
Qed.

(** What the agent remembers is what the status says, as long as there is one. *)
Definition agent_inv (ip : string) (w : W) : Prop :=
  ip ≠ "" → servers w !! server_key = None ∨ status_says w ip "".

Lemma agentStep_inv interfaces ip w ip' w' :
  agentStep opts interfaces ip w = (Ok ip', w') → agent_inv ip w → agent_inv ip' w'.
Proof.
  unfold agentStep, st_bind, st_lift. destruct (getInterfaceIP _ _) as [[curIP found]| |]; [|done..].
  destruct (String.eqb_spec curIP "" ) as [->|Hne]; simpl.
  - unfold st_try. destruct (updateProvisioningStatus _ _ _ _) as [[[]|e|m] w1]; [..|done];
      intros [= <- _] _ Hip; by destruct Hip.
  - destruct (String.eqb_spec curIP ip) as [->|Hip]; simpl; [by intros [= <- <-]|].
    unfold st_try. destruct (updateProvisioningStatus opts curIP found w) as [[[]|e|m] w1] eqn:Hu; [..|done].
    + apply updateProvisioningStatus_ok in Hu. intros [= <- <-] _ _.
      rewrite (proj2 (String.eqb_neq _ _) Hne) in Hu. naive_solver.
    + intros [= <- _] _ Hx. by destruct Hx.
Qed.

End agent.

(** One round with the address remembered makes no call. *)
Lemma agentStep_idle {W} `{DynamicClient W} opts interfaces curIP found (w : W) :
  getInterfaceIP interfaces (pio_provIntf opts) = Ok (curIP, found) → curIP ≠ "" →
  agentStep opts interfaces curIP w = (Ok curIP, w).
Proof.
  intros Hg Hne. unfold agentStep, st_bind, st_lift. rewrite Hg.
  by rewrite (proj2 (String.eqb_neq _ _) Hne), String.eqb_refl.
Qed.

Lemma findChecksum_none items :
  findChecksum items = None ↔ Forall (λ i, checksumKind i = None) items.
Proof.
  induction items as [|i items IH]; simpl; [split; [constructor|done]|].
  rewrite Forall_cons, <-IH. destruct (checksumKind i); naive_solver.
Qed.

Lemma findChecksum_app pre items :
  Forall (λ i, checksumKind i = None) pre → findChecksum (pre ++ items) = findChecksum items.
Proof. induction 1 as [|i pre Hi _ IH]; simpl; [done|]. by rewrite Hi. Qed.

(** ** Properties *)

(** The address reported for an interface is its last IPv4 address, printed
    as it was written, whatever other addresses it has; interfaces of other names
    do not matter. *)
Theorem getInterfaceIP_ipv4 pre post name addrs l1 l2 a b c d n :
  Forall (λ i, if_Name i ≠ name) pre → addrs = l1 ++ (print_ipv4 a b c d +:+ "/" +:+ pretty n) :: l2 →
  octets a b c d → (0 ≤ n ≤ 32)%Z → Forall not_ipv4 l2 →
  getInterfaceIP (Ok (pre ++ mkInterface name (Ok addrs) :: post)) name = Ok (print_ipv4 a b c d, true).
Proof.
  intros Hpre -> Ho Hn Hl2. cut (∀ found, getInterfaceIP_loop
    (pre ++ mkInterface name (Ok (l1 ++ (print_ipv4 a b c d +:+ "/" +:+ pretty n) :: l2)) :: post) name found =
    Ok (print_ipv4 a b c d, true)); [by intros Hg; apply Hg|].
  induction Hpre as [|i pre Hi _ IH]; intros found; cbn [app getInterfaceIP_loop if_Name if_Addrs].
  - rewrite String.eqb_refl.
    destruct (interfaceAddrs _) as [v4 v6] eqn:Hv.
    assert (Hv4 : v4 = print_ipv4 a b c d).
    { change (v4 = print_ipv4 a b c d) with ((v4, v6).1 = print_ipv4 a b c d). rewrite <-Hv.
      rewrite cons_middle, app_assoc, interfaceAddrs_not_ipv4 by done.
      rewrite interfaceAddrs_app. cbn [foldl]. destruct (interfaceAddrs l1).
      rewrite (ParseCIDR_dotted a b c d n Ho Hn), (To4_mapped [a; b; c; d]) by done.
      apply IP_String_mapped. }
    subst v4. by rewrite (proj2 (String.eqb_neq _ _) (print_ipv4_ne a b c d)).
  - by rewrite (proj2 (String.eqb_neq _ _) Hi).
Qed.

Lemma getInterfaceIP_ipv4_witness :
  getInterfaceIP (Ok [mkInterface "lo" (Ok ["127.0.0.1/8"]);
    mkInterface "eno1" (Ok ["fe80::1/64"; "172.22.0.3/24"; "fd00::3/64"])]) "eno1" = Ok ("172.22.0.3", true).
Proof.
  apply (getInterfaceIP_ipv4 [mkInterface "lo" (Ok ["127.0.0.1/8"])] [] "eno1"
    ["fe80::1/64"; "172.22.0.3/24"; "fd00::3/64"] ["fe80::1/64"] ["fd00::3/64"] 172 22 0 3 24).
  - by_compute.
  - vm_compute. reflexivity.
  - unfold octets. lia.
  - lia.
  - constructor; [vm_compute; reflexivity|constructor].
Defined.

(** However often the agent has gone round, with whatever addresses and
    whatever failures of the cluster, an address it remembers is the one the
    server's status gives, without an error, or there is no such server. *)
Theorem agent_status_in_step {W} `{DynamicClient W} `{DynamicView W} `{!DynamicLaws W} opts rounds
    ip (w w' : W) :
  agentRounds opts rounds "" w = (Ok ip, w') → ip ≠ "" →
  servers w' !! server_key opts = None ∨ status_says opts w' ip "".
Proof.
  intros Hr Hip. cut (agent_inv opts ip w'); [by intros Hi; apply Hi|].
  assert (Hi : agent_inv opts "" w) by (intros ?; done).
  revert Hr Hi. generalize "" as ip0. revert w.
  induction rounds as [|interfaces rounds IH]; intros w ip0; simpl.
  { by intros [= <- <-]. }
  intros (ip1 & w1 & Hs & Hr)%st_bind_ok Hi. apply (IH _ _ Hr). by eapply agentStep_inv.
Qed.

Definition sample_opts : provisionIPOpts := mkProvisionIPOpts "eno1" "ps" "openstack".
Definition sample_servers (refused : nat) : dyn_mem :=
  mkDynMem {[("openstack", "ps") := mkUnstructured (sample_meta "openstack" "ps" ∅) StatusNil]} refused.
Definition sample_rounds : list (outcome (list Interface)) :=
  [Ok []; Ok [mkInterface "eno1" (Ok ["172.22.0.3/24"])]; Ok [mkInterface "eno1" (Ok ["172.22.0.4/24"])]].

Lemma agent_status_in_step_witness :
  let run := agentRounds sample_opts sample_rounds "" (sample_servers 1) in
  servers run.2 !! server_key sample_opts = None ∨ status_says sample_opts run.2 "172.22.0.4" "".
Proof.
  intros run. apply (agent_status_in_step sample_opts sample_rounds "172.22.0.4" (sample_servers 1) run.2).
  - vm_refl.
  - discriminate.
Defined.

(** An agent that finds no server takes its address for reported. If the
    server is created again, then as long as the address stays, the agent never
    writes it, whatever is in the cluster. *)
Theorem agent_misses_recreated_server {W} `{DynamicClient W} opts interfaces curIP found ip e (w w' : W) n :
  getInterfaceIP interfaces (pio_provIntf opts) = Ok (curIP, found) → curIP ≠ "" → curIP ≠ ip →
  dyn_Get (pio_provServerNamespace opts) (pio_provServerName opts) w = (Err e, w') →
  err_is_not_found e = true →
  agentStep opts interfaces ip w = (Ok curIP, w') ∧
  ∀ w2 : W, agentRounds opts (replicate n interfaces) curIP w2 = (Ok curIP, w2).
Proof.
  intros Hg Hne Hip Hget He. split.
  - unfold agentStep, st_bind, st_lift, st_try, updateProvisioningStatus. rewrite Hg.
    rewrite (proj2 (String.eqb_neq _ _) Hne), (proj2 (String.eqb_neq _ _) Hip). simpl.
    unfold st_bind, st_try. by rewrite Hget, He.
  - intros w2. induction n as [|n IH]; simpl; [done|].
    unfold st_bind. by rewrite (agentStep_idle _ _ _ _ _ Hg Hne).
Qed.

Lemma agent_misses_recreated_server_witness :
  let interfaces := Ok [mkInterface "eno1" (Ok ["172.22.0.3/24"])] in
  agentStep sample_opts interfaces "" (mkDynMem ∅ 0) = (Ok "172.22.0.3", mkDynMem ∅ 0) ∧
  agentRounds sample_opts (replicate 3 interfaces) "172.22.0.3" (sample_servers 0) =
    (Ok "172.22.0.3", sample_servers 0).
Proof.
  intros interfaces.
  destruct (agent_misses_recreated_server sample_opts interfaces "172.22.0.3" true "" (mkError true "ps")
    (mkDynMem ∅ 0) (mkDynMem ∅ 0) 3) as [Hs Hr].
  - vm_refl.
  - discriminate.
  - discriminate.
  - vm_refl.
  - vm_refl.
  - split; [exact Hs|exact (Hr (sample_servers 0))].
Defined.

(** The checksum file is the first directory entry whose name contains md5,
    sha256 or sha512, looked for in that order; the job reports no other. *)
Theorem findChecksum_correct items f t :
  findChecksum items = Some (f, t) ↔
  ∃ pre post, items = pre ++ f :: post ∧
    Forall (λ i, ∀ s, s ∈ ["md5"; "sha256"; "sha512"] → Contains i s = false) pre ∧
    (t = MD5 ∧ Contains f "md5" = true ∨
     t = SHA256 ∧ Contains f "md5" = false ∧ Contains f "sha256" = true ∨
     t = SHA512 ∧ Contains f "md5" = false ∧ Contains f "sha256" = false ∧ Contains f "sha512" = true).
Proof.
  assert (Hk : ∀ i, checksumKind i = None ↔ ∀ s, s ∈ ["md5"; "sha256"; "sha512"] → Contains i s = false).
  { intros i. unfold checksumKind. setoid_rewrite elem_of_cons. setoid_rewrite elem_of_cons.
    setoid_rewrite list_elem_of_singleton.
    destruct (Contains i "md5") eqn:?, (Contains i "sha256") eqn:?, (Contains i "sha512") eqn:?;
      split; try done; intros Hs; try (by intros s [-> | [-> | ->]]);
      exfalso; pose proof (Hs "md5"); pose proof (Hs "sha256"); pose proof (Hs "sha512");
      intuition congruence. }
  assert (Hkf : checksumKind f = Some t ↔
    t = MD5 ∧ Contains f "md5" = true ∨
    t = SHA256 ∧ Contains f "md5" = false ∧ Contains f "sha256" = true ∨
    t = SHA512 ∧ Contains f "md5" = false ∧ Contains f "sha256" = false ∧ Contains f "sha512" = true).
  { unfold checksumKind. destruct (Contains f "md5"), (Contains f "sha256"), (Contains f "sha512");
      naive_solver. }
  setoid_rewrite <-Hkf. setoid_rewrite <-Hk. split.
  - induction items as [|i items IH]; simpl; [done|].
    destruct (checksumKind i) as [t'|] eqn:Hi.
    + intros [= -> ->]. by exists [], items.
    + intros (pre & post & -> & ? & ?)%IH. exists (i :: pre), post. split_and!; [done|by constructor|done].
  - intros (pre & post & -> & Hpre & Hf). rewrite findChecksum_app by done. simpl. by rewrite Hf.
Qed.

(** The job that reports the checksum ends as soon as one of its writes is
    accepted or the server is gone: after any number [k] of refused writes, with
    any fuel above [k]; its status then names the file and its kind, if there is
    still a server. *)
Theorem checksumLoop_ends {W} `{DynamicClient W} `{DynamicView W} `{!DynamicLaws W} opts file kind k fuel
    (w wk w' : W) :
  nsteps (λ w1 w2, checksumAttempt opts file kind w1 = (Ok false, w2)) k w wk →
  checksumAttempt opts file kind wk = (Ok true, w') → k < fuel →
  checksumLoop fuel opts file kind w = (Ok (Some tt), w') ∧
  (servers w' !! (co_provServerNamespace opts, co_provServerName opts) = None ∨
   ∃ u m, servers w' !! (co_provServerNamespace opts, co_provServerName opts) = Some u ∧
     un_Status u = StatusMap m ∧ m !! "osImageChecksumFilename" = Some file ∧
     m !! "osImageChecksumType" = Some kind).
Proof.
  intros Hk Hlast Hfuel. split.
  - revert fuel Hfuel. induction Hk as [w|k w w1 wk Hw _ IH]; intros [|fuel] Hfuel; try lia; simpl;
      unfold st_bind; [by rewrite Hlast|]. rewrite Hw. apply IH; [done|lia].
  - clear Hk. revert Hlast. unfold checksumAttempt, st_bind, st_try, st_lift.
    destruct (dyn_Get _ _ wk) as [[u|e|m] w1] eqn:Hg; [| |done].
    + apply dyn_Get_ok in Hg as [_ Hu]. destruct (status_map u) as [m|e|m]; [|done..].
      set (u' := mkUnstructured _ _). destruct (dyn_UpdateStatus _ u' w1) as [[[]|e|m'] w2] eqn:Hup; [|done..].
      intros [= <-]. right. apply dyn_UpdateStatus_ok in Hup. simpl in Hup.
      rewrite (servers_keyed _ _ _ _ Hu) in Hup. rewrite Hup. exists u'. eexists.
      split; [apply lookup_insert_eq|]. split; [reflexivity|]. by split; simplify_map_eq.
    + apply dyn_Get_err in Hg as [Hs Hn]. destruct (err_is_not_found e); [|done].
      intros [= <-]. left. rewrite Hs. auto.
Qed.

Definition sample_checksum_opts : checksumOpts := mkChecksumOpts "/images" "ps" "openstack".

Lemma checksumLoop_ends_witness :
  let file := "edpm-hardened-uefi.qcow2.sha256" in
  let last := checksumAttempt sample_checksum_opts file SHA256 (sample_servers 0) in
  checksumLoop 3 sample_checksum_opts file SHA256 (sample_servers 2) = (Ok (Some tt), last.2).
Proof.
  intros file last.
  apply (checksumLoop_ends sample_checksum_opts file SHA256 2 3 (sample_servers 2) (sample_servers 0) last.2).
  - apply nsteps_l with (sample_servers 1); [vm_refl|]. apply nsteps_once. vm_refl.
  - vm_refl.
  - lia.
Defined.
