(* ===== verification/ProvWorkloads.v ===== *)
(** * The workloads of a provision server

    [internal/openstackprovisionserver]: the Deployment that serves the image
    (deployment.go), the job that finds its checksum (job.go), their init
    container (initcontainer.go) and volumes (volumes.go), as the fields the
    operator sets of the Kubernetes objects.

    [*instance.Spec.OSImageDir] is dereferenced without a check: a nil pointer is
    a panic of the function that builds the object. *)

From S2P Require Import Prelude ApiTypes Samples.
#[local] Open Scope Z_scope.

(** ** Kubernetes objects, as far as the operator sets them *)

Record EnvVar := mkEnvVar { ev_Name : string; ev_Value : string }.

Record Probe := mkProbe {
  pb_TimeoutSeconds : Z;
  pb_PeriodSeconds : Z;
  pb_FailureThreshold : Z;
  pb_InitialDelaySeconds : Z;
  pb_HTTPGet_Path : string;
  pb_HTTPGet_Port : Z;
}.

Record VolumeMount := mkVolumeMount {
  vm_Name : string;
  vm_MountPath : string;
  vm_SubPath : string;
  vm_ReadOnly : bool;
}.

Inductive VolumeSource :=
| EmptyDir
| ConfigMapVolume (name : string).

Record Volume := mkVolume { vol_Name : string; vol_Source : VolumeSource }.

Record Container := mkContainer {
  ct_Name : string;
  ct_Command : list string;
  ct_Args : list string;
  ct_Image : string;
  ct_ImagePullPolicy : string;
  ct_Privileged : option bool;
  ct_VolumeMounts : list VolumeMount;
  ct_Resources : ResourceRequirements;
  ct_StartupProbe : option Probe;
  ct_ReadinessProbe : option Probe;
  ct_LivenessProbe : option Probe;
  ct_Env : list EnvVar;
}.

(** A required pod anti-affinity term: label "key" in "values", in the
    namespaces, per topology key. *)
Record AntiAffinityTerm := mkAntiAffinityTerm {
  aa_Key : string;
  aa_Values : list string;
  aa_Namespaces : list string;
  aa_TopologyKey : string;
}.

Record PodSpec := mkPodSpec {
  pod_ServiceAccountName : string;
  pod_HostNetwork : bool;
  pod_RestartPolicy : string;
  pod_Containers : list Container;
  pod_InitContainers : list Container;
  pod_Volumes : list Volume;
  pod_AntiAffinity : list AntiAffinityTerm;
  pod_NodeSelector : gmap string string;
}.

Record DeploymentObj := mkDeployment {
  dp_Name : string;
  dp_Namespace : string;
  dp_Selector : gmap string string;
  dp_Strategy : string;
  dp_Replicas : Z;
  dp_PodLabels : gmap string string;
  dp_PodSpec : PodSpec;
}.

Record JobObj := mkJob {
  jb_Name : string;
  jb_Namespace : string;
  jb_Labels : gmap string string;
  jb_PodAnnotations : gmap string string;
  jb_PodSpec : PodSpec;
}.

Definition no_resources : ResourceRequirements := mkResources ∅ ∅.

(** ** The code *)

Definition AppLabel : string := "osp-provisionserver".
Definition HttpdConfPath : string := "/usr/local/apache2/conf/httpd.conf".
Definition ServiceCommand : string :=
  "cp -f /usr/local/apache2/conf/httpd.conf /etc/httpd/conf/httpd.conf && /usr/bin/run-httpd".
Definition ChecksumCommand : string := "/openstack-baremetal-agent checksum-discovery".
Definition ErrProvisioningAgent : string := "provisioning agent reported error".

(** [OpenStackProvisionServer.RbacNamespace], [RbacResourceName] *)
Definition RbacNamespace (instance : OpenStackProvisionServer) : string := ps_Namespace instance.
Definition RbacResourceName (instance : OpenStackProvisionServer) : string :=
  "provisionserver-" +:+ ps_Name instance.

(** [*instance.Spec.OSImageDir] *)
Definition deref_OSImageDir (instance : OpenStackProvisionServer) : outcome string :=
  match pss_OSImageDir (ps_Spec instance) with
  | Some dir => Ok dir
  | None => Panic "invalid memory address or nil pointer dereference"
  end.

Definition getInitVolumes : list Volume := [mkVolume "image-data" EmptyDir].
Definition getVolumes (name : string) : list Volume :=
  getInitVolumes ++ [mkVolume "httpd-config" (ConfigMapVolume (name +:+ "-httpd-config"))].

Definition getInitVolumeMounts (instance : OpenStackProvisionServer) : outcome (list VolumeMount) :=
  let? dir := deref_OSImageDir instance in
  Ok [mkVolumeMount "image-data" dir "" false].
Definition getVolumeMounts (instance : OpenStackProvisionServer) : outcome (list VolumeMount) :=
  let? dir := deref_OSImageDir instance in
  Ok [mkVolumeMount "image-data" dir "" false;
      mkVolumeMount "httpd-config" HttpdConfPath "httpd.conf" true].

Record InitContainerDetails := mkInitContainerDetails {
  icd_ContainerImage : string;
  icd_OsImageDir : string;
  icd_Privileged : bool;
  icd_VolumeMounts : list VolumeMount;
}.

Section workloads.
(** [env.MergeEnvs] of lib-common *)
Context (MergeEnvs : list EnvVar → gmap string string → list EnvVar).

Definition InitContainer (init : InitContainerDetails) : list Container :=
  let envs := [mkEnvVar "DEST_DIR" (icd_OsImageDir init)] in
  let envs := MergeEnvs envs ∅ in
  [mkContainer "init" [] [] (icd_ContainerImage init) "" (Some (icd_Privileged init))
     (icd_VolumeMounts init) no_resources None None None envs].

Definition initContainers (instance : OpenStackProvisionServer) : outcome (list Container) :=
  let? dir := deref_OSImageDir instance in
  let? mounts := getInitVolumeMounts instance in
  Ok (InitContainer (mkInitContainerDetails (pss_OSContainerImageURL (ps_Spec instance)) dir false mounts)).

Definition discoveryContainer (instance : OpenStackProvisionServer) (provInterfaceName : string) : Container :=
  mkContainer "osp-provision-ip-discovery-agent" ["/openstack-baremetal-agent"; "provision-ip-discovery"] []
    (pss_AgentImageURL (ps_Spec instance)) "IfNotPresent" None [] no_resources None None None
    [mkEnvVar "PROV_INTF" provInterfaceName; mkEnvVar "PROV_SERVER_NAME" (ps_Name instance);
     mkEnvVar "PROV_SERVER_NAMESPACE" (ps_Namespace instance)].

Definition Deployment (instance : OpenStackProvisionServer) (configHash : string)
    (labels : gmap string string) (provInterfaceName : string) : outcome DeploymentObj :=
  let port := ps_Port instance in
  let startupProbe := mkProbe 5 10 12 0 "/" port in
  let livenessProbe := mkProbe 5 3 0 0 "/" port in
  let readinessProbe := mkProbe 5 5 0 5 "/" port in
  let args := ["-c"; ServiceCommand] in
  let? volumeMounts := getVolumeMounts instance in
  let containers := [mkContainer "osp-httpd" ["/bin/bash"] args (pss_ApacheImageURL (ps_Spec instance)) ""
    None volumeMounts (pss_Resources (ps_Spec instance)) (Some startupProbe) (Some readinessProbe)
    (Some livenessProbe) [mkEnvVar "CONFIG_HASH" configHash]] in
  let containers :=
    if negb (String.eqb provInterfaceName "")
    then containers ++ [discoveryContainer instance provInterfaceName] else containers in
  let? inits := initContainers instance in
  Ok {| dp_Name := ps_Name instance +:+ "-openstackprovisionserver";
        dp_Namespace := ps_Namespace instance;
        dp_Selector := labels;
        dp_Strategy := "Recreate";
        dp_Replicas := 1;
        dp_PodLabels := labels;
        dp_PodSpec :=
          {| pod_ServiceAccountName := RbacResourceName instance;
             pod_HostNetwork := true;
             pod_RestartPolicy := "";
             pod_Containers := containers;
             pod_InitContainers := inits;
             pod_Volumes := getVolumes (ps_Name instance);
             pod_AntiAffinity :=
               [mkAntiAffinityTerm "app" [AppLabel] [ps_Namespace instance] "kubernetes.io/hostname"];
             pod_NodeSelector :=
               if bool_decide (0 < size (pss_NodeSelector (ps_Spec instance)))%nat
               then pss_NodeSelector (ps_Spec instance) else ∅ |} |}.

Definition ChecksumJob (instance : OpenStackProvisionServer) (labels annotations : gmap string string) :
    outcome JobObj :=
  let args := ["-c"; ChecksumCommand] in
  let? dir := deref_OSImageDir instance in
  let envVars : gmap string string := {["OS_IMAGE_DIR" := dir]} in
  let envVars := <["PROV_SERVER_NAME" := ps_Name instance]> envVars in
  let envVars := <["PROV_SERVER_NAMESPACE" := ps_Namespace instance]> envVars in
  let volumes := getInitVolumes in
  let? volumeMounts := getInitVolumeMounts instance in
  let? inits := initContainers instance in
  Ok {| jb_Name := ps_Name instance +:+ "-checksum-discovery";
        jb_Namespace := ps_Namespace instance;
        jb_Labels := labels;
        jb_PodAnnotations := annotations;
        jb_PodSpec :=
          {| pod_ServiceAccountName := RbacResourceName instance;
             pod_HostNetwork := false;
             pod_RestartPolicy := "OnFailure";
             pod_Containers :=
               [mkContainer (ps_Name instance +:+ "-checksum-discovery") ["/bin/bash"] args
                  (pss_AgentImageURL (ps_Spec instance)) "" None volumeMounts no_resources None None None
                  (MergeEnvs [] envVars)];
             pod_InitContainers := inits;
             pod_Volumes := volumes;
             pod_AntiAffinity := [];
             pod_NodeSelector :=
               if bool_decide (0 < size (pss_NodeSelector (ps_Spec instance)))%nat
               then pss_NodeSelector (ps_Spec instance) else ∅ |} |}.

(** ** Lemmas *)

(** A pod is well formed when each mount of each container names one of its
    volumes, and the init container fills the directory the containers read. *)
Definition mounts_declared (p : PodSpec) : Prop :=
  ∀ c m, c ∈ pod_Containers p ++ pod_InitContainers p → m ∈ ct_VolumeMounts c →
    ∃ v, v ∈ pod_Volumes p ∧ vol_Name v = vm_Name m.

Definition image_dir_shared (p : PodSpec) (dir : string) : Prop :=
  (∃ c, c ∈ pod_Containers p ∧ mkVolumeMount "image-data" dir "" false ∈ ct_VolumeMounts c) ∧
  ∀ c, c ∈ pod_InitContainers p → mkVolumeMount "image-data" dir "" false ∈ ct_VolumeMounts c.

End workloads.

(** Finds the volume a mount names. *)
Ltac declared_mount :=
  first
    [ exists (mkVolume "image-data" EmptyDir);
      split; [cbn; repeat first [apply list_elem_of_here | apply list_elem_of_further] | reflexivity]
    | eexists (mkVolume "httpd-config" (ConfigMapVolume _));
      split; [cbn; repeat first [apply list_elem_of_here | apply list_elem_of_further] | reflexivity] ].

Lemma Deployment_containers MergeEnvs instance hash labels intf d :
  Deployment MergeEnvs instance hash labels intf = Ok d → ∃ httpd,
    pod_Containers (dp_PodSpec d) =
      if String.eqb intf "" then [httpd] else [httpd; discoveryContainer instance intf].
Proof.
  unfold Deployment. rewrite outcome_bind_ok. intros (mounts & _ & Hd). apply outcome_bind_ok in Hd as (inits & _ & [= <-]).
  simpl. eexists. by destruct (String.eqb intf "").
Qed.

Lemma ChecksumJob_container MergeEnvs instance labels annotations j :
  ChecksumJob MergeEnvs instance labels annotations = Ok j → ∃ dir c, pss_OSImageDir (ps_Spec instance) = Some dir ∧
    pod_Containers (jb_PodSpec j) = [c] ∧ ct_Command c = ["/bin/bash"] ∧ ct_Args c = ["-c"; ChecksumCommand] ∧
    ct_Env c = MergeEnvs [] (<["PROV_SERVER_NAMESPACE" := ps_Namespace instance]>
      (<["PROV_SERVER_NAME" := ps_Name instance]> {["OS_IMAGE_DIR" := dir]})).
Proof.
  unfold ChecksumJob. rewrite outcome_bind_ok. intros (dir & Hdir & Hj). apply outcome_bind_ok in Hj as (mounts & _ & Hj).
  apply outcome_bind_ok in Hj as (inits & _ & [= <-]). unfold deref_OSImageDir in Hdir.
  destruct (pss_OSImageDir (ps_Spec instance)) as [dir'|]; [|done]. injection Hdir as ->. simpl. by eexists _, _.
Qed.

(** ** Properties *)

(** C27: without an image directory building the Deployment panics. With one, each
    volume mount names a volume of the pod, the init container and the server share
    the image directory, every probe asks the server's own port, the pod runs once,
    on the host's network, and the address agent runs next to the server exactly
    when there is a provisioning interface. *)
Theorem Deployment_correct MergeEnvs instance hash labels intf :
  match pss_OSImageDir (ps_Spec instance) with
  | None => ∃ m, Deployment MergeEnvs instance hash labels intf = Panic m
  | Some dir => ∃ d, Deployment MergeEnvs instance hash labels intf = Ok d ∧
      mounts_declared (dp_PodSpec d) ∧ image_dir_shared (dp_PodSpec d) dir ∧
      (∀ c p, c ∈ pod_Containers (dp_PodSpec d) →
         p ∈ [ct_StartupProbe c; ct_ReadinessProbe c; ct_LivenessProbe c] →
         ∀ pr, p = Some pr → pb_HTTPGet_Port pr = ps_Port instance) ∧
      (dp_Replicas d = 1 ∧ dp_Strategy d = "Recreate" ∧ pod_HostNetwork (dp_PodSpec d) = true) ∧
      dp_Selector d = dp_PodLabels d ∧
      (intf ≠ "" ↔ discoveryContainer instance intf ∈ pod_Containers (dp_PodSpec d))
  end.
Proof.
  unfold Deployment, initContainers, InitContainer, getVolumeMounts, getInitVolumeMounts, deref_OSImageDir.
  destruct (pss_OSImageDir (ps_Spec instance)) as [dir|]; simpl; [|by eexists].
  eexists. split; [reflexivity|]. unfold mounts_declared, image_dir_shared. simpl.
  split; [|split; [split|split; [|split; [done|split; [done|]]]]].
  - intros c m Hc Hm. destruct (String.eqb intf ""); simpl in Hc; list_cases; cbn in Hm; list_cases;
      declared_mount.
  - eexists. split; [destruct (String.eqb intf ""); apply list_elem_of_here|].
    apply list_elem_of_here.
  - intros c Hc. list_cases. simpl. apply elem_of_cons. by left.
  - intros c p Hc Hp pr Hpr. destruct (String.eqb intf ""); simpl in Hc; list_cases;
      cbn in Hpr; by simplify_eq.
  - destruct (String.eqb_spec intf "") as [->|Hne]; simpl; rewrite !elem_of_cons.
    + split; [done|]. intros [Hx|Hx]; [done|by apply not_elem_of_nil in Hx].
    + split; [by eauto|done].
Qed.

(** The checksum job of a server with an image directory mounts only volumes
    of its pod, shares the image directory with its init container, and runs the
    agent's image with the variables the agent needs. *)
Theorem ChecksumJob_correct MergeEnvs instance labels annotations dir :
  pss_OSImageDir (ps_Spec instance) = Some dir →
  ∃ j, ChecksumJob MergeEnvs instance labels annotations = Ok j ∧
    mounts_declared (jb_PodSpec j) ∧ image_dir_shared (jb_PodSpec j) dir ∧
    (∀ c, c ∈ pod_Containers (jb_PodSpec j) → ct_Image c = pss_AgentImageURL (ps_Spec instance) ∧
       ∃ vars, ct_Env c = MergeEnvs [] vars ∧ vars !! "OS_IMAGE_DIR" = Some dir ∧
         vars !! "PROV_SERVER_NAME" = Some (ps_Name instance) ∧
         vars !! "PROV_SERVER_NAMESPACE" = Some (ps_Namespace instance)).
Proof.
  intros Hdir.
  unfold ChecksumJob, initContainers, InitContainer, getVolumeMounts, getInitVolumeMounts, deref_OSImageDir.
  rewrite Hdir. simpl. eexists. split; [reflexivity|]. unfold mounts_declared, image_dir_shared. simpl.
  split; [|split; [split|]].
  - intros c m Hc Hm. list_cases; cbn in Hm; list_cases;
      declared_mount.
  - eexists. split; apply list_elem_of_here.
  - intros c Hc. list_cases. simpl. apply elem_of_cons. by left.
  - intros c Hc. list_cases. simpl. split; [done|]. eexists. split; [reflexivity|]. by split_and!; simplify_map_eq.
Qed.

Lemma ChecksumJob_correct_witness :
  ∃ j, ChecksumJob (λ l _, l) (sample_prov "openstack" "ps" 6190) ∅ ∅ = Ok j ∧
    image_dir_shared (jb_PodSpec j) "/usr/local/apache2/htdocs".
Proof.
  destruct (ChecksumJob_correct (λ l _, l) (sample_prov "openstack" "ps" 6190) ∅ ∅
    "/usr/local/apache2/htdocs" eq_refl) as (j & Hj & _ & Hs & _).
  exists j. split; [exact Hj|exact Hs].
Defined.
