(* ===== verification/AgentMain.v ===== *)
(** * The agent as a program

    [containers/agent/main.go] and [version.go]: the commands of the agent and its
    [main], and the [init] functions that register them. cobra is code outside the
    repository, the class [Cobra]; of it only the dispatch of a command without flags is
    assumed.

    The theorems follow the agent through the operator: the containers of [ProvWorkloads]
    start it, with the environment they are given, for the server they belong to; what
    [Agent] writes into the status is what the reconciler of the server then reads. *)

From S2P Require Import Prelude GoStrings ApiTypes Samples Agent ProvWorkloads.
From Stdlib Require Import Ascii.

(** ** Commands *)

(** A [cobra.Command]: the name it is called by, the flags [StringVar] gives it, and what
    it runs with the flags that are given. *)
Record Command (S : Type) := mkCommand {
  cmd_Use : string;
  cmd_Flags : list string;
  cmd_Run : gmap string string → st S unit;
}.
Arguments mkCommand {S}.
Arguments cmd_Use {S}.
Arguments cmd_Flags {S}.
Arguments cmd_Run {S}.

(** [--name=value] *)
Definition flag_arg (kv : string * string) : string := "--" +:+ kv.1 +:+ "=" +:+ kv.2.

(** Words of small letters, dashes and slashes. *)
Definition plain_char (a : ascii) : bool :=
  let n := nat_of_ascii a in
  (97 <=? n)%nat && (n <=? 122)%nat || (n =? 45)%nat || (n =? 47)%nat.
Definition plain (s : string) : Prop := Forall (λ a, plain_char a = true) (String.list_ascii_of_string s).

Class Cobra := {
  (** [rootCmd.Execute()], for the subcommands of the root and the arguments given *)
  Execute : ∀ {S}, list (Command S) → list string → st S unit;
}.

(** The name of a subcommand, with any of its flags, runs it. *)
Class CobraLaws `{Cobra} : Prop := {
  Execute_name : ∀ S (cmds : list (Command S)) c (given : list (string * string)) s,
    NoDup (cmd_Use <$> cmds) → c ∈ cmds → Forall plain (cmd_Flags c) →
    NoDup given.*1 → given.*1 ⊆ cmd_Flags c →
    Execute cmds (cmd_Use c :: (flag_arg <$> given)) s = cmd_Run c (list_to_map given) s;
}.

(** ** The code *)

Section agent_main.
Context {W : Type} `{DynamicClient W} `{KubeConfig} `{Cobra}.

(** What the process finds: its environment, [flag.Set("logtostderr", "true")], the
    interfaces in each round of the address agent, the image directory, and how often the
    job may try. *)
Record Process := mkProcess {
  pr_LookupEnv : string → option string;
  pr_flag_Set : outcome unit;
  pr_rounds : list (outcome (list Interface));
  pr_Readdirnames : string → outcome (list string);
  pr_fuel : nat;
}.

(** The cluster and what was printed. *)
Abbreviation astate := (W * list string)%type.

Definition in_cluster {A} (c : st W A) : st astate A := st_zoom fst (λ w s, (w, s.2)) c.
Definition Println (line : string) : st astate unit := st_modify (λ s, (s.1, s.2 ++ [line])).

(** [if err := flag.Set(...); err != nil { panic(err.Error()) }], with which each command
    begins. *)
Definition logtostderr (p : Process) : st astate unit := st_lift (panic_on_error (pr_flag_Set p)).

(** The variable of a flag: its value, or the default "". *)
Definition StringVar (flags : gmap string string) (name : string) : string := default "" (flags !! name).

Definition provisionIPStartOpts (flags : gmap string string) : provisionIPOpts :=
  mkProvisionIPOpts (StringVar flags "prov-intf") (StringVar flags "prov-server-name")
    (StringVar flags "prov-server-namespace").

Definition provisionIPStartCmd (p : Process) : Command astate :=
  mkCommand "provision-ip-discovery" ["prov-intf"; "prov-server-name"; "prov-server-namespace"] (λ flags,
    do! logtostderr p then
    do! in_cluster (runProvisionIPStartCmd (pr_LookupEnv p) (provisionIPStartOpts flags) (pr_rounds p)) then
    st_ret tt).

Definition checksumStartOpts (flags : gmap string string) : checksumOpts :=
  mkChecksumOpts (StringVar flags "os-image-dir") (StringVar flags "prov-server-name")
    (StringVar flags "prov-server-namespace").

Definition checksumStartCmd (p : Process) : Command astate :=
  mkCommand "checksum-discovery" ["os-image-dir"; "prov-server-name"; "prov-server-namespace"] (λ flags,
    do! logtostderr p then
    do! in_cluster (runChecksumStartCmd (pr_fuel p) (pr_LookupEnv p) (pr_Readdirnames p) (checksumStartOpts flags)) then
    st_ret tt).

Definition runVersionCmd (p : Process) : st astate unit :=
  do! logtostderr p then
  let program := "OpenStackBaremetalOperatorAgent" in
  let version := "v1.4.0" in
  Println (program +:+ " " +:+ version).

Definition versionCmd (p : Process) : Command astate := mkCommand "version" [] (λ _, runVersionCmd p).

(** [rootCmd.AddCommand], and the [init] functions in the order of their files. *)
Definition AddCommand (c : Command astate) (cmds : list (Command astate)) : list (Command astate) := cmds ++ [c].
Definition rootCmd (p : Process) : list (Command astate) :=
  AddCommand (versionCmd p) (AddCommand (provisionIPStartCmd p) (AddCommand (checksumStartCmd p) [])).

(** [glog.Exitf] ends the process, as [Fatalf] does. *)
Definition agent_main (p : Process) (args : list string) : st astate unit :=
  st_catch (Execute (rootCmd p) args) (λ err, st_panic ("Error executing cmd: " +:+ err_text err)).

End agent_main.

(** ** From a container to the agent *)

(** A process runs in a container when it finds the variables of the container in its
    environment; there may be others. *)
Definition runs_in (c : Container) (p : Process) : Prop :=
  ∀ v, v ∈ ct_Env c → pr_LookupEnv p (ev_Name v) = Some (ev_Value v).

(** The words bash makes of the command it is given with [-c]. *)
Class Shell := shell_words : string → list string.

(** Words of letters, dashes and slashes are separated by a blank. *)
Class ShellLaws `{Shell} : Prop :=
  shell_two : ∀ a b, plain a → plain b → a ≠ "" → b ≠ "" → shell_words (a +:+ " " +:+ b) = [a; b].

(** The arguments of the process a container starts: its command and arguments, or the
    words of the command for bash. *)
Definition command_line `{Shell} (c : Container) : list string :=
  match ct_Command c, ct_Args c with
  | ["/bin/bash"], ["-c"; command] => shell_words command
  | command, args => command ++ args
  end.

(** [os.Args[1:]] of the agent a container starts. *)
Definition agent_args `{Shell} (c : Container) : option (list string) :=
  match command_line c with
  | "/openstack-baremetal-agent" :: args => Some args
  | _ => None
  end.

(** ** From the status the agents write to the fields the reconciler reads *)

(** The strings of a status by their JSON names; a key that is not there is empty. *)
Definition status_field (u : Unstructured) (key : string) : string :=
  match un_Status u with StatusMap m => default "" (m !! key) | _ => "" end.

(** The server's object with its status as the agents left it; the fields they do not
    write are those of [p]. *)
Definition decode_status (u : Unstructured) (s : OpenStackProvisionServerStatus) : OpenStackProvisionServerStatus :=
  mkProvStatus (pst_ReadyCount s) (pst_Conditions s) (pst_Hash s)
    (status_field u "provisionIp") (status_field u "provisionIpError") (status_field u "localImageUrl")
    (status_field u "osImageChecksumFilename") (status_field u "osImageChecksumType")
    (status_field u "localImageChecksumUrl").

(** ** Lemmas *)

(** The flags that are given are what the command starts with, whatever the environment. *)
Lemma StringVar_given given name value :
  NoDup given.*1 → (name, value) ∈ given → StringVar (list_to_map given) name = value.
Proof. intros Hnd Hin. unfold StringVar. by rewrite (elem_of_list_to_map_1 _ name value Hnd Hin). Qed.

(** So an agent whose flags are all given does not look at its environment. *)
Lemma provisionIPStart_flags LookupEnv intf name ns : intf ≠ "" → name ≠ "" → ns ≠ "" →
  provisionIPStart LookupEnv (provisionIPStartOpts (list_to_map
    [("prov-intf", intf); ("prov-server-name", name); ("prov-server-namespace", ns)])) =
  Ok (mkProvisionIPOpts intf name ns).
Proof.
  intros Hi%String.eqb_neq Hn%String.eqb_neq Hs%String.eqb_neq. unfold provisionIPStartOpts.
  assert (Hnd : NoDup [("prov-intf", intf); ("prov-server-name", name); ("prov-server-namespace", ns)].*1) by by_compute.
  rewrite (StringVar_given _ "prov-intf" intf Hnd), (StringVar_given _ "prov-server-name" name Hnd),
    (StringVar_given _ "prov-server-namespace" ns Hnd) by set_solver.
  unfold provisionIPStart, getEnvOrFail. simpl. by rewrite Hi, Hn, Hs.
Qed.

Lemma StringVar_none name : StringVar (list_to_map []) name = "".
Proof. done. Qed.

Section commands.
Context {W : Type} `{DynamicClient W} `{KubeConfig} `{CobraLaws}.

Lemma rootCmd_names (p : Process) : NoDup (cmd_Use <$> rootCmd (W := W) p).
Proof. by_compute. Qed.

Lemma rootCmd_flags (p : Process) c : c ∈ rootCmd (W := W) p → Forall plain (cmd_Flags c).
Proof. intros Hc. cbn in Hc. list_cases; by_compute. Qed.

Lemma main_runs (p : Process) c given s :
  c ∈ rootCmd (W := W) p → NoDup given.*1 → given.*1 ⊆ cmd_Flags c →
  agent_main p (cmd_Use c :: (flag_arg <$> given)) s =
  st_catch (cmd_Run c (list_to_map given)) (λ err, st_panic ("Error executing cmd: " +:+ err_text err)) s.
Proof.
  intros Hc Hnd Hg. unfold agent_main, st_catch.
  by rewrite (Execute_name _ _ _ given _ (rootCmd_names p) Hc (rootCmd_flags p c Hc) Hnd Hg).
Qed.

(** Each name runs its command, and the version command prints the version. *)
Lemma main_version (p : Process) (w : W) out : pr_flag_Set p = Ok tt →
  agent_main p ["version"] (w, out) = (Ok tt, (w, out ++ ["OpenStackBaremetalOperatorAgent v1.4.0"])).
Proof.
  intros Hf. rewrite (main_runs p (versionCmd p) []); [|by repeat constructor|apply NoDup_nil_2|set_solver].
  unfold st_catch. simpl. unfold runVersionCmd, logtostderr, st_bind, st_lift. by rewrite Hf.
Qed.

(** A variable of the container that is not empty is what the agent starts with. *)
Lemma getEnvOrFail_in (p : Process) c name value :
  runs_in c p → mkEnvVar name value ∈ ct_Env c → value ≠ "" → getEnvOrFail (pr_LookupEnv p) name "" = Ok value.
Proof.
  intros Hrun Hin Hv. unfold getEnvOrFail. simpl. specialize (Hrun _ Hin). simpl in Hrun. rewrite Hrun.
  by rewrite (proj2 (String.eqb_neq _ _) Hv).
Qed.

Lemma env_or_fatal_in (p : Process) c name flag value :
  runs_in c p → mkEnvVar name value ∈ ct_Env c → value ≠ "" →
  env_or_fatal (pr_LookupEnv p) name flag "" = Ok value.
Proof.
  intros Hrun Hin Hv. unfold env_or_fatal. simpl. specialize (Hrun _ Hin). simpl in Hrun. rewrite Hrun.
  by rewrite (proj2 (String.eqb_neq _ _) Hv).
Qed.

(** A command that runs on the cluster as the process found it, after its flags. *)
Lemma main_in_cluster {A} (p : Process) name flags given (c : gmap string string → st W A) (w : W) out a w' :
  mkCommand name flags (λ given, do! logtostderr p then do! in_cluster (c given) then st_ret tt) ∈ rootCmd (W := W) p →
  NoDup given.*1 → given.*1 ⊆ flags → pr_flag_Set p = Ok tt → c (list_to_map given) w = (Ok a, w') →
  agent_main p (name :: (flag_arg <$> given)) (w, out) = (Ok tt, (w', out)).
Proof.
  intros Hin Hnd Hg Hf Hc. rewrite (main_runs p _ given _ Hin Hnd Hg). unfold st_catch. simpl.
  unfold logtostderr, in_cluster, st_zoom, st_bind, st_lift. rewrite Hf. simpl. by rewrite Hc.
Qed.

End commands.

Lemma ChecksumCommand_words `{ShellLaws} :
  shell_words ChecksumCommand = ["/openstack-baremetal-agent"; "checksum-discovery"].
Proof.
  apply (shell_two "/openstack-baremetal-agent" "checksum-discovery"); [by_compute|by_compute|done|done].
Qed.

(** ** Properties *)

(** C25: the Deployment of a server with a provisioning interface starts the address agent
    for that server: the container's command line is a command of the agent, and run with
    the container's environment it watches that interface and reports, for as many rounds
    as it runs; an address it remembers is the provision IP, without an error, that the
    reconciler then reads of the server, unless the server is gone. *)
Theorem deployment_agent_publishes {W} `{DynamicClient W} `{DynamicView W} `{!DynamicLaws W} `{KubeConfig}
    `{CobraLaws} `{Shell} MergeEnvs instance hash labels intf d :
  Deployment MergeEnvs instance hash labels intf = Ok d →
  intf ≠ "" → ps_Name instance ≠ "" → ps_Namespace instance ≠ "" →
  let c := discoveryContainer instance intf in
  c ∈ pod_Containers (dp_PodSpec d) ∧ agent_args c = Some ["provision-ip-discovery"] ∧
    ∀ p, runs_in c p → pr_flag_Set p = Ok tt → dynamicClient (pr_LookupEnv p) = Ok tt →
      ∀ (w : W) out ip w',
        agentRounds (mkProvisionIPOpts intf (ps_Name instance) (ps_Namespace instance)) (pr_rounds p) "" w = (Ok ip, w') →
        agent_main p ["provision-ip-discovery"] (w, out) = (Ok tt, (w', out)) ∧
        (ip ≠ "" → servers w' !! (ps_Namespace instance, ps_Name instance) = None ∨
           ∃ u, servers w' !! (ps_Namespace instance, ps_Name instance) = Some u ∧
             ∀ s, pst_ProvisionIP (decode_status u s) = ip ∧ pst_ProvisionIPError (decode_status u s) = "").
Proof.
  intros Hd Hintf Hname Hns c.
  split; [|split; [done|]].
  { destruct (Deployment_containers MergeEnvs instance hash labels intf d Hd) as [httpd ->].
    rewrite (proj2 (String.eqb_neq _ _) Hintf). simpl. by right; left. }
  intros p Hrun Hf Hdyn w out ip w' Hr. split.
  - eapply (main_in_cluster p _ _ []); [by right; left|apply NoDup_nil_2|set_solver|done|].
    unfold runProvisionIPStartCmd, provisionIPStart, provisionIPStartOpts.
    cbn [pio_provIntf pio_provServerName pio_provServerNamespace].
    rewrite !StringVar_none.
    rewrite (getEnvOrFail_in p _ "PROV_INTF" intf Hrun) by (done || by left).
    rewrite (getEnvOrFail_in p _ "PROV_SERVER_NAME" (ps_Name instance) Hrun) by (done || by right; left).
    rewrite (getEnvOrFail_in p _ "PROV_SERVER_NAMESPACE" (ps_Namespace instance) Hrun) by (done || by right; right; left).
    unfold st_bind, st_lift. simpl. rewrite Hdyn. exact Hr.
  - intros Hip. destruct (agent_status_in_step _ _ _ _ _ Hr Hip) as [Hn|(u & m & Hu & Hm & Hi & He)]; [by left|right].
    exists u. split; [exact Hu|]. intros s. unfold decode_status, status_field. simpl. by rewrite Hm, Hi, He.
Qed.


(** *** A command line, a shell and a cluster to run them on *)

(** Reads up to the first equality sign. *)
Fixpoint split_flag (s name : string) : option (string * string) :=
  match s with
  | "" => None
  | String a s' => if Ascii.eqb a "=" then Some (name, s') else split_flag s' (name +:+ String a "")
  end.
Definition parse_flag (arg : string) : option (string * string) :=
  match arg with
  | String "-" (String "-" s) => split_flag s ""
  | _ => None
  end.

Definition mem_cobra : Cobra := {| Execute S cmds args :=
  match args with
  | name :: args =>
      match List.find (λ c, String.eqb (cmd_Use c) name) cmds, mapM parse_flag args with
      | Some c, Some given => cmd_Run c (list_to_map given)
      | _, _ => st_err (Errorf ("unknown command " +:+ name))
      end
  | [] => st_ret tt
  end |}.

Lemma split_flag_plain a b word : plain a → split_flag (a +:+ "=" +:+ b) word = Some (word +:+ a, b).
Proof.
  revert word. induction a as [|x a IH]; intros word Ha; [by rewrite string_app_nil_r|].
  apply Forall_cons in Ha as [Hx Ha]. change (String x a +:+ "=" +:+ b) with (String x (a +:+ "=" +:+ b)).
  cbn [split_flag]. destruct (Ascii.eqb_spec x "=") as [->|_]; [done|]. rewrite (IH _ Ha). by rewrite string_app_assoc.
Qed.

Lemma parse_flags (given : list (string * string)) :
  Forall plain given.*1 → mapM parse_flag (flag_arg <$> given) = Some given.
Proof.
  induction given as [|[k v] given IH]; intros Hg; [done|]. apply Forall_cons in Hg as [Hk Hg].
  change (mapM parse_flag (flag_arg <$> (k, v) :: given)) with
    (split_flag (k +:+ "=" +:+ v) "" ≫= λ kv, mapM parse_flag (flag_arg <$> given) ≫= λ l, Some (kv :: l)).
  rewrite (split_flag_plain k v "" Hk), (IH Hg). done.
Qed.

Lemma mem_cobra_laws : CobraLaws (H := mem_cobra).
Proof.
  split. intros S cmds c given s Hnd Hc Hflags _ Hsub. simpl. rewrite parse_flags.
  2:{ apply Forall_forall. intros k Hk. rewrite Forall_forall in Hflags. by apply Hflags, Hsub. }
  assert (Hfind : List.find (λ d, String.eqb (cmd_Use d) (cmd_Use c)) cmds = Some c); [|by rewrite Hfind].
  induction cmds as [|d cmds IH]; [by apply not_elem_of_nil in Hc|].
  simpl. apply NoDup_cons in Hnd as [Hd Hnd]. destruct (String.eqb_spec (cmd_Use d) (cmd_Use c)) as [Heq|Hne].
  - apply elem_of_cons in Hc as [->|Hc]; [done|]. destruct Hd. rewrite Heq. by apply list_elem_of_fmap_2.
  - apply elem_of_cons in Hc as [->|Hc]; [done|by apply IH].
Qed.

(** Splits at blanks. *)
Fixpoint split_blanks (s word : string) : list string :=
  match s with
  | "" => [word]
  | String a s' => if Ascii.eqb a " " then word :: split_blanks s' "" else split_blanks s' (word +:+ String a "")
  end.
Definition mem_shell : Shell := λ s, split_blanks s "".

Lemma split_blanks_plain a b word : plain a → split_blanks (a +:+ b) word = split_blanks b (word +:+ a).
Proof.
  revert word. induction a as [|x a IH]; intros word Ha; [by rewrite string_app_nil_r|].
  apply Forall_cons in Ha as [Hx Ha]. change (String x a +:+ b) with (String x (a +:+ b)). cbn [split_blanks].
  destruct (Ascii.eqb_spec x " ") as [->|_]; [done|]. rewrite (IH _ Ha). f_equal. by rewrite string_app_assoc.
Qed.

Lemma mem_shell_laws : ShellLaws (H := mem_shell).
Proof.
  intros a b Ha Hb _ _. unfold shell_words, mem_shell. rewrite (split_blanks_plain a (" " +:+ b)) by done.
  simpl. rewrite <-(string_app_nil_r b) at 1. change ("" +:+ b +:+ "") with (b +:+ ""). by rewrite (split_blanks_plain b "").
Qed.

Definition mem_kube_config : KubeConfig :=
  {| RestConfig := unit; BuildConfigFromFlags _ _ := Ok tt; InClusterConfig := Ok tt; NewForConfigOrDie _ := Ok tt |}.

(** A process that finds just the variables of its container. *)
Definition process_in (c : Container) : Process :=
  mkProcess (λ name, ev_Value <$> List.find (λ v, String.eqb (ev_Name v) name) (ct_Env c)) (Ok tt) sample_rounds
    (λ _, Ok ["edpm-hardened-uefi.qcow2"; "edpm-hardened-uefi.qcow2.sha256"]) 4.

Definition sample_server : OpenStackProvisionServer := sample_prov "openstack" "ps" 6190.

Lemma deployment_agent_publishes_witness :
  let p := process_in (discoveryContainer sample_server "eno1") in
  ∃ d w', Deployment (λ l _, l) sample_server "hash" ∅ "eno1" = Ok d ∧
    discoveryContainer sample_server "eno1" ∈ pod_Containers (dp_PodSpec d) ∧
    agent_main (H0 := mem_kube_config) (H1 := mem_cobra) p ["provision-ip-discovery"] (sample_servers 1, []) = (Ok tt, (w', [])) ∧
    (servers w' !! ("openstack", "ps") = None ∨ ∃ u, servers w' !! ("openstack", "ps") = Some u ∧
      pst_ProvisionIP (decode_status u (ps_Status sample_server)) = "172.22.0.4").
Proof.
  intros p. destruct (Deployment (λ l _, l) sample_server "hash" ∅ "eno1") as [d| |] eqn:Hd; [|vm_compute in Hd; discriminate..].
  destruct (deployment_agent_publishes (W := dyn_mem) (H1 := mem_kube_config) (H2 := mem_cobra) (H3 := mem_cobra_laws) (H4 := mem_shell)
    _ _ _ _ _ _ Hd) as (Hin & _ & Hrun); [discriminate..|].
  set (opts := mkProvisionIPOpts _ _ _) in Hrun.
  destruct (Hrun p) with (w := sample_servers 1) (out := @nil string) (ip := "172.22.0.4")
    (w' := (agentRounds opts sample_rounds "" (sample_servers 1)).2) as [Hmain Hsays].
  - intros v Hv. cbn in Hv. list_cases; reflexivity.
  - reflexivity.
  - reflexivity.
  - vm_refl.
  - exists d, (agentRounds opts sample_rounds "" (sample_servers 1)).2. split_and!; [reflexivity|exact Hin|exact Hmain|].
    destruct Hsays as [Hn|(u & Hu & Hs)]; [discriminate|left; exact Hn|right].
    exists u. split; [exact Hu|]. apply Hs.
Defined.

(** [env.MergeEnvs] of lib-common gives every variable of the map. *)
Definition merges_all (MergeEnvs : list EnvVar → gmap string string → list EnvVar) : Prop :=
  ∀ m k v, m !! k = Some v → mkEnvVar k v ∈ MergeEnvs [] m.

(** C26: the checksum job of a server starts the checksum agent for that server: run with
    the container's environment, with a checksum file among the entries of the image
    directory, the agent ends after any number of refused writes, and the reconciler then
    reads the file's name and kind of the server, unless the server is gone. *)
Theorem checksum_job_publishes {W} `{DynamicClient W} `{DynamicView W} `{!DynamicLaws W} `{KubeConfig}
    `{CobraLaws} `{ShellLaws} MergeEnvs instance labels annotations dir j :
  merges_all MergeEnvs → ChecksumJob MergeEnvs instance labels annotations = Ok j →
  pss_OSImageDir (ps_Spec instance) = Some dir →
  dir ≠ "" → ps_Name instance ≠ "" → ps_Namespace instance ≠ "" →
  ∃ c, pod_Containers (jb_PodSpec j) = [c] ∧ agent_args c = Some ["checksum-discovery"] ∧
    ∀ p items file kind, runs_in c p → pr_flag_Set p = Ok tt → dynamicClient (pr_LookupEnv p) = Ok tt →
      pr_Readdirnames p dir = Ok items → findChecksum items = Some (file, kind) →
      let opts := mkChecksumOpts dir (ps_Name instance) (ps_Namespace instance) in
      ∀ (w wk w' : W) out k, nsteps (λ w1 w2, checksumAttempt opts file kind w1 = (Ok false, w2)) k w wk →
        checksumAttempt opts file kind wk = (Ok true, w') → k < pr_fuel p →
        agent_main p ["checksum-discovery"] (w, out) = (Ok tt, (w', out)) ∧
        (servers w' !! (ps_Namespace instance, ps_Name instance) = None ∨
         ∃ u, servers w' !! (ps_Namespace instance, ps_Name instance) = Some u ∧
           ∀ s, pst_OSImageChecksumFilename (decode_status u s) = file ∧
             pst_OSImageChecksumType (decode_status u s) = kind).
Proof.
  intros Hmerge Hj Hdir Hd Hname Hns.
  destruct (ChecksumJob_container _ _ _ _ _ Hj) as (dir' & c & Hdir' & Hc & Hcmd & Hargs & Henv).
  rewrite Hdir in Hdir'. injection Hdir' as <-.
  exists c. split; [done|]. split.
  { unfold agent_args, command_line. by rewrite Hcmd, Hargs, ChecksumCommand_words. }
  intros p items file kind Hrun Hf Hdyn Hread Hfind opts w wk w' out k Hk Hlast Hfuel.
  assert (Hin : ∀ key v, <["PROV_SERVER_NAMESPACE" := ps_Namespace instance]>
      (<["PROV_SERVER_NAME" := ps_Name instance]> ({["OS_IMAGE_DIR" := dir]} : gmap string string)) !! key = Some v →
      mkEnvVar key v ∈ ct_Env c) by (intros key v Hv; rewrite Henv; by apply Hmerge).
  destruct (checksumLoop_ends opts file kind k (pr_fuel p) w wk w' Hk Hlast Hfuel) as [Hloop Hsays]. split.
  - eapply (main_in_cluster p _ _ []); [by left|apply NoDup_nil_2|set_solver|done|].
    unfold runChecksumStartCmd, checksumStart, checksumStartOpts.
    cbn [co_osImageDir co_provServerName co_provServerNamespace]. rewrite !StringVar_none.
    rewrite (env_or_fatal_in p c "OS_IMAGE_DIR" _ dir Hrun) by (done || by apply Hin).
    rewrite (env_or_fatal_in p c "PROV_SERVER_NAME" _ (ps_Name instance) Hrun) by (done || by apply Hin).
    rewrite (env_or_fatal_in p c "PROV_SERVER_NAMESPACE" _ (ps_Namespace instance) Hrun) by (done || by apply Hin).
    unfold st_bind, st_lift. cbn [outcome_bind]. rewrite Hdyn. cbn [co_osImageDir]. rewrite Hread, Hfind. exact Hloop.
  - destruct Hsays as [Hn|(u & m & Hu & Hm & Hff & Hkk)]; [by left|right].
    exists u. split; [exact Hu|]. intros s. unfold decode_status, status_field. simpl. by rewrite Hm, Hff, Hkk.
Qed.

Definition mem_merge (l : list EnvVar) (m : gmap string string) : list EnvVar :=
  l ++ ((λ kv, mkEnvVar kv.1 kv.2) <$> map_to_list m).

Lemma mem_merge_all : merges_all mem_merge.
Proof. intros m k v Hv. apply list_elem_of_fmap. exists (k, v). split; [done|]. by apply elem_of_map_to_list. Qed.

Lemma checksum_job_publishes_witness :
  let opts := mkChecksumOpts "/usr/local/apache2/htdocs" "ps" "openstack" in
  let file := "edpm-hardened-uefi.qcow2.sha256" in
  let last := checksumAttempt opts file SHA256 (sample_servers 0) in
  ∃ j c, ChecksumJob mem_merge sample_server ∅ ∅ = Ok j ∧ pod_Containers (jb_PodSpec j) = [c] ∧
    agent_main (H0 := mem_kube_config) (H1 := mem_cobra) (process_in c) ["checksum-discovery"] (sample_servers 2, []) =
      (Ok tt, (last.2, [])) ∧
    (servers last.2 !! ("openstack", "ps") = None ∨ ∃ u, servers last.2 !! ("openstack", "ps") = Some u ∧
      pst_OSImageChecksumFilename (decode_status u (ps_Status sample_server)) = file).
Proof.
  intros opts file last.
  destruct (ChecksumJob mem_merge sample_server ∅ ∅) as [j| |] eqn:Hj; [|vm_compute in Hj; discriminate..].
  destruct (checksum_job_publishes (W := dyn_mem) (H1 := mem_kube_config) (H2 := mem_cobra) (H3 := mem_cobra_laws)
    (H4 := mem_shell) (H5 := mem_shell_laws) mem_merge sample_server ∅ ∅ "/usr/local/apache2/htdocs" j)
    as (c & Hc & _ & Hrun); [exact mem_merge_all|exact Hj|reflexivity|discriminate..|].
  destruct (ChecksumJob_container _ _ _ _ _ Hj) as (dir & c' & Hdir & Hc' & _ & _ & Henv).
  rewrite Hc in Hc'. injection Hc' as <-. injection Hdir as <-.
  match type of Henv with _ = ?e => let vars := eval vm_compute in e in change (ct_Env c = vars) in Henv end.
  destruct (Hrun (process_in c) ["edpm-hardened-uefi.qcow2"; file] file SHA256) with (w := sample_servers 2)
    (wk := sample_servers 0) (w' := last.2) (out := @nil string) (k := 2) as [Hmain Hsays].
  - intros v. unfold process_in. cbn [pr_LookupEnv]. rewrite Henv. intros Hv. list_cases; reflexivity.
  - reflexivity.
  - unfold process_in. cbn [pr_LookupEnv]. rewrite Henv. reflexivity.
  - reflexivity.
  - vm_refl.
  - apply nsteps_l with (sample_servers 1); [vm_refl|]. apply nsteps_once. vm_refl.
  - vm_refl.
  - simpl. lia.
  - exists j, c. split_and!; [reflexivity|exact Hc|exact Hmain|].
    destruct Hsays as [Hn|(u & Hu & Hs)]; [left; exact Hn|right]. exists u. split; [exact Hu|]. apply Hs.
Defined.
