(* ===== verification/ProvController.v ===== *)
(** * The OpenStackProvisionServer reconciler

    [internal/controller/openstackprovisionserver_controller.go]. As for the sets,
    a reconciliation threads the cluster and the instance the reconciler holds in
    memory. The packages it calls are the classes [ProvClient] (calls that reach
    the cluster) and [ProvLib] (functions). *)

From S2P Require Import Prelude GoStrings GoNet ApiTypes Samples Kube MemCluster Conditions.
From S2P Require Import Reconciler ProvPorts ProvWorkloads.

(** ** What the reconciler calls *)

(** A Go value of type [any]: its dynamic type is part of it. Values of a type
    other than strings and string maps are told apart by their type only. *)
Inductive AnyValue :=
| AnyNil
| AnyString (type : string) (s : string)
| AnyMap (m : gmap string AnyValue)
| AnyOther (type : string).

(** [rbacv1.PolicyRule] *)
Record PolicyRule := mkPolicyRule {
  pr_APIGroups : list string;
  pr_ResourceNames : list string;
  pr_Resources : list string;
  pr_Verbs : list string;
}.

(** What the reconciler reads of the Deployment it has created or patched. *)
Record DeploymentState := mkDeploymentState {
  dps_Generation : Z;
  dps_SpecReplicas : Z;
  dps_ObservedGeneration : Z;
  dps_Replicas : Z;
  dps_ReadyReplicas : Z;
}.

(** [job.NewJob(def, hashType, preserve, timeout, beforeHash)] and what [DoJob],
    [HasChanged] and [GetHash] say of it. *)
Record JobRun := mkJobRun {
  jr_Result : Result;
  jr_Err : option error;
  jr_HasChanged : bool;
  jr_Hash : string;
}.

Class ProvClient (W : Type) := {
  ps_Get : string → string → st W OpenStackProvisionServer;
  ps_NewHelper : OpenStackProvisionServer → st W unit;
  (** the object as it was when the helper was made, and as it is now *)
  ps_PatchInstance : OpenStackProvisionServer → OpenStackProvisionServer → st W unit;
  (** [rbac.ReconcileRbac], which reports through the conditions *)
  ReconcileRbac : OpenStackProvisionServer → list PolicyRule → st (W * Conditions) Result;
  (** [configmap.EnsureConfigMaps], which adds to the variables as it goes *)
  EnsureConfigMaps : OpenStackProvisionServer → list Template → st (W * EnvVars) unit;
  (** [deployment.NewDeployment(d, timeout).CreateOrPatch] and [GetDeployment];
      timeouts are a [time.Duration], in nanoseconds *)
  deployment_CreateOrPatch : DeploymentObj → Z → st W (Result * DeploymentState);
  job_DoJob : JobObj → string → bool → Z → string → st W JobRun;
  (** [Pods(namespace).List]: the [HostIP] of each pod the selector matches *)
  pods_List : string → string → st W (list string);
  (** [config.GetConfig], [dynamic.NewForConfig], [Resource(provisionings).Get] *)
  RestConfig : Type;
  DynClient : Type;
  GetConfig : st W RestConfig;
  NewForConfig : RestConfig → st W DynClient;
  provisionings_Get : DynClient → string → st W (gmap string AnyValue);
}.

Class ProvLib := {
  AppSelector : string;
  InputHashName : string;
  MergeEnvs : list EnvVar → EnvVars → list EnvVar;
  ObjectHash : list EnvVar → outcome string;
  (** [util.SetHash(map, type, hash)]: the map, and whether it changed *)
  SetHash : option (gmap string string) → string → string → option (gmap string string) * bool;
  (** [labels.Set(l).String()] *)
  LabelSet_String : gmap string string → string;
  (** [k8snet.IsIPv6] of a [net.IP], which may be nil *)
  IsIPv6 : option (list Z) → bool;
  deployment_IsReady : DeploymentState → bool;
}.

(** ** The code *)

(** [time.Second]: a [time.Duration] is in nanoseconds. *)
Definition second : Z := 1000000000.
Definition ErrProvisionServerReconciliationPanic : string :=
  "provision server reconciliation panic occurred".

Definition rbacRules : list PolicyRule :=
  [mkPolicyRule ["security.openshift.io"] ["hostnetwork"] ["securitycontextconstraints"] ["use"];
   mkPolicyRule ["baremetal.openstack.org"] [] ["openstackprovisionservers"] ["get"; "list"];
   mkPolicyRule ["baremetal.openstack.org"] [] ["openstackprovisionservers/status"]
     ["get"; "list"; "update"]].

(** Assignments to fields of the status. *)
Definition pst_with_Hash (h : option (gmap string string)) (s : OpenStackProvisionServerStatus) :=
  mkProvStatus (pst_ReadyCount s) (pst_Conditions s) h (pst_ProvisionIP s) (pst_ProvisionIPError s)
    (pst_LocalImageURL s) (pst_OSImageChecksumFilename s) (pst_OSImageChecksumType s)
    (pst_LocalImageChecksumURL s).
Definition pst_with_ReadyCount (n : Z) (s : OpenStackProvisionServerStatus) :=
  mkProvStatus n (pst_Conditions s) (pst_Hash s) (pst_ProvisionIP s) (pst_ProvisionIPError s)
    (pst_LocalImageURL s) (pst_OSImageChecksumFilename s) (pst_OSImageChecksumType s)
    (pst_LocalImageChecksumURL s).
Definition pst_with_LocalImageURL (u : string) (s : OpenStackProvisionServerStatus) :=
  mkProvStatus (pst_ReadyCount s) (pst_Conditions s) (pst_Hash s) (pst_ProvisionIP s)
    (pst_ProvisionIPError s) u (pst_OSImageChecksumFilename s) (pst_OSImageChecksumType s)
    (pst_LocalImageChecksumURL s).
Definition pst_with_LocalImageChecksumURL (u : string) (s : OpenStackProvisionServerStatus) :=
  mkProvStatus (pst_ReadyCount s) (pst_Conditions s) (pst_Hash s) (pst_ProvisionIP s)
    (pst_ProvisionIPError s) (pst_LocalImageURL s) (pst_OSImageChecksumFilename s)
    (pst_OSImageChecksumType s) u.
Definition upd_pstatus (f : OpenStackProvisionServerStatus → OpenStackProvisionServerStatus)
    (p : OpenStackProvisionServer) : OpenStackProvisionServer := ps_with_Status (f (ps_Status p)) p.

Section code.
Context {W : Type} `{ProvClient W} `{ProvLib} `{LibCommon} `{ConditionLib}.

Definition prstate : Type := W * OpenStackProvisionServer.

Definition put_status (f : OpenStackProvisionServerStatus → OpenStackProvisionServerStatus) :
    st prstate unit := st_modify (λ s, (s.1, upd_pstatus f s.2)).

Definition serviceLabelsFor (instance : OpenStackProvisionServer) : gmap string string :=
  GetLabels (ps_Meta instance) AppLabel {[AppSelector := ps_Name instance +:+ "-deployment"]}.

Definition httpdTemplates (instance : OpenStackProvisionServer) : list Template :=
  let cmLabels := GetLabels (ps_Meta instance) AppLabel ∅ in
  let templateParameters : gmap string TemplateValue := {["Port" := TVString (pretty (ps_Port instance))]} in
  let templateParameters :=
    <["DocumentRoot" := TVStringPtr (pss_OSImageDir (ps_Spec instance))]> templateParameters in
  [mkTemplate (ps_Name instance +:+ "-httpd-config") (ps_Namespace instance) TemplateTypeConfig
     (ps_Kind instance) ∅ cmLabels templateParameters].

(** The error of [EnsureConfigMaps] is dropped. *)
Definition generateServiceConfigMaps (instance : OpenStackProvisionServer) : st (W * EnvVars) unit :=
  let! err := st_try (EnsureConfigMaps instance (httpdTemplates instance)) in
  match err with
  | inr _ => st_ret tt
  | inl _ => st_ret tt
  end.

(** A call with the variables of the reconciliation, which start empty. *)
Definition with_env (c : st (W * EnvVars) unit) : st W EnvVars := λ w,
  let '(o, (w', env)) := c (w, ∅) in
  (match o with Ok _ => Ok env | Err e => Err e | Panic m => Panic m end, w').

Definition createHashOfInputHashes (envVars : EnvVars) : st prstate (string * bool) :=
  let! instance := get_instance in
  let mergedMapVars := MergeEnvs [] envVars in
  let! hash := st_lift (ObjectHash mergedMapVars) in
  let '(hashMap, changed) := SetHash (pst_Hash (ps_Status instance)) InputHashName hash in
  do! (if changed : bool then put_status (pst_with_Hash hashMap) else st_ret tt) then
  st_ret (hash, changed).

(** [bootMode != baremetalv1.ProvisioningNetworkManaged]: a value of type [any]
    equals a constant only when it has the type of the constant. *)
Definition ProvisioningNetworkType : string := "v1beta1.ProvisioningNetwork".
Definition is_ProvisioningNetworkManaged (v : AnyValue) : bool :=
  match v with
  | AnyString type s =>
      String.eqb type ProvisioningNetworkType && String.eqb s ProvisioningNetworkManaged
  | _ => false
  end.

(** [m[k]] of a [map[string]any] *)
Definition any_index (m : gmap string AnyValue) (k : string) : AnyValue := default AnyNil (m !! k).

Definition provisioningInterfaceOf (object : gmap string AnyValue) : string :=
  match any_index object "spec" with
  | AnyMap provisioningSpec =>
      let bootMode := any_index provisioningSpec "provisioningNetwork" in
      if negb (is_ProvisioningNetworkManaged bootMode) then ""
      else
        match any_index provisioningSpec "provisioningInterface" with
        | AnyString type provInterfaceName => if String.eqb type "string" then provInterfaceName else ""
        | _ => ""
        end
  | _ => ""
  end.

Definition getProvisioningInterface : st W string :=
  let! cfg := GetConfig in
  let! dynClient := NewForConfig cfg in
  let! r := st_try (provisionings_Get dynClient "provisioning-configuration") in
  match r with
  | inr err => if err_is_not_found err then st_ret "" else st_err err
  | inl provisioning => st_ret (provisioningInterfaceOf provisioning)
  end.

Definition getProvisioningInterfaceName (instance : OpenStackProvisionServer) : st W string :=
  let provInterfaceName := pss_Interface (ps_Spec instance) in
  if negb (String.eqb provInterfaceName "") then st_ret provInterfaceName
  else getProvisioningInterface.

Definition imageURL (host : string) (port : Z) (filename : string) : string :=
  let host := if IsIPv6 (ParseIP host) then "[" +:+ host +:+ "]" else host in
  "http://" +:+ host +:+ ":" +:+ pretty port +:+ "/" +:+ filename.

Definition getLocalImageURL (instance : OpenStackProvisionServer) (filename : string) : st W string :=
  let host := pst_ProvisionIP (ps_Status instance) in
  let! host :=
    if String.eqb host "" then
      let podSelectorString := LabelSet_String (serviceLabelsFor instance) in
      let! provisionPods := pods_List (ps_Namespace instance) podSelectorString in
      match provisionPods with
      | hostIP :: _ => st_ret hostIP
      | [] => st_panic "index out of range [0] with length 0"
      end
    else st_ret host in
  st_ret (imageURL host (ps_Port instance) filename).

Definition ps_reconcileDelete : st prstate Result :=
  let! instance := get_instance in
  do! put_instance (ps_with_Meta
        (RemoveFinalizer (ps_Meta instance) (GetFinalizer (ps_Kind instance))) instance) then
  st_ret Result_zero.

Definition ps_reconcileInit : st prstate Result := st_ret Result_zero.
Definition ps_reconcileUpdate : st prstate Result := st_ret Result_zero.
Definition ps_reconcileUpgrade : st prstate Result := st_ret Result_zero.

(** The config map and the hash of the inputs; the rest runs when it is unchanged. *)
Definition withInputHash (k : string → st prstate Result) : st prstate Result :=
  let format := cond_const "ServiceConfigReadyErrorMessage" in
  let! instance := get_instance in
  let! configMapVars := or_fail ServiceConfigReadyCondition format
    (on_cluster (with_env (generateServiceConfigMaps instance))) in
  let! r := or_fail ServiceConfigReadyCondition format (createHashOfInputHashes configMapVars) in
  let '(inputHash, hashChanged) := r in
  if hashChanged : bool then st_ret Result_zero
  else
    do! mark_true ServiceConfigReadyCondition (cond_const "ServiceConfigReadyMessage") then
    k inputHash.

(** The interface the image is served on, if any. *)
Definition provInterface : st prstate string :=
  let! instance := get_instance in
  let! provInterfaceName := or_fail OpenStackProvisionServerProvIntfReadyCondition
    OpenStackProvisionServerProvIntfReadyErrorMessage
    (on_cluster (getProvisioningInterfaceName instance)) in
  do! (if String.eqb provInterfaceName ""
       then upd_conditions (λ cs, cond_Remove cs OpenStackProvisionServerProvIntfReadyCondition)
       else st_ret tt) then
  st_ret provInterfaceName.

(** The Deployment; the rest runs when it is ready. *)
Definition withDeployment (inputHash provInterfaceName : string) (k : st prstate Result) :
    st prstate Result :=
  do! put_status (pst_with_LocalImageURL "") then
  let! instance := get_instance in
  let! depl := st_lift (Deployment MergeEnvs instance inputHash (serviceLabelsFor instance) provInterfaceName) in
  let! r := or_fail DeploymentReadyCondition (cond_const "DeploymentReadyErrorMessage")
    (on_cluster (deployment_CreateOrPatch depl 5%Z)) in
  let '(ctrlResult, deploy) := r in
  let running := running_condition DeploymentReadyCondition (cond_const "DeploymentReadyRunningMessage") in
  if decide (ctrlResult = Result_zero) then
    do! (if (dps_Generation deploy =? dps_ObservedGeneration deploy)%Z
         then put_status (pst_with_ReadyCount (dps_ReadyReplicas deploy)) else st_ret tt) then
    if deployment_IsReady deploy then
      do! mark_true DeploymentReadyCondition (cond_const "DeploymentReadyMessage") then k
    else
      do! set_condition running then st_ret (RequeueAfter 10)
  else
    do! set_condition running then st_ret ctrlResult.

(** The address the agent has found on the interface. *)
Definition withProvisionIP (provInterfaceName : string) (k : st prstate Result) : st prstate Result :=
  let condition := OpenStackProvisionServerProvIntfReadyCondition in
  let! instance := get_instance in
  let status := ps_Status instance in
  if negb (String.eqb provInterfaceName "") then
    if negb (String.eqb (pst_ProvisionIPError status) "") then
      let err := Errorf (ErrProvisioningAgent +:+ ": " +:+ pst_ProvisionIPError status) in
      do! set_condition (error_condition condition OpenStackProvisionServerProvIntfReadyErrorMessage err) then
      st_err err
    else if String.eqb (pst_ProvisionIP status) "" then
      do! set_condition (running_condition condition OpenStackProvisionServerProvIntfReadyRunningMessage) then
      st_ret (RequeueAfter 10)
    else
      do! mark_true condition OpenStackProvisionServerProvIntfReadyMessage then k
  else k.

(** [x, err = getLocalImageURL(...)]: the field is assigned on an error too. *)
Definition assignURL (assign : string → OpenStackProvisionServerStatus → OpenStackProvisionServerStatus)
    (condition format filename : string) : st prstate unit :=
  let! instance := get_instance in
  let! r := st_try (on_cluster (getLocalImageURL instance filename)) in
  match r with
  | inl url => put_status (assign url)
  | inr err =>
      do! put_status (assign "") then
      do! upd_conditions (λ cs, cond_MarkFalse cs condition (cond_const "ErrorReason")
            (cond_const "SeverityError") format [err_text err]) then
      st_err err
  end.

Definition withLocalImageURL (k : st prstate Result) : st prstate Result :=
  let condition := OpenStackProvisionServerLocalImageURLReadyCondition in
  let! instance := get_instance in
  do! assignURL pst_with_LocalImageURL condition OpenStackProvisionServerLocalImageURLReadyErrorMessage
        (pss_OSImage (ps_Spec instance)) then
  let! instance := get_instance in
  if negb (String.eqb (pst_LocalImageURL (ps_Status instance)) "") then
    do! mark_true condition OpenStackProvisionServerLocalImageURLReadyMessage then k
  else
    do! set_condition (running_condition condition OpenStackProvisionServerLocalImageURLReadyRunningMessage) then
    st_ret (RequeueAfter 10).

(** [instance.Status.Hash[k] = v]: a nil map panics. *)
Definition put_hash (k v : string) : st prstate unit :=
  let! instance := get_instance in
  match pst_Hash (ps_Status instance) with
  | Some m => put_status (pst_with_Hash (Some (<[k := v]> m)))
  | None => st_panic "assignment to entry in nil map"
  end.

(** The job that finds the checksum of the image. *)
Definition withChecksumJob (k : st prstate Result) : st prstate Result :=
  let condition := OpenStackProvisionServerChecksumReadyCondition in
  let! instance := get_instance in
  let checksumHash := default "" (default ∅ (pst_Hash (ps_Status instance)) !! ChecksumHash) in
  let! jobDef := st_lift (ChecksumJob MergeEnvs instance (serviceLabelsFor instance) ∅) in
  let! r := on_cluster (job_DoJob jobDef ChecksumHash (pss_PreserveJobs (ps_Spec instance))
    (5 * second) checksumHash) in
  if decide (jr_Result r = Result_zero) then
    match jr_Err r with
    | Some err =>
        do! set_condition (error_condition condition OpenStackProvisionServerChecksumReadyErrorMessage err) then
        st_err err
    | None =>
        do! (if jr_HasChanged r then put_hash ChecksumHash (jr_Hash r) else st_ret tt) then k
    end
  else
    do! set_condition (running_condition condition OpenStackProvisionServerChecksumReadyRunningMessage) then
    st_ret (jr_Result r).

Definition finishServer : st prstate Result :=
  let condition := OpenStackProvisionServerChecksumReadyCondition in
  let! instance := get_instance in
  do! assignURL pst_with_LocalImageChecksumURL condition OpenStackProvisionServerChecksumReadyErrorMessage
        (pst_OSImageChecksumFilename (ps_Status instance)) then
  let! instance := get_instance in
  if negb (String.eqb (pst_LocalImageChecksumURL (ps_Status instance)) "") then
    do! mark_true condition OpenStackProvisionServerChecksumReadyMessage then
    let! instance := get_instance in
    do! (if cond_AllSubConditionIsTrue (pst_Conditions (ps_Status instance))
         then mark_true ReadyCondition (cond_const "ReadyMessage") else st_ret tt) then
    st_ret Result_zero
  else
    do! set_condition (running_condition condition OpenStackProvisionServerChecksumReadyRunningMessage) then
    st_ret (RequeueAfter 5).

Definition ps_reconcileNormal : st prstate Result :=
  withInputHash (λ inputHash,
    let! provInterfaceName := provInterface in
    unless_requeued ps_reconcileInit (unless_requeued ps_reconcileUpdate
      (unless_requeued ps_reconcileUpgrade
        (withDeployment inputHash provInterfaceName
          (withProvisionIP provInterfaceName
            (withLocalImageURL (withChecksumJob finishServer))))))).

(** The conditions a reconciliation starts with; [Init] adds Ready. *)
Definition ps_initialConditions : list Condition :=
  [UnknownCondition DeploymentReadyCondition (cond_const "InitReason") (cond_const "DeploymentReadyInitMessage");
   UnknownCondition ServiceConfigReadyCondition (cond_const "InitReason")
     (cond_const "ServiceConfigReadyInitMessage");
   UnknownCondition OpenStackProvisionServerProvIntfReadyCondition (cond_const "InitReason")
     OpenStackProvisionServerProvIntfReadyInitMessage;
   UnknownCondition OpenStackProvisionServerLocalImageURLReadyCondition (cond_const "InitReason")
     OpenStackProvisionServerLocalImageURLReadyInitMessage;
   UnknownCondition OpenStackProvisionServerChecksumReadyCondition (cond_const "InitReason")
     OpenStackProvisionServerChecksumReadyInitMessage;
   UnknownCondition ServiceAccountReadyCondition (cond_const "InitReason")
     (cond_const "ServiceAccountReadyInitMessage");
   UnknownCondition RoleReadyCondition (cond_const "InitReason") (cond_const "RoleReadyInitMessage");
   UnknownCondition RoleBindingReadyCondition (cond_const "InitReason")
     (cond_const "RoleBindingReadyInitMessage")].

(** [RbacConditionsSet] updates the conditions of the instance. *)
Definition reconcileRbac : st prstate Result :=
  let! instance := get_instance in
  st_zoom (λ s, (s.1, pst_Conditions (ps_Status s.2))) (λ t s, (t.1, ps_with_Conditions t.2 s.2))
    (ReconcileRbac instance rbacRules).

(** [Reconcile] after the deferred function is set up. *)
Definition ps_reconcile (isNewInstance : bool) : st prstate Result :=
  let! instance := get_instance in
  let instance := ps_with_Conditions
    (cond_Init (pst_Conditions (ps_Status instance)) ps_initialConditions) instance in
  let deleting := bool_decide (om_DeletionTimestamp (ps_Meta instance) ≠ None) in
  let '(instance, added) :=
    if negb deleting then
      let '(meta, added) := AddFinalizer (ps_Meta instance) (GetFinalizer (ps_Kind instance)) in
      (ps_with_Meta meta instance, added)
    else (instance, false) in
  do! put_instance instance then
  if added || isNewInstance then st_ret Result_zero
  else
    do! put_instance (upd_pstatus (λ s, pst_with_Hash (Some (default ∅ (pst_Hash s))) s) instance) then
    if deleting then ps_reconcileDelete
    else unless_requeued reconcileRbac ps_reconcileNormal.

(** What the deferred function does to the instance before it patches it. *)
Definition ps_finish (savedConditions : Conditions) (p : OpenStackProvisionServer) :
    OpenStackProvisionServer :=
  ps_with_Conditions (finish_conditions savedConditions (pst_Conditions (ps_Status p))) p.

Definition ps_Reconcile (namespace name : string) : st W Result := λ w,
  match ps_Get namespace name w with
  | (Err err, w) => if err_is_not_found err then (Ok Result_zero, w) else (Err err, w)
  | (Panic m, w) => (Panic m, w)
  | (Ok instance, w) =>
      if IsPaused (om_Annotations (ps_Meta instance)) &&
         bool_decide (om_DeletionTimestamp (ps_Meta instance) = None)
      then (Ok Result_zero, w)
      else
        match ps_NewHelper instance w with
        | (Err err, w) => (Err err, w)
        | (Panic m, w) => (Panic m, w)
        | (Ok _, w) =>
            let isNewInstance := bool_decide (pst_Conditions (ps_Status instance) = None) in
            let started := if isNewInstance then ps_with_Conditions (Some []) instance else instance in
            let savedConditions := pst_Conditions (ps_Status started) in
            match ps_reconcile isNewInstance (w, started) with
            | (Panic m, (w, _)) =>
                (Err (Errorf (ErrProvisionServerReconciliationPanic +:+ ": " +:+ m)), w)
            | (o, (w, reconciled)) =>
                match ps_PatchInstance instance (ps_finish savedConditions reconciled) w with
                | (Ok _, w) => (o, w)
                | (Err err, w) => (Err err, w)
                | (Panic m, w) => (Panic m, w)
                end
            end
        end
  end.

End code.

(** ** What the packages promise *)

(** The conditions [rbac.ReconcileRbac] sets. *)
Definition rbac_types `{ConditionLib} : list string :=
  [ServiceAccountReadyCondition; RoleReadyCondition; RoleBindingReadyCondition].

Class ProvLibLaws `{ProvLib} : Prop := {
  SetHash_spec : ∀ m t h, (SetHash m t h).1 = Some (<[t := h]> (default ∅ m)) ∧
    ((SetHash m t h).2 = false ↔ default ∅ m !! t = Some h);
  IsIPv6_spec : ∀ ip, IsIPv6 ip = true ↔ ∃ b, ip = Some b ∧ To4 b = None;
}.

(** [ReconcileRbac] sets no other condition, and removes none. *)
Class ProvClientLaws (W : Type) `{ProvClient W} `{ConditionLib} : Prop := {
  ReconcileRbac_conditions : ∀ p rules s, let s' := (ReconcileRbac p rules s).2 in
    (∀ t, t ∉ rbac_types → cond_status s'.2 t = cond_status s.2 t) ∧
    (∀ t, is_Some (cond_status s.2 t) → is_Some (cond_status s'.2 t));
}.

(** ** A cluster in memory *)

(** What the reconciler meets: the servers, the addresses of the pods, the
    provisioning configuration, what the Deployment and the job report, and the
    calls that fail. *)
Record pmem := mkPmem {
  pm_servers : gmap (string * string) OpenStackProvisionServer;
  pm_pods : list string;
  pm_provisioning : option (gmap string AnyValue);
  pm_deployment : DeploymentState;
  pm_job : JobRun;
  pm_faults : list string;
}.

Definition pmem_call {A} (op : string) (c : st pmem A) : st pmem A := λ w,
  if bool_decide (op ∈ pm_faults w) then (Err (Errorf (op +:+ " failed")), w) else c w.

Definition pmem_store (p : OpenStackProvisionServer) (w : pmem) : pmem :=
  mkPmem (<[ps_key p := p]> (pm_servers w)) (pm_pods w) (pm_provisioning w) (pm_deployment w)
    (pm_job w) (pm_faults w).

Definition pmem_rbac_conditions (cs : Conditions) : Conditions :=
  foldr (λ t cs, cond_MarkTrue cs t "ready") cs (rbac_types (H := mem_conditions)).

#[export] Instance pmem_client : ProvClient pmem := {
  ps_Get ns n := pmem_call "prov.Get" (λ w,
    match pm_servers w !! (ns, n) with
    | Some p => (Ok p, w)
    | None => (Err (not_found n), w)
    end);
  ps_NewHelper _ := pmem_call "helper.New" (st_ret tt);
  ps_PatchInstance _ p := pmem_call "prov.Patch" (st_modify (pmem_store p));
  ReconcileRbac _ _ := st_zoom snd (λ cs s, (s.1, cs))
    (do! st_modify pmem_rbac_conditions then st_ret Result_zero);
  EnsureConfigMaps _ ts := λ s,
    if bool_decide ("configmap.Ensure" ∈ pm_faults s.1) then (Err (Errorf "configmap.Ensure failed"), s)
    else (Ok tt, (s.1, foldr (λ t e, <[tpl_Name t := "hash-" +:+ tpl_Name t]> e) s.2 ts));
  deployment_CreateOrPatch _ _ := pmem_call "deployment.Patch" (st_gets (λ w, (Result_zero, pm_deployment w)));
  job_DoJob _ _ _ _ _ := st_gets pm_job;
  pods_List _ _ := pmem_call "pods.List" (st_gets pm_pods);
  RestConfig := unit;
  DynClient := unit;
  GetConfig := pmem_call "config.Get" (st_ret tt);
  NewForConfig _ := st_ret tt;
  provisionings_Get _ n := λ w,
    match pm_provisioning w with
    | Some object => (Ok object, w)
    | None => (Err (not_found n), w)
    end;
}.

#[export] Instance pmem_lib : ProvLib := {
  AppSelector := "service";
  InputHashName := "input";
  MergeEnvs l env := l ++ ((λ kv, mkEnvVar kv.1 kv.2) <$> map_to_list env);
  ObjectHash l := Ok (String.concat "," (ev_Value <$> l));
  SetHash m t h :=
    if decide (default ∅ m !! t = Some h) then (Some (default ∅ m), false)
    else (Some (<[t := h]> (default ∅ m)), true);
  LabelSet_String m := String.concat "," ((λ kv, kv.1 +:+ "=" +:+ kv.2) <$> map_to_list m);
  IsIPv6 ip := bool_decide (ip ≠ None) && bool_decide (ip ≫= To4 = None);
  deployment_IsReady d := (dps_Generation d =? dps_ObservedGeneration d)%Z &&
    (dps_SpecReplicas d =? dps_ReadyReplicas d)%Z && (dps_Replicas d =? dps_ReadyReplicas d)%Z;
}.

#[export] Instance pmem_lib_laws : ProvLibLaws.
Proof.
  constructor.
  - intros m t h. simpl. case_decide as Hl; simpl; [|by split].
    split; [by rewrite insert_id|by split].
  - intros ip. simpl. rewrite andb_true_iff, !bool_decide_eq_true. destruct ip as [b|]; simpl; [|naive_solver].
    split; [intros [_ ?]; by exists b|intros (? & [= <-] & ?); done].
Qed.

Lemma mark_all_status ts (cs : Conditions) t :
  cond_status (foldr (λ t cs, cond_MarkTrue cs t "ready") cs ts) t =
    if decide (t ∈ ts) then Some ConditionTrue else cond_status cs t.
Proof.
  induction ts as [|t' ts IH]; [done|]. cbn [foldr]. rewrite cond_MarkTrue_spec, IH.
  destruct (decide (t = t')) as [->|Hne]; [by rewrite decide_True by apply list_elem_of_here|].
  apply decide_ext. rewrite elem_of_cons. naive_solver.
Qed.

#[export] Instance pmem_laws : ProvClientLaws pmem.
Proof.
  constructor. intros p rules [w cs]. simpl. unfold pmem_rbac_conditions. split; intros t Ht; rewrite mark_all_status.
  - by rewrite decide_False.
  - case_decide; [by eexists|done].
Qed.

(** ** Properties *)

(** The URL of a file is never empty, names the host as it is when the host is
    a dotted IPv4 address or a name, and in brackets when it is an IPv6 address. *)
Theorem imageURL_brackets `{ProvLib} `{!ProvLibLaws} host port filename :
  imageURL host port filename ≠ "" ∧
  (∀ b, ParseIP host = Some b → To4 b = None →
    imageURL host port filename = "http://[" +:+ host +:+ "]:" +:+ pretty port +:+ "/" +:+ filename) ∧
  (ParseIP host = None →
    imageURL host port filename = "http://" +:+ host +:+ ":" +:+ pretty port +:+ "/" +:+ filename) ∧
  ∀ a b c d, octets a b c d → host = print_ipv4 a b c d →
    imageURL host port filename = "http://" +:+ host +:+ ":" +:+ pretty port +:+ "/" +:+ filename.
Proof.
  unfold imageURL. pose proof (IsIPv6_spec (ParseIP host)) as Hs. split_and!.
  - discriminate.
  - intros b Hb H4. rewrite (proj2 Hs) by (by exists b). by rewrite !string_app_assoc.
  - intros Hn. rewrite (not_true_is_false (IsIPv6 _)); [done|]. rewrite Hs, Hn. by intros (? & [=] & _).
  - intros a b c d Ho ->. rewrite (not_true_is_false (IsIPv6 _)); [done|].
    rewrite Hs, (ParseIP_dotted a b c d Ho). intros (x & Hx & H4).
    assert (x = v4InV6Prefix ++ [a; b; c; d]) as -> by congruence. by rewrite To4_mapped in H4.
Qed.

Lemma imageURL_brackets_witness :
  imageURL "fd00::1" 6190 "image.qcow2" = "http://[fd00::1]:6190/image.qcow2" ∧
  imageURL "10.0.0.1" 6190 "image.qcow2" = "http://10.0.0.1:6190/image.qcow2".
Proof.
  split.
  - etrans; [apply (proj1 (proj2 (imageURL_brackets "fd00::1" 6190 "image.qcow2"))
      ([253; 0] ++ replicate 13 0 ++ [1])%Z); vm_refl|vm_refl].
  - etrans; [eapply (proj2 (proj2 (proj2 (imageURL_brackets "10.0.0.1" 6190 "image.qcow2")))
      10 0 0 1)%Z; [by_compute|vm_refl]|vm_refl].
Defined.

(** When the packages that decode the provisioning configuration give strings
    their own type, the reconciler finds no provisioning interface in it, whatever
    the configuration says: the interface is the one of the spec. *)
Definition decoded (object : gmap string AnyValue) : Prop :=
  ∀ k m k' type s, object !! k = Some (AnyMap m) → m !! k' = Some (AnyString type s) → type = "string".

Theorem getProvisioningInterfaceName_spec_only {W} `{ProvClient W} p (w w' : W) intf :
  (∀ cfg cl w1 w2 object w3, GetConfig w = (Ok cfg, w1) → NewForConfig cfg w1 = (Ok cl, w2) →
    provisionings_Get cl "provisioning-configuration" w2 = (Ok object, w3) → decoded object) →
  getProvisioningInterfaceName p w = (Ok intf, w') → intf = pss_Interface (ps_Spec p).
Proof.
  intros Hdec. unfold getProvisioningInterfaceName.
  destruct (String.eqb_spec (pss_Interface (ps_Spec p)) "") as [->|Hne]; simpl;
    [|by intros [-> _]%st_ret_inv].
  unfold getProvisioningInterface. intros (cfg & w1 & Hcfg & Hr)%st_bind_ok.
  apply st_bind_ok in Hr as (cl & w2 & Hcl & Hr). apply st_bind_ok in Hr as (r & w3 & Ht & Hr).
  unfold st_try in Ht. destruct (provisionings_Get _ _ w2) as [[object|e|m] w4] eqn:Hget; [|..]; simplify_eq.
  - apply st_ret_inv in Hr as [-> _]. unfold provisioningInterfaceOf.
    destruct (any_index object "spec") as [| |m|] eqn:Hspec; try done.
    unfold any_index in Hspec. destruct (object !! "spec") as [v|] eqn:Hv; simplify_eq/=.
    destruct (any_index m "provisioningNetwork") as [|type s| |] eqn:Hmode; try done.
    unfold any_index in Hmode. destruct (m !! "provisioningNetwork") as [v|] eqn:Hv'; simplify_eq/=.
    by rewrite (Hdec _ _ _ _ _ _ Hcfg Hcl Hget _ _ _ _ _ Hv Hv').
  - destruct (err_is_not_found e); [by apply st_ret_inv in Hr as [-> _]|done].
Qed.

Definition managed_configuration : gmap string AnyValue :=
  {["spec" := AnyMap {["provisioningNetwork" := AnyString "string" "Managed";
                       "provisioningInterface" := AnyString "string" "enp1s0"]}]}.
Definition served_mem (faults : list string) : pmem :=
  mkPmem {[("openstack", "ps") := sample_prov "openstack" "ps" 6190]} ["10.0.0.7"]
    (Some managed_configuration) (mkDeploymentState 1 1 1 1 1) (mkJobRun Result_zero None true "sum") faults.

Lemma managed_decoded k m k' type s :
  managed_configuration !! k = Some (AnyMap m) → m !! k' = Some (AnyString type s) → type = "string".
Proof.
  unfold managed_configuration. rewrite lookup_singleton_Some. intros [_ [= <-]].
  rewrite lookup_insert_Some, lookup_singleton_Some. naive_solver.
Qed.

Lemma getProvisioningInterfaceName_spec_only_witness :
  getProvisioningInterfaceName (sample_prov "openstack" "ps" 6190) (served_mem []) = (Ok "", served_mem []) ∧
  "" = pss_Interface (ps_Spec (sample_prov "openstack" "ps" 6190)).
Proof.
  assert (Hr : getProvisioningInterfaceName (sample_prov "openstack" "ps" 6190) (served_mem []) =
    (Ok "", served_mem [])) by vm_refl.
  split; [exact Hr|].
  refine (getProvisioningInterfaceName_spec_only _ _ _ _ _ Hr).
  intros cfg cl w1 w2 object w3 [= <- <-] [= <- <-] [= <- <-]. exact managed_decoded.
Defined.

(** A failure to write the config map is dropped: when the hash of the
    variables collected so far is the stored one, the reconciliation goes on and
    reports the service configuration as ready. *)
Theorem configmap_failure_ignored {W} `{ProvClient W} `{ProvLib} `{!ProvLibLaws} `{LibCommon}
    `{ConditionLib} `{!ConditionLaws} k p (w w' : W) e env hash :
  EnsureConfigMaps p (httpdTemplates p) (w, ∅) = (Err e, (w', env)) →
  ObjectHash (MergeEnvs [] env) = Ok hash →
  default ∅ (pst_Hash (ps_Status p)) !! InputHashName = Some hash →
  ∃ p', withInputHash k (w, p) = k hash (w', p') ∧ ps_Spec p' = ps_Spec p ∧
    inst_status p' ServiceConfigReadyCondition = Some ConditionTrue.
Proof.
  intros He Hh Hst.
  destruct (SetHash_spec (pst_Hash (ps_Status p)) InputHashName hash) as [_ Hch].
  eexists. split; [|split].
  - unfold withInputHash, or_fail, on_cluster, with_env, generateServiceConfigMaps, createHashOfInputHashes,
      get_instance, mark_true, upd_conditions, st_bind, st_catch, st_try, st_zoom, st_gets, st_lift, st_modify.
    simpl. rewrite He. simpl. rewrite Hh. simpl.
    destruct (SetHash _ _ _) as [m changed]. simpl in Hch. rewrite (proj2 Hch Hst). simpl. reflexivity.
  - done.
  - unfold inst_status. simpl. rewrite cond_MarkTrue_spec. by rewrite decide_True.
Qed.

(** A server whose stored input hash is the one of no input. *)
Definition hashed_prov (h : string) : OpenStackProvisionServer :=
  upd_pstatus (pst_with_Hash (Some {["input" := h]})) (sample_prov "openstack" "ps" 6190).

Lemma configmap_failure_ignored_witness :
  ∃ p', withInputHash (λ _, st_ret Result_zero) (served_mem ["configmap.Ensure"], hashed_prov "") =
      (Ok Result_zero, (served_mem ["configmap.Ensure"], p')) ∧
    inst_status p' ServiceConfigReadyCondition = Some ConditionTrue.
Proof.
  destruct (configmap_failure_ignored (λ _, st_ret Result_zero) (hashed_prov "")
    (served_mem ["configmap.Ensure"]) (served_mem ["configmap.Ensure"])
    (Errorf "configmap.Ensure failed") ∅ "" ltac:(vm_refl) ltac:(vm_refl) ltac:(vm_refl)) as (p' & Hr & _ & Hs).
  exists p'. split; [exact Hr|exact Hs].
Defined.

(** The hash of the inputs is recorded, a change is reported exactly when the
    recorded hash was another one, and the same inputs then give no change: the
    reconciliation they interrupt is interrupted once. *)
Theorem createHashOfInputHashes_settles {W} `{ProvLib} `{!ProvLibLaws} env p (w : W) hash :
  ObjectHash (MergeEnvs [] env) = Ok hash →
  ∃ p', createHashOfInputHashes env (w, p) =
      (Ok (hash, bool_decide (default ∅ (pst_Hash (ps_Status p)) !! InputHashName ≠ Some hash)), (w, p')) ∧
    default ∅ (pst_Hash (ps_Status p')) !! InputHashName = Some hash ∧
    createHashOfInputHashes env (w, p') = (Ok (hash, false), (w, p')).
Proof.
  intros Hh.
  assert (Hrun : ∀ q, createHashOfInputHashes env (w, q) =
    (Ok (hash, (SetHash (pst_Hash (ps_Status q)) InputHashName hash).2), (w,
      if (SetHash (pst_Hash (ps_Status q)) InputHashName hash).2
      then upd_pstatus (pst_with_Hash (SetHash (pst_Hash (ps_Status q)) InputHashName hash).1) q else q))).
  { intros q. unfold createHashOfInputHashes, get_instance, put_status, st_bind, st_gets, st_lift, st_modify. simpl.
    rewrite Hh. simpl. by destruct (SetHash _ _ _) as [m []]. }
  assert (Hno : ∀ q, default ∅ (pst_Hash (ps_Status q)) !! InputHashName = Some hash →
    createHashOfInputHashes env (w, q) = (Ok (hash, false), (w, q))).
  { intros q Hq. rewrite Hrun. by rewrite (proj2 (proj2 (SetHash_spec _ _ _)) Hq). }
  destruct (SetHash_spec (pst_Hash (ps_Status p)) InputHashName hash) as [Hm Hch].
  destruct (decide (default ∅ (pst_Hash (ps_Status p)) !! InputHashName = Some hash)) as [Heq|Hne].
  - exists p. rewrite bool_decide_eq_false_2 by tauto. by rewrite (Hno p Heq).
  - exists (upd_pstatus (pst_with_Hash (Some (<[InputHashName := hash]> (default ∅ (pst_Hash (ps_Status p)))))) p).
    assert (Hst : default ∅ (pst_Hash (ps_Status (upd_pstatus (pst_with_Hash (Some (<[InputHashName := hash]>
      (default ∅ (pst_Hash (ps_Status p)))))) p))) !! InputHashName = Some hash) by apply lookup_insert_eq.
    split_and!; [|exact Hst|by apply Hno]. rewrite Hrun, Hm, bool_decide_eq_true_2 by done.
    destruct (SetHash _ _ _).2; [done|]. by destruct Hne; apply Hch.
Qed.

Lemma createHashOfInputHashes_settles_witness :
  ∃ p', createHashOfInputHashes ∅ (served_mem [], hashed_prov "old") = (Ok ("", true), (served_mem [], p')) ∧
    createHashOfInputHashes ∅ (served_mem [], p') = (Ok ("", false), (served_mem [], p')).
Proof.
  destruct (createHashOfInputHashes_settles ∅ (hashed_prov "old") (served_mem []) "" ltac:(vm_refl))
    as (p' & Hr & _ & Hs).
  exists p'. split; [etrans; [exact Hr|vm_refl]|exact Hs].
Defined.

(** Once the checksum job is done on a server whose agent has found an address,
    the checksum is reported ready with the URL of the file name in the status,
    also when that file name is empty: no URL is ever empty, so the wait for one
    never happens. Ready follows unless another condition is not true. *)
Theorem finishServer_ready_without_filename {W} `{ProvClient W} `{ProvLib} `{LibCommon} `{ConditionLib}
    `{!ConditionLaws} p (w : W) :
  pst_ProvisionIP (ps_Status p) ≠ "" →
  ∃ p', finishServer (w, p) = (Ok Result_zero, (w, p')) ∧
    pst_LocalImageChecksumURL (ps_Status p') =
      imageURL (pst_ProvisionIP (ps_Status p)) (ps_Port p) (pst_OSImageChecksumFilename (ps_Status p)) ∧
    inst_status p' OpenStackProvisionServerChecksumReadyCondition = Some ConditionTrue ∧
    pst_LocalImageURL (ps_Status p') = pst_LocalImageURL (ps_Status p) ∧
    (∀ t, inst_status p t = Some ConditionTrue → inst_status p' t = Some ConditionTrue) ∧
    (cond_unique (pst_Conditions (ps_Status p)) →
     (∀ t s, t ∉ [ReadyCondition; OpenStackProvisionServerChecksumReadyCondition] →
        inst_status p t = Some s → s = ConditionTrue) →
     inst_status p' ReadyCondition = Some ConditionTrue).
Proof.
  intros Hip. apply String.eqb_neq in Hip.
  assert (Hne : OpenStackProvisionServerChecksumReadyCondition ≠ ReadyCondition).
  { pose proof cond_types_distinct as Hd. rewrite !NoDup_cons, !not_elem_of_cons in Hd.
    destruct_and! Hd. by apply not_eq_sym. }
  assert (Hrun : getLocalImageURL p (pst_OSImageChecksumFilename (ps_Status p)) w =
    (Ok (imageURL (pst_ProvisionIP (ps_Status p)) (ps_Port p) (pst_OSImageChecksumFilename (ps_Status p))), w)).
  { unfold getLocalImageURL. by rewrite Hip. }
  set (url := imageURL _ _ _) in *. assert (Hu : String.eqb url "" = false) by done. clearbody url.
  unfold finishServer, assignURL, get_instance, on_cluster, put_status, mark_true, upd_conditions,
    st_bind, st_try, st_zoom, st_gets, st_modify.
  simpl. rewrite Hrun. simpl. rewrite Hu. simpl.
  destruct (cond_AllSubConditionIsTrue _) eqn:Hall; (eexists; split; [reflexivity|split; [done|split; [|split; [done|split]]]]);
    try (intros t Ht; unfold inst_status in *; simpl; rewrite ?cond_MarkTrue_spec; by repeat case_decide).
  - unfold inst_status. simpl. by rewrite cond_MarkTrue_spec, decide_False, cond_MarkTrue_spec, decide_True.
  - unfold inst_status. simpl. by rewrite cond_MarkTrue_spec, decide_True.
  - intros Hu' Hothers. rewrite cond_AllSub_complete in Hall; [done|by apply cond_MarkTrue_unique|].
    intros t s Ht. rewrite cond_MarkTrue_spec. case_decide as Hc; [by intros [= <-]|]. apply Hothers.
    rewrite !not_elem_of_cons. by split_and!; [..|apply not_elem_of_nil].
Qed.

(** A server whose agent has found an address, with no checksum file known. *)
Definition addressed_prov : OpenStackProvisionServer :=
  ps_with_Status (mkProvStatus 1 (Some []) (Some ∅) "10.0.0.1" "" "" "" "" "") (sample_prov "openstack" "ps" 6190).

Lemma finishServer_ready_without_filename_witness :
  ∃ p', finishServer (served_mem [], addressed_prov) = (Ok Result_zero, (served_mem [], p')) ∧
    pst_LocalImageChecksumURL (ps_Status p') = "http://10.0.0.1:6190/" ∧
    inst_status p' OpenStackProvisionServerChecksumReadyCondition = Some ConditionTrue.
Proof.
  destruct (finishServer_ready_without_filename addressed_prov (served_mem []) ltac:(discriminate))
    as (p' & Hr & Hu & Hs & _).
  exists p'. split; [exact Hr|split; [etrans; [exact Hu|vm_refl]|exact Hs]].
Defined.

(** Without pods the reconciler of a ready Deployment panics; the panic is
    contained: it is returned as an error, on the cluster as it was when the
    reconciliation was interrupted, and the status is not written. *)
Theorem ps_Reconcile_contains_panics {W} `{ProvClient W} `{ProvLib} `{LibCommon} `{ConditionLib}
    namespace name (w : W) p w1 w2 :
  ps_Get namespace name w = (Ok p, w1) → ps_NewHelper p w1 = (Ok tt, w2) →
  IsPaused (om_Annotations (ps_Meta p)) = false → pst_Conditions (ps_Status p) ≠ None →
  (∀ m w3 p3, ps_reconcile false (w2, p) = (Panic m, (w3, p3)) →
    ps_Reconcile namespace name w =
      (Err (Errorf ("provision server reconciliation panic occurred: " +:+ m)), w3)) ∧
  (∀ q filename w3 w4, pst_ProvisionIP (ps_Status q) = "" →
    pods_List (ps_Namespace q) (LabelSet_String (serviceLabelsFor q)) w3 = (Ok [], w4) →
    getLocalImageURL q filename w3 = (Panic "index out of range [0] with length 0", w4)).
Proof.
  intros Hget Hhelp Hpause Hnew. split.
  - intros m w3 p3 Hr. unfold ps_Reconcile. rewrite Hget, Hpause. simpl.
    rewrite Hhelp, bool_decide_eq_false_2 by done. by rewrite Hr.
  - intros q filename w3 w4 Hip Hpods. unfold getLocalImageURL. rewrite Hip. cbn [String.eqb].
    unfold st_bind. by rewrite Hpods.
Qed.

Definition finalized_prov : OpenStackProvisionServer :=
  ps_with_Meta (mem_with_finalizers ["openstack.org/OpenStackProvisionServer"] (sample_meta "openstack" "ps" ∅))
    (hashed_prov "hash-ps-httpd-config").
(** Its Deployment is ready, but no pod is listed. *)
Definition podless_mem : pmem :=
  mkPmem {[("openstack", "ps") := finalized_prov]} [] None (mkDeploymentState 1 1 1 1 1)
    (mkJobRun Result_zero None true "sum") [].

Lemma ps_Reconcile_contains_panics_witness :
  ps_Reconcile "openstack" "ps" podless_mem =
    (Err (Errorf "provision server reconciliation panic occurred: index out of range [0] with length 0"),
     podless_mem).
Proof.
  set (r := ps_reconcile false (podless_mem, finalized_prov)).
  assert (Hr := run_outcome r (Panic "index out of range [0] with length 0") ltac:(vm_refl)).
  etrans; [exact (proj1 (ps_Reconcile_contains_panics "openstack" "ps" podless_mem finalized_prov
    podless_mem podless_mem ltac:(vm_refl) ltac:(vm_refl) ltac:(vm_refl) ltac:(discriminate)) _ _ _ Hr)|vm_refl].
Defined.

(** A server that is being deleted loses the finalizer of the reconciler, and
    nothing else of its metadata, its spec or its other status: the deletion waits
    for no call but the patch. *)
Theorem ps_Reconcile_deletes {W} `{ProvClient W} `{ProvLib} `{LibCommon} `{!LibCommonLaws} `{ConditionLib}
    namespace name (w : W) p w1 w2 :
  ps_Get namespace name w = (Ok p, w1) → ps_NewHelper p w1 = (Ok tt, w2) →
  om_DeletionTimestamp (ps_Meta p) ≠ None → pst_Conditions (ps_Status p) ≠ None →
  ∃ q, om_Finalizers (ps_Meta q) = filter (λ f, f ≠ GetFinalizer (ps_Kind p)) (om_Finalizers (ps_Meta p)) ∧
    ps_Spec q = ps_Spec p ∧ pst_LocalImageURL (ps_Status q) = pst_LocalImageURL (ps_Status p) ∧
    ps_Reconcile namespace name w =
      match ps_PatchInstance p q w2 with
      | (Ok _, w3) => (Ok Result_zero, w3)
      | (Err e, w3) => (Err e, w3)
      | (Panic m, w3) => (Panic m, w3)
      end.
Proof.
  intros Hget Hhelp Hdel Hnew.
  eexists. split; [|split; [|split]]; cycle 3.
  - unfold ps_Reconcile. rewrite Hget, (bool_decide_eq_false_2 _ Hdel), andb_false_r, Hhelp.
    rewrite bool_decide_eq_false_2 by done.
    unfold ps_reconcile, get_instance, put_instance, st_bind, st_gets, st_modify. simpl.
    rewrite bool_decide_eq_true_2 by done. simpl. reflexivity.
  - simpl. apply RemoveFinalizer_spec.
  - done.
  - done.
Qed.

Definition deleted_prov : OpenStackProvisionServer :=
  let o := ps_Meta finalized_prov in
  ps_with_Meta (mkObjectMeta (om_Name o) (om_Namespace o) (om_UID o) (om_Generation o) (om_Labels o)
    (om_Annotations o) (om_Finalizers o) (Some 1%Z)) finalized_prov.
Definition deleting_mem : pmem :=
  mkPmem {[("openstack", "ps") := deleted_prov]} [] None (mkDeploymentState 1 1 1 1 1)
    (mkJobRun Result_zero None true "sum") [].

Lemma ps_Reconcile_deletes_witness :
  ∃ q, om_Finalizers (ps_Meta q) = [] ∧
    ps_Reconcile "openstack" "ps" deleting_mem = (Ok Result_zero, pmem_store q deleting_mem).
Proof.
  destruct (ps_Reconcile_deletes "openstack" "ps" deleting_mem deleted_prov deleting_mem deleting_mem
    ltac:(vm_refl) ltac:(vm_refl) ltac:(discriminate) ltac:(discriminate)) as (q & Hf & _ & _ & Hr).
  exists q. split; [etrans; [exact Hf|vm_refl]|exact Hr].
Defined.
