(* ===== verification/ProvReady.v ===== *)
(** * When a provision server is ready

    What the conditions of an OpenStackProvisionServer promise at the end of a
    reconciliation, by following the reconciler of [ProvController] step by step:
    nothing says that the checksum is known until the last step, and Ready is set
    only when every other condition is true. *)

From S2P Require Import Prelude GoNet ApiTypes Samples Kube MemCluster Conditions Reconciler.
From S2P Require Import ProvWorkloads ProvController.

(** ** The conditions along a reconciliation *)

Section ready.
Context {W : Type} `{Hc : ProvClient W} `{Hp : ProvLib} `{Hlib : LibCommon}.
Context `{Hcl : ConditionLib} `{Hcw : !ConditionLaws} `{Hcr : !ProvClientLaws W}.
Abbreviation PS := (prstate (W := W)).
Abbreviation ChecksumReady := OpenStackProvisionServerChecksumReadyCondition.
Abbreviation URLReady := OpenStackProvisionServerLocalImageURLReadyCondition.
Abbreviation IntfReady := OpenStackProvisionServerProvIntfReadyCondition.

(** The condition types a server reports besides Ready and the interface. *)
Definition ps_sub_types : list string :=
  [DeploymentReadyCondition; ServiceConfigReadyCondition; URLReady; ChecksumReady;
   ServiceAccountReadyCondition; RoleReadyCondition; RoleBindingReadyCondition].

Lemma ps_types_distinct : NoDup (ReadyCondition :: IntfReady :: ps_sub_types).
Proof.
  pose proof cond_types_distinct as Hd. unfold ps_sub_types.
  rewrite !NoDup_cons, !not_elem_of_cons in Hd. destruct_and! Hd.
  rewrite !NoDup_cons, !not_elem_of_cons. split_and!;
    first [done | by apply not_eq_sym | apply not_elem_of_nil | apply NoDup_nil_2].
Qed.

Lemma ps_ready_not_sub : (ReadyCondition ∉ ps_sub_types) ∧ (IntfReady ∉ ps_sub_types) ∧ IntfReady ≠ ReadyCondition.
Proof.
  pose proof ps_types_distinct as [[Hi Hr]%not_elem_of_cons [Hs _]%NoDup_cons]%NoDup_cons.
  by split_and!.
Qed.

Lemma sub_ne t : t ∈ ps_sub_types → t ≠ ReadyCondition.
Proof. destruct ps_ready_not_sub as [Hr _]. by intros Ht ->. Qed.

(** While the work goes on: nothing says that the checksum is known. *)
Record ps_progress (p : OpenStackProvisionServer) : Prop := {
  pp_ready : inst_status p ReadyCondition = Some ConditionUnknown;
  pp_checksum : inst_status p ChecksumReady ≠ Some ConditionTrue;
  pp_sub : Forall (λ t, is_Some (inst_status p t)) ps_sub_types;
}.

(** The URL of a file, on the address of the agent when there is one. *)
Definition url_for (p : OpenStackProvisionServer) (url filename : string) : Prop :=
  ∃ host, url = imageURL host (ps_Port p) filename ∧
    (pst_ProvisionIP (ps_Status p) ≠ "" → host = pst_ProvisionIP (ps_Status p)).

Definition intf_has_ip (p : OpenStackProvisionServer) : Prop :=
  pss_Interface (ps_Spec p) ≠ "" →
  pst_ProvisionIP (ps_Status p) ≠ "" ∧ pst_ProvisionIPError (ps_Status p) = "".

Definition image_served (p : OpenStackProvisionServer) : Prop :=
  intf_has_ip p ∧ url_for p (pst_LocalImageURL (ps_Status p)) (pss_OSImage (ps_Spec p)).

Definition served (p : OpenStackProvisionServer) : Prop :=
  image_served p ∧
  url_for p (pst_LocalImageChecksumURL (ps_Status p)) (pst_OSImageChecksumFilename (ps_Status p)).

(** When the work ends. *)
Record ps_sound (p : OpenStackProvisionServer) : Prop := {
  ps_sound_ready : inst_status p ReadyCondition = Some ConditionUnknown ∨
    inst_status p ReadyCondition = Some ConditionTrue ∧
    Forall (λ t, inst_status p t = Some ConditionTrue) ps_sub_types;
  ps_sound_sub : Forall (λ t, is_Some (inst_status p t)) ps_sub_types;
  ps_sound_served : inst_status p ChecksumReady = Some ConditionTrue → served p;
}.

Definition ps_ends {A} (o : outcome A) (s : PS) : Prop :=
  match o with Panic _ => True | _ => ps_sound s.2 end.

(** Progress, and a property of the instance that does not look at the conditions. *)
Definition cond_irrelevant (F : OpenStackProvisionServer → Prop) : Prop :=
  ∀ c p, F p → F (ps_with_Conditions c p).
Definition going (F : OpenStackProvisionServer → Prop) (s : PS) : Prop := ps_progress s.2 ∧ F s.2.

Lemma ps_progress_sound p : ps_progress p → ps_sound p.
Proof. intros [? ? ?]. split; [by left|done|done]. Qed.

Lemma going_ret F r : triple (going F) (st_ret r) (ps_ends (A := Result)).
Proof. apply triple_ret. intros s [? _]. by apply ps_progress_sound. Qed.

Lemma going_err {A} F e : triple (going F) (st_err e) (ps_ends (A := A)).
Proof. apply triple_err. intros s [? _]. by apply ps_progress_sound. Qed.

(** Setting a condition other than Ready, and not ChecksumReady to true. *)
Lemma going_update F f t v Q :
  cond_irrelevant F → t ≠ ReadyCondition → (t = ChecksumReady → v ≠ ConditionTrue) →
  (∀ cs t', cond_status (f cs) t' = if decide (t' = t) then Some v else cond_status cs t') →
  (∀ s, going F s → Q (Ok tt) s) → triple (going F) (upd_conditions f : st PS unit) Q.
Proof.
  intros HF Ht Hst Hf HQ. apply triple_modify. intros [w p] [[Hr Hb Hs] HFp]. apply HQ.
  split; [|by apply HF]. simpl in *. unfold inst_status in *. simpl in *.
  split; unfold inst_status; simpl.
  - rewrite Hf. by case_decide.
  - rewrite Hf. case_decide; [|done]. subst. intros [= ->]. by apply Hst.
  - eapply Forall_impl; [exact Hs|]. intros t' [? Ht']. rewrite Hf. case_decide; [by eexists|by exists x].
Qed.

(** A condition that is not true, then the rest. *)
Lemma going_false {A} F (c : Condition) (k : st PS A) Q :
  cond_irrelevant F → cond_Type c ≠ ReadyCondition → cond_Status c = ConditionFalse →
  triple (going F) k Q → triple (going F) (do! set_condition c then k) Q.
Proof.
  intros HF Ht Hs Hk. eapply triple_bind with (R := λ _, going F); [|by intros _].
  eapply (going_update F _ (cond_Type c) ConditionFalse); [done..| |by intros s].
  intros cs t'. by rewrite cond_Set_spec, Hs.
Qed.

Lemma going_true F t format (k : st PS Result) Q :
  cond_irrelevant F → t ≠ ReadyCondition → t ≠ ChecksumReady →
  triple (going F) k Q → triple (going F) (do! mark_true t format then k) Q.
Proof.
  intros HF Ht Hch Hk. eapply triple_bind with (R := λ _, going F); [|by intros _].
  eapply (going_update F _ t ConditionTrue); [done..| |by intros s].
  intros cs t'. apply cond_MarkTrue_spec.
Qed.

(** The early returns of the reconciler. *)
Lemma going_running F t format (r : Result) :
  cond_irrelevant F → t ≠ ReadyCondition →
  triple (going F) (do! set_condition (running_condition t format) then st_ret r) ps_ends.
Proof.
  intros HF Ht. destruct (early_conditions t format (Errorf "")) as (_&_&Hs&_&_&Hty).
  apply going_false; [done|by rewrite Hty|done|apply going_ret].
Qed.

Lemma going_failed {A} F t format e :
  cond_irrelevant F → t ≠ ReadyCondition →
  triple (going F) (do! set_condition (error_condition t format e) then st_err e) (ps_ends (A := A)).
Proof.
  intros HF Ht. destruct (early_conditions t format e) as (Hs&_&_&Hty&_).
  apply going_false; [done|by rewrite Hty|done|apply going_err].
Qed.

Lemma going_or_fail {A} F t format (c : st PS A) (R : A → PS → Prop) :
  cond_irrelevant F → t ≠ ReadyCondition →
  triple (going F) c (λ o s, going F s ∧ ∀ a, o = Ok a → R a s) →
  triple (going F) (or_fail t format c) (post_bind R (ps_ends (A := Result))).
Proof.
  intros HF Ht Hc'. unfold or_fail. apply triple_catch with (R := λ _, going F).
  { eapply triple_conseq; [exact Hc'|done|]. intros [a|e|m] s [? ?]; simpl; auto. }
  intros e. destruct (early_conditions t format e) as (Hs&_&_&Hty&_).
  apply going_false; [done|by rewrite Hty|done|]. apply triple_err.
  intros s [? _]. by apply ps_progress_sound.
Qed.

(** Calls on the cluster, and assignments to other fields of the status. *)
Lemma going_cluster {A} F (c : st W A) :
  triple (going F) (on_cluster c) (λ o s, going F s ∧ ∀ a, o = Ok a → going F s).
Proof. apply (triple_on_cluster (λ p, ps_progress p ∧ F p)). intros o w p ?. by split. Qed.

Lemma going_put F F' f Q :
  (∀ s, pst_Conditions (f s) = pst_Conditions s) → (∀ p, F p → F' (upd_pstatus f p)) →
  (∀ s, going F' s → Q (Ok tt) s) → triple (going F) (put_status f : st PS unit) Q.
Proof.
  intros Hf HF HQ. apply triple_modify. intros [w p] [[Hr Hb Hs] HFp]. apply HQ.
  split; [|by apply HF]. unfold inst_status in *. simpl in *.
  split; unfold inst_status; simpl; by rewrite Hf.
Qed.

Lemma going_get F : triple (going F) (get_instance : st PS _) (post_bind (λ p s, going F s ∧ s.2 = p) (ps_ends (A := Result))).
Proof. apply triple_gets. by intros s. Qed.

(** ** The steps *)

Abbreviation anything := (λ _ : OpenStackProvisionServer, True).
Lemma anything_irrelevant : cond_irrelevant anything.
Proof. by intros c p. Qed.

(** The interface the reconciler has settled on is the one of the spec, if any. *)
Definition settled (intf : string) (p : OpenStackProvisionServer) : Prop :=
  pss_Interface (ps_Spec p) ≠ "" → intf = pss_Interface (ps_Spec p).

Lemma in_sub_4 :
  DeploymentReadyCondition ≠ ReadyCondition ∧ ServiceConfigReadyCondition ≠ ReadyCondition ∧
  URLReady ≠ ReadyCondition ∧ ChecksumReady ≠ ReadyCondition ∧ IntfReady ≠ ReadyCondition ∧
  DeploymentReadyCondition ≠ ChecksumReady ∧ ServiceConfigReadyCondition ≠ ChecksumReady ∧
  URLReady ≠ ChecksumReady ∧ IntfReady ≠ ChecksumReady.
Proof.
  pose proof ps_types_distinct as Hd. unfold ps_sub_types in Hd.
  rewrite !NoDup_cons, !not_elem_of_cons in Hd. destruct_and! Hd.
  split_and!; first [done | by apply not_eq_sym].
Qed.

(** The URL of a file is assigned, or the reconciliation ends. *)
Lemma getLocalImageURL_url p filename (w w' : W) url :
  getLocalImageURL p filename w = (Ok url, w') → url_for p url filename.
Proof.
  unfold getLocalImageURL. intros (host & w1 & Hh & [-> _]%st_ret_inv)%st_bind_ok.
  exists host. split; [done|]. intros Hne. apply String.eqb_neq in Hne. rewrite Hne in Hh.
  by apply st_ret_inv in Hh as [-> _].
Qed.

Lemma assignURL_going F F' assign t format filename :
  cond_irrelevant F → t ≠ ReadyCondition →
  (∀ u s, pst_Conditions (assign u s) = pst_Conditions s) →
  (∀ u p, F p → F (upd_pstatus (assign u) p)) →
  (∀ u p, F p → url_for p u filename → F' (upd_pstatus (assign u) p)) →
  triple (going F) (assignURL assign t format filename)
    (post_bind (λ _ : unit, going F') (ps_ends (A := Result))).
Proof.
  intros HF Ht Ha Hk HF'. unfold assignURL.
  eapply triple_bind with (R := λ p s, going F s ∧ s.2 = p); [apply going_get|]. intros p.
  eapply triple_bind with (R := λ r s, going F s ∧ s.2 = p ∧ ∀ u, r = inl u → url_for p u filename).
  { apply triple_try. intros [w q] [Hg Hq]. simpl in Hq. subst q. unfold on_cluster, st_zoom. simpl.
    destruct (getLocalImageURL p filename w) as [[u|e|m] w'] eqn:Hr; simpl.
    - split_and!; [done|done|]. intros ? [= <-]. by eapply getLocalImageURL_url.
    - by split_and!.
    - done. }
  intros [url|err].
  - apply triple_conseq with (P' := going (λ q, F q ∧ url_for q url filename))
      (Q' := post_bind (λ _ : unit, going F') (ps_ends (A := Result))); [|intros s ([? ?] & <- & Hu)|done].
    + eapply going_put; [apply Ha| |by intros]. intros q [? ?]. by apply HF'.
    + split; [done|]. split; [done|by apply Hu].
  - apply triple_conseq with (P' := going F)
      (Q' := post_bind (λ _ : unit, going F') (ps_ends (A := Result))); [|by intros s [? _]|done].
    eapply triple_bind with (R := λ _, going F); [eapply going_put; [apply Ha|apply Hk|by intros]|].
    intros _. eapply triple_bind with (R := λ _, going F).
    { eapply (going_update F _ t ConditionFalse); [done|done|done| |by intros].
      intros cs t'. apply cond_MarkFalse_spec. }
    intros _. apply triple_err. intros s [? _]. by apply ps_progress_sound.
Qed.

Lemma image_served_irrelevant : cond_irrelevant image_served.
Proof. by intros c p. Qed.
Lemma settled_irrelevant intf : cond_irrelevant (settled intf).
Proof. by intros c p. Qed.
Lemma intf_has_ip_irrelevant : cond_irrelevant intf_has_ip.
Proof. by intros c p. Qed.
Lemma served_irrelevant : cond_irrelevant served.
Proof. by intros c p. Qed.
Hint Resolve anything_irrelevant served_irrelevant image_served_irrelevant settled_irrelevant intf_has_ip_irrelevant : core.

(** The last step: Ready is set only with every other condition true. *)
Lemma mark_ready_sound :
  triple (λ s : PS, Forall (λ t, is_Some (inst_status s.2 t)) ps_sub_types ∧
      inst_status s.2 ReadyCondition = Some ConditionUnknown ∧ served s.2)
    (let! instance := get_instance in
     do! (if cond_AllSubConditionIsTrue (pst_Conditions (ps_Status instance))
          then mark_true ReadyCondition (cond_const "ReadyMessage") else st_ret tt) then
     st_ret Result_zero) ps_ends.
Proof.
  intros [w p] (Hs & Hr & Hsv). unfold get_instance, st_bind, st_gets, mark_true, upd_conditions, st_modify. simpl in *.
  destruct (cond_AllSubConditionIsTrue _) eqn:Ha; simpl; [|by split; [left|..]].
  pose proof (all_true ps_sub_types _ (proj1 ps_ready_not_sub) Hs (cond_AllSub_spec _ Ha)) as Ht.
  assert (Hm : ∀ t, t ∈ ps_sub_types → cond_status (cond_MarkTrue (pst_Conditions (ps_Status p)) ReadyCondition
    (cond_const "ReadyMessage")) t = Some ConditionTrue).
  { intros t Hin. rewrite cond_MarkTrue_spec, decide_False by (by apply sub_ne).
    rewrite Forall_forall in Ht. by apply Ht. }
  split; unfold inst_status; simpl; [right; split| |done].
  - rewrite cond_MarkTrue_spec. by rewrite decide_True.
  - apply Forall_forall. exact Hm.
  - apply Forall_forall. intros t Hin. rewrite (Hm t Hin). by eexists.
Qed.

Lemma finishServer_sound : triple (going image_served) finishServer ps_ends.
Proof.
  destruct in_sub_4 as (_&_&_&Hch&_). unfold finishServer.
  eapply triple_bind with (R := λ p s, going image_served s ∧ s.2 = p); [apply going_get|]. intros p.
  eapply triple_bind with (R := λ _, going served).
  { apply triple_conseq with (P' := going (λ q, image_served q ∧
        pst_OSImageChecksumFilename (ps_Status q) = pst_OSImageChecksumFilename (ps_Status p)))
      (Q' := post_bind (λ _ : unit, going served) (ps_ends (A := Result)));
      [|by intros s [[? ?] <-]|done].
    apply assignURL_going; [by intros c q|done|done|by intros u q|].
    intros u q [Him Hf] Hu. split; [done|]. unfold upd_pstatus, url_for in *. simpl. by rewrite Hf. }
  intros _. eapply triple_bind with (R := λ _, going served); [by apply triple_gets|]. intros q.
  destruct (String.eqb _ ""); cbn [negb]; [by apply going_running|].
  eapply triple_bind with (R := λ _ s, Forall (λ t, is_Some (inst_status s.2 t)) ps_sub_types ∧
    inst_status s.2 ReadyCondition = Some ConditionUnknown ∧ served s.2); [|intros _; apply mark_ready_sound].
  apply triple_modify. intros [w r] [[Hr Hc' Hs] Hsv]. unfold inst_status in *. simpl in *. split_and!.
  - eapply Forall_impl; [exact Hs|]. intros t ?. rewrite cond_MarkTrue_spec. by case_decide.
  - rewrite cond_MarkTrue_spec. by rewrite decide_False.
  - done.
Qed.

Lemma put_hash_going F k v :
  (∀ h p, F p → F (upd_pstatus (pst_with_Hash h) p)) →
  triple (going F) (put_hash k v : @st PS unit) (post_bind (λ _ : unit, going F) (ps_ends (A := Result))).
Proof.
  intros HF. unfold put_hash.
  eapply triple_bind with (R := λ p s, going F s ∧ s.2 = p); [apply triple_gets; by intros s|]. intros p.
  destruct (pst_Hash (ps_Status p)) as [m|].
  - eapply triple_conseq with (P' := going F); [|by intros s [? _]|intros o s Q; exact Q].
    eapply going_put; [done|apply HF|by intros].
  - by intros s _.
Qed.

Lemma withChecksumJob_sound k :
  triple (going image_served) k ps_ends → triple (going image_served) (withChecksumJob k) ps_ends.
Proof.
  destruct in_sub_4 as (_&_&_&Hch&_). intros Hk. unfold withChecksumJob.
  eapply triple_bind with (R := λ _, going image_served); [by apply triple_gets|]. intros p.
  eapply triple_bind with (R := λ _, going image_served).
  { apply triple_lift. intros s [? ?]. destruct (ChecksumJob _ _ _ _); simpl; [done| |done].
    by apply ps_progress_sound. }
  intros jobDef. eapply triple_bind with (R := λ _, going image_served).
  { eapply triple_conseq; [apply going_cluster|done|]. intros [r|e|m] s [[? ?] ?]; simpl; [done| |done].
    by apply ps_progress_sound. }
  intros r. case_decide; [|by apply going_running].
  destruct (jr_Err r) as [e|]; [by apply going_failed|].
  eapply triple_bind with (R := λ _, going image_served); [|by intros _].
  destruct (jr_HasChanged r); [by apply put_hash_going|by apply triple_ret].
Qed.

Lemma withLocalImageURL_sound k :
  triple (going image_served) k ps_ends → triple (going intf_has_ip) (withLocalImageURL k) ps_ends.
Proof.
  destruct in_sub_4 as (_&_&Hu&_&_&_&_&Huc&_). intros Hk. unfold withLocalImageURL.
  eapply triple_bind with (R := λ p s, going intf_has_ip s ∧ s.2 = p); [apply going_get|]. intros p.
  eapply triple_bind with (R := λ _, going image_served).
  { apply triple_conseq with (P' := going (λ q, intf_has_ip q ∧ ps_Spec q = ps_Spec p))
      (Q' := post_bind (λ _ : unit, going image_served) (ps_ends (A := Result)));
      [|by intros s [[? ?] <-]|done].
    apply assignURL_going; [by intros c q|done|done|by intros u q|].
    intros u q [Him Hf] Hu'. split; [done|]. unfold upd_pstatus, url_for in *. simpl. by rewrite Hf. }
  intros _. eapply triple_bind with (R := λ _, going image_served); [by apply triple_gets|]. intros q.
  destruct (String.eqb _ ""); cbn [negb]; [by apply going_running|by apply going_true].
Qed.

Lemma withProvisionIP_sound intf k :
  triple (going intf_has_ip) k ps_ends → triple (going (settled intf)) (withProvisionIP intf k) ps_ends.
Proof.
  destruct in_sub_4 as (_&_&_&_&Hi&_&_&_&Hic). intros Hk. unfold withProvisionIP.
  eapply triple_bind with (R := λ p s, going (settled intf) s ∧ s.2 = p); [apply going_get|]. intros p.
  assert (Hpre : ∀ (c : st PS Result), triple (going (settled intf)) c ps_ends →
    triple (λ s, going (settled intf) s ∧ s.2 = p) c ps_ends).
  { intros c Hc'. eapply triple_conseq; [exact Hc'|by intros s [? _]|done]. }
  destruct (String.eqb_spec intf "") as [->|Hne]; cbn [negb].
  { eapply triple_conseq; [exact Hk| |done]. intros s [[? Hs] _]. split; [done|]. intros Hx.
    by rewrite (Hs Hx) in Hx. }
  destruct (String.eqb_spec (pst_ProvisionIPError (ps_Status p)) "") as [He|]; cbn [negb];
    [|by apply Hpre, going_failed].
  destruct (String.eqb_spec (pst_ProvisionIP (ps_Status p)) "") as [|Hip]; [by apply Hpre, going_running|].
  eapply triple_conseq with (P' := going intf_has_ip); [by apply going_true| |done].
  intros s [[? Hs] <-]. by split.
Qed.

Lemma withDeployment_sound hash intf k :
  triple (going (settled intf)) k ps_ends →
  triple (going (settled intf)) (withDeployment hash intf k) ps_ends.
Proof.
  destruct in_sub_4 as (Hd&_&_&_&_&Hdc&_). intros Hk. unfold withDeployment.
  eapply triple_bind with (R := λ _, going (settled intf)); [eapply going_put; [done| |by intros]; by intros p|].
  intros _. eapply triple_bind with (R := λ _, going (settled intf)); [by apply triple_gets|]. intros p.
  eapply triple_bind with (R := λ _, going (settled intf)).
  { apply triple_lift. intros s [? ?]. destruct (Deployment _ _ _ _ _); simpl; [done| |done].
    by apply ps_progress_sound. }
  intros d. eapply triple_bind with (R := λ _, going (settled intf)).
  { apply going_or_fail; [done..|]. apply going_cluster. }
  intros [r deploy]. case_decide; [|by apply going_running].
  eapply triple_bind with (R := λ _, going (settled intf)).
  { destruct (_ =? _)%Z; [|by apply triple_ret]. eapply going_put; [done| |by intros]. by intros q. }
  intros _. destruct (deployment_IsReady deploy); [by apply going_true|by apply going_running].
Qed.

Lemma getName_settled p (w w' : W) intf :
  getProvisioningInterfaceName p w = (Ok intf, w') → settled intf p.
Proof.
  unfold getProvisioningInterfaceName. destruct (String.eqb_spec (pss_Interface (ps_Spec p)) "") as [He|]; simpl.
  - by intros _ Hx.
  - by intros [-> _]%st_ret_inv _.
Qed.

Lemma provInterface_sound :
  triple (going anything) provInterface (post_bind (λ intf, going (settled intf)) (ps_ends (A := Result))).
Proof.
  destruct in_sub_4 as (_&_&_&_&Hi&_&_&_&Hic). unfold provInterface.
  eapply triple_bind with (R := λ p s, going anything s ∧ s.2 = p); [apply triple_gets; by intros s|]. intros p.
  eapply triple_bind with (R := λ intf, going (settled intf)).
  { apply triple_conseq with (P' := going (λ q, ps_Spec q = ps_Spec p))
      (Q' := post_bind (λ intf, going (settled intf)) (ps_ends (A := Result)));
      [|by intros s [[? ?] <-]|by intros []].
    apply going_or_fail; [by intros c q|done|]. intros [w q] [Hq Hsp]. simpl in *.
    unfold on_cluster, st_zoom. simpl.
    destruct (getProvisioningInterfaceName p w) as [o w'] eqn:Hr. simpl. split; [by split|].
    intros intf ->. split; [done|]. apply getName_settled in Hr. unfold settled in *. simpl. by rewrite Hsp. }
  intros intf. eapply triple_bind with (R := λ _, going (settled intf)); [|intros _; by apply triple_ret].
  destruct (String.eqb intf ""); [|by apply triple_ret].
  apply triple_modify. intros [w q] [[Hr Hb Hs] Hset]. split; [|done]. unfold inst_status in *. simpl in *.
  assert (Hrm : ∀ cs t, t ≠ IntfReady → cond_status (cond_Remove cs IntfReady) t = cond_status cs t).
  { intros cs t Ht. rewrite cond_Remove_spec. by rewrite decide_False. }
  destruct ps_ready_not_sub as (_ & Hin & Hne).
  split; unfold inst_status; simpl; [rewrite Hrm; [done|by apply not_eq_sym]|rewrite Hrm; [done|by apply not_eq_sym]|].
  apply Forall_forall. intros t Ht. rewrite Hrm.
  - rewrite Forall_forall in Hs. by apply Hs.
  - intros ->. by apply (proj1 (proj2 ps_ready_not_sub)).
Qed.

Lemma withInputHash_sound k :
  (∀ hash, triple (going anything) (k hash) ps_ends) → triple (going anything) (withInputHash k) ps_ends.
Proof.
  destruct in_sub_4 as (_&Hs&_&_&_&_&Hsc&_). intros Hk. unfold withInputHash.
  eapply triple_bind with (R := λ _, going anything); [by apply triple_gets|]. intros p.
  eapply triple_bind with (R := λ _, going anything).
  { apply going_or_fail; [done..|]. apply going_cluster. }
  intros env. eapply triple_bind with (R := λ _, going anything).
  { apply going_or_fail; [done..|].
    apply triple_conseq with (P' := going anything)
      (Q' := λ (_ : outcome (string * bool)) s, going anything s); [|done|by intros o s].
    unfold createHashOfInputHashes.
    eapply triple_bind with (R := λ _, going anything); [by apply triple_gets|]. intros q.
    eapply triple_bind with (R := λ _, going anything); [apply triple_lift; by intros s ?; destruct (ObjectHash _)|].
    intros hash. destruct (SetHash _ _ _) as [m changed].
    eapply triple_bind with (R := λ _, going anything); [|intros _; by apply triple_ret].
    destruct changed; [|by apply triple_ret]. apply (going_put anything anything); [done|by intros|by intros]. }
  intros [hash changed]. destruct changed; [apply going_ret|].
  apply going_true; [done..|]. apply Hk.
Qed.

Lemma ps_reconcileNormal_sound : triple (going anything) ps_reconcileNormal ps_ends.
Proof.
  apply withInputHash_sound. intros hash.
  eapply triple_bind; [apply provInterface_sound|]. intros intf.
  apply withDeployment_sound, withProvisionIP_sound, withLocalImageURL_sound, withChecksumJob_sound,
    finishServer_sound.
Qed.

Lemma ps_initial_types : cond_Type <$> ps_initialConditions ≡ₚ IntfReady :: ps_sub_types.
Proof.
  assert (Hty : cond_Type <$> ps_initialConditions = [DeploymentReadyCondition; ServiceConfigReadyCondition;
    IntfReady; URLReady; ChecksumReady; ServiceAccountReadyCondition; RoleReadyCondition; RoleBindingReadyCondition]).
  { unfold ps_initialConditions. simpl. by rewrite !(proj1 (UnknownCondition_spec _ _ _)). }
  rewrite Hty. unfold ps_sub_types. solve_Permutation.
Qed.

Lemma ps_initial_progress cs p : ps_progress (ps_with_Conditions (cond_Init cs ps_initialConditions) p).
Proof.
  pose proof ps_types_distinct as [Hr Hd]%NoDup_cons.
  pose proof ps_initial_types as Hperm.
  assert (Hu : ∀ t, t ∈ ps_sub_types →
    cond_status (cond_Init cs ps_initialConditions) t = Some ConditionUnknown).
  { intros t Ht. assert (Hin : t ∈ cond_Type <$> ps_initialConditions)
      by (rewrite Hperm; by apply list_elem_of_further).
    apply list_elem_of_fmap in Hin as (c & -> & Hin). rewrite cond_Init_spec; [|by rewrite Hperm|done].
    unfold ps_initialConditions in Hin. list_cases; by rewrite (proj2 (UnknownCondition_spec _ _ _)). }
  split; unfold inst_status; simpl.
  - apply cond_Init_ready. by rewrite Hperm.
  - rewrite Hu; [done|]. unfold ps_sub_types. rewrite !elem_of_cons. eauto.
  - apply Forall_forall. intros t Ht. rewrite Hu; [by eexists|done].
Qed.

(** The role-based access of the server changes only its own conditions. *)
Lemma reconcileRbac_progress :
  triple (going anything) reconcileRbac (λ _, going anything).
Proof.
  intros [w p] [[Hr Hb Hs] _]. unfold reconcileRbac, get_instance, st_bind, st_gets, st_zoom. simpl.
  destruct (ReconcileRbac_conditions p rbacRules (w, pst_Conditions (ps_Status p))) as [Hsame Hkeep].
  destruct (ReconcileRbac _ _ _) as [o [w' cs]]. simpl in *.
  pose proof ps_types_distinct as Hd. unfold ps_sub_types in Hd.
  rewrite !NoDup_cons, !not_elem_of_cons in Hd. destruct_and! Hd.
  split; [|done]. unfold inst_status in *. simpl in *. split; unfold inst_status; simpl.
  - rewrite Hsame; [done|]. unfold rbac_types. rewrite !not_elem_of_cons. split_and!; [done..|apply not_elem_of_nil].
  - rewrite Hsame; [done|]. unfold rbac_types. rewrite !not_elem_of_cons. split_and!; [done..|apply not_elem_of_nil].
  - eapply Forall_impl; [exact Hs|]. auto.
Qed.

Lemma going_put_instance (P : PS → Prop) (q : OpenStackProvisionServer) Q :
  ps_progress q → (∀ s, going anything s → Q (Ok tt) s) →
  triple P (put_instance q : @st PS unit) Q.
Proof. intros Hq HQ. apply triple_modify. intros s _. by apply HQ. Qed.

Lemma rbac_then_normal : triple (going anything) (unless_requeued reconcileRbac ps_reconcileNormal) ps_ends.
Proof.
  unfold unless_requeued. eapply triple_bind with (R := λ _, going anything).
  - eapply triple_conseq; [apply reconcileRbac_progress|done|].
    intros [r|e|m] s [? ?]; [by split|by apply ps_progress_sound|done].
  - intros r. case_decide; [apply ps_reconcileNormal_sound|apply going_ret].
Qed.

Lemma ps_reconcileDelete_sound : triple (going anything) ps_reconcileDelete ps_ends.
Proof. intros [w p] [[Hr Hb Hs] _]. by apply ps_progress_sound. Qed.

Lemma ps_reconcile_sound isNew : triple (λ _ : PS, True) (ps_reconcile isNew) ps_ends.
Proof.
  unfold ps_reconcile. eapply triple_bind with (R := λ _ _, True); [by apply triple_gets|]. intros p.
  pose proof (ps_initial_progress (pst_Conditions (ps_Status p)) p) as Hi. cbn zeta.
  set (q := ps_with_Conditions _ p) in *. clearbody q.
  assert (Hmaps : ∀ q, ps_progress q →
    ps_progress (upd_pstatus (λ s, pst_with_Hash (Some (default ∅ (pst_Hash s))) s) q)) by (intros ? [? ? ?]; by split).
  assert (Hmeta : ∀ m q, ps_progress q → ps_progress (ps_with_Meta m q)) by (intros ? ? [? ? ?]; by split).
  destruct (bool_decide _); cbn [negb].
  - eapply triple_bind with (R := λ _, going anything); [by apply going_put_instance|]. intros _.
    destruct (false || isNew); [apply going_ret|].
    eapply triple_bind with (R := λ _, going anything); [|intros _; apply ps_reconcileDelete_sound].
    by apply going_put_instance; [apply Hmaps|].
  - destruct (AddFinalizer _ _) as [meta added].
    eapply triple_bind with (R := λ _, going anything); [by apply going_put_instance; [apply Hmeta|]|]. intros _.
    destruct (added || isNew); [apply going_ret|].
    eapply triple_bind with (R := λ _, going anything); [|intros _; apply rbac_then_normal].
    by apply going_put_instance; [apply Hmaps, Hmeta|].
Qed.

End ready.

(** A server that is ready has every other condition, and its image and checksum are
    where it says. *)
Lemma ready_served {W} `{ProvClient W} `{ProvLib} `{LibCommon} `{ConditionLib}
    `{!ConditionLaws} `{!ProvClientLaws W} isNew saved (w w' : W) p p' o :
  ps_reconcile isNew (w, p) = (o, (w', p')) → (∀ m, o ≠ Panic m) → ps_IsReady (ps_finish saved p') = true →
  Forall (λ t, inst_status (ps_finish saved p') t = Some ConditionTrue) ps_sub_types ∧ served p'.
Proof.
  intros Hr Hp Hready%cond_IsTrue_spec.
  pose proof (ps_reconcile_sound isNew (w, p) I) as Hs. rewrite Hr in Hs.
  assert (Hss : ps_sound p') by (unfold ps_ends in Hs; destruct o; [done|done|by destruct (Hp msg)]).
  destruct Hss as [Hrd Hsub Hserved].
  destruct (finish_ready ps_sub_types saved (pst_Conditions (ps_Status p')) (proj1 ps_ready_not_sub)
    Hsub Hrd Hready) as [Ht Hf].
  split; [exact Hf|]. apply Hserved. rewrite Forall_forall in Ht. apply Ht. unfold ps_sub_types.
  rewrite !elem_of_cons. eauto.
Qed.

(** ** Properties *)

(** C4: however a reconciliation of a server ends short of a panic, when the status
    it is about to write says Ready, it also says that the configuration, the role
    based access, the Deployment, the image and the checksum are ready; the two
    URLs then lead to the server's port, for the image of the spec and the checksum
    file of the status, on the address of the agent when there is one, and there is
    one, without an error, when the spec names an interface. *)
Theorem ProvServer_ready_sound {W} `{ProvClient W} `{ProvLib} `{LibCommon} `{ConditionLib}
    `{!ConditionLaws} `{!ProvClientLaws W} isNew saved (w w' : W) p p' o :
  ps_reconcile isNew (w, p) = (o, (w', p')) → (∀ m, o ≠ Panic m) →
  let patched := ps_finish saved p' in
  let status := ps_Status patched in
  ps_IsReady patched = true →
  Forall (λ t, inst_status patched t = Some ConditionTrue) ps_sub_types ∧
  (pss_Interface (ps_Spec patched) ≠ "" → pst_ProvisionIP status ≠ "" ∧ pst_ProvisionIPError status = "") ∧
  (∃ host host', pst_LocalImageURL status = imageURL host (ps_Port patched) (pss_OSImage (ps_Spec patched)) ∧
    pst_LocalImageChecksumURL status =
      imageURL host' (ps_Port patched) (pst_OSImageChecksumFilename status) ∧
    (pst_ProvisionIP status ≠ "" → host = pst_ProvisionIP status ∧ host' = pst_ProvisionIP status)).
Proof.
  intros Hr Hp patched status Hready. destruct (ready_served _ saved _ _ _ _ _ Hr Hp Hready) as [Hf Hsv].
  destruct Hsv as [[Hip (host & Hu & Hh)] (host' & Hu' & Hh')].
  split; [exact Hf|]. split; [exact Hip|]. exists host, host'. split; [exact Hu|]. split; [exact Hu'|].
  intros Hx. split; [apply (Hh Hx)|apply (Hh' Hx)].
Qed.

(** A reconciliation of a server with a ready Deployment and a finished job. *)
Definition served_run : outcome Result * (pmem * OpenStackProvisionServer) :=
  ps_reconcile false (served_mem [], finalized_prov).

Lemma ProvServer_ready_sound_witness :
  let patched := ps_finish (Some []) served_run.2.2 in
  ps_IsReady patched = true ∧
  inst_status patched OpenStackProvisionServerChecksumReadyCondition = Some ConditionTrue ∧
  pst_LocalImageURL (ps_Status patched) = "http://10.0.0.7:6190/edpm-hardened-uefi.qcow2".
Proof.
  intros patched.
  assert (Hr := run_outcome served_run (Ok Result_zero) ltac:(vm_refl)).
  assert (Hready : ps_IsReady patched = true) by vm_refl.
  split; [exact Hready|]. split; [|vm_refl].
  pose proof (proj1 (ProvServer_ready_sound false (Some []) _ _ _ _ _ Hr ltac:(intros m; discriminate) Hready)) as Hall.
  rewrite Forall_forall in Hall. apply Hall. unfold ps_sub_types. rewrite !elem_of_cons. auto.
Defined.
