(* ===== verification/ProvProgress.v ===== *)
(** * What a reconciliation of a provision server achieves when nothing fails

    Once the agent has reported an address, the Deployment is ready and the
    checksum job is done, one reconciliation makes every condition of the server
    true and publishes the two URLs the sets wait for. Each step of the reconciler
    is shown to go on to the next, from a server that has come [further]. *)

From S2P Require Import Prelude GoNet ApiTypes Samples Kube MemCluster Conditions Reconciler.
From S2P Require Import ProvWorkloads ProvController ProvReady.

(** A cluster on which calls succeed and the workloads of the server have done
    their work; the variables of a config map are a function of its template. *)
Class Serving (W : Type) `{ProvClient W} `{ProvLib} `{ConditionLib} := {
  serving : W → Prop;
  config_vars : list Template → EnvVars;
  serving_ReconcileRbac : ∀ p rules w cs, serving w → ∃ w' cs',
    ReconcileRbac p rules (w, cs) = (Ok Result_zero, (w', cs')) ∧ serving w' ∧
    Forall (λ t, cond_status cs' t = Some ConditionTrue) rbac_types ∧ (cond_unique cs → cond_unique cs');
  serving_EnsureConfigMaps : ∀ p ts w, serving w → ∃ w',
    EnsureConfigMaps p ts (w, ∅) = (Ok tt, (w', config_vars ts)) ∧ serving w';
  serving_deployment : ∀ d t w, serving w → ∃ w' deploy,
    deployment_CreateOrPatch d t w = (Ok (Result_zero, deploy), w') ∧ deployment_IsReady deploy = true ∧ serving w';
  serving_job : ∀ j h pr t before w, serving w → ∃ w' run,
    job_DoJob j h pr t before w = (Ok run, w') ∧ jr_Result run = Result_zero ∧ jr_Err run = None ∧ serving w';
}.

#[export] Program Instance pmem_serving : Serving pmem := {|
  serving w := pm_faults w = [] ∧ deployment_IsReady (pm_deployment w) = true ∧
    jr_Result (pm_job w) = Result_zero ∧ jr_Err (pm_job w) = None;
  config_vars ts := foldr (λ t e, <[tpl_Name t := "hash-" +:+ tpl_Name t]> e) ∅ ts;
|}.
Next Obligation.
  intros p rules w cs Hw. simpl. unfold st_zoom, st_bind, st_modify, st_ret. simpl. eexists _, _. split; [reflexivity|].
  split; [exact Hw|]. split.
  - apply Forall_forall. intros t Ht. unfold pmem_rbac_conditions. by rewrite mark_all_status, decide_True.
  - intros Hu. unfold pmem_rbac_conditions. induction (rbac_types (H := mem_conditions)) as [|t l IH]; [done|].
    simpl foldr. by apply (cond_MarkTrue_unique (ConditionLaws := mem_cond_laws)).
Qed.
Next Obligation.
  intros p ts w (Hf & Hrest). simpl. rewrite Hf. simpl. eexists. split; [reflexivity|done].
Qed.
Next Obligation.
  intros d t w (Hf & Hd & Hrest). simpl. unfold pmem_call. rewrite Hf. simpl. eexists _, _. split; [reflexivity|done].
Qed.
Next Obligation. intros j h pr t before w Hw. simpl. eexists _, _. split; [reflexivity|]. by destruct Hw as (?&?&?&?). Qed.

Section progress.
Context {W : Type} `{Hc : ProvClient W} `{Hp : ProvLib} `{Hpl : !ProvLibLaws} `{Hlib : LibCommon} `{Hll : !LibCommonLaws}.
Context `{Hcl : ConditionLib} `{Hcw : !ConditionLaws} `{Hcr : !ProvClientLaws W} `{Hsv : !Serving W}.

(** The same server, with no fewer conditions true and no more that are not. *)
Record further (p p' : OpenStackProvisionServer) : Prop := {
  fu_spec : ps_Spec p' = ps_Spec p;
  fu_ip : pst_ProvisionIP (ps_Status p') = pst_ProvisionIP (ps_Status p);
  fu_err : pst_ProvisionIPError (ps_Status p') = pst_ProvisionIPError (ps_Status p);
  fu_file : pst_OSImageChecksumFilename (ps_Status p') = pst_OSImageChecksumFilename (ps_Status p);
  fu_hash : is_Some (pst_Hash (ps_Status p)) → is_Some (pst_Hash (ps_Status p'));
  fu_true : ∀ t, inst_status p t = Some ConditionTrue → inst_status p' t = Some ConditionTrue;
  fu_other : ∀ t s, inst_status p' t = Some s → s = ConditionTrue ∨ inst_status p t = Some s;
  fu_unique : cond_unique (pst_Conditions (ps_Status p)) → cond_unique (pst_Conditions (ps_Status p'));
}.

#[export] Instance further_preorder : PreOrder further.
Proof.
  split; [by split; [..|by right|done]|]. intros p q r [? ? ? ? ? ? Ho ?] [? ? ? ? ? ? Ho' ?].
  split; [congruence..|auto|auto| |auto]. intros t s [?|?]%Ho'; [by left|by apply Ho].
Qed.

(** Writing a field of the status that the reconciler owns. *)
Lemma further_upd f p :
  (∀ s, pst_ProvisionIP (f s) = pst_ProvisionIP s ∧ pst_ProvisionIPError (f s) = pst_ProvisionIPError s ∧
     pst_OSImageChecksumFilename (f s) = pst_OSImageChecksumFilename s ∧ pst_Conditions (f s) = pst_Conditions s ∧
     (is_Some (pst_Hash s) → is_Some (pst_Hash (f s)))) →
  further p (upd_pstatus f p).
Proof.
  intros Hf. destruct (Hf (ps_Status p)) as (Hi & He & Hn & Hc' & Hh). split; [done..|done|done|done|exact Hh| | |].
  - intros t. unfold inst_status. simpl. by rewrite Hc'.
  - intros t s. unfold inst_status. simpl. rewrite Hc'. by right.
  - simpl. by rewrite Hc'.
Qed.

Lemma mark_true_further t format (w : W) p : ∃ p',
  mark_true t format (w, p) = (Ok tt, (w, p')) ∧ further p p' ∧ inst_status p' t = Some ConditionTrue ∧
  pst_LocalImageURL (ps_Status p') = pst_LocalImageURL (ps_Status p).
Proof.
  eexists. split; [reflexivity|]. assert (Hs : ∀ t', inst_status (obj_with_conditions
    (cond_MarkTrue (obj_conditions p) t format) p) t' = if decide (t' = t) then Some ConditionTrue else inst_status p t')
    by (intros t'; apply cond_MarkTrue_spec).
  split_and!; [|by rewrite Hs, decide_True|done]. split; [done..| | |].
  - intros t' Ht'. rewrite Hs. by case_decide.
  - intros t' s. rewrite Hs. case_decide; [intros [= <-]; by left|by right].
  - apply cond_MarkTrue_unique.
Qed.

(** A server its agent has found an address for, on an interface of its spec. *)
Record addressed (p : OpenStackProvisionServer) : Prop := {
  ad_interface : pss_Interface (ps_Spec p) ≠ "";
  ad_dir : is_Some (pss_OSImageDir (ps_Spec p));
  ad_ip : pst_ProvisionIP (ps_Status p) ≠ "";
  ad_err : pst_ProvisionIPError (ps_Status p) = "";
}.

Lemma addressed_further p p' : further p p' → addressed p → addressed p'.
Proof. intros [Hs Hi He _ _ _ _ _] [? ? ? ?]. split; rewrite ?Hs, ?Hi, ?He; done. Qed.

(** The inputs are those of the last reconciliation. *)
Definition inputs_settled (p : OpenStackProvisionServer) : Prop :=
  ∃ h, ObjectHash (MergeEnvs [] (config_vars (httpdTemplates p))) = Ok h ∧
    default ∅ (pst_Hash (ps_Status p)) !! InputHashName = Some h.

Lemma withInputHash_goes k w p : serving w → inputs_settled p → ∃ h w' p',
  withInputHash k (w, p) = k h (w', p') ∧ serving w' ∧ further p p' ∧
  inst_status p' ServiceConfigReadyCondition = Some ConditionTrue.
Proof.
  intros Hw (h & Hh & Hst). destruct (serving_EnsureConfigMaps p (httpdTemplates p) w Hw) as (w' & He & Hw').
  destruct (SetHash_spec (pst_Hash (ps_Status p)) InputHashName h) as [_ Hch].
  destruct (mark_true_further ServiceConfigReadyCondition (cond_const "ServiceConfigReadyMessage") w' p)
    as (p' & Hm & Hf & Ht & _). exists h, w', p'. split_and!; [|done..].
  unfold withInputHash, or_fail, on_cluster, with_env, generateServiceConfigMaps, createHashOfInputHashes,
    get_instance, st_bind, st_catch, st_try, st_zoom, st_gets, st_lift. simpl. rewrite He. simpl. rewrite Hh. simpl.
  destruct (SetHash _ _ _) as [m changed]. simpl in Hch. rewrite (proj2 Hch Hst). cbn [st_ret fst snd].
  unfold st_ret. by injection Hm as <-.
Qed.

Lemma provInterface_goes (w : W) p : addressed p → provInterface (w, p) = (Ok (pss_Interface (ps_Spec p)), (w, p)).
Proof.
  intros [Hi _ _ _]. apply String.eqb_neq in Hi.
  unfold provInterface, getProvisioningInterfaceName, or_fail, on_cluster, get_instance, st_bind, st_catch, st_zoom, st_gets.
  cbn [fst snd]. rewrite Hi. cbn [negb]. unfold st_ret. cbn [fst snd]. by rewrite Hi.
Qed.

Lemma withDeployment_goes h intf k w p : serving w → addressed p → ∃ w' p',
  withDeployment h intf k (w, p) = k (w', p') ∧ serving w' ∧ further p p' ∧
  inst_status p' DeploymentReadyCondition = Some ConditionTrue.
Proof.
  intros Hw Ha. set (q := upd_pstatus (pst_with_LocalImageURL "") p).
  assert (Hd : ∃ d, Deployment MergeEnvs q h (serviceLabelsFor q) intf = Ok d).
  { destruct Ha as [_ [dir Hdir] _ _]. unfold Deployment, getVolumeMounts, initContainers, getInitVolumeMounts,
      deref_OSImageDir, q. simpl. rewrite Hdir. simpl. by eexists. }
  destruct Hd as [d Hd]. destruct (serving_deployment d 5%Z w Hw) as (w' & deploy & He & Hr & Hw').
  set (q' := if (dps_Generation deploy =? dps_ObservedGeneration deploy)%Z
    then upd_pstatus (pst_with_ReadyCount (dps_ReadyReplicas deploy)) q else q).
  destruct (mark_true_further DeploymentReadyCondition (cond_const "DeploymentReadyMessage") w' q') as (p' & Hm & Hf & Ht & _).
  exists w', p'. split_and!; [|done| |done].
  - unfold withDeployment, put_status, or_fail, on_cluster, get_instance, st_bind, st_catch, st_zoom, st_gets,
      st_lift, st_modify, st_ret. cbn [fst snd]. fold q. rewrite Hd. cbn [fst snd]. rewrite He. cbn [fst snd].
    rewrite decide_True by done. unfold q' in Hm. destruct (_ =? _)%Z; cbn [fst snd]; rewrite Hr, Hm; done.
  - etrans; [|exact Hf]. etrans; [by apply (further_upd (pst_with_LocalImageURL ""))|]. fold q. unfold q'.
    destruct (_ =? _)%Z; [by apply further_upd|done].
Qed.

Lemma withProvisionIP_goes intf k (w : W) p : addressed p → intf ≠ "" → ∃ p',
  withProvisionIP intf k (w, p) = k (w, p') ∧ further p p' ∧
  inst_status p' OpenStackProvisionServerProvIntfReadyCondition = Some ConditionTrue.
Proof.
  intros [_ _ Hip%String.eqb_neq He%String.eqb_eq] Hi%String.eqb_neq.
  destruct (mark_true_further OpenStackProvisionServerProvIntfReadyCondition OpenStackProvisionServerProvIntfReadyMessage w p)
    as (p' & Hm & Hf & Ht & _). exists p'. split_and!; [|done..].
  unfold withProvisionIP, get_instance, st_bind, st_gets. cbn [fst snd]. rewrite Hi, He, Hip. cbn [negb]. by rewrite Hm.
Qed.

(** The URL of a file on the address of the agent. *)
Definition agent_url (p : OpenStackProvisionServer) (filename : string) : string :=
  imageURL (pst_ProvisionIP (ps_Status p)) (ps_Port p) filename.

Lemma agent_url_further p q f : further p q → agent_url q f = agent_url p f.
Proof. intros [Hs Hi _ _ _ _ _ _]. unfold agent_url, ps_Port. by rewrite Hs, Hi. Qed.

Lemma withLocalImageURL_goes k (w : W) p : addressed p → ∃ p',
  withLocalImageURL k (w, p) = k (w, p') ∧ further p p' ∧
  inst_status p' OpenStackProvisionServerLocalImageURLReadyCondition = Some ConditionTrue ∧
  pst_LocalImageURL (ps_Status p') = agent_url p (pss_OSImage (ps_Spec p)).
Proof.
  intros [_ _ Hip%String.eqb_neq _]. set (url := agent_url p (pss_OSImage (ps_Spec p))).
  assert (Hrun : getLocalImageURL p (pss_OSImage (ps_Spec p)) w = (Ok url, w)) by (unfold getLocalImageURL; by rewrite Hip).
  assert (Hu : String.eqb url "" = false) by done. clearbody url.
  set (q := upd_pstatus (pst_with_LocalImageURL url) p).
  destruct (mark_true_further OpenStackProvisionServerLocalImageURLReadyCondition
    OpenStackProvisionServerLocalImageURLReadyMessage w q) as (p' & Hm & Hf & Ht & Hurl).
  exists p'. split_and!; [|etrans; [by apply (further_upd (pst_with_LocalImageURL url) p)|exact Hf]|done|exact Hurl].
  unfold withLocalImageURL, assignURL, put_status, get_instance, on_cluster, st_bind, st_try, st_zoom, st_gets, st_modify.
  cbn [fst snd]. rewrite Hrun. cbn [fst snd]. fold q. change (pst_LocalImageURL (ps_Status q)) with url. rewrite Hu.
  cbn [negb]. by rewrite Hm.
Qed.

Lemma withChecksumJob_goes k w p : serving w → addressed p → is_Some (pst_Hash (ps_Status p)) → ∃ w' p',
  withChecksumJob k (w, p) = k (w', p') ∧ serving w' ∧ further p p' ∧
  pst_LocalImageURL (ps_Status p') = pst_LocalImageURL (ps_Status p).
Proof.
  intros Hw [_ [dir Hdir] _ _] [m Hm].
  assert (Hj : ∃ j, ChecksumJob MergeEnvs p (serviceLabelsFor p) ∅ = Ok j).
  { unfold ChecksumJob, initContainers, getInitVolumeMounts, deref_OSImageDir. rewrite Hdir. simpl. by eexists. }
  destruct Hj as [j Hj].
  destruct (serving_job j ChecksumHash (pss_PreserveJobs (ps_Spec p)) (5 * second)
    (default "" (default ∅ (pst_Hash (ps_Status p)) !! ChecksumHash)) w Hw) as (w' & run & He & Hr & Hn & Hw').
  exists w', (if jr_HasChanged run then upd_pstatus (pst_with_Hash (Some (<[ChecksumHash := jr_Hash run]> m))) p else p).
  split_and!; [|done|destruct (jr_HasChanged run); [by apply further_upd|done]|by destruct (jr_HasChanged run)].
  unfold withChecksumJob, put_hash, put_status, get_instance, on_cluster, st_bind, st_zoom, st_gets, st_lift, st_modify, st_ret.
  cbn [fst snd]. rewrite Hj. cbn [fst snd]. rewrite He. cbn [fst snd]. rewrite decide_True, Hn by done.
  destruct (jr_HasChanged run); cbn [fst snd]; [by rewrite Hm|done].
Qed.

(** The config map depends on what identifies the server and on its spec. *)
Lemma httpdTemplates_same p q :
  om_Name (ps_Meta q) = om_Name (ps_Meta p) → om_Namespace (ps_Meta q) = om_Namespace (ps_Meta p) →
  om_UID (ps_Meta q) = om_UID (ps_Meta p) → ps_Kind q = ps_Kind p → ps_Spec q = ps_Spec p →
  httpdTemplates q = httpdTemplates p.
Proof.
  intros Hn Hns Hu Hk Hs. unfold httpdTemplates, ps_Name, ps_Namespace, ps_Port.
  rewrite !GetLabels_spec. unfold owner_labels. by rewrite Hn, Hns, Hu, Hk, Hs.
Qed.

Lemma reconcileRbac_goes w p : serving w → ∃ w' cs,
  reconcileRbac (w, p) = (Ok Result_zero, (w', ps_with_Conditions cs p)) ∧ serving w' ∧
  Forall (λ t, inst_status (ps_with_Conditions cs p) t = Some ConditionTrue) rbac_types ∧
  further p (ps_with_Conditions cs p).
Proof.
  intros Hw. set (cs0 := pst_Conditions (ps_Status p)).
  destruct (serving_ReconcileRbac p rbacRules w cs0 Hw) as (w' & cs & Hr & Hw' & Hf & Hu).
  pose proof (proj1 (ReconcileRbac_conditions p rbacRules (w, cs0))) as Hsame. rewrite Hr in Hsame. cbn [fst snd] in Hsame.
  assert (Hcases : ∀ t, cond_status cs t = Some ConditionTrue ∨ cond_status cs t = cond_status cs0 t).
  { intros t. destruct (decide (t ∈ rbac_types)) as [Ht|Ht]; [left|right; by apply Hsame].
    rewrite Forall_forall in Hf. by apply Hf. }
  exists w', cs. split_and!; [|done|done|].
  2: { split; [done..| | |exact Hu]; unfold inst_status; simpl; fold cs0.
       - intros t Ht. destruct (Hcases t) as [?|Hc']; [done|congruence].
       - intros t s. destruct (Hcases t) as [Hc'|Hc']; rewrite Hc'; [intros [= <-]; by left|by right]. }
  unfold reconcileRbac, get_instance, st_bind, st_gets, st_zoom. cbn [fst snd]. fold cs0. by rewrite Hr.
Qed.

(** The conditions of those steps. *)
Definition normal_types : list string :=
  [ServiceConfigReadyCondition; DeploymentReadyCondition; OpenStackProvisionServerProvIntfReadyCondition;
   OpenStackProvisionServerLocalImageURLReadyCondition; OpenStackProvisionServerChecksumReadyCondition].

(** The steps in a row, from inputs that are known. *)
Lemma ps_reconcileNormal_goes w p :
  serving w → addressed p → inputs_settled p → is_Some (pst_Hash (ps_Status p)) → ∃ w' p',
  ps_reconcileNormal (w, p) = (Ok Result_zero, (w', p')) ∧ serving w' ∧
  Forall (λ t, inst_status p' t = Some ConditionTrue) normal_types ∧
  (∀ t, inst_status p t = Some ConditionTrue → inst_status p' t = Some ConditionTrue) ∧
  (cond_unique (pst_Conditions (ps_Status p)) →
   (∀ t s, t ∉ ReadyCondition :: normal_types → inst_status p t = Some s → s = ConditionTrue) →
   inst_status p' ReadyCondition = Some ConditionTrue) ∧
  pst_LocalImageURL (ps_Status p') = agent_url p (pss_OSImage (ps_Spec p)) ∧
  pst_LocalImageChecksumURL (ps_Status p') = agent_url p (pst_OSImageChecksumFilename (ps_Status p)).
Proof.
  intros Hw Ha Hin Hm. unfold ps_reconcileNormal.
  edestruct (λ k, withInputHash_goes k w p Hw Hin) as (h & w1 & p1 & -> & Hw1 & Hf1 & Ht1).
  pose proof (addressed_further _ _ Hf1 Ha) as Ha1.
  unfold st_bind at 1. rewrite (provInterface_goes w1 p1 Ha1). cbv beta iota.
  unfold unless_requeued, ps_reconcileInit, ps_reconcileUpdate, ps_reconcileUpgrade, st_ret, st_bind at 1.
  rewrite decide_True by done. unfold st_bind at 1. rewrite decide_True by done. unfold st_bind at 1. rewrite decide_True by done.
  set (intf := pss_Interface (ps_Spec p1)).
  destruct (withDeployment_goes h intf (withProvisionIP intf (withLocalImageURL (withChecksumJob finishServer))) w1 p1 Hw1 Ha1)
    as (w2 & p2 & -> & Hw2 & Hf2 & Ht2). pose proof (addressed_further _ _ Hf2 Ha1) as Ha2.
  destruct (withProvisionIP_goes intf (withLocalImageURL (withChecksumJob finishServer)) w2 p2 Ha2 (ad_interface _ Ha1))
    as (p3 & -> & Hf3 & Ht3). pose proof (addressed_further _ _ Hf3 Ha2) as Ha3.
  destruct (withLocalImageURL_goes (withChecksumJob finishServer) w2 p3 Ha3) as (p4 & -> & Hf4 & Ht4 & Hu4).
  pose proof (addressed_further _ _ Hf4 Ha3) as Ha4.
  assert (Hf : further p p4) by (etrans; [exact Hf1|]; etrans; [exact Hf2|]; etrans; [exact Hf3|exact Hf4]).
  destruct (withChecksumJob_goes finishServer w2 p4 Hw2 Ha4 (fu_hash _ _ Hf Hm)) as (w5 & p5 & -> & Hw5 & Hf5 & Hu5).
  destruct (finishServer_ready_without_filename p5 w5 (ad_ip _ (addressed_further _ _ Hf5 Ha4)))
    as (p6 & -> & Hc6 & Ht6 & Hu6 & Hmono & Hready6).
  assert (Hf' : further p p5) by (etrans; [exact Hf|exact Hf5]).
  assert (Htrue : ∀ t, t ∈ normal_types → t ≠ OpenStackProvisionServerChecksumReadyCondition →
    inst_status p5 t = Some ConditionTrue).
  { intros t Ht Hne. apply Hf5. unfold normal_types in Ht. list_cases; [| | | |done]; [..|exact Ht4]; apply Hf4; [..|exact Ht3].
    - apply Hf3, Hf2, Ht1.
    - apply Hf3, Ht2. }
  exists w5, p6. split; [done|]. split; [done|]. split; [|split; [|split; [|split]]].
  - apply Forall_forall. intros t Ht. destruct (decide (t = OpenStackProvisionServerChecksumReadyCondition)) as [->|Hne]; [done|].
    by apply Hmono, Htrue.
  - intros t Ht. by apply Hmono, Hf'.
  - intros Hu Hothers. apply Hready6; [by apply Hf'|]. intros t s. rewrite !not_elem_of_cons. intros (Hnr & Hnc & _) Hst.
    destruct (decide (t ∈ normal_types)) as [Hn|Hn]; [rewrite (Htrue t Hn Hnc) in Hst; by injection Hst|].
    destruct (fu_other _ _ Hf' t s Hst) as [?|Hold]; [done|]. eapply (Hothers t); [by apply not_elem_of_cons|done].
  - rewrite Hu6, Hu5, Hu4. assert (Hf3' : further p p3) by (etrans; [exact Hf1|]; etrans; [exact Hf2|exact Hf3]).
    rewrite (agent_url_further p p3) by done. by rewrite (fu_spec _ _ Hf3').
  - rewrite Hc6. fold (agent_url p5 (pst_OSImageChecksumFilename (ps_Status p5))).
    rewrite (agent_url_further p p5) by done. by rewrite (fu_file _ _ Hf').
Qed.

(** What the deferred function does to a condition other than Ready. *)
Lemma ps_finish_status saved p t : t ≠ ReadyCondition → inst_status (ps_finish saved p) t = inst_status p t.
Proof.
  intros Ht. unfold ps_finish, finish_conditions, inst_status. simpl.
  pose proof (RestoreLastTransitionTimes_spec (pst_Conditions (ps_Status p)) saved) as Hr.
  destruct (cond_IsUnknown _ _); [|apply Hr].
  rewrite cond_Set_spec, (proj1 (cond_Mirror_spec _)), decide_False by done. apply Hr.
Qed.

(** From a unique list [Init] makes one. *)
Lemma initial_unique cs : cond_unique cs → cond_unique (cond_Init cs ps_initialConditions).
Proof.
  apply cond_Init_unique. rewrite ps_initial_types. by pose proof ps_types_distinct as [_ ?]%NoDup_cons.
Qed.

(** After the role-based access, what [normal] does not see to is true. *)
Lemma initial_others p2 p1 p :
  further p1 p2 → Forall (λ t, inst_status p2 t = Some ConditionTrue) rbac_types →
  pst_Conditions (ps_Status p1) = cond_Init (pst_Conditions (ps_Status p)) ps_initialConditions →
  (∀ t s, t ∉ ReadyCondition :: (cond_Type <$> ps_initialConditions) → inst_status p t = Some s → s = ConditionTrue) →
  ∀ t s, t ∉ ReadyCondition :: normal_types → inst_status p2 t = Some s → s = ConditionTrue.
Proof.
  intros Hf Hrb Hinit Hforeign t s [Hnr Hnn]%not_elem_of_cons Hs.
  destruct (decide (t ∈ rbac_types)) as [Hin|Hin].
  { rewrite Forall_forall in Hrb. rewrite (Hrb t Hin) in Hs. by injection Hs. }
  assert (Ht : t ∉ ReadyCondition :: (cond_Type <$> ps_initialConditions)).
  { rewrite ps_initial_types, not_elem_of_cons. split; [done|]. unfold normal_types, rbac_types, ps_sub_types in *.
    rewrite !not_elem_of_cons in *. destruct_and! Hnn. destruct_and! Hin. by split_and!; [..|apply not_elem_of_nil]. }
  destruct (fu_other _ _ Hf t s Hs) as [?|Hold]; [done|]. apply (Hforeign t s Ht).
  change (cond_status (pst_Conditions (ps_Status p1)) t = Some s) in Hold. rewrite Hinit in Hold.
  by apply cond_Init_other in Hold.
Qed.

(** Ready stays when it is true. *)
Lemma ps_finish_ready saved p :
  inst_status p ReadyCondition = Some ConditionTrue → inst_status (ps_finish saved p) ReadyCondition = Some ConditionTrue.
Proof.
  intros Hr. unfold ps_finish, finish_conditions, inst_status in *. simpl in *.
  pose proof (RestoreLastTransitionTimes_spec (pst_Conditions (ps_Status p)) saved ReadyCondition) as Hs.
  rewrite Hr in Hs. pose proof (cond_IsUnknown_spec _ _ _ Hs) as Hu.
  destruct (cond_IsUnknown _ _); [discriminate (proj1 Hu eq_refl)|exact Hs].
Qed.

(** What is true at the end is true after the deferred function. *)
Lemma finished_true saved p :
  inst_status p ReadyCondition = Some ConditionTrue →
  Forall (λ t, inst_status p t = Some ConditionTrue) normal_types →
  Forall (λ t, inst_status p t = Some ConditionTrue) rbac_types →
  Forall (λ t, inst_status (ps_finish saved p) t = Some ConditionTrue)
    (ReadyCondition :: OpenStackProvisionServerProvIntfReadyCondition :: ps_sub_types).
Proof.
  intros Hready Hn Hr. apply Forall_cons. split; [by apply ps_finish_ready|]. destruct ps_ready_not_sub as (Hr1 & _ & Hr2).
  unfold normal_types, rbac_types in *. rewrite !Forall_cons in Hn. rewrite !Forall_cons in Hr. destruct_and! Hn. destruct_and! Hr.
  assert (Hall : Forall (λ t, inst_status p t = Some ConditionTrue)
    (OpenStackProvisionServerProvIntfReadyCondition :: ps_sub_types)).
  { unfold ps_sub_types. rewrite !Forall_cons. split_and!; [done..|apply Forall_nil_2]. }
  rewrite Forall_forall in Hall. apply Forall_forall. intros t Ht. rewrite ps_finish_status; [by apply Hall|].
  intros ->. by apply elem_of_cons in Ht as [?|?].
Qed.

End progress.

(** ** Properties *)

(** C13: when the agent has reported the address of the interface, the Deployment is
    ready, the checksum job is done and the inputs are those of the reconciliation
    before, a reconciliation of the server on which no call fails runs to its end,
    and the status it is about to write has every condition the reconciler sets true,
    Ready among them, and the URLs of the image and of the checksum on that address.
    A condition of a type the reconciler does not know, if the server has one, must be
    true already: the code waits for it too. *)
Theorem ps_reconcile_serves {W} `{ProvClient W} `{ProvLib} `{!ProvLibLaws} `{LibCommon} `{!LibCommonLaws}
    `{ConditionLib} `{!ConditionLaws} `{!ProvClientLaws W} `{!Serving W} saved (w : W) p :
  serving w → addressed p → inputs_settled p → om_DeletionTimestamp (ps_Meta p) = None →
  GetFinalizer (ps_Kind p) ∈ om_Finalizers (ps_Meta p) → cond_unique (pst_Conditions (ps_Status p)) →
  (∀ t s, t ∉ ReadyCondition :: (cond_Type <$> ps_initialConditions) → inst_status p t = Some s → s = ConditionTrue) →
  ∃ w' p', ps_reconcile false (w, p) = (Ok Result_zero, (w', p')) ∧ serving w' ∧
    let patched := ps_finish saved p' in
    Forall (λ t, inst_status patched t = Some ConditionTrue)
      (ReadyCondition :: OpenStackProvisionServerProvIntfReadyCondition :: ps_sub_types) ∧
    pst_LocalImageURL (ps_Status patched) = agent_url p (pss_OSImage (ps_Spec p)) ∧
    pst_LocalImageChecksumURL (ps_Status patched) = agent_url p (pst_OSImageChecksumFilename (ps_Status p)).
Proof.
  intros Hw Ha (h & Hh & Hst) Hdel Hfin Huniq Hforeign.
  destruct (AddFinalizer_spec (ps_Meta p) (GetFinalizer (ps_Kind p))) as [_ Hadd].
  pose proof (AddFinalizer_identity (ps_Meta p) (GetFinalizer (ps_Kind p))) as Hid. cbv zeta in Hid.
  destruct (AddFinalizer (ps_Meta p) (GetFinalizer (ps_Kind p))) as [meta added] eqn:Haf.
  apply Hadd in Hfin. simpl in Hfin, Hid. subst added. destruct Hid as (Hn & Hns & Hu).
  set (p1 := upd_pstatus (λ s, pst_with_Hash (Some (default ∅ (pst_Hash s))) s) (ps_with_Meta meta
    (ps_with_Conditions (cond_Init (pst_Conditions (ps_Status p)) ps_initialConditions) p))).
  assert (Hstart : ps_reconcile false (w, p) = unless_requeued reconcileRbac ps_reconcileNormal (w, p1)).
  { unfold ps_reconcile, get_instance, put_instance, st_bind at 1, st_gets, st_modify. cbn [fst snd]. cbv zeta.
    change (ps_Meta (ps_with_Conditions _ p)) with (ps_Meta p). change (ps_Kind (ps_with_Conditions _ p)) with (ps_Kind p).
    rewrite Haf, bool_decide_eq_false_2 by (intros Hx; by apply Hx). done. }
  destruct (reconcileRbac_goes w p1 Hw) as (w2 & cs & Hr & Hw2 & Hrb & Hf2). set (p2 := ps_with_Conditions cs p1) in *.
  assert (Ha2 : addressed p2) by (destruct Ha; by split).
  assert (Hin2 : inputs_settled p2).
  { exists h. by rewrite (httpdTemplates_same p p2). }
  destruct (ps_reconcileNormal_goes w2 p2 Hw2 Ha2 Hin2 ltac:(by eexists))
    as (w' & p' & Hrun & Hw' & Hall & Hmono & Hready & Hurl & Hsum).
  exists w', p'. split; [|split; [done|split; [|done]]].
  - rewrite Hstart. unfold unless_requeued, st_bind. rewrite Hr. by rewrite decide_True.
  - apply finished_true; [|done|].
    + apply Hready; [by apply Hf2, initial_unique|]. exact (initial_others p2 p1 p Hf2 Hrb eq_refl Hforeign).
    + eapply Forall_impl; [exact Hrb|]. auto.
Qed.

(** A server on the interface its agent has found the address of. *)
Definition agent_prov : OpenStackProvisionServer :=
  let p := finalized_prov in let s := ps_Spec p in
  ps_with_Spec (mkProvSpec (pss_Port s) "eno1" (pss_OSImage s) (pss_OSImageDir s) (pss_OSContainerImageURL s)
      (pss_ApacheImageURL s) (pss_AgentImageURL s) (pss_NodeSelector s) (pss_Resources s) (pss_PreserveJobs s))
    (ps_with_Status (mkProvStatus 1 (Some []) (pst_Hash (ps_Status p)) "10.0.0.1" "" "" "image.sha256" SHA256 "") p).

Lemma ps_reconcile_serves_witness : ∃ w' p',
  ps_reconcile false (served_mem [], agent_prov) = (Ok Result_zero, (w', p')) ∧
  inst_status (ps_finish (Some []) p') ReadyCondition = Some ConditionTrue ∧
  pst_LocalImageChecksumURL (ps_Status (ps_finish (Some []) p')) = "http://10.0.0.1:6190/image.sha256".
Proof.
  destruct (ps_reconcile_serves (Some []) (served_mem []) agent_prov) as (w' & p' & Hr & _ & Hall & _ & Hs).
  - by split_and!.
  - split; [done|by eexists|done|done].
  - exists "hash-ps-httpd-config". by split; vm_refl.
  - reflexivity.
  - by_compute.
  - apply NoDup_nil_2.
  - intros t s _ Hs. discriminate Hs.
  - exists w', p'. split; [exact Hr|]. split; [exact (Forall_inv Hall)|]. etrans; [exact Hs|vm_refl].
Defined.
