(* ===== verification/EndToEnd.v ===== *)
(** * From a ready server to the image of a host

    The two reconcilers meet in the OpenStackProvisionServer: [ProvController] publishes
    in its status where the image is, and [SetController] reads it there and points the
    hosts at it. This file follows the image through both. *)

From S2P Require Import Prelude GoNet ApiTypes Samples Kube MemCluster Conditions Reconciler ProvPorts BmhProvision SetController.
From S2P Require Import ProvWorkloads ProvController ProvReady ProvProgress.

(** What a ready server says of its image: on the address of its interface, the image of
    its spec, the checksum file of its job and the kind of checksum. *)
Definition published_image `{ProvLib} (server : OpenStackProvisionServer) : Image :=
  let status := ps_Status server in
  mkImage (imageURL (pst_ProvisionIP status) (ps_Port server) (pss_OSImage (ps_Spec server)))
    (imageURL (pst_ProvisionIP status) (ps_Port server) (pst_OSImageChecksumFilename status))
    (pst_OSImageChecksumType status).

(** ** Lemmas *)

Lemma imageURL_not_empty `{ProvLib} host port filename : imageURL host port filename ≠ "".
Proof. unfold imageURL. discriminate. Qed.

(** A ready server with an interface says where its image is. *)
Lemma ready_publishes {W} `{ProvClient W} `{ProvLib} `{LibCommon} `{ConditionLib}
    `{!ConditionLaws} `{!ProvClientLaws W} isNew saved (w w' : W) p p' o :
  ps_reconcile isNew (w, p) = (o, (w', p')) → (∀ m, o ≠ Panic m) →
  let server := ps_finish saved p' in
  ps_IsReady server = true → pss_Interface (ps_Spec server) ≠ "" →
  mkImage (pst_LocalImageURL (ps_Status server)) (pst_LocalImageChecksumURL (ps_Status server))
    (pst_OSImageChecksumType (ps_Status server)) = published_image server.
Proof.
  intros Hr Hp server Hready Hintf.
  destruct (ready_served _ saved _ _ _ _ _ Hr Hp Hready) as [_ [[Hip (host & Hu & Hh)] (host' & Hu' & Hh')]].
  destruct (Hip Hintf) as [Hne _]. unfold published_image, server, ps_finish. simpl. rewrite Hu, Hu'.
  by rewrite (Hh Hne), (Hh' Hne).
Qed.

(** The set goes on to its hosts when the server it finds has both URLs. *)
Lemma withProvisionServer_goes {V} `{Client V} `{SetClient V} `{LibCommon} `{ConditionLib} `{MapOrder}
    k i (v v' : V) server :
  ts_OSImageDeploymentType (set_Template i) = OSImageDeploymentTypeSelfExtracting →
  findProvisionServer i v = (Ok server, v') →
  pst_LocalImageURL (ps_Status server) ≠ "" → pst_LocalImageChecksumURL (ps_Status server) ≠ "" →
  withProvisionServer k (v, i) =
    k server (v', set_with_Conditions (cond_MarkTrue (bst_Conditions (set_Status i))
      OpenStackBaremetalSetProvServerReadyCondition OpenStackBaremetalSetProvServerReadyMessage) i).
Proof.
  intros Hse Hfind Hu%String.eqb_neq Hc%String.eqb_neq. unfold withProvisionServer, get_instance.
  unfold st_bind at 1, st_gets. cbn [snd]. rewrite Hse, String.eqb_refl.
  unfold st_bind at 1, st_try, on_cluster, st_zoom. cbn [fst]. rewrite Hfind. cbn [snd]. by rewrite Hu, Hc.
Qed.

(** The image a provisioned host gets, unless it was provisioned before for its consumer. *)
Lemma provisioned_image {V} `{Client V} `{ClientView V} `{!ClientLaws V} `{LibCommon} `{!LibCommonLaws}
    i bmh hostName ip server ssh pw env i' env' (v v' : V) :
  BaremetalHostProvision i bmh hostName ip server ssh pw env v = (Ok (i', env'), v') →
  ∃ b b', hosts v !! (set_BmhNamespace i, bmh) = Some b ∧ hosts v' !! (set_BmhNamespace i, bmh) = Some b' ∧
    (bmhs_ConsumerRef (bmh_Spec b) = None ∨ bmht_ProvisioningState (bmh_Status b) ≠ StateProvisioned →
     bmhs_Image (bmh_Spec b') = Some (imageFor i server)).
Proof.
  intros (b & us & ns & ud & nd & Hr)%provision_run. exists b, (provisionPatch i hostName server ud nd b).
  split; [apply Hr|]. split; [rewrite (pr_hosts _ _ _ _ _ _ _ _ _ _ _ _ _ _ _ Hr); apply lookup_insert_eq|].
  unfold provisionPatch. cbn [bmh_Spec]. intros Hfree.
  destruct (bmhs_ConsumerRef (bmh_Spec b)) as [c|] eqn:Hcr.
  - destruct Hfree as [?|Hst]; [done|].
    destruct (provisionSpec_consumer i server ud nd (bmht_ProvisioningState (bmh_Status b)) _ c Hcr) as (_ & _ & _ & _ & ->).
    by rewrite decide_False.
  - by destruct (provisionSpec_free i server ud nd (bmht_ProvisioningState (bmh_Status b)) _ Hcr) as (_ & _ & _ & _ & ->).
Qed.

(** ** Property *)

(** C8: a server with an interface that its reconciler reports ready is one the
    reconciler of a set goes on with; and a host then provisioned for the set boots the
    image of the server's spec, from the address the agent reported and the port of the
    server, checked against the checksum file and kind its job reported. *)
Theorem host_boots_served_image {W} `{ProvClient W} `{ProvLib} `{LibCommon} `{!LibCommonLaws} `{ConditionLib}
    `{!ConditionLaws} `{!ProvClientLaws W} {V} `{Client V} `{SetClient V} `{ClientView V} `{!ClientLaws V} `{MapOrder}
    isNew saved (w w' : W) p p' o :
  ps_reconcile isNew (w, p) = (o, (w', p')) → (∀ m, o ≠ Panic m) →
  let server := ps_finish saved p' in
  ps_IsReady server = true → pss_Interface (ps_Spec server) ≠ "" →
  ∀ i (v v1 : V), ts_OSImageDeploymentType (set_Template i) = OSImageDeploymentTypeSelfExtracting →
  findProvisionServer i v = (Ok server, v1) →
  (∃ i1, set_Spec i1 = set_Spec i ∧
    inst_status i1 OpenStackBaremetalSetProvServerReadyCondition = Some ConditionTrue ∧
    ∀ k, withProvisionServer k (v, i) = k server (v1, i1)) ∧
  ∀ j bmh hostName ip ssh pw env j' env' (u u' : V), set_Spec j = set_Spec i →
    BaremetalHostProvision j bmh hostName ip server ssh pw env u = (Ok (j', env'), u') →
    ∃ b b', hosts u !! (set_BmhNamespace i, bmh) = Some b ∧ hosts u' !! (set_BmhNamespace i, bmh) = Some b' ∧
      (bmhs_ConsumerRef (bmh_Spec b) = None ∨ bmht_ProvisioningState (bmh_Status b) ≠ StateProvisioned →
       bmhs_Image (bmh_Spec b') = Some (published_image server)).
Proof.
  intros Hr Hp server Hready Hintf i v v1 Hse Hfind.
  pose proof (ready_publishes _ saved _ _ _ _ _ Hr Hp Hready Hintf) as Himg. fold server in Himg.
  assert (Hu : pst_LocalImageURL (ps_Status server) = img_URL (published_image server)) by (by rewrite <-Himg).
  assert (Hc : pst_LocalImageChecksumURL (ps_Status server) = img_Checksum (published_image server)) by (by rewrite <-Himg).
  split.
  - eexists. split; [|split]; [| |intros k; apply (withProvisionServer_goes k i v v1 server Hse Hfind)].
    + done.
    + unfold inst_status. simpl. by rewrite cond_MarkTrue_spec, decide_True.
    + rewrite Hu. apply imageURL_not_empty.
    + rewrite Hc. apply imageURL_not_empty.
  - intros j bmh hostName ip ssh pw env j' env' u u' Hspec Hrun.
    destruct (provisioned_image _ _ _ _ _ _ _ _ _ _ _ _ Hrun) as (b & b' & Hb & Hb' & Hboot).
    replace (set_BmhNamespace i) with (set_BmhNamespace j) by (unfold set_BmhNamespace, set_Template; by rewrite Hspec).
    exists b, b'. split; [done|]. split; [done|]. intros Hfree. rewrite (Hboot Hfree), <-Himg. unfold imageFor.
    replace (set_Template j) with (set_Template i) by (unfold set_Template; by rewrite Hspec). by rewrite Hse.
Qed.

(** The server on the interface its agent found the address of, and a set that uses it. *)
Definition served_server : OpenStackProvisionServer :=
  ps_finish (Some []) (ps_reconcile false (served_mem [], agent_prov)).2.2.
Definition served_set : OpenStackBaremetalSet :=
  let t := sample_template HardwareReqs_zero in
  mkSet "OpenStackBaremetalSet" (sample_meta "openstack" "edpm" ∅)
    (mkSetSpec {["c0" := sample_instance ∅]} "192.168.1.1" None [] []
      (mkTemplateSpec (ts_OSImage t) (ts_OSContainerImageURL t) (ts_OSImageDeploymentType t)
        (ts_ApacheImageURL t) (ts_AgentImageURL t) (ts_AutomatedCleaningMode t) "ps" ∅ "" "ssh-key" "eth0" None
        "bmh" ∅ HardwareReqs_zero None "cloud-admin" ""))
    (mkSetStatus (Some []) (Some ∅) (Some ∅) 1).
Definition served_cluster : mem :=
  mkMem {[("bmh", "h0") := sample_bmh "h0" ∅]} ∅ {[("openstack", "ps") := served_server]} ∅ [].
Definition served_host : outcome (OpenStackBaremetalSet * EnvVars) * mem :=
  BaremetalHostProvision served_set "h0" "c0" "192.168.1.10/24" served_server prov_ssh None ∅ served_cluster.
Definition served_continues : Prop :=
  ∃ i1, inst_status i1 OpenStackBaremetalSetProvServerReadyCondition = Some ConditionTrue ∧
    ∀ k : OpenStackProvisionServer → st (mem * OpenStackBaremetalSet) Result,
      withProvisionServer (H3 := list_order) k (served_cluster, served_set) = k served_server (served_cluster, i1).

Lemma served_server_found : findProvisionServer (H3 := list_order) served_set served_cluster =
  (Ok served_server, served_cluster).
Proof. vm_refl. Qed.

Lemma host_boots_served_image_witness : served_continues ∧ ∃ b',
  hosts served_host.2 !! ("bmh", "h0") = Some b' ∧
  bmhs_Image (bmh_Spec b') = Some (mkImage "http://10.0.0.1:6190/edpm-hardened-uefi.qcow2"
    "http://10.0.0.1:6190/image.sha256" SHA256).
Proof.
  assert (Hr := run_outcome (ps_reconcile false (served_mem [], agent_prov)) (Ok Result_zero) ltac:(vm_refl)).
  assert (Hready : ps_IsReady served_server = true) by vm_refl.
  assert (Himg : published_image served_server = mkImage "http://10.0.0.1:6190/edpm-hardened-uefi.qcow2"
    "http://10.0.0.1:6190/image.sha256" SHA256) by vm_refl.
  destruct (host_boots_served_image (H8 := list_order) false (Some []) _ _ _ _ _ Hr ltac:(intros m; discriminate)
    Hready ltac:(intros He; assert (Hi : pss_Interface (ps_Spec served_server) = "eno1") by vm_refl;
      pose proof (eq_trans (eq_sym Hi) He); discriminate)
    served_set served_cluster served_cluster eq_refl served_server_found) as [(i1 & _ & Hc & Hk) Hboot].
  split; [exists i1; exact (conj Hc Hk)|].
  assert (Hok : match served_host.1 with Ok _ => true | _ => false end = true) by vm_refl.
  destruct served_host as [[[j env]|e|m] u'] eqn:Hrun; [|discriminate Hok..].
  destruct (Hboot served_set _ _ _ _ _ _ _ _ _ _ eq_refl Hrun) as (b & b' & Hb & Hb' & Himage).
  exists b'. split; [exact Hb'|]. rewrite <-Himg. apply Himage. left.
  assert (Hb0 : hosts served_cluster !! ("bmh", "h0") = Some (sample_bmh "h0" ∅)) by vm_refl.
  rewrite (inj Some _ _ (eq_trans (eq_sym Hb) Hb0)). reflexivity.
Defined.
