(* ===== verification/Main.v ===== *)
(** * The start of the operator

    [cmd/main.go]: from the flags and the environment to the running manager. Each
    call of a library that can fail is an event; the calls made so far are the
    state, with the arrays of the option slices and the defaults of the provision
    servers. A failing call ends the process: [os.Exit(1)] after the error was
    logged is an error outcome, [utilruntime.Must] is a panic. Logging is not
    modelled. *)

From S2P Require Import Prelude GoStrings GoSlices GoPath ApiTypes ProvWebhook.

(** ** Flags *)

Record Flags := mkFlags {
  fl_metricsAddr : string;
  fl_metricsCertPath : string;
  fl_metricsCertName : string;
  fl_metricsCertKey : string;
  fl_webhookCertPath : string;
  fl_webhookCertName : string;
  fl_webhookCertKey : string;
  fl_enableLeaderElection : bool;
  fl_probeAddr : string;
  fl_secureMetrics : bool;
  fl_pprofBindAddress : string;
  fl_webhookPort : Z;
  fl_enableHTTP2 : bool;
}.

(** The values of the flags that are not given. *)
Definition defaultFlags : Flags :=
  mkFlags "0" "" "tls.crt" "tls.key" "" "tls.crt" "tls.key" false ":8081" true "" 9443 false.

(** ** TLS options *)

Record CertWatcher := mkCertWatcher {
  cw_certPath : string;
  cw_keyPath : string;
}.

(** A [tls.Config], as far as the options set it. *)
Record TLSConfig := mkTLSConfig {
  tls_MinVersion : Z;
  tls_NextProtos : list string;
  tls_GetCertificate : option CertWatcher;
}.

(** [tls.VersionTLS13] *)
Definition VersionTLS13 : Z := 772.

(** The functions [func(c *tls.Config)] main makes. *)
Inductive TLSOpt :=
| setMinVersion
| disableHTTP2
| setGetCertificate (w : CertWatcher).

Definition apply_opt (c : TLSConfig) (o : TLSOpt) : TLSConfig :=
  match o with
  | setMinVersion => mkTLSConfig VersionTLS13 (tls_NextProtos c) (tls_GetCertificate c)
  | disableHTTP2 => mkTLSConfig (tls_MinVersion c) ["http/1.1"] (tls_GetCertificate c)
  | setGetCertificate w => mkTLSConfig (tls_MinVersion c) (tls_NextProtos c) (Some w)
  end.

(** ** The calls *)

(** [webhook.Options] and [metricsserver.Options]; the filter provider is
    [WithAuthenticationAndAuthorization] or nil. *)
Record WebhookOptions := mkWebhookOptions {
  wo_Port : Z;
  wo_TLSOpts : slice;
}.

Record MetricsOptions := mkMetricsOptions {
  mo_BindAddress : string;
  mo_SecureServing : bool;
  mo_TLSOpts : slice;
  mo_FilterProvider : bool;
}.

(** [ctrl.Options] *)
Record ManagerOptions := mkManagerOptions {
  mgo_Metrics : MetricsOptions;
  mgo_WebhookServer : WebhookOptions;
  mgo_HealthProbeBindAddress : string;
  mgo_PprofBindAddress : string;
  mgo_LeaderElection : bool;
  mgo_LeaderElectionID : string;
}.

(** A controller by the kinds it reconciles, owns and watches. *)
Record Controller := mkController {
  ct_For : string;
  ct_Owns : list string;
  ct_Watches : list string;
}.

(** [healthz.Ping] or [mgr.GetWebhookServer().StartedChecker()] *)
Inductive Checker := Ping | WebhookStarted.

Inductive Call :=
| AddToScheme (package : string)
| NewCertWatcher (certPath keyPath : string)
| GetConfigOrDie
| NewManager (opts : ManagerOptions)
| GetConfig
| NewForConfig
| CompleteController (c : Controller)
| CompleteWebhook (kind : string)
| AddRunnable (w : CertWatcher)
| AddHealthzCheck (name : string) (c : Checker)
| AddReadyzCheck (name : string) (c : Checker)
| Start.

(** The libraries: a call may be refused, also because of the calls before it. *)
Class Libraries := refuses : list Call → Call → option error.

Record mstate := mkMState {
  ms_calls : list Call;
  ms_arrays : arrays TLSOpt;
  ms_defaults : option OpenStackProvisionServerDefaults;
}.

Definition mstate_init : mstate := mkMState [] [] None.

Section main.
Context `{Libraries} `{AppendGrowth}.

Definition call (c : Call) : st mstate unit := λ s,
  (match refuses (ms_calls s) c with
   | Some err => Err err
   | None => Ok tt
   end, mkMState (ms_calls s ++ [c]) (ms_arrays s) (ms_defaults s)).

Definition append_opt (opts : slice) (o : TLSOpt) : st mstate slice := λ s,
  let '(opts, h) := append opts o (ms_arrays s) in
  (Ok opts, mkMState (ms_calls s) h (ms_defaults s)).

(** [if err != nil { setupLog.Error(err, msg); os.Exit(1) }] *)
Definition or_exit {A} (msg : string) (c : st mstate A) : st mstate A :=
  st_catch c (λ err, st_err (Errorf (msg +:+ ": " +:+ err_text err))).

(** [utilruntime.Must] *)
Definition Must (c : st mstate unit) : st mstate unit := st_catch c (λ err, st_panic (err_text err)).

Definition init : st mstate unit :=
  do! Must (call (AddToScheme "clientgoscheme")) then
  do! Must (call (AddToScheme "metal3v1")) then
  Must (call (AddToScheme "baremetalv1beta1")).

(** [certwatcher.New] *)
Definition certwatcher_New (certPath keyPath : string) : st mstate CertWatcher :=
  do! call (NewCertWatcher certPath keyPath) then st_ret (mkCertWatcher certPath keyPath).

(** The watcher of a certificate directory, when one is given, and the options
    with it. *)
Definition with_watcher (msg path name key : string) (opts : slice) :
    st mstate (option CertWatcher * slice) :=
  if bool_decide (0 < String.length path) then
    let! w := or_exit msg (certwatcher_New (Join [path; name]) (Join [path; key])) in
    let! opts := append_opt opts (setGetCertificate w) in
    st_ret (Some w, opts)
  else st_ret (None, opts).

(** [SetupWithManager] of the two reconcilers. *)
Definition ps_SetupWithManager : st mstate unit :=
  call (CompleteController (mkController "OpenStackProvisionServer"
    ["Deployment"; "ConfigMap"; "ServiceAccount"; "Role"; "RoleBinding"] [])).
Definition set_SetupWithManager : st mstate unit :=
  call (CompleteController (mkController "OpenStackBaremetalSet" ["OpenStackProvisionServer"] ["BareMetalHost"])).

Definition SetupOpenStackBaremetalSetWebhookWithManager : st mstate unit :=
  call (CompleteWebhook "OpenStackBaremetalSet").
Definition SetupOpenStackProvisionServerWebhookWithManager : st mstate unit :=
  call (CompleteWebhook "OpenStackProvisionServer").

Definition webhooks_enabled (Getenv : string → string) : bool :=
  negb (String.eqb (ToLower (Getenv "ENABLE_WEBHOOKS")) "false").

(** From the manager to its start: the controllers, the webhooks, the watchers and the
    checks. *)
Definition runManager (Getenv : string → string) (GetEnvVar : string → string → string)
    (webhookCertWatcher metricsCertWatcher : option CertWatcher) : st mstate unit :=
  do! or_exit "" (call GetConfig) then
  do! or_exit "" (call NewForConfig) then
  do! or_exit "unable to create controller" ps_SetupWithManager then
  do! or_exit "unable to create controller" set_SetupWithManager then
  do! st_modify (λ s, mkMState (ms_calls s) (ms_arrays s) (Some (SetupDefaults GetEnvVar))) then
  let! checker := (if webhooks_enabled Getenv then
      do! or_exit "unable to create webhook" SetupOpenStackBaremetalSetWebhookWithManager then
      do! or_exit "unable to create webhook" SetupOpenStackProvisionServerWebhookWithManager then
      st_ret WebhookStarted
    else st_ret Ping) in
  do! match metricsCertWatcher with
      | Some w => or_exit "unable to add metrics certificate watcher to manager" (call (AddRunnable w))
      | None => st_ret tt
      end then
  do! match webhookCertWatcher with
      | Some w => or_exit "unable to add webhook certificate watcher to manager" (call (AddRunnable w))
      | None => st_ret tt
      end then
  do! or_exit "unable to set up health check" (call (AddHealthzCheck "healthz" checker)) then
  do! or_exit "unable to set up ready check" (call (AddReadyzCheck "readyz" checker)) then
  or_exit "problem running manager" (call Start).

(** [util.GetEnvVar] and [os.Getenv] are the arguments. *)
Definition main (Getenv : string → string) (GetEnvVar : string → string → string) (flags : Flags) :
    st mstate unit :=
  do! init then
  let! tlsOpts := append_opt nil_slice setMinVersion in
  let! tlsOpts := (if negb (fl_enableHTTP2 flags) then append_opt tlsOpts disableHTTP2 else st_ret tlsOpts) in
  let! wh := with_watcher "Failed to initialize webhook certificate watcher"
    (fl_webhookCertPath flags) (fl_webhookCertName flags) (fl_webhookCertKey flags) tlsOpts in
  let '(webhookCertWatcher, webhookTLSOpts) := wh in
  let webhookServer := mkWebhookOptions (fl_webhookPort flags) webhookTLSOpts in
  let! mt := with_watcher "to initialize metrics certificate watcher"
    (fl_metricsCertPath flags) (fl_metricsCertName flags) (fl_metricsCertKey flags) tlsOpts in
  let '(metricsCertWatcher, metricsTLSOpts) := mt in
  let metricsServerOptions := mkMetricsOptions (fl_metricsAddr flags) (fl_secureMetrics flags)
    metricsTLSOpts (fl_secureMetrics flags) in
  do! call GetConfigOrDie then
  do! or_exit "unable to start manager" (call (NewManager
    (mkManagerOptions metricsServerOptions webhookServer (fl_probeAddr flags) (fl_pprofBindAddress flags)
       (fl_enableLeaderElection flags) "dedc2245.openstack.org"))) then
  runManager Getenv GetEnvVar webhookCertWatcher metricsCertWatcher.

(** What a server makes of its options, from the configuration it starts with. *)
Definition tls_config (s : mstate) (opts : slice) (c : TLSConfig) : TLSConfig :=
  foldl apply_opt c (elems (ms_arrays s) opts).

End main.

(** ** Lemmas *)

Section performs.
Context `{Hlib : Libraries} `{Hgrow : AppendGrowth}.

(** Making the calls of a list after those of [k], up to the first that is
    refused: the calls made, and whether none was refused. *)
Fixpoint perform (k l : list Call) : list Call * bool :=
  match l with
  | [] => (k, true)
  | c :: l' =>
      match refuses k c with
      | Some _ => (k ++ [c], false)
      | None => perform (k ++ [c]) l'
      end
  end.

Lemma perform_app k l1 l2 :
  perform k (l1 ++ l2) = if (perform k l1).2 then perform (perform k l1).1 l2 else perform k l1.
Proof. revert k. induction l1 as [|c l1 IH]; intros k; simpl; [done|]. by destruct (refuses k c). Qed.

(** The calls made are a prefix of the list, all of it when none is refused. *)
Lemma perform_prefix k l : ∃ done rest, (perform k l).1 = k ++ done ∧ l = done ++ rest ∧
  ((perform k l).2 = true → rest = []) ∧
  ∀ pre c post, done = pre ++ c :: post → is_Some (refuses (k ++ pre) c) → post = [] ∧ (perform k l).2 = false.
Proof.
  revert k. induction l as [|c l IH]; intros k; simpl.
  { exists [], []. rewrite app_nil_r. split_and!; [done..|]. by intros [] ? ?. }
  destruct (refuses k c) as [e|] eqn:Hr; simpl.
  - exists [c], l. split_and!; [done..|]. intros [|? [|]] ? ?; simpl; intros [=]; by subst.
  - destruct (IH (k ++ [c])) as (done & rest & Hd & -> & Hok & Hlast). exists (c :: done), rest.
    split_and!; [rewrite Hd; by rewrite <-app_assoc|done|done|].
    intros [|c' pre] c'' post; simpl; intros [= <- ->].
    + rewrite app_nil_r, Hr. by intros [? ?].
    + intros Hs. apply (Hlast pre c'' post); [done|]. by rewrite <-app_assoc.
Qed.

Definition is_ok {A} (o : outcome A) : bool := match o with Ok _ => true | _ => false end.

(** From [s], the call makes exactly the calls of [l] up to the first refused one,
    and succeeds exactly when none is. *)
Definition performs {A} (s : mstate) (c : st mstate A) (l : list Call) : Prop :=
  ms_calls (c s).2 = (perform (ms_calls s) l).1 ∧ is_ok (c s).1 = (perform (ms_calls s) l).2.

Lemma performs_ret {A} s (a : A) : performs s (st_ret a) [].
Proof. done. Qed.

Lemma performs_call s c : performs s (call c) [c].
Proof. unfold performs, call. simpl. by destruct (refuses _ c). Qed.

Lemma performs_modify s f : (∀ s, ms_calls (f s) = ms_calls s) → performs s (st_modify f) [].
Proof. intros Hf. unfold performs. simpl. by rewrite Hf. Qed.

Lemma performs_append s opts o : performs s (append_opt opts o) [].
Proof. unfold performs, append_opt. by destruct (append opts o (ms_arrays s)). Qed.

Lemma performs_bind {A B} s (c : st mstate A) (f : A → st mstate B) l1 l2 :
  performs s c l1 → (∀ a s', c s = (Ok a, s') → performs s' (f a) l2) → performs s (st_bind c f) (l1 ++ l2).
Proof.
  unfold performs, st_bind. intros [Hc Ho] Hf. rewrite perform_app.
  destruct (c s) as [[a|e|m] s1]; simpl in *; rewrite <-Ho; [|done..].
  destruct (Hf a s1 eq_refl) as [Hc' Ho']. by rewrite <-Hc.
Qed.

Lemma performs_then {A B} s (c : st mstate A) (f : st mstate B) l1 l2 :
  performs s c l1 → (∀ s', performs s' f l2) → performs s (do! c then f) (l1 ++ l2).
Proof. intros Hc Hf. apply performs_bind; auto. Qed.

Lemma performs_or_exit {A} msg s (c : st mstate A) l : performs s c l → performs s (or_exit msg c) l.
Proof. unfold performs, or_exit, st_catch. by destruct (c s) as [[a|e|m] s1]. Qed.

Lemma performs_Must s c l : performs s c l → performs s (Must c) l.
Proof. unfold performs, Must, st_catch. by destruct (c s) as [[a|e|m] s1]. Qed.

(** The watcher a directory gives, and the options with it. *)
Definition watcher_of (path name key : string) : option CertWatcher :=
  if bool_decide (0 < String.length path)
  then Some (mkCertWatcher (Join [path; name]) (Join [path; key])) else None.

Definition watcher_calls (w : option CertWatcher) : list Call :=
  match w with Some w => [NewCertWatcher (cw_certPath w) (cw_keyPath w)] | None => [] end.

Definition options_with (w : option CertWatcher) (opts : slice) (h : arrays TLSOpt) : slice * arrays TLSOpt :=
  match w with Some w => append opts (setGetCertificate w) h | None => (opts, h) end.

Lemma with_watcher_performs msg path name key opts s :
  performs s (with_watcher msg path name key opts) (watcher_calls (watcher_of path name key)).
Proof.
  unfold with_watcher, watcher_of. case_bool_decide; [|apply performs_ret]. simpl.
  rewrite <-(app_nil_r [_]). apply performs_bind.
  - apply performs_or_exit. unfold certwatcher_New. rewrite <-(app_nil_r [_]).
    apply performs_then; [apply performs_call|]. intros ?. apply performs_ret.
  - intros w s' _. rewrite <-(app_nil_r []). apply performs_bind; [apply performs_append|].
    intros ? ? _. apply performs_ret.
Qed.

Lemma with_watcher_ok msg path name key opts s w o s' :
  with_watcher msg path name key opts s = (Ok (w, o), s') →
  w = watcher_of path name key ∧
  (o, ms_arrays s') = options_with (watcher_of path name key) opts (ms_arrays s).
Proof.
  unfold with_watcher, watcher_of. case_bool_decide; [|by intros [[= -> ->] ->]%st_ret_inv].
  unfold or_exit, certwatcher_New, call, append_opt, st_bind, st_catch, st_ret. simpl.
  destruct (refuses (ms_calls s) _); simpl; [done|].
  destruct (append _ _ _) as [t h]. by intros [= <- <- <-].
Qed.

(** The options main makes, as a function of the flags. *)
Definition base_options (flags : Flags) : slice * arrays TLSOpt :=
  let '(t, h) := append nil_slice setMinVersion [] in
  if negb (fl_enableHTTP2 flags) then append t disableHTTP2 h else (t, h).

Definition webhook_watcher (flags : Flags) : option CertWatcher :=
  watcher_of (fl_webhookCertPath flags) (fl_webhookCertName flags) (fl_webhookCertKey flags).
Definition metrics_watcher (flags : Flags) : option CertWatcher :=
  watcher_of (fl_metricsCertPath flags) (fl_metricsCertName flags) (fl_metricsCertKey flags).

(** The webhook server's options, the metrics server's, and the arrays. *)
Definition tls_options (flags : Flags) : slice * slice * arrays TLSOpt :=
  let '(t, h) := base_options flags in
  let '(w, h) := options_with (webhook_watcher flags) t h in
  let '(m, h) := options_with (metrics_watcher flags) t h in
  (w, m, h).

Definition manager_options (flags : Flags) : ManagerOptions :=
  let '(w, m, _) := tls_options flags in
  mkManagerOptions
    (mkMetricsOptions (fl_metricsAddr flags) (fl_secureMetrics flags) m (fl_secureMetrics flags))
    (mkWebhookOptions (fl_webhookPort flags) w) (fl_probeAddr flags) (fl_pprofBindAddress flags)
    (fl_enableLeaderElection flags) "dedc2245.openstack.org".

Definition runnable_calls (w : option CertWatcher) : list Call :=
  match w with Some w => [AddRunnable w] | None => [] end.

(** The calls of an undisturbed start, in order. *)
Definition plan (Getenv : string → string) (flags : Flags) : list Call :=
  [AddToScheme "clientgoscheme"; AddToScheme "metal3v1"; AddToScheme "baremetalv1beta1"] ++
  watcher_calls (webhook_watcher flags) ++
  watcher_calls (metrics_watcher flags) ++
  [GetConfigOrDie; NewManager (manager_options flags); GetConfig; NewForConfig;
   CompleteController (mkController "OpenStackProvisionServer"
     ["Deployment"; "ConfigMap"; "ServiceAccount"; "Role"; "RoleBinding"] []);
   CompleteController (mkController "OpenStackBaremetalSet" ["OpenStackProvisionServer"] ["BareMetalHost"])] ++
  (if webhooks_enabled Getenv
   then [CompleteWebhook "OpenStackBaremetalSet"; CompleteWebhook "OpenStackProvisionServer"] else []) ++
  runnable_calls (metrics_watcher flags) ++
  runnable_calls (webhook_watcher flags) ++
  (let checker := if webhooks_enabled Getenv then WebhookStarted else Ping in
   [AddHealthzCheck "healthz" checker; AddReadyzCheck "readyz" checker; Start]).

Lemma call_ok c s u s' : call c s = (Ok u, s') → ms_arrays s' = ms_arrays s.
Proof. unfold call. by intros [= _ <-]. Qed.

Lemma Must_ok c s u s' : Must c s = (Ok u, s') ↔ c s = (Ok u, s').
Proof. unfold Must, st_catch. by destruct (c s) as [[?|?|?] ?]. Qed.

Lemma or_exit_ok {A} msg (c : st mstate A) s a s' : or_exit msg c s = (Ok a, s') ↔ c s = (Ok a, s').
Proof. unfold or_exit, st_catch. by destruct (c s) as [[?|?|?] ?]. Qed.

Lemma init_performs s :
  performs s init [AddToScheme "clientgoscheme"; AddToScheme "metal3v1"; AddToScheme "baremetalv1beta1"].
Proof.
  change (performs s init ([AddToScheme "clientgoscheme"] ++ [AddToScheme "metal3v1"] ++ [AddToScheme "baremetalv1beta1"])).
  apply performs_then; [apply performs_Must, performs_call|]. intros s1.
  apply performs_then; [apply performs_Must, performs_call|]. intros s2. apply performs_Must, performs_call.
Qed.

Lemma init_ok s u s' : init s = (Ok u, s') → ms_arrays s' = ms_arrays s.
Proof.
  intros (? & s1 & H1%Must_ok%call_ok & (? & s2 & H2%Must_ok%call_ok & H3%Must_ok%call_ok)%st_bind_ok)%st_bind_ok.
  congruence.
Qed.

Lemma append_opt_ok opts o s t s' :
  append_opt opts o s = (Ok t, s') → (t, ms_arrays s') = append opts o (ms_arrays s).
Proof. unfold append_opt. destruct (append _ _ _) as [t' h]. by intros [= <- <-]. Qed.

Lemma runnable_performs msg s (w : option CertWatcher) :
  performs s (match w with Some w => or_exit msg (call (AddRunnable w)) | None => st_ret tt end) (runnable_calls w).
Proof. destruct w; [apply performs_or_exit, performs_call|apply performs_ret]. Qed.

(** The two base options, made without a call. *)
Lemma base_performs flags {B} s (f : slice → st mstate B) l :
  ms_arrays s = [] →
  (∀ t s', (t, ms_arrays s') = base_options flags → performs s' (f t) l) →
  performs s (let! tlsOpts := append_opt nil_slice setMinVersion in
    let! tlsOpts := (if negb (fl_enableHTTP2 flags) then append_opt tlsOpts disableHTTP2 else st_ret tlsOpts) in
    f tlsOpts) l.
Proof.
  intros Hs Hf. apply (performs_bind _ _ _ [] l); [apply performs_append|]. intros t s1 Ht%append_opt_ok.
  rewrite Hs in Ht. apply (performs_bind _ _ _ [] l).
  - destruct (negb _); [apply performs_append|apply performs_ret].
  - intros t' s2 Ht'. apply Hf. unfold base_options. rewrite <-Ht.
    destruct (negb _); [by apply append_opt_ok in Ht'|by apply st_ret_inv in Ht' as [-> ->]].
Qed.

(** Main makes the calls of the plan, up to the first that is refused. *)
Lemma main_performs Getenv GetEnvVar flags :
  performs mstate_init (main Getenv GetEnvVar flags) (plan Getenv flags).
Proof.
  unfold main, runManager, plan. apply performs_bind; [apply init_performs|]. intros _ s0 H0%init_ok.
  apply base_performs; [done|]. intros t s1 Hbase.
  apply performs_bind; [apply with_watcher_performs|]. intros [wh wslice] s2 [-> Hw]%with_watcher_ok.
  apply performs_bind; [apply with_watcher_performs|]. intros [mt mslice] s3 [-> Hm]%with_watcher_ok.
  fold (webhook_watcher flags) in *. fold (metrics_watcher flags) in *. cbv zeta.
  assert (Hopts : manager_options flags = mkManagerOptions
    (mkMetricsOptions (fl_metricsAddr flags) (fl_secureMetrics flags) mslice (fl_secureMetrics flags))
    (mkWebhookOptions (fl_webhookPort flags) wslice) (fl_probeAddr flags) (fl_pprofBindAddress flags)
    (fl_enableLeaderElection flags) "dedc2245.openstack.org").
  { unfold manager_options, tls_options. by rewrite <-Hbase, <-Hw, <-Hm. }
  rewrite <-Hopts. clear.
  apply (performs_then s3 _ _ [GetConfigOrDie]); [apply performs_call|]. intros s4.
  apply (performs_then s4 _ _ [NewManager _]); [apply performs_or_exit, performs_call|]. intros s5.
  apply (performs_then s5 _ _ [GetConfig]); [apply performs_or_exit, performs_call|]. intros s6.
  apply (performs_then s6 _ _ [NewForConfig]); [apply performs_or_exit, performs_call|]. intros s7.
  apply (performs_then s7 _ _ [CompleteController _]); [apply performs_or_exit, performs_call|]. intros s8.
  apply (performs_then s8 _ _ [CompleteController _]); [apply performs_or_exit, performs_call|]. intros s9.
  apply (performs_then s9 _ _ []); [by apply performs_modify|]. intros s10.
  apply performs_bind.
  { destruct (webhooks_enabled Getenv); [|apply performs_ret].
    apply (performs_then _ _ _ [CompleteWebhook _]); [apply performs_or_exit, performs_call|]. intros s'.
    apply (performs_then _ _ _ [CompleteWebhook _] []); [apply performs_or_exit, performs_call|]. intros s''.
    apply performs_ret. }
  intros checker s11 Hch.
  assert (checker = if webhooks_enabled Getenv then WebhookStarted else Ping) as ->.
  { destruct (webhooks_enabled Getenv); [|by apply st_ret_inv in Hch as [-> _]].
    apply st_bind_ok in Hch as (? & ? & _ & Hch). by apply st_bind_ok in Hch as (? & ? & _ & [-> _]%st_ret_inv). }
  apply performs_then; [apply runnable_performs|]. intros s12.
  apply performs_then; [apply runnable_performs|]. intros s13. cbv zeta.
  apply (performs_then _ _ _ [AddHealthzCheck _ _]); [apply performs_or_exit, performs_call|]. intros s14.
  apply (performs_then _ _ _ [AddReadyzCheck _ _]); [apply performs_or_exit, performs_call|]. intros s15.
  apply performs_or_exit, performs_call.
Qed.

(** What a run of main leaves: a part of the plan, all of it after a success. *)
Lemma main_calls Getenv GetEnvVar flags o s :
  main Getenv GetEnvVar flags mstate_init = (o, s) →
  ∃ rest, plan Getenv flags = ms_calls s ++ rest ∧ (o = Ok tt → rest = []) ∧
  ∀ pre c post, ms_calls s = pre ++ c :: post → is_Some (refuses pre c) → post = [] ∧ o ≠ Ok tt.
Proof.
  intros Hr. destruct (main_performs Getenv GetEnvVar flags) as [Hc Ho]. rewrite Hr in Hc, Ho.
  cbn [fst snd] in Hc, Ho. change (ms_calls mstate_init) with (@nil Call) in *.
  destruct (perform_prefix [] (plan Getenv flags)) as (done & rest & Hd & Hp & Hok & Hlast).
  rewrite Hd in Hc. change ([] ++ done) with done in Hc. subst done. exists rest. split_and!; [done| |].
  - intros ->. apply Hok. by rewrite <-Ho.
  - intros pre c post Heq Hs. destruct (Hlast pre c post Heq Hs) as [-> Hf]. split; [done|].
    intros ->. by rewrite Hf in Ho.
Qed.

Lemma manager_in_plan Getenv flags : NewManager (manager_options flags) ∈ plan Getenv flags.
Proof. unfold plan. rewrite !elem_of_app. right; right; right; left. right. left. Qed.

#[export] Instance keeps_call c : Keeps ms_arrays (call c).
Proof. done. Qed.
#[export] Instance keeps_or_exit {A} msg (c : st mstate A) : Keeps ms_arrays c → Keeps ms_arrays (or_exit msg c).
Proof. intros ?. unfold or_exit. apply _. Qed.

(** Once the options are made the arrays stay. *)
Lemma main_arrays Getenv GetEnvVar flags s :
  main Getenv GetEnvVar flags mstate_init = (Ok tt, s) → ms_arrays s = (tls_options flags).2.
Proof.
  unfold main, runManager. intros (u & s0 & Hinit%init_ok & Hr)%st_bind_ok.
  apply st_bind_ok in Hr as (t & s1 & Ht%append_opt_ok & Hr).
  apply st_bind_ok in Hr as (t' & s1' & Ht' & Hr).
  assert (Hbase : (t', ms_arrays s1') = base_options flags).
  { unfold base_options. rewrite Hinit in Ht. simpl in Ht. rewrite <-Ht.
    destruct (negb _); [by apply append_opt_ok in Ht'|by apply st_ret_inv in Ht' as [-> ->]]. }
  apply st_bind_ok in Hr as ([wh wslice] & s2 & [-> Hw]%with_watcher_ok & Hr).
  apply st_bind_ok in Hr as ([mt mslice] & s3 & [-> Hm]%with_watcher_ok & Hr). cbv zeta in Hr.
  fold (webhook_watcher flags) in *. fold (metrics_watcher flags) in *.
  assert (Harr : ms_arrays s3 = (tls_options flags).2) by (unfold tls_options; by rewrite <-Hbase, <-Hw, <-Hm).
  rewrite <-Harr. clear - Hr.
  match type of Hr with ?c s3 = _ => assert (Hk : Keeps ms_arrays c) end.
  { repeat (apply keeps_bind; [unfold ps_SetupWithManager, set_SetupWithManager,
      SetupOpenStackBaremetalSetWebhookWithManager, SetupOpenStackProvisionServerWebhookWithManager;
      apply _ || (intros ?; done)|intros ?]). apply _. }
  specialize (Hk s3). rewrite Hr in Hk. exact Hk.
Qed.

(** The elements of the slices main makes, when a new array has no room to spare
    as long as the slices are that short. *)
Lemma options_with_elems w opts h t :
  slice_wf h opts → slice_wf h t → (sl_array t ≠ sl_array opts ∨ sl_len t ≤ sl_len opts ∨ sl_len opts = sl_cap opts) →
  elems (options_with w opts h).2 (options_with w opts h).1 =
    elems h opts ++ (match w with Some w => [setGetCertificate w] | None => [] end) ∧
  slice_wf (options_with w opts h).2 (options_with w opts h).1 ∧
  elems (options_with w opts h).2 t = elems h t ∧ slice_wf (options_with w opts h).2 t.
Proof.
  intros Ho Ht Hd. destruct w as [w|]; simpl; [|by rewrite app_nil_r].
  destruct (append opts (setGetCertificate w) h) as [s' h'] eqn:Ha. simpl.
  destruct (append_elems _ _ _ _ _ Ho Ha). by destruct (append_other _ _ _ _ _ _ Ho Ht Ha Hd).
Qed.

Lemma base_options_elems flags :
  grow 0 1 = 1 → grow 1 2 = 2 →
  let '(t, h) := base_options flags in
  slice_wf h t ∧ sl_len t = sl_cap t ∧
  elems h t = setMinVersion :: (if fl_enableHTTP2 flags then [] else [disableHTTP2]).
Proof.
  intros H0 H1. unfold base_options, append. simpl. rewrite H0. destruct (fl_enableHTTP2 flags); simpl.
  - split; [|done]. split; simpl; [lia|right; lia|]. unfold array_of. simpl. lia.
  - rewrite H1. split; [|done]. split; simpl; [lia|right; lia|]. unfold array_of. simpl. lia.
Qed.

End performs.

(** ** Properties *)

(** C33: for any behaviour of the libraries, the start makes the calls of the plan
    one after the other; it succeeds exactly when all of them are made and none is
    refused; and the first call that is refused is the last one made: in particular
    the manager is never started after a failure. *)
Theorem main_stops_at_refusal `{Libraries} `{AppendGrowth} Getenv GetEnvVar flags o s :
  main Getenv GetEnvVar flags mstate_init = (o, s) →
  ms_calls s `prefix_of` plan Getenv flags ∧
  (o = Ok tt → ms_calls s = plan Getenv flags) ∧
  ∀ pre c post, ms_calls s = pre ++ c :: post → is_Some (refuses pre c) → post = [] ∧ o ≠ Ok tt.
Proof.
  intros (rest & Hp & Hok & Hlast)%main_calls. split_and!; [by eexists| |done].
  intros Ho. by rewrite Hp, Hok, app_nil_r.
Qed.

(** The API server cannot be asked for a client. *)
Definition no_client : Libraries := λ _ c,
  match c with NewForConfig => Some (Errorf "no client") | _ => None end.

Lemma main_stops_at_refusal_witness :
  Start ∉ ms_calls (main (H := no_client) (λ _, "") (λ _ d, d) defaultFlags mstate_init).2.
Proof.
  destruct (main (H := no_client) (λ _, "") (λ _ d, d) defaultFlags mstate_init) as [o s] eqn:Hr.
  destruct (main_stops_at_refusal (H := no_client) (λ _, "") (λ _ d, d) defaultFlags o s Hr) as (Hp & _ & Hlast).
  simpl. intros Hin. destruct Hp as [rest Hp].
  assert (Hs : ms_calls s = [AddToScheme "clientgoscheme"; AddToScheme "metal3v1"; AddToScheme "baremetalv1beta1";
    GetConfigOrDie; NewManager (manager_options defaultFlags); GetConfig; NewForConfig]).
  { vm_compute in Hr. injection Hr as _ <-. vm_compute. reflexivity. }
  rewrite Hs in Hin. repeat (apply elem_of_cons in Hin as [?|Hin]; [done|]). by apply not_elem_of_nil in Hin.
Defined.

(** With the growth of the Go runtime, once the manager runs, each of the two
    servers asks for TLS 1.3, offers HTTP/1.1 only unless HTTP/2 was enabled, and
    serves the certificate of its own directory when one was given. *)
Theorem main_tls `{Libraries} Getenv GetEnvVar flags s c :
  main (H0 := gc_growth) Getenv GetEnvVar flags mstate_init = (Ok tt, s) →
  ∃ opts, NewManager opts ∈ ms_calls s ∧
    tls_config s (wo_TLSOpts (mgo_WebhookServer opts)) c =
      mkTLSConfig VersionTLS13 (if fl_enableHTTP2 flags then tls_NextProtos c else ["http/1.1"])
        (match webhook_watcher flags with Some w => Some w | None => tls_GetCertificate c end) ∧
    tls_config s (mo_TLSOpts (mgo_Metrics opts)) c =
      mkTLSConfig VersionTLS13 (if fl_enableHTTP2 flags then tls_NextProtos c else ["http/1.1"])
        (match metrics_watcher flags with Some w => Some w | None => tls_GetCertificate c end).
Proof.
  intros Hr. pose proof (main_arrays (Hgrow := gc_growth) _ _ _ _ Hr) as Harr.
  apply (main_calls (Hgrow := gc_growth)) in Hr as (rest & Hp & Hok & _). rewrite Hok, app_nil_r in Hp by done.
  exists (manager_options (Hgrow := gc_growth) flags). split; [rewrite <-Hp; apply manager_in_plan|].
  unfold tls_config. rewrite Harr. unfold manager_options, tls_options.
  pose proof (base_options_elems (Hgrow := gc_growth) flags eq_refl eq_refl) as Hb.
  destruct (base_options flags) as [t h]. destruct Hb as (Hwf & Hfull & He).
  destruct (options_with_elems (webhook_watcher flags) t h t Hwf Hwf) as (Hwe & Hww & Hte & Htw);
    [by right; right|].
  destruct (options_with (webhook_watcher flags) t h) as [ws hw]. simpl in Hwe, Hww, Hte, Htw.
  destruct (options_with_elems (metrics_watcher flags) t hw ws Htw Hww) as (Hme & _ & Hwe' & _);
    [by right; right|].
  destruct (options_with (metrics_watcher flags) t hw) as [ms hm]. simpl in *.
  rewrite Hwe', Hwe, Hme, Hte, He.
  split; destruct (fl_enableHTTP2 flags); [destruct (webhook_watcher flags)..|destruct (metrics_watcher flags)|
    destruct (metrics_watcher flags)]; reflexivity.
Qed.

Definition cert_flags : Flags :=
  mkFlags ":8443" "/metrics-certs" "tls.crt" "tls.key" "/webhook-certs" "tls.crt" "tls.key" true ":8081" true "" 9443 false.
Definition no_refusal : Libraries := λ _ _, None.

Lemma main_tls_witness :
  ∃ opts s, main (H := no_refusal) (H0 := gc_growth) (λ _, "") (λ _ d, d) cert_flags mstate_init = (Ok tt, s) ∧
    NewManager opts ∈ ms_calls s ∧
    tls_config s (wo_TLSOpts (mgo_WebhookServer opts)) (mkTLSConfig 0 ["h2"] None) =
      mkTLSConfig 772 ["http/1.1"] (Some (mkCertWatcher "/webhook-certs/tls.crt" "/webhook-certs/tls.key")).
Proof.
  assert (Hr : ∃ s, main (H := no_refusal) (H0 := gc_growth) (λ _, "") (λ _ d, d) cert_flags mstate_init = (Ok tt, s))
    by (eexists; vm_compute; reflexivity).
  destruct Hr as [s Hr].
  destruct (main_tls (H := no_refusal) _ _ _ s (mkTLSConfig 0 ["h2"] None) Hr) as (opts & Hin & Hw & _).
  exists opts, s. split; [exact Hr|]. split; [exact Hin|exact Hw].
Defined.

(** The separation depends on the runtime: where a new array is given room to
    spare, the two servers share one, and a webhook server with a certificate of
    its own serves that of the metrics server when both are given. *)
Theorem main_tls_shared `{Libraries} Getenv GetEnvVar flags s c wm :
  main (H0 := roomy_growth) Getenv GetEnvVar flags mstate_init = (Ok tt, s) →
  is_Some (webhook_watcher flags) → metrics_watcher flags = Some wm →
  ∃ opts, NewManager opts ∈ ms_calls s ∧
    tls_GetCertificate (tls_config s (wo_TLSOpts (mgo_WebhookServer opts)) c) = Some wm.
Proof.
  intros Hr [ww Hw] Hm. pose proof (main_arrays (Hgrow := roomy_growth) _ _ _ _ Hr) as Harr.
  apply (main_calls (Hgrow := roomy_growth)) in Hr as (rest & Hp & Hok & _). rewrite Hok, app_nil_r in Hp by done.
  exists (manager_options (Hgrow := roomy_growth) flags). split; [rewrite <-Hp; apply manager_in_plan|].
  unfold tls_config. rewrite Harr. unfold manager_options, tls_options, base_options. rewrite Hw, Hm.
  by destruct (fl_enableHTTP2 flags).
Qed.
